(* ===== verification/_CoqProject ===== *)
-Q . S2P
Prelude.v
Machine.v
Tty.v
Screen.v
Memory.v
Boot.v
Cstring.v
Bitmap.v
Multiboot.v
Pmm.v
Paging.v
Kmalloc.v
HeapOps.v
Ctype.v
Keyboard.v
Preempt.v
Gdt.v
Interrupt.v
Pic.v
Vmm.v
Grow.v
Userspace.v
Process.v
Task.v
Kshell.v
Kernel.v
Schedule.v
Create.v
Interleave.v
Startup.v
Session.v
