(* ===== verification/Prelude.v ===== *)
(** * AOSIS: a verification development of the kernel

    AOSIS is a small i386 kernel: a multiboot entry in assembly, a physical
    and a virtual page allocator, a heap, interrupts, a timer with a
    round-robin scheduler, a keyboard driver, a VGA terminal and a console.
    This library translates its C and assembly code into Rocq functions over
    one record, the machine, and proves what the parts promise, alone and
    together.

    ** How the program is modelled

    A C function is a program of type [M A = machine -> outcome]: [Done a m]
    when it returns, [Stop e m] when control never comes back to its caller:
    a panic, an endless loop, a page fault, an access outside an array, other
    undefined behaviour, or an [iret] that resumes another context.  Static
    objects are fields of the record (Machine.v); whatever the code reaches
    through a pointer (page tables, heap headers, page descriptors, task
    structures, stacks, frames) is in physical memory, behind the address
    translation of the i386 (Memory.v).  Words are integers in [0, 2^32),
    wrapped by [u32] wherever C wraps; character arithmetic and struct fields
    have their own widths.  Names follow the source.

    Two interfaces separate the parts.  The class [Layout] stands for the
    addresses the linker and the assembler choose.  The class [Region] is what
    code that stores through pointers assumes of memory: a set of addresses
    whose bytes are independent.  It is implemented by memory with paging off,
    by the kernel's 4 MiB window less its own tables, by the window with the
    page directory in it, and by the window while a page of it is remapped and
    after that (Grow.v).

    ** The files

    - Prelude.v: words, the macros of common_macros.h, pmm.h, memory.h and
      paging.h, the state-and-stop monad, its loop rules, hints and tactics.
    - Machine.v: the machine; kernel/common/ports.c and cpu.c.
    - Tty.v: kernel/terminal/tty.c, vga.c, and panic of kernel/kernel.c, with
      the screen as a pure function ([screen_putc] and its like).  Screen.v:
      libc/stdio, and any sequence of calls on the terminal.
    - Memory.v: physical memory, address translation, loads and stores, the
      interface [Region] and its implementations.
    - Boot.v: the multiboot header and the first half of kernel/boot/boot.asm.
    - Cstring.v: libc/string/*.c.  Ctype.v: libc/ctype/*.c.
    - Multiboot.v: the structures of multiboot.h the kernel is passed, as
      records read off memory, and the loads that reach their fields.
    - Bitmap.v, Pmm.v: kernel/memory/pmm.c, with the free frames as a set and
      the pool [pmm_init] lays out.
    - Paging.v: kernel/memory/paging.c.  Userspace.v: the two functions of it
      that take pages from vmm.c, and what [paging_add_temp_userspace] maps.
      Process.v: what [paging_create_userspace] maps.
    - Kmalloc.v: kernel/memory/kmalloc.c, refining a list of free blocks.
      HeapOps.v: sequences of allocations, frees, reads and writes, as a client
      of the heap sees them.
    - Vmm.v: kernel/memory/vmm.c, tied to kmalloc: the two call each other.
      Grow.v: the call of [vmm_alloc_page] that adds a block, through heap,
      pool, page table and directory.
    - Gdt.v: kernel/memory/gdt.c, descriptors as records of bit-fields and as
      the eight bytes the CPU reads.
    - Interrupt.v: kernel/interrupt/interrupt.c.  Pic.v: pic.c.
    - Keyboard.v: kernel/interrupt/keyboard.c and keyboard_lut.h, with the
      ring refining a queue.  Preempt.v: [kb_get_key] with keyboard interrupts
      between its accesses.
    - Task.v: kernel/task/task.c, scheduler.c and task_switch.asm.
    - Kshell.v: kernel/terminal/kshell.c, refining a line editor.
    - Kernel.v: init_idt.asm (interrupt entry and return), init_gdt.asm, the
      call through the handler table, kmain, the second half of boot.asm.
    - Schedule.v: the ring of tasks, one tick, and executions of many ticks.
    - Create.v: the creation of tasks as a step from one ring to the next, and
      the ring [kmain] builds.
    - Interleave.v: executions with ticks and key presses in any order.
    - Startup.v: the run of [boot] from the loader to the console, stage by
      stage, each a lemma with a record of what it leaves ([entered],
      [set_up], [map_ready], [heap_ready], [memory_ready], [tasks_ready],
      [booted_kernel]), and what follows for the first ticks.
    - Session.v: executions in which the console and [task_test] run their own
      code between ticks and key presses, against a world that knows only the
      line, the queue of keys, the screen and the tick count.

    ** What the theorems show

    - The whole: from every machine a loader can leave ([loaded], [image_ok])
      the kernel boots to its console, with the state [booted_kernel] says;
      every execution from there, key presses included, resumes the three
      tasks in turn; with a wrong magic number it panics and touches nothing.
      A session from there, in which the console and the tasks do their work
      in rounds and interrupts come between the rounds, shows on the screen
      what the pressed keys and the ticks say ([boot_session],
      [console_session]).
    - Allocators: [pmm_alloc_page] and [vmm_alloc_page] are first fit and
      change nothing else, frames handed out are distinct; kmalloc and kfree
      refine first fit and coalescing on an ordered list of disjoint blocks;
      as long as [kmalloc] cuts blocks, a client of the heap has a store, blocks
      of its own that keep what is written to them, and no fragmentation
      outlasts its blocks: once all are freed the list is what it was.  The
      first [kmalloc] that cuts nothing ends this, and what it does is stated.  When the first 4 MiB are used up to the
      reserve, [vmm_alloc_page] adds a block of 4 MiB more; the page of the
      new block's table is the next one it gives away.  Errors:
      the pool's upper limit, blocks handed out twice, growth that returns
      NULL, counts that leak; and pages that share frames with the pool: the
      user's stack is the frame of a kernel task's stack.  [pmm_init] lays out
      the pool the loader's map describes, but reserves the wrong frame for
      the boot module.
    - Address spaces: the boot tables, the kernel's window built by
      [paging_init], mapping a page, the temporary user space, a user space
      of its own, each stated as what the MMU then translates; table entries
      round-trip.
    - Devices: the terminal refines the abstract screen and stays well typed
      under any sequence of calls;
      [kprintf] prints the expansion of its format; the interrupt and segment
      tables are what the CPU needs; the keyboard's ring is a queue, and
      reading it is atomic for the interrupts that add to it, but for one
      place where a key is lost; from then on the ring is a queue that holds
      its last key back.
    - Interrupts and tasks: an interrupt saves and restores its context
      exactly; a timer tick is one step of a round-robin queue of contexts;
      the creation functions build the ring such ticks turn;
      executions of any length resume every task in turn, keep the ring
      intact, with any key presses in between, and never get stuck;
      exceptions, by contrast, cannot return.
    - Console: the loop refines a line editor; Enter runs the trimmed line.

    ** Bounds and fuel

    Loops of the source that have a bound are [for_range] or structural
    recursions.  Walks over linked lists ([kmalloc_search], [kfree_find],
    [vmm_find]) carry fuel; their theorems take any fuel of at least the
    length of the list and never speak of [OutOfFuel].  [strcmp] and [strlen]
    need one unit per character; the console gives them 1025 for its 1024
    bytes.  [vmm_alloc_page] and [kmalloc] are cut at a depth: two levels are
    enough, since the flag [allocating_new_block] stops the recursion
    (Vmm.v).  The endless loops of [kshell] and [task_test] are run for a
    given number of rounds; theorems hold for every number.

    ** Not modelled, and why

    - Segment registers other than the saved DS, the hidden descriptor caches,
      GDTR, IDTR and TR, the TLB: nothing the kernel computes depends on them.
      The interrupt stub loads ES, FS and GS and does not restore them; in the
      states of this system they come back as they were, the kernel's data
      segment in ring 0 and null in ring 3.  The checks the CPU makes on
      selectors are left out: where [isr_common_stub] pops the wrong words, the
      hardware may fault before it resumes what the model says.
    - The bytes the C calls push below a frame, and the kernel stack of
      [kmain]: locals are bound variables of the functions.  What an
      interrupt pushes is stored in memory.
    - Devices: port reads come from an arbitrary function of the earlier
      traffic; interrupts arrive when a theorem says so.  In particular the
      run of Startup.v takes none, although they are on from
      [interrupt_init]: until the handlers of the timer and the keyboard are
      installed, at its end, a request is only acknowledged and resumes what
      it interrupted ([unhandled_irq_resumes]).  In Session.v they arrive
      between the rounds of the console and of [task_test], as they do while
      the console waits in [halt]; inside a round, only [kb_get_key] has been
      given interrupt points (Preempt.v), and two tasks that print at once
      would mix their output on the screen.
    - [image_ok] and [loaded] are the assumptions of Startup.v: the image,
      its stack and its tables lie apart below 4 MiB; the loader's structures
      lie in low memory outside the tables; its map ends in a region with at
      least 32 pages behind the kernel; the module is page aligned and its
      offset within the bitmap's reach (else [pmm_init] writes outside it).
    - Tags, symbol tables, APM and VBE structures of multiboot.h: the kernel
      reads none of them.
    - The Rust experiment, the user program, the build files and the two test
      stubs in assembly: nothing calls them.

    ** Limits of the development

    Every function of the kernel's C code, and of the assembly it runs on, is
    a definition here.  What the theorems leave open is depth: key presses and
    ticks inside the rounds of the console and during the boot, a virtual
    address space of more than two blocks, and the round in which the console
    runs [exit], which never returns. *)

From stdpp Require Export base list gmap strings.
From Stdlib Require Export ZArith Lia ZifyBool.

(** ** 32-bit machine arithmetic

    The kernel is compiled for i686: [uint32_t], [size_t], pointers and
    [unsigned] are 32-bit words.  A word is a [Z] in [0, 2^32); every C
    operation that can leave that range is wrapped by [u32]. *)

Open Scope Z_scope.

Definition W32 : Z := 4294967296.

Definition u32 (x : Z) : Z := x mod W32.

Definition u16 (x : Z) : Z := x mod 65536.

Definition u8 (x : Z) : Z := x mod 256.

Declare Scope u32_scope.
Delimit Scope u32_scope with u32.
Notation "a [+] b" := (u32 (a + b)) (at level 50, left associativity) : u32_scope.
Notation "a [-] b" := (u32 (a - b)) (at level 50, left associativity) : u32_scope.
Notation "a [*] b" := (u32 (a * b)) (at level 40, left associativity) : u32_scope.
Open Scope u32_scope.

(** A value that fits in 32 bits. *)
Definition word (x : Z) : Prop := 0 <= x < W32.

#[export] Instance word_dec x : Decision (word x).
Proof. unfold word. apply _. Defined.

(** ** common_macros.h *)

Definition CHECK_BIT_SET (num index : Z) : bool :=
  negb (Z.land num (u32 (Z.shiftl 1 index)) =? 0).

Definition SET_BIT (num index : Z) : Z :=
  Z.lor num (u32 (Z.shiftl 1 index)).

(** [~] is taken at 32 bits. *)
Definition CLEAR_BIT (num index : Z) : Z :=
  Z.land num (u32 (Z.lnot (u32 (Z.shiftl 1 index)))).

(** ** pmm.h, memory.h, paging.h: the page constants and address macros *)

Definition PAGE_SIZE : Z := 4096.

Definition PAGE_ALIGN (x : Z) : Z := Z.land x 4294963200.

Definition PAGE_INCREMENT (x : Z) : Z := x [+] PAGE_SIZE.

Definition PAGE_DECREMENT (x : Z) : Z := x [-] PAGE_SIZE.

Definition KERNEL_PHYS_BASE : Z := 1048576.

(** [kernel_base_addr_virt] is the linker symbol of kernel/linker.ld. *)
Definition KERNEL_VIRT_BASE : Z := 3221225472.

Definition P2V_ADDR (x : Z) : Z := x [+] KERNEL_VIRT_BASE.

Definition V2P_ADDR (x : Z) : Z := x [-] KERNEL_VIRT_BASE.

Definition PAGE_TABLE_INDICES : Z := 1024.

Definition PAGE_TABLE_RANGE : Z := PAGE_TABLE_INDICES [*] PAGE_SIZE.

Definition PAGE_DIRECTORY_INDEX (addr : Z) : Z :=
  Z.land (Z.shiftr addr 22) 1023.

Definition PAGE_TABLE_INDEX (addr : Z) : Z :=
  Z.land (Z.shiftr addr 12) 1023.

(** ** Computations that can stop

    A C function is a state transformer.  [Done a s]: it returned [a] in
    state [s].  [Stop e s]: control never came back to the caller, for the
    reason [e], and the machine was in state [s] at that point. *)

Inductive outcome (E S A : Type) : Type :=
| Done (a : A) (s : S)
| Stop (e : E) (s : S).
Arguments Done {E S A} a s.
Arguments Stop {E S A} e s.

Definition prog (E S A : Type) : Type := S → outcome E S A.

#[export] Instance prog_ret E S : MRet (prog E S) := λ A a s, Done a s.

#[export] Instance prog_bind E S : MBind (prog E S) := λ A B k e s,
  match e s with
  | Done a s' => k a s'
  | Stop w s' => Stop w s'
  end.

Section Prog.
Context {E S : Type}.

Definition fetch : prog E S S := λ s, Done s s.

Definition gets {A} (f : S → A) : prog E S A := λ s, Done (f s) s.

Definition modify (f : S → S) : prog E S unit := λ s, Done tt (f s).

Definition halt_with {A} (e : E) : prog E S A := λ s, Stop e s.

Definition when (b : bool) (e : prog E S unit) : prog E S unit :=
  if b then e else mret tt.

(** [for (i = first; i < first + n; i++) body(i)] *)
Fixpoint for_range (n : nat) (first : Z) (body : Z → prog E S unit)
  : prog E S unit :=
  match n with
  | O => mret tt
  | Datatypes.S n' => body first;; for_range n' (first + 1) body
  end.

(** Did the computation return, in a state satisfying [Q]? *)
Definition returns {A} (e : prog E S A) (s : S) (Q : A → S → Prop) : Prop :=
  match e s with
  | Done a s' => Q a s'
  | Stop _ _ => False
  end.

Lemma bind_done {A B} (e : prog E S A) (k : A → prog E S B) s a s' :
  e s = Done a s' → (e ≫= k) s = k a s'.
Proof. intros H. unfold mbind, prog_bind. by rewrite H. Qed.

Lemma bind_stop {A B} (e : prog E S A) (k : A → prog E S B) s w s' :
  e s = Stop w s' → (e ≫= k) s = Stop w s'.
Proof. intros H. unfold mbind, prog_bind. by rewrite H. Qed.

Lemma bind_assoc {A B C} (e : prog E S A) (k : A → prog E S B)
    (k' : B → prog E S C) s :
  ((e ≫= k) ≫= k') s = (e ≫= (λ a, k a ≫= k')) s.
Proof. unfold mbind, prog_bind. by destruct (e s). Qed.

Lemma bind_gets {A B} (f : S → A) (k : A → prog E S B) s :
  (gets f ≫= k) s = k (f s) s.
Proof. reflexivity. Qed.

Lemma bind_modify {B} (f : S → S) (k : unit → prog E S B) s :
  (modify f ≫= k) s = k tt (f s).
Proof. reflexivity. Qed.

Lemma bind_ret {A B} (a : A) (k : A → prog E S B) s :
  ((mret a : prog E S A) ≫= k) s = k a s.
Proof. reflexivity. Qed.

Lemma returns_bind {A B} (e : prog E S A) (k : A → prog E S B) s Q :
  returns (e ≫= k) s Q ↔ returns e s (λ a s', returns (k a) s' Q).
Proof. unfold returns, mbind, prog_bind. by destruct (e s). Qed.

Lemma returns_mono {A} (e : prog E S A) s (P Q : A → S → Prop) :
  returns e s P → (∀ a s', P a s' → Q a s') → returns e s Q.
Proof. unfold returns. destruct (e s); auto. Qed.

Lemma returns_done {A} (e : prog E S A) s Q :
  returns e s Q ↔ ∃ a s', e s = Done a s' ∧ Q a s'.
Proof.
  unfold returns. destruct (e s) as [a s'|w s']; split.
  - eauto.
  - by intros (? & ? & [= <- <-] & ?).
  - done.
  - by intros (? & ? & ? & ?).
Qed.

(** The loop rule: an invariant of [for_range] indexed by the counter. *)
Lemma for_range_inv n first body (I : Z → S → Prop) s :
  I first s →
  (∀ i s, first ≤ i < first + Z.of_nat n → I i s →
     returns (body i) s (λ _ s', I (i + 1) s')) →
  returns (for_range n first body) s (λ _ s', I (first + Z.of_nat n) s').
Proof.
  revert first s. induction n as [|n IH]; intros first s H0 Hb; simpl.
  - unfold returns. simpl. by rewrite Z.add_0_r.
  - apply returns_bind. eapply returns_mono; [apply Hb; [lia|done]|].
    intros [] s' HI.
    assert (first + Z.of_nat (Datatypes.S n) = (first + 1) + Z.of_nat n) as Eq by lia.
    change (Z.pos (Pos.of_succ_nat n)) with (Z.of_nat (Datatypes.S n)). rewrite Eq.
    apply IH; [done|]. intros i s'' Hi. apply Hb. lia.
Qed.

Lemma for_range_inv0 n body (I : Z → S → Prop) s :
  I 0 s →
  (∀ i s, 0 ≤ i < Z.of_nat n → I i s →
     returns (body i) s (λ _ s', I (i + 1) s')) →
  returns (for_range n 0 body) s (λ _ s', I (Z.of_nat n) s').
Proof. intros H0 Hb. apply (for_range_inv n 0 body I s H0). apply Hb. Qed.

Lemma for_range_ext n first (body body' : Z → prog E S unit) s :
  (∀ i s, first ≤ i < first + Z.of_nat n → body i s = body' i s) →
  for_range n first body s = for_range n first body' s.
Proof.
  revert first s. induction n as [|n IH]; intros first s H; [done|]. simpl.
  unfold mbind, prog_bind. rewrite (H first) by lia.
  destruct (body' first s); [|done]. apply IH. intros i s' Hi. apply H. lia.
Qed.

(** A loop whose every state is known. *)
Lemma for_range_steps n first body (st : nat → S) :
  (∀ k, (k < n)%nat → body (first + Z.of_nat k) (st k) = Done tt (st (k + 1)%nat)) →
  for_range n first body (st 0%nat) = Done tt (st n).
Proof.
  revert first st. induction n as [|n IH]; intros first st H; [done|]. simpl.
  assert (body first (st 0%nat) = Done tt (st 1%nat)) as H0.
  { specialize (H 0%nat). rewrite Z.add_0_r in H. apply H. lia. }
  rewrite (bind_done _ _ _ _ _ H0). cbv beta.
  apply (IH (first + 1) (λ k, st (Datatypes.S k))). intros k Hk.
  replace (first + 1 + Z.of_nat k) with (first + Z.of_nat (Datatypes.S k)) by lia.
  apply H. lia.
Qed.
End Prog.

#[global] Typeclasses Opaque prog.

(** Run one statement of a program whose effect is known. *)
Ltac run H := first
  [ rewrite (bind_done _ _ _ _ _ H)
  | rewrite (bind_stop _ _ _ _ _ H) ]; cbv beta.

(** Reduce the administrative statements at the head of a program. *)
Ltac steps :=
  repeat first
    [ rewrite bind_assoc | rewrite bind_gets | rewrite bind_modify
    | rewrite bind_ret ]; cbv beta.

(** ** Arithmetic on words *)

(** [lia] with division and modulo eliminated first. *)
Ltac mlia := Z.to_euclidean_division_equations; lia.

Lemma W32_pos : 0 < W32.
Proof. reflexivity. Qed.

Lemma u32_word x : word (u32 x).
Proof. apply Z.mod_pos_bound, W32_pos. Qed.

Lemma u32_small x : word x → u32 x = x.
Proof. apply Z.mod_small. Qed.

Lemma u32_idem x : u32 (u32 x) = u32 x.
Proof. apply u32_small, u32_word. Qed.

Lemma u32_add_l x y : u32 (u32 x + y) = u32 (x + y).
Proof. unfold u32. by rewrite Zplus_mod_idemp_l. Qed.

Lemma u32_add_r x y : u32 (x + u32 y) = u32 (x + y).
Proof. unfold u32. by rewrite Zplus_mod_idemp_r. Qed.

Lemma u32_sub_l x y : u32 (u32 x - y) = u32 (x - y).
Proof. unfold u32. by rewrite Zminus_mod_idemp_l. Qed.

Lemma u32_land_ones x : u32 x = Z.land x (Z.ones 32).
Proof. rewrite Z.land_ones by lia. reflexivity. Qed.

Lemma u32_testbit x i :
  0 <= i → Z.testbit (u32 x) i = (i <? 32) && Z.testbit x i.
Proof.
  intros Hi. rewrite u32_land_ones, Z.land_spec.
  destruct (Z.ltb_spec i 32).
  - rewrite Z.ones_spec_low by lia. by rewrite andb_true_r.
  - rewrite Z.ones_spec_high by lia. by rewrite andb_false_r.
Qed.

Lemma word_testbit_high x i : word x → 32 <= i → Z.testbit x i = false.
Proof.
  intros Hx Hi. rewrite <- (u32_small x Hx), u32_testbit by lia.
  by destruct (Z.ltb_spec i 32); [lia|].
Qed.

(** Two words that agree on 32 bits are equal. *)
Lemma word_bits_eq x y :
  word x → word y → (∀ i, 0 <= i < 32 → Z.testbit x i = Z.testbit y i) → x = y.
Proof.
  intros Hx Hy H. apply Z.bits_inj'. intros i Hi.
  destruct (Z.lt_ge_cases i 32); [by apply H|].
  by rewrite !word_testbit_high.
Qed.

Lemma word_of_bits x :
  0 <= x → (∀ i, 32 <= i → Z.testbit x i = false) → word x.
Proof.
  intros H0 H. replace x with (u32 x); [apply u32_word|].
  apply Z.bits_inj'. intros i Hi. rewrite u32_testbit by done.
  destruct (Z.ltb_spec i 32); [done|]. by rewrite H.
Qed.

Lemma word_lor x y : word x → word y → word (Z.lor x y).
Proof.
  intros Hx Hy. apply word_of_bits.
  - apply Z.lor_nonneg. unfold word in *. lia.
  - intros i Hi. by rewrite Z.lor_spec, !word_testbit_high.
Qed.

Lemma word_land_l x y : word x → 0 <= y → word (Z.land x y).
Proof.
  intros Hx Hy. apply word_of_bits.
  - apply Z.land_nonneg. by right.
  - intros i Hi. by rewrite Z.land_spec, word_testbit_high.
Qed.

Lemma u32_shiftl_1_testbit i j :
  0 <= i < 32 → 0 <= j → Z.testbit (u32 (Z.shiftl 1 i)) j = (j =? i).
Proof.
  intros Hi Hj. rewrite u32_testbit by done.
  rewrite Z.shiftl_1_l, Z.pow2_bits_eqb by lia.
  destruct (Z.eqb_spec j i), (Z.eqb_spec i j), (Z.ltb_spec j 32);
    simpl; try done; lia.
Qed.

Lemma CHECK_BIT_SET_testbit n i :
  0 <= i < 32 → CHECK_BIT_SET n i = Z.testbit n i.
Proof.
  intros Hi. unfold CHECK_BIT_SET.
  destruct (Z.eqb_spec (Z.land n (u32 (Z.shiftl 1 i))) 0) as [H|H]; simpl.
  - apply (f_equal (λ x, Z.testbit x i)) in H. symmetry.
    rewrite Z.land_spec, u32_shiftl_1_testbit, Z.eqb_refl, Z.bits_0 in H by lia.
    by rewrite andb_true_r in H.
  - destruct (Z.testbit n i) eqn:Hb; [done|]. exfalso. apply H.
    apply Z.bits_inj'. intros j Hj.
    rewrite Z.land_spec, u32_shiftl_1_testbit, Z.bits_0 by lia.
    destruct (Z.eqb_spec j i) as [->|]; [by rewrite Hb|by rewrite andb_false_r].
Qed.

Lemma SET_BIT_testbit n i j :
  0 <= i < 32 → 0 <= j → Z.testbit (SET_BIT n i) j = (j =? i) || Z.testbit n j.
Proof.
  intros Hi Hj. unfold SET_BIT.
  rewrite Z.lor_spec, u32_shiftl_1_testbit by done. apply orb_comm.
Qed.

Lemma SET_BIT_word n i : word n → word (SET_BIT n i).
Proof. intros Hn. apply word_lor; [done|apply u32_word]. Qed.

Lemma CLEAR_BIT_testbit n i j :
  word n → 0 <= i < 32 → 0 <= j →
  Z.testbit (CLEAR_BIT n i) j = negb (j =? i) && Z.testbit n j.
Proof.
  intros Hn Hi Hj. unfold CLEAR_BIT. rewrite Z.land_spec, u32_testbit by done.
  rewrite Z.lnot_spec, u32_shiftl_1_testbit by done.
  destruct (Z.ltb_spec j 32); simpl; [by rewrite andb_comm|].
  rewrite word_testbit_high by done. by rewrite !andb_false_r.
Qed.

Lemma CLEAR_BIT_word n i : word n → word (CLEAR_BIT n i).
Proof. intros Hn. apply word_land_l; [done|]. apply u32_word. Qed.

(** [PAGE_ALIGN] rounds down to a page boundary. *)
Lemma PAGE_ALIGN_sub x : word x → PAGE_ALIGN x = x - x mod 4096.
Proof.
  intros Hx. replace (x - x mod 4096) with (Z.shiftl (Z.shiftr x 12) 12).
  - unfold PAGE_ALIGN. apply Z.bits_inj'. intros i Hi.
    rewrite Z.land_spec, Z.shiftl_spec by lia.
    change 4294963200 with (Z.shiftl (Z.ones 20) 12).
    rewrite Z.shiftl_spec by lia.
    destruct (Z.lt_ge_cases i 12).
    + rewrite !(Z.testbit_neg_r _ (i - 12)) by lia. by rewrite andb_false_r.
    + rewrite Z.shiftr_spec by lia. replace (i - 12 + 12) with i by lia.
      destruct (Z.lt_ge_cases i 32).
      * rewrite Z.ones_spec_low by lia. by rewrite andb_true_r.
      * rewrite word_testbit_high by done. done.
  - rewrite Z.shiftl_mul_pow2, Z.shiftr_div_pow2 by lia.
    change (2 ^ 12) with 4096. mlia.
Qed.

Lemma PAGE_ALIGN_word x : word x → word (PAGE_ALIGN x).
Proof. intros Hx. rewrite PAGE_ALIGN_sub by done. unfold word in *. mlia. Qed.

Lemma PAGE_ALIGN_id x : word x → x mod 4096 = 0 → PAGE_ALIGN x = x.
Proof. intros Hx H. rewrite PAGE_ALIGN_sub by done. lia. Qed.

Lemma PAGE_TABLE_INDEX_div x : word x → PAGE_TABLE_INDEX x = (x / 4096) mod 1024.
Proof.
  intros Hx. unfold PAGE_TABLE_INDEX. change 1023 with (Z.ones 10).
  rewrite Z.land_ones, Z.shiftr_div_pow2 by lia. reflexivity.
Qed.

Lemma PAGE_DIRECTORY_INDEX_div x : word x → PAGE_DIRECTORY_INDEX x = x / 4194304.
Proof.
  intros Hx. unfold PAGE_DIRECTORY_INDEX. change 1023 with (Z.ones 10).
  rewrite Z.land_ones, Z.shiftr_div_pow2 by lia.
  change (2 ^ 22) with 4194304. change (2 ^ 10) with 1024.
  apply Z.mod_small. unfold word, W32 in Hx. mlia.
Qed.

(** ** Bounded quantifiers by computation *)

#[export] Instance if_decision (b : bool) (P Q : Prop) `{!Decision P, !Decision Q} :
  Decision (if b then P else Q).
Proof. destruct b; apply _. Defined.

Definition all_below (n : Z) (P : Z → Prop) `{∀ i, Decision (P i)} : bool :=
  forallb (λ i, bool_decide (P i)) (seqZ 0 n).

Lemma all_below_spec n (P : Z → Prop) `{∀ i, Decision (P i)} :
  all_below n P = true → ∀ i, 0 <= i < n → P i.
Proof.
  unfold all_below. rewrite forallb_forall. intros Hall i Hi.
  eapply bool_decide_eq_true_1, Hall, list_elem_of_In, elem_of_seqZ. lia.
Qed.

(** ** Hints *)

Create HintDb words.
(** ** Bit-fields *)

(** Bit [i] of a word is the parity of its [i]-fold half. *)
Lemma b2z_testbit w i : 0 <= i → Z.b2z (Z.testbit w i) = w / 2 ^ i mod 2.
Proof. intros Hi. by rewrite <- Z.testbit_spec'. Qed.

Lemma testbit_b2z w i b : 0 <= i → w / 2 ^ i mod 2 = Z.b2z b → Z.testbit w i = b.
Proof. intros Hi H. rewrite <- b2z_testbit in H by done. by apply Z.b2z_inj. Qed.

Lemma b2z_range b : 0 <= Z.b2z b < 2.
Proof. by destruct b. Qed.

(** A word written bit by bit. *)
Lemma testbit_cons_0 b n : Z.testbit (2 * n + Z.b2z b) 0 = b.
Proof. apply Z.testbit_0_r. Qed.

Lemma testbit_cons_S b n i :
  0 < i → Z.testbit (2 * n + Z.b2z b) i = Z.testbit n (i - 1).
Proof.
  intros Hi. replace i with (Z.succ (i - 1)) at 1 by lia. apply Z.testbit_succ_r. lia.
Qed.

Ltac walk_bits := repeat match goal with
  | |- context [Z.testbit (2 * ?n + Z.b2z ?b) 0] => rewrite (testbit_cons_0 b n)
  | |- context [Z.testbit (2 * ?n + Z.b2z ?b) ?i] =>
      rewrite (testbit_cons_S b n i) by lia;
      let j := eval vm_compute in (i - 1) in change (i - 1) with j
  end.

Lemma half_cons b n : (2 * n + Z.b2z b) / 2 = n.
Proof. rewrite Z.mul_comm, Z.div_add_l by done. replace (Z.b2z b / 2) with 0 by (by destruct b). lia. Qed.

Lemma cons_range b n k : 0 <= n < k → 0 <= 2 * n + Z.b2z b < 2 * k.
Proof. pose proof (b2z_range b). lia. Qed.

Lemma half_step w i j :
  0 <= i → j = i + 1 → 2 * (w / 2 ^ j) + Z.b2z (Z.testbit w i) = w / 2 ^ i.
Proof.
  intros Hi ->. rewrite b2z_testbit by done.
  rewrite Z.pow_add_r, <- Z.div_div by lia. change (2 ^ 1) with 2.
  symmetry. apply Z.div_mod. lia.
Qed.

#[export] Hint Resolve u32_word SET_BIT_word CLEAR_BIT_word word_lor : words.
Create Rewrite HintDb wrap.
#[export] Hint Rewrite u32_idem u32_add_l u32_add_r u32_sub_l : wrap.

(** Close a goal about words and wrap-around. *)
Ltac word_lia := unfold word, u32, W32, PAGE_SIZE, KERNEL_VIRT_BASE in *; mlia.
