(* ===== verification/Machine.v ===== *)
(** * The state of the machine the kernel runs on

    One [Record] per C file with static or global data, the CPU registers
    and I/O ports the inline assembly touches, and physical memory.  The
    kernel's functions are programs of type [M A] over the whole [machine]:
    C functions share all of it.

    Objects that are only ever reached through a pointer (page tables, the
    page directory, the free-list headers of kmalloc, the [vmm_block_desc]
    and [task] structures, the stacks) live in [mem].  Static objects no
    pointer of the program is derived from are fields of their own. *)

From S2P Require Import Prelude.

(** ** What the linker and the assembler decide

    Addresses of symbols that kernel/linker.ld, boot.asm, init_idt.asm and
    the C compiler place: a parameter of the whole development. *)
Class Layout := {
  kernel_end_addr_phys : Z;
  kernel_start_addr_virt : Z;
  temp_page_directory : Z;      (* boot.asm, virtual *)
  temp_page_table : Z;
  kmalloc_init_block : Z;       (* static uint32_t[1024], page aligned *)
  global_descriptor_table_addr : Z;
  gdt_descriptor_at : Z;
  tss_region_addr : Z;
  idt_addr : Z;
  isr_stub : Z → Z;             (* isr0..isr31, irq0..irq15 *)
  other_interrupt_addr : Z;
  task_test_addr : Z;
  task_userspace_addr : Z
}.

(** A plausible image, for concrete runs. *)
Definition sample_layout : Layout := {|
  kernel_end_addr_phys := 1130496;
  kernel_start_addr_virt := 3222278144;
  temp_page_directory := 3222339584;
  temp_page_table := 3222343680;
  kmalloc_init_block := 3222323200;
  global_descriptor_table_addr := 3222315008;
  gdt_descriptor_at := 3222315520;
  tss_region_addr := 3222315648;
  idt_addr := 3222316032;
  isr_stub i := 3222280192 + 16 * i;
  other_interrupt_addr := 3222283264;
  task_test_addr := 3222284288;
  task_userspace_addr := 1052672
|}.

(** ** Ports *)

Inductive io_event : Type :=
| Out (port val : Z)
| In (port val : Z).

(** ** Interrupt handlers

    The C function pointers stored in [idt_handlers]. *)
Inductive handler : Type :=
| NULL_handler
| paging_page_fault_handler
| other_interrupt
| pic_callback
| isr_key_press.

#[export] Instance handler_eq_dec : EqDecision handler.
Proof. solve_decision. Defined.

(** ** Registers restored by task_switch_asm and [iret] *)
Record context : Type := Context {
  ctx_ds : Z;
  ctx_edi : Z; ctx_esi : Z; ctx_ebp : Z;
  ctx_ebx : Z; ctx_edx : Z; ctx_ecx : Z; ctx_eax : Z;
  ctx_eip : Z; ctx_cs : Z; ctx_eflags : Z;
  ctx_user_stack : option (Z * Z)  (* esp and ss, popped on a return to ring 3 *)
}.

(** ** Why control does not come back *)
Inductive stop : Type :=
| Panicked                   (* the endless loop of panic *)
| Spin                       (* any other for(;;); of the source *)
| PageFault (addr : Z)       (* no mapping for a virtual address *)
| OutOfBounds                (* an array access outside the array *)
| Undefined                  (* any other undefined behaviour of C *)
| Iret (c : context)         (* another task was resumed *)
| OutOfFuel.                 (* a loop of the model ran out of fuel *)

(** kernel/terminal/tty.c *)
Record tty_state : Type := TtyState {
  tty_ypos : Z;
  tty_xpos : Z;
  tty_color : Z;
  tty_buffer : Z (* pointer to the VGA cells, NULL at boot *);
  vga_cells : list Z (* the 80x25 16-bit cells behind 0xC00B8000 *)
}.

Definition set_tty_ypos (v : Z) (t : tty_state) : tty_state :=
  TtyState v (tty_xpos t) (tty_color t) (tty_buffer t) (vga_cells t).

Definition set_tty_xpos (v : Z) (t : tty_state) : tty_state :=
  TtyState (tty_ypos t) v (tty_color t) (tty_buffer t) (vga_cells t).

Definition set_tty_color (v : Z) (t : tty_state) : tty_state :=
  TtyState (tty_ypos t) (tty_xpos t) v (tty_buffer t) (vga_cells t).

Definition set_tty_buffer (v : Z) (t : tty_state) : tty_state :=
  TtyState (tty_ypos t) (tty_xpos t) (tty_color t) v (vga_cells t).

Definition set_vga_cells (v : list Z) (t : tty_state) : tty_state :=
  TtyState (tty_ypos t) (tty_xpos t) (tty_color t) (tty_buffer t) v.

(** The I/O ports: kernel/common/ports.c *)
Record port_state : Type := PortState {
  io_log : list io_event (* newest event first *);
  io_device : list io_event → Z → Z (* the devices: log and port to byte read *)
}.

Definition set_io_log (v : list io_event) (p : port_state) : port_state :=
  PortState v (io_device p).

Definition set_io_device (v : list io_event → Z → Z) (p : port_state) : port_state :=
  PortState (io_log p) v.

(** The CPU registers the kernel's assembly touches *)
Record cpu_state : Type := CpuState {
  cr0 : Z;
  cr2 : Z (* the address of the last page fault *);
  cr3 : Z;
  eflags_if : bool (* interrupt flag, cli and sti *)
}.

Definition set_cr0 (v : Z) (c : cpu_state) : cpu_state :=
  CpuState v (cr2 c) (cr3 c) (eflags_if c).

Definition set_cr2 (v : Z) (c : cpu_state) : cpu_state :=
  CpuState (cr0 c) v (cr3 c) (eflags_if c).

Definition set_cr3 (v : Z) (c : cpu_state) : cpu_state :=
  CpuState (cr0 c) (cr2 c) v (eflags_if c).

Definition set_eflags_if (v : bool) (c : cpu_state) : cpu_state :=
  CpuState (cr0 c) (cr2 c) (cr3 c) v.

(** struct physical_memory, kernel/memory/pmm.c *)
Record physical_memory : Type := PhysicalMemory {
  total_memory : Z (* total system memory in bytes *);
  total_page_memory : Z (* total memory of all the pages *);
  starting_addr : Z (* address of the first page *);
  page_count : Z (* number of page frames *);
  bitmap : list Z (* uint32_t bitmap[8192], set : allocated *)
}.

Definition set_total_memory (v : Z) (p : physical_memory) : physical_memory :=
  PhysicalMemory v (total_page_memory p) (starting_addr p) (page_count p) (bitmap
    p).

Definition set_total_page_memory (v : Z) (p : physical_memory) : physical_memory :=
  PhysicalMemory (total_memory p) v (starting_addr p) (page_count p) (bitmap p).

Definition set_starting_addr (v : Z) (p : physical_memory) : physical_memory :=
  PhysicalMemory (total_memory p) (total_page_memory p) v (page_count p) (bitmap p).

Definition set_page_count (v : Z) (p : physical_memory) : physical_memory :=
  PhysicalMemory (total_memory p) (total_page_memory p) (starting_addr p) v (bitmap
    p).

Definition set_bitmap (v : list Z) (p : physical_memory) : physical_memory :=
  PhysicalMemory (total_memory p) (total_page_memory p) (starting_addr p)
    (page_count p) v.

(** kernel/memory/kmalloc.c *)
Record heap_state : Type := HeapState {
  block_list_head : Z;
  block_list_tail : Z
}.

Definition set_block_list_head (v : Z) (h : heap_state) : heap_state :=
  HeapState v (block_list_tail h).

Definition set_block_list_tail (v : Z) (h : heap_state) : heap_state :=
  HeapState (block_list_head h) v.

(** kernel/memory/vmm.c *)
Record vmm_state : Type := VmmState {
  vmm_block_list_head : Z;
  vmm_block_list_tail : Z;
  allocating_new_block : bool (* static local of vmm_alloc_page *)
}.

Definition set_vmm_block_list_head (v : Z) (v' : vmm_state) : vmm_state :=
  VmmState v (vmm_block_list_tail v') (allocating_new_block v').

Definition set_vmm_block_list_tail (v : Z) (v' : vmm_state) : vmm_state :=
  VmmState (vmm_block_list_head v') v (allocating_new_block v').

Definition set_allocating_new_block (v : bool) (v' : vmm_state) : vmm_state :=
  VmmState (vmm_block_list_head v') (vmm_block_list_tail v') v.

(** struct user_task_info, include/kernel/task/task.h *)
Record user_task_info : Type := UserTaskInfo {
  starting_eip : Z;
  phys_addr_start : Z;
  phys_addr_end : Z;
  uti_len : Z
}.

(** kernel/task/task.c and kernel/task/scheduler.c *)
Record task_state : Type := TaskState {
  current_task : Z;
  task_list_head : Z;
  task_list_tail : Z;
  user_task : user_task_info;
  once : bool (* static local of task_init_user_task_info *);
  scheduler_initialized : bool
}.

Definition set_current_task (v : Z) (t : task_state) : task_state :=
  TaskState v (task_list_head t) (task_list_tail t) (user_task t) (once t)
    (scheduler_initialized t).

Definition set_task_list_head (v : Z) (t : task_state) : task_state :=
  TaskState (current_task t) v (task_list_tail t) (user_task t) (once t)
    (scheduler_initialized t).

Definition set_task_list_tail (v : Z) (t : task_state) : task_state :=
  TaskState (current_task t) (task_list_head t) v (user_task t) (once t)
    (scheduler_initialized t).

Definition set_user_task (v : user_task_info) (t : task_state) : task_state :=
  TaskState (current_task t) (task_list_head t) (task_list_tail t) v (once t)
    (scheduler_initialized t).

Definition set_once (v : bool) (t : task_state) : task_state :=
  TaskState (current_task t) (task_list_head t) (task_list_tail t) (user_task
    t) v (scheduler_initialized t).

Definition set_scheduler_initialized (v : bool) (t : task_state) : task_state :=
  TaskState (current_task t) (task_list_head t) (task_list_tail t) (user_task
    t) (once t) v.

(** kernel/interrupt/pic.c *)
Record timer_state : Type := TimerState {
  pic_print : bool (* the static print of pic.c *);
  tick : Z
}.

Definition set_pic_print (v : bool) (t : timer_state) : timer_state :=
  TimerState v (tick t).

Definition set_tick (v : Z) (t : timer_state) : timer_state :=
  TimerState (pic_print t) v.

(** struct keyboard_state, include/kernel/interrupt/keyboard.h *)
Record kb_state_t : Type := KbState {
  shift : bool;
  alt : bool;
  ctrl : bool;
  caps : bool;
  numlock : bool;
  scrlock : bool;
  esc : bool
}.

Definition set_shift (v : bool) (k : kb_state_t) : kb_state_t :=
  KbState v (alt k) (ctrl k) (caps k) (numlock k) (scrlock k) (esc k).

Definition set_alt (v : bool) (k : kb_state_t) : kb_state_t :=
  KbState (shift k) v (ctrl k) (caps k) (numlock k) (scrlock k) (esc k).

Definition set_ctrl (v : bool) (k : kb_state_t) : kb_state_t :=
  KbState (shift k) (alt k) v (caps k) (numlock k) (scrlock k) (esc k).

Definition set_caps (v : bool) (k : kb_state_t) : kb_state_t :=
  KbState (shift k) (alt k) (ctrl k) v (numlock k) (scrlock k) (esc k).

Definition set_numlock (v : bool) (k : kb_state_t) : kb_state_t :=
  KbState (shift k) (alt k) (ctrl k) (caps k) v (scrlock k) (esc k).

Definition set_scrlock (v : bool) (k : kb_state_t) : kb_state_t :=
  KbState (shift k) (alt k) (ctrl k) (caps k) (numlock k) v (esc k).

Definition set_esc (v : bool) (k : kb_state_t) : kb_state_t :=
  KbState (shift k) (alt k) (ctrl k) (caps k) (numlock k) (scrlock k) v.

(** struct key, include/kernel/interrupt/keyboard.h *)
Record key : Type := Key {
  key_state : kb_state_t;
  key_code : Z
}.

(** struct keyboard and the modifier state, kernel/interrupt/keyboard.c *)
Record keyboard_state : Type := KeyboardState {
  kb_buff : list key (* struct key buff[4096] *);
  kb_len : Z;
  kb_head : Z;
  kb_tail : Z;
  kb_state : kb_state_t (* the global kb_state *)
}.

Definition set_kb_buff (v : list key) (k : keyboard_state) : keyboard_state :=
  KeyboardState v (kb_len k) (kb_head k) (kb_tail k) (kb_state k).

Definition set_kb_len (v : Z) (k : keyboard_state) : keyboard_state :=
  KeyboardState (kb_buff k) v (kb_head k) (kb_tail k) (kb_state k).

Definition set_kb_head (v : Z) (k : keyboard_state) : keyboard_state :=
  KeyboardState (kb_buff k) (kb_len k) v (kb_tail k) (kb_state k).

Definition set_kb_tail (v : Z) (k : keyboard_state) : keyboard_state :=
  KeyboardState (kb_buff k) (kb_len k) (kb_head k) v (kb_state k).

Definition set_kb_state (v : kb_state_t) (k : keyboard_state) : keyboard_state :=
  KeyboardState (kb_buff k) (kb_len k) (kb_head k) (kb_tail k) v.

(** struct idt_desc, include/kernel/interrupt/interrupt.h *)
Record idt_desc : Type := IdtDesc {
  offset_1 : Z;
  selector : Z;
  idt_zero : Z;
  idt_flags : Z;
  offset_2 : Z
}.

(** kernel/interrupt/interrupt.c *)
Record interrupt_state : Type := InterruptState {
  idt : list idt_desc (* struct idt_desc idt[256] *);
  idt_handlers : list handler (* idt_handler idt_handlers[256] *);
  idtp_size : Z;
  idtp_ptr : Z;
  prev_int : Z (* static local of isr_handler *);
  idt_loaded : bool (* load_idt_asm has executed lidt *)
}.

Definition set_idt (v : list idt_desc) (i : interrupt_state) : interrupt_state :=
  InterruptState v (idt_handlers i) (idtp_size i) (idtp_ptr i) (prev_int i)
    (idt_loaded i).

Definition set_idt_handlers (v : list handler) (i : interrupt_state) : interrupt_state :=
  InterruptState (idt i) v (idtp_size i) (idtp_ptr i) (prev_int i) (idt_loaded i).

Definition set_idtp_size (v : Z) (i : interrupt_state) : interrupt_state :=
  InterruptState (idt i) (idt_handlers i) v (idtp_ptr i) (prev_int i) (idt_loaded
    i).

Definition set_idtp_ptr (v : Z) (i : interrupt_state) : interrupt_state :=
  InterruptState (idt i) (idt_handlers i) (idtp_size i) v (prev_int i) (idt_loaded
    i).

Definition set_prev_int (v : Z) (i : interrupt_state) : interrupt_state :=
  InterruptState (idt i) (idt_handlers i) (idtp_size i) (idtp_ptr i) v (idt_loaded
    i).

Definition set_idt_loaded (v : bool) (i : interrupt_state) : interrupt_state :=
  InterruptState (idt i) (idt_handlers i) (idtp_size i) (idtp_ptr i) (prev_int i) v.

(** struct tss, kernel/memory/gdt.c *)
Record tss : Type := Tss {
  tss_back_link : Z; tss_esp0 : Z; tss_ss0 : Z; tss_esp1 : Z; tss_ss1 : Z;
  tss_esp2 : Z; tss_ss2 : Z; tss_cr3 : Z; tss_eip : Z; tss_eflags : Z;
  tss_eax : Z; tss_ecx : Z; tss_edx : Z; tss_ebx : Z; tss_esp : Z;
  tss_ebp : Z; tss_esi : Z; tss_edi : Z; tss_es : Z; tss_cs : Z; tss_ss : Z;
  tss_ds : Z; tss_fs : Z; tss_gs : Z; tss_ldt : Z; tss_io_map_offset : Z
}.

Definition set_tss_esp0 (v : Z) (t : tss) : tss :=
  Tss
    (tss_back_link t) v (tss_ss0 t) (tss_esp1 t) (tss_ss1 t) (tss_esp2 t)
    (tss_ss2 t) (tss_cr3 t) (tss_eip t) (tss_eflags t) (tss_eax t)
    (tss_ecx t) (tss_edx t) (tss_ebx t) (tss_esp t) (tss_ebp t) (tss_esi t)
    (tss_edi t) (tss_es t) (tss_cs t) (tss_ss t) (tss_ds t) (tss_fs t)
    (tss_gs t) (tss_ldt t) (tss_io_map_offset t).

Definition set_tss_ss0 (v : Z) (t : tss) : tss :=
  Tss
    (tss_back_link t) (tss_esp0 t) v (tss_esp1 t) (tss_ss1 t) (tss_esp2 t)
    (tss_ss2 t) (tss_cr3 t) (tss_eip t) (tss_eflags t) (tss_eax t)
    (tss_ecx t) (tss_edx t) (tss_ebx t) (tss_esp t) (tss_ebp t) (tss_esi t)
    (tss_edi t) (tss_es t) (tss_cs t) (tss_ss t) (tss_ds t) (tss_fs t)
    (tss_gs t) (tss_ldt t) (tss_io_map_offset t).

(** struct gdt_entry and its two bit-fields, kernel/memory/gdt.c *)
Record access_byte : Type := AccessByte {
  ab_accessed : bool;
  ab_r_w : bool;
  ab_dc : bool;
  ab_e : bool;
  ab_s : bool;
  ab_dpl : Z (* 2 bits *);
  ab_p : bool
}.

Record limit_and_flags : Type := LimitAndFlags {
  lf_segment_limit_2 : Z (* 4 bits *);
  lf_res : bool;
  lf_l : bool;
  lf_db : bool;
  lf_g : bool
}.

Record gdt_entry : Type := GdtEntry {
  ge_segment_limit_1 : Z;
  ge_base_1 : Z;
  ge_base_2 : Z;
  ge_access_byte : access_byte;
  ge_limit_and_flags : limit_and_flags;
  ge_base_3 : Z
}.

Definition zero_gdt_entry : gdt_entry :=
  GdtEntry 0 0 0 (AccessByte false false false false false 0 false)
    (LimitAndFlags 0 false false false false) 0.

(** kernel/memory/gdt.c *)
Record gdt_state : Type := GdtState {
  global_descriptor_table : list gdt_entry (* struct gdt_entry[64] *);
  gdt_descriptor_size : Z;
  gdt_descriptor_addr : Z;
  tss_region : tss
}.

Definition set_global_descriptor_table (v : list gdt_entry) (g : gdt_state) : gdt_state :=
  GdtState v (gdt_descriptor_size g) (gdt_descriptor_addr g) (tss_region g).

Definition set_gdt_descriptor_size (v : Z) (g : gdt_state) : gdt_state :=
  GdtState (global_descriptor_table g) v (gdt_descriptor_addr g) (tss_region
    g).

Definition set_gdt_descriptor_addr (v : Z) (g : gdt_state) : gdt_state :=
  GdtState (global_descriptor_table g) (gdt_descriptor_size g) v (tss_region
    g).

Definition set_tss_region (v : tss) (g : gdt_state) : gdt_state :=
  GdtState (global_descriptor_table g) (gdt_descriptor_size g)
    (gdt_descriptor_addr g) v.

(** The whole machine *)
Record machine : Type := Machine {
  tty : tty_state;
  ports : port_state;
  cpu : cpu_state;
  mem : gmap Z Z (* physical memory, one entry per byte *);
  pmm : physical_memory;
  kernel_page_directory : Z (* global of paging.c *);
  heap : heap_state;
  vmm : vmm_state;
  tasks : task_state;
  timer : timer_state;
  keyboard : keyboard_state;
  interrupts : interrupt_state;
  gdt : gdt_state
}.

Definition set_tty (v : tty_state) (m : machine) : machine :=
  Machine v (ports m) (cpu m) (mem m) (pmm m) (kernel_page_directory m)
    (heap m) (vmm m) (tasks m) (timer m) (keyboard m) (interrupts m)
    (gdt m).

Definition set_ports (v : port_state) (m : machine) : machine :=
  Machine (tty m) v (cpu m) (mem m) (pmm m) (kernel_page_directory m) (heap
    m) (vmm m) (tasks m) (timer m) (keyboard m) (interrupts m) (gdt m).

Definition set_cpu (v : cpu_state) (m : machine) : machine :=
  Machine (tty m) (ports m) v (mem m) (pmm m) (kernel_page_directory m)
    (heap m) (vmm m) (tasks m) (timer m) (keyboard m) (interrupts m)
    (gdt m).

Definition set_mem (v : gmap Z Z) (m : machine) : machine :=
  Machine (tty m) (ports m) (cpu m) v (pmm m) (kernel_page_directory m)
    (heap m) (vmm m) (tasks m) (timer m) (keyboard m) (interrupts m)
    (gdt m).

Definition set_pmm (v : physical_memory) (m : machine) : machine :=
  Machine (tty m) (ports m) (cpu m) (mem m) v (kernel_page_directory m)
    (heap m) (vmm m) (tasks m) (timer m) (keyboard m) (interrupts m)
    (gdt m).

Definition set_kernel_page_directory (v : Z) (m : machine) : machine :=
  Machine (tty m) (ports m) (cpu m) (mem m) (pmm m) v (heap m) (vmm m)
    (tasks m) (timer m) (keyboard m) (interrupts m) (gdt m).

Definition set_heap (v : heap_state) (m : machine) : machine :=
  Machine (tty m) (ports m) (cpu m) (mem m) (pmm m) (kernel_page_directory
    m) v (vmm m) (tasks m) (timer m) (keyboard m) (interrupts m) (gdt
    m).

Definition set_vmm (v : vmm_state) (m : machine) : machine :=
  Machine (tty m) (ports m) (cpu m) (mem m) (pmm m) (kernel_page_directory
    m) (heap m) v (tasks m) (timer m) (keyboard m) (interrupts m) (gdt
    m).

Definition set_tasks (v : task_state) (m : machine) : machine :=
  Machine (tty m) (ports m) (cpu m) (mem m) (pmm m) (kernel_page_directory
    m) (heap m) (vmm m) v (timer m) (keyboard m) (interrupts m) (gdt
    m).

Definition set_timer (v : timer_state) (m : machine) : machine :=
  Machine (tty m) (ports m) (cpu m) (mem m) (pmm m) (kernel_page_directory
    m) (heap m) (vmm m) (tasks m) v (keyboard m) (interrupts m) (gdt
    m).

Definition set_keyboard (v : keyboard_state) (m : machine) : machine :=
  Machine (tty m) (ports m) (cpu m) (mem m) (pmm m) (kernel_page_directory
    m) (heap m) (vmm m) (tasks m) (timer m) v (interrupts m) (gdt m).

Definition set_interrupts (v : interrupt_state) (m : machine) : machine :=
  Machine (tty m) (ports m) (cpu m) (mem m) (pmm m) (kernel_page_directory
    m) (heap m) (vmm m) (tasks m) (timer m) (keyboard m) v (gdt m).

Definition set_gdt (v : gdt_state) (m : machine) : machine :=
  Machine (tty m) (ports m) (cpu m) (mem m) (pmm m) (kernel_page_directory
    m) (heap m) (vmm m) (tasks m) (timer m) (keyboard m) (interrupts
    m) v.

(** Static storage as the C initialisers leave it, with the devices silent,
    paging off and memory all zero. *)
Definition power_on : machine :=
  Machine
    (TtyState 0 0 0 0 (replicate (Z.to_nat 2000) 0))
    (PortState [] (λ _ _, 0))
    (CpuState 17 0 0 false)
    ∅
    (PhysicalMemory 0 0 0 0 (replicate (Z.to_nat 8192) 0))
    0
    (HeapState 0 0)
    (VmmState 0 0 false)
    (TaskState 0 0 0 (UserTaskInfo 0 0 0 0) true false)
    (TimerState true 0)
    (KeyboardState
       (replicate (Z.to_nat 4096) (Key (KbState false false false false false false false) 0))
       0 0 0 (KbState false false false false false false false))
    (InterruptState (replicate 256 (IdtDesc 0 0 0 0 0)) (replicate 256 NULL_handler)
       0 0 4294967295 false)
    (GdtState (replicate 64 zero_gdt_entry) 0 0
       (Tss 0 0 0 0 0 0 0 0 0 0 0 0 0 0 0 0 0 0 0 0 0 0 0 0 0 0)).

Abbreviation M := (prog stop machine).

(** ** Access to one component of the machine *)

Definition gets_tty {A} (f : tty_state → A) : M A := gets (λ m, f (tty m)).
Definition mod_tty (f : tty_state → tty_state) : M unit :=
  modify (λ m, set_tty (f (tty m)) m).
Definition gets_cpu {A} (f : cpu_state → A) : M A := gets (λ m, f (cpu m)).
Definition mod_cpu (f : cpu_state → cpu_state) : M unit :=
  modify (λ m, set_cpu (f (cpu m)) m).
Definition gets_pmm {A} (f : physical_memory → A) : M A := gets (λ m, f (pmm m)).
Definition mod_pmm (f : physical_memory → physical_memory) : M unit :=
  modify (λ m, set_pmm (f (pmm m)) m).
Definition gets_heap {A} (f : heap_state → A) : M A := gets (λ m, f (heap m)).
Definition mod_heap (f : heap_state → heap_state) : M unit :=
  modify (λ m, set_heap (f (heap m)) m).
Definition gets_vmm {A} (f : vmm_state → A) : M A := gets (λ m, f (vmm m)).
Definition mod_vmm (f : vmm_state → vmm_state) : M unit :=
  modify (λ m, set_vmm (f (vmm m)) m).
Definition gets_tasks {A} (f : task_state → A) : M A := gets (λ m, f (tasks m)).
Definition mod_tasks (f : task_state → task_state) : M unit :=
  modify (λ m, set_tasks (f (tasks m)) m).
Definition gets_timer {A} (f : timer_state → A) : M A := gets (λ m, f (timer m)).
Definition mod_timer (f : timer_state → timer_state) : M unit :=
  modify (λ m, set_timer (f (timer m)) m).
Definition gets_keyboard {A} (f : keyboard_state → A) : M A :=
  gets (λ m, f (keyboard m)).
Definition mod_keyboard (f : keyboard_state → keyboard_state) : M unit :=
  modify (λ m, set_keyboard (f (keyboard m)) m).
Definition gets_interrupts {A} (f : interrupt_state → A) : M A :=
  gets (λ m, f (interrupts m)).
Definition mod_interrupts (f : interrupt_state → interrupt_state) : M unit :=
  modify (λ m, set_interrupts (f (interrupts m)) m).
Definition gets_gdt {A} (f : gdt_state → A) : M A := gets (λ m, f (gdt m)).
Definition mod_gdt (f : gdt_state → gdt_state) : M unit :=
  modify (λ m, set_gdt (f (gdt m)) m).

(** [steps], seeing through the accessors. *)
Ltac msteps := unfold gets_tty, mod_tty, gets_cpu, mod_cpu, gets_pmm,
  mod_pmm, gets_heap, mod_heap, gets_vmm, mod_vmm,
  gets_tasks, mod_tasks, gets_timer, mod_timer, gets_keyboard,
  mod_keyboard, gets_interrupts, mod_interrupts, gets_gdt, mod_gdt; steps.

(** ** Static arrays

    A C array indexed by an unsigned value: an access outside it stops. *)
Definition array_get {A} (l : list A) (i : Z) : M A :=
  match decide (0 <= i), l !! Z.to_nat i with
  | left _, Some x => mret x
  | _, _ => halt_with OutOfBounds
  end.

Definition in_array {A} (l : list A) (i : Z) : bool :=
  (0 <=? i) && (i <? Z.of_nat (length l)).

Definition array_set {A} (l : list A) (i : Z) (x : A) : M (list A) :=
  if in_array l i then mret (<[Z.to_nat i := x]> l) else halt_with OutOfBounds.

Lemma array_get_lookup {A} (l : list A) i x m :
  0 <= i → l !! Z.to_nat i = Some x → array_get l i m = Done x m.
Proof. intros Hi Hx. unfold array_get. rewrite decide_True by done. by rewrite Hx. Qed.

Lemma array_set_insert {A} (l : list A) i x m :
  0 <= i < Z.of_nat (length l) →
  array_set l i x m = Done (<[Z.to_nat i := x]> l) m.
Proof.
  intros Hi. unfold array_set, in_array.
  destruct (Z.leb_spec 0 i), (Z.ltb_spec i (Z.of_nat (length l))); simpl; try lia.
  done.
Qed.

(** ** C characters and string literals *)

Definition chr (c : Ascii.ascii) : Z := Z.of_N (Ascii.N_of_ascii c).

Fixpoint chars (s : string) : list Z :=
  match s with
  | EmptyString => []
  | String c s' => chr c :: chars s'
  end.

Definition NL : Z := 10.
Definition TAB : Z := 9.
Definition SPACE : Z := 32.

(** ** kernel/common/ports.c and kernel/common/cpu.c *)

Definition outb (port val : Z) : M unit :=
  modify (λ m, set_ports (set_io_log (Out (u16 port) (u8 val) :: io_log (ports m))
                            (ports m)) m).

Definition inb (port : Z) : M Z :=
  v ← gets (λ m, u8 (io_device (ports m) (io_log (ports m)) (u16 port)));
  modify (λ m, set_ports (set_io_log (In (u16 port) v :: io_log (ports m))
                            (ports m)) m);;
  mret v.

(** Nothing calls [inw]. *)
Definition inw (port : Z) : M Z :=
  v ← gets (λ m, u16 (io_device (ports m) (io_log (ports m)) (u16 port)));
  modify (λ m, set_ports (set_io_log (In (u16 port) v :: io_log (ports m))
                            (ports m)) m);;
  mret v.

Definition cli : M unit := mod_cpu (set_eflags_if false).

Definition sti : M unit := mod_cpu (set_eflags_if true).

(** [hlt] changes no register or memory: control returns at the next
    interrupt. *)
Definition halt : M unit := mret tt.
