(* ===== verification/Tty.v ===== *)
(** * The terminal: kernel/terminal/vga.c and kernel/terminal/tty.c *)

From S2P Require Import Prelude Machine.

(** ** vga.c *)

Inductive vga_color : Type :=
| VGA_COLOR_BLACK | VGA_COLOR_BLUE | VGA_COLOR_GREEN | VGA_COLOR_CYAN
| VGA_COLOR_RED | VGA_COLOR_MAGENTA | VGA_COLOR_BROWN | VGA_COLOR_LIGHT_GREY
| VGA_COLOR_DARK_GREY | VGA_COLOR_LIGHT_BLUE | VGA_COLOR_LIGHT_GREEN | VGA_COLOR_LIGHT_CYAN
| VGA_COLOR_LIGHT_RED | VGA_COLOR_LIGHT_MAGENTA | VGA_COLOR_LIGHT_BROWN | VGA_COLOR_WHITE.

(** The values of the enumeration. *)
Definition vga_color_value (c : vga_color) : Z :=
  match c with
  | VGA_COLOR_BLACK => 0 | VGA_COLOR_BLUE => 1 | VGA_COLOR_GREEN => 2 | VGA_COLOR_CYAN => 3
  | VGA_COLOR_RED => 4 | VGA_COLOR_MAGENTA => 5 | VGA_COLOR_BROWN => 6
  | VGA_COLOR_LIGHT_GREY => 7 | VGA_COLOR_DARK_GREY => 8 | VGA_COLOR_LIGHT_BLUE => 9
  | VGA_COLOR_LIGHT_GREEN => 10 | VGA_COLOR_LIGHT_CYAN => 11 | VGA_COLOR_LIGHT_RED => 12
  | VGA_COLOR_LIGHT_MAGENTA => 13 | VGA_COLOR_LIGHT_BROWN => 14 | VGA_COLOR_WHITE => 15
  end.

Definition vga_color_entry (fg bg : vga_color) : Z :=
  u8 (Z.lor (vga_color_value fg) (Z.shiftl (vga_color_value bg) 4)).

Definition vga_entry (uc color : Z) : Z :=
  u16 (Z.lor (u8 uc) (Z.shiftl (u8 color) 8)).

(** ** tty.c *)

Definition SCREEN_WIDTH : Z := 80.
Definition SCREEN_HEIGHT : Z := 25.

(** 0xC00B8000, where paging maps the VGA text buffer. *)
Definition VGA_BUFFER : Z := 3222011904.

(** [tty_buffer\[index\] = v] and the read of [tty_buffer\[index\]]: the
    pointer is NULL until [tty_clear] has run. *)
Definition tty_buffer_set (index v : Z) : M unit :=
  p ← gets_tty tty_buffer;
  if p =? VGA_BUFFER then
    cells ← gets_tty vga_cells;
    cells' ← array_set cells index v;
    mod_tty (set_vga_cells cells')
  else halt_with (PageFault (p [+] 2 * index)).

Definition tty_buffer_get (index : Z) : M Z :=
  p ← gets_tty tty_buffer;
  if p =? VGA_BUFFER then
    cells ← gets_tty vga_cells;
    array_get cells index
  else halt_with (PageFault (p [+] 2 * index)).

Definition update_cursor (x y : Z) : M unit :=
  mod_tty (set_tty_xpos x);;
  mod_tty (set_tty_ypos y);;
  let pos := u16 (y * SCREEN_WIDTH + x) in
  outb 0x3D4 0x0F;;
  outb 0x3D5 (Z.land pos 0xFF);;
  outb 0x3D4 0x0E;;
  outb 0x3D5 (Z.land (Z.shiftr pos 8) 0xFF).

Definition tty_clear : M unit :=
  mod_tty (set_tty_buffer VGA_BUFFER);;
  mod_tty (set_tty_color (vga_color_entry VGA_COLOR_WHITE VGA_COLOR_BLACK));;
  for_range (Z.to_nat SCREEN_HEIGHT) 0 (λ y,
    for_range (Z.to_nat SCREEN_WIDTH) 0 (λ x,
      let index := y * SCREEN_WIDTH + x in
      color ← gets_tty tty_color;
      tty_buffer_set index (vga_entry SPACE color)));;
  mod_tty (set_tty_xpos 0);;
  mod_tty (set_tty_ypos 0);;
  update_cursor 0 0.

Definition initialize_terminal : M unit :=
  tty_clear;;
  outb 0x3D4 0x0A;;
  v ← inb 0x3D5;
  outb 0x3D5 (Z.lor (Z.land v 0xC0) 0);;
  outb 0x3D4 0x0B;;
  w ← inb 0x3D5;
  outb 0x3D5 (Z.lor (Z.land w 0xE0) 15);;
  mod_tty (set_tty_xpos 0);;
  mod_tty (set_tty_ypos 0);;
  update_cursor 0 0.

Definition tty_scroll : M unit :=
  for_range (Z.to_nat (SCREEN_HEIGHT - 1)) 0 (λ y,
    for_range (Z.to_nat SCREEN_WIDTH) 0 (λ x,
      let index := y * SCREEN_WIDTH + x in
      let copy_index := (y + 1) * SCREEN_WIDTH + x in
      c ← tty_buffer_get copy_index;
      tty_buffer_set index c));;
  for_range (Z.to_nat SCREEN_WIDTH) 0 (λ x,
    let index := (SCREEN_HEIGHT - 1) * SCREEN_WIDTH + x in
    tty_buffer_set index SPACE);;
  y ← gets_tty tty_ypos;
  mod_tty (set_tty_ypos (y [-] 1)).

Definition tty_putentryat (c color x y : Z) : M unit :=
  let index := y [*] SCREEN_WIDTH [+] x in
  tty_buffer_set index (vga_entry c color).

(** [if (++tty_ypos == SCREEN_HEIGHT) tty_scroll();] *)
Definition tty_next_row : M unit :=
  y ← gets_tty tty_ypos;
  mod_tty (set_tty_ypos (y [+] 1));;
  when (y [+] 1 =? SCREEN_HEIGHT) tty_scroll.

(** The cursor is moved to where [tty_xpos] and [tty_ypos] say. *)
Definition sync_cursor : M unit :=
  x ← gets_tty tty_xpos;
  y ← gets_tty tty_ypos;
  update_cursor x y.

(** The end of [tty_putc], reached by every character but newline and tab. *)
Definition tty_put_glyph (c : Z) : M unit :=
  color ← gets_tty tty_color;
  x ← gets_tty tty_xpos;
  y ← gets_tty tty_ypos;
  tty_putentryat c color x y;;
  mod_tty (set_tty_xpos (x [+] 1));;
  when (x [+] 1 =? SCREEN_WIDTH)
    (mod_tty (set_tty_xpos 0);; tty_next_row);;
  sync_cursor.

Definition tty_putc (c : Z) : M unit :=
  if c =? NL then
    mod_tty (set_tty_xpos 0);;
    tty_next_row;;
    sync_cursor
  else if c =? TAB then
    xpos ← gets_tty tty_xpos;
    for_range (Z.to_nat (8 - xpos mod 8)) 0 (λ _, tty_put_glyph SPACE)
  else tty_put_glyph c.

Definition tty_deleteprev : M unit :=
  x ← gets_tty tty_xpos;
  y ← gets_tty tty_ypos;
  if (x =? 0) && (y =? 0) then mret tt
  else
    (if x =? 0 then
       mod_tty (set_tty_xpos (SCREEN_WIDTH - 1));;
       mod_tty (set_tty_ypos (y [-] 1))
     else mod_tty (set_tty_xpos (x [-] 1)));;
    color ← gets_tty tty_color;
    x' ← gets_tty tty_xpos;
    y' ← gets_tty tty_ypos;
    tty_putentryat SPACE color x' y';;
    sync_cursor.

(** [str] holds the bytes at the pointer; reading past them is out of
    bounds. *)
Fixpoint tty_write_loop (str : list Z) (len : nat) {struct len} : M unit :=
  match len with
  | O => mret tt
  | S len' =>
      match str with
      | [] => halt_with OutOfBounds
      | c :: str' => tty_putc c;; tty_write_loop str' len'
      end
  end.

Definition tty_write (str : list Z) (len : Z) : M unit :=
  tty_write_loop str (Z.to_nat len).

(** [str] is a string literal: its bytes before the terminating NUL. *)
Fixpoint tty_printstr (str : list Z) : M unit :=
  match str with
  | [] => mret tt
  | c :: str' => if c =? 0 then mret tt else tty_putc c;; tty_printstr str'
  end.

(** The loop of [tty_printint] that fills [char s\[32\]], least significant
    digit first; ten rounds exhaust any 32-bit number. *)
Fixpoint printint_digits (fuel : nat) (num : Z) : list Z :=
  match fuel with
  | O => []
  | S fuel' =>
      if 0 <? num then num mod 10 :: printint_digits fuel' (num / 10) else []
  end.

(** The second loop walks [s] backwards from the last digit written. *)
Fixpoint put_digits (ds : list Z) : M unit :=
  match ds with
  | [] => mret tt
  | d :: ds' => tty_putc (48 + d);; put_digits ds'
  end.

Definition tty_printint (num : Z) : M unit :=
  if num =? 0 then tty_putc 48
  else put_digits (rev (printint_digits 32 num)).

Definition hex : list Z := chars "0123456789abcdef".

Fixpoint printhex_loop (n : nat) (num : Z) : M unit :=
  match n with
  | O => mret tt
  | S n' =>
      let c := Z.land (Z.shiftr (Z.land num 0xF0000000) 28) 0x0F in
      d ← array_get hex c;
      tty_putc d;;
      printhex_loop n' (u32 (Z.shiftl num 4))
  end.

Definition tty_printhex (num : Z) : M unit :=
  if num =? 0 then tty_putc 48 else printhex_loop 8 num.

(** A variadic argument of [kprintf]. *)
Inductive va_arg : Type :=
| VaInt (n : Z)
| VaStr (s : list Z).

(** [va_arg(args, uint32_t)] and [va_arg(args, char * )]: a missing argument
    or one of another type is undefined. *)
Definition va_int (args : list va_arg) : M (Z * list va_arg) :=
  match args with
  | VaInt n :: rest => mret (n, rest)
  | _ => halt_with Undefined
  end.

Definition va_str (args : list va_arg) : M (list Z * list va_arg) :=
  match args with
  | VaStr s :: rest => mret (s, rest)
  | _ => halt_with Undefined
  end.

(** One character after a '%': the new argument list and the number of
    characters [printed] is incremented by. *)
Definition kprintf_conversion (c : Z) (args : list va_arg) : M (list va_arg * Z) :=
  if c =? 37 then tty_putc 37;; mret (args, 1)
  else if (c =? 100) || (c =? 117) || (c =? 105) then
    '(n, rest) ← va_int args; tty_printint n;; mret (rest, 0)
  else if (c =? 120) || (c =? 88) then
    '(n, rest) ← va_int args; tty_printhex n;; mret (rest, 0)
  else if c =? 115 then
    '(s, rest) ← va_str args; tty_printstr s;; mret (rest, 0)
  else mret (args, 0).

Fixpoint kprintf_loop (format : list Z) (args : list va_arg)
    (fmt_flag : bool) (printed i : Z) : M Z :=
  match format with
  | [] => mret (u32 (printed + i))
  | c :: format' =>
      if fmt_flag then
        '(rest, k) ← kprintf_conversion c args;
        kprintf_loop format' rest false (printed + k) (i + 1)
      else if c =? 37 then
        kprintf_loop format' args true printed (i + 1)
      else
        tty_putc c;;
        kprintf_loop format' args false printed (i + 1)
  end.

Definition kprintf (format : list Z) (args : list va_arg) : M Z :=
  kprintf_loop format args false 0 0.

Definition kprint (s : string) : M unit := kprintf (chars s) [];; mret tt.

(** ** panic, kernel/kernel.c

    The message is printed, then the kernel loops with interrupts off. *)
Definition panic (msg : list Z) : M unit :=
  kprintf (chars "KERNEL PANIC: %s" ++ [NL]) [VaStr msg];;
  cli;;
  halt_with Panicked.

Definition panic_null : M unit :=
  kprintf (chars "KERNEL PANIC!!" ++ [NL]) [];;
  cli;;
  halt_with Panicked.

(** ** What the terminal promises

    A pure description of the screen: [screen_*] compute the terminal state
    after an operation, without ports and without partiality. *)

Definition screen_index (t : tty_state) : Z := tty_ypos t * SCREEN_WIDTH + tty_xpos t.

Definition scroll_cells (cells : list Z) : list Z :=
  drop 80 cells ++ replicate 80 SPACE.

Definition screen_scroll (t : tty_state) : tty_state :=
  set_tty_ypos (tty_ypos t - 1) (set_vga_cells (scroll_cells (vga_cells t)) t).

Definition screen_next_row (t : tty_state) : tty_state :=
  let t' := set_tty_ypos (tty_ypos t + 1) t in
  if tty_ypos t + 1 =? SCREEN_HEIGHT then screen_scroll t' else t'.

Definition screen_set (i v : Z) (t : tty_state) : tty_state :=
  set_vga_cells (<[Z.to_nat i := v]> (vga_cells t)) t.

Definition screen_glyph (c : Z) (t : tty_state) : tty_state :=
  let t' := set_tty_xpos (tty_xpos t + 1)
              (screen_set (screen_index t) (vga_entry c (tty_color t)) t) in
  if tty_xpos t + 1 =? SCREEN_WIDTH then screen_next_row (set_tty_xpos 0 t') else t'.

Definition screen_newline (t : tty_state) : tty_state :=
  screen_next_row (set_tty_xpos 0 t).

(** The four port writes that program the hardware cursor. *)
Definition cursor_log (t : tty_state) : list io_event :=
  let pos := u16 (screen_index t) in
  [ Out 0x3D5 (u8 (Z.land (Z.shiftr pos 8) 0xFF)); Out 0x3D4 0x0E;
    Out 0x3D5 (u8 (Z.land pos 0xFF)); Out 0x3D4 0x0F ].

(** The machine after the screen became [t] and the cursor was synced. *)
Definition shown (t : tty_state) (m : machine) : machine :=
  set_ports (set_io_log (cursor_log t ++ io_log (ports m)) (ports m)) (set_tty t m).

Record tty_ok (t : tty_state) : Prop := {
  tty_ok_buffer : tty_buffer t = VGA_BUFFER;
  tty_ok_cells : length (vga_cells t) = 2000%nat;
  tty_ok_x : 0 <= tty_xpos t < SCREEN_WIDTH;
  tty_ok_y : 0 <= tty_ypos t < SCREEN_HEIGHT
}.

(** Nothing but the terminal and the port log differs. *)
Definition only_terminal (m m' : machine) : Prop :=
  m' = set_ports (ports m') (set_tty (tty m') m) ∧
  io_device (ports m') = io_device (ports m).

(** ** Lemmas *)

Lemma set_tty_same m : set_tty (tty m) m = m.
Proof. by destruct m. Qed.

Lemma only_terminal_refl m : only_terminal m m.
Proof. split; [by destruct m|done]. Qed.

Lemma only_terminal_trans m1 m2 m3 :
  only_terminal m1 m2 → only_terminal m2 m3 → only_terminal m1 m3.
Proof.
  intros [H1 D1] [H2 D2]. split; [|congruence]. rewrite H2 at 1. rewrite H1. done.
Qed.

#[export] Instance only_terminal_preorder : PreOrder only_terminal.
Proof.
  split.
  - intros m. apply only_terminal_refl.
  - intros m1 m2 m3. apply only_terminal_trans.
Qed.

Lemma only_terminal_shown t m : only_terminal m (shown t m).
Proof. by split. Qed.

Lemma tty_buffer_set_ok i v m :
  tty_buffer (tty m) = VGA_BUFFER →
  0 <= i < Z.of_nat (length (vga_cells (tty m))) →
  tty_buffer_set i v m = Done tt (set_tty (screen_set i v (tty m)) m).
Proof.
  intros Hb Hi. unfold tty_buffer_set, gets_tty. steps. rewrite Hb, Z.eqb_refl.
  steps. rewrite (bind_done _ _ _ _ _ (array_set_insert _ _ _ _ Hi)). done.
Qed.

Lemma tty_buffer_get_ok i c m :
  tty_buffer (tty m) = VGA_BUFFER → 0 <= i →
  vga_cells (tty m) !! Z.to_nat i = Some c →
  tty_buffer_get i m = Done c m.
Proof.
  intros Hb Hi Hc. unfold tty_buffer_get, gets_tty. steps. rewrite Hb, Z.eqb_refl.
  steps. by apply array_get_lookup.
Qed.

(** The rows copied so far: the first [k] cells already hold their new
    contents. *)
Definition scrolled (cells : list Z) (k : nat) : list Z :=
  take k (drop 80 cells) ++ drop k cells.

Lemma scrolled_length cells k :
  length cells = 2000%nat → (k <= 1920)%nat → length (scrolled cells k) = 2000%nat.
Proof.
  intros H Hk. unfold scrolled. rewrite length_app, length_take, !length_drop. lia.
Qed.

Lemma scrolled_lookup cells k :
  length cells = 2000%nat → (k < 1920)%nat →
  scrolled cells k !! (k + 80)%nat = cells !! (k + 80)%nat.
Proof.
  intros H Hk. unfold scrolled.
  rewrite lookup_app_r by (rewrite length_take, length_drop; lia).
  rewrite length_take, length_drop, lookup_drop. f_equal. lia.
Qed.

Lemma scrolled_step cells k x :
  length cells = 2000%nat → (k < 1920)%nat → cells !! (k + 80)%nat = Some x →
  <[k := x]> (scrolled cells k) = scrolled cells (k + 1).
Proof.
  intros H Hk Hx. unfold scrolled.
  assert (length (take k (drop 80 cells)) = k) as Hl
    by (rewrite length_take, length_drop; lia).
  destruct (lookup_lt_is_Some_2 cells k) as [y Hy]; [lia|].
  rewrite (drop_S cells y k Hy), insert_app_r_alt, Hl, Nat.sub_diag by lia. simpl.
  rewrite Nat.add_1_r, (take_S_r (drop 80 cells) k x).
  - by rewrite <- app_assoc.
  - rewrite lookup_drop. rewrite <- Hx. f_equal. lia.
Qed.

Section Scroll.
Context (m : machine).
Hypothesis (Hb : tty_buffer (tty m) = VGA_BUFFER).
Hypothesis (Hl : length (vga_cells (tty m)) = 2000%nat).

Definition scrolling (k : nat) : machine :=
  set_tty (set_vga_cells (scrolled (vga_cells (tty m)) k) (tty m)) m.

Lemma scrolling_0 : scrolling 0 = m.
Proof. unfold scrolling, scrolled. by destruct m as [[]]. Qed.

Lemma copy_cell k :
  (k < 1920)%nat →
  (c ← tty_buffer_get (Z.of_nat k + 80); tty_buffer_set (Z.of_nat k) c) (scrolling k)
  = Done tt (scrolling (k + 1)).
Proof.
  intros Hk. destruct (lookup_lt_is_Some_2 (vga_cells (tty m)) (k + 80)%nat) as [x Hx];
    [lia|].
  assert (tty_buffer_get (Z.of_nat k + 80) (scrolling k) = Done x (scrolling k)) as Hget.
  { apply tty_buffer_get_ok; [done|lia|]. simpl.
    replace (Z.to_nat (Z.of_nat k + 80)) with (k + 80)%nat by lia.
    by rewrite scrolled_lookup by (done || lia). }
  run Hget. rewrite tty_buffer_set_ok; simpl; [|done|].
  - unfold scrolling, screen_set. simpl. rewrite Nat2Z.id.
    by rewrite (scrolled_step _ _ x) by done.
  - rewrite scrolled_length by (done || lia). lia.
Qed.

Lemma copy_rows :
  for_range (Z.to_nat (SCREEN_HEIGHT - 1)) 0 (λ y,
    for_range (Z.to_nat SCREEN_WIDTH) 0 (λ x,
      c ← tty_buffer_get ((y + 1) * SCREEN_WIDTH + x);
      tty_buffer_set (y * SCREEN_WIDTH + x) c)) (scrolling 0) = Done tt (scrolling 1920).
Proof.
  apply (for_range_steps 24 0 _ (λ k, scrolling (k * 80))). intros k Hk.
  replace ((k + 1) * 80)%nat with (k * 80 + 80)%nat by lia.
  replace (scrolling (k * 80)) with (scrolling (k * 80 + 0)) by (f_equal; lia).
  apply (for_range_steps 80 0 _ (λ j, scrolling (k * 80 + j))). intros j Hj.
  rewrite Nat.add_assoc, <- copy_cell by lia. unfold SCREEN_WIDTH.
  replace ((0 + Z.of_nat k + 1) * 80 + (0 + Z.of_nat j))
    with (Z.of_nat (k * 80 + j) + 80) by lia.
  by replace ((0 + Z.of_nat k) * 80 + (0 + Z.of_nat j)) with (Z.of_nat (k * 80 + j)) by lia.
Qed.

(** The last row, blanked from the left. *)
Definition blanking (k : nat) : machine :=
  set_tty (set_vga_cells (drop 80 (vga_cells (tty m)) ++ replicate k SPACE
    ++ drop (1920 + k) (vga_cells (tty m))) (tty m)) m.

Lemma blank_step k :
  (k < 80)%nat →
  <[(1920 + k)%nat := SPACE]> (drop 80 (vga_cells (tty m)) ++ replicate k SPACE
    ++ drop (1920 + k) (vga_cells (tty m)))
  = drop 80 (vga_cells (tty m)) ++ replicate (k + 1) SPACE
    ++ drop (1920 + (k + 1)) (vga_cells (tty m)).
Proof.
  intros Hk. set (c0 := vga_cells (tty m)) in *.
  destruct (lookup_lt_is_Some_2 c0 (1920 + k)%nat) as [y Hy]; [lia|].
  rewrite (drop_S _ _ _ Hy), insert_app_r_alt by (rewrite length_drop; lia).
  rewrite length_drop, Hl. replace (1920 + k - (2000 - 80))%nat with k by lia.
  rewrite insert_app_r_alt by (rewrite length_replicate; lia).
  rewrite length_replicate, Nat.sub_diag, replicate_add, <- app_assoc.
  replace (1920 + (k + 1))%nat with (S (1920 + k)) by lia. done.
Qed.

Lemma blank_row :
  for_range (Z.to_nat SCREEN_WIDTH) 0 (λ x,
    tty_buffer_set ((SCREEN_HEIGHT - 1) * SCREEN_WIDTH + x) SPACE) (scrolling 1920)
  = Done tt (blanking 80).
Proof.
  replace (scrolling 1920) with (blanking 0).
  2: { unfold blanking, scrolling, scrolled.
    by rewrite (take_ge (drop 80 _)) by (rewrite length_drop; lia). }
  apply (for_range_steps 80 0 _ blanking). intros k Hk.
  rewrite tty_buffer_set_ok; [|done|].
  - unfold screen_set. cbn [vga_cells set_vga_cells].
    unfold blanking. rewrite <- (blank_step k) by done.
    by replace (Z.to_nat _) with (1920 + k)%nat by (unfold SCREEN_WIDTH, SCREEN_HEIGHT; lia).
  - change (vga_cells (tty (blanking k))) with (drop 80 (vga_cells (tty m))
      ++ replicate k SPACE ++ drop (1920 + k) (vga_cells (tty m))).
    rewrite !length_app, length_replicate, !length_drop, Hl.
    unfold SCREEN_WIDTH, SCREEN_HEIGHT. lia.
Qed.

Lemma tty_scroll_ok :
  1 <= tty_ypos (tty m) <= SCREEN_HEIGHT →
  tty_scroll m = Done tt (set_tty (screen_scroll (tty m)) m).
Proof.
  intros Hy. unfold tty_scroll. pose proof copy_rows as Hcopy.
  rewrite scrolling_0 in Hcopy. run Hcopy. run blank_row.
  unfold gets_tty, mod_tty. steps. unfold modify, screen_scroll, scroll_cells, blanking.
  rewrite (drop_ge (vga_cells (tty m)) (1920 + 80)), app_nil_r by (rewrite Hl; lia).
  cbn [tty set_tty tty_ypos set_vga_cells].
  rewrite u32_small by (unfold SCREEN_HEIGHT in Hy; word_lia). done.
Qed.
End Scroll.

Lemma update_cursor_ok x y m :
  update_cursor x y m =
    Done tt (shown (set_tty_ypos y (set_tty_xpos x (tty m))) m).
Proof. reflexivity. Qed.

Lemma sync_cursor_ok m : sync_cursor m = Done tt (shown (tty m) m).
Proof.
  unfold sync_cursor, gets_tty. steps. rewrite update_cursor_ok.
  by destruct m as [[] ? ? ? ? ? ? ? ? ? ? ? ?].
Qed.

Lemma tty_next_row_ok m :
  tty_buffer (tty m) = VGA_BUFFER → length (vga_cells (tty m)) = 2000%nat →
  0 <= tty_ypos (tty m) < SCREEN_HEIGHT →
  tty_next_row m = Done tt (set_tty (screen_next_row (tty m)) m).
Proof.
  intros Hb Hl Hy. unfold tty_next_row, gets_tty, mod_tty. steps.
  rewrite u32_small by (unfold SCREEN_HEIGHT in Hy; word_lia). unfold screen_next_row.
  destruct (Z.eqb_spec (tty_ypos (tty m) + 1) SCREEN_HEIGHT); simpl; [|done].
  rewrite tty_scroll_ok; simpl; [done|done|done|unfold SCREEN_HEIGHT in *; lia].
Qed.

Lemma screen_next_row_ok t :
  tty_ok t → tty_ok (screen_next_row t).
Proof.
  intros [Hb Hl Hx Hy]. unfold screen_next_row.
  destruct (Z.eqb_spec (tty_ypos t + 1) SCREEN_HEIGHT) as [He|He]; split; simpl; try done.
  - unfold scroll_cells. rewrite length_app, length_drop, length_replicate. lia.
  - lia.
  - unfold SCREEN_HEIGHT in *. lia.
Qed.

Lemma screen_set_ok i v t : tty_ok t → tty_ok (screen_set i v t).
Proof. intros [Hb Hl Hx Hy]. split; simpl; rewrite ?length_insert; done. Qed.

Lemma set_tty_xpos_ok x t : tty_ok t → 0 <= x < SCREEN_WIDTH → tty_ok (set_tty_xpos x t).
Proof. intros [Hb Hl Hx Hy] H. by split. Qed.

#[export] Hint Resolve screen_next_row_ok screen_set_ok set_tty_xpos_ok : words.

Lemma screen_index_range t : tty_ok t → 0 <= screen_index t < 2000.
Proof.
  intros [_ _ Hx Hy]. unfold screen_index, SCREEN_WIDTH, SCREEN_HEIGHT in *. lia.
Qed.

Lemma tty_putentryat_ok c m :
  tty_ok (tty m) → ∀ color,
  tty_putentryat c color (tty_xpos (tty m)) (tty_ypos (tty m)) m =
    Done tt (set_tty (screen_set (screen_index (tty m)) (vga_entry c color) (tty m)) m).
Proof.
  intros Hok color. pose proof (screen_index_range _ Hok) as Hi.
  unfold tty_putentryat. rewrite u32_add_l, u32_small
    by (unfold screen_index in Hi; word_lia).
  apply tty_buffer_set_ok; [by apply tty_ok_buffer|].
  rewrite (tty_ok_cells _ Hok). apply Hi.
Qed.

Lemma tty_put_glyph_ok c m :
  tty_ok (tty m) →
  tty_put_glyph c m = Done tt (shown (screen_glyph c (tty m)) m) ∧
  tty_ok (screen_glyph c (tty m)).
Proof.
  intros Hok. pose proof Hok as [Hb Hl Hx Hy].
  unfold tty_put_glyph, gets_tty. steps. run (tty_putentryat_ok c m Hok (tty_color (tty m))).
  rewrite u32_small by (unfold SCREEN_WIDTH in Hx; word_lia). unfold mod_tty. steps.
  unfold screen_glyph.
  destruct (Z.eqb_spec (tty_xpos (tty m) + 1) SCREEN_WIDTH) as [He|He]; cbn [when].
  - steps. erewrite (bind_done _ _ _ _ _ (tty_next_row_ok _ _ _ _)).
    rewrite sync_cursor_ok. split; [done|].
    apply screen_next_row_ok,
      (set_tty_xpos_ok 0 (screen_set (screen_index (tty m))
         (vga_entry c (tty_color (tty m))) (tty m))); [|done].
    by apply screen_set_ok.
    Unshelve. all: simpl; rewrite ?length_insert; done.
  - steps. rewrite sync_cursor_ok. split; [done|].
    apply set_tty_xpos_ok; [by apply screen_set_ok|lia].
Qed.

(** ** Characters and strings

    [term_putc c m] is the machine after [c] was printed; strings are printed
    left to right. *)

Definition term_glyph (c : Z) (m : machine) : machine :=
  shown (screen_glyph c (tty m)) m.

Definition term_putc (c : Z) (m : machine) : machine :=
  if c =? NL then shown (screen_newline (tty m)) m
  else if c =? TAB then
    Nat.iter (Z.to_nat (8 - tty_xpos (tty m) mod 8)) (term_glyph SPACE) m
  else term_glyph c m.

Definition term_puts (cs : list Z) (m : machine) : machine :=
  foldl (λ m c, term_putc c m) m cs.

Lemma tty_glyphs_ok c n m :
  tty_ok (tty m) → ∀ i,
  for_range n i (λ _, tty_put_glyph c) m = Done tt (Nat.iter n (term_glyph c) m) ∧
  tty_ok (tty (Nat.iter n (term_glyph c) m)).
Proof.
  revert m. induction n as [|n IH]; intros m Hok i; [done|].
  destruct (tty_put_glyph_ok c m Hok) as [Hg Hok']. cbn [for_range]. run Hg.
  rewrite Nat.iter_succ_r. by apply IH.
Qed.

Lemma tty_putc_ok c m :
  tty_ok (tty m) →
  tty_putc c m = Done tt (term_putc c m) ∧ tty_ok (tty (term_putc c m)).
Proof.
  intros Hok. pose proof Hok as [Hb Hl Hx Hy]. unfold tty_putc, term_putc.
  destruct (c =? NL); [|destruct (c =? TAB)].
  - unfold mod_tty. steps.
    run (tty_next_row_ok (set_tty (set_tty_xpos 0 (tty m)) m) Hb Hl Hy).
    rewrite sync_cursor_ok. split; [done|].
    by apply screen_next_row_ok, set_tty_xpos_ok.
  - unfold gets_tty. steps. by apply tty_glyphs_ok.
  - by apply tty_put_glyph_ok.
Qed.

Lemma tty_write_ok cs rest m :
  tty_ok (tty m) →
  tty_write (cs ++ rest) (Z.of_nat (length cs)) m = Done tt (term_puts cs m) ∧
  tty_ok (tty (term_puts cs m)).
Proof.
  unfold tty_write. rewrite Nat2Z.id. revert m.
  induction cs as [|c cs IH]; intros m Hok; [done|].
  destruct (tty_putc_ok c m Hok) as [Hc Hok']. simpl. run Hc. by apply IH.
Qed.

Lemma tty_printstr_ok cs m :
  Forall (λ c, c ≠ 0) cs → tty_ok (tty m) →
  tty_printstr cs m = Done tt (term_puts cs m) ∧ tty_ok (tty (term_puts cs m)).
Proof.
  intros Hcs. revert m. induction Hcs as [|c cs Hc Hcs IH]; intros m Hok; [done|].
  destruct (tty_putc_ok c m Hok) as [Hp Hok']. simpl.
  destruct (Z.eqb_spec c 0); [done|]. run Hp. by apply IH.
Qed.

Lemma term_puts_app cs cs' m :
  term_puts (cs ++ cs') m = term_puts cs' (term_puts cs m).
Proof. apply foldl_app. Qed.

Lemma term_putc_only_terminal c m : only_terminal m (term_putc c m).
Proof.
  unfold term_putc. destruct (c =? NL); [apply only_terminal_shown|].
  destruct (c =? TAB); [|apply only_terminal_shown].
  induction (Z.to_nat _) as [|n IH]; [reflexivity|]. simpl.
  etransitivity; [apply IH|apply only_terminal_shown].
Qed.

Lemma term_puts_only_terminal cs m : only_terminal m (term_puts cs m).
Proof.
  revert m. induction cs as [|c cs IH]; intros m; simpl; [reflexivity|].
  etransitivity; [apply term_putc_only_terminal|apply IH].
Qed.

(** ** Numbers *)

(** The value of a string of digits in base [b]; [digit] reads one. *)
Definition parse_digits (b : Z) (digit : Z → Z) (cs : list Z) : Z :=
  foldl (λ n c, n * b + digit c) 0 cs.

Definition decimal_digit (c : Z) : Z := c - 48.

Definition hex_digit (c : Z) : Z := if c <? 58 then c - 48 else c - 87.

Definition decimal (n : Z) : list Z :=
  if n =? 0 then [48] else (λ d, 48 + d) <$> rev (printint_digits 32 n).

Definition nibble (n i : Z) : Z := Z.land (Z.shiftr n (4 * i)) 15.

Definition hex_char (d : Z) : Z := if d <? 10 then 48 + d else 87 + d.

Definition hexadecimal (n : Z) : list Z :=
  if n =? 0 then [48] else hex_char <$> (nibble n <$> [7; 6; 5; 4; 3; 2; 1; 0]).

Lemma put_digits_ok ds m :
  tty_ok (tty m) →
  put_digits ds m = Done tt (term_puts ((λ d, 48 + d) <$> ds) m) ∧
  tty_ok (tty (term_puts ((λ d, 48 + d) <$> ds) m)).
Proof.
  revert m. induction ds as [|d ds IH]; intros m Hok; [done|].
  destruct (tty_putc_ok (48 + d) m Hok) as [Hp Hok']. cbn [put_digits]. run Hp.
  by apply IH.
Qed.

Lemma tty_printint_ok n m :
  tty_ok (tty m) →
  tty_printint n m = Done tt (term_puts (decimal n) m) ∧
  tty_ok (tty (term_puts (decimal n) m)).
Proof.
  intros Hok. unfold tty_printint, decimal. destruct (n =? 0).
  - by apply tty_putc_ok.
  - by apply put_digits_ok.
Qed.

(** The digits, least significant first, are those of [n]. *)
Lemma printint_digits_value fuel n :
  0 <= n < 10 ^ Z.of_nat fuel →
  foldr (λ d k, d + 10 * k) 0 (printint_digits fuel n) = n ∧
  Forall (λ d, 0 <= d < 10) (printint_digits fuel n).
Proof.
  revert n. induction fuel as [|fuel IH]; intros n Hn.
  - simpl in *. split; [lia|done].
  - cbn [printint_digits]. destruct (Z.ltb_spec 0 n) as [Hp|Hp]; [|split; [simpl; lia|done]].
    rewrite Nat2Z.inj_succ, Z.pow_succ_r in Hn by lia.
    destruct (IH (n / 10)) as [Hv Hd]; [mlia|]. cbn [foldr]. rewrite Hv.
    split; [mlia|]. constructor; [mlia|done].
Qed.

Lemma parse_decimal_digits ds :
  parse_digits 10 decimal_digit ((λ d, 48 + d) <$> rev ds) =
    foldr (λ d k, d + 10 * k) 0 ds.
Proof.
  unfold parse_digits. induction ds as [|d ds IH]; [done|].
  cbn [rev]. rewrite fmap_app, foldl_app, IH. simpl. unfold decimal_digit. lia.
Qed.

Lemma parse_decimal n : word n → parse_digits 10 decimal_digit (decimal n) = n.
Proof.
  intros Hn. unfold decimal. destruct (Z.eqb_spec n 0) as [->|]; [done|].
  rewrite parse_decimal_digits. apply printint_digits_value.
  unfold word, W32 in Hn. simpl. lia.
Qed.

Lemma nibble_range n i : 0 <= nibble n i < 16.
Proof.
  unfold nibble. change 15 with (Z.ones 4). rewrite Z.land_ones by lia.
  apply Z.mod_pos_bound. done.
Qed.

Lemma hex_lookup d : 0 <= d < 16 → hex !! Z.to_nat d = Some (hex_char d).
Proof.
  apply (all_below_spec 16 (λ d, hex !! Z.to_nat d = Some (hex_char d))). reflexivity.
Qed.

Lemma hex_digit_char d : 0 <= d < 16 → hex_digit (hex_char d) = d.
Proof.
  intros Hd. unfold hex_digit, hex_char.
  destruct (Z.ltb_spec d 10).
  - destruct (Z.ltb_spec (48 + d) 58); lia.
  - destruct (Z.ltb_spec (87 + d) 58); lia.
Qed.

(** The shifted-out nibble of round [k] is nibble [7 - k] of the number. *)
Lemma top_nibble n k :
  word n → 0 <= k < 8 →
  Z.land (Z.shiftr (Z.land (u32 (Z.shiftl n (4 * k))) 0xF0000000) 28) 0x0F
  = nibble n (7 - k).
Proof.
  intros Hn Hk. unfold nibble. apply Z.bits_inj'. intros i Hi.
  rewrite !Z.land_spec, !Z.shiftr_spec, Z.land_spec by lia.
  change 15 with (Z.ones 4). change 4026531840 with (Z.shiftl (Z.ones 4) 28).
  rewrite u32_testbit, !Z.shiftl_spec by lia.
  destruct (Z.lt_ge_cases i 4).
  - rewrite !Z.ones_spec_low by lia. rewrite !andb_true_r.
    destruct (Z.ltb_spec (i + 28) 32); [|lia]. simpl. f_equal. lia.
  - rewrite (Z.ones_spec_high 4 i) by lia. by rewrite !andb_false_r.
Qed.

Lemma nibble_split n i j :
  0 <= n → 0 <= i → j = i + 1 → n / 16 ^ i = n / 16 ^ j * 16 + nibble n i.
Proof.
  intros Hn Hi ->. unfold nibble. change 15 with (Z.ones 4).
  rewrite Z.land_ones, Z.shiftr_div_pow2 by lia.
  replace (2 ^ (4 * i)) with (16 ^ i) by (rewrite Z.pow_mul_r by lia; done).
  rewrite Z.pow_add_r, <- Z.div_div by lia. change (16 ^ 1) with 16.
  change (2 ^ 4) with 16. pose proof (Z.div_mod (n / 16 ^ i) 16). lia.
Qed.

Lemma parse_hexadecimal n : word n → parse_digits 16 hex_digit (hexadecimal n) = n.
Proof.
  intros Hn. unfold hexadecimal. destruct (Z.eqb_spec n 0) as [->|]; [done|].
  unfold parse_digits. simpl. rewrite !hex_digit_char by apply nibble_range.
  unfold word, W32 in Hn.
  pose proof (nibble_split n 0 1 ltac:(lia) ltac:(lia) eq_refl).
  pose proof (nibble_split n 1 2 ltac:(lia) ltac:(lia) eq_refl).
  pose proof (nibble_split n 2 3 ltac:(lia) ltac:(lia) eq_refl).
  pose proof (nibble_split n 3 4 ltac:(lia) ltac:(lia) eq_refl).
  pose proof (nibble_split n 4 5 ltac:(lia) ltac:(lia) eq_refl).
  pose proof (nibble_split n 5 6 ltac:(lia) ltac:(lia) eq_refl).
  pose proof (nibble_split n 6 7 ltac:(lia) ltac:(lia) eq_refl).
  pose proof (nibble_split n 7 8 ltac:(lia) ltac:(lia) eq_refl).
  assert (n / 16 ^ 8 = 0) by (apply Z.div_small; lia).
  assert (n / 16 ^ 0 = n) by apply Z.div_1_r. congruence.
Qed.

Lemma printhex_loop_ok n k m :
  word n → (k <= 8)%nat → tty_ok (tty m) →
  let cs := hex_char <$> (nibble n <$> drop (8 - k) [7; 6; 5; 4; 3; 2; 1; 0]) in
  printhex_loop k (u32 (Z.shiftl n (4 * Z.of_nat (8 - k)))) m =
    Done tt (term_puts cs m) ∧ tty_ok (tty (term_puts cs m)).
Proof.
  intros Hn. revert m. induction k as [|k IH]; intros m Hk Hok; [done|].
  cbv zeta. set (j := (8 - S k)%nat). cbn [printhex_loop]. cbv zeta.
  rewrite top_nibble by (done || lia).
  assert (7 - Z.of_nat j = Z.of_nat k) as -> by lia.
  pose proof (nibble_range n (Z.of_nat k)) as Hr.
  run (array_get_lookup hex _ _ m (proj1 Hr) (hex_lookup _ Hr)).
  destruct (tty_putc_ok (hex_char (nibble n (Z.of_nat k))) m Hok) as [Hp Hok']. run Hp.
  assert ([7; 6; 5; 4; 3; 2; 1; 0] !! j = Some (Z.of_nat k)) as Hj.
  { subst j. do 8 (destruct k as [|k]; [done|]). lia. }
  rewrite (drop_S _ _ _ Hj). replace (S j) with (8 - k)%nat by lia.
  assert (u32 (Z.shiftl (u32 (Z.shiftl n (4 * Z.of_nat j))) 4) =
    u32 (Z.shiftl n (4 * Z.of_nat (8 - k)))) as ->.
  { rewrite !Z.shiftl_mul_pow2 by lia. unfold u32. rewrite Zmult_mod_idemp_l.
    f_equal. replace (4 * Z.of_nat (8 - k)) with (4 * Z.of_nat j + 4) by lia.
    rewrite Z.pow_add_r by lia. lia. }
  apply IH; [lia|done].
Qed.

Lemma tty_printhex_ok n m :
  word n → tty_ok (tty m) →
  tty_printhex n m = Done tt (term_puts (hexadecimal n) m) ∧
  tty_ok (tty (term_puts (hexadecimal n) m)).
Proof.
  intros Hn Hok. unfold tty_printhex, hexadecimal. destruct (n =? 0).
  - by apply tty_putc_ok.
  - pose proof (printhex_loop_ok n 8 m Hn ltac:(lia) Hok) as Hl. cbv zeta in Hl.
    change (4 * Z.of_nat (8 - 8)) with 0 in Hl.
    rewrite Z.shiftl_0_r, u32_small in Hl by done. apply Hl.
Qed.

(** ** kprintf *)

(** What a format string and its arguments print, with the number of
    characters [printed] counts: nothing when [kprintf] is undefined. *)
Definition expand_conversion (c : Z) (args : list va_arg)
  : option (list Z * list va_arg * Z) :=
  if c =? 37 then Some ([37], args, 1)
  else if (c =? 100) || (c =? 117) || (c =? 105) then
    match args with VaInt n :: rest => Some (decimal n, rest, 0) | _ => None end
  else if (c =? 120) || (c =? 88) then
    match args with VaInt n :: rest => Some (hexadecimal n, rest, 0) | _ => None end
  else if c =? 115 then
    match args with VaStr s :: rest => Some (s, rest, 0) | _ => None end
  else Some ([], args, 0).

Fixpoint expand (format : list Z) (args : list va_arg) (fmt_flag : bool)
  : option (list Z * Z) :=
  match format with
  | [] => Some ([], 0)
  | c :: format' =>
      if fmt_flag then
        '(cs, rest, k) ← expand_conversion c args;
        '(cs', n) ← expand format' rest false;
        Some (cs ++ cs', k + 1 + n)
      else if c =? 37 then
        '(cs', n) ← expand format' args true; Some (cs', 1 + n)
      else
        '(cs', n) ← expand format' args false; Some (c :: cs', 1 + n)
  end.

Definition va_ok (a : va_arg) : Prop :=
  match a with VaInt n => word n | VaStr s => Forall (λ c, c ≠ 0) s end.

Lemma kprintf_conversion_ok c args cs rest k m :
  Forall va_ok args → tty_ok (tty m) →
  expand_conversion c args = Some (cs, rest, k) →
  kprintf_conversion c args m = Done (rest, k) (term_puts cs m) ∧
  tty_ok (tty (term_puts cs m)) ∧ Forall va_ok rest.
Proof.
  intros Hargs Hok. unfold expand_conversion, kprintf_conversion.
  repeat case_match; intros [= <- <- <-]; try (by split_and!).
  1: destruct (tty_putc_ok 37 m Hok) as [Hp Hok']; run Hp; by split_and!.
  all: apply Forall_cons_1 in Hargs as [Ha Hargs]; unfold va_int, va_str; steps.
  1: destruct (tty_printint_ok n m Hok) as [Hp Hok'].
  2: destruct (tty_printhex_ok n m Ha Hok) as [Hp Hok'].
  3: destruct (tty_printstr_ok s m Ha Hok) as [Hp Hok'].
  all: run Hp; by split_and!.
Qed.

Lemma kprintf_loop_ok format : ∀ args flag printed i cs n m,
  Forall va_ok args → tty_ok (tty m) →
  expand format args flag = Some (cs, n) →
  kprintf_loop format args flag printed i m =
    Done (u32 (printed + i + n)) (term_puts cs m) ∧
  tty_ok (tty (term_puts cs m)).
Proof.
  induction format as [|c format IH]; intros args flag printed i cs n m Hargs Hok He.
  - simpl in He. injection He as <- <-. by rewrite Z.add_0_r.
  - cbn [expand] in He. cbn [kprintf_loop]. destruct flag; [|destruct (c =? 37)].
    + apply bind_Some in He as ([[cs1 rest] k] & Hc & He).
      apply bind_Some in He as ([cs2 n2] & Hf & [= <- <-]).
      destruct (kprintf_conversion_ok _ _ _ _ _ m Hargs Hok Hc) as (Hp & Hok' & Hr).
      run Hp. rewrite term_puts_app.
      destruct (IH _ _ (printed + k) (i + 1) _ _ _ Hr Hok' Hf) as [Hl Hok''].
      rewrite Hl. split; [|done]. do 2 f_equal. lia.
    + apply bind_Some in He as ([cs2 n2] & Hf & [= <- <-]).
      destruct (IH _ _ printed (i + 1) _ _ m Hargs Hok Hf) as [Hl Hok'].
      rewrite Hl. split; [|done]. do 2 f_equal. lia.
    + apply bind_Some in He as ([cs2 n2] & Hf & [= <- <-]).
      destruct (tty_putc_ok c m Hok) as [Hp Hok']. run Hp.
      destruct (IH _ _ printed (i + 1) _ _ _ Hargs Hok' Hf) as [Hl Hok''].
      cbn [term_puts foldl]. fold (term_puts cs2 (term_putc c m)).
      rewrite Hl. split; [|done]. do 2 f_equal. lia.
Qed.

Lemma kprintf_ok format args cs n m :
  Forall va_ok args → tty_ok (tty m) → expand format args false = Some (cs, n) →
  kprintf format args m = Done (u32 n) (term_puts cs m) ∧
  tty_ok (tty (term_puts cs m)).
Proof. intros Ha Hok He. by apply (kprintf_loop_ok _ _ _ 0 0). Qed.

(** Printing a message without conversions. *)
Lemma expand_plain cs :
  Forall (λ c, c ≠ 37) cs → expand cs [] false = Some (cs, Z.of_nat (length cs)).
Proof.
  induction 1 as [|c cs Hc Hcs IH]; [done|]. cbn [expand].
  destruct (Z.eqb_spec c 37); [done|]. rewrite IH. simpl. do 2 f_equal. lia.
Qed.

Lemma kprint_ok s m :
  Forall (λ c, c ≠ 37) (chars s) → tty_ok (tty m) →
  kprint s m = Done tt (term_puts (chars s) m) ∧ tty_ok (tty (term_puts (chars s) m)).
Proof.
  intros Hs Hok. unfold kprint.
  destruct (kprintf_ok _ _ _ _ m ltac:(by constructor) Hok (expand_plain _ Hs)) as [Hk Hok'].
  run Hk. done.
Qed.

(** [panic] prints its message and never returns. *)
Lemma panic_ok msg m :
  Forall (λ c, c ≠ 0) msg → tty_ok (tty m) →
  ∃ m', panic msg m = Stop Panicked m' ∧
    tty m' = tty (term_puts (chars "KERNEL PANIC: " ++ msg ++ [NL]) m) ∧
    eflags_if (cpu m') = false.
Proof.
  intros Hmsg Hok.
  destruct (kprintf_ok (chars "KERNEL PANIC: %s" ++ [NL]) [VaStr msg]
    (chars "KERNEL PANIC: " ++ msg ++ [NL]) 17 m) as [Hk Hok'].
  - by repeat constructor.
  - done.
  - reflexivity.
  - unfold panic. run Hk. eexists. split_and!; reflexivity.
Qed.

(** ** Clearing the screen *)

Definition BLANK : Z := vga_entry SPACE (vga_color_entry VGA_COLOR_WHITE VGA_COLOR_BLACK).

Definition screen_clear (t : tty_state) : tty_state :=
  TtyState 0 0 (vga_color_entry VGA_COLOR_WHITE VGA_COLOR_BLACK) VGA_BUFFER
    (replicate (length (vga_cells t)) BLANK).

Section Clear.
Context (m : machine).
Hypothesis (Hl : length (vga_cells (tty m)) = 2000%nat).
Hypothesis (Hb : tty_buffer (tty m) = VGA_BUFFER).
Hypothesis (Hc : tty_color (tty m) = vga_color_entry VGA_COLOR_WHITE VGA_COLOR_BLACK).

Definition clearing (k : nat) : machine :=
  set_tty (set_vga_cells (replicate k BLANK ++ drop k (vga_cells (tty m))) (tty m)) m.

Lemma clear_cell k :
  (k < 2000)%nat →
  (color ← gets_tty tty_color; tty_buffer_set (Z.of_nat k) (vga_entry SPACE color))
    (clearing k) = Done tt (clearing (k + 1)).
Proof using Hl Hb Hc.
  intros Hk. msteps. cbn [tty set_tty tty_color set_vga_cells clearing]. rewrite Hc.
  rewrite tty_buffer_set_ok; [|done|].
  2: { simpl. rewrite length_app, length_replicate, length_drop. lia. }
  unfold screen_set, clearing. simpl. rewrite Nat2Z.id.
  destruct (lookup_lt_is_Some_2 (vga_cells (tty m)) k) as [y Hy]; [lia|].
  rewrite (drop_S _ _ _ Hy), insert_app_r_alt, length_replicate, Nat.sub_diag
    by (rewrite length_replicate; lia).
  rewrite replicate_add, <- app_assoc. simpl. by rewrite Nat.add_1_r.
Qed.

Lemma clear_cells :
  for_range (Z.to_nat SCREEN_HEIGHT) 0 (λ y,
    for_range (Z.to_nat SCREEN_WIDTH) 0 (λ x,
      let index := y * SCREEN_WIDTH + x in
      color ← gets_tty tty_color;
      tty_buffer_set index (vga_entry SPACE color))) (clearing 0)
  = Done tt (clearing 2000).
Proof using Hl Hb Hc.
  apply (for_range_steps 25 0 _ (λ k, clearing (k * 80))). intros k Hk.
  replace ((k + 1) * 80)%nat with (k * 80 + 80)%nat by lia.
  replace (clearing (k * 80)) with (clearing (k * 80 + 0)) by (f_equal; lia).
  apply (for_range_steps 80 0 _ (λ j, clearing (k * 80 + j))). intros j Hj.
  rewrite !Z.add_0_l, Nat.add_assoc, <- (clear_cell (k * 80 + j)) by lia. cbv zeta.
  by replace (Z.of_nat k * SCREEN_WIDTH + Z.of_nat j) with (Z.of_nat (k * 80 + j))
    by (unfold SCREEN_WIDTH; lia).
Qed.
End Clear.

Lemma tty_clear_ok m :
  length (vga_cells (tty m)) = 2000%nat →
  tty_clear m = Done tt (shown (screen_clear (tty m)) m) ∧ tty_ok (screen_clear (tty m)).
Proof.
  intros Hl. unfold tty_clear. msteps.
  set (m1 := set_tty _ _).
  pose proof (clear_cells m1 Hl eq_refl eq_refl) as Hc.
  assert (clearing m1 0 = m1) as E0 by done.
  assert (clearing m1 2000 = set_tty (set_vga_cells
    (replicate (length (vga_cells (tty m))) BLANK) (tty m1)) m1) as E1.
  { unfold clearing. rewrite drop_ge, app_nil_r by (apply Nat.eq_le_incl, Hl).
    by rewrite Hl. }
  rewrite E0, E1 in Hc. run Hc. steps. rewrite update_cursor_ok. split; [reflexivity|].
  split; try done. cbn [screen_clear vga_cells]. by rewrite length_replicate.
Qed.

(** ** Erasing the previous character *)

Definition screen_back (t : tty_state) : tty_state :=
  if tty_xpos t =? 0
  then set_tty_ypos (tty_ypos t - 1) (set_tty_xpos (SCREEN_WIDTH - 1) t)
  else set_tty_xpos (tty_xpos t - 1) t.

Definition screen_deleteprev (t : tty_state) : tty_state :=
  let t' := screen_back t in
  screen_set (screen_index t') (vga_entry SPACE (tty_color t')) t'.

Lemma screen_back_ok t :
  tty_ok t → ¬ (tty_xpos t = 0 ∧ tty_ypos t = 0) → tty_ok (screen_back t).
Proof.
  intros [Hb Hl Hx Hy] Hn. unfold screen_back, SCREEN_WIDTH, SCREEN_HEIGHT in *.
  destruct (Z.eqb_spec (tty_xpos t) 0); split; simpl; unfold SCREEN_WIDTH, SCREEN_HEIGHT;
    try done; lia.
Qed.

Lemma tty_deleteprev_ok m :
  tty_ok (tty m) → ¬ (tty_xpos (tty m) = 0 ∧ tty_ypos (tty m) = 0) →
  tty_deleteprev m = Done tt (shown (screen_deleteprev (tty m)) m) ∧
  tty_ok (screen_deleteprev (tty m)).
Proof.
  intros Hok Hn. pose proof (screen_back_ok _ Hok Hn) as Hok'.
  pose proof Hok as [Hb Hl Hx Hy]. unfold tty_deleteprev. msteps.
  assert ((if tty_xpos (tty m) =? 0 then
       mod_tty (set_tty_xpos (SCREEN_WIDTH - 1));; mod_tty (set_tty_ypos (tty_ypos (tty m) [-] 1))
     else mod_tty (set_tty_xpos (tty_xpos (tty m) [-] 1))) m
    = Done tt (set_tty (screen_back (tty m)) m)) as Eb.
  { unfold screen_back, SCREEN_WIDTH, SCREEN_HEIGHT in *.
    destruct (Z.eqb_spec (tty_xpos (tty m)) 0); msteps;
      unfold modify; rewrite u32_small by word_lia; done. }
  assert ((tty_xpos (tty m) =? 0) && (tty_ypos (tty m) =? 0) = false) as -> by lia.
  unfold mod_tty in Eb. run Eb. msteps.
  run (tty_putentryat_ok SPACE (set_tty (screen_back (tty m)) m) Hok'
    (tty_color (screen_back (tty m)))). rewrite sync_cursor_ok.
  split; [reflexivity|]. unfold screen_deleteprev. cbv zeta. by apply screen_set_ok.
Qed.

(** ** The screen alone *)

Definition screen_putc (c : Z) (t : tty_state) : tty_state :=
  if c =? NL then screen_newline t
  else if c =? TAB then
    Nat.iter (Z.to_nat (8 - tty_xpos t mod 8)) (screen_glyph SPACE) t
  else screen_glyph c t.

Definition screen_puts (cs : list Z) (t : tty_state) : tty_state :=
  foldl (λ t c, screen_putc c t) t cs.

(** The hardware cursor was last set to where [tty m] says. *)
Definition cursor_synced (m : machine) : Prop :=
  ∃ l, io_log (ports m) = cursor_log (tty m) ++ l.

Lemma cursor_synced_shown t m : cursor_synced (shown t m).
Proof. eexists. reflexivity. Qed.

Lemma tty_iter_glyph c n m :
  tty (Nat.iter n (term_glyph c) m) = Nat.iter n (screen_glyph c) (tty m).
Proof. induction n as [|n IH]; [done|]. simpl. by rewrite IH. Qed.

Lemma tty_term_putc c m : tty (term_putc c m) = screen_putc c (tty m).
Proof.
  unfold term_putc, screen_putc. destruct (c =? NL); [done|].
  destruct (c =? TAB); [|done]. apply tty_iter_glyph.
Qed.

Lemma tty_term_puts cs m : tty (term_puts cs m) = screen_puts cs (tty m).
Proof.
  revert m. induction cs as [|c cs IH]; intros m; [done|]. simpl.
  by rewrite <- tty_term_putc, <- IH.
Qed.

Lemma cursor_synced_putc c m : cursor_synced (term_putc c m).
Proof.
  unfold term_putc. destruct (c =? NL); [apply cursor_synced_shown|].
  destruct (c =? TAB); [|apply cursor_synced_shown].
  assert (0 < 8 - tty_xpos (tty m) mod 8) as Hp by mlia.
  destruct (Z.to_nat _) eqn:E; [lia|]. apply cursor_synced_shown.
Qed.

(** ** Properties *)

(** A cleared screen in an otherwise fresh machine. *)
Definition clean_screen : machine := set_tty (screen_clear (tty power_on)) power_on.

Lemma clean_screen_ok : tty_ok (tty clean_screen).
Proof. by split. Qed.

(** [tty_putc] implements the abstract screen: on a well-formed
    terminal it returns, the new screen is [screen_putc] of the old one, the
    terminal stays well formed (so no write ever leaves the 80x25 cells), the
    hardware cursor shows the new position, and nothing but the screen and
    the port log changes. *)
Theorem tty_putc_refines c m :
  tty_ok (tty m) →
  ∃ m', tty_putc c m = Done tt m' ∧ tty m' = screen_putc c (tty m) ∧ tty_ok (tty m') ∧
    cursor_synced m' ∧ only_terminal m m'.
Proof.
  intros Hok. destruct (tty_putc_ok c m Hok) as [E Hok']. exists (term_putc c m).
  auto using tty_term_putc, cursor_synced_putc, term_putc_only_terminal.
Qed.

Lemma tty_putc_refines_witness :
  ∃ m', tty_putc TAB clean_screen = Done tt m' ∧
    tty m' = screen_putc TAB (tty clean_screen) ∧ tty_ok (tty m') ∧
    cursor_synced m' ∧ only_terminal clean_screen m'.
Proof. exact (tty_putc_refines TAB clean_screen clean_screen_ok). Defined.

(** [tty_scroll] moves every row up by one, blanks the last row and
    steps the row back; nothing else of the machine changes. *)
Theorem tty_scroll_moves_rows m :
  tty_buffer (tty m) = VGA_BUFFER → length (vga_cells (tty m)) = 2000%nat →
  1 <= tty_ypos (tty m) <= SCREEN_HEIGHT →
  ∃ cells, tty_scroll m = Done tt
      (set_tty (set_tty_ypos (tty_ypos (tty m) - 1) (set_vga_cells cells (tty m))) m) ∧
    length cells = 2000%nat ∧
    ∀ x y, (x < 80)%nat → (y < 25)%nat →
      cells !! (y * 80 + x)%nat =
        if decide (y = 24%nat) then Some SPACE
        else vga_cells (tty m) !! ((y + 1) * 80 + x)%nat.
Proof.
  intros Hb Hl Hy. exists (scroll_cells (vga_cells (tty m))). split_and!.
  - by rewrite tty_scroll_ok.
  - unfold scroll_cells. rewrite length_app, length_drop, length_replicate. lia.
  - intros x y Hx Hy'. unfold scroll_cells. case_decide as Hd.
    + rewrite lookup_app_r, length_drop by (rewrite length_drop; lia).
      apply lookup_replicate_2. lia.
    + rewrite lookup_app_l, lookup_drop by (rewrite length_drop; lia). f_equal. lia.
Qed.

Lemma tty_scroll_moves_rows_witness :
  ∃ cells, tty_scroll (set_tty (set_tty_ypos 25 (tty clean_screen)) clean_screen) = Done tt
      (set_tty (set_tty_ypos 24 (set_vga_cells cells
        (set_tty_ypos 25 (tty clean_screen)))) (set_tty (set_tty_ypos 25
          (tty clean_screen)) clean_screen)) ∧
    length cells = 2000%nat ∧
    ∀ x y, (x < 80)%nat → (y < 25)%nat →
      cells !! (y * 80 + x)%nat =
        if decide (y = 24%nat) then Some SPACE
        else vga_cells (tty clean_screen) !! ((y + 1) * 80 + x)%nat.
Proof.
  apply (tty_scroll_moves_rows (set_tty (set_tty_ypos 25 (tty clean_screen)) clean_screen));
    done.
Defined.

(** [tty_clear] sets up the terminal from any state: it needs no
    earlier initialisation, blanks all 2000 cells in white on black, homes
    the cursor and leaves a well-formed terminal. *)
Theorem tty_clear_initialises m :
  length (vga_cells (tty m)) = 2000%nat →
  ∃ m', tty_clear m = Done tt m' ∧ tty_ok (tty m') ∧
    vga_cells (tty m') = replicate 2000 BLANK ∧
    tty_xpos (tty m') = 0 ∧ tty_ypos (tty m') = 0 ∧
    cursor_synced m' ∧ only_terminal m m'.
Proof.
  intros Hl. destruct (tty_clear_ok m Hl) as [E Hok].
  exists (shown (screen_clear (tty m)) m). split_and!; try done.
  - unfold shown, screen_clear. cbn [tty set_tty set_ports vga_cells]. by rewrite Hl.
  - apply cursor_synced_shown.
Qed.

Lemma tty_clear_initialises_witness :
  ∃ m', tty_clear power_on = Done tt m' ∧ tty_ok (tty m') ∧
    vga_cells (tty m') = replicate 2000 BLANK ∧
    tty_xpos (tty m') = 0 ∧ tty_ypos (tty m') = 0 ∧
    cursor_synced m' ∧ only_terminal power_on m'.
Proof. apply (tty_clear_initialises power_on). by vm_compute. Defined.

Lemma glyph_then_delete c t :
  tty_ok t → screen_index t ≠ 1999 →
  screen_deleteprev (screen_glyph c t) =
    screen_set (screen_index t) (vga_entry SPACE (tty_color t)) t.
Proof.
  intros [Hb Hl Hx Hy] Hn. unfold screen_index, SCREEN_WIDTH, SCREEN_HEIGHT in *.
  unfold screen_deleteprev, screen_glyph, screen_next_row, screen_back, SCREEN_HEIGHT,
    SCREEN_WIDTH.
  destruct (Z.eqb_spec (tty_xpos t + 1) 80) as [Ex|Ex]; cbn [tty_ypos tty_xpos set_tty_xpos
    screen_set set_vga_cells].
  - destruct (Z.eqb_spec (tty_ypos t + 1) 25); [lia|]. unfold screen_set, screen_index.
    destruct t as [y x col buf cells]. cbn in *. assert (x = 79) as -> by lia.
    unfold SCREEN_WIDTH. replace (y + 1 - 1) with y by lia.
    by rewrite list_insert_insert_eq.
  - destruct (Z.eqb_spec (tty_xpos t + 1) 0); [lia|]. unfold screen_set, screen_index.
    destruct t as [y x col buf cells]. cbn in *. replace (x + 1 - 1) with x by lia.
    by rewrite list_insert_insert_eq.
Qed.

(** [tty_deleteprev] undoes an ordinary character.  Printing one
    anywhere but in the last cell and then erasing it puts the cursor back
    where it was, leaves a blank in that cell, and leaves every other cell
    alone, also across the end of a row. *)
Theorem tty_deleteprev_undoes_putc c m :
  tty_ok (tty m) → c ≠ NL → c ≠ TAB → screen_index (tty m) ≠ 1999 →
  ∃ m', (tty_putc c;; tty_deleteprev) m = Done tt m' ∧
    tty m' = screen_set (screen_index (tty m)) (vga_entry SPACE (tty_color (tty m))) (tty m) ∧
    tty_ok (tty m') ∧ cursor_synced m'.
Proof.
  intros Hok Hnl Htab Hi. destruct (tty_putc_ok c m Hok) as [E Hok1]. run E.
  assert (tty (term_putc c m) = screen_glyph c (tty m)) as Et.
  { rewrite tty_term_putc. unfold screen_putc.
    by rewrite (proj2 (Z.eqb_neq _ _) Hnl), (proj2 (Z.eqb_neq _ _) Htab). }
  destruct (tty_deleteprev_ok (term_putc c m) Hok1) as [E2 Hok2].
  { rewrite Et. destruct Hok as [_ _ Hx Hy].
    unfold screen_glyph, screen_next_row, screen_index, SCREEN_WIDTH, SCREEN_HEIGHT in *.
    repeat case_match; cbn in *; lia. }
  eexists. split; [exact E2|]. rewrite Et in *. split_and!.
  - by apply glyph_then_delete.
  - done.
  - apply cursor_synced_shown.
Qed.

Lemma tty_deleteprev_undoes_putc_witness :
  ∃ m', (tty_putc 65;; tty_deleteprev) clean_screen = Done tt m' ∧
    tty m' = screen_set 0 BLANK (tty clean_screen) ∧ tty_ok (tty m') ∧ cursor_synced m'.
Proof.
  apply (tty_deleteprev_undoes_putc 65 clean_screen); [exact clean_screen_ok|done..].
Defined.

(** C27: [kprintf] prints the expansion of its format.  With well-formed
    arguments it returns the number of characters its counter saw, and the
    screen is the old one after printing the expanded string: literal
    characters, decimal for d, u and i, hexadecimal for x and X, strings for
    s, a percent sign for a doubled one, nothing for unknown conversions. *)
Theorem kprintf_expands format args cs n m :
  Forall va_ok args → tty_ok (tty m) → expand format args false = Some (cs, n) →
  ∃ m', kprintf format args m = Done (u32 n) m' ∧
    tty m' = screen_puts cs (tty m) ∧ tty_ok (tty m') ∧ only_terminal m m'.
Proof.
  intros Ha Hok He. destruct (kprintf_ok _ _ _ _ _ Ha Hok He) as [E Hok'].
  exists (term_puts cs m). auto using tty_term_puts, term_puts_only_terminal.
Qed.

Lemma kprintf_expands_witness :
  ∃ m', kprintf (chars "pid %d at %x: %s%%") [VaInt 4096; VaInt 48879; VaStr (chars "ok")]
      clean_screen = Done 19 m' ∧
    tty m' = screen_puts (chars "pid 4096 at 0000beef: ok%") (tty clean_screen) ∧
    tty_ok (tty m') ∧ only_terminal clean_screen m'.
Proof.
  apply (kprintf_expands (chars "pid %d at %x: %s%%")
    [VaInt 4096; VaInt 48879; VaStr (chars "ok")] _ 19 clean_screen).
  - by repeat constructor.
  - exact clean_screen_ok.
  - reflexivity.
Defined.

Lemma printint_digits_last fuel n :
  0 < n < 10 ^ Z.of_nat fuel → ∃ d, last (printint_digits fuel n) = Some d ∧ d ≠ 0.
Proof.
  revert n. induction fuel as [|fuel IH]; intros n Hn; [simpl in Hn; lia|].
  cbn [printint_digits]. destruct (Z.ltb_spec 0 n); [|lia].
  rewrite Nat2Z.inj_succ, Z.pow_succ_r in Hn by lia.
  destruct (Z.lt_ge_cases 0 (n / 10)) as [Hq|Hq].
  - destruct (IH (n / 10)) as (d & Hd & Hd0); [mlia|]. exists d. split; [|done].
    rewrite last_cons, Hd. done.
  - exists (n mod 10). rewrite last_cons.
    assert (printint_digits fuel (n / 10) = []) as ->.
    { destruct fuel as [|fuel]; [done|]. cbn [printint_digits].
      by destruct (Z.ltb_spec 0 (n / 10)); [lia|]. }
    split; [done|mlia].
Qed.

(** [tty_printint] prints the decimal numeral of any 32-bit value:
    ASCII digits that read back as the value, without a leading zero. *)
Theorem tty_printint_decimal n m :
  word n → tty_ok (tty m) →
  ∃ cs m', tty_printint n m = Done tt m' ∧ tty m' = screen_puts cs (tty m) ∧
    parse_digits 10 decimal_digit cs = n ∧ Forall (λ c, 48 <= c <= 57) cs ∧
    (n ≠ 0 → head cs ≠ Some 48) ∧ (n = 0 → cs = [48]).
Proof.
  intros Hn Hok. destruct (tty_printint_ok n m Hok) as [E _].
  exists (decimal n), (term_puts (decimal n) m). unfold word, W32 in Hn.
  assert (0 <= n < 10 ^ Z.of_nat 32) as Hr by (simpl; lia).
  destruct (printint_digits_value 32 n Hr) as [_ HF].
  split_and!; [done|apply tty_term_puts|by apply parse_decimal| | |].
  - unfold decimal. destruct (n =? 0); [by repeat constructor|].
    apply Forall_fmap, Forall_rev. eapply Forall_impl; [exact HF|]. simpl. lia.
  - intros Hn0. unfold decimal. destruct (Z.eqb_spec n 0); [done|].
    assert (0 < n) as Hpos by lia.
    destruct (printint_digits_last 32 n (conj Hpos (proj2 Hr))) as (d & Hd & Hd0).
    rewrite <- (rev_involutive (printint_digits 32 n)) in Hd.
    destruct (rev (printint_digits 32 n)) as [|d' ds]; [done|].
    simpl in Hd. rewrite last_snoc in Hd. injection Hd as ->. simpl. intros [=]. lia.
  - intros ->. done.
Qed.

Lemma tty_printint_decimal_witness :
  ∃ cs m', tty_printint 4294967295 clean_screen = Done tt m' ∧
    tty m' = screen_puts cs (tty clean_screen) ∧
    parse_digits 10 decimal_digit cs = 4294967295 ∧ Forall (λ c, 48 <= c <= 57) cs ∧
    (4294967295 ≠ 0 → head cs ≠ Some 48) ∧ (4294967295 = 0 → cs = [48]).
Proof. apply (tty_printint_decimal 4294967295 clean_screen); [done|exact clean_screen_ok]. Defined.

(** [tty_printhex] prints eight lower-case hexadecimal digits that read
    back as the value, and the single digit 0 for zero. *)
Theorem tty_printhex_reads_back n m :
  word n → tty_ok (tty m) →
  ∃ cs m', tty_printhex n m = Done tt m' ∧ tty m' = screen_puts cs (tty m) ∧
    parse_digits 16 hex_digit cs = n ∧
    length cs = (if n =? 0 then 1%nat else 8%nat).
Proof.
  intros Hn Hok. destruct (tty_printhex_ok n m Hn Hok) as [E _].
  exists (hexadecimal n), (term_puts (hexadecimal n) m).
  split_and!; [done|apply tty_term_puts|by apply parse_hexadecimal|].
  unfold hexadecimal. by destruct (n =? 0).
Qed.

Lemma tty_printhex_reads_back_witness :
  ∃ cs m', tty_printhex 3735928559 clean_screen = Done tt m' ∧
    tty m' = screen_puts cs (tty clean_screen) ∧
    parse_digits 16 hex_digit cs = 3735928559 ∧ length cs = 8%nat.
Proof.
  apply (tty_printhex_reads_back 3735928559 clean_screen); [done|exact clean_screen_ok].
Defined.

(** [panic] never returns: it prints its message behind the banner,
    turns interrupts off and loops for ever in that state. *)
Theorem panic_stops msg m :
  Forall (λ c, c ≠ 0) msg → tty_ok (tty m) →
  ∃ m', panic msg m = Stop Panicked m' ∧ eflags_if (cpu m') = false ∧
    tty m' = screen_puts (chars "KERNEL PANIC: " ++ msg ++ [NL]) (tty m).
Proof.
  intros Hmsg Hok. destruct (panic_ok msg m Hmsg Hok) as (m' & E & Et & Ei).
  exists m'. split_and!; [done|done|]. by rewrite Et, tty_term_puts.
Qed.

Lemma panic_stops_witness :
  ∃ m', panic (chars "out of memory") clean_screen = Stop Panicked m' ∧
    eflags_if (cpu m') = false ∧
    tty m' = screen_puts (chars "KERNEL PANIC: out of memory" ++ [NL]) (tty clean_screen).
Proof.
  apply (panic_stops (chars "out of memory") clean_screen);
    [by repeat constructor|exact clean_screen_ok].
Defined.
