(* ===== verification/Screen.v ===== *)
(** * Any use of the terminal

    The functions other files call on the terminal, in any order: the screen
    keeps its type, the cursor follows, and only the terminal changes. *)

From S2P Require Import Prelude Machine Tty.

(** ** libc/stdio

    Two stubs, and [putchar], which declares [tty_putc] itself and
    passes its argument on as a character. *)
Definition printf (format : list Z) (args : list va_arg) : M Z := mret 0.

Definition puts (s : list Z) : M Z := mret 0.

Definition putchar (c : Z) : M Z := tty_putc (u8 c);; mret 0.

(** ** Printing *)

(** A line of text without conversions is printed, and only the terminal
    changes. *)
Definition printed (m m' : machine) : Prop := only_terminal m m' ∧ tty_ok (tty m').

Lemma printed_refl m : tty_ok (tty m) → printed m m.
Proof. intros H. split; [reflexivity|done]. Qed.

Lemma kprintf_prints format args cs n m :
  Forall va_ok args → tty_ok (tty m) → expand format args false = Some (cs, n) →
  ∃ m', kprintf format args m = Done (u32 n) m' ∧ printed m m'.
Proof.
  intros Ha Hok He. destruct (kprintf_ok format args cs n m Ha Hok He) as [E Hok'].
  exists (term_puts cs m). split; [done|]. split; [apply term_puts_only_terminal|done].
Qed.

Lemma panic_prints msg m :
  Forall (λ c, c ≠ 0) msg → tty_ok (tty m) →
  ∃ m', printed m m' ∧
    panic msg m = Stop Panicked (set_cpu (set_eflags_if false (cpu m')) m') ∧
    tty m' = screen_puts (chars "KERNEL PANIC: " ++ msg ++ [NL]) (tty m).
Proof.
  intros Hmsg Hok. destruct (kprintf_ok (chars "KERNEL PANIC: %s" ++ [NL]) [VaStr msg]
    (chars "KERNEL PANIC: " ++ msg ++ [NL]) (17 + Z.of_nat 0) m) as [E Hok'];
    [by repeat constructor|done|reflexivity|].
  exists (term_puts (chars "KERNEL PANIC: " ++ msg ++ [NL]) m). split_and!.
  - split; [apply term_puts_only_terminal|done].
  - unfold panic. by run E.
  - apply tty_term_puts.
Qed.

(** Port traffic changes the log only. *)
Definition ports_only (m m' : machine) : Prop := only_terminal m m' ∧ tty m' = tty m.

Lemma ports_only_trans m m1 m2 : ports_only m m1 → ports_only m1 m2 → ports_only m m2.
Proof. intros [O1 T1] [O2 T2]. split; [by etransitivity|by rewrite T2]. Qed.

Lemma outb_ports port v m : ∃ m', outb port v m = Done tt m' ∧ ports_only m m'.
Proof. eexists. split; [reflexivity|]. by split; [split|]. Qed.

Lemma inb_ports port m : ∃ v m', inb port m = Done v m' ∧ ports_only m m'.
Proof. do 2 eexists. split; [reflexivity|]. by split; [split|]. Qed.

Lemma initialize_terminal_ok m :
  length (vga_cells (tty m)) = 2000%nat →
  ∃ m', initialize_terminal m = Done tt m' ∧ printed m m' ∧
    tty m' = screen_clear (tty m) ∧ (cursor_synced m → cursor_synced m').
Proof.
  intros Hl. destruct (tty_clear_ok m Hl) as [E Hok]. unfold initialize_terminal. run E.
  set (m0 := shown _ m).
  assert (only_terminal m m0 ∧ tty m0 = screen_clear (tty m)) as [O0 T0]
    by (split; [apply only_terminal_shown|done]).
  clearbody m0. clear E.
  destruct (outb_ports 0x3D4 0x0A m0) as (m1 & E1 & P1). run E1.
  destruct (inb_ports 0x3D5 m1) as (v & m2 & E2 & P2). run E2.
  destruct (outb_ports 0x3D5 (Z.lor (Z.land v 0xC0) 0) m2) as (m3 & E3 & P3). run E3.
  destruct (outb_ports 0x3D4 0x0B m3) as (m4 & E4 & P4). run E4.
  destruct (inb_ports 0x3D5 m4) as (w & m5 & E5 & P5). run E5.
  destruct (outb_ports 0x3D5 (Z.lor (Z.land w 0xE0) 15) m5) as (m6 & E6 & P6). run E6.
  assert (ports_only m0 m6) as [O6 T6] by (do 5 (eapply ports_only_trans; [eassumption|]); done).
  msteps. rewrite update_cursor_ok. eexists. split; [reflexivity|].
  assert (set_tty_ypos 0 (set_tty_xpos 0 (set_tty_ypos 0 (set_tty_xpos 0 (tty m6)))) = screen_clear (tty m))
    as Es by (by rewrite T6, T0).
  split_and!; [split|exact Es|intros _; apply cursor_synced_shown].
  - etransitivity; [exact O0|]. etransitivity; [exact O6|]. by split.
  - cbn [shown tty set_ports set_tty]. rewrite Es. exact Hok.
Qed.

(** What is read off the rest of the machine stays. *)
Lemma printed_same m m' :
  printed m m' →
  cpu m' = cpu m ∧ mem m' = mem m ∧ pmm m' = pmm m ∧
  kernel_page_directory m' = kernel_page_directory m ∧ heap m' = heap m ∧ vmm m' = vmm m ∧
  tasks m' = tasks m ∧ timer m' = timer m ∧ interrupts m' = interrupts m ∧ gdt m' = gdt m.
Proof. intros [[E _] _]. by rewrite E. Qed.

(** ** The types of the screen *)

(** The two colours of an attribute, in its two nibbles. *)
Lemma vga_color_entry_nibbles fg bg :
  vga_color_entry fg bg = vga_color_value fg + 16 * vga_color_value bg.
Proof. by destruct fg, bg. Qed.

(** The C types of the static variables: 16 bits to a cell, 8 to the colour;
    positions within the screen. *)
Record tty_typed (t : tty_state) : Prop := {
  tt_ok : tty_ok t;
  tt_cells : Forall (λ v, 0 <= v < 65536) (vga_cells t);
  tt_color : 0 <= tty_color t < 256
}.

Lemma vga_entry_range c color : 0 <= vga_entry c color < 65536.
Proof. apply Z.mod_pos_bound. lia. Qed.

Lemma cells_next_row t :
  Forall (λ v, 0 <= v < 65536) (vga_cells t) →
  Forall (λ v, 0 <= v < 65536) (vga_cells (screen_next_row t)).
Proof.
  intros H. unfold screen_next_row. destruct (_ =? _); [|done].
  change (Forall (λ v, 0 <= v < 65536) (scroll_cells (vga_cells t))).
  unfold scroll_cells. apply Forall_app. split; [by apply Forall_drop|]. by apply Forall_replicate.
Qed.

Lemma cells_glyph c t :
  Forall (λ v, 0 <= v < 65536) (vga_cells t) →
  Forall (λ v, 0 <= v < 65536) (vga_cells (screen_glyph c t)).
Proof.
  intros H. pose proof (vga_entry_range c (tty_color t)) as Hv.
  unfold screen_glyph. destruct (_ =? _); [apply cells_next_row|]; by apply Forall_insert.
Qed.

Lemma color_next_row t : tty_color (screen_next_row t) = tty_color t.
Proof. unfold screen_next_row. by destruct (_ =? _). Qed.

Lemma color_glyph c t : tty_color (screen_glyph c t) = tty_color t.
Proof. unfold screen_glyph. destruct (_ =? _); [by rewrite color_next_row|done]. Qed.

(** Characters keep cells and colour typed; that they keep the rest of
    [tty_ok] is [tty_putc_ok]. *)
Lemma putc_typed c m : tty_typed (tty m) → tty_typed (tty (term_putc c m)).
Proof.
  intros [Hok Hc Hk]. destruct (tty_putc_ok c m Hok) as [_ Hok'].
  split; [done|..]; rewrite tty_term_putc; unfold screen_putc; clear Hok'.
  - destruct (c =? NL); [by apply cells_next_row|].
    destruct (c =? TAB); [|by apply cells_glyph].
    induction (Z.to_nat _) as [|n IH]; [done|]. by apply cells_glyph.
  - destruct (c =? NL); [by unfold screen_newline; rewrite color_next_row|].
    destruct (c =? TAB); [|by rewrite color_glyph].
    induction (Z.to_nat _) as [|n IH]; [done|]. cbn [Nat.iter nat_rect]. by rewrite color_glyph.
Qed.

Lemma puts_typed cs m : tty_typed (tty m) → tty_typed (tty (term_puts cs m)).
Proof. revert m. induction cs as [|c cs IH]; intros m H; [done|]. by apply IH, putc_typed. Qed.

Lemma cursor_synced_puts cs m : cursor_synced m → cursor_synced (term_puts cs m).
Proof.
  revert m. induction cs as [|c cs IH]; intros m H; [done|]. apply IH, cursor_synced_putc.
Qed.

(** ** Operations *)

Inductive tty_op : Type :=
| OpInitialize
| OpClear
| OpPutc (c : Z)
| OpPutchar (c : Z)
| OpDeleteprev
| OpWrite (str : list Z)
| OpPrintstr (str : list Z)
| OpPrintint (num : Z)
| OpPrinthex (num : Z)
| OpKprintf (format : list Z) (args : list va_arg).

Definition call_op (o : tty_op) : M unit :=
  match o with
  | OpInitialize => initialize_terminal
  | OpClear => tty_clear
  | OpPutc c => tty_putc c
  | OpPutchar c => putchar c;; mret tt
  | OpDeleteprev => tty_deleteprev
  | OpWrite str => tty_write str (Z.of_nat (length str))
  | OpPrintstr str => tty_printstr str
  | OpPrintint num => tty_printint num
  | OpPrinthex num => tty_printhex num
  | OpKprintf format args => kprintf format args;; mret tt
  end.

(** The arguments are of their C types, and the conversions of a format have
    theirs. *)
Definition op_ok (o : tty_op) : Prop :=
  match o with
  | OpPrintstr str => Forall (λ c, c ≠ 0) str
  | OpPrintint num | OpPrinthex num => word num
  | OpKprintf format args => Forall va_ok args ∧ is_Some (expand format args false)
  | _ => True
  end.

(** What becomes of the screen. *)
Definition op_screen (o : tty_op) (t : tty_state) : tty_state :=
  match o with
  | OpInitialize | OpClear => screen_clear t
  | OpPutc c => screen_putc c t
  | OpPutchar c => screen_putc (u8 c) t
  | OpDeleteprev =>
      if (tty_xpos t =? 0) && (tty_ypos t =? 0) then t else screen_deleteprev t
  | OpWrite str | OpPrintstr str => screen_puts str t
  | OpPrintint num => screen_puts (decimal num) t
  | OpPrinthex num => screen_puts (hexadecimal num) t
  | OpKprintf format args =>
      match expand format args false with Some (cs, _) => screen_puts cs t | None => t end
  end.

(** What every operation promises. *)
Record op_done (o : tty_op) (m m' : machine) : Prop := {
  od_screen : tty m' = op_screen o (tty m);
  od_typed : tty_typed (tty m');
  od_only : only_terminal m m';
  od_cursor : cursor_synced m → cursor_synced m'
}.

Lemma puts_done o cs m :
  tty_typed (tty m) → op_screen o (tty m) = screen_puts cs (tty m) →
  op_done o m (term_puts cs m).
Proof.
  intros H E. split; [by rewrite E, tty_term_puts|by apply puts_typed|
    apply term_puts_only_terminal|apply cursor_synced_puts].
Qed.

Lemma clear_typed t :
  length (vga_cells t) = 2000%nat → tty_typed (screen_clear t).
Proof.
  intros Hl. split; [|by apply Forall_replicate|done].
  split; try done. cbn [screen_clear vga_cells]. by rewrite length_replicate.
Qed.

Lemma deleteprev_done m :
  tty_typed (tty m) → ∃ m', tty_deleteprev m = Done tt m' ∧ op_done OpDeleteprev m m'.
Proof.
  intros [Hok Hc Hk]. destruct (decide (tty_xpos (tty m) = 0 ∧ tty_ypos (tty m) = 0)) as [[Ex Ey]|Hn].
  - exists m. split.
    + unfold tty_deleteprev. msteps. by rewrite Ex, Ey.
    + split; [by cbn; rewrite Ex, Ey|done|reflexivity|done].
  - destruct (tty_deleteprev_ok m Hok Hn) as [E Hok'].
    assert ((tty_xpos (tty m) =? 0) && (tty_ypos (tty m) =? 0) = false) as Eb by lia.
    eexists. split; [exact E|]. split; [by cbn; rewrite Eb| |apply only_terminal_shown|].
    + cbn [shown tty set_ports set_tty]. split; [done|..]; unfold screen_deleteprev, screen_back;
        destruct (_ =? 0); try done; apply Forall_insert; try done; apply vga_entry_range.
    + intros _. apply cursor_synced_shown.
Qed.

Lemma call_op_ok o m :
  op_ok o → tty_typed (tty m) → ∃ m', call_op o m = Done tt m' ∧ op_done o m m'.
Proof.
  intros Ho HT. pose proof (tt_ok _ HT) as Hok. destruct o; cbn [call_op op_ok] in *.
  - destruct (initialize_terminal_ok m ltac:(apply Hok)) as (m' & E & [O _] & T & S).
    exists m'. split; [done|]. split; [done|rewrite T; apply clear_typed, Hok|done|done].
  - destruct (tty_clear_ok m ltac:(apply Hok)) as [E _]. eexists. split; [exact E|].
    split; [done|apply clear_typed, Hok|apply only_terminal_shown|].
    intros _. apply cursor_synced_shown.
  - destruct (tty_putc_ok c m Hok) as [E _]. eexists. split; [exact E|]. by apply (puts_done _ [c]).
  - destruct (tty_putc_ok (u8 c) m Hok) as [E _]. exists (term_putc (u8 c) m).
    split; [unfold putchar; rewrite bind_assoc; by run E|]. by apply (puts_done _ [u8 c]).
  - by apply deleteprev_done.
  - destruct (tty_write_ok str [] m Hok) as [E _]. rewrite app_nil_r in E.
    eexists. split; [exact E|]. by apply puts_done.
  - destruct (tty_printstr_ok str m Ho Hok) as [E _]. eexists. split; [exact E|].
    by apply puts_done.
  - destruct (tty_printint_ok num m Hok) as [E _]. eexists. split; [exact E|]. by apply puts_done.
  - destruct (tty_printhex_ok num m Ho Hok) as [E _]. eexists. split; [exact E|].
    by apply puts_done.
  - destruct Ho as [Ha [[cs n] He]]. destruct (kprintf_ok format args cs n m Ha Hok He) as [E _].
    exists (term_puts cs m). split; [by run E|]. apply puts_done; [done|]. cbn. by rewrite He.
Qed.

(** ** Any sequence of them *)

Definition call_ops (ops : list tty_op) : M unit :=
  foldr (λ o k, call_op o;; k) (mret tt) ops.

Definition ops_screen (ops : list tty_op) (t : tty_state) : tty_state :=
  foldl (λ t o, op_screen o t) t ops.

(** ** Properties *)

(** C18: the terminal is well typed under any use.  Whatever sequence of
    operations is called, each with arguments of its type, all of them
    return; the screen is the one the pure description gives; every cell
    stays a 16-bit value, the colour an 8-bit one and the position within
    80x25; the hardware cursor keeps showing it; and nothing but the screen
    and the port log changes. *)
Theorem tty_ops_typed ops m :
  Forall op_ok ops → tty_typed (tty m) →
  ∃ m', call_ops ops m = Done tt m' ∧ tty m' = ops_screen ops (tty m) ∧
    tty_typed (tty m') ∧ only_terminal m m' ∧ (cursor_synced m → cursor_synced m').
Proof.
  intros Ho. revert m. induction Ho as [|o ops H1 _ IH]; intros m HT.
  - exists m. split_and!; try done.
  - destruct (call_op_ok o m H1 HT) as (m1 & E1 & [S1 T1 O1 C1]).
    destruct (IH m1 T1) as (m2 & E2 & S2 & T2 & O2 & C2).
    exists m2. split_and!; [|cbn; by rewrite <- S1|done|by etransitivity|auto].
    cbn [call_ops foldr]. by run E1.
Qed.

Lemma tty_ops_typed_witness :
  let ops := [OpDeleteprev; OpKprintf (chars "%d%%: %s" ++ [NL]) [VaInt 42; VaStr (chars "ok")];
    OpPutc TAB; OpPutchar 266; OpPrinthex 0xCAFE; OpDeleteprev; OpClear; OpInitialize; OpPrintint 0] in
  ∃ m', call_ops ops clean_screen = Done tt m' ∧ tty m' = ops_screen ops (tty clean_screen) ∧
    tty_typed (tty m') ∧ only_terminal clean_screen m' ∧
    (cursor_synced clean_screen → cursor_synced m').
Proof.
  apply tty_ops_typed.
  - repeat (apply Forall_cons; split; [try done|]); [|constructor].
    split; [by repeat constructor|by eexists; vm_compute].
  - split; [exact clean_screen_ok|by apply Forall_replicate|done].
Defined.
