(* ===== verification/Memory.v ===== *)
(** * Memory as the kernel sees it

    Physical memory is a finite map from addresses to bytes (an absent byte
    reads as 0).  Every access of the C code goes through the page tables
    that CR3 points to, as the i386 does for a supervisor access with 4 KiB
    pages: [translate].  [ld8], [st8], [ld32] and [st32] are the loads and
    stores a dereferenced pointer compiles to.

    [Region] is what the rest of the development assumes of memory: a set of
    virtual addresses whose bytes can be read and written independently.  It
    has two implementations: memory with paging off, and the kernel's
    higher-half window of 4 MiB less the pages holding its own tables. *)

From S2P Require Import Prelude Machine.

(** ** Physical memory *)

Definition rd8 (μ : gmap Z Z) (p : Z) : Z := u8 (default 0 (μ !! p)).

Definition rd32 (μ : gmap Z Z) (p : Z) : Z :=
  rd8 μ p + 256 * rd8 μ (p + 1) + 65536 * rd8 μ (p + 2) + 16777216 * rd8 μ (p + 3).

(** ** Address translation *)

Definition ENTRY_PRESENT : Z := 0.  (* bit numbers of a table entry *)
Definition ENTRY_RW : Z := 1.
Definition ENTRY_USER : Z := 2.
Definition CR0_PG : Z := 31.

Definition page_directory_entry_at (m : machine) (v : Z) : Z :=
  rd32 (mem m) (PAGE_ALIGN (cr3 (cpu m)) + 4 * PAGE_DIRECTORY_INDEX v).

Definition page_table_entry_at (m : machine) (v : Z) : Z :=
  rd32 (mem m) (PAGE_ALIGN (page_directory_entry_at m v) + 4 * PAGE_TABLE_INDEX v).

Definition paging_on (m : machine) : bool := Z.testbit (cr0 (cpu m)) CR0_PG.

(** The physical address a supervisor access to [v] reaches. *)
Definition translate (m : machine) (v : Z) : option Z :=
  if negb (paging_on m) then Some v
  else if negb (Z.testbit (page_directory_entry_at m v) ENTRY_PRESENT) then None
  else if negb (Z.testbit (page_table_entry_at m v) ENTRY_PRESENT) then None
  else Some (PAGE_ALIGN (page_table_entry_at m v) + v mod 4096).

(** The physical address a user-mode access to [v] reaches. *)
Definition user_translate (m : machine) (v : Z) : option Z :=
  if Z.testbit (page_directory_entry_at m v) ENTRY_USER
     && Z.testbit (page_table_entry_at m v) ENTRY_USER
  then translate m v else None.

(** Memory with some words in it; the rest is zero. *)
Definition words_at (ws : list (Z * Z)) : gmap Z Z :=
  foldr (λ '(a, v) μ, <[a := u8 v]> (<[a + 1 := u8 (v / 256)]>
    (<[a + 2 := u8 (v / 65536)]> (<[a + 3 := u8 (v / 16777216)]> μ)))) ∅ ws.

Lemma words_at_outside ws a :
  Forall (λ '(b, _), ¬ b <= a < b + 4) ws → rd8 (words_at ws) a = 0.
Proof.
  unfold rd8. induction 1 as [|[b v] ws Hb _ IH]; [done|]. cbn [words_at foldr].
  rewrite !lookup_insert_ne by lia. exact IH.
Qed.

(** ** Loads and stores *)

Definition vbyte (m : machine) (v : Z) : option Z := rd8 (mem m) <$> translate m v.

Definition ld8 (v : Z) : M Z := λ m,
  match translate m (u32 v) with
  | Some p => Done (rd8 (mem m) p) m
  | None => Stop (PageFault (u32 v)) m
  end.

Definition st8 (v b : Z) : M unit := λ m,
  match translate m (u32 v) with
  | Some p => Done tt (set_mem (<[p := u8 b]> (mem m)) m)
  | None => Stop (PageFault (u32 v)) m
  end.

Definition ld32 (v : Z) : M Z :=
  b0 ← ld8 v;
  b1 ← ld8 (v + 1);
  b2 ← ld8 (v + 2);
  b3 ← ld8 (v + 3);
  mret (b0 + 256 * b1 + 65536 * b2 + 16777216 * b3).

Definition st32 (v x : Z) : M unit :=
  st8 v x;;
  st8 (v + 1) (x / 256);;
  st8 (v + 2) (x / 65536);;
  st8 (v + 3) (x / 16777216).

(** ** The interface *)

(** Nothing but physical memory differs. *)
Definition only_memory (m m' : machine) : Prop := m' = set_mem (mem m') m.

Class Region (I : machine → Prop) (owns : Z → Prop) : Prop := {
  region_word v : owns v → word v;
  region_same m m' : cpu m' = cpu m → mem m' = mem m → I m → I m';
  region_flag m b : I m → I (set_cpu (set_eflags_if b (cpu m)) m);
  region_mapped m v : I m → owns v → is_Some (vbyte m v);
  region_store m v b : I m → owns v →
    ∃ m', st8 v b m = Done tt m' ∧ I m' ∧ only_memory m m' ∧
      vbyte m' v = Some (u8 b) ∧
      ∀ w, owns w → w ≠ v → vbyte m' w = vbyte m w
}.

(** The byte and the 32-bit word at a virtual address. *)
Definition byte_at (m : machine) (v : Z) : Z := default 0 (vbyte m v).

Definition word_at (m : machine) (v : Z) : Z :=
  byte_at m v + 256 * byte_at m (v + 1) + 65536 * byte_at m (v + 2)
  + 16777216 * byte_at m (v + 3).

(** [n] bytes from [v] on. *)
Definition owns_range (owns : Z → Prop) (v n : Z) : Prop :=
  ∀ i, 0 <= i < n → owns (v + i).

(** [m'] differs from [m] at most in the [n] owned bytes from [v] on. *)
Definition writes_only (owns : Z → Prop) (m m' : machine) (v n : Z) : Prop :=
  only_memory m m' ∧
  ∀ w, owns w → w < v ∨ v + n <= w → byte_at m' w = byte_at m w.

Lemma only_memory_refl m : only_memory m m.
Proof. by destruct m. Qed.

Lemma only_memory_trans m1 m2 m3 :
  only_memory m1 m2 → only_memory m2 m3 → only_memory m1 m3.
Proof. unfold only_memory. intros H1 H2. rewrite H2 at 1. by rewrite H1. Qed.

#[export] Instance only_memory_preorder : PreOrder only_memory.
Proof.
  split.
  - intros m. apply only_memory_refl.
  - intros m1 m2 m3. apply only_memory_trans.
Qed.

Lemma rd8_range μ p : 0 <= rd8 μ p < 256.
Proof. apply Z.mod_pos_bound. done. Qed.

Lemma byte_at_range m v : 0 <= byte_at m v < 256.
Proof.
  unfold byte_at, vbyte. destruct (translate m v); simpl; [apply rd8_range|done].
Qed.

(** Bytes and words depend on memory and the control registers only. *)
Lemma translate_same m m' v :
  cpu m' = cpu m → mem m' = mem m → translate m' v = translate m v.
Proof.
  intros Hc Hm. unfold translate, page_table_entry_at, page_directory_entry_at, paging_on.
  by rewrite Hc, Hm.
Qed.

Lemma byte_at_same m m' v :
  cpu m' = cpu m → mem m' = mem m → byte_at m' v = byte_at m v.
Proof.
  intros Hc Hm. unfold byte_at, vbyte. by rewrite (translate_same m m'), Hm.
Qed.

(** The interrupt flag and CR2 do not matter either. *)
Lemma byte_at_regs m m' v :
  cr0 (cpu m') = cr0 (cpu m) → cr3 (cpu m') = cr3 (cpu m) → mem m' = mem m →
  byte_at m' v = byte_at m v.
Proof.
  intros H0 H3 Hm. unfold byte_at, vbyte, translate, page_table_entry_at,
    page_directory_entry_at, paging_on. by rewrite H0, H3, Hm.
Qed.

Lemma word_at_regs m m' v :
  cr0 (cpu m') = cr0 (cpu m) → cr3 (cpu m') = cr3 (cpu m) → mem m' = mem m →
  word_at m' v = word_at m v.
Proof. intros H0 H3 Hm. unfold word_at. by rewrite !(byte_at_regs m m'). Qed.

Lemma word_at_same m m' v :
  cpu m' = cpu m → mem m' = mem m → word_at m' v = word_at m v.
Proof. intros Hc Hm. unfold word_at. by rewrite !(byte_at_same m m'). Qed.

Lemma word_at_word m v : word (word_at m v).
Proof.
  unfold word_at. pose proof (byte_at_range m v). pose proof (byte_at_range m (v + 1)).
  pose proof (byte_at_range m (v + 2)). pose proof (byte_at_range m (v + 3)).
  unfold word, W32. lia.
Qed.

#[export] Hint Resolve word_at_word : words.

Lemma byte_split x :
  u8 x + 256 * u8 (x / 256) + 65536 * u8 (x / 65536) + 16777216 * u8 (x / 16777216)
  = u32 x.
Proof. unfold u8, u32, W32. mlia. Qed.

Lemma owns_range_sub owns v n w k :
  owns_range owns v n → v <= w → w + k <= v + n → owns_range owns w k.
Proof.
  intros H ? ? i Hi. replace (w + i) with (v + (w - v + i)) by lia. apply H. lia.
Qed.

Lemma owns_range_at owns v n w :
  owns_range owns v n → v <= w < v + n → owns w.
Proof. intros H Hw. replace w with (v + (w - v)) by lia. apply H. lia. Qed.

(** A word whose bytes are kept is kept. *)
Lemma word_at_kept (owns : Z → Prop) m m' v :
  owns_range owns v 4 → (∀ a, v <= a < v + 4 → owns a → byte_at m' a = byte_at m a) →
  word_at m' v = word_at m v.
Proof.
  intros Ho HB.
  assert (∀ i, 0 <= i < 4 → byte_at m' (v + i) = byte_at m (v + i)) as HB'
    by (intros i Hi; apply HB; [lia|apply Ho; lia]).
  unfold word_at. pose proof (HB' 0 ltac:(lia)) as E0. rewrite Z.add_0_r in E0.
  by rewrite E0, !HB' by lia.
Qed.

Section Region.
Context {I : machine → Prop} {owns : Z → Prop} `{!Region I owns}.

Lemma writes_only_refl m v n : writes_only owns m m v n.
Proof using. by split; [apply only_memory_refl|]. Qed.

Lemma writes_only_trans m1 m2 m3 v n :
  writes_only owns m1 m2 v n → writes_only owns m2 m3 v n →
  writes_only owns m1 m3 v n.
Proof using.
  intros [H1 B1] [H2 B2]. split; [by etransitivity|].
  intros w Hw Hd. rewrite B2, B1; auto.
Qed.

Lemma writes_only_weaken m1 m2 v n w k :
  writes_only owns m1 m2 v n → w <= v → v + n <= w + k →
  writes_only owns m1 m2 w k.
Proof using. intros [H B] ? ?. split; [done|]. intros x Hx Hd. apply B; [done|lia]. Qed.

Lemma writes_only_word_at m m' v n w :
  writes_only owns m m' v n → owns_range owns w 4 → w + 4 <= v ∨ v + n <= w →
  word_at m' w = word_at m w.
Proof using.
  intros [_ B] Hw Hd. unfold word_at. rewrite <- (Z.add_0_r w).
  rewrite !B; try lia; try done; rewrite ?Z.add_0_r; try lia;
    apply (owns_range_at _ _ _ _ Hw); lia.
Qed.

Lemma ld8_ok m v : I m → owns v → ld8 v m = Done (byte_at m v) m.
Proof.
  intros HI Hv. unfold ld8. rewrite u32_small by (by apply region_word).
  destruct (region_mapped m v HI Hv) as [b Hb]. unfold byte_at.
  unfold vbyte in *. by destruct (translate m v).
Qed.

Lemma st8_ok m v b :
  I m → owns v →
  ∃ m', st8 v b m = Done tt m' ∧ I m' ∧ byte_at m' v = u8 b ∧
    writes_only owns m m' v 1.
Proof.
  intros HI Hv. destruct (region_store m v b HI Hv) as (m' & Hs & HI' & Hm & Hb & Hf).
  exists m'. split_and!; try done.
  - unfold byte_at. by rewrite Hb.
  - split; [done|]. intros w Hw Hd. unfold byte_at. rewrite Hf; [done|done|lia].
Qed.

Lemma ld32_ok m v :
  I m → owns_range owns v 4 → ld32 v m = Done (word_at m v) m.
Proof.
  intros HI Hv. unfold ld32.
  run (ld8_ok m v HI (owns_range_at _ _ _ v Hv ltac:(lia))).
  run (ld8_ok m (v + 1) HI (owns_range_at _ _ _ (v + 1) Hv ltac:(lia))).
  run (ld8_ok m (v + 2) HI (owns_range_at _ _ _ (v + 2) Hv ltac:(lia))).
  run (ld8_ok m (v + 3) HI (owns_range_at _ _ _ (v + 3) Hv ltac:(lia))).
  done.
Qed.

Lemma st32_ok m v x :
  I m → owns_range owns v 4 →
  ∃ m', st32 v x m = Done tt m' ∧ I m' ∧ word_at m' v = u32 x ∧
    writes_only owns m m' v 4.
Proof.
  intros HI Hv. unfold st32.
  assert (∀ i, 0 <= i < 4 → owns (v + i)) as Ho by apply Hv.
  pose proof (Ho 0 ltac:(lia)) as O0. rewrite Z.add_0_r in O0.
  pose proof (Ho 1 ltac:(lia)) as O1. pose proof (Ho 2 ltac:(lia)) as O2.
  pose proof (Ho 3 ltac:(lia)) as O3.
  destruct (st8_ok m v x HI O0) as (m1 & S1 & I1 & B1 & W1). run S1.
  destruct (st8_ok m1 (v + 1) (x / 256) I1 O1) as (m2 & S2 & I2 & B2 & W2). run S2.
  destruct (st8_ok m2 (v + 2) (x / 65536) I2 O2) as (m3 & S3 & I3 & B3 & W3). run S3.
  destruct (st8_ok m3 (v + 3) (x / 16777216) I3 O3) as (m4 & S4 & I4 & B4 & W4).
  exists m4. split_and!; [done|done| |].
  - unfold word_at. rewrite B4, <- byte_split.
    rewrite (proj2 W4 (v + 2)), B3, (proj2 W4 (v + 1)), (proj2 W3 (v + 1)), B2,
      (proj2 W4 v), (proj2 W3 v), (proj2 W2 v), B1 by (done || lia). done.
  - apply (writes_only_trans _ m1); [by eapply writes_only_weaken; eauto; lia|].
    apply (writes_only_trans _ m2); [by eapply writes_only_weaken; eauto; lia|].
    apply (writes_only_trans _ m3); by eapply writes_only_weaken; eauto; lia.
Qed.

(** A loop that stores one word after the other. *)
Lemma fill_words base n f m :
  I m → owns_range owns base (4 * Z.of_nat n) →
  returns (for_range n 0 (λ i, st32 (base + 4 * i) (f i))) m (λ _ m',
    I m' ∧ writes_only owns m m' base (4 * Z.of_nat n) ∧
    ∀ i, 0 <= i < Z.of_nat n → word_at m' (base + 4 * i) = u32 (f i)).
Proof.
  intros HI Ho.
  apply (for_range_inv0 _ _ (λ k m', I m' ∧
    writes_only owns m m' base (4 * Z.of_nat n) ∧
    ∀ i, 0 <= i < k → word_at m' (base + 4 * i) = u32 (f i))).
  - split_and!; [done|apply writes_only_refl|lia].
  - intros k m' Hk (HI' & HW & Hs).
    destruct (st32_ok m' (base + 4 * k) (f k) HI') as (m'' & Hst & HI'' & Hv & HW');
      [eapply owns_range_sub; [done|lia|lia]|].
    unfold returns. rewrite Hst. split_and!; [done| |].
    + apply (writes_only_trans _ m'); [done|].
      eapply writes_only_weaken; [done|lia|lia].
    + intros i Hi. destruct (decide (i = k)) as [->|]; [done|].
      rewrite (writes_only_word_at _ _ _ _ _ HW'); [apply Hs; lia| |lia].
      eapply owns_range_sub; [done|lia|lia].
Qed.
End Region.

(** ** Two implementations of the interface *)

Lemma rd8_insert_eq μ p b : rd8 (<[p := u8 b]> μ) p = u8 b.
Proof. unfold rd8. rewrite lookup_insert_eq. simpl. unfold u8. mlia. Qed.

Lemma rd8_insert_ne μ p q b : p ≠ q → rd8 (<[p := b]> μ) q = rd8 μ q.
Proof. intros H. unfold rd8. by rewrite lookup_insert_ne. Qed.

Lemma rd32_insert_ne μ p q b : p < q ∨ q + 4 <= p → rd32 (<[p := b]> μ) q = rd32 μ q.
Proof. intros H. unfold rd32. rewrite !rd8_insert_ne by lia. done. Qed.

(** *** Paging off *)

Definition unpaged (m : machine) : Prop := paging_on m = false.

Lemma translate_unpaged m v : unpaged m → translate m v = Some v.
Proof. unfold unpaged, translate. by intros ->. Qed.

#[export] Instance unpaged_region : Region unpaged word.
Proof.
  split.
  - done.
  - intros m m' Hc _. unfold unpaged, paging_on. by rewrite Hc.
  - done.
  - intros m v Hm Hv. unfold vbyte. by rewrite translate_unpaged.
  - intros m v b Hm Hv. unfold st8. rewrite u32_small, translate_unpaged by done.
    eexists. split_and!; try done.
    + unfold vbyte. rewrite translate_unpaged by done. simpl. by rewrite rd8_insert_eq.
    + intros w Hw Hne. unfold vbyte. rewrite !translate_unpaged by done. simpl.
      by rewrite rd8_insert_ne.
Qed.

(** *** The kernel's window

    4 MiB of virtual memory from [KERNEL_VIRT_BASE] on, mapped to the first
    4 MiB of physical memory by one page table. *)

Definition WINDOW : Z := 4194304.

Definition in_window (v : Z) : Prop := KERNEL_VIRT_BASE <= v < KERNEL_VIRT_BASE + WINDOW.

(** A page frame that the window shows. *)
Definition low_frame (p : Z) : Prop := 0 <= p < WINDOW ∧ p mod 4096 = 0.

Definition in_frame (p a : Z) : Prop := p <= a < p + 4096.

#[export] Instance in_window_dec v : Decision (in_window v).
Proof. unfold in_window. apply _. Defined.
#[export] Instance low_frame_dec p : Decision (low_frame p).
Proof. unfold low_frame. apply _. Defined.
#[export] Instance in_frame_dec p a : Decision (in_frame p a).
Proof. unfold in_frame. apply _. Defined.

(** A present entry that names frame [p]. *)
Definition entry_maps (e p : Z) : Prop :=
  Z.testbit e ENTRY_PRESENT = true ∧ PAGE_ALIGN e = p.

#[export] Instance entry_maps_dec e p : Decision (entry_maps e p).
Proof. unfold entry_maps. apply _. Defined.

Record kernel_map (pd pt : Z) (m : machine) : Prop := {
  km_on : paging_on m = true;
  km_pd_low : low_frame pd;
  km_pt_low : low_frame pt;
  km_cr3 : PAGE_ALIGN (cr3 (cpu m)) = pd;
  km_pde : entry_maps (rd32 (mem m) (pd + 4 * 768)) pt;
  km_pte i : 0 <= i < 1024 → entry_maps (rd32 (mem m) (pt + 4 * i)) (4096 * i)
}.

(** The addresses whose contents the translation does not depend on. *)
Definition window_free (pd pt v : Z) : Prop :=
  in_window v ∧ ¬ in_frame pd (v - KERNEL_VIRT_BASE)
              ∧ ¬ in_frame pt (v - KERNEL_VIRT_BASE).

Lemma in_window_word v : in_window v → word v.
Proof. unfold in_window, WINDOW, KERNEL_VIRT_BASE, word, W32. lia. Qed.

Lemma window_indices v :
  in_window v →
  PAGE_DIRECTORY_INDEX v = 768 ∧
  PAGE_TABLE_INDEX v = (v - KERNEL_VIRT_BASE) / 4096 ∧
  0 <= (v - KERNEL_VIRT_BASE) / 4096 < 1024.
Proof.
  intros Hv. pose proof (in_window_word _ Hv) as Hw.
  rewrite PAGE_DIRECTORY_INDEX_div, PAGE_TABLE_INDEX_div by done.
  unfold in_window, WINDOW, KERNEL_VIRT_BASE in *. mlia.
Qed.

Lemma translate_window pd pt m v :
  kernel_map pd pt m → in_window v → translate m v = Some (v - KERNEL_VIRT_BASE).
Proof.
  intros [Hon _ _ Hcr3 [Hp1 Hpt] Hpte] Hv.
  destruct (window_indices v Hv) as (Hd & Ht & Hr).
  destruct (Hpte _ Hr) as [Hp2 Hf].
  unfold translate, page_table_entry_at, page_directory_entry_at.
  rewrite Hon, Hd, Hcr3, Hp1, Hpt, Ht, Hp2, Hf. simpl. f_equal.
  unfold in_window, WINDOW, KERNEL_VIRT_BASE in *. mlia.
Qed.

Lemma kernel_map_same pd pt m m' :
  cpu m' = cpu m → mem m' = mem m → kernel_map pd pt m → kernel_map pd pt m'.
Proof.
  intros Hc Hm [H1 H2 H3 H4 H5 H6]. split; try done; unfold paging_on in *;
    by rewrite ?Hc, ?Hm.
Qed.

(** A store to memory outside the tables keeps the map. *)
Lemma kernel_map_insert pd pt m p b :
  kernel_map pd pt m → ¬ in_frame pd p → ¬ in_frame pt p →
  kernel_map pd pt (set_mem (<[p := b]> (mem m)) m).
Proof.
  intros [Hon Hl1 Hl2 Hcr3 Hpde Hpte] H1 H2. unfold in_frame in *.
  split; try done; simpl.
  - rewrite rd32_insert_ne by lia. done.
  - intros i Hi. rewrite rd32_insert_ne by lia. by apply Hpte.
Qed.

Lemma st8_window pd pt m v b :
  kernel_map pd pt m → window_free pd pt v →
  st8 v b m = Done tt (set_mem (<[v - KERNEL_VIRT_BASE := u8 b]> (mem m)) m).
Proof.
  intros Hm (Hv & H1 & H2). unfold st8.
  by rewrite u32_small, (translate_window pd pt m v Hm Hv) by (by apply in_window_word).
Qed.

(** Addresses that translate by [φ], one to one, to bytes the translation does
    not depend on. *)
Lemma mapped_region (I : machine → Prop) (owns : Z → Prop) (φ : Z → Z) :
  (∀ v, owns v → word v) →
  (∀ m m', cpu m' = cpu m → mem m' = mem m → I m → I m') →
  (∀ m b, I m → I (set_cpu (set_eflags_if b (cpu m)) m)) →
  (∀ m v, I m → owns v → translate m v = Some (φ v)) →
  (∀ v w, owns v → owns w → φ v = φ w → v = w) →
  (∀ m v b, I m → owns v → I (set_mem (<[φ v := u8 b]> (mem m)) m)) →
  Region I owns.
Proof.
  intros Hw Hs Hf Ht Hi Hst. split; [done..| |].
  - intros m v Hm Hv. unfold vbyte. by rewrite Ht.
  - intros m v b Hm Hv. unfold st8. rewrite u32_small, Ht by auto.
    pose proof (Hst m v b Hm Hv) as Hm'. eexists. split_and!; [done|done|done| |].
    + unfold vbyte. rewrite Ht by done. simpl. by rewrite rd8_insert_eq.
    + intros w Hw' Hne. unfold vbyte. rewrite !Ht by done. simpl.
      rewrite rd8_insert_ne; [done|]. intros E. by apply Hne, Hi.
Qed.

(** The window, with a fact [J] about memory that stores to the region keep. *)
Lemma window_region_with pd pt (J : gmap Z Z → Prop) :
  (∀ μ v b, window_free pd pt v → J μ → J (<[v - KERNEL_VIRT_BASE := b]> μ)) →
  Region (λ m, kernel_map pd pt m ∧ J (mem m)) (window_free pd pt).
Proof.
  intros HJ. apply (mapped_region _ _ (λ v, v - KERNEL_VIRT_BASE)).
  - intros v [Hv _]. by apply in_window_word.
  - intros m m' Hc Hm [H1 H2]. split; [by apply (kernel_map_same _ _ m)|by rewrite Hm].
  - intros m b [[] ?]. by split.
  - intros m v [Hm _] [Hv _]. by apply (translate_window pd pt).
  - lia.
  - intros m v b [Hm HJm] Hf. pose proof Hf as (Hv & H1 & H2).
    split; [by apply kernel_map_insert|by apply HJ].
Qed.

#[export] Instance window_region pd pt : Region (kernel_map pd pt) (window_free pd pt).
Proof.
  destruct (window_region_with pd pt (λ _, True)) as [H1 H2 H0 H3 H4]; [done|].
  split; [done| | | |].
  - intros m m'. apply kernel_map_same.
  - intros m b []. by split.
  - intros m v Hm. by apply H3.
  - intros m v b Hm Hv. destruct (H4 m v b (conj Hm I) Hv) as (m' & ? & [? _] & ?). eauto.
Qed.

(** The window, with the contents [D] of the page directory. *)
Definition kernel_dir (D : Z → Z) (pd pt : Z) (m : machine) : Prop :=
  kernel_map pd pt m ∧ ∀ i, 0 <= i < 1024 → rd32 (mem m) (pd + 4 * i) = D i.

#[export] Instance kernel_dir_region D pd pt :
  Region (kernel_dir D pd pt) (window_free pd pt).
Proof.
  apply (window_region_with pd pt (λ μ, ∀ i, 0 <= i < 1024 → rd32 μ (pd + 4 * i) = D i)).
  intros μ v b (Hv & H1 & H2) HJ i Hi. unfold in_frame in H1.
  rewrite rd32_insert_ne by lia. by apply HJ.
Qed.

(** Words of the window are words of physical memory. *)
Lemma byte_at_window pd pt m v :
  kernel_map pd pt m → in_window v → byte_at m v = rd8 (mem m) (v - KERNEL_VIRT_BASE).
Proof. intros Hm Hv. unfold byte_at, vbyte. by rewrite (translate_window pd pt). Qed.

Lemma word_at_window pd pt m v :
  kernel_map pd pt m → in_window v → in_window (v + 3) →
  word_at m v = rd32 (mem m) (v - KERNEL_VIRT_BASE).
Proof.
  intros Hm Hv Hv3. unfold word_at, rd32, in_window in *.
  rewrite !(byte_at_window pd pt) by (done || unfold in_window; lia).
  by replace (v + 1 - KERNEL_VIRT_BASE) with (v - KERNEL_VIRT_BASE + 1) by lia;
  replace (v + 2 - KERNEL_VIRT_BASE) with (v - KERNEL_VIRT_BASE + 2) by lia;
  replace (v + 3 - KERNEL_VIRT_BASE) with (v - KERNEL_VIRT_BASE + 3) by lia.
Qed.

(** A low frame other than the tables belongs to the region. *)
Lemma low_frame_owned pd pt f :
  low_frame pd → low_frame pt → low_frame f → f ≠ pd → f ≠ pt →
  owns_range (window_free pd pt) (f + KERNEL_VIRT_BASE) 4096.
Proof.
  unfold low_frame, WINDOW. intros H1 H2 H3 Hpd Hpt i Hi.
  unfold window_free, in_window, in_frame, WINDOW. split_and!; try lia; mlia.
Qed.

Lemma P2V_low f : low_frame f → P2V_ADDR f = f + KERNEL_VIRT_BASE.
Proof. intros [H _]. apply u32_small. unfold WINDOW in H. word_lia. Qed.

Lemma V2P_window v : in_window v → V2P_ADDR v = v - KERNEL_VIRT_BASE.
Proof. intros H. apply u32_small. unfold in_window, WINDOW in H. word_lia. Qed.

(** ** Automation for sequences of stores *)

(** A range inside an owned range of the context. *)
Ltac owned := match goal with
  | H : owns_range ?o ?v ?n |- owns_range ?o ?w ?k =>
      solve [apply (owns_range_sub o v n w k H); lia]
  | H : owns_range ?o ?v ?n |- ?o ?w =>
      solve [apply (owns_range_at o v n w H); lia]
  end.

(** Execute the store of a word at the head of the program. *)
Tactic Notation "store" ident(m') ident(K) ident(V) ident(W) :=
  match goal with
  | HI : ?I ?m, _ : Region ?I ?o |- context [mbind _ (st32 ?v ?x) ?m] =>
      destruct (st32_ok (I := I) (owns := o) m v x HI ltac:(owned)) as (m' & ? & K & V & W);
      match goal with H : st32 v x m = Done tt m' |- _ => run H; clear H end
  end.

(** Execute the load of a word at the head of the program. *)
Ltac load :=
  match goal with
  | HI : ?I ?m, _ : Region ?I ?o |- context [mbind _ (ld32 ?v) ?m] =>
      rewrite (bind_done _ _ _ _ _ (ld32_ok (I := I) (owns := o) m v HI ltac:(owned)));
      cbv beta
  end.

(** What a word holds after the stores recorded in the context. *)
Ltac words := repeat match goal with
  | H : word_at ?m ?v = _ |- context [word_at ?m ?v] => rewrite H
  | W : writes_only _ _ ?m ?v ?n |- context [word_at ?m ?w] =>
      rewrite (writes_only_word_at _ _ _ _ _ W) by (owned || lia)
  end.

(** Stores one after the other, all inside one range. *)
Ltac chain_writes := match goal with
  | |- writes_only ?o ?m ?m' _ _ => first
      [ match goal with W : writes_only o m m' _ _ |- _ =>
          solve [eapply writes_only_weaken; [exact W|mlia|mlia]] end
      | match goal with W : writes_only o m ?m1 _ _ |- _ =>
          apply (writes_only_trans _ m1);
            [eapply writes_only_weaken; [exact W|mlia|mlia]|]; chain_writes end ]
  end.
