(* ===== verification/Boot.v ===== *)
(** * The entry point: kernel/boot/boot.asm

    The part of [_start] before the jump to the higher half: the temporary
    page table is filled, entered twice in the temporary page directory, and
    paging is turned on. *)

From S2P Require Import Prelude Machine Memory.

(** The header by which the loader finds the kernel. *)
Definition MBALIGN : Z := Z.shiftl 1 0.
Definition MEMINFO : Z := Z.shiftl 1 1.
Definition FLAGS : Z := Z.lor MBALIGN MEMINFO.
Definition MAGIC : Z := 0x1BADB002.
Definition CHECKSUM : Z := u32 (- (MAGIC + FLAGS)).

Definition multiboot_header : list Z := [MAGIC; FLAGS; CHECKSUM].

(** nasm equates of boot.asm, under the names they have there. *)
Definition PAGE_WRITEABLE : Z := 0x01.
Definition PAGE_PRESENT : Z := 0x02.
Definition PAGES_IN_PAGE_TABLE : Z := 1024.

Section Boot.
Context `{L : Layout}.

(** The loop [.identity_map_kernel]: [eax] is [0x1000] times the counter. *)
Definition identity_map_kernel : M unit :=
  for_range (Z.to_nat PAGES_IN_PAGE_TABLE) 0 (λ ecx,
    st32 (temp_page_table - KERNEL_VIRT_BASE + 4 * ecx)
      (Z.lor (0x1000 * ecx) (Z.lor PAGE_PRESENT PAGE_WRITEABLE))).

Definition boot_start : M unit :=
  identity_map_kernel;;
  let eax := Z.lor (temp_page_table - KERNEL_VIRT_BASE)
               (Z.lor PAGE_PRESENT PAGE_WRITEABLE) in
  st32 (temp_page_directory - KERNEL_VIRT_BASE + 0x000 * 4) eax;;
  st32 (temp_page_directory - KERNEL_VIRT_BASE + 0x300 * 4) eax;;
  mod_cpu (set_cr3 (temp_page_directory - KERNEL_VIRT_BASE));;
  v ← gets_cpu cr0;
  mod_cpu (set_cr0 (Z.lor v 0x80000000)).
End Boot.

(** ** Lemmas *)

(** The three words of the header add up to zero, as the loader checks. *)
Lemma multiboot_header_sums : u32 (foldr Z.add 0 multiboot_header) = 0.
Proof. reflexivity. Qed.

Lemma byte_at_unpaged m v : unpaged m → byte_at m v = rd8 (mem m) v.
Proof. intros Hm. unfold byte_at, vbyte. by rewrite translate_unpaged. Qed.

Lemma word_at_unpaged m v : unpaged m → word_at m v = rd32 (mem m) v.
Proof.
  intros Hm. unfold word_at, rd32, byte_at, vbyte. by rewrite !translate_unpaged.
Qed.

(** A page frame with the low bits 3. *)
Lemma entry_bits p :
  word p → p mod 4096 = 0 → word (Z.lor p 3) ∧ entry_maps (Z.lor p 3) p.
Proof.
  intros Hp Ha. assert (word (Z.lor p 3)) as Hw by (apply word_lor; done).
  assert (Z.lor p 3 = p + 3) as E.
  { assert (Z.land p 3 = 0) as Hl.
    { change 3 with (Z.ones 2). rewrite Z.land_ones by lia. change (2 ^ 2) with 4. mlia. }
    pose proof (Z.add_lor_land p 3). lia. }
  split_and!; [done|]. split.
  - rewrite Z.lor_spec. by rewrite orb_true_r.
  - rewrite PAGE_ALIGN_sub, E by done. mlia.
Qed.

Lemma paging_on_set c m :
  paging_on (set_cpu (set_cr0 (Z.lor (cr0 c) 0x80000000) c) m) = true.
Proof.
  unfold paging_on. cbn [cpu set_cpu set_cr0 cr0]. rewrite Z.lor_spec. apply orb_true_r.
Qed.

Section Boot.
Context `{L : Layout}.

Definition tpd : Z := temp_page_directory - KERNEL_VIRT_BASE.
Definition tpt : Z := temp_page_table - KERNEL_VIRT_BASE.

Context (Htpd : low_frame tpd) (Htpt : low_frame tpt) (Hne : tpd ≠ tpt).

(** The machine [boot_start] leaves, but for the contents of memory. *)
Definition booted (μ : gmap Z Z) (m : machine) : machine :=
  set_cpu (set_cr0 (Z.lor (cr0 (cpu m)) 0x80000000) (set_cr3 tpd (cpu m))) (set_mem μ m).

Lemma boot_start_ok m :
  unpaged m →
  ∃ μ, boot_start m = Done tt (booted μ m) ∧
    entry_maps (rd32 μ tpd) tpt ∧ entry_maps (rd32 μ (tpd + 4 * 768)) tpt ∧
    (∀ i, 0 <= i < 1024 → entry_maps (rd32 μ (tpt + 4 * i)) (4096 * i)) ∧
    ∀ a, word a → ¬ in_frame tpd a → ¬ in_frame tpt a → rd8 μ a = rd8 (mem m) a.
Proof using Htpd Htpt Hne.
  intros Hm. pose proof unpaged_region as HR.
  destruct Htpd as [D1 D2], Htpt as [T1 T2]. unfold WINDOW in *.
  assert (owns_range word tpd 4096) as Od by (intros i Hi; word_lia).
  assert (owns_range word tpt 4096) as Ot by (intros i Hi; word_lia).
  assert (tpd + 4096 <= tpt ∨ tpt + 4096 <= tpd) as Hap by mlia.
  unfold boot_start, identity_map_kernel. fold tpd tpt.
  pose proof (fill_words tpt 1024 (λ i, Z.lor (0x1000 * i)
    (Z.lor PAGE_PRESENT PAGE_WRITEABLE)) m Hm Ot) as Hf.
  apply returns_done in Hf as ([] & m1 & S1 & K1 & W1 & V1).
  change (Z.to_nat PAGES_IN_PAGE_TABLE) with 1024%nat. run S1.
  rewrite Z.add_0_r. change (Z.lor PAGE_PRESENT PAGE_WRITEABLE) with 3 in *.
  store m2 K2 V2 W2. store m3 K3 V3 W3. msteps.
  assert (∃ μ, m3 = set_mem μ m) as [μ E3].
  { exists (mem m3). rewrite (proj1 W3), (proj1 W2), (proj1 W1). done. }
  destruct (entry_bits tpt ltac:(word_lia) T2) as [Bw Bm].
  assert (∀ v, rd32 μ v = word_at m3 v) as Hrd.
  { intros v. rewrite word_at_unpaged by done. by rewrite E3. }
  exists μ. split_and!.
  - by rewrite E3.
  - rewrite Hrd. words. by rewrite u32_small.
  - rewrite Hrd. change (4 * 768) with (768 * 4). words.
    by rewrite u32_small.
  - intros i Hi. rewrite Hrd. words. rewrite V1 by lia.
    destruct (entry_bits (4096 * i)) as [Bw' Bm']; [word_lia|mlia|].
    by rewrite u32_small.
  - unfold in_frame. intros a Ha N1 N2.
    assert (rd8 μ a = byte_at m3 a) as -> by (rewrite byte_at_unpaged by done; by rewrite E3).
    rewrite (proj2 W3), (proj2 W2), (proj2 W1) by (done || lia). by apply byte_at_unpaged.
Qed.

Lemma booted_map m μ :
  entry_maps (rd32 μ (tpd + 4 * 768)) tpt →
  (∀ i, 0 <= i < 1024 → entry_maps (rd32 μ (tpt + 4 * i)) (4096 * i)) →
  kernel_map tpd tpt (booted μ m).
Proof using Htpd Htpt.
  intros H1 H2. split; try done.
  - apply (paging_on_set (set_cr3 tpd (cpu m))).
  - apply PAGE_ALIGN_id; [|apply Htpd]. destruct Htpd as [D1 D2]. unfold WINDOW in *. word_lia.
Qed.
End Boot.

Lemma booted_identity `{L : Layout} m μ v :
  low_frame tpd → entry_maps (rd32 μ tpd) tpt →
  (∀ i, 0 <= i < 1024 → entry_maps (rd32 μ (tpt + 4 * i)) (4096 * i)) →
  0 <= v < WINDOW → translate (booted μ m) v = Some v.
Proof.
  intros [D1 D2] [P1 P2] H2 Hv. unfold WINDOW in *.
  assert (word v) as Hw by word_lia. assert (word tpd) as Hwd by word_lia.
  assert (paging_on (booted μ m) = true) as Hon by apply (paging_on_set (set_cr3 tpd (cpu m))).
  unfold translate, page_table_entry_at, page_directory_entry_at. rewrite Hon.
  cbn [negb booted cpu set_cpu cr3 set_cr0 set_cr3 mem set_mem].
  rewrite (PAGE_ALIGN_id tpd), PAGE_DIRECTORY_INDEX_div, PAGE_TABLE_INDEX_div by done.
  replace (v / 4194304) with 0 by mlia. rewrite Z.mul_0_r, Z.add_0_r, P1, P2. cbn [negb].
  destruct (H2 ((v / 4096) mod 1024)) as [Q1 Q2]; [mlia|]. rewrite Q1, Q2. cbn [negb].
  f_equal. mlia.
Qed.

(** ** Properties *)

Lemma sample_tables : low_frame (@tpd sample_layout) ∧ low_frame (@tpt sample_layout).
Proof. by split; split. Qed.

(** The machine after the entry code. *)
Lemma entered_machine :
  { m | (∃ μ, boot_start (L := sample_layout) power_on = Done tt m ∧
           m = booted (L := sample_layout) μ power_on) ∧
        kernel_map (tpd (L := sample_layout)) (tpt (L := sample_layout)) m }.
Proof.
  exists (match @boot_start sample_layout power_on with Done _ m | Stop _ m => m end).
  destruct sample_tables as [H1 H2].
  destruct (@boot_start_ok sample_layout H1 H2 ltac:(done) power_on eq_refl)
    as (μ & E & M1 & M2 & M3 & _). rewrite E.
  split; [exists μ; split; reflexivity|].
  exact (@booted_map sample_layout H1 H2 power_on μ M2 M3).
Qed.

Definition kernel_entered : machine := proj1_sig entered_machine.

Lemma kernel_entered_booted :
  ∃ μ, kernel_entered = booted (L := sample_layout) μ power_on.
Proof. destruct (proj1 (proj2_sig entered_machine)) as (μ & _ & E). eauto. Qed.

Lemma kernel_entered_map : kernel_map 1114112 1118208 kernel_entered.
Proof.
  pose proof (proj2 (proj2_sig entered_machine)) as K. fold kernel_entered in K.
  exact K.
Qed.

(** The entry code turns paging on with the first 4 MiB of physical
    memory visible at address 0 and at [KERNEL_VIRT_BASE], whatever memory
    held before, and changes nothing but memory, CR0 and CR3. *)
Theorem boot_start_maps_kernel `{L : Layout} m :
  unpaged m → low_frame tpd → low_frame tpt → tpd ≠ tpt →
  ∃ μ, boot_start m = Done tt (booted μ m) ∧ kernel_map tpd tpt (booted μ m) ∧
    (∀ v, 0 <= v < WINDOW → translate (booted μ m) v = Some v) ∧
    (∀ v, in_window v → translate (booted μ m) v = Some (v - KERNEL_VIRT_BASE)).
Proof.
  intros Hm H1 H2 Hne. destruct (boot_start_ok H1 H2 Hne m Hm) as (μ & E & M1 & M2 & M3 & _).
  pose proof (booted_map H1 H2 m μ M2 M3) as Hk.
  exists μ. split_and!; [done|done| |].
  - intros v Hv. by apply booted_identity.
  - intros v Hv. by apply (translate_window tpd tpt).
Qed.

Lemma boot_start_maps_kernel_witness :
  ∃ μ, @boot_start sample_layout power_on = Done tt (@booted sample_layout μ power_on) ∧
    kernel_map 1114112 1118208 (@booted sample_layout μ power_on) ∧
    (∀ v, 0 <= v < WINDOW → translate (@booted sample_layout μ power_on) v = Some v) ∧
    (∀ v, in_window v →
      translate (@booted sample_layout μ power_on) v = Some (v - KERNEL_VIRT_BASE)).
Proof.
  apply (@boot_start_maps_kernel sample_layout power_on); done.
Defined.
