(* ===== verification/Cstring.v ===== *)
(** * The string functions of libc: libc/string/*.c

    The functions that write are programs over memory; their theorems hold
    for any [Region].  The functions that only read take a reader for each
    [const char *] argument: [ptr_reader] for a pointer, [array_reader] for a
    local array of the caller. *)

From S2P Require Import Prelude Machine Memory.

(** ** Definitions *)

Definition memset (s c n : Z) : M Z :=
  for_range (Z.to_nat n) 0 (λ i, st8 (s + i) c);;
  mret s.

Definition memcpy (dest src n : Z) : M Z :=
  for_range (Z.to_nat n) 0 (λ i, b ← ld8 (src + i); st8 (dest + i) b);;
  mret dest.

Definition memmove (dest src n : Z) : M Z :=
  (if dest <? src then
     for_range (Z.to_nat n) 0 (λ i, b ← ld8 (src + i); st8 (dest + i) b)
   else
     for_range (Z.to_nat n) 0 (λ k,
       let i := n - k in
       b ← ld8 (src + (i - 1)); st8 (dest + (i - 1)) b));;
  mret dest.

Definition reader : Type := Z → M Z.

Definition ptr_reader (p : Z) : reader := λ i, ld8 (p + i).

Definition array_reader (l : list Z) : reader := λ i, array_get l i.

(** [char] is signed on i386. *)
Definition schar (b : Z) : Z := if b <? 128 then b else b - 256.

Fixpoint memcmp_loop (n : nat) (i : Z) (s1 s2 : reader) : M Z :=
  match n with
  | O => mret 0
  | S n' =>
      a ← s1 i;
      b ← s2 i;
      if a =? b then memcmp_loop n' (i + 1) s1 s2 else mret (schar a - schar b)
  end.

Definition memcmp (s1 s2 : reader) (n : Z) : M Z :=
  memcmp_loop (Z.to_nat n) 0 s1 s2.

(** Returns the first index at or after [len] that holds 0. *)
Fixpoint strlen_loop (fuel : nat) (str : reader) (len : Z) : M Z :=
  match fuel with
  | O => halt_with OutOfFuel
  | S fuel' =>
      b ← str len;
      if b =? 0 then mret len else strlen_loop fuel' str (len + 1)
  end.

Definition strlen (fuel : nat) (str : reader) : M Z := strlen_loop fuel str 0.

(** The loop of [strnlen]: it reads, but [len] is never incremented. *)
Fixpoint strnlen_loop (n : nat) (i : Z) (str : reader) : M unit :=
  match n with
  | O => mret tt
  | S n' =>
      b ← str i;
      if b =? 0 then mret tt else strnlen_loop n' (i + 1) str
  end.

Definition strnlen (str : reader) (maxlen : Z) : M Z :=
  let len := 0 in
  strnlen_loop (Z.to_nat maxlen) 0 str;;
  mret len.

Fixpoint strcmp_loop (fuel : nat) (i : Z) (s1 s2 : reader) : M Z :=
  match fuel with
  | O => halt_with OutOfFuel
  | S fuel' =>
      a ← s1 i;
      if a =? 0 then b ← s2 i; mret (schar a - schar b)
      else
        b ← s2 i;
        if (b =? 0) || negb (a =? b) then mret (schar a - schar b)
        else strcmp_loop fuel' (i + 1) s1 s2
  end.

Definition strcmp (fuel : nat) (s1 s2 : reader) : M Z := strcmp_loop fuel 0 s1 s2.

(** The [do ... while] loop of [strcat]. *)
Fixpoint strcat_copy (fuel : nat) (dest src i j : Z) : M unit :=
  match fuel with
  | O => halt_with OutOfFuel
  | S fuel' =>
      b ← ld8 (src + j);
      st8 (dest + (i + j)) b;;
      c ← ld8 (src + j);
      if c =? 0 then mret tt else strcat_copy fuel' dest src i (j + 1)
  end.

Definition strcat (fuel : nat) (dest src : Z) : M Z :=
  i ← strlen_loop fuel (ptr_reader dest) 0;
  strcat_copy fuel dest src i 0;;
  mret dest.

(** ** Writing functions *)

Section Writers.
Context {I : machine → Prop} {owns : Z → Prop} `{!Region I owns}.

(** A loop over the [n] bytes at [base], started in [m], has come to [m']:
    the bytes whose index is in [d] have been set to [f], the others have
    not been touched. *)
Record filling (base : Z) (f : Z → Z) (n : Z) (d : Z → bool)
    (m m' : machine) : Prop := {
  filling_inv : I m';
  filling_frame : writes_only owns m m' base n;
  filling_byte i : 0 <= i < n →
    byte_at m' (base + i) = if d i then f i else byte_at m (base + i)
}.

Definition filled (base : Z) (f : Z → Z) (n : Z) (m m' : machine) : Prop :=
  I m' ∧ writes_only owns m m' base n ∧
  ∀ i, 0 <= i < n → byte_at m' (base + i) = f i.

Lemma filling_start base f n d m :
  I m → (∀ i, 0 <= i < n → d i = false) → filling base f n d m m.
Proof using.
  intros HI Hd. split; [done|apply writes_only_refl|]. intros i Hi. by rewrite Hd.
Qed.

Lemma filling_end base f n d m m' :
  (∀ i, 0 <= i < n → d i = true) → filling base f n d m m' → filled base f n m m'.
Proof using.
  intros Hd [HI HW HB]. split_and!; [done|done|]. intros i Hi. by rewrite HB, Hd.
Qed.

Lemma filling_step base f n k d d' m m' b :
  owns_range owns base n → 0 <= k < n → filling base f n d m m' → u8 b = f k →
  (∀ i, 0 <= i < n → d' i = if decide (i = k) then true else d i) →
  returns (st8 (base + k) b) m' (λ _ m'', filling base f n d' m m'').
Proof.
  intros Hb Hk [HI HW HB] Hf Hd.
  destruct (st8_ok m' (base + k) b HI (Hb k Hk)) as (m'' & Hs & HI' & Hv & HW').
  unfold returns. rewrite Hs. split; [done| |].
  - apply (writes_only_trans _ m'); [done|].
    eapply writes_only_weaken; [done|lia|lia].
  - intros i Hi. rewrite (Hd i Hi). case_decide as He; [by rewrite He, Hv|].
    rewrite (proj2 HW'); [by apply HB|by apply Hb|lia].
Qed.

(** A byte of the source read before the copy reached it. *)
Lemma filling_source dest src f n d m m' k :
  owns_range owns src n → 0 <= k < n → filling dest f n d m m' →
  (0 <= src + k - dest < n → d (src + k - dest) = false) →
  byte_at m' (src + k) = byte_at m (src + k).
Proof using.
  intros Hs Hk [HI HW HB] Hd.
  destruct (decide (0 <= src + k - dest < n)) as [Hin|Hout].
  - replace (src + k) with (dest + (src + k - dest)) by lia.
    by rewrite HB, Hd.
  - apply (proj2 HW); [by apply Hs|lia].
Qed.

Lemma copy_step dest src n k d d' m m' :
  owns_range owns dest n → owns_range owns src n → 0 <= k < n →
  filling dest (λ i, byte_at m (src + i)) n d m m' →
  (0 <= src + k - dest < n → d (src + k - dest) = false) →
  (∀ i, 0 <= i < n → d' i = if decide (i = k) then true else d i) →
  returns (b ← ld8 (src + k); st8 (dest + k) b) m'
    (λ _ m'', filling dest (λ i, byte_at m (src + i)) n d' m m'').
Proof.
  intros Hdo Hso Hk Hf Hd Hd'.
  apply returns_bind. unfold returns at 1.
  rewrite (ld8_ok m' (src + k)) by (apply Hf || by apply Hso).
  eapply filling_step; try done. rewrite (filling_source _ _ _ _ _ _ _ _ Hso Hk Hf Hd).
  unfold u8. apply Z.mod_small, byte_at_range.
Qed.

Lemma memset_ok s c n m :
  I m → 0 <= n → owns_range owns s n →
  ∃ m', memset s c n m = Done s m' ∧ filled s (λ _, u8 c) n m m'.
Proof.
  intros HI Hn Hs.
  pose proof (for_range_inv (Z.to_nat n) 0 (λ i, st8 (s + i) c)
    (λ k m', filling s (λ _, u8 c) n (λ i, i <? k) m m') m) as Hl.
  apply returns_done in Hl as ([] & m' & Hl & Hf).
  - exists m'. split; [unfold memset; by run Hl|].
    apply (filling_end _ _ _ _ _ _) in Hf; [done|]. intros i Hi. lia.
  - apply filling_start; [done|]. intros i Hi. lia.
  - intros k m' Hk Hf. eapply filling_step; try done; [lia|].
    intros i Hi. case_decide; lia.
Qed.

(** Copying upwards or downwards is right when it never reads a byte it
    has overwritten. *)
Lemma copy_up dest src n m :
  I m → 0 <= n → owns_range owns dest n → owns_range owns src n →
  dest <= src ∨ src + n <= dest →
  returns (for_range (Z.to_nat n) 0 (λ i, b ← ld8 (src + i); st8 (dest + i) b)) m
    (λ _ m', filled dest (λ i, byte_at m (src + i)) n m m').
Proof.
  intros HI Hn Hd Hs Hsep. eapply returns_mono.
  - apply (for_range_inv _ _ _ (λ k m', filling dest (λ i, byte_at m (src + i)) n
      (λ i, i <? k) m m')).
    + apply filling_start; [done|]. intros i Hi. lia.
    + intros k m' Hk Hf. eapply copy_step; try done; [lia|lia|].
      intros i Hi. case_decide; lia.
  - intros [] m' Hf. apply (filling_end _ _ _ _ _ _) in Hf; [done|]. intros i Hi. lia.
Qed.

Lemma copy_down dest src n m :
  I m → 0 <= n → owns_range owns dest n → owns_range owns src n →
  src <= dest →
  returns (for_range (Z.to_nat n) 0 (λ k,
     b ← ld8 (src + (n - k - 1)); st8 (dest + (n - k - 1)) b)) m
    (λ _ m', filled dest (λ i, byte_at m (src + i)) n m m').
Proof.
  intros HI Hn Hd Hs Hsep. eapply returns_mono.
  - apply (for_range_inv _ _ _ (λ k m', filling dest (λ i, byte_at m (src + i)) n
      (λ i, n - k <=? i) m m')).
    + apply filling_start; [done|]. intros i Hi. lia.
    + intros k m' Hk Hf. eapply copy_step; try done; [lia|lia|].
      intros i Hi. case_decide; lia.
  - intros [] m' Hf. apply (filling_end _ _ _ _ _ _) in Hf; [done|]. intros i Hi. lia.
Qed.

Lemma memcpy_ok dest src n m :
  I m → 0 <= n → owns_range owns dest n → owns_range owns src n →
  dest <= src ∨ src + n <= dest →
  ∃ m', memcpy dest src n m = Done dest m' ∧
    filled dest (λ i, byte_at m (src + i)) n m m'.
Proof.
  intros HI Hn Hd Hs Hsep.
  pose proof (copy_up dest src n m HI Hn Hd Hs Hsep) as Hc.
  apply returns_done in Hc as ([] & m' & Hl & Hf). exists m'. split; [|done].
  unfold memcpy. by run Hl.
Qed.

Lemma memmove_ok dest src n m :
  I m → 0 <= n → owns_range owns dest n → owns_range owns src n →
  ∃ m', memmove dest src n m = Done dest m' ∧
    filled dest (λ i, byte_at m (src + i)) n m m'.
Proof.
  intros HI Hn Hd Hs. unfold memmove. destruct (Z.ltb_spec dest src).
  - pose proof (copy_up dest src n m HI Hn Hd Hs ltac:(lia)) as Hc.
    apply returns_done in Hc as ([] & m' & Hl & Hf). exists m'. split; [|done].
    by run Hl.
  - pose proof (copy_down dest src n m HI Hn Hd Hs ltac:(lia)) as Hc.
    apply returns_done in Hc as ([] & m' & Hl & Hf). exists m'. split; [|done].
    by run Hl.
Qed.
End Writers.

(** ** Reading functions *)

(** The reader [r] gives the bytes [l] at the indices from [k] on, without
    changing the machine. *)
Definition reads_from (r : reader) (m : machine) (k : Z) (l : list Z) : Prop :=
  ∀ i x, l !! i = Some x → r (k + Z.of_nat i) m = Done x m.

Definition byte_char (c : Z) : Prop := 0 < c < 256.

Lemma reads_from_cons r m k x l :
  reads_from r m k (x :: l) ↔ r k m = Done x m ∧ reads_from r m (k + 1) l.
Proof.
  split.
  - intros H. split.
    + specialize (H 0%nat x eq_refl). by rewrite Z.add_0_r in H.
    + intros i y Hy. specialize (H (S i) y Hy).
      by replace (k + 1 + Z.of_nat i) with (k + Z.of_nat (S i)) by lia.
  - intros [H0 H] [|i] y Hy; simpl in Hy.
    + injection Hy as <-. by rewrite Z.add_0_r.
    + replace (k + Z.of_nat (S i)) with (k + 1 + Z.of_nat i) by lia. by apply H.
Qed.

Lemma array_reader_reads l m : reads_from (array_reader l) m 0 l.
Proof.
  intros i x Hx. unfold array_reader. apply array_get_lookup; [lia|].
  by replace (Z.to_nat (0 + Z.of_nat i)) with i by lia.
Qed.

(** The comparison of two byte sequences; [None] when it runs off the end of
    one of them. *)
Fixpoint strcmp_list (l1 l2 : list Z) : option Z :=
  match l1, l2 with
  | a :: l1', b :: l2' =>
      if (a =? 0) || (b =? 0) || negb (a =? b) then Some (schar a - schar b)
      else strcmp_list l1' l2'
  | _, _ => None
  end.

Lemma strcmp_loop_ok fuel l1 l2 r1 r2 k d m :
  strcmp_list l1 l2 = Some d → (length l1 <= fuel)%nat →
  reads_from r1 m k l1 → reads_from r2 m k l2 →
  strcmp_loop fuel k r1 r2 m = Done d m.
Proof.
  revert fuel l2 k. induction l1 as [|a l1 IH]; intros fuel [|b l2] k Hd Hf H1 H2;
    try done.
  destruct fuel as [|fuel]; [simpl in Hf; lia|].
  apply reads_from_cons in H1 as [R1 H1]. apply reads_from_cons in H2 as [R2 H2].
  simpl in *. run R1. destruct (Z.eqb_spec a 0) as [->|Ha]; simpl in Hd.
  - run R2. by injection Hd as <-.
  - run R2. destruct ((b =? 0) || negb (a =? b)); [by injection Hd as <-|].
    by apply (IH fuel l2); [|lia|..].
Qed.

(** [d] is the difference of the first characters in which [s1] and [s2]
    differ, the end of a string counting as 0. *)
Definition first_difference (s1 s2 : list Z) (d : Z) : Prop :=
  ∃ p t1 t2, s1 = p ++ t1 ∧ s2 = p ++ t2 ∧
    d = schar (hd 0 t1) - schar (hd 0 t2) ∧
    (hd 0 t1 = hd 0 t2 → t1 = [] ∧ t2 = []).

Lemma schar_inj a b : 0 <= a < 256 → 0 <= b < 256 → schar a = schar b → a = b.
Proof. intros Ha Hb. unfold schar. destruct (Z.ltb_spec a 128), (Z.ltb_spec b 128); lia. Qed.

Lemma first_difference_0 s1 s2 d :
  Forall byte_char s1 → Forall byte_char s2 → first_difference s1 s2 d →
  d = 0 ↔ s1 = s2.
Proof.
  intros H1 H2 (p & t1 & t2 & -> & -> & Hd & Hh). split.
  - intros ->. destruct Hh as [-> ->]; [|done].
    apply Forall_app in H1 as [_ H1]. apply Forall_app in H2 as [_ H2].
    apply schar_inj; [| |lia].
    + destruct H1; simpl; unfold byte_char in *; lia.
    + destruct H2; simpl; unfold byte_char in *; lia.
  - intros Ht%app_inv_head. subst t2. lia.
Qed.

Lemma strcmp_list_strings s1 s2 rest1 rest2 :
  Forall byte_char s1 → Forall byte_char s2 →
  ∃ d, strcmp_list (s1 ++ 0 :: rest1) (s2 ++ 0 :: rest2) = Some d ∧
       first_difference s1 s2 d.
Proof.
  intros H1. revert s2. induction H1 as [|a s1 Ha H1 IH]; intros s2 H2.
  - exists (schar 0 - schar (hd 0 s2)). split; [by destruct s2|].
    exists [], [], s2. split_and!; try done. intros He. split; [done|].
    destruct H2 as [|b s2 Hb _]; [done|]. unfold byte_char in Hb. simpl in He. lia.
  - destruct H2 as [|b s2 Hb H2]; unfold byte_char in *; simpl.
    + destruct (Z.eqb_spec a 0); [lia|]. simpl. eexists. split; [done|].
      exists [], (a :: s1), []. split_and!; try done; simpl; lia.
    + destruct (Z.eqb_spec a 0), (Z.eqb_spec b 0); [lia..|]. simpl.
      destruct (Z.eqb_spec a b) as [->|Hne]; simpl.
      * destruct (IH s2 H2) as (d & Hd & p & t1 & t2 & -> & -> & Hrest).
        exists d. split; [done|]. by exists (b :: p), t1, t2.
      * eexists. split; [done|]. exists [], (a :: s1), (b :: s2).
        split_and!; try done; simpl; lia.
Qed.

(** A shorter string is told from bytes that go on, whatever ends them. *)
Lemma strcmp_list_longer s1 s2 rest :
  Forall byte_char s1 → Forall byte_char s2 → (length s1 < length s2)%nat →
  ∃ d, strcmp_list (s1 ++ 0 :: rest) s2 = Some d ∧ d ≠ 0.
Proof.
  intros H1. revert s2. induction H1 as [|a s1 Ha H1 IH]; intros s2 H2 Hl;
    (destruct H2 as [|b s2 Hb H2]; [simpl in Hl; lia|]); unfold byte_char in *; simpl.
  - eexists. split; [reflexivity|]. intros Hd. assert (0 = b); [|lia]. apply schar_inj; lia.
  - destruct (Z.eqb_spec a 0), (Z.eqb_spec b 0); try lia. simpl in *.
    destruct (Z.eqb_spec a b) as [->|Hne]; simpl; [by apply IH; [|lia]|].
    eexists. split; [reflexivity|]. intros Hd. apply Hne, schar_inj; lia.
Qed.

Lemma strlen_loop_ok fuel s rest r k m :
  Forall byte_char s → reads_from r m k (s ++ 0 :: rest) → (length s < fuel)%nat →
  strlen_loop fuel r k m = Done (k + Z.of_nat (length s)) m.
Proof.
  intros Hs. revert fuel k. induction Hs as [|c s Hc Hs IH]; intros fuel k Hr Hf;
    destruct fuel as [|fuel]; simpl in *; try lia;
    apply reads_from_cons in Hr as [R Hr]; run R.
  - by rewrite Z.add_0_r.
  - unfold byte_char in Hc. destruct (Z.eqb_spec c 0); [lia|].
    rewrite IH by (done || lia). f_equal. lia.
Qed.

Lemma memcmp_loop_ok n l1 l2 r1 r2 k m :
  length l1 = n → length l2 = n →
  Forall (λ c, 0 <= c < 256) l1 → Forall (λ c, 0 <= c < 256) l2 →
  reads_from r1 m k l1 → reads_from r2 m k l2 →
  ∃ d, memcmp_loop n k r1 r2 m = Done d m ∧ (d = 0 ↔ l1 = l2).
Proof.
  intros E1 E2 B1. revert n l2 k E1 E2.
  induction B1 as [|a l1 Ha B1 IH]; intros n l2 k <- E2 B2 H1 H2.
  - destruct l2; [|done]. by exists 0.
  - destruct B2 as [|b l2 Hb B2]; [done|].
    apply reads_from_cons in H1 as [R1 H1]. apply reads_from_cons in H2 as [R2 H2].
    cbn [length memcmp_loop]. run R1. run R2. destruct (Z.eqb_spec a b) as [->|Hne].
    + destruct (IH _ l2 (k + 1) eq_refl ltac:(by injection E2) B2 H1 H2) as (d & Hd & Hi).
      exists d. split; [done|]. rewrite Hi. split; [by intros ->|by intros [=]].
    + eexists. split; [done|]. split; [|by intros [=]].
      intros He. destruct Hne. apply schar_inj; [done..|lia].
Qed.

Lemma strnlen_loop_ok n r k l m :
  reads_from r m k l → (length l = n ∨ 0 ∈ l) → strnlen_loop n k r m = Done tt m.
Proof.
  revert k l. induction n as [|n IH]; intros k l Hr Hl; [done|].
  destruct l as [|b l].
  { destruct Hl as [Hl|Hl]; [done|]. by apply not_elem_of_nil in Hl. }
  apply reads_from_cons in Hr as [R Hr]. simpl. run R.
  destruct (Z.eqb_spec b 0); [done|]. apply (IH _ l Hr).
  destruct Hl as [Hl|Hl]; [left; by injection Hl|right].
  apply elem_of_cons in Hl as [Hl|Hl]; [congruence|done].
Qed.

(** *** Strings in memory *)

Section Strings.
Context {I : machine → Prop} {owns : Z → Prop} `{!Region I owns}.

(** The [n] bytes at [p]. *)
Definition bytes_at (m : machine) (p : Z) (l : list Z) : Prop :=
  ∀ i x, l !! i = Some x → byte_at m (p + Z.of_nat i) = x.

Lemma ptr_reader_reads m p l :
  I m → owns_range owns p (Z.of_nat (length l)) → bytes_at m p l →
  reads_from (ptr_reader p) m 0 l.
Proof.
  intros HI Ho Hl i x Hx. unfold ptr_reader.
  assert (i < length l)%nat by (by eapply lookup_lt_Some).
  replace (p + (0 + Z.of_nat i)) with (p + Z.of_nat i) by lia.
  rewrite ld8_ok; [|done|apply Ho; lia]. by rewrite (Hl i x Hx).
Qed.

Lemma bytes_at_cons m p x l :
  bytes_at m p (x :: l) ↔ byte_at m p = x ∧ bytes_at m (p + 1) l.
Proof using.
  split.
  - intros H. split; [specialize (H 0%nat x eq_refl); by rewrite Z.add_0_r in H|].
    intros i y Hy. rewrite <- (H (S i) y Hy). f_equal. lia.
  - intros [H0 H] [|i] y Hy; [injection Hy as <-; by rewrite Z.add_0_r|].
    rewrite <- (H i y Hy). f_equal. lia.
Qed.

Lemma bytes_at_frame m m' v n p l :
  writes_only owns m m' v n → owns_range owns p (Z.of_nat (length l)) →
  p + Z.of_nat (length l) <= v ∨ v + n <= p → bytes_at m p l → bytes_at m' p l.
Proof using.
  intros HW Ho Hd Hl i x Hx. assert (i < length l)%nat by (by eapply lookup_lt_Some).
  rewrite (proj2 HW); [by apply Hl|apply Ho; lia|lia].
Qed.

Lemma strcat_copy_ok fuel t dest src i j m :
  I m → Forall byte_char t → (length t < fuel)%nat →
  let n := Z.of_nat (length (t ++ [0])) in
  owns_range owns (src + j) n → owns_range owns (dest + (i + j)) n →
  src + j + n <= dest + (i + j) ∨ dest + (i + j) + n <= src + j →
  bytes_at m (src + j) (t ++ [0]) →
  ∃ m', strcat_copy fuel dest src i j m = Done tt m' ∧ I m' ∧
    writes_only owns m m' (dest + (i + j)) n ∧ bytes_at m' (dest + (i + j)) (t ++ [0]).
Proof.
  intros HI Ht. revert fuel j m HI. induction Ht as [|c t Hc Ht IH];
    intros fuel j m HI Hf n Hs Hd Hap Hb; destruct fuel as [|fuel]; [simpl in Hf; lia| |
    simpl in Hf; lia|]; cbn [app strcat_copy] in *; apply bytes_at_cons in Hb as [B0 Hb];
    assert (owns (src + j)) as Os by (apply (owns_range_at _ _ _ _ Hs); subst n; simpl; lia);
    assert (owns (dest + (i + j))) as Od
      by (apply (owns_range_at _ _ _ _ Hd); subst n; simpl; lia);
    run (ld8_ok m (src + j) HI Os); rewrite B0;
    [destruct (st8_ok m (dest + (i + j)) 0 HI Od) as (m1 & S1 & K1 & V1 & W1)
    |destruct (st8_ok m (dest + (i + j)) c HI Od) as (m1 & S1 & K1 & V1 & W1)];
    run S1; run (ld8_ok m1 (src + j) K1 Os); rewrite (proj2 W1), B0 by
      (done || subst n; simpl in *; lia).
  - exists m1. split_and!; try done. apply bytes_at_cons. by split.
  - unfold byte_char in Hc. destruct (Z.eqb_spec c 0); [lia|].
    assert (n = 1 + Z.of_nat (length (t ++ [0]))) as En by (subst n; simpl; lia).
    clearbody n. replace (src + j + 1) with (src + (j + 1)) in Hb by lia.
    assert (owns_range owns (src + (j + 1)) (Z.of_nat (length (t ++ [0])))) as Os' by owned.
    destruct (IH fuel (j + 1) m1 K1) as (m2 & E & K2 & W2 & B2).
    + simpl in Hf. lia.
    + done.
    + owned.
    + lia.
    + eapply bytes_at_frame; [exact W1|done| |done]. lia.
    + exists m2. split_and!; [done|done| |].
      * apply (writes_only_trans _ m1); eapply writes_only_weaken; (done || lia).
      * apply bytes_at_cons. replace (dest + (i + j) + 1) with (dest + (i + (j + 1))) by lia.
        split; [|done]. rewrite (proj2 W2), V1; [|done|lia].
        unfold u8. apply Z.mod_small. lia.
Qed.
End Strings.

(** ** Properties *)

(** [n] bytes anywhere in the address space, with paging off. *)
Lemma word_range p n : 0 <= p → p + n <= W32 → owns_range word p n.
Proof. intros H1 H2 i Hi. unfold word. lia. Qed.

(** [memset] returns its pointer and fills exactly the [n] bytes from it
    on with the low byte of [c]; every other byte of the region and the rest
    of the machine stay as they were. *)
Theorem memset_fills I owns `{!Region I owns} s c n m :
  I m → 0 <= n → owns_range owns s n →
  ∃ m', memset s c n m = Done s m' ∧ I m' ∧ only_memory m m' ∧
    (∀ i, 0 <= i < n → byte_at m' (s + i) = u8 c) ∧
    ∀ w, owns w → w < s ∨ s + n <= w → byte_at m' w = byte_at m w.
Proof.
  intros HI Hn Ho. destruct (memset_ok s c n m HI Hn Ho) as (m' & E & K & [H1 H2] & HB).
  by exists m'.
Qed.

Lemma memset_fills_witness :
  ∃ m', memset 4096 511 64 power_on = Done 4096 m' ∧ unpaged m' ∧ only_memory power_on m' ∧
    (∀ i, 0 <= i < 64 → byte_at m' (4096 + i) = 255) ∧
    ∀ w, word w → w < 4096 ∨ 4096 + 64 <= w → byte_at m' w = byte_at power_on w.
Proof. apply (memset_fills unpaged word 4096 511 64 power_on); [done..|]. by apply word_range. Defined.

(** [memmove] copies the [n] bytes at [src] as they were before the call
    to [dest], however the two ranges overlap, and touches nothing else. *)
Theorem memmove_copies I owns `{!Region I owns} dest src n m :
  I m → 0 <= n → owns_range owns dest n → owns_range owns src n →
  ∃ m', memmove dest src n m = Done dest m' ∧ I m' ∧ only_memory m m' ∧
    (∀ i, 0 <= i < n → byte_at m' (dest + i) = byte_at m (src + i)) ∧
    ∀ w, owns w → w < dest ∨ dest + n <= w → byte_at m' w = byte_at m w.
Proof.
  intros HI Hn Hd Hs.
  destruct (memmove_ok dest src n m HI Hn Hd Hs) as (m' & E & K & [H1 H2] & HB).
  by exists m'.
Qed.

Lemma memmove_copies_witness :
  ∃ m', memmove 8200 8192 100 power_on = Done 8200 m' ∧ unpaged m' ∧
    only_memory power_on m' ∧
    (∀ i, 0 <= i < 100 → byte_at m' (8200 + i) = byte_at power_on (8192 + i)) ∧
    ∀ w, word w → w < 8200 ∨ 8200 + 100 <= w → byte_at m' w = byte_at power_on w.
Proof.
  apply (memmove_copies unpaged word 8200 8192 100 power_on); [done..| |];
    by apply word_range.
Defined.

(** [strcmp] of two NUL-terminated strings returns, with the difference
    of the first characters in which they differ as signed chars; so it is 0
    exactly when the strings are equal.  It reads neither string past its
    terminator and changes nothing. *)
Theorem strcmp_compares fuel s1 s2 r1 r2 m :
  Forall byte_char s1 → Forall byte_char s2 → (length s1 < fuel)%nat →
  reads_from r1 m 0 (s1 ++ [0]) → reads_from r2 m 0 (s2 ++ [0]) →
  ∃ d, strcmp fuel r1 r2 m = Done d m ∧ first_difference s1 s2 d ∧ (d = 0 ↔ s1 = s2).
Proof.
  intros H1 H2 Hf R1 R2. destruct (strcmp_list_strings s1 s2 [] [] H1 H2) as (d & Hd & Hdiff).
  exists d. split_and!; [|done|by apply first_difference_0].
  unfold strcmp. eapply strcmp_loop_ok; try done. rewrite length_app. simpl. lia.
Qed.

Lemma strcmp_compares_witness :
  ∃ d, strcmp 8 (array_reader (chars "tick" ++ [0])) (array_reader (chars "tide" ++ [0]))
      power_on = Done d power_on ∧
    first_difference (chars "tick") (chars "tide") d ∧ (d = 0 ↔ chars "tick" = chars "tide").
Proof.
  apply (strcmp_compares 8 (chars "tick") (chars "tide")).
  - by repeat constructor.
  - by repeat constructor.
  - simpl. lia.
  - apply array_reader_reads.
  - apply array_reader_reads.
Defined.

(** [strcat] appends: given two NUL-terminated strings and room behind
    the first, it returns [dest], where the concatenation now stands with one
    terminator; nothing outside the appended bytes changes. *)
Theorem strcat_appends I owns `{!Region I owns} fuel dest src s1 s2 m :
  I m → Forall byte_char s1 → Forall byte_char s2 →
  (length s1 < fuel)%nat → (length s2 < fuel)%nat →
  let n1 := Z.of_nat (length s1) in
  let n2 := Z.of_nat (length s2) + 1 in
  owns_range owns dest (n1 + n2) → owns_range owns src n2 →
  src + n2 <= dest ∨ dest + (n1 + n2) <= src →
  bytes_at m dest (s1 ++ [0]) → bytes_at m src (s2 ++ [0]) →
  ∃ m', strcat fuel dest src m = Done dest m' ∧ I m' ∧
    bytes_at m' dest (s1 ++ s2 ++ [0]) ∧ bytes_at m' src (s2 ++ [0]) ∧
    writes_only owns m m' (dest + n1) n2.
Proof.
  intros HI H1 H2 F1 F2 n1 n2 Od Os Hap B1 B2. unfold strcat.
  assert (strlen_loop fuel (ptr_reader dest) 0 m = Done n1 m) as El.
  { apply (strlen_loop_ok fuel s1 [] _ 0 m H1); [|done].
    apply ptr_reader_reads; [done| |done]. rewrite length_app. simpl.
    apply (owns_range_sub _ _ _ _ _ Od); subst n1 n2; lia. }
  assert (Z.of_nat (length (s2 ++ [0])) = n2) as En by (rewrite length_app; subst n2; simpl; lia).
  run El. destruct (strcat_copy_ok fuel s2 dest src n1 0 m HI H2 F2)
    as (m' & E & K & W & B); rewrite ?En, ?Z.add_0_r.
  - done.
  - apply (owns_range_sub _ _ _ _ _ Od); subst n1; lia.
  - subst n1; lia.
  - done.
  - rewrite En, Z.add_0_r in W. rewrite Z.add_0_r in B. run E. exists m'.
    split_and!; [done|done| |eapply bytes_at_frame; [exact W| | |done]; rewrite En; [done|]|done].
    + intros i x Hx. apply lookup_app_Some in Hx as [Hx|[Hi Hx]].
      * pose proof (lookup_lt_Some _ _ _ Hx). rewrite (proj2 W).
        -- apply B1. by apply lookup_app_l_Some.
        -- apply (owns_range_at _ _ _ _ Od). subst n1 n2. lia.
        -- subst n1. lia.
      * rewrite <- (B _ x Hx). f_equal. subst n1. lia.
    + subst n1. lia.
Qed.

(** Two one-letter strings at 4096 and 5000. *)
Definition two_strings : machine := set_mem (<[4096 := 104]> (<[5000 := 105]> ∅)) power_on.

Lemma strcat_appends_witness :
  ∃ m', strcat 4 4096 5000 two_strings = Done 4096 m' ∧ unpaged m' ∧
    bytes_at m' 4096 [104; 105; 0] ∧ bytes_at m' 5000 [105; 0] ∧
    writes_only word two_strings m' 4097 2.
Proof.
  apply (strcat_appends unpaged word 4 4096 5000 [104] [105] two_strings); try done.
  - by repeat constructor.
  - by repeat constructor.
  - simpl. lia.
  - simpl. lia.
  - by apply word_range.
  - by apply word_range.
  - simpl. lia.
  - intros [|[|i]] x Hx; [by injection Hx as <-..|done].
  - intros [|[|i]] x Hx; [by injection Hx as <-..|done].
Defined.

(** [strnlen] never counts: whatever string it is given, it returns 0. *)
Theorem strnlen_returns_zero r l maxlen m :
  reads_from r m 0 l → 0 <= maxlen → (length l = Z.to_nat maxlen ∨ 0 ∈ l) →
  strnlen r maxlen m = Done 0 m.
Proof.
  intros Hr Hm Hl. unfold strnlen. by run (strnlen_loop_ok (Z.to_nat maxlen) r 0 l m Hr Hl).
Qed.

Lemma strnlen_returns_zero_witness :
  strnlen (array_reader (chars "reboot")) 6 power_on = Done 0 power_on.
Proof.
  apply (strnlen_returns_zero _ (chars "reboot")); [apply array_reader_reads|done|by left].
Defined.
