(* ===== verification/Bitmap.v ===== *)
(** * Allocation bitmaps

    Both page allocators keep one bit per page in an array of 32-bit words
    and look for the first clear bit with the same double loop.  This file
    describes such arrays as lists of words: the bit of a page, setting and
    clearing it, and the search. *)

From S2P Require Import Prelude.

Definition FULL_WORD : Z := 0xFFFFFFFF.

(** The inner loop: the first [j] in [j .. j + n) whose bit is clear. *)
Fixpoint find_clear_from (n : nat) (j : Z) (w : Z) : option Z :=
  match n with
  | O => None
  | S n' => if negb (CHECK_BIT_SET w j) then Some j else find_clear_from n' (j + 1) w
  end.

Definition find_clear_bit (w : Z) : option Z := find_clear_from 32 0 w.

(** The bit of page [k], and the map with it set or cleared. *)
Definition bit_of (bm : list Z) (k : Z) : bool :=
  Z.testbit (default 0 (bm !! Z.to_nat (k / 32))) (k mod 32).

Definition set_page (bm : list Z) (k : Z) : list Z :=
  alter (λ w, SET_BIT w (k mod 32)) (Z.to_nat (k / 32)) bm.

Definition clear_page (bm : list Z) (k : Z) : list Z :=
  alter (λ w, CLEAR_BIT w (k mod 32)) (Z.to_nat (k / 32)) bm.

(** The outer loop, started at word [i]: the first clear page. *)
Fixpoint scan_words (ws : list Z) (i : Z) : option Z :=
  match ws with
  | [] => None
  | w :: ws' =>
      if w =? FULL_WORD then scan_words ws' (i + 1)
      else match find_clear_bit w with
           | Some j => Some (32 * i + j)
           | None => scan_words ws' (i + 1)
           end
  end.

(** ** Lemmas *)

Lemma find_clear_from_spec n j w :
  0 <= j → j + Z.of_nat n <= 32 →
  match find_clear_from n j w with
  | Some k => j <= k < j + Z.of_nat n ∧ Z.testbit w k = false ∧
              ∀ i, j <= i < k → Z.testbit w i = true
  | None => ∀ i, j <= i < j + Z.of_nat n → Z.testbit w i = true
  end.
Proof.
  revert j. induction n as [|n IH]; intros j Hj Hn; cbn [find_clear_from]; [lia|].
  rewrite CHECK_BIT_SET_testbit by lia. destruct (Z.testbit w j) eqn:Hb; simpl.
  - specialize (IH (j + 1) ltac:(lia) ltac:(lia)).
    destruct (find_clear_from n (j + 1) w) as [k|].
    + destruct IH as (Hk & Hc & Ha). split_and!; [lia|lia|done|].
      intros i Hi. destruct (decide (i = j)) as [->|]; [done|]. apply Ha. lia.
    + intros i Hi. destruct (decide (i = j)) as [->|]; [done|]. apply IH. lia.
  - split_and!; [lia|lia|done|lia].
Qed.

Lemma find_clear_bit_Some w j :
  find_clear_bit w = Some j →
  0 <= j < 32 ∧ Z.testbit w j = false ∧ ∀ i, 0 <= i < j → Z.testbit w i = true.
Proof.
  intros H. pose proof (find_clear_from_spec 32 0 w ltac:(lia) ltac:(lia)) as Hs.
  unfold find_clear_bit in H. rewrite H in Hs. apply Hs.
Qed.

Lemma find_clear_bit_None w :
  find_clear_bit w = None → ∀ i, 0 <= i < 32 → Z.testbit w i = true.
Proof.
  intros H. pose proof (find_clear_from_spec 32 0 w ltac:(lia) ltac:(lia)) as Hs.
  unfold find_clear_bit in H. rewrite H in Hs. apply Hs.
Qed.

Lemma full_word_bits i : 0 <= i < 32 → Z.testbit FULL_WORD i = true.
Proof. intros Hi. change FULL_WORD with (Z.ones 32). apply Z.ones_spec_low. lia. Qed.

(** Skipping a full word is only an optimisation. *)
Lemma scan_words_cons w ws i :
  scan_words (w :: ws) i =
    match find_clear_bit w with
    | Some j => Some (32 * i + j)
    | None => scan_words ws (i + 1)
    end.
Proof.
  simpl. destruct (Z.eqb_spec w FULL_WORD) as [->|]; [|done].
  destruct (find_clear_bit FULL_WORD) as [j|] eqn:Hj; [|done].
  apply find_clear_bit_Some in Hj as (Hr & Hc & _).
  by rewrite full_word_bits in Hc.
Qed.

Lemma bit_of_cons_lt w ws k : 0 <= k < 32 → bit_of (w :: ws) k = Z.testbit w k.
Proof.
  intros Hk. unfold bit_of. rewrite Z.div_small, Z.mod_small by done. done.
Qed.

Lemma bit_of_cons_ge w ws k : 32 <= k → bit_of (w :: ws) k = bit_of ws (k - 32).
Proof.
  intros Hk. unfold bit_of.
  replace (Z.to_nat (k / 32)) with (S (Z.to_nat ((k - 32) / 32))) by mlia.
  replace (k mod 32) with ((k - 32) mod 32) by mlia. done.
Qed.

(** The search finds the first clear page, counting from word [i]. *)
Lemma scan_words_spec ws i :
  match scan_words ws i with
  | Some k => 0 <= k - 32 * i < 32 * Z.of_nat (length ws) ∧
              bit_of ws (k - 32 * i) = false ∧
              ∀ k', 0 <= k' < k - 32 * i → bit_of ws k' = true
  | None => ∀ k', 0 <= k' < 32 * Z.of_nat (length ws) → bit_of ws k' = true
  end.
Proof.
  revert i. induction ws as [|w ws IH]; intros i; [simpl; lia|].
  rewrite scan_words_cons. destruct (find_clear_bit w) as [j|] eqn:Hj.
  - apply find_clear_bit_Some in Hj as (Hr & Hc & Ha). simpl length.
    replace (32 * i + j - 32 * i) with j by lia.
    rewrite bit_of_cons_lt by done. split_and!; [lia|lia|done|].
    intros k' Hk'. rewrite bit_of_cons_lt by lia. by apply Ha.
  - pose proof (find_clear_bit_None _ Hj) as Ha. specialize (IH (i + 1)). simpl length.
    assert (∀ k', 0 <= k' < 32 → bit_of (w :: ws) k' = true) as Hlow
      by (intros k' Hk'; rewrite bit_of_cons_lt by done; by apply Ha).
    destruct (scan_words ws (i + 1)) as [k|].
    + destruct IH as (Hr & Hc & Hb). split_and!; [lia|lia| |].
      * rewrite bit_of_cons_ge by lia. rewrite <- Hc. f_equal. lia.
      * intros k' Hk'. destruct (decide (k' < 32)); [apply Hlow; lia|].
        rewrite bit_of_cons_ge by lia. apply Hb. lia.
    + intros k' Hk'. destruct (decide (k' < 32)); [apply Hlow; lia|].
      rewrite bit_of_cons_ge by lia. apply IH. lia.
Qed.

Lemma bit_of_alter bm f k k' :
  0 <= k' →
  bit_of (alter f (Z.to_nat (k / 32)) bm) k' =
    if decide (Z.to_nat (k / 32) = Z.to_nat (k' / 32)) then
      Z.testbit (default 0 (f <$> bm !! Z.to_nat (k' / 32))) (k' mod 32)
    else bit_of bm k'.
Proof.
  intros Hk'. unfold bit_of. case_decide as He.
  - rewrite He, list_lookup_alter_eq. done.
  - by rewrite list_lookup_alter_ne by done.
Qed.

Lemma bit_of_set_page bm k k' :
  0 <= k < 32 * Z.of_nat (length bm) → 0 <= k' →
  bit_of (set_page bm k) k' = (k' =? k) || bit_of bm k'.
Proof.
  intros Hk Hk'. unfold set_page. rewrite bit_of_alter by done. case_decide as He.
  - destruct (lookup_lt_is_Some_2 bm (Z.to_nat (k' / 32))) as [w Hw]; [mlia|].
    unfold bit_of. rewrite Hw. simpl.
    rewrite SET_BIT_testbit by (apply Z.mod_pos_bound; lia). f_equal.
    destruct (Z.eqb_spec k' k), (Z.eqb_spec (k' mod 32) (k mod 32)); try done; mlia.
  - destruct (Z.eqb_spec k' k) as [->|]; done.
Qed.

Lemma bit_of_clear_page bm k k' :
  Forall word bm → 0 <= k < 32 * Z.of_nat (length bm) → 0 <= k' →
  bit_of (clear_page bm k) k' = negb (k' =? k) && bit_of bm k'.
Proof.
  intros Hbm Hk Hk'. unfold clear_page. rewrite bit_of_alter by done. case_decide as He.
  - destruct (lookup_lt_is_Some_2 bm (Z.to_nat (k' / 32))) as [w Hw]; [mlia|].
    pose proof (Forall_lookup_1 _ _ _ _ Hbm Hw) as Hword.
    unfold bit_of. rewrite Hw. simpl.
    rewrite CLEAR_BIT_testbit by (done || apply Z.mod_pos_bound; lia). f_equal.
    destruct (Z.eqb_spec k' k), (Z.eqb_spec (k' mod 32) (k mod 32)); try done; mlia.
  - destruct (Z.eqb_spec k' k) as [->|]; done.
Qed.

Lemma length_set_page bm k : length (set_page bm k) = length bm.
Proof. apply length_alter. Qed.

Lemma length_clear_page bm k : length (clear_page bm k) = length bm.
Proof. apply length_alter. Qed.

Lemma set_page_words bm k : Forall word bm → Forall word (set_page bm k).
Proof.
  intros H. apply Forall_alter; [done|]. intros w _. apply SET_BIT_word.
Qed.

Lemma clear_page_words bm k : Forall word bm → Forall word (clear_page bm k).
Proof.
  intros H. apply Forall_alter; [done|]. intros w _. apply CLEAR_BIT_word.
Qed.

#[export] Hint Resolve set_page_words clear_page_words : words.
#[export] Hint Rewrite length_set_page length_clear_page : wrap.

Lemma bit_of_take bm n k :
  0 <= k < 32 * Z.of_nat n → bit_of (take n bm) k = bit_of bm k.
Proof.
  intros Hk. unfold bit_of. by rewrite lookup_take_lt by mlia.
Qed.

(** Two maps with the same bits are equal. *)
Lemma bitmap_ext bm bm' :
  length bm = length bm' → Forall word bm → Forall word bm' →
  (∀ k, 0 <= k < 32 * Z.of_nat (length bm) → bit_of bm k = bit_of bm' k) → bm = bm'.
Proof.
  intros Hl H1 H2 Hb. apply (list_eq_same_length _ _ (length bm)); [lia|done|].
  intros i w w' Hi Hw Hw'.
  apply word_bits_eq;
    [exact (Forall_lookup_1 _ _ _ _ H1 Hw)|exact (Forall_lookup_1 _ _ _ _ H2 Hw')|].
  intros j Hj. specialize (Hb (32 * Z.of_nat i + j) ltac:(lia)). unfold bit_of in Hb.
  replace (Z.to_nat ((32 * Z.of_nat i + j) / 32)) with i in Hb by mlia.
  replace ((32 * Z.of_nat i + j) mod 32) with j in Hb by mlia.
  by rewrite Hw, Hw' in Hb.
Qed.

(** Taking a free page and giving it back changes nothing. *)
Lemma clear_set_page bm k :
  Forall word bm → 0 <= k < 32 * Z.of_nat (length bm) → bit_of bm k = false →
  clear_page (set_page bm k) k = bm.
Proof.
  intros Hbm Hk Hf. apply bitmap_ext; rewrite ?length_clear_page, ?length_set_page;
    auto with words.
  intros k' Hk'.
  rewrite bit_of_clear_page, bit_of_set_page by (rewrite ?length_set_page; auto with words; lia).
  destruct (Z.eqb_spec k' k) as [->|]; simpl; [done|done].
Qed.
