(* ===== verification/Multiboot.v ===== *)
(** * What the boot loader passes: include/kernel/memory/multiboot.h

    The structures as records, what memory at an address says they are, and
    the loads with which pmm.c reads their fields. *)

From S2P Require Import Prelude Machine Memory.

Definition MULTIBOOT_MEMORY_AVAILABLE : Z := 1.

(** ** The structures *)

(** [struct multiboot_info], up to the type of the frame buffer; [u] is the
    union of the two symbol tables, of four words each. *)
Record multiboot_info : Type := MultibootInfo {
  mi_flags : Z;
  mi_mem_lower : Z; mi_mem_upper : Z;
  mi_boot_device : Z; mi_cmdline : Z;
  mi_mods_count : Z; mi_mods_addr : Z;
  mi_u : list Z;
  mi_mmap_length : Z; mi_mmap_addr : Z;
  mi_drives_length : Z; mi_drives_addr : Z;
  mi_config_table : Z; mi_boot_loader_name : Z; mi_apm_table : Z;
  mi_vbe_control_info : Z; mi_vbe_mode_info : Z;
  mi_vbe_mode : Z; mi_vbe_interface_seg : Z;
  mi_vbe_interface_off : Z; mi_vbe_interface_len : Z;
  mi_framebuffer_addr : Z;
  mi_framebuffer_pitch : Z; mi_framebuffer_width : Z; mi_framebuffer_height : Z;
  mi_framebuffer_bpp : Z; mi_framebuffer_type : Z
}.

(** [struct multiboot_mmap_entry], which is packed. *)
Record multiboot_mmap_entry : Type := MmapEntry {
  me_size : Z;
  me_addr_low : Z; me_addr_high : Z;
  me_len_low : Z; me_len_high : Z;
  me_type : Z
}.

Record multiboot_mod_list : Type := ModList {
  ml_mod_start : Z; ml_mod_end : Z;
  ml_cmdline : Z;
  ml_pad : Z
}.

Definition MMAP_ENTRY_SIZE : Z := 24.

(** ** The structures in memory *)

Definition rd16 (μ : gmap Z Z) (p : Z) : Z := rd8 μ p + 256 * rd8 μ (p + 1).

Definition read_info (μ : gmap Z Z) (p : Z) : multiboot_info :=
  let w o := rd32 μ (p + o) in
  let h o := rd16 μ (p + o) in
  let b o := rd8 μ (p + o) in
  MultibootInfo (w 0) (w 4) (w 8) (w 12) (w 16) (w 20) (w 24) [w 28; w 32; w 36; w 40]
    (w 44) (w 48) (w 52) (w 56) (w 60) (w 64) (w 68) (w 72) (w 76)
    (h 80) (h 82) (h 84) (h 86) (w 88 + W32 * w 92) (w 96) (w 100) (w 104) (b 108) (b 109).

Definition read_mmap_entry (μ : gmap Z Z) (p : Z) : multiboot_mmap_entry :=
  let w o := rd32 μ (p + o) in
  MmapEntry (w 0) (w 4) (w 8) (w 12) (w 16) (w 20).

Definition read_mod_list (μ : gmap Z Z) (p : Z) : multiboot_mod_list :=
  let w o := rd32 μ (p + o) in
  ModList (w 0) (w 4) (w 8) (w 12).

(** The entries from the one number [i] on, [n] of them. *)
Definition read_mmap (μ : gmap Z Z) (addr i : Z) (n : nat) : list multiboot_mmap_entry :=
  map (λ j, read_mmap_entry μ (addr + MMAP_ENTRY_SIZE * j)) (seqZ i (Z.of_nat n)).

(** ** The fields as the C code loads them *)

Definition mbt_flags (mbt : Z) : M Z := ld32 mbt.
Definition mbt_mods_count (mbt : Z) : M Z := ld32 (mbt + 20).
Definition mbt_mods_addr (mbt : Z) : M Z := ld32 (mbt + 24).
Definition mbt_mmap_length (mbt : Z) : M Z := ld32 (mbt + 44).
Definition mbt_mmap_addr (mbt : Z) : M Z := ld32 (mbt + 48).

Definition mmap_addr_low (entry : Z) : M Z := ld32 (entry + 4).
Definition mmap_len_low (entry : Z) : M Z := ld32 (entry + 12).
Definition mmap_type (entry : Z) : M Z := ld32 (entry + 20).

Definition mod_start (mod_list : Z) : M Z := ld32 mod_list.
Definition mod_end (mod_list : Z) : M Z := ld32 (mod_list + 4).

(** ** Memory seen at its own address

    The loader's structures are in low memory, which the entry code maps one
    to one. *)

Definition low_identity (m : machine) : Prop :=
  ∀ v, 0 <= v < WINDOW → translate m v = Some v.

Lemma low_identity_same m m' :
  cpu m' = cpu m → mem m' = mem m → low_identity m → low_identity m'.
Proof.
  intros Hc Hm H v Hv. rewrite <- (H v Hv). unfold translate, paging_on,
    page_table_entry_at, page_directory_entry_at. by rewrite Hc, Hm.
Qed.

Lemma ld8_identity m v :
  low_identity m → 0 <= v < WINDOW → ld8 v m = Done (rd8 (mem m) v) m.
Proof.
  intros H Hv. unfold ld8. rewrite u32_small by (unfold WINDOW in Hv; word_lia).
  by rewrite H.
Qed.

Lemma ld32_identity m v :
  low_identity m → 0 <= v → v + 4 <= WINDOW → ld32 v m = Done (rd32 (mem m) v) m.
Proof.
  intros H Hv Hv'. unfold ld32.
  run (ld8_identity m v H ltac:(lia)). run (ld8_identity m (v + 1) H ltac:(lia)).
  run (ld8_identity m (v + 2) H ltac:(lia)). run (ld8_identity m (v + 3) H ltac:(lia)).
  done.
Qed.

(** Parts of memory that are alike hold the same structures. *)
Lemma rd32_agree μ μ' p :
  (∀ a, p <= a < p + 4 → rd8 μ' a = rd8 μ a) → rd32 μ' p = rd32 μ p.
Proof. intros H. unfold rd32. by rewrite !H by lia. Qed.

Lemma rd32_word μ p : word (rd32 μ p).
Proof.
  pose proof (rd8_range μ p). pose proof (rd8_range μ (p + 1)).
  pose proof (rd8_range μ (p + 2)). pose proof (rd8_range μ (p + 3)).
  unfold rd32, word, W32. lia.
Qed.

Lemma read_mmap_agree μ μ' addr i n :
  (∀ a, addr + 24 * i <= a < addr + 24 * (i + Z.of_nat n) → rd8 μ' a = rd8 μ a) →
  read_mmap μ' addr i n = read_mmap μ addr i n.
Proof.
  intros H. unfold read_mmap. apply map_ext_in. intros j Hj%list_elem_of_In.
  apply elem_of_seqZ in Hj. unfold read_mmap_entry, MMAP_ENTRY_SIZE.
  f_equal; apply rd32_agree; intros a Ha; apply H; lia.
Qed.

Lemma read_mmap_cons μ addr i n :
  read_mmap μ addr i (S n) =
    read_mmap_entry μ (addr + MMAP_ENTRY_SIZE * i) :: read_mmap μ addr (i + 1) n.
Proof.
  unfold read_mmap. rewrite seqZ_cons by lia.
  by replace (Z.pred (Z.of_nat (S n))) with (Z.of_nat n) by lia.
Qed.
