(* ===== verification/Pmm.v ===== *)
(** * The physical page allocator: kernel/memory/pmm.c *)

From S2P Require Import Prelude Machine Tty Memory Multiboot Bitmap.

Section Pmm.
Context `{L : Layout}.

(** ** Initialisation *)

Definition pmm_init_struct (last_mem_addr : Z) : M unit :=
  let first_page_addr := PAGE_ALIGN kernel_end_addr_phys in
  let first_page_addr :=
    if first_page_addr <? kernel_end_addr_phys then PAGE_INCREMENT first_page_addr
    else first_page_addr in
  mod_pmm (set_starting_addr first_page_addr);;
  let last_page_addr := PAGE_ALIGN last_mem_addr in
  let last_page_addr :=
    if last_mem_addr <? PAGE_INCREMENT last_page_addr
    then PAGE_DECREMENT last_page_addr else last_page_addr in
  let total := PAGE_INCREMENT last_page_addr [-] first_page_addr in
  mod_pmm (set_total_page_memory total);;
  mod_pmm (set_page_count (total / PAGE_SIZE)).

(** [task_init_user_task_info], kernel/task/task.c: only the first call
    stores its argument. *)
Definition task_init_user_task_info (info : user_task_info) : M unit :=
  o ← gets_tasks once;
  when o (mod_tasks (set_user_task info);; mod_tasks (set_once false)).

(** A shift by 32 or more is undefined. *)
Definition pmm_init_user_task (mods_count mod_list : Z) : M unit :=
  let user_module := mod_list in
  start ← mod_start user_module;
  starting ← gets_pmm starting_addr;
  let page := start [-] starting in
  let bitmap_index := Z.shiftr page 5 in
  let bitmap_bit := u32 (Z.lnot (u32 (Z.shiftl 0xFFFFFFFF (page mod 32)))) in
  bm ← gets_pmm bitmap;
  w ← array_get bm bitmap_index;
  (if bitmap_bit <? 32 then
     bm' ← array_set bm bitmap_index (SET_BIT w bitmap_bit);
     mod_pmm (set_bitmap bm')
   else halt_with Undefined);;
  fin ← mod_end user_module;
  task_init_user_task_info (UserTaskInfo 0 start fin (fin [-] start)).

(** The loop over the memory map: the end of the last available region,
    [None] while [last_mem_addr] is uninitialised. *)
Fixpoint pmm_mmap_loop (fuel : nat) (i mmap_length mmap_addr : Z)
    (last_mem_addr : option Z) : M (option Z) :=
  if i <? mmap_length then
    match fuel with
    | O => halt_with OutOfFuel
    | S fuel' =>
        let entry := mmap_addr [+] i in
        type ← mmap_type entry;
        last' ←
          (if type =? MULTIBOOT_MEMORY_AVAILABLE then
             len ← mmap_len_low entry;
             mod_pmm (set_total_memory len);;
             addr ← mmap_addr_low entry;
             mret (Some (addr [+] len))
           else mret last_mem_addr);
        pmm_mmap_loop fuel' (i [+] MMAP_ENTRY_SIZE) mmap_length mmap_addr last'
    end
  else mret last_mem_addr.

Definition pmm_init (mbt : Z) : M unit :=
  flags ← mbt_flags mbt;
  when (Z.land (Z.shiftr flags 6) 1 =? 0)
    (panic (chars "invalid GRUB memory map"));;
  mmap_length ← mbt_mmap_length mbt;
  mmap_addr ← mbt_mmap_addr mbt;
  last ← pmm_mmap_loop (Z.to_nat (mmap_length / MMAP_ENTRY_SIZE + 1)) 0
           mmap_length mmap_addr None;
  match last with
  | None => halt_with Undefined
  | Some last_mem_addr => pmm_init_struct last_mem_addr
  end;;
  mods_count ← mbt_mods_count mbt;
  mods_addr ← mbt_mods_addr mbt;
  pmm_init_user_task mods_count mods_addr.
End Pmm.

(** ** Allocation *)

(** The loops of [pmm_alloc_page] over [n] bitmap words from word [i] on. *)
Fixpoint pmm_scan (n : nat) (i : Z) : M (option Z) :=
  match n with
  | O => mret None
  | S n' =>
      bm ← gets_pmm bitmap;
      page_bitmap ← array_get bm i;
      if page_bitmap =? FULL_WORD then pmm_scan n' (i + 1)
      else match find_clear_bit page_bitmap with
           | Some j =>
               start ← gets_pmm starting_addr;
               let addr := start [+] (PAGE_SIZE [*] (32 [*] i)) [+] (PAGE_SIZE [*] j) in
               bm' ← array_set bm i (SET_BIT page_bitmap j);
               mod_pmm (set_bitmap bm');;
               mret (Some addr)
           | None => pmm_scan n' (i + 1)
           end
  end.

Definition PMM_WARNING : list Z :=
  chars "WARNING!!! All Physical pages are allocated" ++ [NL].

Definition pmm_alloc_page : M Z :=
  count ← gets_pmm page_count;
  found ← pmm_scan (Z.to_nat (count / 32)) 0;
  let alloc_page_addr := default 0 found in
  when (alloc_page_addr =? 0) (kprintf PMM_WARNING [];; mret tt);;
  mret alloc_page_addr.

Definition pmm_free_page (page : Z) : M unit :=
  let page_to_clear := PAGE_ALIGN page in
  start ← gets_pmm starting_addr;
  count ← gets_pmm page_count;
  let last_page_addr := start [*] (PAGE_SIZE [*] (count [-] 1)) in
  if (start <=? page_to_clear) && (page_to_clear <=? last_page_addr) then
    let page_index := (page_to_clear [-] start) / PAGE_SIZE in
    let bitmap_index := page_index / 32 in
    let bit_in_bitmap := page_index mod 32 in
    bm ← gets_pmm bitmap;
    w ← array_get bm bitmap_index;
    bm' ← array_set bm bitmap_index (CLEAR_BIT w bit_in_bitmap);
    mod_pmm (set_bitmap bm')
  else panic (chars "page not in page pool").

(** ** What the allocator promises *)

(** [uint32_t bitmap\[8192\]] *)
Definition BITMAP_WORDS : Z := 8192.

(** The frames [pmm_alloc_page] hands out: whole bitmap words only. *)
Definition pool_frames (p : physical_memory) : Z := 32 * (page_count p / 32).

Definition frame_addr (p : physical_memory) (k : Z) : Z :=
  starting_addr p + PAGE_SIZE * k.

Record pmm_wf (p : physical_memory) : Prop := {
  pmm_wf_words : Forall word (bitmap p);
  pmm_wf_length : Z.of_nat (length (bitmap p)) = BITMAP_WORDS;
  pmm_wf_count : 0 <= page_count p <= 32 * BITMAP_WORDS;
  pmm_wf_start : 0 < starting_addr p ∧ starting_addr p mod PAGE_SIZE = 0;
  pmm_wf_end : frame_addr p (page_count p) <= W32
}.

(** The frame the next allocation takes. *)
Definition pmm_next (p : physical_memory) : option Z :=
  scan_words (take (Z.to_nat (page_count p / 32)) (bitmap p)) 0.

Definition pmm_take (k : Z) (p : physical_memory) : physical_memory :=
  set_bitmap (set_page (bitmap p) k) p.

Definition pmm_release (k : Z) (p : physical_memory) : physical_memory :=
  set_bitmap (clear_page (bitmap p) k) p.

(** ** Lemmas *)

Lemma insert_set_page (bm : list Z) i w j :
  0 <= i → 0 <= j < 32 → bm !! Z.to_nat i = Some w →
  <[Z.to_nat i := SET_BIT w j]> bm = set_page bm (32 * i + j).
Proof.
  intros Hi Hj Hw. unfold set_page.
  replace ((32 * i + j) / 32) with i by mlia.
  replace ((32 * i + j) mod 32) with j by mlia.
  apply list_eq. intros x. destruct (decide (x = Z.to_nat i)) as [->|Hne].
  - rewrite list_lookup_insert_eq by (by eapply lookup_lt_Some).
    by rewrite list_lookup_alter_eq, Hw.
  - by rewrite list_lookup_insert_ne, list_lookup_alter_ne by done.
Qed.

Lemma insert_clear_page (bm : list Z) k w :
  0 <= k → bm !! Z.to_nat (k / 32) = Some w →
  <[Z.to_nat (k / 32) := CLEAR_BIT w (k mod 32)]> bm = clear_page bm k.
Proof.
  intros Hk Hw. unfold clear_page.
  apply list_eq. intros x. destruct (decide (x = Z.to_nat (k / 32))) as [->|Hne].
  - rewrite list_lookup_insert_eq by (by eapply lookup_lt_Some).
    by rewrite list_lookup_alter_eq, Hw.
  - by rewrite list_lookup_insert_ne, list_lookup_alter_ne by done.
Qed.

(** The address computation does not depend on where it wraps. *)
Lemma frame_addr_u32 start i j :
  start [+] (PAGE_SIZE [*] (32 [*] i)) [+] (PAGE_SIZE [*] j)
  = u32 (start + PAGE_SIZE * (32 * i + j)).
Proof.
  unfold u32, W32, PAGE_SIZE. mlia.
Qed.

Lemma pmm_scan_ok n i m :
  0 <= i → (Z.to_nat i + n <= length (bitmap (pmm m)))%nat →
  pmm_scan n i m =
    match scan_words (take n (drop (Z.to_nat i) (bitmap (pmm m)))) i with
    | Some k => Done (Some (u32 (frame_addr (pmm m) k)))
                  (set_pmm (pmm_take k (pmm m)) m)
    | None => Done None m
    end.
Proof.
  revert i. induction n as [|n IH]; intros i Hi Hn; [done|].
  destruct (lookup_lt_is_Some_2 (bitmap (pmm m)) (Z.to_nat i)) as [w Hw]; [lia|].
  rewrite (drop_S _ _ _ Hw). cbn [take pmm_scan]. rewrite scan_words_cons.
  msteps. run (array_get_lookup _ _ _ m Hi Hw).
  specialize (IH (i + 1) ltac:(lia) ltac:(lia)).
  replace (Z.to_nat (i + 1)) with (S (Z.to_nat i)) in IH by lia.
  destruct (Z.eqb_spec w FULL_WORD) as [->|Hf].
  - rewrite IH. destruct (find_clear_bit FULL_WORD) as [j|] eqn:Hj; [|done].
    apply find_clear_bit_Some in Hj as (Hr & Hc & _). by rewrite full_word_bits in Hc.
  - destruct (find_clear_bit w) as [j|] eqn:Hj; [|by rewrite IH].
    apply find_clear_bit_Some in Hj as (Hr & Hc & _).
    msteps.
    run (array_set_insert (bitmap (pmm m)) i (SET_BIT w j) m
           ltac:(apply lookup_lt_Some in Hw; lia)).
    msteps. rewrite frame_addr_u32, (insert_set_page _ _ _ _ Hi Hr Hw).
    done.
Qed.

Lemma pmm_next_spec p :
  pmm_wf p →
  match pmm_next p with
  | Some k => 0 <= k < pool_frames p ∧ bit_of (bitmap p) k = false ∧
              ∀ k', 0 <= k' < k → bit_of (bitmap p) k' = true
  | None => ∀ k', 0 <= k' < pool_frames p → bit_of (bitmap p) k' = true
  end.
Proof.
  intros [_ Hl Hc _ _]. unfold pmm_next, pool_frames.
  assert (0 <= page_count p / 32 <= 8192) as Hd by (unfold BITMAP_WORDS in *; mlia).
  set (n := Z.to_nat (page_count p / 32)).
  assert (Z.of_nat n = page_count p / 32) as Hn by (apply Z2Nat.id; lia).
  assert (n <= length (bitmap p))%nat as Hle by (unfold BITMAP_WORDS in *; lia).
  pose proof (scan_words_spec (take n (bitmap p)) 0) as Hs.
  rewrite length_take in Hs. replace (n `min` length (bitmap p))%nat with n in Hs by lia.
  rewrite Hn in Hs.
  destruct (scan_words _ 0) as [k|].
  - rewrite Z.sub_0_r in Hs. destruct Hs as (Hr & Hb & Ha).
    rewrite bit_of_take in Hb by lia. split_and!; [lia|lia|done|].
    intros k' Hk'. rewrite <- (Ha k' ltac:(lia)). symmetry. apply bit_of_take. lia.
  - intros k' Hk'. rewrite <- (Hs k' Hk'). symmetry. apply bit_of_take. lia.
Qed.

Lemma pmm_next_first p k :
  pmm_wf p → 0 <= k < pool_frames p → bit_of (bitmap p) k = false →
  (∀ k', 0 <= k' < k → bit_of (bitmap p) k' = true) → pmm_next p = Some k.
Proof.
  intros Hwf Hk Hf Hb. pose proof (pmm_next_spec _ Hwf) as Hs.
  destruct (pmm_next p) as [k1|]; [|by rewrite Hs in Hf].
  destruct Hs as (H1 & H2 & H3). f_equal.
  destruct (Z.lt_trichotomy k k1) as [?|[?|?]]; [|done|].
  - rewrite H3 in Hf by lia. done.
  - rewrite Hb in H2 by lia. done.
Qed.

(** The frame address is a word and not NULL. *)
Lemma frame_addr_word p k :
  pmm_wf p → 0 <= k < page_count p → word (frame_addr p k) ∧ frame_addr p k ≠ 0.
Proof.
  intros [_ _ Hc [Hs _] He] Hk. unfold frame_addr, word, PAGE_SIZE, W32 in *. lia.
Qed.

Lemma pool_frames_le p : pmm_wf p → 0 <= pool_frames p <= page_count p.
Proof. intros [_ _ Hc _ _]. unfold pool_frames. mlia. Qed.

(** The two outcomes of an allocation. *)
Lemma pmm_alloc_page_Some m k :
  pmm_wf (pmm m) → pmm_next (pmm m) = Some k →
  pmm_alloc_page m = Done (frame_addr (pmm m) k) (set_pmm (pmm_take k (pmm m)) m).
Proof.
  intros Hwf Hk. pose proof (pmm_next_spec _ Hwf) as Hs. rewrite Hk in Hs.
  destruct Hs as (Hr & _ & _). pose proof (pool_frames_le _ Hwf) as Hle.
  destruct (frame_addr_word _ k Hwf ltac:(lia)) as [Hw Hn].
  unfold pmm_alloc_page. msteps.
  pose proof (pmm_scan_ok (Z.to_nat (page_count (pmm m) / 32)) 0 m) as Hscan.
  rewrite drop_0 in Hscan. fold (pmm_next (pmm m)) in Hscan. rewrite Hk in Hscan.
  rewrite u32_small in Hscan by done.
  erewrite bind_done; [|apply Hscan; [done|]].
  - simpl. destruct (Z.eqb_spec (frame_addr (pmm m) k) 0); [done|]. done.
  - destruct Hwf as [_ Hl Hc _ _]. unfold BITMAP_WORDS in *. mlia.
Qed.

Lemma pmm_alloc_page_None m :
  pmm_wf (pmm m) → tty_ok (tty m) → pmm_next (pmm m) = None →
  pmm_alloc_page m = Done 0 (term_puts PMM_WARNING m).
Proof.
  intros Hwf Htty Hk. unfold pmm_alloc_page. msteps.
  pose proof (pmm_scan_ok (Z.to_nat (page_count (pmm m) / 32)) 0 m) as Hscan.
  rewrite drop_0 in Hscan. fold (pmm_next (pmm m)) in Hscan. rewrite Hk in Hscan.
  erewrite bind_done; [|apply Hscan; [done|]].
  - change (default 0 (@None Z)) with 0. rewrite Z.eqb_refl. cbn [when].
    destruct (kprintf_ok PMM_WARNING [] PMM_WARNING 44 m) as [Hp _];
      [by constructor|done|reflexivity|]. steps. by run Hp.
  - destruct Hwf as [_ Hl Hc _ _]. unfold BITMAP_WORDS in *. mlia.
Qed.

Lemma pmm_take_wf p k : pmm_wf p → pmm_wf (pmm_take k p).
Proof.
  intros [H1 H2 H3 H4 H5]. split; simpl; rewrite ?length_set_page; auto with words.
Qed.

Lemma pmm_release_wf p k : pmm_wf p → pmm_wf (pmm_release k p).
Proof.
  intros [H1 H2 H3 H4 H5]. split; simpl; rewrite ?length_clear_page; auto with words.
Qed.

#[export] Hint Resolve pmm_take_wf pmm_release_wf : words.

(** ** Freeing *)

(** The bound [pmm_free_page] compares with: it multiplies where the comment
    means the last page of the pool. *)
Definition free_limit (p : physical_memory) : Z :=
  starting_addr p [*] (PAGE_SIZE [*] (page_count p [-] 1)).

Lemma pmm_free_page_ok m page :
  pmm_wf (pmm m) → word page →
  starting_addr (pmm m) <= PAGE_ALIGN page <= free_limit (pmm m) →
  let k := (PAGE_ALIGN page - starting_addr (pmm m)) / PAGE_SIZE in
  k < 32 * BITMAP_WORDS →
  pmm_free_page page m = Done tt (set_pmm (pmm_release k (pmm m)) m).
Proof.
  intros [_ Hl _ [Hs _] _] Hp Hr k Hk. unfold pmm_free_page. msteps. fold (free_limit (pmm m)).
  destruct (Z.leb_spec (starting_addr (pmm m)) (PAGE_ALIGN page)); [|lia].
  destruct (Z.leb_spec (PAGE_ALIGN page) (free_limit (pmm m))); [|lia]. simpl.
  pose proof (PAGE_ALIGN_word _ Hp) as Hw'.
  rewrite (u32_small (PAGE_ALIGN page - _)) by (unfold word in *; lia). fold k.
  assert (0 <= k) as Hk0 by (subst k; unfold PAGE_SIZE; apply Z.div_pos; lia). clearbody k.
  assert (0 <= k / 32 < Z.of_nat (length (bitmap (pmm m)))) as Hi
    by (unfold BITMAP_WORDS in *; mlia).
  destruct (lookup_lt_is_Some_2 (bitmap (pmm m)) (Z.to_nat (k / 32))) as [w Hw]; [lia|].
  msteps. run (array_get_lookup (bitmap (pmm m)) (k / 32) w m (proj1 Hi) Hw).
  run (array_set_insert (bitmap (pmm m)) (k / 32) (CLEAR_BIT w (k mod 32)) m Hi).
  unfold modify. by rewrite (insert_clear_page _ _ _ Hk0 Hw).
Qed.

Lemma pmm_free_page_panics m page :
  tty_ok (tty m) →
  ¬ (starting_addr (pmm m) <= PAGE_ALIGN page <= free_limit (pmm m)) →
  ∃ m', pmm_free_page page m = Stop Panicked m'.
Proof.
  intros Htty Hr. unfold pmm_free_page. msteps. fold (free_limit (pmm m)).
  destruct (panic_ok (chars "page not in page pool") m) as (m' & Hm & _);
    [by repeat constructor|done|].
  exists m'.
  destruct (Z.leb_spec (starting_addr (pmm m)) (PAGE_ALIGN page)); [|done].
  destruct (Z.leb_spec (PAGE_ALIGN page) (free_limit (pmm m))); [lia|done].
Qed.

(** The product is a multiple of 4096 times the start. *)
Lemma free_limit_dvd p :
  ∃ q, free_limit p = u32 (starting_addr p * 4096 * q).
Proof.
  unfold free_limit, PAGE_SIZE.
  exists (u32 (page_count p - 1) mod 1048576). unfold u32 at 1 3, W32.
  f_equal. rewrite <- Z.mul_assoc. f_equal. unfold u32, W32. mlia.
Qed.

(** ** Initialisation *)

Section Init.
Context `{L : Layout}.

Definition round_up (a : Z) : Z := (a + 4095) / 4096 * 4096.
Definition round_down (a : Z) : Z := a / 4096 * 4096.

Definition pool_of (last_mem_addr : Z) (p : physical_memory) : physical_memory :=
  let start := round_up kernel_end_addr_phys in
  let total := round_down last_mem_addr - start in
  set_page_count (total / PAGE_SIZE)
    (set_total_page_memory total (set_starting_addr start p)).

Lemma first_page_round_up e :
  0 <= e <= W32 - PAGE_SIZE →
  (if PAGE_ALIGN e <? e then PAGE_INCREMENT (PAGE_ALIGN e) else PAGE_ALIGN e)
  = round_up e.
Proof.
  intros He. assert (word e) as Hw by word_lia. rewrite PAGE_ALIGN_sub by done.
  unfold PAGE_INCREMENT, round_up, u32, PAGE_SIZE, W32 in *.
  destruct (Z.ltb_spec (e - e mod 4096) e); mlia.
Qed.

Lemma last_page_round_down last :
  4096 <= last < W32 - PAGE_SIZE →
  PAGE_INCREMENT (if last <? PAGE_INCREMENT (PAGE_ALIGN last)
                  then PAGE_DECREMENT (PAGE_ALIGN last) else PAGE_ALIGN last)
  = round_down last.
Proof.
  intros Hl. assert (word last) as Hw by word_lia. rewrite PAGE_ALIGN_sub by done.
  unfold PAGE_INCREMENT, PAGE_DECREMENT, round_down, u32, PAGE_SIZE, W32 in *.
  destruct (Z.ltb_spec last ((last - last mod 4096 + 4096) mod 4294967296)); mlia.
Qed.

Lemma pmm_init_struct_ok last m :
  4096 <= last < W32 - PAGE_SIZE → 0 <= kernel_end_addr_phys →
  round_up kernel_end_addr_phys <= round_down last →
  pmm_init_struct last m = Done tt (set_pmm (pool_of last (pmm m)) m).
Proof.
  intros Hl Hk Hle. unfold pmm_init_struct. msteps.
  rewrite last_page_round_down by done.
  rewrite first_page_round_up by (unfold round_up, round_down, W32, PAGE_SIZE in *; mlia).
  rewrite u32_small by (unfold round_up, round_down in *; word_lia).
  by destruct m as [? ? ? ? []].
Qed.

Lemma pool_of_wf last p :
  4096 <= last < W32 - PAGE_SIZE → 0 < kernel_end_addr_phys →
  round_up kernel_end_addr_phys <= round_down last →
  last <= 32 * BITMAP_WORDS * PAGE_SIZE →
  Forall word (bitmap p) → Z.of_nat (length (bitmap p)) = BITMAP_WORDS →
  pmm_wf (pool_of last p).
Proof.
  intros Hl Hk Hle Hmax Hw Hn.
  split; unfold frame_addr; simpl; try done;
    unfold round_up, round_down, W32, PAGE_SIZE, BITMAP_WORDS in *; mlia.
Qed.
End Init.

(** ** [pmm_init] and what the loader has left in memory *)

(** The last region of the map that is available, the one the loop's locals
    hold in the end. *)
Definition last_available (es : list multiboot_mmap_entry) : option multiboot_mmap_entry :=
  last (filter (λ e, me_type e = MULTIBOOT_MEMORY_AVAILABLE) es).

Definition region_end (e : multiboot_mmap_entry) : Z := me_addr_low e [+] me_len_low e.

Lemma last_available_cons e es :
  last_available (e :: es) =
    match last_available es with
    | Some x => Some x
    | None => if me_type e =? MULTIBOOT_MEMORY_AVAILABLE then Some e else None
    end.
Proof.
  unfold last_available. rewrite filter_cons.
  destruct (Z.eqb_spec (me_type e) MULTIBOOT_MEMORY_AVAILABLE);
    [rewrite decide_True by done; by rewrite last_cons|rewrite decide_False by done].
  by destruct (last _).
Qed.

Lemma pmm_mmap_loop_ok addr len r fuel i acc m :
  low_identity m → 0 <= addr → 0 <= i → len = 24 * (i + Z.of_nat r) → addr + len <= WINDOW →
  (r <= fuel)%nat →
  pmm_mmap_loop fuel (24 * i) len addr acc m =
    match last_available (read_mmap (mem m) addr i r) with
    | Some e => Done (Some (region_end e)) (set_pmm (set_total_memory (me_len_low e) (pmm m)) m)
    | None => Done acc m
    end.
Proof.
  revert fuel i acc m. induction r as [|r IH]; intros fuel i acc m Hid Ha Hi Hl Hw Hf.
  { destruct fuel; cbn [pmm_mmap_loop]; destruct (Z.ltb_spec (24 * i) len); try lia; done. }
  destruct fuel as [|fuel]; [lia|]. cbn [pmm_mmap_loop].
  destruct (Z.ltb_spec (24 * i) len); [|lia].
  unfold WINDOW, MMAP_ENTRY_SIZE in *. rewrite !u32_small by word_lia.
  rewrite read_mmap_cons, last_available_cons. unfold MMAP_ENTRY_SIZE.
  set (p := addr + 24 * i). unfold mmap_type, mmap_len_low, mmap_addr_low.
  assert (∀ m' o, low_identity m' → 0 <= o <= 20 → ld32 (p + o) m' = Done (rd32 (mem m') (p + o)) m')
    as Hld by (intros; apply ld32_identity; [done|subst p; lia|subst p; unfold WINDOW; lia]).
  run (Hld m 20 Hid ltac:(lia)).
  change (rd32 (mem m) (p + 20)) with (me_type (read_mmap_entry (mem m) p)).
  replace (24 * i + 24) with (24 * (i + 1)) by lia.
  destruct (me_type (read_mmap_entry (mem m) p) =? MULTIBOOT_MEMORY_AVAILABLE).
  - rewrite !bind_assoc. run (Hld m 12 Hid ltac:(lia)). msteps. rewrite ?bind_assoc. msteps.
    set (m1 := set_pmm _ m). assert (low_identity m1) as Hid1 by (by apply (low_identity_same m)).
    rewrite ?bind_assoc. run (Hld m1 4 Hid1 ltac:(lia)). msteps.
    rewrite (IH fuel (i + 1)) by (done || lia). change (mem m1) with (mem m).
    by destruct (last_available (read_mmap (mem m) addr (i + 1) r)).
  - msteps. rewrite (IH fuel (i + 1)) by (done || lia).
    by destruct (last_available (read_mmap (mem m) addr (i + 1) r)).
Qed.

(** The bit [pmm_init_user_task] sets: the offset of the module from the pool
    in bytes is taken for a page, and a mask for the number of its bit. *)
Definition module_offset (p : physical_memory) (start : Z) : Z := start [-] starting_addr p.

Definition module_frame (off : Z) : Z := 32 * (off / 32) + (2 ^ (off mod 32) - 1).

Lemma module_mask k :
  0 <= k < 32 → u32 (Z.lnot (u32 (Z.shiftl 0xFFFFFFFF k))) = 2 ^ k - 1.
Proof.
  intros Hk. rewrite Z.shiftl_mul_pow2 by lia.
  assert (0 < 2 ^ k) as H0 by (apply Z.pow_pos_nonneg; lia).
  assert (2 ^ k < W32) as H1 by (apply (Z.pow_lt_mono_r 2 k 32); lia).
  assert (u32 (0xFFFFFFFF * 2 ^ k) = W32 - 2 ^ k) as ->.
  { unfold u32. symmetry. apply (Z.mod_unique _ _ (2 ^ k - 1)); unfold W32 in *; lia. }
  pose proof (Z.add_lnot_diag (W32 - 2 ^ k)).
  replace (Z.lnot (W32 - 2 ^ k)) with (2 ^ k - 1 + -1 * W32) by lia.
  unfold u32. rewrite Z.mod_add by (unfold W32; lia). apply Z.mod_small. lia.
Qed.

Lemma small_mask k : 0 <= k < 32 → (2 ^ k - 1 <? 32) = (k <=? 5).
Proof.
  intros Hk. destruct (Z.leb_spec k 5), (Z.ltb_spec (2 ^ k - 1) 32); try done; exfalso.
  - assert (2 ^ k <= 2 ^ 5) by (apply Z.pow_le_mono_r; lia). lia.
  - assert (2 ^ 6 <= 2 ^ k) by (apply Z.pow_le_mono_r; lia). lia.
Qed.

(** What is remembered of the module, once. *)
Definition remember_module (md : multiboot_mod_list) (t : task_state) : task_state :=
  if once t then
    set_once false (set_user_task (UserTaskInfo 0 (ml_mod_start md) (ml_mod_end md)
      (ml_mod_end md [-] ml_mod_start md)) t)
  else t.

Lemma pmm_init_user_task_ok count ml m :
  low_identity m → 0 <= ml → ml + 8 <= WINDOW →
  Z.of_nat (length (bitmap (pmm m))) = BITMAP_WORDS →
  let md := read_mod_list (mem m) ml in
  let off := module_offset (pmm m) (ml_mod_start md) in
  off / 32 < BITMAP_WORDS → off mod 32 <= 5 →
  pmm_init_user_task count ml m = Done tt
    (set_tasks (remember_module md (tasks m))
      (set_pmm (set_bitmap (set_page (bitmap (pmm m)) (module_frame off)) (pmm m)) m)).
Proof.
  intros Hid H0 Hw Hlen md off Ho Hb. unfold WINDOW in Hw.
  assert (∀ m' o, low_identity m' → 0 <= o <= 4 → ld32 (ml + o) m' = Done (rd32 (mem m') (ml + o)) m')
    as Hld by (intros; apply ld32_identity; [done|lia|unfold WINDOW; lia]).
  pose proof (Hld m 0 Hid ltac:(lia)) as L0.
  change (rd32 (mem m) (ml + 0)) with (ml_mod_start md) in L0. rewrite Z.add_0_r in L0.
  unfold pmm_init_user_task, mod_start, mod_end. run L0. msteps.
  fold (module_offset (pmm m) (ml_mod_start md)). fold off. rewrite Z.shiftr_div_pow2 by lia.
  change (2 ^ 5) with 32.
  assert (0 <= off) as Hoff by (apply u32_word).
  rewrite module_mask, small_mask by mlia. rewrite (proj2 (Z.leb_le _ _) Hb).
  destruct (lookup_lt_is_Some_2 (bitmap (pmm m)) (Z.to_nat (off / 32))) as [w Hwd]; [mlia|].
  assert (0 <= off / 32) as Hq by mlia.
  run (array_get_lookup (bitmap (pmm m)) (off / 32) w m Hq Hwd). rewrite !bind_assoc.
  run (array_set_insert (bitmap (pmm m)) (off / 32) (SET_BIT w (2 ^ (off mod 32) - 1)) m
    ltac:(lia)). msteps.
  rewrite (insert_set_page _ _ _ _ Hq); [|pose proof (small_mask (off mod 32) ltac:(mlia)) as Hs|done].
  2: { rewrite (proj2 (Z.leb_le _ _) Hb) in Hs. apply Z.ltb_lt in Hs.
    assert (0 < 2 ^ (off mod 32)) by (apply Z.pow_pos_nonneg; mlia). lia. }
  fold (module_frame off). set (m1 := set_pmm _ m).
  assert (low_identity m1) as Hid1 by (by apply (low_identity_same m)).
  run (Hld m1 4 Hid1 ltac:(lia)). change (rd32 (mem m1) (ml + 4)) with (ml_mod_end md).
  unfold task_init_user_task_info, remember_module. msteps. change (tasks m1) with (tasks m).
  destruct (once (tasks m)); cbn [when]; [msteps; done|].
  unfold mret, prog_ret. by destruct m as [].
Qed.

(** A module at a page boundary marks the frame that has its offset as number. *)
Lemma module_frame_aligned off : 0 <= off → off mod 32 = 0 → module_frame off = off.
Proof. intros H0 Hm. unfold module_frame. rewrite Hm. change (2 ^ 0) with 1. mlia. Qed.

(** What [pmm_init] relies on: the structures are in the identity-mapped part
    of memory, there is a map of [n] entries, [e] is its last available one. *)
Record multiboot_ok (μ : gmap Z Z) (mbt : Z) (n : nat) (e : multiboot_mmap_entry) : Prop := {
  mo_info : 0 <= mbt ∧ mbt + 52 <= WINDOW;
  mo_flags : Z.testbit (mi_flags (read_info μ mbt)) 6 = true;
  mo_length : mi_mmap_length (read_info μ mbt) = 24 * Z.of_nat n;
  mo_map : mi_mmap_addr (read_info μ mbt) + 24 * Z.of_nat n <= WINDOW;
  mo_last : last_available (read_mmap μ (mi_mmap_addr (read_info μ mbt)) 0 n) = Some e;
  mo_mods : mi_mods_addr (read_info μ mbt) + 8 <= WINDOW
}.

(** The module of the user task. *)
Definition first_module (μ : gmap Z Z) (mbt : Z) : multiboot_mod_list :=
  read_mod_list μ (mi_mods_addr (read_info μ mbt)).

(** All of it is in the bytes of three ranges. *)
Lemma multiboot_ok_agree μ μ' mbt n e :
  multiboot_ok μ mbt n e →
  (∀ a, mbt <= a < mbt + 52 → rd8 μ' a = rd8 μ a) →
  (∀ a, mi_mmap_addr (read_info μ mbt) <= a
          < mi_mmap_addr (read_info μ mbt) + 24 * Z.of_nat n → rd8 μ' a = rd8 μ a) →
  (∀ a, mi_mods_addr (read_info μ mbt) <= a < mi_mods_addr (read_info μ mbt) + 16 →
     rd8 μ' a = rd8 μ a) →
  multiboot_ok μ' mbt n e ∧ first_module μ' mbt = first_module μ mbt.
Proof.
  intros [H1 H2 H3 H4 H5 H6] A1 A2 A3.
  assert (∀ o, 0 <= o <= 48 → rd32 μ' (mbt + o) = rd32 μ (mbt + o)) as W
    by (intros; apply rd32_agree; intros; apply A1; lia).
  assert (mi_flags (read_info μ' mbt) = mi_flags (read_info μ mbt)) as W0 by (by apply W).
  assert (mi_mmap_length (read_info μ' mbt) = mi_mmap_length (read_info μ mbt)) as W1 by (by apply W).
  assert (mi_mmap_addr (read_info μ' mbt) = mi_mmap_addr (read_info μ mbt)) as W2 by (by apply W).
  assert (mi_mods_addr (read_info μ' mbt) = mi_mods_addr (read_info μ mbt)) as W3 by (by apply W).
  unfold first_module. rewrite !W3. split_and!.
  - split; rewrite ?W0, ?W1, ?W2, ?W3; try done.
    rewrite (read_mmap_agree μ); [done|]. intros a Ha. apply A2. lia.
  - unfold read_mod_list. f_equal; apply rd32_agree; intros a Ha; apply A3; lia.
Qed.

(** The allocator [pmm_init] sets up for a region and a module. *)
Definition initial_pool `{L : Layout} (e : multiboot_mmap_entry) (md : multiboot_mod_list)
    (p : physical_memory) : physical_memory :=
  let p := pool_of (region_end e) (set_total_memory (me_len_low e) p) in
  set_bitmap (set_page (bitmap p) (module_frame (module_offset p (ml_mod_start md)))) p.

Record pool_fits `{L : Layout} (e : multiboot_mmap_entry) (md : multiboot_mod_list) : Prop := {
  pf_end : 4096 <= region_end e < W32 - PAGE_SIZE;
  pf_kernel : 0 < kernel_end_addr_phys;
  pf_order : round_up kernel_end_addr_phys <= round_down (region_end e);
  pf_index : (ml_mod_start md [-] round_up kernel_end_addr_phys) / 32 < BITMAP_WORDS;
  pf_bit : (ml_mod_start md [-] round_up kernel_end_addr_phys) mod 32 <= 5
}.

Lemma pmm_init_ok `{L : Layout} mbt n e m :
  low_identity m → multiboot_ok (mem m) mbt n e → pool_fits e (first_module (mem m) mbt) →
  Z.of_nat (length (bitmap (pmm m))) = BITMAP_WORDS →
  let md := first_module (mem m) mbt in
  pmm_init mbt m =
    Done tt (set_tasks (remember_module md (tasks m)) (set_pmm (initial_pool e md (pmm m)) m)).
Proof.
  intros Hid [[H0 Hw] Hfl Hlen Hmap Hlast Hmods] [He Hk Hle Hi Hb] Hbm md. unfold WINDOW in *.
  assert (∀ m' o, low_identity m' → mem m' = mem m → 0 <= o <= 48 →
    ld32 (mbt + o) m' = Done (rd32 (mem m) (mbt + o)) m') as Hld.
  { intros m' o Hid' <- Ho. apply ld32_identity; [done|lia|unfold WINDOW; lia]. }
  assert (ld32 mbt m = Done (rd32 (mem m) (mbt + 0)) m) as L0
    by (rewrite <- (Hld m 0 Hid eq_refl ltac:(lia)); by rewrite Z.add_0_r).
  unfold pmm_init, mbt_flags, mbt_mmap_length, mbt_mmap_addr, mbt_mods_count, mbt_mods_addr.
  run L0. change (rd32 (mem m) (mbt + 0)) with (mi_flags (read_info (mem m) mbt)).
  assert (Z.land (Z.shiftr (mi_flags (read_info (mem m) mbt)) 6) 1 = 1) as ->.
  { change 1 with (Z.ones 1) at 1. rewrite Z.land_ones, Z.shiftr_div_pow2 by lia.
    rewrite Z.testbit_true in Hfl by lia. exact Hfl. }
  cbn [Z.eqb when]. msteps. run (Hld m 44 Hid eq_refl ltac:(lia)).
  run (Hld m 48 Hid eq_refl ltac:(lia)).
  change (rd32 (mem m) (mbt + 44)) with (mi_mmap_length (read_info (mem m) mbt)).
  change (rd32 (mem m) (mbt + 48)) with (mi_mmap_addr (read_info (mem m) mbt)).
  assert (0 <= mi_mmap_addr (read_info (mem m) mbt)) as Ha by apply rd32_word.
  assert (0 <= mi_mods_addr (read_info (mem m) mbt)) as Hma by apply rd32_word.
  rewrite Hlen. unfold MMAP_ENTRY_SIZE. rewrite (Z.mul_comm 24), Z.div_mul by lia.
  pose proof (pmm_mmap_loop_ok (mi_mmap_addr (read_info (mem m) mbt)) (Z.of_nat n * 24) n
    (Z.to_nat (Z.of_nat n + 1)) 0 None m Hid Ha ltac:(lia) ltac:(lia)
    ltac:(unfold WINDOW; lia) ltac:(lia)) as Hloop.
  rewrite Hlast in Hloop. cbn [Z.mul] in Hloop. run Hloop.
  set (m1 := set_pmm _ m).
  rewrite (bind_done _ _ _ _ _ (pmm_init_struct_ok (region_end e) m1 He ltac:(lia) Hle)).
  set (m2 := set_pmm _ m1). assert (low_identity m2) as Hid2 by (by apply (low_identity_same m)).
  run (Hld m2 20 Hid2 eq_refl ltac:(lia)). run (Hld m2 24 Hid2 eq_refl ltac:(lia)).
  change (rd32 (mem m) (mbt + 24)) with (mi_mods_addr (read_info (mem m) mbt)).
  rewrite (pmm_init_user_task_ok _ _ m2 Hid2 Hma); [done|done|exact Hbm|exact Hi|exact Hb].
Qed.

(** ** Sequences of allocations *)

Fixpoint alloc_pages (n : nat) : M (list Z) :=
  match n with
  | O => mret []
  | S n' => p ← pmm_alloc_page; ps ← alloc_pages n'; mret (p :: ps)
  end.

(** The frames of the pool that the bitmap marks as taken. *)
Definition taken (p : physical_memory) (k : Z) : Prop :=
  0 <= k < pool_frames p ∧ bit_of (bitmap p) k = true.

Lemma bit_of_pmm_take p k k' :
  pmm_wf p → 0 <= k < pool_frames p → 0 <= k' →
  bit_of (bitmap (pmm_take k p)) k' = (k' =? k) || bit_of (bitmap p) k'.
Proof.
  intros Hwf Hk Hk'. pose proof (pool_frames_le _ Hwf) as Hle.
  destruct Hwf as [H1 H2 H3 _ _]. simpl. apply bit_of_set_page; auto with words.
  unfold BITMAP_WORDS in *. lia.
Qed.

Lemma taken_take p k k' :
  pmm_wf p → 0 <= k < pool_frames p →
  taken (pmm_take k p) k' ↔ k' = k ∨ taken p k'.
Proof.
  intros Hwf Hk. unfold taken. change (pool_frames (pmm_take k p)) with (pool_frames p).
  split.
  - intros [Hr Hb]. rewrite bit_of_pmm_take in Hb by (done || lia).
    destruct (Z.eqb_spec k' k); [by left|by right].
  - intros [->|[Hr Hb]]; (split; [done|]); rewrite bit_of_pmm_take by (done || lia).
    + by rewrite Z.eqb_refl.
    + rewrite Hb. apply orb_true_r.
Qed.

(** What a run of [n] allocations from [m] ends in. *)
Definition fresh_pages (m m' : machine) (ps : list Z) : Prop :=
  pmm_wf (pmm m') ∧ tty_ok (tty m') ∧
  starting_addr (pmm m') = starting_addr (pmm m) ∧
  pool_frames (pmm m') = pool_frames (pmm m) ∧
  (∀ k, taken (pmm m) k → taken (pmm m') k) ∧
  NoDup (filter (.≠ 0) ps) ∧
  Forall (λ p, p = 0 ∨ ∃ k, p = frame_addr (pmm m) k ∧
    ¬ taken (pmm m) k ∧ taken (pmm m') k) ps.

Lemma frame_addr_inj p k k' : frame_addr p k = frame_addr p k' → k = k'.
Proof. unfold frame_addr, PAGE_SIZE. lia. Qed.

Lemma alloc_pages_ok n m :
  pmm_wf (pmm m) → tty_ok (tty m) →
  returns (alloc_pages n) m (λ ps m', fresh_pages m m' ps).
Proof.
  revert m. induction n as [|n IH]; intros m Hwf Htty.
  { unfold returns, fresh_pages. simpl. split_and!; auto; constructor. }
  cbn [alloc_pages]. apply returns_bind. unfold returns at 1.
  pose proof (pmm_next_spec _ Hwf) as Hs. destruct (pmm_next (pmm m)) as [k|] eqn:Hk.
  - rewrite (pmm_alloc_page_Some _ _ Hwf Hk). destruct Hs as (Hr & Hf & _).
    apply returns_bind. eapply returns_mono; [apply IH; [simpl; auto with words|done]|].
    intros ps m' (W & T & S1 & S2 & S3 & S4 & S5). unfold returns. simpl in *.
    change (pool_frames (pmm_take k (pmm m))) with (pool_frames (pmm m)) in S2.
    assert (∀ k', frame_addr (pmm_take k (pmm m)) k' = frame_addr (pmm m) k') as Hfa by done.
    pose proof (frame_addr_word _ k Hwf) as Hn0. pose proof (pool_frames_le _ Hwf).
    assert (frame_addr (pmm m) k ≠ 0) as Hn by (apply Hn0; lia). clear Hn0.
    unfold fresh_pages. split_and!; try done.
    + intros k' Hk'. apply S3. apply taken_take; auto.
    + rewrite filter_cons_True by done. constructor; [|done].
      rewrite list_elem_of_filter. intros [_ Hin].
      rewrite Forall_forall in S5. destruct (S5 _ Hin) as [?|(k' & E & Hnt & _)]; [done|].
      apply Hnt, taken_take; auto. left. symmetry. exact (frame_addr_inj (pmm m) _ _ E).
    + constructor.
      * right. exists k. split_and!; [done| |].
        -- intros [_ Hb]. congruence.
        -- apply S3, taken_take; auto.
      * eapply Forall_impl; [exact S5|]. intros p [->|(k' & -> & Hnt & Ht)]; [by left|].
        right. exists k'. split_and!; [done| |done].
        intros Hk'. apply Hnt, taken_take; auto.
  - rewrite (pmm_alloc_page_None _ Hwf Htty Hk).
    pose proof (term_puts_only_terminal PMM_WARNING m) as [E _].
    assert (pmm (term_puts PMM_WARNING m) = pmm m) as Ep by (by rewrite E).
    assert (tty_ok (tty (term_puts PMM_WARNING m))) as Ht.
    { apply (tty_write_ok PMM_WARNING [] m Htty). }
    apply returns_bind. eapply returns_mono; [apply IH; [by rewrite Ep|done]|].
    intros ps m'. unfold fresh_pages. rewrite Ep. intros (W & T & S1 & S2 & S3 & S4 & S5).
    unfold returns. simpl. split_and!; try done.
    constructor; [by left|done].
Qed.

(** ** Properties *)

(** A pool of 28672 frames from 1 MiB + 128 KiB on, nothing taken. *)
Definition sample_pool : machine :=
  set_pmm (PhysicalMemory 0 117440512 1179648 28672 (replicate (Z.to_nat 8192) 0))
    (set_tty (TtyState 0 0 7 VGA_BUFFER (replicate (Z.to_nat 2000) 0)) power_on).

Lemma sample_pool_wf : pmm_wf (pmm sample_pool).
Proof.
  split; try done.
  apply Forall_replicate. done.
Qed.

Lemma sample_pool_tty : tty_ok (tty sample_pool).
Proof. by split. Qed.

(** C7: [pmm_alloc_page] is first fit.  When a frame below
    [32 * (page_count / 32)] is free, the call returns the address of the
    first free one, sets its bit, and changes nothing else of the machine. *)
Theorem pmm_alloc_page_first_fit m k :
  pmm_wf (pmm m) → 0 <= k < pool_frames (pmm m) →
  bit_of (bitmap (pmm m)) k = false →
  (∀ k', 0 <= k' < k → bit_of (bitmap (pmm m)) k' = true) →
  ∃ p', pmm_alloc_page m = Done (starting_addr (pmm m) + PAGE_SIZE * k) (set_pmm p' m) ∧
    pmm_wf p' ∧
    p' = set_bitmap (bitmap p') (pmm m) ∧
    ∀ k', 0 <= k' → bit_of (bitmap p') k' = (k' =? k) || bit_of (bitmap (pmm m)) k'.
Proof.
  intros Hwf Hk Hf Hb. pose proof (pmm_next_first _ _ Hwf Hk Hf Hb) as Hn.
  exists (pmm_take k (pmm m)). split_and!; [by apply pmm_alloc_page_Some|auto with words|done|].
  intros k' Hk'. by apply bit_of_pmm_take.
Qed.

Lemma pmm_alloc_page_first_fit_witness :
  ∃ p', pmm_alloc_page sample_pool = Done 1179648 (set_pmm p' sample_pool) ∧
    pmm_wf p' ∧ p' = set_bitmap (bitmap p') (pmm sample_pool) ∧
    ∀ k', 0 <= k' → bit_of (bitmap p') k' = (k' =? 0) || bit_of (bitmap (pmm sample_pool)) k'.
Proof.
  apply (pmm_alloc_page_first_fit sample_pool 0).
  - exact sample_pool_wf.
  - by vm_compute.
  - by vm_compute.
  - intros k'. lia.
Defined.

(** C8: [n] calls of [pmm_alloc_page] with no free in between all return;
    the non-NULL results are distinct frames of the pool, none of which was
    taken before and all of which are taken afterwards, and the allocator
    and the terminal stay well formed, whether or not memory runs out. *)
Theorem alloc_pages_distinct n m :
  pmm_wf (pmm m) → tty_ok (tty m) →
  ∃ ps m', alloc_pages n m = Done ps m' ∧ pmm_wf (pmm m') ∧ tty_ok (tty m') ∧
    NoDup (filter (.≠ 0) ps) ∧
    ∀ p, p ∈ ps → p ≠ 0 →
      ∃ k, p = frame_addr (pmm m) k ∧ ¬ taken (pmm m) k ∧ taken (pmm m') k.
Proof.
  intros Hwf Htty. pose proof (alloc_pages_ok n m Hwf Htty) as H.
  apply returns_done in H as (ps & m' & E & W & T & _ & _ & _ & N & F).
  exists ps, m'. split_and!; try done. intros p Hp Hn.
  rewrite Forall_forall in F. by destruct (F p Hp) as [?|?].
Qed.

Lemma alloc_pages_distinct_witness :
  ∃ ps m', alloc_pages 40 sample_pool = Done ps m' ∧ pmm_wf (pmm m') ∧ tty_ok (tty m') ∧
    NoDup (filter (.≠ 0) ps) ∧
    ∀ p, p ∈ ps → p ≠ 0 →
      ∃ k, p = frame_addr (pmm sample_pool) k ∧ ¬ taken (pmm sample_pool) k ∧
        taken (pmm m') k.
Proof.
  exact (alloc_pages_distinct 40 sample_pool sample_pool_wf sample_pool_tty).
Defined.

(** *** The pool that [pmm_init] sets up *)

Section InitialPool.
Context `{L : Layout} (en : multiboot_mmap_entry) (md : multiboot_mod_list).
Context (p0 : physical_memory) (HF : pool_fits en md).
Context (HB : bitmap p0 = replicate (Z.to_nat BITMAP_WORDS) 0).
Context (HM : region_end en <= 32 * BITMAP_WORDS * PAGE_SIZE).
Context (HA : ml_mod_start md mod 4096 = 0).

Abbreviation p := (initial_pool en md p0).

Lemma initial_pool_wf : pmm_wf p.
Proof using HF HB HM.
  destruct HF as [He Hk Ho _ _].
  destruct (pool_of_wf (region_end en) (set_total_memory (me_len_low en) p0)) as [H1 H2 H3 H4 H5];
    try done; cbn [bitmap set_total_memory]; rewrite ?HB; [|by rewrite length_replicate|].
  - apply Forall_replicate. done.
  - split; [|by cbn [initial_pool bitmap set_bitmap]; rewrite length_set_page|done|done|done].
    cbn [initial_pool bitmap set_bitmap]. auto with words.
Qed.

Lemma initial_pool_start : starting_addr p = round_up kernel_end_addr_phys.
Proof using. done. Qed.

(** The module's offset from the pool. *)
Definition pool_offset : Z := ml_mod_start md [-] round_up kernel_end_addr_phys.

Lemma pool_offset_aligned : 0 <= pool_offset ∧ pool_offset mod 4096 = 0.
Proof using HA.
  unfold pool_offset, round_up, u32, W32. split; [apply Z.mod_pos_bound; lia|]. mlia.
Qed.

(** One bit is set: by mistake that of the frame whose number is the offset
    in bytes. *)
Lemma initial_pool_bits k : 0 <= k → bit_of (bitmap p) k = (k =? pool_offset).
Proof using HF HB HA.
  intros Hk. destruct pool_offset_aligned as [H0 Hm].
  cbn [initial_pool bitmap set_bitmap pool_of set_page_count set_total_page_memory
    set_starting_addr set_total_memory]. rewrite HB.
  change (module_offset _ (ml_mod_start md)) with pool_offset.
  rewrite module_frame_aligned by (done || mlia). pose proof (pf_index _ _ HF) as Hi.
  fold pool_offset in Hi.
  rewrite bit_of_set_page by (rewrite ?length_replicate; unfold BITMAP_WORDS in *; mlia).
  assert (bit_of (replicate (Z.to_nat BITMAP_WORDS) 0) k = false) as ->;
    [|apply orb_false_r].
  unfold bit_of. destruct (_ !! _) as [w|] eqn:E; [|apply Z.testbit_0_l].
  apply lookup_replicate_1 in E as [-> _]. apply Z.testbit_0_l.
Qed.

(** The first frame to be handed out. *)
Definition first_frame : Z := if pool_offset =? 0 then 1 else 0.

Lemma initial_pool_frames :
  32 * 4096 <= round_down (region_end en) - round_up kernel_end_addr_phys →
  pmm_next p = Some first_frame ∧
  pmm_next (pmm_take first_frame p) = Some (first_frame + 1) ∧
  pmm_next (pmm_take (first_frame + 1) (pmm_take first_frame p)) = Some (first_frame + 2).
Proof using HF HB HM HA.
  intros Hn. pose proof initial_pool_wf as W. pose proof pool_offset_aligned as Ho.
  assert (32 <= pool_frames p) as Hp.
  { unfold pool_frames. change (page_count p)
      with ((round_down (region_end en) - round_up kernel_end_addr_phys) / PAGE_SIZE).
    unfold PAGE_SIZE. mlia. }
  assert (first_frame = 1 ∧ pool_offset = 0 ∨ first_frame = 0 ∧ 4096 <= pool_offset) as Hf.
  { unfold first_frame. destruct (Z.eqb_spec pool_offset 0); [by left|right]. split; [done|]. mlia. }
  assert (∀ k, 0 <= k → bit_of (bitmap p) k = (k =? pool_offset)) as B by apply initial_pool_bits.
  set (k := first_frame) in *. set (q := p) in *. clearbody q k.
  assert (pmm_wf (pmm_take k q) ∧ pool_frames (pmm_take k q) = pool_frames q) as [W1 P1]
    by (split; [auto with words|done]).
  split_and!; apply pmm_next_first; rewrite ?P1; auto with words; try lia;
    change (pool_frames (pmm_take (k + 1) (pmm_take k q))) with (pool_frames q); try lia;
    intros; rewrite ?bit_of_pmm_take by (rewrite ?P1; done || lia); rewrite B by lia;
    repeat match goal with |- context [?a =? ?b] => destruct (Z.eqb_spec a b) end;
    done || (exfalso; lia).
Qed.
End InitialPool.

(** When every frame of the pool is taken, [pmm_alloc_page] prints the
    warning, returns NULL and leaves the bitmap alone. *)
Theorem pmm_alloc_page_exhausted m :
  pmm_wf (pmm m) → tty_ok (tty m) →
  (∀ k, 0 <= k < pool_frames (pmm m) → bit_of (bitmap (pmm m)) k = true) →
  pmm_alloc_page m = Done 0 (term_puts PMM_WARNING m) ∧
  pmm (term_puts PMM_WARNING m) = pmm m.
Proof.
  intros Hwf Htty Hall. pose proof (pmm_next_spec _ Hwf) as Hs.
  assert (pmm_next (pmm m) = None) as Hn.
  { destruct (pmm_next (pmm m)) as [k|]; [|done].
    destruct Hs as (Hr & Hf & _). by rewrite Hall in Hf. }
  split; [by apply pmm_alloc_page_None|].
  pose proof (term_puts_only_terminal PMM_WARNING m) as [E _]. by rewrite E.
Qed.

(** Five frames: too few for one bitmap word. *)
Definition tiny_pool : machine :=
  set_pmm (PhysicalMemory 0 20480 1179648 5 (replicate (Z.to_nat 8192) 0)) sample_pool.

Lemma tiny_pool_wf : pmm_wf (pmm tiny_pool).
Proof. split; try done. apply Forall_replicate. done. Qed.

Lemma pmm_alloc_page_exhausted_witness :
  pmm_alloc_page tiny_pool = Done 0 (term_puts PMM_WARNING tiny_pool) ∧
  pmm (term_puts PMM_WARNING tiny_pool) = pmm tiny_pool.
Proof.
  apply (pmm_alloc_page_exhausted tiny_pool).
  - exact tiny_pool_wf.
  - exact sample_pool_tty.
  - intros k Hk. change (pool_frames (pmm tiny_pool)) with 0 in Hk. lia.
Defined.

(** Freeing the page just allocated restores the machine exactly,
    when the page passes the range test of [pmm_free_page]. *)
Theorem pmm_alloc_free_roundtrip m k :
  pmm_wf (pmm m) → pmm_next (pmm m) = Some k →
  frame_addr (pmm m) k <= free_limit (pmm m) →
  (p ← pmm_alloc_page; pmm_free_page p) m = Done tt m.
Proof.
  intros Hwf Hk Hl. run (pmm_alloc_page_Some m k Hwf Hk).
  pose proof (pmm_next_spec _ Hwf) as Hs. rewrite Hk in Hs. destruct Hs as (Hr & Hf & _).
  pose proof (pool_frames_le _ Hwf) as Hle.
  destruct (frame_addr_word _ k Hwf ltac:(lia)) as [Hw _].
  pose proof Hwf as [H1 H2 H3 [H4 H4'] H5].
  assert (PAGE_ALIGN (frame_addr (pmm m) k) = frame_addr (pmm m) k) as HA.
  { apply PAGE_ALIGN_id; [done|]. unfold frame_addr, PAGE_SIZE in *. mlia. }
  assert ((frame_addr (pmm m) k - starting_addr (pmm m)) / PAGE_SIZE = k) as HK
    by (unfold frame_addr, PAGE_SIZE; mlia).
  rewrite pmm_free_page_ok; rewrite ?HA; cbn [pmm set_pmm pmm_take set_bitmap starting_addr];
    auto with words.
  - rewrite HK. f_equal. destruct m as [? ? ? ? []]. unfold pmm_release. simpl in *.
    rewrite clear_set_page; auto. unfold BITMAP_WORDS in *. lia.
  - split; [|exact Hl]. unfold frame_addr, PAGE_SIZE. lia.
  - rewrite HK. lia.
Qed.

(** The pool starts at a frame for which the range test lets frees through. *)
Lemma pmm_alloc_free_roundtrip_witness :
  (p ← pmm_alloc_page; pmm_free_page p) sample_pool = Done tt sample_pool.
Proof.
  apply (pmm_alloc_free_roundtrip sample_pool 0).
  - exact sample_pool_wf.
  - by vm_compute.
  - by vm_compute.
Defined.

(** C34: the upper limit [pmm_free_page] tests is a product, not a sum.  When
    the pool starts at a multiple of 1 MiB the product is 0 modulo 2^32, and
    every page of the pool is refused with a panic. *)
Theorem pmm_free_page_rejects_pool m k :
  pmm_wf (pmm m) → tty_ok (tty m) → starting_addr (pmm m) mod 1048576 = 0 →
  0 <= k < page_count (pmm m) →
  ∃ m', pmm_free_page (frame_addr (pmm m) k) m = Stop Panicked m'.
Proof.
  intros Hwf Htty Ha Hk. apply pmm_free_page_panics; [done|].
  destruct (frame_addr_word _ k Hwf Hk) as [Hw _].
  pose proof Hwf as [_ _ _ [H4 H4'] _].
  assert (free_limit (pmm m) = 0) as ->.
  { destruct (free_limit_dvd (pmm m)) as [q ->].
    pose proof (Z.div_mod (starting_addr (pmm m)) 1048576 ltac:(done)) as Hd.
    rewrite Ha, Z.add_0_r in Hd. rewrite Hd. unfold u32, W32.
    replace (1048576 * (starting_addr (pmm m) / 1048576) * 4096 * q)
      with (starting_addr (pmm m) / 1048576 * q * 4294967296) by ring.
    by apply Z.mod_mul. }
  rewrite PAGE_ALIGN_sub by done. unfold frame_addr, PAGE_SIZE in *. mlia.
Qed.

Lemma pmm_free_page_rejects_pool_witness :
  ∃ m', pmm_free_page 2097152
    (set_pmm (set_starting_addr 2097152 (pmm sample_pool)) sample_pool) = Stop Panicked m'.
Proof.
  apply (pmm_free_page_rejects_pool
    (set_pmm (set_starting_addr 2097152 (pmm sample_pool)) sample_pool) 0).
  - split; try done. apply Forall_replicate. done.
  - exact sample_pool_tty.
  - done.
  - done.
Defined.

(** C39: [pmm_init_struct] sizes the pool exactly: a frame belongs to it when
    it lies whole between the end of the kernel and the end of memory, and
    the allocator that results is well formed. *)
Theorem pmm_init_struct_exact `{L : Layout} last m :
  4096 <= last < W32 - PAGE_SIZE → last <= 32 * BITMAP_WORDS * PAGE_SIZE →
  0 < kernel_end_addr_phys → round_up kernel_end_addr_phys <= round_down last →
  Forall word (bitmap (pmm m)) → Z.of_nat (length (bitmap (pmm m))) = BITMAP_WORDS →
  ∃ p, pmm_init_struct last m = Done tt (set_pmm p m) ∧ pmm_wf p ∧
    bitmap p = bitmap (pmm m) ∧
    (∀ k, frame_addr p k mod 4096 = 0) ∧
    ∀ k, 0 <= k < page_count p ↔
      kernel_end_addr_phys <= frame_addr p k ∧ frame_addr p k + 4096 <= last.
Proof.
  intros Hl Hmax Hk Hle Hw Hn. exists (pool_of last (pmm m)). split_and!.
  - by apply pmm_init_struct_ok; [| lia|].
  - by apply pool_of_wf.
  - done.
  - intros k. unfold frame_addr, pool_of, round_up, PAGE_SIZE. simpl.
    rewrite (Z.mul_comm 4096 k), <- Z.mul_add_distr_r. by apply Z.mod_mul.
  - intros k. unfold frame_addr, pool_of, round_up, round_down, PAGE_SIZE in *. simpl.
    rewrite <- Z.mul_sub_distr_r, Z.div_mul by done.
    pose proof (Z.mod_pos_bound last 4096 ltac:(lia)).
    pose proof (Z.mod_pos_bound (kernel_end_addr_phys + 4095) 4096 ltac:(lia)).
    pose proof (Z.div_mod last 4096 ltac:(lia)).
    pose proof (Z.div_mod (kernel_end_addr_phys + 4095) 4096 ltac:(lia)). lia.
Qed.

Lemma pmm_init_struct_exact_witness :
  ∃ p, pmm_init_struct (L := sample_layout) 134086656 power_on = Done tt (set_pmm p power_on) ∧
    pmm_wf p ∧ bitmap p = bitmap (pmm power_on) ∧
    (∀ k, frame_addr p k mod 4096 = 0) ∧
    ∀ k, 0 <= k < page_count p ↔
      1130496 <= frame_addr p k ∧ frame_addr p k + 4096 <= 134086656.
Proof.
  apply (pmm_init_struct_exact (L := sample_layout) 134086656 power_on); try done.
  apply Forall_replicate. done.
Defined.

(** *** [pmm_init] *)

(** C9: [pmm_init] finds the last available region of the loader's map and
    lays the pool out from the first page behind the kernel to that region's
    end; the first module becomes the user task.  One bit of the bitmap is
    set, but not the one of a frame of the module: the offset in bytes is
    taken for a frame number, so the module's first frame stays free unless
    it is the pool's first. *)
Theorem pmm_init_sets_up_pool `{L : Layout} mbt n en m :
  low_identity m → multiboot_ok (mem m) mbt n en →
  let md := first_module (mem m) mbt in
  pool_fits en md → ml_mod_start md mod 4096 = 0 →
  bitmap (pmm m) = replicate (Z.to_nat BITMAP_WORDS) 0 →
  region_end en <= 32 * BITMAP_WORDS * PAGE_SIZE →
  ∃ m', pmm_init mbt m = Done tt m' ∧ pmm_wf (pmm m') ∧
    starting_addr (pmm m') = round_up kernel_end_addr_phys ∧
    page_count (pmm m') = (round_down (region_end en) - round_up kernel_end_addr_phys) / PAGE_SIZE ∧
    total_memory (pmm m') = me_len_low en ∧
    tasks m' = remember_module md (tasks m) ∧
    (∀ k, 0 <= k → bit_of (bitmap (pmm m')) k = (k =? pool_offset md)) ∧
    (0 < pool_offset md → bit_of (bitmap (pmm m')) (pool_offset md / PAGE_SIZE) = false).
Proof.
  intros Hid MB md PF AL BM HR.
  assert (Z.of_nat (length (bitmap (pmm m))) = BITMAP_WORDS) as Hlen
    by (rewrite BM, length_replicate; done).
  destruct (pool_offset_aligned md AL) as [H0 H1].
  eexists. split; [exact (pmm_init_ok mbt n en m Hid MB PF Hlen)|].
  pose proof (initial_pool_bits en md (pmm m) PF BM AL) as B.
  split_and!; try done.
  - by apply initial_pool_wf.
  - intros Hp. etransitivity; [apply B; unfold PAGE_SIZE; mlia|].
    apply Z.eqb_neq. unfold PAGE_SIZE. mlia.
Qed.

(** What a loader leaves: 128 MiB of memory, a map of two regions, one module
    three pages behind the kernel. *)
Definition loader_words : list (Z * Z) :=
  [(0x9000, 0x48); (0x9000 + 20, 1); (0x9000 + 24, 0xA000); (0x9000 + 44, 48); (0x9000 + 48, 0xB000);
   (0xA000, 1142784); (0xA004, 1146880);
   (0xB000, 20); (0xB000 + 12, 0x9FC00); (0xB000 + 20, 1);
   (0xB018, 20); (0xB018 + 4, 0x100000); (0xB018 + 12, 0x7EE0000); (0xB018 + 20, 1)].

Definition loaded_machine : machine := set_mem (words_at loader_words) power_on.

Definition sample_region : multiboot_mmap_entry := MmapEntry 20 0x100000 0 0x7EE0000 0 1.

Lemma loader_module : first_module (mem loaded_machine) 0x9000 = ModList 1142784 1146880 0 0.
Proof. by vm_compute. Qed.

Lemma sample_multiboot_ok : multiboot_ok (mem loaded_machine) 0x9000 2 sample_region.
Proof.
  split.
  - vm_compute. split; discriminate.
  - vm_compute. reflexivity.
  - vm_compute. reflexivity.
  - vm_compute. discriminate.
  - vm_compute. reflexivity.
  - vm_compute. discriminate.
Qed.

Lemma sample_pool_fits :
  pool_fits (L := sample_layout) sample_region (first_module (mem loaded_machine) 0x9000).
Proof.
  rewrite loader_module. split; [|reflexivity|..].
  - change (4096 <= 134086656 < 4294967296 - 4096). lia.
  - vm_compute. discriminate.
  - vm_compute. reflexivity.
  - vm_compute. discriminate.
Qed.

Lemma pmm_init_sets_up_pool_witness :
  let md := first_module (mem loaded_machine) 0x9000 in
  ∃ m', pmm_init (L := sample_layout) 0x9000 loaded_machine = Done tt m' ∧ pmm_wf (pmm m') ∧
    starting_addr (pmm m') = 1130496 ∧ page_count (pmm m') = 32460 ∧
    total_memory (pmm m') = 0x7EE0000 ∧
    tasks m' = remember_module md (tasks loaded_machine) ∧
    (∀ k, 0 <= k → bit_of (bitmap (pmm m')) k = (k =? pool_offset (L := sample_layout) md)) ∧
    (0 < pool_offset (L := sample_layout) md →
       bit_of (bitmap (pmm m')) (pool_offset (L := sample_layout) md / PAGE_SIZE) = false).
Proof.
  apply (pmm_init_sets_up_pool (L := sample_layout) 0x9000 2 sample_region loaded_machine).
  - intros v Hv. by apply translate_unpaged.
  - exact sample_multiboot_ok.
  - exact sample_pool_fits.
  - rewrite loader_module. reflexivity.
  - reflexivity.
  - vm_compute. discriminate.
Defined.
