(* ===== verification/Paging.v ===== *)
(** * Page tables: kernel/memory/paging.c

    The functions of paging.c that do not allocate virtual pages; the two
    that do are in Userspace.v. *)

From S2P Require Import Prelude Machine Tty Memory Boot Cstring Bitmap Pmm.

(** ** Table entries

    [struct page_table_entry] and [struct page_directory_entry]: 32-bit
    bit-fields with one layout.  In a directory entry [dirty] is an ignored
    bit and [pat_support] is [page_size]. *)
Record table_entry : Type := TableEntry {
  present : bool;
  r_w : bool;
  user : bool;
  write_through : bool;
  cache_disable : bool;
  accessed : bool;
  dirty : bool;
  pat_support : bool;
  global_translation : bool;
  ignored : Z;     (* 3 bits *)
  phys_addr : Z    (* 20 bits *)
}.

Definition zero_entry : table_entry :=
  TableEntry false false false false false false false false false 0 0.

Definition set_present (b : bool) (e : table_entry) : table_entry :=
  TableEntry b (r_w e) (user e) (write_through e) (cache_disable e) (accessed e)
    (dirty e) (pat_support e) (global_translation e) (ignored e) (phys_addr e).

Definition set_r_w (b : bool) (e : table_entry) : table_entry :=
  TableEntry (present e) b (user e) (write_through e) (cache_disable e) (accessed e)
    (dirty e) (pat_support e) (global_translation e) (ignored e) (phys_addr e).

Definition set_user (b : bool) (e : table_entry) : table_entry :=
  TableEntry (present e) (r_w e) b (write_through e) (cache_disable e) (accessed e)
    (dirty e) (pat_support e) (global_translation e) (ignored e) (phys_addr e).

Definition set_global_translation (b : bool) (e : table_entry) : table_entry :=
  TableEntry (present e) (r_w e) (user e) (write_through e) (cache_disable e)
    (accessed e) (dirty e) (pat_support e) b (ignored e) (phys_addr e).

Definition set_phys_addr (a : Z) (e : table_entry) : table_entry :=
  TableEntry (present e) (r_w e) (user e) (write_through e) (cache_disable e)
    (accessed e) (dirty e) (pat_support e) (global_translation e) (ignored e)
    (a mod 1048576).

(** The bit-field as the word the compiler lays it out in. *)
Definition encode_entry (e : table_entry) : Z :=
  Z.b2z (present e) + 2 * Z.b2z (r_w e) + 4 * Z.b2z (user e)
  + 8 * Z.b2z (write_through e) + 16 * Z.b2z (cache_disable e)
  + 32 * Z.b2z (accessed e) + 64 * Z.b2z (dirty e) + 128 * Z.b2z (pat_support e)
  + 256 * Z.b2z (global_translation e) + 512 * ignored e + 4096 * phys_addr e.

Definition decode_entry (w : Z) : table_entry :=
  TableEntry (Z.testbit w 0) (Z.testbit w 1) (Z.testbit w 2) (Z.testbit w 3)
    (Z.testbit w 4) (Z.testbit w 5) (Z.testbit w 6) (Z.testbit w 7) (Z.testbit w 8)
    ((w / 512) mod 8) ((w / 4096) mod 1048576).

(** [paging_set_page_table_addr] and [paging_set_page_directory_addr]. *)
Definition paging_set_page_table_addr (addr : Z) : table_entry → table_entry :=
  set_phys_addr (Z.shiftr addr 12).

Definition paging_set_page_directory_addr (addr : Z) : table_entry → table_entry :=
  set_phys_addr (Z.shiftr addr 12).

(** [&table->entries\[index\]], and the accesses through it. *)
Definition entry_ptr (table index : Z) : Z := table [+] 4 * index.

Definition ld_entry (p : Z) : M table_entry :=
  w ← ld32 p; mret (decode_entry w).

Definition st_entry (p : Z) (e : table_entry) : M unit := st32 p (encode_entry e).

(** An assignment to one field of an entry in memory. *)
Definition update_entry (p : Z) (f : table_entry → table_entry) : M unit :=
  e ← ld_entry p; st_entry p (f e).

(** ** Operations *)

(** Reloading CR3 changes no translation: no TLB is modelled. *)
Definition paging_flush_tlb : M unit := mret tt.

Definition paging_change_page_directory (page_directory_phys : Z) : M unit :=
  mod_cpu (set_cr3 page_directory_phys);;
  cr0 ← gets_cpu cr0;
  mod_cpu (set_cr0 (Z.lor cr0 0x80000000));;
  paging_flush_tlb.

(** The entries that map the kernel. *)
Definition kernel_entry (frame : Z) : table_entry :=
  set_global_translation true (set_r_w true (set_present true
    (paging_set_page_table_addr (PAGE_ALIGN frame) zero_entry))).

Definition kernel_directory_entry (frame : Z) : table_entry :=
  set_global_translation true (set_r_w true (set_present true
    (paging_set_page_directory_addr frame zero_entry))).

Section Paging.
Context `{L : Layout}.

Definition paging_init : M Z :=
  pd_page ← pmm_alloc_page;
  modify (set_kernel_page_directory (P2V_ADDR pd_page));;
  kpd ← gets kernel_page_directory;
  (if kpd =? 0 then panic (chars "Unable to allocate page directory" ++ [NL])
   else memset kpd 0 PAGE_SIZE;; mret tt);;
  pt_page ← pmm_alloc_page;
  let page_table := P2V_ADDR pt_page in
  (if page_table =? 0 then
     panic (chars "Unable to allocate a kernel page table" ++ [NL])
   else memset page_table 0 PAGE_SIZE;; mret tt);;
  for_range 1024 0 (λ i,
    let kernel_frame := i [*] PAGE_SIZE in
    let page_table_index := PAGE_TABLE_INDEX kernel_frame in
    st_entry (entry_ptr page_table page_table_index) (kernel_entry kernel_frame));;
  let pd_entry := kernel_directory_entry (V2P_ADDR page_table) in
  let page_table_address := PAGE_DIRECTORY_INDEX kernel_start_addr_virt in
  kpd ← gets kernel_page_directory;
  st_entry (entry_ptr kpd page_table_address) pd_entry;;
  hs ← gets_interrupts idt_handlers;
  hs' ← array_set hs 14 paging_page_fault_handler;
  mod_interrupts (set_idt_handlers hs');;
  kpd ← gets kernel_page_directory;
  paging_change_page_directory (V2P_ADDR kpd);;
  mret page_table.
End Paging.

Definition paging_add_page_table (pt_phys_addr pt_virt_addr : Z) : M unit :=
  let pd_entry := set_r_w true (set_present true
    (paging_set_page_directory_addr pt_phys_addr zero_entry)) in
  let page_table_address := PAGE_DIRECTORY_INDEX pt_virt_addr in
  kpd ← gets kernel_page_directory;
  st_entry (entry_ptr kpd page_table_address) pd_entry;;
  paging_flush_tlb.

Definition paging_is_virtual_page_present (page_table_ptr virt_page : Z) : M bool :=
  let pt_index := PAGE_TABLE_INDEX virt_page in
  e ← ld_entry (entry_ptr page_table_ptr pt_index);
  mret (present e).

Definition paging_map_virtual_page (page_table_ptr virt_page : Z) : M Z :=
  let pt_index := PAGE_TABLE_INDEX virt_page in
  let pt_entry := entry_ptr page_table_ptr pt_index in
  phys_page ← pmm_alloc_page;
  update_entry pt_entry (paging_set_page_table_addr phys_page);;
  update_entry pt_entry (set_present true);;
  update_entry pt_entry (set_r_w true);;
  mret phys_page.

(** [paging_page_fault_handler]. *)
Definition page_fault : M unit :=
  faulting_address ← gets_cpu cr2;
  kprintf (chars "page fault occurred" ++ [NL]) [];;
  kprintf (chars "faulting address: %x" ++ [NL]) [VaInt faulting_address];;
  panic (chars "page fault occurred" ++ [NL]).

(** ** Entries *)

Definition entry_wf (e : table_entry) : Prop :=
  0 <= ignored e < 8 ∧ 0 <= phys_addr e < 1048576.

Lemma encode_entry_horner e :
  encode_entry e =
    2 * (2 * (2 * (2 * (2 * (2 * (2 * (2 * (2 * (ignored e + 8 * phys_addr e)
      + Z.b2z (global_translation e)) + Z.b2z (pat_support e)) + Z.b2z (dirty e))
      + Z.b2z (accessed e)) + Z.b2z (cache_disable e)) + Z.b2z (write_through e))
      + Z.b2z (user e)) + Z.b2z (r_w e)) + Z.b2z (present e).
Proof. unfold encode_entry. ring. Qed.

Lemma encode_entry_word e : entry_wf e → word (encode_entry e).
Proof.
  intros [Hi Hp]. rewrite encode_entry_horner. unfold word.
  change W32 with (2 * (2 * (2 * (2 * (2 * (2 * (2 * (2 * (2 * 8388608))))))))).
  do 9 apply cons_range. lia.
Qed.

Lemma encode_entry_high e : entry_wf e → encode_entry e / 512 = ignored e + 8 * phys_addr e.
Proof.
  intros [Hi Hp]. rewrite encode_entry_horner.
  change 512 with (2 * (2 * (2 * (2 * (2 * (2 * (2 * (2 * 2)))))))).
  rewrite <- !Z.div_div by done. by rewrite !half_cons.
Qed.

Lemma decode_encode_entry e : entry_wf e → decode_entry (encode_entry e) = e.
Proof.
  intros Hwf. pose proof (encode_entry_high e Hwf) as Hh. destruct Hwf as [Hi Hp].
  unfold decode_entry. replace (encode_entry e / 4096) with (encode_entry e / 512 / 8)
    by (rewrite Z.div_div by lia; done).
  rewrite Hh, encode_entry_horner. walk_bits.
  destruct e as [b0 b1 b2 b3 b4 b5 b6 b7 b8 ig pa]; simpl in *. f_equal; mlia.
Qed.

Lemma encode_decode_entry w : word w → encode_entry (decode_entry w) = w.
Proof.
  intros Hw. rewrite encode_entry_horner. unfold decode_entry.
  cbn [present r_w user write_through cache_disable accessed dirty pat_support
    global_translation ignored phys_addr].
  replace ((w / 512) mod 8 + 8 * ((w / 4096) mod 1048576)) with (w / 2 ^ 9).
  - rewrite (half_step w 8 9), (half_step w 7 8), (half_step w 6 7), (half_step w 5 6),
      (half_step w 4 5), (half_step w 3 4), (half_step w 2 3), (half_step w 1 2),
      (half_step w 0 1) by lia. apply Z.div_1_r.
  - change (2 ^ 9) with 512. unfold word, W32 in Hw. mlia.
Qed.

(** What the MMU reads from an encoded entry. *)
Lemma encode_entry_present e : Z.testbit (encode_entry e) ENTRY_PRESENT = present e.
Proof. rewrite encode_entry_horner. unfold ENTRY_PRESENT. by walk_bits. Qed.

Lemma encode_entry_user e : Z.testbit (encode_entry e) ENTRY_USER = user e.
Proof. rewrite encode_entry_horner. unfold ENTRY_USER. by walk_bits. Qed.

Lemma encode_entry_frame e : entry_wf e → PAGE_ALIGN (encode_entry e) = 4096 * phys_addr e.
Proof.
  intros He. rewrite PAGE_ALIGN_sub by (by apply encode_entry_word).
  pose proof (encode_entry_high e He). destruct He as [Hi Hp]. mlia.
Qed.

Lemma encode_entry_maps e :
  entry_wf e → present e = true → entry_maps (encode_entry e) (4096 * phys_addr e).
Proof.
  intros He Hp. split; [by rewrite encode_entry_present|by apply encode_entry_frame].
Qed.

(** An address assigned to an entry keeps its page. *)
Lemma phys_addr_page a : word a → Z.shiftr a 12 mod 1048576 = a / 4096.
Proof.
  intros Ha. rewrite Z.shiftr_div_pow2 by lia. change (2 ^ 12) with 4096.
  unfold word, W32 in Ha. mlia.
Qed.

Lemma set_phys_addr_wf a e : entry_wf e → entry_wf (set_phys_addr a e).
Proof. intros [Hi Hp]. split; [done|]. apply Z.mod_pos_bound. done. Qed.

Lemma kernel_entry_maps f :
  word f → f mod 4096 = 0 → entry_maps (encode_entry (kernel_entry f)) f.
Proof.
  intros Hf Ha. replace f with (4096 * phys_addr (kernel_entry f)) at 2.
  - apply encode_entry_maps; [|done]. split; [done|]. apply Z.mod_pos_bound. done.
  - simpl. rewrite PAGE_ALIGN_id, phys_addr_page by done. mlia.
Qed.

Lemma kernel_directory_entry_maps f :
  word f → f mod 4096 = 0 → entry_maps (encode_entry (kernel_directory_entry f)) f.
Proof.
  intros Hf Ha. replace f with (4096 * phys_addr (kernel_directory_entry f)) at 2.
  - apply encode_entry_maps; [|done]. split; [done|]. apply Z.mod_pos_bound. done.
  - simpl. rewrite phys_addr_page by done. mlia.
Qed.

Section Entries.
Context {I : machine → Prop} {owns : Z → Prop} `{!Region I owns}.

Lemma st_entry_ok m p e :
  I m → owns_range owns p 4 → entry_wf e →
  ∃ m', st_entry p e m = Done tt m' ∧ I m' ∧ word_at m' p = encode_entry e ∧
    writes_only owns m m' p 4.
Proof.
  intros HI Ho He. destruct (st32_ok m p (encode_entry e) HI Ho) as (m' & ? & ? & Hw & ?).
  rewrite u32_small in Hw by (by apply encode_entry_word). eauto.
Qed.

Lemma ld_entry_ok m p :
  I m → owns_range owns p 4 → ld_entry p m = Done (decode_entry (word_at m p)) m.
Proof. intros HI Ho. unfold ld_entry. by run (ld32_ok m p HI Ho). Qed.

Lemma decode_entry_wf w : entry_wf (decode_entry w).
Proof using. split; apply Z.mod_pos_bound; done. Qed.

Lemma update_entry_ok m p f :
  I m → owns_range owns p 4 → (∀ e, entry_wf e → entry_wf (f e)) →
  ∃ m', update_entry p f m = Done tt m' ∧ I m' ∧
    word_at m' p = encode_entry (f (decode_entry (word_at m p))) ∧
    writes_only owns m m' p 4.
Proof.
  intros HI Ho Hf. unfold update_entry. run (ld_entry_ok m p HI Ho).
  apply st_entry_ok; [done|done|]. apply Hf, decode_entry_wf.
Qed.
End Entries.

(** ** Building the kernel's tables *)

Section Tables.
Context {I : machine → Prop} {owns : Z → Prop} `{!Region I owns}.

Lemma clear_words s n m :
  I m → 0 <= n → owns_range owns s (4 * n) →
  ∃ m', memset s 0 (4 * n) m = Done s m' ∧ I m' ∧ writes_only owns m m' s (4 * n) ∧
    ∀ i, 0 <= i < n → word_at m' (s + 4 * i) = 0.
Proof.
  intros HI Hn Ho. destruct (memset_ok s 0 (4 * n) m HI ltac:(lia) Ho)
    as (m' & Hs & HI' & HW & HB).
  exists m'. split_and!; try done. intros i Hi. unfold word_at.
  rewrite <- !Z.add_assoc, !HB by lia. done.
Qed.

Lemma fill_kernel_entries t m :
  I m → owns_range owns t 4096 →
  returns (for_range 1024 0 (λ i,
    let kernel_frame := i [*] PAGE_SIZE in
    let page_table_index := PAGE_TABLE_INDEX kernel_frame in
    st_entry (entry_ptr t page_table_index) (kernel_entry kernel_frame))) m (λ _ m',
      I m' ∧ writes_only owns m m' t 4096 ∧
      ∀ i, 0 <= i < 1024 →
        word_at m' (t + 4 * i) = encode_entry (kernel_entry (4096 * i))).
Proof.
  intros HI Ho. unfold returns.
  rewrite (for_range_ext _ _ _
    (λ i, st32 (t + 4 * i) (encode_entry (kernel_entry (4096 * i))))).
  - pose proof (fill_words t 1024 (λ i, encode_entry (kernel_entry (4096 * i))) m HI Ho)
      as Hf.
    eapply returns_mono; [apply Hf|]. intros [] m' (HI' & HW & Hw). split_and!; try done.
    intros i Hi. rewrite Hw by lia. apply u32_small, encode_entry_word.
    split; [done|]. apply Z.mod_pos_bound. done.
  - intros i s Hi. cbv zeta. unfold st_entry, entry_ptr, PAGE_SIZE.
    rewrite (u32_small (i * 4096)) by word_lia.
    rewrite PAGE_TABLE_INDEX_div by word_lia.
    rewrite Z.div_mul, (Z.mod_small i 1024) by lia.
    rewrite (u32_small (t + 4 * i)), (Z.mul_comm i).
    + done.
    + apply region_word, (owns_range_at _ t 4096); [done|lia].
Qed.
End Tables.

(** The tables at [pd] and [pt], seen through whatever map is in force. *)
Record tables_built (pd pt : Z) (m : machine) : Prop := {
  tb_pde : entry_maps (rd32 (mem m) (pd + 4 * 768)) pt;
  tb_pte i : 0 <= i < 1024 → entry_maps (rd32 (mem m) (pt + 4 * i)) (4096 * i);
  tb_empty i : 0 <= i < 1024 → i ≠ 768 → rd32 (mem m) (pd + 4 * i) = 0
}.

Lemma tables_built_map pd pt m m' :
  tables_built pd pt m → low_frame pd → low_frame pt →
  mem m' = mem m → cr3 (cpu m') = pd → paging_on m' = true → kernel_map pd pt m'.
Proof.
  intros [H1 H2 H3] Hpd Hpt Hm Hc Hon. split; rewrite ?Hm; try done.
  rewrite Hc. destruct Hpd as [Hr Ha]. apply PAGE_ALIGN_id; [|done].
  unfold WINDOW in Hr. word_lia.
Qed.

Lemma tables_built_unmapped pd pt m m' v :
  tables_built pd pt m → low_frame pd →
  mem m' = mem m → cr3 (cpu m') = pd → paging_on m' = true →
  word v → ¬ in_window v → translate m' v = None.
Proof.
  intros [H1 H2 H3] [Hr Ha] Hm Hc Hon Hv Hout. unfold translate.
  rewrite Hon. simpl. unfold page_directory_entry_at. rewrite Hc, Hm.
  rewrite PAGE_ALIGN_id by (done || unfold WINDOW in Hr; word_lia).
  rewrite H3; [done| |]; rewrite PAGE_DIRECTORY_INDEX_div by done;
    unfold in_window, WINDOW, KERNEL_VIRT_BASE, word, W32 in *; mlia.
Qed.

Lemma P2V_not_null f : low_frame f → (f + KERNEL_VIRT_BASE =? 0) = false.
Proof. intros [Hf _]. apply Z.eqb_neq. unfold KERNEL_VIRT_BASE. lia. Qed.

Lemma low_frame_window f : low_frame f → in_window (f + KERNEL_VIRT_BASE).
Proof. unfold low_frame, in_window. lia. Qed.

Section PagingInit.
Context `{L : Layout}.
Context (pd0 pt0 pd pt : Z) (m : machine).
Hypothesis (Hkm : kernel_map pd0 pt0 m).
Hypothesis (Hpd : low_frame pd ∧ pd ≠ pd0 ∧ pd ≠ pt0).
Hypothesis (Hpt : low_frame pt ∧ pt ≠ pd0 ∧ pt ≠ pt0).
Hypothesis (Hne : pd ≠ pt).

Definition owned := window_free pd0 pt0.

Lemma pd_owned : owns_range owned (pd + KERNEL_VIRT_BASE) 4096.
Proof using Hkm Hpd. apply low_frame_owned; try apply Hpd; apply Hkm. Qed.

Lemma pt_owned : owns_range owned (pt + KERNEL_VIRT_BASE) 4096.
Proof using Hkm Hpt. apply low_frame_owned; try apply Hpt; apply Hkm. Qed.

Lemma frames_apart : pd + 4096 <= pt ∨ pt + 4096 <= pd.
Proof using Hpd Hpt Hne.
  destruct Hpd as [[H1 H2] _], Hpt as [[H3 H4] _]. mlia.
Qed.

(** The words of the two tables after the stores of [paging_init]. *)
Lemma build_tables m1 m2 m3 m4 :
  writes_only owned m1 m2 (pt + KERNEL_VIRT_BASE) 4096 →
  writes_only owned m2 m3 (pt + KERNEL_VIRT_BASE) 4096 →
  writes_only owned m3 m4 (pd + KERNEL_VIRT_BASE + 4 * 768) 4 →
  kernel_map pd0 pt0 m4 →
  (∀ i, 0 <= i < 1024 → word_at m1 (pd + KERNEL_VIRT_BASE + 4 * i) = 0) →
  (∀ i, 0 <= i < 1024 → word_at m3 (pt + KERNEL_VIRT_BASE + 4 * i)
                        = encode_entry (kernel_entry (4096 * i))) →
  word_at m4 (pd + KERNEL_VIRT_BASE + 4 * 768)
    = encode_entry (kernel_directory_entry pt) →
  tables_built pd pt m4.
Proof using Hkm Hpd Hpt Hne.
  intros W2 W3 W4 Hm4 Z1 Z3 Z4. pose proof frames_apart as Hap.
  pose proof pd_owned as Opd. pose proof pt_owned as Opt.
  assert (∀ i, 0 <= i < 1024 → owns_range owned (pd + KERNEL_VIRT_BASE + 4 * i) 4) as Od
    by (intros i Hi; apply (owns_range_sub _ _ _ _ _ Opd); lia).
  assert (∀ i, 0 <= i < 1024 → owns_range owned (pt + KERNEL_VIRT_BASE + 4 * i) 4) as Ot
    by (intros i Hi; apply (owns_range_sub _ _ _ _ _ Opt); lia).
  destruct Hpd as [Lpd _], Hpt as [Lpt _].
  assert (∀ f i, low_frame f → 0 <= i < 1024 →
    rd32 (mem m4) (f + 4 * i) = word_at m4 (f + KERNEL_VIRT_BASE + 4 * i)) as Hrd.
  { intros f i [Hf Ha] Hi. unfold WINDOW in Hf.
    rewrite (word_at_window pd0 pt0) by (done || unfold in_window, WINDOW; mlia).
    f_equal. lia. }
  split.
  - rewrite Hrd by (done || lia). rewrite Z4.
    destruct Lpt as [Hf Ha]. unfold WINDOW in Hf.
    apply kernel_directory_entry_maps; [word_lia|done].
  - intros i Hi. rewrite Hrd by done.
    rewrite (writes_only_word_at _ _ _ _ _ W4), Z3 by
      (auto || lia).
    apply kernel_entry_maps; [word_lia|mlia].
  - intros i Hi Hn. rewrite Hrd by done.
    rewrite (writes_only_word_at _ _ _ _ _ W4), (writes_only_word_at _ _ _ _ _ W3),
      (writes_only_word_at _ _ _ _ _ W2), Z1 by
      (auto || lia). done.
Qed.

Hypothesis (Hstart : in_window kernel_start_addr_virt).
Hypothesis (Hidt : length (idt_handlers (interrupts m)) = 256%nat).

(** The machine [paging_init] leaves, but for the contents of memory. *)
Definition paging_init_frame (p : physical_memory) (μ : gmap Z Z) : machine :=
  let c := cpu m in
  let hs := idt_handlers (interrupts m) in
  set_cpu (set_cr0 (Z.lor (cr0 c) 0x80000000) (set_cr3 pd c))
    (set_interrupts (set_idt_handlers (<[14%nat := paging_page_fault_handler]> hs)
      (interrupts m))
      (set_mem μ (set_kernel_page_directory (pd + KERNEL_VIRT_BASE) (set_pmm p m)))).

Lemma paging_init_runs p1 p2 :
  pmm_alloc_page m = Done pd (set_pmm p1 m) →
  (∀ m', pmm m' = p1 → pmm_alloc_page m' = Done pt (set_pmm p2 m')) →
  ∃ μ, paging_init m = Done (pt + KERNEL_VIRT_BASE) (paging_init_frame p2 μ) ∧
    tables_built pd pt (paging_init_frame p2 μ) ∧
    ∀ a, owned (a + KERNEL_VIRT_BASE) → ¬ in_frame pd a → ¬ in_frame pt a →
      rd8 μ a = rd8 (mem m) a.
Proof using Hkm Hpd Hpt Hne Hstart Hidt.
  intros A1 A2. pose proof pd_owned as Opd. pose proof pt_owned as Opt.
  unfold paging_init. run A1. steps. cbv beta.
  change (kernel_page_directory (set_kernel_page_directory (P2V_ADDR pd) (set_pmm p1 m)))
    with (P2V_ADDR pd).
  rewrite !P2V_low, !P2V_not_null by (apply Hpd || apply Hpt). steps.
  set (m1 := set_kernel_page_directory (pd + KERNEL_VIRT_BASE) (set_pmm p1 m)).
  assert (kernel_map pd0 pt0 m1) as K1 by (by apply (kernel_map_same _ _ m)).
  destruct (clear_words (I := kernel_map pd0 pt0) (pd + KERNEL_VIRT_BASE) 1024 m1 K1
    ltac:(lia) Opd) as (m2 & S2 & K2 & W2 & Z2). run S2. steps.
  assert (pmm m2 = p1) as E2 by (rewrite (proj1 W2); done).
  run (A2 m2 E2). rewrite !P2V_low, !P2V_not_null by apply Hpt. steps.
  assert (kernel_map pd0 pt0 (set_pmm p2 m2)) as K2' by (by apply (kernel_map_same _ _ m2)).
  destruct (clear_words (I := kernel_map pd0 pt0) (pt + KERNEL_VIRT_BASE) 1024
    (set_pmm p2 m2) K2' ltac:(lia) Opt) as (m3 & S3 & K3 & W3 & Z3). run S3. steps.
  pose proof (fill_kernel_entries (pt + KERNEL_VIRT_BASE) m3 K3 Opt) as Hfill.
  apply returns_done in Hfill as ([] & m4 & S4 & K4 & W4 & Z4). run S4. steps.
  assert (kernel_page_directory m4 = pd + KERNEL_VIRT_BASE) as E4
    by (rewrite (proj1 W4), (proj1 W3), (proj1 W2); done).
  rewrite E4, V2P_window, Z.add_simpl_r by (apply low_frame_window, Hpt).
  rewrite (proj1 (window_indices _ Hstart)). unfold entry_ptr.
  rewrite (u32_small (pd + _ + _)).
  2: { eapply (region_word (I := kernel_map pd0 pt0)), (owns_range_at _ _ _ _ Opd). lia. }
  destruct (st_entry_ok (I := kernel_map pd0 pt0) m4 (pd + KERNEL_VIRT_BASE + 4 * 768)
    (kernel_directory_entry pt) K4) as (m5 & S5 & K5 & Z5 & W5).
  { apply (owns_range_sub _ _ _ _ _ Opd); lia. }
  { split; [done|]. apply Z.mod_pos_bound. done. }
  run S5. msteps.
  assert (m5 = set_mem (mem m5) (set_kernel_page_directory (pd + KERNEL_VIRT_BASE)
    (set_pmm p2 m))) as E5.
  { rewrite (proj1 W5), (proj1 W4), (proj1 W3), (proj1 W2). done. }
  assert (idt_handlers (interrupts m5) = idt_handlers (interrupts m)) as EI
    by (by rewrite E5).
  assert (0 <= 14 < Z.of_nat (length (idt_handlers (interrupts m5)))) as Hlen
    by (rewrite EI, Hidt; lia).
  run (array_set_insert _ 14 paging_page_fault_handler m5 Hlen). steps.
  exists (mem m5). split_and!.
  - rewrite E5. unfold paging_change_page_directory, paging_flush_tlb. msteps.
    rewrite V2P_window by (apply low_frame_window, Hpd).
    cbn [kernel_page_directory set_interrupts set_mem set_kernel_page_directory].
    by rewrite Z.add_simpl_r.
  - assert (tables_built pd pt m5) as [T1 T2 T3]; [|by split].
    apply (build_tables (set_pmm p2 m2) m3 m4 m5 W3 W4 W5 K5); [|exact Z4|exact Z5].
    intros i Hi. rewrite (word_at_same m2) by done. by apply Z2.
  - unfold in_frame. intros a Ha N1 N2.
    assert (∀ m', kernel_map pd0 pt0 m' → byte_at m' (a + KERNEL_VIRT_BASE) = rd8 (mem m') a)
      as Hb.
    { intros m' K'. rewrite (byte_at_window pd0 pt0) by (done || apply Ha). f_equal. lia. }
    rewrite <- (Hb m5), <- (Hb m) by done.
    rewrite (proj2 W5), (proj2 W4), (proj2 W3) by (done || lia).
    rewrite (byte_at_same m2) by done. rewrite (proj2 W2) by (done || lia).
    by apply byte_at_same.
Qed.
End PagingInit.

(** ** Mapping one page *)

Definition mapped_entry (frame : Z) (e : table_entry) : table_entry :=
  set_r_w true (set_present true (paging_set_page_table_addr frame e)).

Lemma mapped_entry_maps f e :
  word f → f mod 4096 = 0 → entry_wf e → entry_maps (encode_entry (mapped_entry f e)) f.
Proof.
  intros Hf Ha [He _]. replace f with (4096 * phys_addr (mapped_entry f e)) at 2.
  - apply encode_entry_maps; [|done]. split; [done|]. apply Z.mod_pos_bound. done.
  - simpl. rewrite phys_addr_page by done. mlia.
Qed.

Lemma PAGE_TABLE_INDEX_range v : 0 <= PAGE_TABLE_INDEX v < 1024.
Proof.
  unfold PAGE_TABLE_INDEX. change 1023 with (Z.ones 10). rewrite Z.land_ones by lia.
  by apply Z.mod_pos_bound.
Qed.

Lemma PAGE_DIRECTORY_INDEX_range v : 0 <= PAGE_DIRECTORY_INDEX v < 1024.
Proof.
  unfold PAGE_DIRECTORY_INDEX. change 1023 with (Z.ones 10). rewrite Z.land_ones by lia.
  by apply Z.mod_pos_bound.
Qed.

Section MapPage.
Context {I : machine → Prop} {owns : Z → Prop} `{!Region I owns}.

Lemma map_virtual_page_ok m T v f p' :
  let a := T + 4 * PAGE_TABLE_INDEX v in
  I m → owns_range owns a 4 → pmm_alloc_page m = Done f (set_pmm p' m) →
  ∃ m', paging_map_virtual_page T v m = Done f m' ∧ I m' ∧ pmm m' = p' ∧
    word_at m' a = encode_entry (mapped_entry f (decode_entry (word_at m a))) ∧
    writes_only owns (set_pmm p' m) m' a 4.
Proof.
  intros a Hm Oa HA. pose proof (PAGE_TABLE_INDEX_range v) as Hr.
  unfold paging_map_virtual_page. run HA.
  replace (entry_ptr T (PAGE_TABLE_INDEX v)) with a.
  2: { symmetry. apply u32_small, region_word, (owns_range_at _ a 4); [done|lia]. }
  clearbody a.
  assert (I (set_pmm p' m)) as K0 by (by apply (region_same m)).
  assert (∀ e, entry_wf e → entry_wf (paging_set_page_table_addr f e)) as F1
    by (intros; by apply set_phys_addr_wf).
  assert (∀ e, entry_wf e → entry_wf (set_present true e)) as F2 by (intros e [? ?]; by split).
  assert (∀ e, entry_wf e → entry_wf (set_r_w true e)) as F3 by (intros e [? ?]; by split).
  destruct (update_entry_ok (set_pmm p' m) a _ K0 Oa F1) as (m1 & S1 & K1 & V1 & W1). run S1.
  destruct (update_entry_ok m1 a _ K1 Oa F2) as (m2 & S2 & K2 & V2 & W2). run S2.
  destruct (update_entry_ok m2 a _ K2 Oa F3) as (m3 & S3 & K3 & V3 & W3). run S3.
  exists m3. split_and!; [done|done| | |].
  - by rewrite (proj1 W3), (proj1 W2), (proj1 W1).
  - rewrite V3, V2, V1, (word_at_same m) by done. unfold mapped_entry.
    pose proof (decode_entry_wf (word_at m a)) as Hwf.
    rewrite (decode_encode_entry _ (F1 _ Hwf)), (decode_encode_entry _ (F2 _ (F1 _ Hwf))).
    reflexivity.
  - apply (writes_only_trans _ m1); [done|]. by apply (writes_only_trans _ m2).
Qed.
End MapPage.

(** The table in frame [t] serves the directory entry of [v]. *)
Definition table_serves (pd pt t v : Z) (m : machine) : Prop :=
  low_frame t ∧ t ≠ pd ∧ t ≠ pt ∧
  entry_maps (rd32 (mem m) (pd + 4 * PAGE_DIRECTORY_INDEX v)) t.

Lemma map_virtual_page_translates pd pt m t v f p' :
  kernel_map pd pt m → table_serves pd pt t v m → word v →
  pmm_alloc_page m = Done f (set_pmm p' m) → word f → f mod 4096 = 0 →
  ∃ m', paging_map_virtual_page (t + KERNEL_VIRT_BASE) v m = Done f m' ∧
    kernel_map pd pt m' ∧ pmm m' = p' ∧ translate m' v = Some (f + v mod 4096).
Proof.
  intros Hm (Hl & Hpd & Hpt & S1 & S2) Hv HA Hf Ha.
  set (D i := rd32 (mem m) (pd + 4 * i)).
  assert (kernel_dir D pd pt m) as Hd by done.
  assert (owns_range (window_free pd pt) (t + KERNEL_VIRT_BASE) 4096) as Ho
    by (apply low_frame_owned; (done || apply Hm)).
  pose proof (PAGE_TABLE_INDEX_range v) as Hr.
  assert (owns_range (window_free pd pt) (t + KERNEL_VIRT_BASE + 4 * PAGE_TABLE_INDEX v) 4) as Oa
    by (apply (owns_range_sub _ _ _ _ _ Ho); lia).
  destruct (map_virtual_page_ok m _ v f p' Hd Oa HA) as (m' & E & [K KD] & P & V & W).
  exists m'. split_and!; try done. destruct Hl as [T1 T2]. unfold WINDOW in T1.
  pose proof (PAGE_DIRECTORY_INDEX_range v) as Hr'.
  rewrite (word_at_window pd pt m' _ K) in V
    by (unfold in_window, WINDOW, KERNEL_VIRT_BASE; mlia).
  replace (t + KERNEL_VIRT_BASE + 4 * PAGE_TABLE_INDEX v - KERNEL_VIRT_BASE)
    with (t + 4 * PAGE_TABLE_INDEX v) in V by lia.
  pose proof (mapped_entry_maps f _ Hf Ha (decode_entry_wf (word_at m
    (t + KERNEL_VIRT_BASE + 4 * PAGE_TABLE_INDEX v)))) as [M1 M2].
  rewrite <- V in M1, M2.
  unfold translate, page_table_entry_at, page_directory_entry_at.
  rewrite (km_on _ _ _ K), (km_cr3 _ _ _ K), KD by done. unfold D. rewrite S1, S2, M1, M2.
  done.
Qed.

(** ** Properties *)

(** The machine after the entry code, with the sample pool. *)
Definition kernel_with_pool : machine := set_pmm (pmm sample_pool) kernel_entered.

Lemma kernel_with_pool_map : kernel_map 1114112 1118208 kernel_with_pool.
Proof. by apply (kernel_map_same _ _ kernel_entered), kernel_entered_map. Qed.

(** C13: [paging_init], run under any map of the kernel's window, builds and
    activates a new one from the first two free frames: the window is mapped
    to the first 4 MiB of physical memory, every other address is unmapped,
    and the page-fault handler is installed. *)
Theorem paging_init_builds_window `{L : Layout} pd0 pt0 m k1 k2 :
  kernel_map pd0 pt0 m → pmm_wf (pmm m) →
  pmm_next (pmm m) = Some k1 → pmm_next (pmm_take k1 (pmm m)) = Some k2 →
  let pd := frame_addr (pmm m) k1 in
  let pt := frame_addr (pmm m) k2 in
  low_frame pd → low_frame pt → pd ≠ pt →
  pd ≠ pd0 → pd ≠ pt0 → pt ≠ pd0 → pt ≠ pt0 →
  in_window kernel_start_addr_virt →
  length (idt_handlers (interrupts m)) = 256%nat →
  ∃ m', paging_init m = Done (pt + KERNEL_VIRT_BASE) m' ∧
    kernel_map pd pt m' ∧
    (∀ v, in_window v → translate m' v = Some (v - KERNEL_VIRT_BASE)) ∧
    (∀ v, word v → ¬ in_window v → translate m' v = None) ∧
    kernel_page_directory m' = pd + KERNEL_VIRT_BASE ∧
    pmm m' = pmm_take k2 (pmm_take k1 (pmm m)) ∧
    idt_handlers (interrupts m') !! 14%nat = Some paging_page_fault_handler.
Proof.
  intros Hk Hwf E1 E2 pd pt Lpd Lpt Hne H1 H2 H3 H4 Hs Hi.
  pose proof (pmm_alloc_page_Some m k1 Hwf E1) as A1.
  assert (∀ m', pmm m' = pmm_take k1 (pmm m) →
    pmm_alloc_page m' = Done pt (set_pmm (pmm_take k2 (pmm_take k1 (pmm m))) m')) as A2.
  { intros m' Em. rewrite <- Em. rewrite <- Em in E2.
    rewrite (pmm_alloc_page_Some m' k2); [by rewrite Em| |done].
    rewrite Em. auto with words. }
  destruct (paging_init_runs pd0 pt0 pd pt m Hk (conj Lpd (conj H1 H2))
    (conj Lpt (conj H3 H4)) Hne Hs Hi _ _ A1 A2) as (μ & E & T & _).
  assert (paging_on (paging_init_frame pd m (pmm_take k2 (pmm_take k1 (pmm m))) μ) = true)
    as Hon by apply (paging_on_set (set_cr3 pd (cpu m))).
  eexists. split; [exact E|].
  assert (kernel_map pd pt (paging_init_frame pd m (pmm_take k2 (pmm_take k1 (pmm m))) μ))
    as K by (by eapply tables_built_map).
  split_and!; [done| | |done|done|].
  - intros v Hv. by apply (translate_window pd pt).
  - intros v Hv Ho. by eapply tables_built_unmapped.
  - cbn. apply list_lookup_insert_eq. lia.
Qed.

Lemma paging_init_builds_window_witness :
  ∃ m', paging_init (L := sample_layout) kernel_with_pool = Done 3222409216 m' ∧
    kernel_map 1179648 1183744 m' ∧
    (∀ v, in_window v → translate m' v = Some (v - KERNEL_VIRT_BASE)) ∧
    (∀ v, word v → ¬ in_window v → translate m' v = None) ∧
    kernel_page_directory m' = 3222405120 ∧
    pmm m' = pmm_take 1 (pmm_take 0 (pmm sample_pool)) ∧
    idt_handlers (interrupts m') !! 14%nat = Some paging_page_fault_handler.
Proof.
  apply (paging_init_builds_window (L := sample_layout) 1114112 1118208 kernel_with_pool 0 1);
    try done; try (by vm_compute).
  - exact kernel_with_pool_map.
  - exact sample_pool_wf.
  - destruct kernel_entered_booted as [μ E]. unfold kernel_with_pool. by rewrite E.
Defined.

(** A page-table or directory entry survives the trip through memory,
    in both directions, and the bits the MMU looks at are the fields the
    kernel assigned. *)
Theorem entry_encode_decode :
  (∀ e, entry_wf e → decode_entry (encode_entry e) = e ∧ word (encode_entry e) ∧
     Z.testbit (encode_entry e) ENTRY_PRESENT = present e ∧
     Z.testbit (encode_entry e) ENTRY_USER = user e ∧
     PAGE_ALIGN (encode_entry e) = 4096 * phys_addr e) ∧
  (∀ w, word w → encode_entry (decode_entry w) = w ∧ entry_wf (decode_entry w)).
Proof.
  split.
  - intros e He. split_and!; auto using decode_encode_entry, encode_entry_word,
      encode_entry_present, encode_entry_user, encode_entry_frame.
  - intros w Hw. split; [by apply encode_decode_entry|apply decode_entry_wf].
Qed.

(** C22: [paging_map_virtual_page] makes the page visible: afterwards the
    address translates, offset kept, to the frame the allocator chose; the
    kernel's window stays mapped. *)
Theorem paging_map_virtual_page_maps pd pt m t v k :
  kernel_map pd pt m → table_serves pd pt t v m → word v →
  pmm_wf (pmm m) → pmm_next (pmm m) = Some k →
  let f := frame_addr (pmm m) k in
  ∃ m', paging_map_virtual_page (t + KERNEL_VIRT_BASE) v m = Done f m' ∧
    kernel_map pd pt m' ∧ pmm m' = pmm_take k (pmm m) ∧
    translate m' v = Some (f + v mod 4096).
Proof.
  intros Hm Ht Hv Hwf Hk f. pose proof (pmm_next_spec _ Hwf) as Hs. rewrite Hk in Hs.
  destruct Hs as (Hr & _). pose proof (pool_frames_le _ Hwf) as Hle.
  destruct (frame_addr_word _ k Hwf ltac:(lia)) as [Hw _].
  apply (map_virtual_page_translates pd pt); try done.
  - by apply pmm_alloc_page_Some.
  - subst f. destruct Hwf as [_ _ _ [_ Ha] _]. unfold frame_addr, PAGE_SIZE in *. mlia.
Qed.

(** The second half of the kernel's 8 MiB served by a table in frame 2 MiB. *)
Definition second_table : machine :=
  set_mem (<[1114112 + 4 * 769 := 3]> (<[1114112 + 4 * 769 + 1 := 0]>
    (<[1114112 + 4 * 769 + 2 := 32]> (<[1114112 + 4 * 769 + 3 := 0]>
      (mem kernel_with_pool))))) kernel_with_pool.

Lemma second_table_map : kernel_map 1114112 1118208 second_table.
Proof.
  destruct kernel_with_pool_map as [H1 H2 H3 H4 H5 H6]. split; try done.
  - unfold second_table. cbn [mem set_mem]. rewrite !rd32_insert_ne by lia. done.
  - intros i Hi. unfold second_table. cbn [mem set_mem].
    rewrite !rd32_insert_ne by lia. by apply H6.
Qed.

Lemma paging_map_virtual_page_maps_witness :
  ∃ m', paging_map_virtual_page (2097152 + KERNEL_VIRT_BASE) 3225420000 second_table
      = Done 1179648 m' ∧
    kernel_map 1114112 1118208 m' ∧ pmm m' = pmm_take 0 (pmm second_table) ∧
    translate m' 3225420000 = Some (1179648 + 3225420000 mod 4096).
Proof.
  apply (paging_map_virtual_page_maps 1114112 1118208 second_table 2097152 3225420000 0).
  - exact second_table_map.
  - unfold table_serves, second_table. cbn [mem set_mem].
    change (1114112 + 4 * PAGE_DIRECTORY_INDEX 3225420000) with (1114112 + 4 * 769).
    unfold rd32, rd8.
    repeat first [rewrite lookup_insert_eq | rewrite lookup_insert_ne by lia].
    by vm_compute.
  - done.
  - exact sample_pool_wf.
  - by vm_compute.
Defined.
