(* ===== verification/Kmalloc.v ===== *)
(** * The kernel heap: kernel/memory/kmalloc.c

    The free list lives in memory.  [kmalloc] calls [vmm_alloc_page], which
    may call [kmalloc] again through [vmm_add_vmm_block]: the operations take
    it as a parameter, and Vmm.v ties the knot. *)

From S2P Require Import Prelude Machine Memory.

(** ** struct memory_block *)

Definition BLOCK_HEADER_SIZE : Z := 8.
Definition SMALLEST_BLOCK_SIZE : Z := 32.

Definition block_size (b : Z) : M Z := ld32 b.
Definition set_block_size (b v : Z) : M unit := st32 b v.
Definition next_block (b : Z) : M Z := ld32 (b + 4).
Definition set_next_block (b v : Z) : M unit := st32 (b + 4) v.
Definition free_memory (b : Z) : M Z := ld32 (b + 8).
Definition set_free_memory (b v : Z) : M unit := st32 (b + 8) v.

(** ** Operations *)

Definition kmalloc_split_block (block alloc_size : Z) : M Z :=
  sz ← block_size block;
  let new_block := block [+] sz [-] (alloc_size [+] BLOCK_HEADER_SIZE) in
  set_block_size new_block (alloc_size [+] BLOCK_HEADER_SIZE);;
  set_next_block new_block 0;;
  set_free_memory new_block (BLOCK_HEADER_SIZE [+] new_block);;
  sz ← block_size block;
  new_sz ← block_size new_block;
  set_block_size block (sz [-] new_sz);;
  free_memory new_block.

(** The assignments under either adjacency test of [kmalloc_coalesce]: [b]
    swallows its successor [b']. *)
Definition kmalloc_merge (b b' : Z) : M unit :=
  nn ← next_block b';
  set_next_block b nn;;
  sz ← block_size b;
  sz' ← block_size b';
  set_block_size b (sz [+] sz').

Definition kmalloc_coalesce (prev_block new_block next_blk : Z) : M unit :=
  (if negb (next_blk =? 0) then
     new_sz ← block_size new_block;
     if next_blk =? new_block [+] new_sz then
       kmalloc_merge new_block next_blk;;
       tail ← gets_heap block_list_tail;
       when (tail =? next_blk) (mod_heap (set_block_list_tail new_block))
     else mret tt
   else mret tt);;
  if negb (prev_block =? 0) then
    prev_sz ← block_size prev_block;
    if new_block =? prev_block [+] prev_sz then kmalloc_merge prev_block new_block
    else mret tt
  else mret tt.

(** Round up to 8 bytes. *)
Definition kmalloc_round (size : Z) : Z :=
  u32 (Z.shiftl (Z.shiftr (size [+] 7) 3) 3).

(** The search loop of [kmalloc]: the allocated pointer, NULL when no block
    is large enough. *)
Fixpoint kmalloc_search (fuel : nat) (block alloc_size : Z) : M Z :=
  if block =? 0 then mret 0
  else match fuel with
  | O => halt_with OutOfFuel
  | S fuel' =>
      sz ← block_size block;
      let free_mem_in_block := sz [-] BLOCK_HEADER_SIZE in
      if alloc_size <=? free_mem_in_block then
        let mem_left_over := free_mem_in_block [-] alloc_size in
        if SMALLEST_BLOCK_SIZE <=? mem_left_over
        then kmalloc_split_block block alloc_size
        else free_memory block
      else
        next ← next_block block;
        kmalloc_search fuel' next alloc_size
  end.

(** The page [vmm_alloc_page] returned becomes the last block. *)
Definition kmalloc_add_block (new_free_block : Z) : M unit :=
  set_block_size new_free_block PAGE_SIZE;;
  set_free_memory new_free_block (new_free_block [+] BLOCK_HEADER_SIZE);;
  set_next_block new_free_block 0;;
  tail ← gets_heap block_list_tail;
  set_next_block tail new_free_block.

Definition kmalloc_with (vmm_alloc_page : M Z) (fuel : nat) (size : Z) : M Z :=
  if size =? 0 then mret 0
  else
    let alloc_size := kmalloc_round size in
    block ← gets_heap block_list_head;
    alloc_ptr ← kmalloc_search fuel block alloc_size;
    when (alloc_ptr =? 0)
      (new_free_block ← vmm_alloc_page; kmalloc_add_block new_free_block);;
    mret alloc_ptr.

(** The loop of [kfree]: the pair of neighbours, NULL when the list ends. *)
Fixpoint kfree_find (fuel : nat) (block new_block : Z) : M (Z * Z) :=
  if block =? 0 then mret (0, 0)
  else match fuel with
  | O => halt_with OutOfFuel
  | S fuel' =>
      next ← next_block block;
      if (block <? new_block) && ((new_block <? next) || (next =? 0))
      then mret (block, next)
      else kfree_find fuel' next new_block
  end.

Definition kfree (fuel : nat) (ptr : Z) : M unit :=
  if ptr =? 0 then mret tt
  else
    let new_block := ptr [-] BLOCK_HEADER_SIZE in
    head ← gets_heap block_list_head;
    '(prev_block, next_blk) ←
      (if new_block <? head then mret (0, head)
       else kfree_find fuel head new_block);
    (if prev_block =? 0 then
       set_next_block new_block next_blk;;
       mod_heap (set_block_list_head new_block)
     else if next_blk =? 0 then
       set_next_block prev_block new_block;;
       set_next_block new_block 0;;
       mod_heap (set_block_list_tail new_block)
     else
       set_next_block prev_block new_block;;
       set_next_block new_block next_blk);;
    kmalloc_coalesce prev_block new_block next_blk.

Section Init.
Context `{L : Layout}.

Definition kmalloc_init : M unit :=
  mod_heap (set_block_list_head kmalloc_init_block);;
  set_block_size kmalloc_init_block 4096;;
  set_next_block kmalloc_init_block 0;;
  set_free_memory kmalloc_init_block (BLOCK_HEADER_SIZE [+] kmalloc_init_block);;
  mod_heap (set_block_list_tail kmalloc_init_block).
End Init.

(** ** The abstract free list

    A list of blocks, address and size, in address order. *)

Definition block : Type := Z * Z.

Inductive alloc_result : Type :=
| Split (p : Z) (l : list block)   (* the top of a block was cut off *)
| Whole (b : Z)                    (* a block fits as it is *)
| NoFit.

(** First fit. *)
Fixpoint fl_alloc (n : Z) (l : list block) : alloc_result :=
  match l with
  | [] => NoFit
  | (b, sz) :: l' =>
      if n <=? sz - 8 then
        if 32 <=? sz - 8 - n then Split (b + sz - n) ((b, sz - n - 8) :: l')
        else Whole b
      else match fl_alloc n l' with
           | Split p l'' => Split p ((b, sz) :: l'')
           | r => r
           end
  end.

(** A block put in front of a list, merged with its head when adjacent. *)
Definition fl_cons (b sz : Z) (l : list block) : list block :=
  match l with
  | (b', sz') :: l' => if b + sz =? b' then (b, sz + sz') :: l' else (b, sz) :: l
  | [] => [(b, sz)]
  end.

Fixpoint fl_free (b sz : Z) (l : list block) : list block :=
  match l with
  | [] => [(b, sz)]
  | (b', sz') :: l' =>
      if b <? b' then fl_cons b sz l else fl_cons b' sz' (fl_free b sz l')
  end.

(** Blocks from [lo] on, in order, with a gap between any two. *)
Fixpoint fl_ordered (lo : Z) (l : list block) : Prop :=
  match l with
  | [] => True
  | (b, sz) :: l' => lo < b ∧ 16 <= sz ∧ b + sz < W32 ∧ fl_ordered (b + sz) l'
  end.

(** The bytes of a free list. *)
Definition fl_bytes (l : list block) : Z := foldr (λ b n, snd b + n) 0 l.

Definition in_block (a : Z) (b : block) : Prop := fst b <= a < fst b + snd b.

(** ** Lemmas about the abstract list *)

Lemma fl_ordered_weaken lo lo' l : lo' <= lo → fl_ordered lo l → fl_ordered lo' l.
Proof. destruct l as [|[b sz] l]; simpl; [done|]. intros ? (? & ? & ?). split; [lia|done]. Qed.

Lemma fl_ordered_Forall lo l : fl_ordered lo l → Forall (λ b, lo < fst b) l.
Proof.
  revert lo. induction l as [|[b sz] l IH]; intros lo; [by constructor|].
  intros (H1 & H2 & H3 & H4). constructor; [done|].
  eapply Forall_impl; [by apply IH|]. intros [b' sz'] H. simpl in *. lia.
Qed.

Lemma fl_alloc_Split n l p l' lo :
  0 <= n → fl_ordered lo l → fl_alloc n l = Split p l' →
  ∃ l1 b sz l2, l = l1 ++ (b, sz) :: l2 ∧ l' = l1 ++ (b, sz - n - 8) :: l2 ∧
    p = b + sz - n ∧ 32 <= sz - 8 - n ∧
    Forall (λ x, snd x - 8 < n) l1 ∧ fl_ordered lo l'.
Proof.
  intros Hn. revert lo p l'. induction l as [|[b sz] l IH]; intros lo p l' Ho; simpl; [done|].
  destruct Ho as (H1 & H2 & H3 & H4). destruct (Z.leb_spec n (sz - 8)).
  - destruct (Z.leb_spec 32 (sz - 8 - n)); [|done]. intros [= <- <-].
    exists [], b, sz, l. split_and!; try done; simpl. split_and!; try lia.
    eapply fl_ordered_weaken; [|done]. lia.
  - destruct (fl_alloc n l) as [q l''| |] eqn:Ha; try done. intros [= <- <-].
    destruct (IH _ _ _ H4 eq_refl) as (l1 & b' & sz' & l2 & -> & -> & -> & Hf & Hs & Ho').
    exists ((b, sz) :: l1), b', sz', l2. split_and!; try done.
    by constructor.
Qed.

(** Cutting a block and putting the piece back restores the list. *)
Lemma fl_free_cut l1 b sz l2 n lo :
  0 <= n → 32 <= sz - 8 - n → fl_ordered lo (l1 ++ (b, sz) :: l2) →
  fl_free (b + sz - n - 8) (n + 8) (l1 ++ (b, sz - n - 8) :: l2) = l1 ++ (b, sz) :: l2.
Proof.
  intros Hn Hs. revert lo. induction l1 as [|[b1 s1] l1 IH]; intros lo Ho; simpl in *.
  - destruct Ho as (H1 & H2 & H3 & H4).
    destruct (Z.ltb_spec (b + sz - n - 8) b); [lia|].
    destruct l2 as [|[b2 s2] l2]; simpl.
    + destruct (Z.eqb_spec (b + (sz - n - 8)) (b + sz - n - 8)); [|lia].
      do 2 f_equal. lia.
    + simpl in H4. destruct (Z.ltb_spec (b + sz - n - 8) b2); [|lia].
      destruct (Z.eqb_spec (b + sz - n - 8 + (n + 8)) b2); [lia|]. simpl.
      destruct (Z.eqb_spec (b + (sz - n - 8)) (b + sz - n - 8)); [|lia].
      do 2 f_equal. lia.
  - destruct Ho as (H1 & H2 & H3 & H4). specialize (IH _ H4).
    assert (b1 + s1 < b) as Hlt.
    { apply fl_ordered_Forall, Forall_app in H4 as [_ H4].
      by apply Forall_cons in H4 as [H4 _]. }
    destruct (Z.ltb_spec (b + sz - n - 8) b1); [lia|]. rewrite IH.
    destruct l1 as [|[b' s'] l1]; simpl in *.
    + destruct (Z.eqb_spec (b1 + s1) b); [lia|done].
    + destruct (Z.eqb_spec (b1 + s1) b'); [lia|done].
Qed.

(** The same, with adjacent blocks allowed: the list while [kfree] works. *)
Fixpoint fl_sorted (lo : Z) (l : list block) : Prop :=
  match l with
  | [] => True
  | (b, sz) :: l' => lo <= b ∧ 16 <= sz ∧ b + sz < W32 ∧ fl_sorted (b + sz) l'
  end.

Definition apart (b sz : Z) (x : block) : Prop :=
  fst x + snd x <= b ∨ b + sz <= fst x.

Definition fl_head (l : list block) : Z :=
  match l with [] => 0 | (b, _) :: _ => b end.

Lemma fl_alloc_length n l p l' : fl_alloc n l = Split p l' → length l' = length l.
Proof.
  revert p l'. induction l as [|[b s] l IH]; intros p l'; cbn [fl_alloc]; [done|].
  destruct (n <=? s - 8); [destruct (32 <=? s - 8 - n); [|done]; by intros [= <- <-]|].
  destruct (fl_alloc n l); try done. intros [= <- <-]. cbn. by rewrite (IH p0 l0).
Qed.

Lemma fl_ordered_sorted lo l : fl_ordered lo l → fl_sorted (lo + 1) l.
Proof.
  revert lo. induction l as [|[b sz] l IH]; intros lo; simpl; [done|].
  intros (H1 & H2 & H3 & H4). split_and!; try lia. apply IH in H4.
  destruct l as [|[b' sz'] l]; simpl in *; [done|]. intuition lia.
Qed.

Lemma fl_sorted_weaken lo lo' l : lo' <= lo → fl_sorted lo l → fl_sorted lo' l.
Proof. destruct l as [|[b sz] l]; simpl; [done|]. intros ? (? & ? & ?). split; [lia|done]. Qed.

Lemma fl_sorted_Forall lo l : fl_sorted lo l → Forall (λ x, lo <= fst x ∧ 16 <= snd x) l.
Proof.
  revert lo. induction l as [|[b sz] l IH]; intros lo; [by constructor|].
  intros (H1 & H2 & H3 & H4). constructor; [done|].
  eapply Forall_impl; [by apply IH|]. intros x H. simpl in *. lia.
Qed.

Lemma fl_sorted_app lo l1 b sz l2 :
  fl_sorted lo (l1 ++ (b, sz) :: l2) →
  Forall (λ x, 16 <= snd x ∧ fst x + snd x <= b) l1 ∧ fl_sorted b ((b, sz) :: l2).
Proof.
  revert lo. induction l1 as [|[b1 s1] l1 IH]; intros lo; simpl.
  - intros (? & ? & ? & ?). split; [by constructor|]. by split_and!.
  - intros (H1 & H2 & H3 & H4). pose proof (fl_sorted_Forall _ _ H4) as HF.
    apply Forall_app in HF as [_ HF]. apply Forall_cons in HF as [HF _]. simpl in HF.
    destruct (IH _ H4) as [IH1 IH2]. split; [|done]. constructor; [simpl; lia|done].
Qed.

Lemma fl_sorted_replace lo l1 b sz l2 l2' :
  fl_sorted lo (l1 ++ (b, sz) :: l2) → fl_sorted b l2' →
  fl_head l2' = b → fl_sorted lo (l1 ++ l2').
Proof.
  intros Hs H2 Hh. revert lo Hs. induction l1 as [|[b1 s1] l1 IH]; intros lo Hs; simpl in *.
  - destruct l2' as [|[b2 s2] l2']; simpl in *; [done|]. subst. intuition lia.
  - intuition auto.
Qed.

(** Where a block that overlaps no other belongs in a list. *)
Lemma fl_cut lo b sz l :
  fl_ordered lo l → lo < b → 16 <= sz → b + sz < W32 → Forall (apart b sz) l →
  ∃ l1 l2, l = l1 ++ l2 ∧ Forall (λ x, fst x < b) l1 ∧ Forall (λ x, b < fst x) l2 ∧
    fl_sorted (lo + 1) (l1 ++ (b, sz) :: l2).
Proof.
  intros Ho Hlo Hs Hw. revert lo Ho Hlo.
  induction l as [|[b1 s1] l IH]; intros lo Ho Hlo Hap.
  - exists [], []. simpl. split_and!; (constructor || lia || done).
  - apply Forall_cons in Hap as [Ha Hap]. destruct Ho as (H1 & H2 & H3 & H4).
    unfold apart in Ha. simpl in Ha. destruct (Z.lt_ge_cases b1 b) as [Hb|Hb].
    + destruct (Z.eq_dec b (b1 + s1)) as [->|Hne].
      * exists [(b1, s1)], l. pose proof (fl_ordered_Forall _ _ H4) as HF.
        assert (fl_sorted (b1 + s1 + sz) l) as Hl.
        { apply fl_ordered_sorted in H4. destruct l as [|[b2 s2] l]; simpl in *; [done|].
          apply Forall_cons in Hap as [Ha2 _]. unfold apart in Ha2. simpl in Ha2.
          intuition lia. }
        split_and!; try done.
        -- by repeat constructor.
        -- simpl. split_and!; try done; lia.
      * destruct (IH (b1 + s1) H4 ltac:(lia) Hap) as (l1 & l2 & -> & F1 & F2 & Hso).
        exists ((b1, s1) :: l1), l2. split_and!; try done.
        -- by constructor.
        -- simpl. split_and!; try done; try lia. eapply fl_sorted_weaken; [|done]. lia.
    + exists [], ((b1, s1) :: l). split_and!; try done.
      * constructor; [simpl; lia|]. eapply Forall_impl; [by apply fl_ordered_Forall|].
        intros x Hx. simpl in *. lia.
      * simpl. split_and!; try lia. eapply fl_sorted_weaken; [|by apply fl_ordered_sorted]. lia.
Qed.

Lemma fl_free_front b sz l :
  Forall (λ x, b < fst x) l → fl_free b sz l = fl_cons b sz l.
Proof.
  destruct l as [|[b1 s1] l]; [done|]. intros [H _]%Forall_cons. cbn in *.
  by destruct (Z.ltb_spec b b1); [|lia].
Qed.

Lemma fl_cons_gap b sz l : b + sz < fl_head l ∨ l = [] → fl_cons b sz l = (b, sz) :: l.
Proof.
  destruct l as [|[b1 s1] l]; [done|]. simpl. intros [H|H]; [|done].
  by destruct (Z.eqb_spec (b + sz) b1); [lia|].
Qed.

Lemma fl_cons_shape b sz l :
  ∃ sz' l', fl_cons b sz l = (b, sz') :: l' ∧ sz <= Z.max sz sz'.
Proof.
  destruct l as [|[b1 s1] l]; simpl; [by eexists _, _; split; [|lia]|].
  destruct (b + sz =? b1); eexists _, _; (split; [done|lia]).
Qed.

Lemma fl_cons_sorted lo b sz l : fl_sorted lo ((b, sz) :: l) → fl_sorted lo (fl_cons b sz l).
Proof.
  intros Hs. destruct l as [|[b1 s1] l]; [done|].
  destruct Hs as (H1 & H2 & H3 & H4 & H5 & H6 & H7). cbn [fl_cons].
  destruct (Z.eqb_spec (b + sz) b1) as [<-|]; simpl; split_and!; try done; try lia.
  by rewrite Z.add_assoc.
Qed.

Lemma fl_cons_head b sz l : fl_head (fl_cons b sz l) = b.
Proof. destruct l as [|[b1 s1] l]; simpl; [done|]. by destruct (b + sz =? b1). Qed.

Lemma fl_free_middle lo b sz l1 pb ps l2 :
  fl_ordered lo (l1 ++ (pb, ps) :: l2) → pb < b → Forall (λ x, b < fst x) l2 →
  fl_free b sz (l1 ++ (pb, ps) :: l2) = l1 ++ fl_cons pb ps (fl_cons b sz l2).
Proof.
  intros Ho Hb H2. revert lo Ho. induction l1 as [|[b1 s1] l1 IH]; intros lo Ho.
  - cbn [app fl_free]. destruct (Z.ltb_spec b pb); [lia|]. by rewrite fl_free_front.
  - destruct Ho as (Ho1 & Ho2 & Ho3 & Ho4). cbn [app] in *. cbn [fl_free].
    pose proof (fl_ordered_Forall _ _ Ho4) as HF.
    assert (b1 + s1 < pb) as Hlt.
    { apply Forall_app in HF as [_ HF]. by apply Forall_cons in HF as [HF _]. }
    destruct (Z.ltb_spec b b1); [lia|]. rewrite (IH _ Ho4). apply fl_cons_gap. left.
    destruct l1 as [|[b2 s2] l1]; cbn [app]; [by rewrite fl_cons_head|].
    by apply Forall_cons in HF as [HF _].
Qed.

Lemma fl_cons_ordered lo b sz l :
  lo < b → 16 <= sz → b + sz < W32 → fl_ordered (b + sz - 1) l →
  fl_ordered lo (fl_cons b sz l).
Proof.
  intros H1 H2 H3. destruct l as [|[b1 s1] l]; simpl; [done|].
  intros (H4 & H5 & H6 & H7). destruct (Z.eqb_spec (b + sz) b1) as [<-|]; simpl.
  - split_and!; try lia. by rewrite Z.add_assoc.
  - split_and!; try done; lia.
Qed.

(** Freeing keeps the list ordered and maximally coalesced. *)
Lemma fl_free_ordered lo b sz l :
  fl_ordered lo l → lo < b → 16 <= sz → b + sz < W32 → Forall (apart b sz) l →
  fl_ordered lo (fl_free b sz l).
Proof.
  revert lo. induction l as [|[b1 s1] l IH]; intros lo Ho H1 H2 H3 Hap; simpl.
  - by split_and!.
  - apply Forall_cons in Hap as [Ha Hap]. unfold apart in Ha. cbn in Ha.
    destruct Ho as (Ho1 & Ho2 & Ho3 & Ho4). destruct (Z.ltb_spec b b1).
    + apply (fl_cons_ordered lo b sz ((b1, s1) :: l)); try lia.
      simpl. split_and!; (done || lia).
    + apply fl_cons_ordered; try lia. apply IH; try lia; [|done].
      eapply fl_ordered_weaken; [|done]. lia.
Qed.

Lemma fl_cons_bytes b sz l : fl_bytes (fl_cons b sz l) = sz + fl_bytes l.
Proof.
  destruct l as [|[b1 s1] l]; simpl; [done|].
  destruct (b + sz =? b1); simpl; lia.
Qed.

Lemma fl_free_bytes b sz l : fl_bytes (fl_free b sz l) = sz + fl_bytes l.
Proof.
  induction l as [|[b1 s1] l IH]; [done|]. cbn [fl_free].
  destruct (b <? b1); rewrite fl_cons_bytes; [done|]. rewrite IH. simpl. lia.
Qed.

(** ** The free list in memory *)

Section Heap.
Context {I : machine → Prop} {owns : Z → Prop} `{!Region I owns}.

(** The blocks [l], linked from [a] to [e]. *)
Fixpoint free_seg (m : machine) (a : Z) (l : list block) (e : Z) : Prop :=
  match l with
  | [] => a = e
  | (b, sz) :: l' =>
      a = b ∧ b ≠ 0 ∧ word_at m b = sz ∧ free_seg m (word_at m (b + 4)) l' e
  end.

Definition fl_owned (l : list block) : Prop :=
  Forall (λ b, owns_range owns (fst b) (snd b)) l.

(** The stored bytes [v .. v + n) touch no header of [l]. *)
Definition off_headers (l : list block) (v n : Z) : Prop :=
  Forall (λ b, 16 <= snd b ∧ (v + n <= fst b ∨ fst b + 8 <= v)) l.

Lemma free_seg_app m a l1 l2 e :
  free_seg m a (l1 ++ l2) e ↔ ∃ c, free_seg m a l1 c ∧ free_seg m c l2 e.
Proof using.
  revert a. induction l1 as [|[b sz] l1 IH]; intros a; simpl.
  - split; [by eauto|]. by intros (c & -> & ?).
  - split.
    + intros (-> & ? & ? & (c & ? & ?)%IH). exists c. by split_and!.
    + intros (c & (-> & ? & ? & ?) & ?). split_and!; try done. apply IH. eauto.
Qed.

(** Owned bytes outside [v .. v + n) are as before. *)
Definition keeps (m m' : machine) (v n : Z) : Prop :=
  ∀ w, owns w → w < v ∨ v + n <= w → byte_at m' w = byte_at m w.

(** A step of the heap: at most [n] bytes from [v] on and the two list
    ends change. *)
Definition heap_step (m m' : machine) (v n : Z) : Prop :=
  m' = set_heap (heap m') (set_mem (mem m') m) ∧ keeps m m' v n.

Lemma keeps_word_at m m' v n w :
  keeps m m' v n → owns_range owns w 4 → w + 4 <= v ∨ v + n <= w →
  word_at m' w = word_at m w.
Proof using.
  intros B Hw Hd. unfold word_at. rewrite <- (Z.add_0_r w).
  rewrite !B; try lia; try done; rewrite ?Z.add_0_r; try lia;
    apply (owns_range_at _ _ _ _ Hw); lia.
Qed.

Lemma keeps_trans m1 m2 m3 v n : keeps m1 m2 v n → keeps m2 m3 v n → keeps m1 m3 v n.
Proof using. intros H1 H2 w Hw Hd. by rewrite H2, H1. Qed.

Lemma keeps_weaken m1 m2 v n w k :
  keeps m1 m2 v n → w <= v → v + n <= w + k → keeps m1 m2 w k.
Proof using. intros H ? ? x Hx Hd. apply H; [done|lia]. Qed.

Lemma heap_step_refl m v n : heap_step m m v n.
Proof using. split; [by destruct m|done]. Qed.

Lemma heap_step_trans m1 m2 m3 v n :
  heap_step m1 m2 v n → heap_step m2 m3 v n → heap_step m1 m3 v n.
Proof using.
  intros [E1 K1] [E2 K2]. split; [|by eapply keeps_trans].
  rewrite E2 at 1. by rewrite E1.
Qed.

Lemma heap_step_weaken m1 m2 v n w k :
  heap_step m1 m2 v n → w <= v → v + n <= w + k → heap_step m1 m2 w k.
Proof using. intros [E K] ? ?. split; [done|]. by eapply keeps_weaken. Qed.

Lemma heap_step_writes m m' v n : writes_only owns m m' v n → heap_step m m' v n.
Proof using.
  intros [E K]. split; [|done]. unfold only_memory in E.
  assert (heap m' = heap m) as -> by (by rewrite E). rewrite E at 1. by destruct m.
Qed.

Lemma heap_step_heap m h v n : heap_step m (set_heap h m) v n.
Proof using.
  split; [by destruct m|]. intros w _ _. by apply byte_at_same.
Qed.

(** At most the bytes of the blocks [L] and the two list ends change. *)
Definition within (L : list block) (m m' : machine) : Prop :=
  m' = set_heap (heap m') (set_mem (mem m') m) ∧
  ∀ a, owns a → ¬ Exists (in_block a) L → byte_at m' a = byte_at m a.

Lemma within_trans L m1 m2 m3 : within L m1 m2 → within L m2 m3 → within L m1 m3.
Proof using.
  intros [E1 K1] [E2 K2]. split; [rewrite E2 at 1; by rewrite E1|].
  intros a Ha Hn. by rewrite K2, K1.
Qed.

Lemma within_incl L L' m m' : L ⊆ L' → within L m m' → within L' m m'.
Proof using.
  intros HL [E K]. split; [done|]. intros a Ha Hn. apply K; [done|].
  intros (x & Hx & Hin)%Exists_exists. apply Hn, Exists_exists. exists x. auto.
Qed.

Lemma within_step L b s m m' : (b, s) ∈ L → heap_step m m' b s → within L m m'.
Proof using.
  intros Hx [E K]. split; [done|]. intros a Ha Hn. apply K; [done|].
  destruct (decide (b <= a < b + s)); [|lia]. destruct Hn. apply Exists_exists.
  by exists (b, s).
Qed.

Lemma within_writes L b s v n m m' :
  (b, s) ∈ L → writes_only owns m m' v n → b <= v → v + n <= b + s → within L m m'.
Proof using.
  intros Hx W ? ?. apply (within_step L b s); [done|].
  eapply heap_step_weaken; [by apply heap_step_writes|lia|lia].
Qed.

Lemma within_heap L m m' h : within L m m' → within L m (set_heap h m').
Proof using.
  intros [E K]. split.
  - rewrite E. reflexivity.
  - intros a Ha Hn. rewrite (byte_at_same m') by done. auto.
Qed.

Lemma I_heap m h : I m → I (set_heap h m).
Proof. by apply region_same. Qed.

Lemma free_seg_frame m m' a l e v n :
  keeps m m' v n → fl_owned l → off_headers l v n →
  free_seg m a l e → free_seg m' a l e.
Proof using.
  intros HW Ho Hoff. revert a.
  induction l as [|[b sz] l IH]; intros a; simpl; [done|].
  apply Forall_cons in Ho as [Hb Ho]. apply Forall_cons in Hoff as [[H16 Hd] Hoff].
  simpl in *. intros (-> & Hn & Hsz & Hl).
  rewrite !(keeps_word_at _ _ _ _ _ HW) by (owned || lia). auto.
Qed.

Lemma free_seg_head m a l : free_seg m a l 0 → a = fl_head l.
Proof using. destruct l as [|[b sz] l]; simpl; [done|]. by intros (-> & _). Qed.

Lemma free_seg_same m m' a l e :
  cpu m' = cpu m → mem m' = mem m → free_seg m a l e → free_seg m' a l e.
Proof using.
  intros Hc Hm. revert a. induction l as [|[b sz] l IH]; intros a; simpl; [done|].
  intros (? & ? & ? & ?). rewrite !(word_at_same m m') by done. auto.
Qed.

Lemma fl_sorted_off lo l v n : fl_sorted lo l → v + n <= lo → off_headers l v n.
Proof using.
  intros Ho Hv. apply fl_sorted_Forall in Ho. eapply Forall_impl; [done|].
  intros x Hx. simpl in *. lia.
Qed.

Lemma fl_owned_app l1 l2 : fl_owned (l1 ++ l2) ↔ fl_owned l1 ∧ fl_owned l2.
Proof using. apply Forall_app. Qed.

(** *** kmalloc *)

Lemma split_block_ok m b sz n :
  I m → owns_range owns b sz → word_at m b = sz → 8 <= n → 32 <= sz - 8 - n →
  ∃ m', kmalloc_split_block b n m = Done (b + sz - n) m' ∧ I m' ∧
    writes_only owns m m' b sz ∧
    word_at m' b = sz - n - 8 ∧ word_at m' (b + 4) = word_at m (b + 4) ∧
    word_at m' (b + sz - n - 8) = n + 8 ∧
    ∀ a, owns a → ¬ (b <= a < b + 4) → ¬ (b + sz - n - 8 <= a < b + sz - n + 4) →
      byte_at m' a = byte_at m a.
Proof.
  intros HI Ho Hsz Hn Hs.
  assert (word (b + sz - 1)) as Hw
    by (apply region_word, (owns_range_at _ _ _ _ Ho); lia).
  assert (word b) as Hb by (apply region_word, (owns_range_at _ _ _ _ Ho); lia).
  unfold kmalloc_split_block, block_size, set_block_size, set_next_block,
    set_free_memory, free_memory, BLOCK_HEADER_SIZE.
  load. rewrite Hsz. autorewrite with wrap. unfold word, W32 in Hw, Hb.
  rewrite (u32_small (n + 8)) by (unfold word, W32; lia).
  rewrite (u32_small (b + sz - _)) by (unfold word, W32; lia).
  remember (b + sz - (n + 8)) as p eqn:Ep.
  rewrite (u32_small (8 + p)) by (unfold word, W32; lia).
  store m1 K1 V1 W1. store m2 K2 V2 W2. store m3 K3 V3 W3. load. load.
  assert (word_at m3 b = sz) as E1 by (by words).
  assert (word_at m3 p = n + 8) as E2.
  { words. apply u32_small. unfold word, W32; lia. }
  rewrite E1, E2, (u32_small (sz - _)) by (unfold word, W32; lia).
  store m4 K4 V4 W4.
  assert (owns_range owns (p + 8) 4) as Op by owned.
  rewrite (ld32_ok m4 (p + 8) K4 Op).
  exists m4. split_and!; [f_equal|done| | | | |].
  - words. rewrite u32_small by (unfold word, W32; lia). lia.
  - apply (writes_only_trans _ m1); [eapply writes_only_weaken; [done|lia|lia]|].
    apply (writes_only_trans _ m2); [eapply writes_only_weaken; [done|lia|lia]|].
    apply (writes_only_trans _ m3); eapply writes_only_weaken; (done || lia).
  - words. rewrite u32_small by (unfold word, W32; lia). lia.
  - by words.
  - replace (b + sz - n - 8) with p by lia. by words.
  - intros a Ha Hd1 Hd2. rewrite (proj2 W4 a Ha), (proj2 W3 a Ha), (proj2 W2 a Ha),
      (proj2 W1 a Ha); lia || done.
Qed.

(** The search agrees with first fit on the abstract list. *)
Lemma kmalloc_search_ok fuel lo n l a m :
  I m → fl_owned l → fl_ordered lo l → 0 <= lo → free_seg m a l 0 → 8 <= n →
  (length l <= fuel)%nat →
  match fl_alloc n l with
  | Split p l' => ∃ m' x, kmalloc_search fuel a n m = Done p m' ∧ I m' ∧ x ∈ l ∧
      writes_only owns m m' (fst x) (snd x) ∧ free_seg m' a l' 0 ∧
      word_at m' (p - 8) = n + 8 ∧ p = fst x + snd x - n ∧
      ∀ a, owns a → ¬ (fst x <= a < fst x + 4) → ¬ (p - 8 <= a < p + 4) →
        byte_at m' a = byte_at m a
  | Whole b => kmalloc_search fuel a n m = Done (word_at m (b + 8)) m
  | NoFit => kmalloc_search fuel a n m = Done 0 m
  end.
Proof.
  intros HI. revert lo l a. induction fuel as [|fuel IH]; intros lo l a Ho Hl Hlo Hs Hn Hf.
  { destruct l; [|simpl in Hf; lia]. simpl in *. by subst a. }
  destruct l as [|[b sz] l]; [simpl in *; by subst a|].
  destruct Hs as (-> & Hb0 & Hsz & Hs). apply Forall_cons in Ho as [Hb Ho].
  destruct Hl as (H1 & H2 & H3 & Hl). cbn [fst snd] in Hb.
  cbn [fl_alloc kmalloc_search]. destruct (Z.eqb_spec b 0); [lia|].
  unfold block_size, BLOCK_HEADER_SIZE. load. rewrite Hsz.
  unfold W32 in H3. rewrite (u32_small (sz - 8)) by (unfold word, W32; lia).
  destruct (Z.leb_spec n (sz - 8)).
  - rewrite (u32_small (sz - 8 - n)) by (unfold word, W32; lia).
    unfold SMALLEST_BLOCK_SIZE. destruct (Z.leb_spec 32 (sz - 8 - n)).
    + destruct (split_block_ok m b sz n HI Hb Hsz Hn) as (m' & -> & HI' & HW & E1 & E2 & E3 & E4);
        [lia|].
      exists m', (b, sz). split_and!; try done.
      * by left.
      * simpl. split_and!; try (done || lia). rewrite E2.
        eapply free_seg_frame; [exact (proj2 HW)|done| |done].
        eapply fl_sorted_off; [by apply fl_ordered_sorted|lia].
    + unfold free_memory. rewrite ld32_ok by (done || owned). done.
  - unfold next_block. load.
    specialize (IH (b + sz) l (word_at m (b + 4)) Ho Hl ltac:(lia) Hs Hn
      ltac:(simpl in Hf; lia)).
    destruct (fl_alloc n l) as [p l'| |]; [|done..].
    destruct IH as (m' & x & -> & HI' & Hx & HW & Hs' & Hp & Ep & Hk).
    exists m', x. split_and!; try done; [by right|].
    assert (b + sz < fst x) as Hlt.
    { pose proof (fl_ordered_Forall _ _ Hl) as HF. rewrite Forall_forall in HF. by apply HF. }
    simpl. rewrite !(writes_only_word_at _ _ _ _ _ HW) by (owned || lia). auto.
Qed.

(** The heap represents the list [l]. *)
Definition heap_list (m : machine) (l : list block) : Prop :=
  free_seg m (block_list_head (heap m)) l 0 ∧ fl_ordered 0 l ∧ fl_owned l.

Lemma fl_alloc_owned n l p l' : 0 <= n → fl_alloc n l = Split p l' → fl_owned l → fl_owned l'.
Proof using.
  intros Hn. revert p l'. induction l as [|[b sz] l IH]; intros p l'; simpl; [done|].
  destruct (Z.leb_spec n (sz - 8)).
  - destruct (Z.leb_spec 32 (sz - 8 - n)); [|done]. intros [= <- <-] [Hb Ho]%Forall_cons.
    constructor; [|done]. cbn in *. owned.
  - destruct (fl_alloc n l) as [q l''| |]; try done. intros [= <- <-] [Hb Ho]%Forall_cons.
    constructor; [done|]. by eapply IH.
Qed.

Lemma kmalloc_round_div size :
  0 <= size < W32 - 7 → kmalloc_round size = 8 * ((size + 7) / 8).
Proof using.
  intros H. unfold kmalloc_round. rewrite (u32_small (size + 7)) by (unfold word; lia).
  rewrite Z.shiftl_mul_pow2, Z.shiftr_div_pow2 by lia. change (2 ^ 3) with 8.
  unfold W32 in H. rewrite u32_small by (unfold word, W32; mlia). lia.
Qed.

(** *** kfree *)

Lemma kmalloc_merge_ok m b sz b' sz' l e :
  I m → fl_owned ((b, sz) :: (b', sz') :: l) → fl_sorted b ((b, sz) :: (b', sz') :: l) →
  free_seg m b ((b, sz) :: (b', sz') :: l) e → b + sz = b' →
  ∃ m', kmalloc_merge b b' m = Done tt m' ∧ I m' ∧ writes_only owns m m' b 8 ∧
    free_seg m' b ((b, sz + sz') :: l) e.
Proof.
  intros HI Ho Hs Hf Hb. apply Forall_cons in Ho as [Ho1 Ho].
  apply Forall_cons in Ho as [Ho2 Ho3]. destruct Hs as (_ & S2 & S3 & _ & S5 & S6 & S7).
  destruct Hf as (_ & F1 & F2 & F3 & F4 & F5 & F6). cbn [fst snd] in *.
  assert (word b) as Hw by (apply region_word, (owns_range_at _ _ _ _ Ho1); lia).
  unfold word, W32 in *.
  unfold kmalloc_merge, next_block, set_next_block, block_size, set_block_size.
  load. store m1 K1 V1 W1. load. load.
  assert (word_at m1 b = sz) as E1 by (by words).
  assert (word_at m1 b' = sz') as E2 by (by words).
  rewrite E1, E2, (u32_small (sz + sz')) by (unfold word, W32; lia).
  assert (owns_range owns b 4) as O4 by owned.
  destruct (st32_ok m1 b (sz + sz') K1 O4) as (m2 & -> & K2 & V2 & W2).
  assert (writes_only owns m m2 b 8) as HW.
  { apply (writes_only_trans _ m1); eapply writes_only_weaken; (done || lia). }
  exists m2. split_and!; [done..|]. simpl. split_and!; try done.
  - rewrite V2. apply u32_small. unfold word, W32. lia.
  - words. rewrite u32_small by apply word_at_word.
    eapply free_seg_frame; [exact (proj2 HW)|done| |done].
    eapply fl_sorted_off; [done|lia].
Qed.

Lemma coalesce_next_ok m nb s l :
  I m → fl_owned ((nb, s) :: l) → fl_sorted nb ((nb, s) :: l) →
  free_seg m nb ((nb, s) :: l) 0 →
  ∃ m', kmalloc_coalesce 0 nb (fl_head l) m = Done tt m' ∧ I m' ∧
    heap_step m m' nb s ∧ block_list_head (heap m') = block_list_head (heap m) ∧
    free_seg m' nb (fl_cons nb s l) 0.
Proof.
  intros HI Ho Hs Hf. unfold kmalloc_coalesce. cbn [negb Z.eqb].
  destruct l as [|[b' s'] l].
  { exists m. split_and!; try done. apply heap_step_refl. }
  assert (b' ≠ 0) as Hb' by (by destruct Hf as (_ & _ & _ & _ & ? & _)).
  cbn [fl_head fl_cons]. destruct (Z.eqb_spec b' 0); [done|]. cbn [negb].
  pose proof Ho as Ho'. apply Forall_cons in Ho' as [Hn _]. cbn [fst snd] in Hn.
  pose proof Hs as (_ & S2 & S3 & _). pose proof Hf as (_ & F1 & F2 & _).
  assert (word nb) as Hw by (apply region_word, (owns_range_at _ _ _ _ Hn); lia).
  unfold block_size. steps. load. rewrite F2, u32_small by (unfold word in *; lia).
  destruct (Z.eqb_spec b' (nb + s)) as [Eb|]; destruct (Z.eqb_spec (nb + s) b'); try lia.
  - subst b'. destruct (kmalloc_merge_ok m nb s (nb + s) s' l 0) as (m1 & H1 & K1 & W1 & F1'); try done.
    steps. run H1. unfold gets_heap, mod_heap. steps.
    assert (heap m1 = heap m) as Hh by (by destruct W1 as [-> _]).
    assert (heap_step m m1 nb s) as HS.
    { eapply heap_step_weaken; [by apply heap_step_writes|lia|lia]. }
    unfold when. destruct (block_list_tail (heap m1) =? nb + s); steps.
    + eexists. split_and!; [done|by apply I_heap| | |].
      * eapply heap_step_trans; [done|]. apply heap_step_heap.
      * cbn. by rewrite Hh.
      * eapply free_seg_same; [| |done]; done.
    + exists m1. split_and!; try done. by rewrite Hh.
  - steps. exists m. split_and!; try done. apply heap_step_refl.
Qed.

Lemma fl_cons_owned b sz l :
  16 <= sz → Forall (λ x, 16 <= snd x) l →
  fl_owned ((b, sz) :: l) → fl_owned (fl_cons b sz l).
Proof using.
  intros H16 HF Ho. destruct l as [|[b1 s1] l]; [done|]. cbn [fl_cons].
  destruct (Z.eqb_spec (b + sz) b1) as [<-|]; [|done].
  apply Forall_cons in Ho as [H1 Ho]. apply Forall_cons in Ho as [H2 Ho].
  constructor; [|done]. cbn in *. intros i Hi.
  destruct (Z.lt_ge_cases i sz); [by apply H1; lia|].
  replace (b + i) with (b + sz + (i - sz)) by lia. apply H2. lia.
Qed.

Lemma coalesce_split prev nb nx m :
  kmalloc_coalesce prev nb nx m
  = (kmalloc_coalesce 0 nb nx;;
     if negb (prev =? 0) then
       prev_sz ← block_size prev;
       if nb =? prev [+] prev_sz then kmalloc_merge prev nb else mret tt
     else mret tt) m.
Proof using.
  unfold kmalloc_coalesce. rewrite bind_assoc. unfold mbind, prog_bind.
  by destruct (if negb (nx =? 0) then _ else _).
Qed.

Lemma coalesce_prev_ok m a l1 pb ps nb s l2 :
  I m → fl_owned (l1 ++ (pb, ps) :: (nb, s) :: l2) →
  fl_sorted 1 (l1 ++ (pb, ps) :: (nb, s) :: l2) →
  free_seg m a (l1 ++ (pb, ps) :: (nb, s) :: l2) 0 →
  ∃ m', (prev_sz ← block_size pb;
         if nb =? pb [+] prev_sz then kmalloc_merge pb nb else mret tt) m = Done tt m' ∧
    I m' ∧ writes_only owns m m' pb ps ∧
    free_seg m' a (l1 ++ fl_cons pb ps ((nb, s) :: l2)) 0.
Proof.
  intros HI Ho Hs Hf. apply fl_sorted_app in Hs as [Hs1 Hs].
  apply fl_owned_app in Ho as [Ho1 Ho]. apply free_seg_app in Hf as (c & Hf1 & Hf).
  pose proof Ho as Ho2. apply Forall_cons in Ho2 as [Hp _]. cbn [fst snd] in Hp.
  pose proof Hf as (-> & F1 & F2 & _). pose proof Hs as (_ & S2 & S3 & _).
  assert (word pb) as Hw by (apply region_word, (owns_range_at _ _ _ _ Hp); lia).
  unfold block_size. load. rewrite F2, u32_small by (unfold word in *; lia).
  cbn [fl_cons].
  destruct (Z.eqb_spec nb (pb + ps)) as [Eb|]; destruct (Z.eqb_spec (pb + ps) nb); try lia.
  - destruct (kmalloc_merge_ok m pb ps nb s l2 0 HI Ho Hs Hf) as (m' & H1 & K1 & W1 & Hf');
      [lia|].
    exists m'. split_and!; try done; [eapply writes_only_weaken; [done|lia|lia]|].
    apply free_seg_app. exists pb. split; [|done].
    eapply free_seg_frame; [exact (proj2 W1)|done| |done].
    eapply Forall_impl; [done|]. intros x Hx. cbn in *. lia.
  - exists m. split_and!; try done. apply free_seg_app. eauto.
Qed.

(** Merging with both neighbours. *)
Lemma coalesce_ok m a l1 pb ps nb s l2 :
  I m → fl_owned (l1 ++ (pb, ps) :: (nb, s) :: l2) →
  fl_sorted 1 (l1 ++ (pb, ps) :: (nb, s) :: l2) →
  free_seg m a (l1 ++ (pb, ps) :: (nb, s) :: l2) 0 →
  ∃ m', kmalloc_coalesce pb nb (fl_head l2) m = Done tt m' ∧ I m' ∧
    block_list_head (heap m') = block_list_head (heap m) ∧
    within (l1 ++ (pb, ps) :: (nb, s) :: l2) m m' ∧
    free_seg m' a (l1 ++ fl_cons pb ps (fl_cons nb s l2)) 0.
Proof.
  intros HI Ho Hs Hf. rewrite coalesce_split.
  change (l1 ++ (pb, ps) :: (nb, s) :: l2) with (l1 ++ [(pb, ps)] ++ (nb, s) :: l2) in *.
  rewrite app_assoc in *. pose proof Hs as Hs'. apply fl_sorted_app in Hs' as [Hs1 Hs2].
  pose proof Ho as Ho'. apply fl_owned_app in Ho' as [Ho1 Ho2].
  apply free_seg_app in Hf as (c & Hf1 & Hf2). pose proof Hf2 as (-> & _).
  destruct (coalesce_next_ok m nb s l2 HI Ho2 Hs2 Hf2) as (m1 & H1 & K1 & S1 & Hh & F1).
  pose proof S1 as [_ W1]. run H1.
  assert (free_seg m1 a (l1 ++ [(pb, ps)]) nb) as F2.
  { eapply free_seg_frame; [done|done| |done].
    eapply Forall_impl; [exact Hs1|]. intros x Hx. cbn in *. lia. }
  assert (pb ≠ 0) as Hpb.
  { apply free_seg_app in F2 as (? & _ & F2). by destruct F2 as (_ & ? & _). }
  destruct (Z.eqb_spec pb 0); [done|]. cbn [negb].
  destruct (fl_cons_shape nb s l2) as (s' & l2' & Hc & _).
  assert (fl_owned (fl_cons nb s l2)) as Ho3.
  { apply fl_cons_owned; [by destruct Hs2 as (_ & ? & _)| |done].
    destruct Hs2 as (_ & _ & _ & Hs2). eapply Forall_impl; [by apply fl_sorted_Forall|].
    by intros x [_ Hx]. }
  assert (fl_sorted 1 (l1 ++ (pb, ps) :: fl_cons nb s l2)) as Hs3.
  { change (l1 ++ (pb, ps) :: fl_cons nb s l2) with (l1 ++ [(pb, ps)] ++ fl_cons nb s l2).
    rewrite app_assoc, Hc. apply (fl_sorted_replace _ _ nb s l2 _ Hs); [|done].
    rewrite <- Hc. by apply fl_cons_sorted. }
  rewrite Hc in *.
  destruct (coalesce_prev_ok m1 a l1 pb ps nb s' l2') as (m2 & H2 & K2 & W2 & F3); try done.
  - change (l1 ++ (pb, ps) :: (nb, s') :: l2') with (l1 ++ [(pb, ps)] ++ (nb, s') :: l2').
    rewrite app_assoc. by apply fl_owned_app.
  - change (l1 ++ (pb, ps) :: (nb, s') :: l2') with (l1 ++ [(pb, ps)] ++ (nb, s') :: l2').
    rewrite app_assoc. apply free_seg_app. eauto.
  - exists m2. split_and!; try done; [by destruct W2 as [-> _]|].
    apply (within_trans _ _ m1).
    + apply (within_step _ nb s); [|done]. rewrite !elem_of_app, !elem_of_cons. tauto.
    + apply (within_writes _ pb ps pb ps); [|done|lia..].
      rewrite !elem_of_app, !elem_of_cons. tauto.
Qed.

Lemma kfree_find_ok fuel m a l1 pb ps l2 nb :
  I m → fl_owned (l1 ++ (pb, ps) :: l2) →
  Forall (λ x, 16 <= snd x) (l1 ++ (pb, ps) :: l2) →
  free_seg m a (l1 ++ (pb, ps) :: l2) 0 →
  Forall (λ x, fst x < nb) (l1 ++ [(pb, ps)]) → Forall (λ x, nb < fst x) l2 →
  (length l1 < fuel)%nat →
  kfree_find fuel a nb m = Done (pb, fl_head l2) m.
Proof.
  intros HI. revert a fuel. induction l1 as [|[b sz] l1 IH]; intros a fuel Ho H16 Hf Hl Hg Hfu.
  - destruct fuel as [|fuel]; [simpl in Hfu; lia|]. cbn [app] in *.
    pose proof Hf as (-> & F1 & F2 & F3). apply free_seg_head in F3.
    apply Forall_cons in Ho as [Ho _]. apply Forall_cons in H16 as [H16 _].
    apply Forall_cons in Hl as [Hl _]. cbn [fst snd] in *. cbn [kfree_find].
    destruct (Z.eqb_spec pb 0); [done|]. unfold next_block. load. rewrite F3.
    destruct (Z.ltb_spec pb nb); [|lia]. destruct l2 as [|[b2 s2] l2]; cbn [fl_head] in *.
    + rewrite Z.eqb_refl, orb_true_r. done.
    + apply Forall_cons in Hg as [Hg _]. cbn in Hg.
      by destruct (Z.ltb_spec nb b2); [|lia].
  - destruct fuel as [|fuel]; [simpl in Hfu; lia|]. cbn [app] in *.
    destruct Hf as (-> & F1 & F2 & F3). pose proof (free_seg_head _ _ _ F3) as F4.
    apply Forall_cons in Ho as [Hb Ho]. apply Forall_cons in H16 as [Hb16 H16].
    apply Forall_cons in Hl as [Hlb Hl]. cbn [fst snd] in *. cbn [kfree_find].
    destruct (Z.eqb_spec b 0); [done|]. unfold next_block. load.
    assert (0 < word_at m (b + 4) < nb) as Hnx.
    { pose proof (word_at_word m (b + 4)) as Hw. unfold word in Hw. rewrite F4 in *.
      destruct l1 as [|[b1 s1] l1]; cbn [app fl_head] in *;
        apply Forall_cons in Hl as [Hl _]; cbn in Hl; destruct F3 as (_ & F3 & _); lia. }
    destruct (Z.ltb_spec nb (word_at m (b + 4))); [lia|].
    destruct (Z.eqb_spec (word_at m (b + 4)) 0); [lia|]. rewrite andb_false_r.
    apply IH; try done. simpl in Hfu. lia.
Qed.

(** Linking a block into the list, before any merging. *)
Lemma link_front_ok m nb s l :
  I m → fl_owned ((nb, s) :: l) → fl_sorted 1 ((nb, s) :: l) →
  word_at m nb = s → free_seg m (fl_head l) l 0 →
  ∃ m', (set_next_block nb (fl_head l);; mod_heap (set_block_list_head nb)) m = Done tt m' ∧
    I m' ∧ block_list_head (heap m') = nb ∧ heap_step m m' nb s ∧
    free_seg m' nb ((nb, s) :: l) 0.
Proof.
  intros HI Ho Hs Hsz Hf. pose proof Ho as Ho'. apply Forall_cons in Ho' as [Hn Hol].
  cbn [fst snd] in Hn. destruct Hs as (S1 & S2 & S3 & S4).
  unfold set_next_block. store m1 K1 V1 W1. eexists. split_and!; [done|by apply I_heap|done| |].
  { eapply heap_step_trans; [|apply heap_step_heap].
    eapply heap_step_weaken; [by apply heap_step_writes|lia|lia]. }
  apply (free_seg_same m1); [done..|]. split_and!; [done|lia|by words|].
  rewrite V1, u32_small.
  - eapply free_seg_frame; [exact (proj2 W1)|done| |done].
    eapply fl_sorted_off; [done|lia].
  - destruct l as [|[b1 s1] l]; cbn; [done|].
    apply Forall_cons in Hol as [Hol _]. apply region_word. cbn in Hol, S4. owned.
Qed.

Lemma link_after_ok m a l1 pb ps nb s l2 :
  I m → fl_owned (l1 ++ (pb, ps) :: (nb, s) :: l2) →
  fl_sorted 1 (l1 ++ (pb, ps) :: (nb, s) :: l2) →
  word_at m nb = s → free_seg m a (l1 ++ (pb, ps) :: l2) 0 →
  ∃ m', (set_next_block pb nb;; set_next_block nb (fl_head l2)) m = Done tt m' ∧ I m' ∧
    heap m' = heap m ∧ within (l1 ++ (pb, ps) :: (nb, s) :: l2) m m' ∧
    free_seg m' a (l1 ++ (pb, ps) :: (nb, s) :: l2) 0.
Proof.
  intros HI Ho Hs Hsz Hf. apply fl_sorted_app in Hs as [Hs1 Hs].
  apply fl_owned_app in Ho as [Ho1 Ho]. apply Forall_cons in Ho as [Hp Ho].
  apply Forall_cons in Ho as [Hn Ho]. cbn [fst snd] in *.
  destruct Hs as (_ & S2 & S3 & S4 & S5 & S6 & S7).
  apply free_seg_app in Hf as (c & Hf1 & -> & F1 & F2 & Hf2).
  pose proof (free_seg_head _ _ _ Hf2) as Hh.
  unfold set_next_block. store m1 K1 V1 W1.
  assert (owns_range owns (nb + 4) 4) as O4 by owned.
  destruct (st32_ok m1 (nb + 4) (fl_head l2) K1 O4) as (m2 & -> & K2 & V2 & W2).
  exists m2. split_and!; [done|done|by destruct W2 as [-> _], W1 as [-> _]| |].
  { apply (within_trans _ _ m1).
    - apply (within_writes _ pb ps (pb + 4) 4); [|done|lia..].
      rewrite !elem_of_app, !elem_of_cons. tauto.
    - apply (within_writes _ nb s (nb + 4) 4); [|done|lia..].
      rewrite !elem_of_app, !elem_of_cons. tauto. }
  assert (word nb) as Hw by (apply region_word; owned).
  assert (word pb) as Hwp by (apply region_word; owned). unfold word in Hwp.
  apply free_seg_app. exists pb. split.
  - eapply free_seg_frame; [exact (proj2 W2)|done| |].
    + eapply Forall_impl; [exact Hs1|]. intros x Hx. cbn in *. lia.
    + eapply free_seg_frame; [exact (proj2 W1)|done| |done].
      eapply Forall_impl; [exact Hs1|]. intros x Hx. cbn in *. lia.
  - split_and!; [done|done|by words|]. words. rewrite u32_small by done.
    split_and!; [done|lia|by words|]. words. rewrite <- Hh, u32_small by apply word_at_word.
    eapply free_seg_frame; [exact (proj2 W2)|done|eapply fl_sorted_off; [done|lia]|].
    eapply free_seg_frame; [exact (proj2 W1)|done|eapply fl_sorted_off; [done|lia]|done].
Qed.

(** The part of [kfree] after the neighbours are known. *)
Definition kfree_link (nb prev nx : Z) : M unit :=
  (if prev =? 0 then
     set_next_block nb nx;;
     mod_heap (set_block_list_head nb)
   else if nx =? 0 then
     set_next_block prev nb;;
     set_next_block nb 0;;
     mod_heap (set_block_list_tail nb)
   else
     set_next_block prev nb;;
     set_next_block nb nx).

Lemma kfree_link_after nb prev nx m m' :
  prev ≠ 0 → (set_next_block prev nb;; set_next_block nb nx) m = Done tt m' →
  ∃ h, kfree_link nb prev nx m = Done tt (set_heap h m') ∧
    block_list_head h = block_list_head (heap m').
Proof using.
  intros Hp Hm. unfold kfree_link. destruct (Z.eqb_spec prev 0); [done|].
  destruct (Z.eqb_spec nx 0) as [->|].
  - exists (set_block_list_tail nb (heap m')). split; [|done].
    unfold mbind, prog_bind in *. destruct (set_next_block prev nb m); [|done].
    rewrite Hm. reflexivity.
  - exists (heap m'). rewrite Hm. split; [|done]. by destruct m'.
Qed.

Lemma fl_free_owned lo b sz l :
  fl_ordered lo l → lo < b → 16 <= sz → b + sz < W32 → Forall (apart b sz) l →
  owns_range owns b sz → fl_owned l → fl_owned (fl_free b sz l).
Proof using.
  intros Hl Hlo H16 Hw Hap Hb Ho. revert lo Hl Hlo.
  induction l as [|[b1 s1] l IH]; intros lo Hl Hlo; cbn [fl_free].
  - by constructor.
  - pose proof Hl as (O1 & O2 & O3 & O4). pose proof (fl_ordered_sorted _ _ Hl) as HS.
    apply fl_sorted_Forall in HS. destruct (Z.ltb_spec b b1).
    + apply fl_cons_owned; [done| |by constructor].
      eapply Forall_impl; [exact HS|]. by intros x [_ ?].
    + apply Forall_cons in Hap as [Ha Hap]. apply Forall_cons in Ho as [Ho1 Ho].
      unfold apart in Ha. cbn in Ha.
      assert (b1 + s1 - 1 < b) as Hlt by lia.
      assert (fl_ordered (b1 + s1 - 1) l) as O5 by (eapply fl_ordered_weaken; [|done]; lia).
      pose proof (fl_free_ordered _ _ _ _ O5 Hlt H16 Hw Hap) as Hord.
      apply fl_ordered_sorted, fl_sorted_Forall in Hord.
      apply fl_cons_owned; [done| |].
      * eapply Forall_impl; [exact Hord|]. by intros x [_ ?].
      * constructor; [done|]. by apply (IH Hap Ho (b1 + s1 - 1)).
Qed.

(** [kfree] of the block at [nb], once its place in the list is known. *)
Lemma kfree_front_ok m nb s l :
  I m → fl_owned ((nb, s) :: l) → fl_sorted 1 ((nb, s) :: l) →
  word_at m nb = s → free_seg m (fl_head l) l 0 →
  ∃ m', (kfree_link nb 0 (fl_head l);; kmalloc_coalesce 0 nb (fl_head l)) m = Done tt m' ∧
    I m' ∧ within ((nb, s) :: l) m m' ∧
    free_seg m' (block_list_head (heap m')) (fl_cons nb s l) 0.
Proof.
  intros HI Ho Hs Hsz Hf.
  destruct (link_front_ok m nb s l HI Ho Hs Hsz Hf) as (m1 & H1 & K1 & Hh & HS1 & Hf1).
  change (kfree_link nb 0 (fl_head l)) with
    (set_next_block nb (fl_head l);; mod_heap (set_block_list_head nb)).
  run H1. pose proof Hs as (S1 & S2 & S3 & S4).
  destruct (coalesce_next_ok m1 nb s l K1 Ho) as (m2 & -> & K2 & HS2 & Hh2 & Hf2); try done.
  exists m2. split_and!; [done|done| |by rewrite Hh2, Hh].
  apply (within_step _ nb s); [by left|]. by eapply heap_step_trans.
Qed.

Lemma kfree_after_ok m l1 pb ps nb s l2 :
  I m → fl_owned (l1 ++ (pb, ps) :: (nb, s) :: l2) →
  fl_sorted 1 (l1 ++ (pb, ps) :: (nb, s) :: l2) → word_at m nb = s →
  free_seg m (block_list_head (heap m)) (l1 ++ (pb, ps) :: l2) 0 →
  ∃ m', (kfree_link nb pb (fl_head l2);; kmalloc_coalesce pb nb (fl_head l2)) m
      = Done tt m' ∧
    I m' ∧ within (l1 ++ (pb, ps) :: (nb, s) :: l2) m m' ∧
    free_seg m' (block_list_head (heap m')) (l1 ++ fl_cons pb ps (fl_cons nb s l2)) 0.
Proof.
  intros HI Ho Hs Hsz Hf.
  destruct (link_after_ok m _ l1 pb ps nb s l2 HI Ho Hs Hsz Hf) as (m1 & H1 & K1 & Hh & HW1 & Hf1).
  assert (pb ≠ 0) as Hpb.
  { apply free_seg_app in Hf as (c & _ & Hf). by destruct Hf as (_ & ? & _). }
  destruct (kfree_link_after nb pb (fl_head l2) m m1 Hpb H1) as (h & H2 & Hh2). run H2.
  destruct (coalesce_ok (set_heap h m1) (block_list_head (heap m)) l1 pb ps nb s l2)
    as (m2 & -> & K2 & Hh3 & HW2 & Hf2); try done.
  - by apply I_heap.
  - by apply (free_seg_same m1).
  - exists m2. split_and!; [done|done|eapply within_trans; [by apply within_heap|done]|].
    rewrite Hh3. cbn. by rewrite Hh2, Hh.
Qed.

Lemma kfree_ok fuel nb s l m :
  I m → heap_list m l → owns_range owns nb s → word_at m nb = s →
  16 <= s → 0 < nb → nb + s < W32 → Forall (apart nb s) l → (length l < fuel)%nat →
  ∃ m', kfree fuel (nb + 8) m = Done tt m' ∧ I m' ∧ heap_list m' (fl_free nb s l) ∧
    within ((nb, s) :: l) m m'.
Proof.
  intros HI (Hf & Hord & Ho) Hn Hsz H16 H0 Hw Hap Hfu.
  pose proof (fl_free_ordered 0 nb s l Hord H0 H16 Hw Hap) as Hord'.
  pose proof (fl_free_owned 0 nb s l Hord H0 H16 Hw Hap Hn Ho) as Hown'.
  enough (∃ m', kfree fuel (nb + 8) m = Done tt m' ∧ I m' ∧ within ((nb, s) :: l) m m' ∧
    free_seg m' (block_list_head (heap m')) (fl_free nb s l) 0) as (m' & ? & ? & ? & ?)
    by (exists m'; unfold heap_list; auto 6).
  destruct (fl_cut 0 nb s l Hord H0 H16 Hw Hap) as (l1 & l2 & -> & HF1 & HF2 & Hso).
  assert (fl_owned (l1 ++ (nb, s) :: l2)) as Ho'.
  { apply fl_owned_app in Ho as [Ho1 Ho2]. apply fl_owned_app. split; [done|].
    by constructor. }
  assert (kfree fuel (nb + 8) m = ('(p, x) ←
    (if nb <? block_list_head (heap m) then mret (0, block_list_head (heap m))
     else kfree_find fuel (block_list_head (heap m)) nb);
    kfree_link nb p x;; kmalloc_coalesce p nb x) m) as ->.
  { unfold kfree, BLOCK_HEADER_SIZE. unfold W32 in Hw.
    destruct (Z.eqb_spec (nb + 8) 0); [lia|].
    rewrite (u32_small (nb + 8 - 8)) by (unfold word, W32; lia).
    by replace (nb + 8 - 8) with nb by lia. }
  destruct l1 as [|[pb ps] l1 _] using rev_ind.
  - cbn [app] in *. pose proof (free_seg_head _ _ _ Hf) as Hh. rewrite Hh in *.
    rewrite fl_free_front by done.
    assert ((if nb <? fl_head l2 then mret (0, fl_head l2)
      else kfree_find fuel (fl_head l2) nb) m = Done (0, fl_head l2) m) as E.
    { destruct l2 as [|[b sz] l2]; cbn [fl_head] in *.
      - destruct (Z.ltb_spec nb 0); [lia|]. by destruct fuel.
      - apply Forall_cons in HF2 as [HF2 _]. cbn in HF2.
        by destruct (Z.ltb_spec nb b); [|lia]. }
    run E. by apply kfree_front_ok.
  - rewrite <- !app_assoc in *. cbn [app] in *. pose proof HF1 as HF3.
    apply Forall_app in HF3 as [_ [Hpb _]%Forall_cons]. cbn in Hpb.
    rewrite (fl_free_middle 0) by done.
    assert ((if nb <? block_list_head (heap m) then mret (0, block_list_head (heap m))
      else kfree_find fuel (block_list_head (heap m)) nb) m = Done (pb, fl_head l2) m) as E.
    { pose proof (free_seg_head _ _ _ Hf) as Hh.
      assert (block_list_head (heap m) < nb) as Hlt.
      { rewrite Hh. destruct l1 as [|[b1 s1] l1]; cbn [app fl_head]; [done|].
        by apply Forall_cons in HF1 as [HF1 _]. }
      destruct (Z.ltb_spec nb (block_list_head (heap m))); [lia|].
      apply (kfree_find_ok _ _ _ l1 pb ps l2); try done.
      - eapply Forall_impl; [by apply fl_sorted_Forall, fl_ordered_sorted|].
        by intros x [_ Hx].
      - rewrite length_app in Hfu. simpl in Hfu. unfold block in *. lia. }
    run E. destruct (kfree_after_ok m l1 pb ps nb s l2) as (m' & E' & K' & HW & F'); try done.
    exists m'. split_and!; try done. eapply within_incl; [|done].
    intros x. rewrite elem_of_cons, !elem_of_app, !elem_of_cons. tauto.
Qed.

(** The block [kmalloc] cuts off, seen from the list it leaves. *)
Lemma cut_block_apart l1 b sz l2 n :
  fl_ordered 0 (l1 ++ (b, sz) :: l2) → 0 <= n → 32 <= sz - 8 - n →
  Forall (apart (b + sz - n - 8) (n + 8)) (l1 ++ (b, sz - n - 8) :: l2).
Proof using.
  intros Ho Hn Hs. pose proof (fl_ordered_sorted _ _ Ho) as HS.
  apply fl_sorted_app in HS as [HS _]. apply Forall_app. split.
  - eapply Forall_impl; [exact HS|]. intros x Hx. unfold apart. cbn in *. lia.
  - constructor; [unfold apart; simpl; lia|].
    assert (fl_ordered (b + sz) l2) as Ho2.
    { clear HS. revert Ho. generalize 0. induction l1 as [|[b1 s1] l1 IH]; intros lo Ho.
      - by destruct Ho as (_ & _ & _ & Ho).
      - destruct Ho as (_ & _ & _ & Ho). by apply (IH (b1 + s1)). }
    eapply Forall_impl; [by apply fl_ordered_Forall|].
    intros x Hx. unfold apart. simpl in *. lia.
Qed.

Lemma fl_ordered_pos l1 b sz l2 : fl_ordered 0 (l1 ++ (b, sz) :: l2) → 0 < b ∧ b + sz < W32.
Proof using.
  assert (∀ lo, 0 <= lo → fl_ordered lo (l1 ++ (b, sz) :: l2) → 0 < b ∧ b + sz < W32) as H.
  { induction l1 as [|[b1 s1] l1 IH]; intros lo Hlo Ho.
    - destruct Ho as (? & ? & ? & _). lia.
    - destruct Ho as (? & ? & ? & Ho). apply (IH (b1 + s1)); [lia|done]. }
  apply H. lia.
Qed.

Lemma kmalloc_split_ok vap fuel size l p l' m :
  I m → heap_list m l → 0 < size < W32 - 7 → (length l <= fuel)%nat →
  fl_alloc (kmalloc_round size) l = Split p l' →
  ∃ m', kmalloc_with vap fuel size m = Done p m' ∧ I m' ∧ heap_list m' l' ∧
    word_at m' (p - 8) = kmalloc_round size + 8 ∧ only_memory m m' ∧
    ∃ x, x ∈ l ∧ writes_only owns m m' (fst x) (snd x) ∧
      p = fst x + snd x - kmalloc_round size ∧
      ∀ a, owns a → ¬ (fst x <= a < fst x + 4) → ¬ (p - 8 <= a < p + 4) →
        byte_at m' a = byte_at m a.
Proof.
  intros HI (Hf & Ho & Hw) Hsz Hfu Ha. set (n := kmalloc_round size) in *.
  assert (8 <= n) as Hn.
  { subst n. rewrite kmalloc_round_div by lia. mlia. }
  destruct (fl_alloc_Split n l p l' 0 ltac:(lia) Ho Ha)
    as (l1 & b & sz & l2 & El & El' & Ep & Hs & _ & Ho').
  pose proof (kmalloc_search_ok fuel 0 n l _ m HI Hw Ho ltac:(lia) Hf Hn Hfu) as H.
  rewrite Ha in H. destruct H as (m' & x & E & K & Hx & W & Hf' & Hp & Ep' & Hk).
  assert (p ≠ 0) as Hp0.
  { rewrite El in Ho. apply fl_ordered_pos in Ho. lia. }
  exists m'. unfold kmalloc_with, gets_heap.
  destruct (Z.eqb_spec size 0); [lia|]. steps. fold n. run E.
  destruct (Z.eqb_spec p 0); [done|]. cbn [when]. steps.
  split_and!; [done|done| |done|apply W|by exists x].
  split_and!; [|done|apply (fl_alloc_owned n l p l'); [lia|done|done]].
  assert (heap m' = heap m) as -> by (by destruct W as [-> _]). done.
Qed.

Lemma kmalloc_nofit_ok fuel size l m :
  I m → heap_list m l → 0 < size < W32 - 7 → (length l <= fuel)%nat →
  fl_alloc (kmalloc_round size) l = NoFit →
  kmalloc_search fuel (block_list_head (heap m)) (kmalloc_round size) m = Done 0 m.
Proof.
  intros HI (Hf & Ho & Hw) Hsz Hfu Ha.
  assert (8 <= kmalloc_round size) as Hn by (rewrite kmalloc_round_div by lia; mlia).
  pose proof (kmalloc_search_ok fuel 0 _ l _ m HI Hw Ho ltac:(lia) Hf Hn Hfu) as H.
  by rewrite Ha in H.
Qed.

(** The page is formatted as a block and linked behind the tail. *)
Lemma grow_ok m l tb ts pg a :
  I m → free_seg m a (l ++ [(tb, ts)]) 0 → fl_ordered 0 (l ++ [(tb, ts)]) →
  fl_owned (l ++ [(tb, ts)]) → block_list_tail (heap m) = tb →
  owns_range owns pg 4096 → pg ≠ 0 → Forall (apart pg 4096) (l ++ [(tb, ts)]) →
  ∃ m', kmalloc_add_block pg m = Done tt m' ∧ I m' ∧ heap m' = heap m ∧
    free_seg m' a (l ++ [(tb, ts); (pg, 4096)]) 0.
Proof.
  intros HI Hf Ho Hw Ht Hpg Hn0 Hap.
  pose proof (fl_ordered_sorted _ _ Ho) as HS. apply fl_sorted_app in HS as [HS1 HS2].
  destruct HS2 as (_ & H16 & _). pose proof Hw as Hw'.
  apply fl_owned_app in Hw' as [Hw1 [Hwt _]%Forall_cons]. cbn [fst snd] in Hwt.
  apply Forall_app in Hap as [Hap1 [Hapt _]%Forall_cons]. unfold apart in Hapt.
  cbn [fst snd] in Hapt.
  assert (word pg) as Hwpg by (apply region_word; owned).
  apply free_seg_app in Hf as (c & Hf1 & -> & F1 & F2 & F3).
  unfold kmalloc_add_block, set_block_size, set_free_memory, set_next_block, gets_heap.
  store m1 K1 V1 W1. store m2 K2 V2 W2. store m3 K3 V3 W3. steps.
  assert (heap m3 = heap m) as Hh
    by (by rewrite (proj1 W3), (proj1 W2), (proj1 W1)).
  rewrite Hh, Ht. assert (owns_range owns (tb + 4) 4) as O4 by owned.
  destruct (st32_ok m3 (tb + 4) pg K3 O4) as (m4 & -> & K4 & V4 & W4).
  exists m4. split_and!; [done|done|by rewrite (proj1 W4)|].
  assert (off_headers l tb ts) as Of1.
  { eapply Forall_impl; [exact HS1|]. intros x Hx. cbn in *. lia. }
  assert (off_headers l pg 4096) as Of2.
  { apply Forall_forall. intros x Hx. rewrite Forall_forall in HS1, Hap1.
    specialize (HS1 x Hx). specialize (Hap1 x Hx). unfold apart in Hap1. cbn in *. lia. }
  apply free_seg_app. exists tb. split.
  - apply (free_seg_frame m3 m4 _ _ _ tb ts); [|done..|].
    { eapply keeps_weaken; [exact (proj2 W4)|lia|lia]. }
    apply (free_seg_frame m m3 _ _ _ pg 4096); [|done..].
    apply (keeps_trans _ m1); [eapply keeps_weaken; [exact (proj2 W1)|lia|lia]|].
    apply (keeps_trans _ m2); [eapply keeps_weaken; [exact (proj2 W2)|lia|lia]|].
    eapply keeps_weaken; [exact (proj2 W3)|lia|lia].
  - simpl. words. rewrite (u32_small pg) by done.
    split_and!; try done; lia.
Qed.
(** *** What the free blocks hold *)

(** The bytes behind the three header words of the free blocks. *)
Definition unused (a : Z) (l : list block) : Prop :=
  Exists (λ x, fst x + 12 <= a < fst x + snd x) l.

(** They are zero. *)
Definition clean (l : list block) (m : machine) : Prop := ∀ a, unused a l → byte_at m a = 0.

Lemma unused_in a l : unused a l → Exists (in_block a) l.
Proof. intros H. apply (Exists_impl _ _ _ H). intros x Hx. unfold in_block. lia. Qed.

Lemma fl_ordered_disjoint lo l x y a :
  fl_ordered lo l → x ∈ l → y ∈ l → in_block a x → in_block a y → x = y.
Proof.
  revert lo. induction l as [|[b sz] l IH]; intros lo; [by intros _ Hx%elem_of_nil|].
  intros (_ & _ & _ & Ho). pose proof (fl_ordered_Forall _ _ Ho) as HF.
  rewrite Forall_forall in HF.
  intros [->|Hx]%elem_of_cons [->|Hy]%elem_of_cons; unfold in_block in *; cbn [fst snd].
  - done.
  - specialize (HF y Hy). lia.
  - specialize (HF x Hx). lia.
  - by apply (IH (b + sz)).
Qed.

Lemma unused_owned a l : fl_owned l → unused a l → owns a.
Proof.
  unfold fl_owned. rewrite Forall_forall. intros Hw (x & Hx & Hin)%Exists_exists.
  apply (owns_range_at _ _ _ _ (Hw x Hx)); lia.
Qed.

(** Cutting off a piece leaves the rest as it is: what is written is no
    unused byte of the rest, and just four of the piece. *)
Lemma cut_unused l l' n p x a :
  fl_ordered 0 l → 8 <= n → fl_alloc n l = Split p l' → x ∈ l → p = fst x + snd x - n →
  unused a l' ∨ p + 4 <= a < p + n →
  unused a l ∧ ¬ (fst x <= a < fst x + 4) ∧ ¬ (p - 8 <= a < p + 4).
Proof.
  intros Ho Hn Ha Hx Ep Hu.
  destruct (fl_alloc_Split n l p l' 0 ltac:(lia) Ho Ha)
    as (l1 & b & sz & l2 & El & El' & Ep' & Hs & _).
  assert (∀ y, y ∈ l → in_block (p + n - 1) y → y = (b, sz)) as Hb.
  { intros y Hy Hin. apply (fl_ordered_disjoint 0 l _ _ (p + n - 1)); try done.
    - rewrite El. apply elem_of_app. right. by left.
    - unfold in_block. cbn. lia. }
  pose proof (fl_sorted_Forall _ _ (fl_ordered_sorted _ _ Ho)) as HS. rewrite Forall_forall in HS.
  assert (x = (b, sz)) as ->.
  { apply Hb; [done|]. specialize (HS x Hx). unfold in_block. lia. }
  cbn [fst snd] in *. destruct Hu as [Hu|Hu].
  - pose proof Hu as (y & Hy & Hin)%Exists_exists.
    pose proof (cut_block_apart l1 b sz l2 n ltac:(by rewrite <- El) ltac:(lia) Hs) as HF.
    rewrite <- El', Forall_forall in HF. specialize (HF y Hy). unfold apart in HF.
    assert (unused a l ∧ (in_block a (b, sz) → b + 12 <= a)) as [H1 H2]; [|split; [done|]].
    + assert ((b, sz) ∈ l) as Hbl by (rewrite El; apply elem_of_app; right; by left).
      assert (y ∈ l ∨ y = (b, sz - n - 8)) as [Hyl| ->].
      { rewrite El' in Hy. rewrite El. apply elem_of_app in Hy as [Hy|Hy].
        - left. apply elem_of_app. by left.
        - apply elem_of_cons in Hy as [->|Hy]; [by right|left].
          apply elem_of_app. right. by right. }
      * split; [apply Exists_exists; by exists y|]. intros Hab.
        assert (y = (b, sz)) as -> by
          (apply (fl_ordered_disjoint 0 l _ _ a); [done|done|done|unfold in_block; lia|done]).
        cbn in Hin. lia.
      * cbn in Hin. split; [apply Exists_exists; exists (b, sz); split; [done|cbn; lia]|lia].
    + unfold in_block in H2. cbn in H2. split; [intros H; specialize (H2 ltac:(lia)); lia|lia].
  - split; [|lia]. rewrite El. apply Exists_app. right. left. cbn. lia.
Qed.

Lemma block_apart v n l a :
  Forall (apart v n) l → Exists (in_block a) l → ¬ (v <= a < v + n).
Proof.
  intros Ha (x & Hx & Hin)%Exists_exists. rewrite Forall_forall in Ha.
  specialize (Ha x Hx). unfold apart, in_block in *. lia.
Qed.

(** The free list survives what leaves its blocks alone. *)
Lemma heap_list_bytes m m' l :
  heap m' = heap m →
  (∀ a, owns a → Exists (in_block a) l → byte_at m' a = byte_at m a) →
  heap_list m l → heap_list m' l.
Proof.
  intros Hh HB (Hf & Ho & Hw). split_and!; [|done|done]. rewrite Hh. clear Hh.
  revert Ho Hf Hw. generalize (block_list_head (heap m)). generalize 0 at 1.
  induction l as [|[b sz] l IH]; intros z a; [done|]. cbn [fl_ordered free_seg].
  intros (H1 & H2 & H3 & H4) (-> & Hb & Hsz & Hl) [Hw Hws]%Forall_cons. cbn [fst snd] in Hw.
  assert (∀ k, 0 <= k → k + 4 <= 16 → word_at m' (b + k) = word_at m (b + k)) as Hk.
  { intros k Hk Hk'. unfold word_at. rewrite <- !Z.add_assoc, !HB; [done|..];
      first [owned|left; unfold in_block; cbn; lia]. }
  pose proof (Hk 0 ltac:(lia) ltac:(lia)) as H0. rewrite !Z.add_0_r in H0.
  rewrite Hk by lia. split_and!; [done|done|by rewrite H0|].
  eapply IH; [|exact H4|done|exact Hws]. intros w Hw' Hx. apply HB; [done|by right].
Qed.
(** [kmalloc] of a size for which a block is cut: nothing outside the free
    blocks changes, and from a clean list comes a clean piece, but for the
    word its header was chained with. *)
Lemma kmalloc_carves vap fuel size l p l' m :
  I m → heap_list m l → 0 < size < W32 - 7 → (length l <= fuel)%nat →
  fl_alloc (kmalloc_round size) l = Split p l' →
  ∃ m', kmalloc_with vap fuel size m = Done p m' ∧ I m' ∧ heap_list m' l' ∧
    only_memory m m' ∧
    (∀ a, owns a → ¬ Exists (in_block a) l → byte_at m' a = byte_at m a) ∧
    (clean l m → clean l' m' ∧
       ∀ a, p + 4 <= a < p + kmalloc_round size → byte_at m' a = 0).
Proof.
  intros HI HL Hsz Hfu Ha. pose proof HL as (_ & Ho & Hw).
  assert (8 <= kmalloc_round size) as Hn by (rewrite kmalloc_round_div by lia; mlia).
  destruct (kmalloc_split_ok vap fuel size l p l' m HI HL Hsz Hfu Ha)
    as (m1 & E1 & K1 & HL1 & _ & OM & x & Hx & W & Ep & HK).
  exists m1. split_and!; try done.
  - intros a Hoa Hna. apply (proj2 W); [done|].
    destruct (decide (fst x <= a < fst x + snd x)); [|lia].
    destruct Hna. apply Exists_exists. by exists x.
  - intros Hc.
    assert (∀ a, unused a l' ∨ p + 4 <= a < p + kmalloc_round size → byte_at m1 a = 0) as H.
    { intros a Hu. destruct (cut_unused l l' _ p x a Ho Hn Ha Hx Ep Hu) as (H1 & H2 & H3).
      rewrite HK; [by apply Hc|by apply (unused_owned _ _ Hw)|done|done]. }
    split; [intros a Hu; apply H; by left|intros a Hu; apply H; by right].
Qed.

(** A block that fits as it is stays on the list. *)
Lemma fl_alloc_Whole n l b : fl_alloc n l = Whole b → ∃ sz, (b, sz) ∈ l.
Proof using.
  induction l as [|[b0 sz] l IH]; cbn [fl_alloc]; [done|].
  destruct (n <=? sz - 8).
  - destruct (32 <=? sz - 8 - n); [done|]. intros [= ->]. exists sz. by left.
  - destruct (fl_alloc n l); try done. intros [= ->].
    destruct (IH eq_refl) as [sz' Hs]. exists sz'. by right.
Qed.

Lemma kmalloc_whole_ok vap fuel size l b m :
  I m → heap_list m l → 0 < size < W32 - 7 → (length l <= fuel)%nat →
  fl_alloc (kmalloc_round size) l = Whole b → word_at m (b + 8) ≠ 0 →
  kmalloc_with vap fuel size m = Done (word_at m (b + 8)) m.
Proof.
  intros HI (Hf & Ho & Hw) Hsz Hfu Ha Hp.
  assert (8 <= kmalloc_round size) as Hn by (rewrite kmalloc_round_div by lia; mlia).
  pose proof (kmalloc_search_ok fuel 0 _ l _ m HI Hw Ho ltac:(lia) Hf Hn Hfu) as H.
  rewrite Ha in H. unfold kmalloc_with, gets_heap.
  destruct (Z.eqb_spec size 0); [lia|]. steps. run H.
  by destruct (Z.eqb_spec (word_at m (b + 8)) 0).
Qed.

End Heap.

(** ** Properties *)

(** [kmalloc_init] makes one block of its page. *)
Lemma kmalloc_init_ok `{L : Layout} {I owns} `{HR : !Region I owns} m :
  I m → owns_range owns kmalloc_init_block 4096 → 0 < kmalloc_init_block →
  kmalloc_init_block + 4096 < W32 →
  ∃ m', kmalloc_init m = Done tt m' ∧ I m' ∧
    heap_list (owns := owns) m' [(kmalloc_init_block, 4096)] ∧
    m' = set_heap (HeapState kmalloc_init_block kmalloc_init_block) (set_mem (mem m') m) ∧
    ∀ a, owns a → ¬ (kmalloc_init_block <= a < kmalloc_init_block + 12) →
      byte_at m' a = byte_at m a.
Proof.
  intros HI Ho H0 Hw. unfold kmalloc_init, set_block_size, set_next_block, set_free_memory.
  msteps. set (h := set_block_list_head _ _).
  assert (I (set_heap h m)) as HI' by (by apply (region_same m)).
  store m1 K1 V1 W1. store m2 K2 V2 W2. store m3 K3 V3 W3.
  eexists. split; [done|].
  assert (word_at m3 kmalloc_init_block = 4096) as E1 by (words; reflexivity).
  assert (word_at m3 (kmalloc_init_block + 4) = 0) as E2 by (words; reflexivity).
  assert (m3 = set_heap (heap m3) (set_mem (mem m3) m)) as Em
    by (rewrite (proj1 W3), (proj1 W2), (proj1 W1); done).
  split_and!; [by apply (region_same m3)| | |].
  - split_and!; [|by repeat split|by repeat constructor].
    cbn [free_seg heap set_heap block_list_head set_block_list_tail].
    assert (∀ v, word_at (set_heap (set_block_list_tail kmalloc_init_block (heap m3)) m3) v
      = word_at m3 v) as Hs by (intros; by apply word_at_same).
    rewrite !Hs, E1, E2. split_and!; try done; [|lia].
    by rewrite (proj1 W3), (proj1 W2), (proj1 W1).
  - rewrite (proj1 W3), (proj1 W2), (proj1 W1). done.
  - intros a Ha Hn. rewrite (byte_at_same m3) by done.
    rewrite (proj2 W3), (proj2 W2), (proj2 W1) by (done || lia). by apply byte_at_same.
Qed.

(** The heap after [kmalloc_init], with paging off. *)
Definition sample_heap : machine :=
  match kmalloc_init (L := sample_layout) power_on with Done _ m | Stop _ m => m end.

Lemma sample_heap_list : heap_list (owns := word) sample_heap [(3222323200, 4096)].
Proof.
  split_and!.
  - repeat split; by vm_compute.
  - by repeat split.
  - constructor; [|constructor]. intros i Hi. simpl in *. unfold word, W32. lia.
Qed.

(** C11: [kmalloc] implements first fit with splitting.  When the first block
    that is large enough leaves at least 32 bytes over, the call returns the
    top of that block, its header says the rounded size plus 8, the heap
    represents the abstract list after [fl_alloc], only bytes of that block
    change, and the list keeps its order, its gaps and its ownership. *)
Theorem kmalloc_splits I owns `{!Region I owns} vap fuel size l p l' m :
  I m → heap_list (owns := owns) m l → 0 < size < W32 - 7 → (length l <= fuel)%nat →
  fl_alloc (kmalloc_round size) l = Split p l' →
  ∃ m', kmalloc_with vap fuel size m = Done p m' ∧ I m' ∧ heap_list (owns := owns) m' l' ∧
    word_at m' (p - 8) = 8 * ((size + 7) / 8) + 8 ∧
    Forall (apart (p - 8) (kmalloc_round size + 8)) l' ∧
    ∃ x, x ∈ l ∧ writes_only owns m m' (fst x) (snd x).
Proof.
  intros HI HL Hsz Hfu Ha. pose proof HL as (_ & Ho & _).
  destruct (kmalloc_split_ok vap fuel size l p l' m HI HL Hsz Hfu Ha)
    as (m' & E & K & HL' & Hp & _ & x & Hx & W & _).
  exists m'. rewrite kmalloc_round_div in * by lia.
  assert (0 <= 8 * ((size + 7) / 8)) as Hn by mlia.
  destruct (fl_alloc_Split _ l p l' 0 Hn Ho Ha) as (l1 & b & sz & l2 & El & -> & -> & Hs & _).
  split_and!; try done; [|by exists x].
  apply cut_block_apart; [by rewrite <- El|done|done].
Qed.

Lemma kmalloc_splits_witness :
  ∃ m', kmalloc_with (mret 0) 1 100 sample_heap = Done 3222327192 m' ∧ unpaged m' ∧
    heap_list (owns := word) m' [(3222323200, 3984)] ∧
    word_at m' (3222327192 - 8) = 8 * ((100 + 7) / 8) + 8 ∧
    Forall (apart (3222327192 - 8) (kmalloc_round 100 + 8)) [(3222323200, 3984)] ∧
    ∃ x, x ∈ [(3222323200, 4096)] ∧ writes_only word sample_heap m' (fst x) (snd x).
Proof.
  apply (kmalloc_splits unpaged word (mret 0) 1 100 [(3222323200, 4096)] 3222327192
    [(3222323200, 3984)] sample_heap).
  - by vm_compute.
  - exact sample_heap_list.
  - done.
  - done.
  - by vm_compute.
Defined.

(** C10: [kfree] implements [fl_free].  Freeing a block with an intact header
    that overlaps no free block returns, and the heap then represents the old
    list with the block inserted in address order and merged with whichever
    neighbours it touches; that list is again ordered with gaps, and its size
    has grown by the block's. *)
Theorem kfree_refines I owns `{!Region I owns} fuel nb s l m :
  I m → heap_list (owns := owns) m l → owns_range owns nb s → word_at m nb = s →
  16 <= s → 0 < nb → nb + s < W32 → Forall (apart nb s) l → (length l < fuel)%nat →
  ∃ m', kfree fuel (nb + 8) m = Done tt m' ∧ I m' ∧
    heap_list (owns := owns) m' (fl_free nb s l) ∧
    fl_bytes (fl_free nb s l) = fl_bytes l + s.
Proof.
  intros HI HL Ho Hs H16 H0 Hw Hap Hfu.
  destruct (kfree_ok fuel nb s l m HI HL Ho Hs H16 H0 Hw Hap Hfu) as (m' & E & K & HL' & _).
  exists m'. split_and!; try done. rewrite fl_free_bytes. lia.
Qed.

(** The sample heap with 100 bytes allocated. *)
Definition used_heap : machine :=
  match kmalloc_with (mret 0) 1 100 sample_heap with Done _ m | Stop _ m => m end.

Lemma used_heap_list : heap_list (owns := word) used_heap [(3222323200, 3984)].
Proof.
  split_and!.
  - repeat split; by vm_compute.
  - by repeat split.
  - constructor; [|constructor]. intros i Hi. simpl in *. unfold word, W32. lia.
Qed.

Lemma kfree_refines_witness :
  ∃ m', kfree 2 3222327192 used_heap = Done tt m' ∧ unpaged m' ∧
    heap_list (owns := word) m' [(3222323200, 4096)] ∧
    fl_bytes [(3222323200, 4096)] = fl_bytes [(3222323200, 3984)] + 112.
Proof.
  apply (kfree_refines unpaged word 2 3222327184 112 [(3222323200, 3984)] used_heap).
  - by vm_compute.
  - exact used_heap_list.
  - intros i Hi. unfold word, W32. lia.
  - by vm_compute.
  - done.
  - done.
  - done.
  - constructor; [|constructor]. by left.
  - simpl. lia.
Defined.

(** Freeing what [kmalloc] just cut off restores the heap to the list it
    represented before. *)
Theorem kmalloc_kfree_roundtrip I owns `{!Region I owns} vap fuel size l p l' m :
  I m → heap_list (owns := owns) m l → 0 < size < W32 - 7 → (length l < fuel)%nat →
  fl_alloc (kmalloc_round size) l = Split p l' →
  ∃ m', (p ← kmalloc_with vap fuel size; kfree fuel p) m = Done tt m' ∧ I m' ∧
    heap_list (owns := owns) m' l.
Proof.
  intros HI HL Hsz Hfu Ha. pose proof HL as (_ & Ho & Hown).
  destruct (kmalloc_split_ok vap fuel size l p l' m HI HL Hsz ltac:(lia) Ha)
    as (m1 & E & K & HL' & Hp & _). run E.
  assert (8 <= kmalloc_round size) as Hn by (rewrite kmalloc_round_div by lia; mlia).
  revert Ha Hp Hn. generalize (kmalloc_round size). intros n Ha Hp Hn.
  assert (0 <= n) as Hn0 by lia.
  destruct (fl_alloc_Split n l p l' 0 Hn0 Ho Ha) as (l1 & b & sz & l2 & El & El' & -> & Hs & _).
  subst l l'. destruct (fl_ordered_pos _ _ _ _ Ho) as [Hb Hbw].
  apply fl_owned_app in Hown as [_ [Hbo _]%Forall_cons]. cbn [fst snd] in Hbo.
  replace (b + sz - n) with (b + sz - n - 8 + 8) by lia.
  destruct (kfree_ok fuel (b + sz - n - 8) (n + 8) _ m1 K HL') as (m2 & E2 & K2 & HL2 & _).
  - owned.
  - by replace (b + sz - n - 8) with (b + sz - n - 8) in Hp by lia.
  - lia.
  - lia.
  - lia.
  - by apply cut_block_apart.
  - rewrite length_app in *. simpl in *. lia.
  - exists m2. split_and!; [done|done|]. by rewrite (fl_free_cut _ _ _ _ _ 0) in HL2.
Qed.

Lemma kmalloc_kfree_roundtrip_witness :
  ∃ m', (p ← kmalloc_with (mret 0) 2 100; kfree 2 p) sample_heap = Done tt m' ∧
    unpaged m' ∧ heap_list (owns := word) m' [(3222323200, 4096)].
Proof.
  apply (kmalloc_kfree_roundtrip unpaged word (mret 0) 2 100 [(3222323200, 4096)] 3222327192
    [(3222323200, 3984)] sample_heap).
  - by vm_compute.
  - exact sample_heap_list.
  - done.
  - simpl. lia.
  - by vm_compute.
Defined.

(** C38: a block that fits without being split is handed out but not removed
    from the free list: the call changes nothing, and the next call of the
    same size hands out the same memory again. *)
Theorem kmalloc_whole_block_twice I owns `{!Region I owns} vap fuel size l b m :
  I m → heap_list (owns := owns) m l → 0 < size < W32 - 7 → (length l <= fuel)%nat →
  fl_alloc (kmalloc_round size) l = Whole b → word_at m (b + 8) ≠ 0 →
  (p ← kmalloc_with vap fuel size; q ← kmalloc_with vap fuel size; mret (p, q)) m
    = Done (word_at m (b + 8), word_at m (b + 8)) m.
Proof.
  intros HI HL Hsz Hfu Ha Hp.
  pose proof (kmalloc_whole_ok vap fuel size l b m HI HL Hsz Hfu Ha Hp) as E. run E. by run E.
Qed.

Lemma kmalloc_whole_block_twice_witness :
  (p ← kmalloc_with (mret 0) 1 4080; q ← kmalloc_with (mret 0) 1 4080; mret (p, q)) sample_heap
    = Done (3222323208, 3222323208) sample_heap.
Proof.
  apply (kmalloc_whole_block_twice unpaged word (mret 0) 1 4080 [(3222323200, 4096)]
    3222323200 sample_heap).
  - by vm_compute.
  - exact sample_heap_list.
  - done.
  - done.
  - by vm_compute.
  - by vm_compute.
Defined.

(** When no block is large enough, [kmalloc] grows the heap but returns
    NULL: the page obtained from [vmm_alloc_page] is formatted as a block of
    4096 bytes and linked behind the tail, and the tail pointer is not moved. *)
Theorem kmalloc_grows I owns `{!Region I owns} vap fuel size l tb ts pg m m1 :
  I m → heap_list (owns := owns) m (l ++ [(tb, ts)]) → block_list_tail (heap m) = tb →
  0 < size < W32 - 7 → (length l < fuel)%nat →
  fl_alloc (kmalloc_round size) (l ++ [(tb, ts)]) = NoFit →
  vap m = Done pg m1 → I m1 → heap m1 = heap m →
  heap_list (owns := owns) m1 (l ++ [(tb, ts)]) →
  owns_range owns pg 4096 → pg ≠ 0 → Forall (apart pg 4096) (l ++ [(tb, ts)]) →
  ∃ m', kmalloc_with vap fuel size m = Done 0 m' ∧ I m' ∧ heap m' = heap m ∧
    free_seg m' (block_list_head (heap m)) (l ++ [(tb, ts); (pg, 4096)]) 0.
Proof.
  intros HI HL Ht Hsz Hfu Ha Hv K1 Hh (Hf1 & Ho1 & Hw1) Hpg Hn0 Hap.
  assert (length (l ++ [(tb, ts)]) <= fuel)%nat as Hfu' by (rewrite length_app; simpl; lia).
  pose proof (kmalloc_nofit_ok fuel size _ m HI HL Hsz Hfu' Ha) as E.
  unfold kmalloc_with, gets_heap. destruct (Z.eqb_spec size 0); [lia|].
  steps. run E. cbn [Z.eqb when]. steps. run Hv. rewrite <- Hh in Ht |- *.
  destruct (grow_ok m1 l tb ts pg _ K1 Hf1 Ho1 Hw1 Ht Hpg Hn0 Hap) as (m2 & E2 & K2 & H2 & F2).
  run E2. by exists m2.
Qed.

Lemma kmalloc_grows_witness :
  ∃ m', kmalloc_with (mret 3222327296) 2 5000 sample_heap = Done 0 m' ∧ unpaged m' ∧
    heap m' = heap sample_heap ∧
    free_seg m' (block_list_head (heap sample_heap))
      [(3222323200, 4096); (3222327296, 4096)] 0.
Proof.
  apply (kmalloc_grows unpaged word (mret 3222327296) 2 5000 [] 3222323200 4096 3222327296
    sample_heap sample_heap).
  - by vm_compute.
  - exact sample_heap_list.
  - by vm_compute.
  - done.
  - simpl. lia.
  - by vm_compute.
  - done.
  - by vm_compute.
  - done.
  - exact sample_heap_list.
  - intros i Hi. unfold word, W32. lia.
  - done.
  - constructor; [|constructor]. by left.
Defined.
