(* ===== verification/HeapOps.v ===== *)
(** * The heap under any sequence of calls: kernel/memory/kmalloc.c

    What [kmalloc] and [kfree] promise a client together.  A client allocates,
    frees, and reads and writes the memory it holds, in any order; the
    specification is a map from the pointers handed out to their sizes, with
    the bytes last stored.  A call of [kmalloc] is specified when it cuts a
    block; a call that does not is where the specification ends. *)

From S2P Require Import Prelude Machine Memory Kmalloc.

(** ** What a client does *)

Inductive heap_op : Type :=
| Alloc (size : Z)          (* p = kmalloc(size) *)
| Free (p : Z)              (* kfree(p) *)
| Store (p i v : Z)         (* p[i] = v *)
| Load (p i : Z).           (* p[i] *)

Definition heap_do (vap : M Z) (fuel : nat) (o : heap_op) : M Z :=
  match o with
  | Alloc size => kmalloc_with vap fuel size
  | Free p => kfree fuel p;; mret 0
  | Store p i v => st8 (p [+] i) v;; mret 0
  | Load p i => ld8 (p [+] i)
  end.

(** The values the operations give. *)
Fixpoint heap_run (vap : M Z) (fuel : nat) (os : list heap_op) : M (list Z) :=
  match os with
  | [] => mret []
  | o :: os' =>
      r ← heap_do vap fuel o;
      rs ← heap_run vap fuel os';
      mret (r :: rs)
  end.

(** ** The specification *)

Record store : Type := Heap {
  free : list block;       (* the free blocks *)
  live : gmap Z Z;         (* pointers handed out, with their sizes *)
  bytes : gmap Z Z         (* what was stored through them *)
}.

(** The bytes behind a pointer, without its header. *)
Definition body (p n a : Z) : Prop := p <= a < p + n.

#[export] Instance body_dec p n a : Decision (body p n a).
Proof. unfold body. apply _. Defined.

Definition store_do (o : heap_op) (h : store) : option (Z * store) :=
  match o with
  | Alloc size =>
      if decide (0 < size < W32 - 7) then
        match fl_alloc (kmalloc_round size) (free h) with
        | Split p l' => Some (p, Heap l' (<[p := kmalloc_round size]> (live h)) (bytes h))
        | _ => None
        end
      else None
  | Free p =>
      n ← live h !! p;
      Some (0, Heap (fl_free (p - 8) (n + 8) (free h)) (delete p (live h))
                 (filter (λ kv, ¬ body p n (fst kv)) (bytes h)))
  | Store p i v =>
      n ← live h !! p;
      if decide (0 <= i < n)
      then Some (0, Heap (free h) (live h) (<[p + i := u8 v]> (bytes h)))
      else None
  | Load p i =>
      n ← live h !! p;
      if decide (0 <= i < n) then v ← bytes h !! (p + i); Some (v, h) else None
  end.

Fixpoint store_run (os : list heap_op) (h : store) : option (list Z * store) :=
  match os with
  | [] => Some ([], h)
  | o :: os' =>
      '(r, h') ← store_do o h;
      '(rs, h'') ← store_run os' h';
      Some (r :: rs, h'')
  end.

(** ** Lemmas about the free list *)

Definition covers (l : list block) (a : Z) : Prop := Exists (in_block a) l.

Lemma covers_cons b s l a : covers ((b, s) :: l) a ↔ b <= a < b + s ∨ covers l a.
Proof. unfold covers. by rewrite Exists_cons. Qed.

Lemma covers_app l1 l2 a : covers (l1 ++ l2) a ↔ covers l1 a ∨ covers l2 a.
Proof. apply Exists_app. Qed.

Lemma fl_ordered_sizes lo l : fl_ordered lo l → Forall (λ x, 16 <= snd x) l.
Proof.
  intros H%fl_ordered_sorted%fl_sorted_Forall. eapply Forall_impl; [done|]. by intros x [_ ?].
Qed.

Lemma covers_above lo l a : fl_ordered lo l → covers l a → lo < a.
Proof.
  intros H%fl_ordered_Forall (x & Hx & Hin)%Exists_exists. rewrite Forall_forall in H.
  specialize (H x Hx). unfold in_block in Hin. lia.
Qed.

(** Being apart from a list is covering none of its bytes. *)
Lemma apart_covers v n l :
  0 < n → Forall (λ x, 16 <= snd x) l →
  Forall (apart v n) l ↔ ∀ a, v <= a < v + n → ¬ covers l a.
Proof.
  intros Hn Hl. induction Hl as [|[b s] l Hs Hl IH]; cbn [snd] in *.
  - split; [|by constructor]. by intros _ a _ H%Exists_nil.
  - setoid_rewrite covers_cons. rewrite Forall_cons, IH. unfold apart. cbn [fst snd]. split.
    + intros [H1 H2] a Ha [H|H]; [lia|by apply (H2 a)].
    + intros H. split; [|intros a Ha Hc; apply (H a Ha); by right].
      destruct (decide (v + n <= b)); [lia|]. destruct (decide (b + s <= v)); [lia|].
      destruct (H (Z.max v b) ltac:(lia)). left. lia.
Qed.

Lemma fl_alloc_covers n l p l' a :
  8 <= n → fl_ordered 0 l → fl_alloc n l = Split p l' →
  (covers l a ↔ covers l' a ∨ p - 8 <= a < p + n) ∧ ¬ (covers l' a ∧ p - 8 <= a < p + n).
Proof.
  intros Hn Ho Ha. destruct (fl_alloc_Split n l p l' 0 ltac:(lia) Ho Ha)
    as (l1 & b & s & l2 & El & El' & Ep & H & _ & Ho'). rewrite El in Ho.
  pose proof (cut_block_apart l1 b s l2 n Ho ltac:(lia) H) as HA. rewrite <- El' in HA.
  rewrite (apart_covers _ _ l') in HA by (lia || by apply (fl_ordered_sizes 0)).
  split.
  - rewrite El, El', !covers_app, !covers_cons. intuition lia.
  - intros [H1 H2]. apply (HA a); [lia|done].
Qed.

Lemma fl_cons_covers b s l a :
  0 <= s → Forall (λ x, 16 <= snd x) l → covers (fl_cons b s l) a ↔ b <= a < b + s ∨ covers l a.
Proof.
  intros Hs Hl. destruct l as [|[b1 s1] l]; cbn [fl_cons]; [by rewrite covers_cons|].
  apply Forall_cons in Hl as [H1 _]. cbn in H1.
  destruct (Z.eqb_spec (b + s) b1) as [<-|]; rewrite !covers_cons; [|done]. intuition lia.
Qed.

Lemma fl_free_covers b s l a :
  16 <= s → Forall (λ x, 16 <= snd x) l →
  Forall (λ x, 16 <= snd x) (fl_free b s l) ∧
  (covers (fl_free b s l) a ↔ b <= a < b + s ∨ covers l a).
Proof.
  intros Hs.
  assert (∀ b s l, 16 <= s → Forall (λ x, 16 <= snd x) l →
    Forall (λ x, 16 <= snd x) (fl_cons b s l)) as Hc.
  { clear. intros b s [|[b1 s1] l] Hs Hl; [by constructor|]. cbn [fl_cons].
    apply Forall_cons in Hl as [H1 Hl]. cbn in H1.
    destruct (b + s =? b1); repeat constructor; cbn; (done || lia). }
  induction l as [|[b1 s1] l IH]; intros Hl; cbn [fl_free].
  - split; [by constructor|by rewrite covers_cons].
  - pose proof Hl as [H1 Hl']%Forall_cons. cbn in H1. destruct (IH Hl') as [IH1 IH2].
    destruct (Z.ltb_spec b b1).
    + split; [by apply Hc|]. rewrite fl_cons_covers by (done || lia). done.
    + split; [by apply Hc|]. rewrite fl_cons_covers, IH2, covers_cons by (done || lia). tauto.
Qed.

Lemma fl_free_length b s l : (length (fl_free b s l) <= S (length l))%nat.
Proof.
  assert (∀ b s l, (length (fl_cons b s l) <= S (length l))%nat) as Hc.
  { clear. intros b s [|[b1 s1] l]; cbn; [lia|]. destruct (b + s =? b1); cbn; lia. }
  induction l as [|[b1 s1] l IH]; cbn [fl_free]; [done|].
  destruct (b <? b1); etransitivity; try apply Hc; cbn; lia.
Qed.

Lemma covers_head lo b s l a :
  fl_ordered lo ((b, s) :: l) →
  covers ((b, s) :: l) b ∧ ¬ covers ((b, s) :: l) (b + s) ∧
  (covers ((b, s) :: l) a → b <= a) ∧
  (covers l a ↔ covers ((b, s) :: l) a ∧ b + s < a).
Proof.
  intros (H1 & H2 & H3 & H4). rewrite !covers_cons.
  assert (∀ a, covers l a → b + s < a) as Hl by (intros ?; by apply covers_above).
  split_and!.
  - left. lia.
  - intros [H|H%Hl]; lia.
  - intros [H|H%Hl]; lia.
  - split; [|intros [[H|H] ?]; [lia|done]]. intros H. auto.
Qed.

(** An ordered list with gaps is determined by the bytes it covers. *)
Lemma fl_ordered_unique lo l l' :
  fl_ordered lo l → fl_ordered lo l' → (∀ a, covers l a ↔ covers l' a) → l = l'.
Proof.
  revert lo l'. induction l as [|[b s] l IH]; intros lo [|[b' s'] l'] H H' Hc; [done|..].
  - destruct (covers_head _ b' s' l' 0 H') as (Hb & _). by apply Hc, Exists_nil in Hb.
  - destruct (covers_head _ b s l 0 H) as (Hb & _). by apply Hc, Exists_nil in Hb.
  - pose proof (covers_head _ _ _ _ b' H) as (B1 & B2 & B3 & _).
    pose proof (covers_head _ _ _ _ b H') as (B1' & B2' & B3' & _).
    assert (b = b') as <- by (apply Z.le_antisymm; [apply B3|apply B3']; by apply Hc).
    rewrite <- Hc, covers_cons in B2'. rewrite Hc, covers_cons in B2.
    destruct H as (H1 & H2 & H3 & H4) eqn:EH, H' as (H1' & H2' & H3' & H4') eqn:EH'.
    assert (s = s') as <- by lia. f_equal. apply (IH (b + s)); [done..|]. intros a.
    destruct (covers_head lo b s l a) as (_ & _ & _ & ->); [done|].
    destruct (covers_head lo b s l' a) as (_ & _ & _ & ->); [done|]. by rewrite Hc.
Qed.

(** ** The heap refines the specification *)

Section Client.
Context {I : machine → Prop} {owns : Z → Prop} `{!Region I owns}.
Context (vap : M Z) (fuel : nat).

(** A pointer handed out: its block has an intact header and overlaps no free
    block. *)
Record live_ok (m : machine) (l : list block) (p n : Z) : Prop := {
  lo_size : 8 <= n;
  lo_low : 8 < p;
  lo_high : p + n < W32;
  lo_owned : owns_range owns (p - 8) (n + 8);
  lo_header : word_at m (p - 8) = n + 8;
  lo_apart a : p - 8 <= a < p + n → ¬ covers l a
}.

Record heap_ok (m : machine) (h : store) : Prop := {
  ho_region : I m;
  ho_list : heap_list (owns := owns) m (free h);
  ho_live p n : live h !! p = Some n → live_ok m (free h) p n;
  ho_disjoint p n q k a : live h !! p = Some n → live h !! q = Some k →
    p - 8 <= a < p + n → q - 8 <= a < q + k → p = q;
  ho_bytes a v : bytes h !! a = Some v →
    byte_at m a = v ∧ ∃ p n, live h !! p = Some n ∧ body p n a
}.

(** The bytes of the heap: free or handed out. *)
Definition pool (h : store) (a : Z) : Prop :=
  covers (free h) a ∨ ∃ p n, live h !! p = Some n ∧ p - 8 <= a < p + n.

(** At most the heap and its list ends change. *)
Definition only_heap (P : Z → Prop) (m m' : machine) : Prop :=
  m' = set_heap (heap m') (set_mem (mem m') m) ∧
  ∀ a, owns a → ¬ P a → byte_at m' a = byte_at m a.

Lemma only_heap_trans P m1 m2 m3 :
  only_heap P m1 m2 → only_heap P m2 m3 → only_heap P m1 m3.
Proof using.
  intros [E1 K1] [E2 K2]. split; [rewrite E2 at 1; by rewrite E1|].
  intros a Ha Hn. by rewrite K2, K1.
Qed.

Lemma only_heap_writes P m m' v n :
  writes_only owns m m' v n → (∀ a, v <= a < v + n → P a) → only_heap P m m'.
Proof using.
  intros W HP. destruct (heap_step_writes m m' v n W) as [E K]. split; [done|].
  intros a Ha Hn. apply K; [done|]. destruct (decide (v <= a < v + n)); [|lia].
  by destruct Hn; apply HP.
Qed.

Lemma live_ok_covers m m' l l' p n :
  live_ok m l p n → (∀ a, p - 8 <= a < p + n → owns a → byte_at m' a = byte_at m a) →
  (∀ a, p - 8 <= a < p + n → ¬ covers l' a) → live_ok m' l' p n.
Proof using.
  intros [H1 H2 H3 H4 H5 H6] HB Hc. split; try done. rewrite <- H5.
  apply (word_at_kept owns); [eapply owns_range_sub; [done|lia..]|].
  intros a Ha Hoa. apply HB; [lia|done].
Qed.

(** What [kmalloc] cuts off is a block of its own. *)
Lemma piece_ok n l p l' :
  8 <= n → fl_ordered 0 l → fl_owned (owns := owns) l → fl_alloc n l = Split p l' →
  8 < p ∧ p + n < W32 ∧ owns_range owns (p - 8) (n + 8).
Proof using.
  intros Hn Ho Hw Ha. destruct (fl_alloc_Split n l p l' 0 ltac:(lia) Ho Ha)
    as (l1 & b & sz & l2 & -> & _ & -> & Hs & _ & _).
  destruct (fl_ordered_pos _ _ _ _ Ho) as [Hb Hbw].
  apply fl_owned_app in Hw as [_ [Hbo _]%Forall_cons]. cbn [fst snd] in Hbo.
  split_and!; [lia|lia|owned].
Qed.

(** A step that leaves the bodies alone keeps what the specification says. *)
Lemma heap_ok_keep m m' h l' :
  heap_ok m h → I m' → heap_list (owns := owns) m' l' →
  (∀ p n a, live h !! p = Some n → p - 8 <= a < p + n → ¬ covers l' a) →
  (∀ p n a, live h !! p = Some n → p - 8 <= a < p + n → owns a →
    byte_at m' a = byte_at m a) →
  heap_ok m' (Heap l' (live h) (bytes h)).
Proof using.
  intros [H1 H2 H3 H4 H5] HI HL Hc HB. split; cbn [free live bytes]; try done.
  - intros p n Hp. eapply live_ok_covers; [by apply H3|..]; eauto.
  - intros a v Ha. destruct (H5 a v Ha) as (Hv & p & n & Hp & Hb). split; [|by eauto].
    destruct (H3 p n Hp) as [? ? ? Hw ? ?]. unfold body in Hb.
    rewrite (HB p n a Hp); [done|lia|]. apply (owns_range_at _ _ _ _ Hw). lia.
Qed.

Lemma alloc_ok size l' p m h :
  heap_ok m h → 0 < size < W32 - 7 → (length (free h) <= fuel)%nat →
  fl_alloc (kmalloc_round size) (free h) = Split p l' →
  ∃ m', kmalloc_with vap fuel size m = Done p m' ∧
    heap_ok m' (Heap l' (<[p := kmalloc_round size]> (live h)) (bytes h)) ∧
    live h !! p = None ∧ only_heap (pool h) m m'.
Proof.
  intros Hh Hs Hfu Ha. pose proof Hh as [H1 H2 H3 H4 H5].
  destruct (kmalloc_split_ok vap fuel size (free h) p l' m H1 H2 Hs Hfu Ha)
    as (m' & E & K & HL & Hhd & _ & x & Hx & W & _).
  assert (8 <= kmalloc_round size) as Hn by (rewrite kmalloc_round_div by lia; mlia).
  pose proof H2 as (_ & Ho & Hw). exists m'. revert Ha Hhd Hn.
  generalize (kmalloc_round size). intros n Ha Hhd Hn.
  destruct (piece_ok n (free h) p l' Hn Ho Hw Ha) as (P1 & P2 & P3).
  assert (∀ a, covers (free h) a ↔ covers l' a ∨ p - 8 <= a < p + n) as Hc
    by (intros a; by apply fl_alloc_covers).
  assert (∀ q k a, live h !! q = Some k → q - 8 <= a < q + k → ¬ covers (free h) a) as Hl.
  { intros q k a Hq Ha'. destruct (H3 q k Hq). auto. }
  assert (live h !! p = None) as Hp.
  { destruct (live h !! p) as [k|] eqn:Hp; [|done]. destruct (H3 p k Hp).
    destruct (Hl p k (p - 8) Hp); [lia|]. apply Hc. right. lia. }
  assert (∀ a, fst x <= a < fst x + snd x → covers (free h) a) as Hcx.
  { intros a Ha'. apply Exists_exists. by exists x. }
  assert (heap_ok m' (Heap l' (live h) (bytes h))) as [K1 K2 K3 K4 K5].
  { apply (heap_ok_keep m); [done..| |].
    - intros q k a Hq Ha' Hca. apply (Hl q k a Hq Ha'), Hc. by left.
    - intros q k a Hq Ha' Hoa. apply (proj2 W); [done|].
      destruct (decide (fst x <= a < fst x + snd x)) as [Hin|]; [|lia].
      by destruct (Hl q k a Hq Ha'); apply Hcx. }
  cbn [free live bytes] in *. split_and!; [done| |done|].
  - split; cbn [free live bytes]; [done..| | |].
    + intros q k [[<- <-]|[Hne Hq]]%lookup_insert_Some; [|by apply K3]. split; try done; try lia.
      intros a Ha' Hca. by apply (proj2 (fl_alloc_covers n (free h) p l' a Hn Ho Ha)).
    + intros q k q' k' a [[<- <-]|[_ Hq]]%lookup_insert_Some
        [[<- <-]|[_ Hq']]%lookup_insert_Some Ha1 Ha2; [done|..].
      * destruct (Hl q' k' a Hq' Ha2). apply Hc. by right.
      * destruct (Hl q k a Hq Ha1). apply Hc. by right.
      * by apply (H4 q k q' k' a).
    + intros a v Hv. destruct (K5 a v Hv) as (E1 & q & k & Hq & Hb). split; [done|].
      exists q, k. split; [|done]. rewrite lookup_insert_ne; [done|]. intros ->. congruence.
  - apply (only_heap_writes _ _ _ _ _ W). intros a Ha'. left. by apply Hcx.
Qed.

Lemma free_ok p n m h :
  heap_ok m h → live h !! p = Some n → (length (free h) < fuel)%nat →
  ∃ m', kfree fuel p m = Done tt m' ∧
    heap_ok m' (Heap (fl_free (p - 8) (n + 8) (free h)) (delete p (live h))
      (filter (λ kv, ¬ body p n (fst kv)) (bytes h))) ∧ only_heap (pool h) m m'.
Proof.
  intros Hh Hp Hfu. pose proof Hh as [H1 H2 H3 H4 H5]. destruct (H3 p n Hp) as [L1 L2 L3 L4 L5 L6].
  pose proof H2 as (_ & Ho & _). pose proof (fl_ordered_sizes _ _ Ho) as Hz.
  assert (Forall (apart (p - 8) (n + 8)) (free h)) as Hap.
  { apply apart_covers; [lia|done|]. intros a Ha. apply L6. lia. }
  destruct (kfree_ok fuel (p - 8) (n + 8) (free h) m H1 H2 L4 L5) as (m' & E & K & HL & HW);
    try done; try lia.
  replace (p - 8 + 8) with p in E by lia. exists m'.
  assert (∀ a, covers (fl_free (p - 8) (n + 8) (free h)) a
    ↔ p - 8 <= a < p - 8 + (n + 8) ∨ covers (free h) a) as Hc
    by (intros a; apply fl_free_covers; [lia|done]).
  assert (∀ q k a, live h !! q = Some k → q ≠ p → q - 8 <= a < q + k →
    ¬ covers ((p - 8, n + 8) :: free h) a) as Hl.
  { intros q k a Hq Hne Ha. rewrite covers_cons. intros [Hb|Hb].
    - apply Hne. apply (H4 q k p n a); (done || lia).
    - by destruct (H3 q k Hq) as [_ _ _ _ _ H]; apply (H a). }
  split_and!; [done| |split; [exact (proj1 HW)|]].
  - assert (heap_ok m (Heap (free h) (delete p (live h))
      (filter (λ kv, ¬ body p n (fst kv)) (bytes h)))) as Hd.
    { split; cbn [free live bytes]; [done|done|..].
      - intros q k [_ Hq]%lookup_delete_Some. by apply H3.
      - intros q k q' k' a [_ Hq]%lookup_delete_Some [_ Hq']%lookup_delete_Some. by apply H4.
      - intros a v [Ha Hb]%map_lookup_filter_Some. cbn in Hb.
        destruct (H5 a v Ha) as (Hv & q & k & Hq & Hin). split; [done|]. exists q, k.
        split; [|done]. apply lookup_delete_Some. split; [|done]. intros <-.
        assert (k = n) as -> by congruence. done. }
    apply (heap_ok_keep m _ _ _ Hd K HL); cbn [free live bytes].
    + intros q k a [Hne Hq]%lookup_delete_Some Ha Hca. apply (Hl q k a Hq); [done..|].
      apply covers_cons. by apply Hc.
    + intros q k a [Hne Hq]%lookup_delete_Some Ha Hoa. apply (proj2 HW); [done|].
      by apply (Hl q k a Hq).
  - intros a Ha Hn. apply (proj2 HW); [done|]. intros [Hb|Hb]%covers_cons; apply Hn.
    + right. exists p, n. split; [done|lia].
    + by left.
Qed.

Lemma store_ok p n i v m h :
  heap_ok m h → live h !! p = Some n → 0 <= i < n →
  ∃ m', st8 (p [+] i) v m = Done tt m' ∧
    heap_ok m' (Heap (free h) (live h) (<[p + i := u8 v]> (bytes h))) ∧
    only_heap (pool h) m m'.
Proof.
  intros Hh Hp Hi. pose proof Hh as [H1 H2 H3 H4 H5]. destruct (H3 p n Hp) as [L1 L2 L3 L4 L5 L6].
  unfold W32 in L3. rewrite u32_small by (unfold word, W32; lia).
  destruct (st8_ok m (p + i) v H1) as (m' & E & K & V & W); [apply (owns_range_at _ _ _ _ L4); lia|].
  exists m'. assert (∀ a, owns a → a ≠ p + i → byte_at m' a = byte_at m a) as HB.
  { intros a Ha Hne. apply (proj2 W); [done|lia]. }
  assert (∀ q k a, live h !! q = Some k → q - 8 <= a < q → owns a →
    byte_at m' a = byte_at m a) as Hhd.
  { intros q k a Hq Ha Hoa. apply HB; [done|]. intros ->.
    destruct (H3 q k Hq). assert (q = p) as -> by (apply (H4 q k p n (p + i)); (done || lia)).
    lia. }
  split_and!; [done| |].
  - split; cbn [free live bytes]; [done| |..].
    + apply (heap_list_bytes m); [by rewrite (proj1 W)| |done].
      intros a Ha Hca. apply HB; [done|]. intros ->. apply (L6 (p + i)); [lia|done].
    + intros q k Hq. destruct (H3 q k Hq) as [? ? ? Hw Hd ?]. split; try done. rewrite <- Hd.
      apply (word_at_kept owns); [eapply owns_range_sub; [done|lia..]|].
      intros a Ha Hoa. apply (Hhd q k); [done|lia|done].
    + done.
    + intros a w [[<- <-]|[Hne Ha]]%lookup_insert_Some.
      * split; [done|]. exists p, n. unfold body. split; [done|lia].
      * destruct (H5 a w Ha) as (Hv & q & k & Hq & Hb). split; [|by eauto].
        rewrite HB; [done| |done]. destruct (H3 q k Hq) as [? ? ? Hw _ _]. unfold body in Hb.
        apply (owns_range_at _ _ _ _ Hw). lia.
  - apply (only_heap_writes _ _ _ _ _ W). intros a Ha. right. exists p, n. split; [done|lia].
Qed.

Lemma load_ok p n i v m h :
  heap_ok m h → live h !! p = Some n → 0 <= i < n → bytes h !! (p + i) = Some v →
  ld8 (p [+] i) m = Done v m.
Proof.
  intros [H1 H2 H3 H4 H5] Hp Hi Hv. destruct (H3 p n Hp) as [L1 L2 L3 L4 L5 L6].
  unfold W32 in L3. rewrite u32_small by (unfold word, W32; lia).
  rewrite ld8_ok by (done || (apply (owns_range_at _ _ _ _ L4); lia)).
  by destruct (H5 _ _ Hv) as [-> _].
Qed.

(** One operation. *)
Lemma heap_do_ok o r m h h' :
  heap_ok m h → store_do o h = Some (r, h') → (length (free h) < fuel)%nat →
  ∃ m', heap_do vap fuel o m = Done r m' ∧ heap_ok m' h' ∧ only_heap (pool h) m m' ∧
    (length (free h') <= S (length (free h)))%nat ∧ ∀ a, pool h' a ↔ pool h a.
Proof.
  intros Hh. pose proof Hh as [H1 H2 H3 H4 H5]. pose proof H2 as (_ & Ho & _).
  pose proof (fl_ordered_sizes _ _ Ho) as Hz.
  destruct o as [size|p|p i v|p i]; cbn [store_do heap_do].
  - destruct (decide _) as [Hs|]; [|done].
    destruct (fl_alloc (kmalloc_round size) (free h)) as [p l'| |] eqn:Ha; [|done..].
    intros [= <- <-] Hfu.
    destruct (alloc_ok size l' p m h Hh Hs ltac:(lia) Ha) as (m' & E & K & Hp & W).
    exists m'. split_and!; [done..| |]; cbn [free].
    { rewrite (fl_alloc_length _ _ _ _ Ha). lia. }
    assert (8 <= kmalloc_round size) as Hn by (rewrite kmalloc_round_div by lia; mlia).
    intros a. destruct (fl_alloc_covers _ _ _ _ a Hn Ho Ha) as [Hc _].
    unfold pool. cbn [free live]. setoid_rewrite Hc. split.
    + intros [?|(q & k & [[<- <-]|[_ Hq]]%lookup_insert_Some & Hin)]; eauto 6.
    + intros [[?|?]|(q & k & Hq & Hin)]; [by left|right; exists p|right; exists q, k].
      * eexists. by rewrite lookup_insert_eq.
      * rewrite lookup_insert_ne by (by intros ->; congruence). done.
  - destruct (live h !! p) as [n|] eqn:Hp; [|done]. intros [= <- <-] Hfu.
    destruct (free_ok p n m h Hh Hp Hfu) as (m' & E & K & W). exists m'. run E.
    split_and!; [done..| |]; cbn [free]; [apply fl_free_length|].
    intros a. destruct (H3 p n Hp).
    destruct (fl_free_covers (p - 8) (n + 8) (free h) a ltac:(lia) Hz) as [_ Hc].
    unfold pool. cbn [free live]. rewrite Hc. split.
    + intros [[?|?]|(q & k & [_ Hq]%lookup_delete_Some & Hin)]; [|by left|by right; eauto].
      right. exists p, n. split; [done|lia].
    + intros [?|(q & k & Hq & Hin)]; [by left; right|].
      destruct (decide (p = q)) as [<-|Hne]; [left; left|right; exists q, k].
      * assert (k = n) as -> by congruence. lia.
      * by rewrite lookup_delete_ne.
  - destruct (live h !! p) as [n|] eqn:Hp; [|done]. cbn [mbind option_bind].
    destruct (decide _) as [Hi|]; [|done]. intros [= <- <-] Hfu.
    destruct (store_ok p n i v m h Hh Hp Hi) as (m' & E & K & W). exists m'. run E.
    split_and!; [done..|cbn; lia|done].
  - destruct (live h !! p) as [n|] eqn:Hp; [|done]. cbn [mbind option_bind].
    destruct (decide _) as [Hi|]; [|done].
    destruct (bytes h !! (p + i)) as [v|] eqn:Hv; [|done]. intros [= <- <-] Hfu.
    exists m. rewrite (load_ok p n i v m h) by done.
    split_and!; [done..| |lia|done]. split; [by destruct m|done].
Qed.

(** Any number of them. *)
Lemma heap_run_ok os rs m h h' :
  heap_ok m h → store_run os h = Some (rs, h') → (length (free h) + length os < fuel)%nat →
  ∃ m', heap_run vap fuel os m = Done rs m' ∧ heap_ok m' h' ∧ only_heap (pool h) m m' ∧
    (∀ a, pool h' a ↔ pool h a) ∧ (length (free h') <= length (free h) + length os)%nat.
Proof.
  revert rs m h. induction os as [|o os IH]; intros rs m h Hh; cbn [store_run heap_run].
  - intros [= <- <-] _. exists m. split_and!; try done; [|cbn; lia]. split; [by destruct m|done].
  - destruct (store_do o h) as [[r h1]|] eqn:Ho; [|done]. cbn [mbind option_bind].
    destruct (store_run os h1) as [[rs1 h2]|] eqn:Hr; [|done]. cbn [length].
    intros [= <- <-] Hfu.
    destruct (heap_do_ok o r m h h1 Hh Ho ltac:(lia)) as (m1 & E1 & K1 & W1 & L1 & P1).
    destruct (IH rs1 m1 h1 K1 Hr ltac:(lia)) as (m2 & E2 & K2 & W2 & P2 & L2).
    exists m2. run E1. run E2. split_and!; [done..| | |lia].
    + eapply only_heap_trans; [done|]. destruct W2 as [W3 W4]. split; [done|].
      intros a Ha Hn. apply W4; [done|]. by rewrite P1.
    + intros a. by rewrite P2, P1.
Qed.

(** Why the specification has no answer: the client uses memory it does not
    hold, or no block is left to cut.  A block that fits exactly is handed out
    by its [free_memory] pointer and stays on the free list. *)
Definition held (h : store) (p i : Z) : Prop := ∃ n, live h !! p = Some n ∧ 0 <= i < n.

Definition uncut (fuel : nat) (size : Z) (h : store) (m : machine) : Prop :=
  fl_alloc (kmalloc_round size) (free h) = NoFit ∨
  ∃ b sz, fl_alloc (kmalloc_round size) (free h) = Whole b ∧ (b, sz) ∈ free h ∧
    (word_at m (b + 8) ≠ 0 → kmalloc_with vap fuel size m = Done (word_at m (b + 8)) m).

Definition unspecified (o : heap_op) (h : store) (m : machine) : Prop :=
  match o with
  | Alloc size => ¬ (0 < size < W32 - 7) ∨ uncut fuel size h m
  | Free p => live h !! p = None
  | Store p i _ => ¬ held h p i
  | Load p i => ¬ held h p i ∨ bytes h !! (p + i) = None
  end.

Lemma store_do_None o m h :
  heap_ok m h → (length (free h) < fuel)%nat → store_do o h = None → unspecified o h m.
Proof.
  intros Hh Hfu. destruct o as [size|p|p i v|p i]; cbn [store_do unspecified].
  - destruct (decide _) as [Hs|]; [|by left]. intros Ha. right. unfold uncut.
    destruct (fl_alloc (kmalloc_round size) (free h)) as [|b|] eqn:E; [done| |by left]. right.
    destruct (fl_alloc_Whole _ _ _ E) as [sz Hb]. exists b, sz. split_and!; [done..|]. intros Hp.
    apply (kmalloc_whole_ok (I := I) (owns := owns) vap fuel size (free h)); try done;
      [apply Hh|apply Hh|lia].
  - by destruct (live h !! p).
  - intros H (n & Hp & Hi). rewrite Hp in H. cbn in H. by rewrite decide_True in H.
  - destruct (live h !! p) as [n|] eqn:Hp; cbn [mbind option_bind].
    + destruct (decide (0 <= i < n)) as [Hi|Hi].
      * destruct (bytes h !! (p + i)); [done|by right].
      * intros _. left. intros (k & Hk & Hi'). congruence.
    + intros _. left. intros (k & Hk & _). congruence.
Qed.

(** The operations up to the first without an answer. *)
Lemma store_prefix os h :
  ∃ done rest rs h', os = done ++ rest ∧ store_run done h = Some (rs, h') ∧
    match rest with [] => True | o :: _ => store_do o h' = None end.
Proof using.
  revert h. induction os as [|o os IH]; intros h; [by exists [], [], [], h|].
  destruct (store_do o h) as [[r h1]|] eqn:E; [|by exists [], (o :: os), [], h].
  destruct (IH h1) as (done & rest & rs & h' & -> & Hr & Hn).
  exists (o :: done), rest, (r :: rs), h'. split_and!; [done| |done].
  cbn [store_run]. rewrite E. cbn [mbind option_bind]. by rewrite Hr.
Qed.

(** Nothing handed out: the free list is the pool. *)
Lemma pool_free h a : live h = ∅ → pool h a ↔ covers (free h) a.
Proof using.
  intros Hl. unfold pool. rewrite Hl. split; [|by left].
  by intros [?|(p & n & Hp & _)]; [|rewrite lookup_empty in Hp].
Qed.

Lemma heap_ok_start m l : I m → heap_list (owns := owns) m l → heap_ok m (Heap l ∅ ∅).
Proof using.
  intros HI HL. split; cbn [free live bytes]; try done; intros *; by rewrite lookup_empty.
Qed.
End Client.

(** ** Properties *)

(** C12: [kmalloc] and [kfree] together implement a store, as long as blocks
    are cut.  Let a client allocate, free, write and read in any order.  Up to
    the first operation the specification has no answer to, every call returns
    what it says: in particular a read gives the byte last written there,
    however the heap was cut and merged since.  Blocks handed out stay disjoint
    from each other and from the free list, keep their headers, and only memory
    of the heap changes.  That first operation, if there is one, is one with
    memory the client does not hold, a read of a byte it never wrote, or a
    [kmalloc] that cuts nothing: no block is large enough, or the first that is
    would leave less than 32 bytes; then the call changes nothing, and what it
    hands out stays on the free list. *)
Theorem heap_is_a_store I owns `{!Region I owns} vap fuel os h m :
  heap_ok (I := I) (owns := owns) m h → (length (free h) + length os < fuel)%nat →
  ∃ done rest rs h' m', os = done ++ rest ∧ store_run done h = Some (rs, h') ∧
    heap_run vap fuel done m = Done rs m' ∧ heap_ok (I := I) (owns := owns) m' h' ∧
    only_heap (owns := owns) (pool h) m m' ∧
    match rest with [] => True | o :: _ => store_do o h' = None ∧ unspecified vap fuel o h' m' end.
Proof.
  intros Hh Hfu. destruct (store_prefix os h) as (done & rest & rs & h' & -> & Hr & Hn).
  rewrite length_app in Hfu.
  destruct (heap_run_ok vap fuel done rs m h h' Hh Hr ltac:(lia)) as (m' & E & K & W & _ & L).
  exists done, rest, rs, h', m'. split_and!; [done..|]. destruct rest as [|o rest]; [done|].
  split; [done|]. cbn [length] in Hfu. apply store_do_None; [done|lia|done].
Qed.

(** Two blocks; the second is written, the first freed, and a third cut off
    before the second is read. *)
Definition sample_ops : list heap_op :=
  [Alloc 100; Alloc 20; Store 3222327160 3 321; Free 3222327192; Alloc 50;
   Load 3222327160 3].

Definition sample_store : store := Heap [(3222323200, 4096)] ∅ ∅.

Lemma sample_store_ok : heap_ok (I := unpaged) (owns := word) sample_heap sample_store.
Proof. apply heap_ok_start; [by vm_compute|exact sample_heap_list]. Qed.

(** A request for nearly all of the first free block: nothing is cut. *)
Definition sample_end : list heap_op := [Alloc 3872; Load 3222327160 3].

Lemma heap_is_a_store_witness :
  ∃ done rest rs h' m', sample_ops ++ sample_end = done ++ rest ∧
    store_run done sample_store = Some (rs, h') ∧
    heap_run (mret 0) 16 done sample_heap = Done rs m' ∧
    heap_ok (I := unpaged) (owns := word) m' h' ∧
    only_heap (owns := word) (pool sample_store) sample_heap m' ∧
    match rest with
    | [] => True
    | o :: _ => store_do o h' = None ∧ unspecified (mret 0) 16 o h' m'
    end.
Proof.
  apply (heap_is_a_store unpaged word (mret 0) 16 (sample_ops ++ sample_end)).
  - exact sample_store_ok.
  - cbn. lia.
Defined.

(** The specification answers the first list to its end, and not the request
    behind it. *)
Example sample_ops_run :
  match store_run sample_ops sample_store with
  | Some (rs, h) =>
      rs = [3222327192; 3222327160; 0; 0; 3222327096; 65] ∧
      fl_alloc (kmalloc_round 3872) (free h) = Whole 3222323200
  | None => False
  end.
Proof. vm_compute. by split. Qed.

(** C25: cuts do not fragment the heap for good.  Take any sequence of
    operations in which a client uses only what it holds, every [kmalloc] cuts
    its block from a larger one, and all that was allocated is freed, in
    whatever order: afterwards the heap is the very list of blocks it was, every
    cut undone. *)
Theorem heap_freed_restores I owns `{!Region I owns} vap fuel os rs l h' m :
  I m → heap_list (owns := owns) m l → store_run os (Heap l ∅ ∅) = Some (rs, h') →
  live h' = ∅ → (length l + length os < fuel)%nat →
  ∃ m', heap_run vap fuel os m = Done rs m' ∧ I m' ∧ heap_list (owns := owns) m' l.
Proof.
  intros HI HL Hr He Hfu. pose proof HL as (_ & Ho & _).
  destruct (heap_run_ok vap fuel os rs m _ h' (heap_ok_start m l HI HL) Hr Hfu)
    as (m' & E & [K1 K2 _ _ _] & _ & HP & _).
  exists m'. split_and!; [done..|]. pose proof K2 as (_ & Ho' & _).
  rewrite (fl_ordered_unique 0 l (free h')); [done..|]. intros a.
  by rewrite <- (pool_free h'), HP, pool_free.
Qed.

(** Three blocks, freed in another order than allocated. *)
Definition sample_freed : list heap_op :=
  [Alloc 100; Alloc 20; Alloc 50; Free 3222327160; Free 3222327192; Free 3222327096].

Lemma heap_freed_restores_witness :
  ∃ m', heap_run (mret 0) 8 sample_freed sample_heap
      = Done [3222327192; 3222327160; 3222327096; 0; 0; 0] m' ∧ unpaged m' ∧
    heap_list (owns := word) m' [(3222323200, 4096)].
Proof.
  apply (heap_freed_restores unpaged word (mret 0) 8 sample_freed _ [(3222323200, 4096)]
    (default sample_store (snd <$> store_run sample_freed sample_store))).
  - by vm_compute.
  - exact sample_heap_list.
  - by vm_compute.
  - by vm_compute.
  - cbn. lia.
Defined.
