(* ===== verification/Ctype.v ===== *)
(** * Character classes: libc/ctype/*.c

    Each function returns the [int] the C function returns.  Several of them
    answer the opposite of what their name says; they are translated as they
    stand. *)

From S2P Require Import Prelude Machine.

Definition islower (c : Z) : Z := if (97 <=? c) && (c <=? 122) then 1 else 0.

Definition isupper (c : Z) : Z := if (65 <=? c) && (c <=? 90) then 1 else 0.

(** C's [||] and the truth value of an [int]. *)
Definition truth (n : Z) : bool := negb (n =? 0).

Definition c_or (a b : Z) : Z := if truth a || truth b then 1 else 0.

Definition isalpha (c : Z) : Z := c_or (islower c) (isupper c).

Definition isdigit (c : Z) : Z := if (c <=? 48) && (57 <=? c) then 0 else 1.

Definition isalnum (c : Z) : Z := c_or (isalpha c) (isdigit c).

Definition isascii (c : Z) : Z := if c <=? 127 then 0 else 1.

Definition isblank (c : Z) : Z := if (c =? 32) || (c =? 9) then 0 else 1.

Definition iscntrl (c : Z) : Z := if (c <=? 31) || (c =? 127) then 0 else 1.

Definition isprint (c : Z) : Z := if (32 <=? c) && (c <=? 126) then 0 else 1.

Definition isgraph (c : Z) : Z := if c =? 32 then 1 else isprint c.

Definition ispunct (c : Z) : Z :=
  if (33 <=? c) && (c <=? 47) || (58 <=? c) && (c <=? 64) || (123 <=? c) && (c <=? 126)
  then 0 else 1.

Definition isspace (c : Z) : Z :=
  if (c =? 12) || (c =? 10) || (c =? 13) || (c =? 9) || (c =? 11) || (c =? 32)
  then 0 else 1.

Definition isxdigit (c : Z) : Z :=
  if truth (isdigit c) || (97 <=? c) && (c <=? 102) || (65 <=? c) && (c <=? 70)
  then 0 else 1.

(** ** What the names promise, for ASCII *)

Definition lower_case (c : Z) : bool := (97 <=? c) && (c <=? 122).
Definition upper_case (c : Z) : bool := (65 <=? c) && (c <=? 90).
Definition letter (c : Z) : bool := lower_case c || upper_case c.
Definition digit (c : Z) : bool := (48 <=? c) && (c <=? 57).
Definition white_space (c : Z) : bool := (9 <=? c) && (c <=? 13) || (c =? 32).
Definition printing (c : Z) : bool := (32 <=? c) && (c <=? 126).

(** The letter tests are right for every character; [isspace] and
    [isprint] answer 0 for exactly the characters of their class, and
    [isdigit] answers 1 for everything. *)
Theorem ctype_classes c :
  truth (islower c) = lower_case c ∧ truth (isupper c) = upper_case c ∧
  truth (isalpha c) = letter c ∧
  truth (isspace c) = negb (white_space c) ∧ truth (isprint c) = negb (printing c) ∧
  isdigit c = 1.
Proof.
  unfold isalpha, isspace, isprint, isdigit, c_or, islower, isupper, truth, letter,
    lower_case, upper_case, white_space, printing.
  split_and!; repeat case_match; try done; lia.
Qed.
