(* ===== verification/Keyboard.v ===== *)
(** * The PS/2 keyboard: kernel/interrupt/keyboard.c

    The key codes, the lookup tables, the ring of pending keys and the
    interrupt handler. *)

From S2P Require Import Prelude Machine Tty Ctype.

(** ** enum KEYCODE *)

Definition KEY_BACKSPACE : Z := 8.
Definition KEY_TAB : Z := 9.
Definition KEY_ENTER : Z := 10.
Definition KEY_ESCAPE : Z := 0x1b.
Definition KEY_DELETE : Z := 0x7f.
Definition KEY_SHIFT : Z := 0x80.
Definition KEY_SHIFT_RELEASE : Z := 0x81.
Definition KEY_CAPSLOCK : Z := 0x82.
Definition KEY_CAPSLOCK_RELEASE : Z := 0x83.
Definition KEY_CTRL : Z := 0x84.
Definition KEY_CTRL_RELEASE : Z := 0x85.
Definition KEY_ALT : Z := 0x86.
Definition KEY_ALT_RELEASE : Z := 0x87.
Definition KEY_PRTSCR : Z := 0x88.
Definition KEY_NUMLOCK : Z := 0x89.
Definition KEY_SCRLOCK : Z := 0x8a.
Definition KEY_INSERT : Z := 0x8b.
Definition KEY_END : Z := 0x8c.
Definition KEY_DOWN : Z := 0x8d.
Definition KEY_PGDWN : Z := 0x8e.
Definition KEY_LEFT : Z := 0x8f.
Definition KEY_CENTER : Z := 0x90.
Definition KEY_RIGHT : Z := 0x91.
Definition KEY_HOME : Z := 0x92.
Definition KEY_UP : Z := 0x93.
Definition KEY_PGUP : Z := 0x94.
Definition KEY_F1 : Z := 0x95.
Definition KEY_F2 : Z := 0x96.
Definition KEY_F3 : Z := 0x97.
Definition KEY_F4 : Z := 0x98.
Definition KEY_F5 : Z := 0x99.
Definition KEY_F6 : Z := 0x9a.
Definition KEY_F7 : Z := 0x9b.
Definition KEY_F8 : Z := 0x9c.
Definition KEY_F9 : Z := 0x9d.
Definition KEY_F10 : Z := 0x9e.
Definition KEY_F11 : Z := 0x9f.
Definition KEY_F12 : Z := 0xa0.
Definition KEY_SCANESC : Z := 0xa1.
Definition KEY_IGNORE : Z := 0xa2.

(** ** keyboard_lut.h

    The designated initialisers of [ps2_layout]; every other element is 0. *)

Definition ps2_unshift : list (Z * Z) :=
  [ (0x00, KEY_IGNORE); (0x01, KEY_ESCAPE); (0x02, 49); (0x03, 50); (0x04, 51);
    (0x05, 52); (0x06, 53); (0x07, 54); (0x08, 55); (0x09, 56); (0x0a, 57); (0x0b, 48);
    (0x0c, 45); (0x0d, 61); (0x0e, KEY_BACKSPACE); (0x0f, KEY_TAB); (0x10, 113);
    (0x11, 119); (0x12, 101); (0x13, 114); (0x14, 116); (0x15, 121); (0x16, 117);
    (0x17, 105); (0x18, 111); (0x19, 112); (0x1a, 91); (0x1b, 93); (0x1c, KEY_ENTER);
    (0x1d, KEY_CTRL); (0x1e, 97); (0x1f, 115); (0x20, 100); (0x21, 102); (0x22, 103);
    (0x23, 104); (0x24, 106); (0x25, 107); (0x26, 108); (0x27, 59); (0x28, 39);
    (0x29, 96); (0x2a, KEY_SHIFT); (0x2b, 92); (0x2c, 122); (0x2d, 120); (0x2e, 99);
    (0x2f, 118); (0x30, 98); (0x31, 110); (0x32, 109); (0x33, 44); (0x34, 46);
    (0x35, 47); (0x36, KEY_SHIFT); (0x37, 42); (0x38, KEY_ALT); (0x39, 32);
    (0x3a, KEY_CAPSLOCK); (0x3b, KEY_F1); (0x3c, KEY_F2); (0x3d, KEY_F3);
    (0x3e, KEY_F4); (0x3f, KEY_F5); (0x40, KEY_F6); (0x41, KEY_F7); (0x42, KEY_F8);
    (0x43, KEY_F9); (0x44, KEY_F10); (0x45, KEY_NUMLOCK); (0x46, KEY_SCRLOCK);
    (0x47, KEY_HOME); (0x48, KEY_UP); (0x49, KEY_PGUP); (0x4a, 45); (0x4b, KEY_LEFT);
    (0x4c, KEY_CENTER); (0x4d, KEY_RIGHT); (0x4e, 43); (0x4f, KEY_END);
    (0x50, KEY_DOWN); (0x51, KEY_PGDWN); (0x52, KEY_INSERT); (0x53, KEY_DELETE);
    (0x54, KEY_IGNORE); (0x55, KEY_IGNORE); (0x56, KEY_IGNORE); (0x57, KEY_F11);
    (0x58, KEY_F12); (0x59, KEY_IGNORE); (0x5a, KEY_IGNORE); (0x5b, KEY_IGNORE);
    (0x5c, KEY_IGNORE); (0x5d, KEY_IGNORE); (0x5e, KEY_IGNORE); (0x5f, KEY_SCANESC);
    (0x60, KEY_SCANESC); (0x61, KEY_IGNORE); (0x62, KEY_IGNORE); (0x63, KEY_IGNORE);
    (0x64, KEY_IGNORE); (0x65, KEY_IGNORE); (0x66, KEY_IGNORE); (0x67, KEY_IGNORE);
    (0x68, KEY_IGNORE); (0x69, KEY_IGNORE); (0x6a, KEY_IGNORE); (0x6b, KEY_IGNORE);
    (0x6c, KEY_IGNORE); (0x6d, KEY_IGNORE); (0x6e, KEY_IGNORE); (0x6f, KEY_IGNORE);
    (0x70, KEY_IGNORE); (0x71, KEY_IGNORE); (0x72, KEY_IGNORE); (0x73, KEY_IGNORE);
    (0x74, KEY_IGNORE); (0x75, KEY_IGNORE); (0x76, KEY_IGNORE); (0x77, KEY_IGNORE);
    (0x78, KEY_IGNORE); (0x79, KEY_IGNORE); (0x7a, KEY_IGNORE); (0x7b, KEY_IGNORE);
    (0x7c, KEY_IGNORE); (0x7d, KEY_IGNORE); (0x7e, KEY_IGNORE);
    (0x9d, KEY_CTRL_RELEASE); (0xaa, KEY_SHIFT_RELEASE); (0xb6, KEY_SHIFT_RELEASE);
    (0xb8, KEY_ALT_RELEASE) ].

Definition ps2_shift : list (Z * Z) :=
  [ (0x00, KEY_IGNORE); (0x01, KEY_ESCAPE); (0x02, 33); (0x03, 64); (0x04, 35);
    (0x05, 36); (0x06, 37); (0x07, 94); (0x08, 38); (0x09, 42); (0x0a, 40); (0x0b, 41);
    (0x0c, 95); (0x0d, 43); (0x0e, KEY_BACKSPACE); (0x0f, KEY_TAB); (0x10, 81);
    (0x11, 87); (0x12, 69); (0x13, 82); (0x14, 84); (0x15, 89); (0x16, 85); (0x17, 73);
    (0x18, 79); (0x19, 80); (0x1a, 123); (0x1b, 125); (0x1c, KEY_ENTER);
    (0x1d, KEY_CTRL); (0x1e, 65); (0x1f, 83); (0x20, 68); (0x21, 70); (0x22, 71);
    (0x23, 72); (0x24, 74); (0x25, 75); (0x26, 76); (0x27, 58); (0x28, 34);
    (0x29, 126); (0x2a, KEY_SHIFT); (0x2b, 124); (0x2c, 90); (0x2d, 88); (0x2e, 67);
    (0x2f, 86); (0x30, 66); (0x31, 78); (0x32, 77); (0x33, 60); (0x34, 62); (0x35, 63);
    (0x36, KEY_SHIFT); (0x37, 42); (0x38, KEY_ALT); (0x39, 32); (0x3a, KEY_CAPSLOCK);
    (0x3b, KEY_F1); (0x3c, KEY_F2); (0x3d, KEY_F3); (0x3e, KEY_F4); (0x3f, KEY_F5);
    (0x40, KEY_F6); (0x41, KEY_F7); (0x42, KEY_F8); (0x43, KEY_F9); (0x44, KEY_F10);
    (0x45, KEY_NUMLOCK); (0x46, KEY_SCRLOCK); (0x47, KEY_HOME); (0x48, KEY_UP);
    (0x49, KEY_PGUP); (0x4a, 45); (0x4b, KEY_LEFT); (0x4c, KEY_CENTER);
    (0x4d, KEY_RIGHT); (0x4e, 43); (0x4f, KEY_END); (0x50, KEY_DOWN);
    (0x51, KEY_PGDWN); (0x52, KEY_INSERT); (0x53, KEY_DELETE); (0x54, KEY_IGNORE);
    (0x55, KEY_IGNORE); (0x56, KEY_IGNORE); (0x57, KEY_F11); (0x58, KEY_F12);
    (0x59, KEY_IGNORE); (0x5a, KEY_IGNORE); (0x5b, KEY_IGNORE); (0x5c, KEY_IGNORE);
    (0x5d, KEY_IGNORE); (0x5e, KEY_IGNORE); (0x5f, KEY_SCANESC); (0x60, KEY_SCANESC);
    (0x61, KEY_IGNORE); (0x62, KEY_IGNORE); (0x63, KEY_IGNORE); (0x64, KEY_IGNORE);
    (0x65, KEY_IGNORE); (0x66, KEY_IGNORE); (0x67, KEY_IGNORE); (0x68, KEY_IGNORE);
    (0x69, KEY_IGNORE); (0x6a, KEY_IGNORE); (0x6b, KEY_IGNORE); (0x6c, KEY_IGNORE);
    (0x6d, KEY_IGNORE); (0x6e, KEY_IGNORE); (0x6f, KEY_IGNORE); (0x70, KEY_IGNORE);
    (0x71, KEY_IGNORE); (0x72, KEY_IGNORE); (0x73, KEY_IGNORE); (0x74, KEY_IGNORE);
    (0x75, KEY_IGNORE); (0x76, KEY_IGNORE); (0x77, KEY_IGNORE); (0x78, KEY_IGNORE);
    (0x79, KEY_IGNORE); (0x7a, KEY_IGNORE); (0x7b, KEY_IGNORE); (0x7c, KEY_IGNORE);
    (0x7d, KEY_IGNORE); (0x7e, KEY_IGNORE); (0x9d, KEY_CTRL_RELEASE);
    (0xaa, KEY_SHIFT_RELEASE); (0xb6, KEY_SHIFT_RELEASE); (0xb8, KEY_ALT_RELEASE) ].

Fixpoint lut (table : list (Z * Z)) (scancode : Z) : Z :=
  match table with
  | [] => 0
  | (i, k) :: table' => if i =? scancode then k else lut table' scancode
  end.

(** ** The ring of keys *)

(** [sizeof(keyboard.buff)]: 4096 elements of 8 bytes. *)
Definition KB_BUFF_SIZEOF : Z := 32768.

(** [kb_get_key]: the key, [None] for [false].  The caller that passes NULL
    drops it. *)
Definition kb_get_key : M (option key) :=
  len ← gets_keyboard kb_len;
  if len =? 0 then mret None
  else
    buff ← gets_keyboard kb_buff;
    head ← gets_keyboard kb_head;
    k ← array_get buff head;
    mod_keyboard (set_kb_head ((head [+] 1) mod KB_BUFF_SIZEOF));;
    mod_keyboard (set_kb_len (len [-] 1));;
    mret (Some k).

(** [kb_get_key(NULL)]: the element is not read. *)
Definition kb_get_key_null : M bool :=
  len ← gets_keyboard kb_len;
  if len =? 0 then mret false
  else
    head ← gets_keyboard kb_head;
    mod_keyboard (set_kb_head ((head [+] 1) mod KB_BUFF_SIZEOF));;
    mod_keyboard (set_kb_len (len [-] 1));;
    mret true.

Definition add_key (k : Z) : M unit :=
  len ← gets_keyboard kb_len;
  when (len <? KB_BUFF_SIZEOF)
    (state ← gets_keyboard kb_state;
     let new := Key state k in
     mod_keyboard (set_kb_len (len [+] 1));;
     buff ← gets_keyboard kb_buff;
     tail ← gets_keyboard kb_tail;
     buff' ← array_set buff tail new;
     mod_keyboard (set_kb_buff buff');;
     mod_keyboard (set_kb_tail ((tail [+] 1) mod KB_BUFF_SIZEOF))).

(** ** The interrupt handler *)

Definition decode (s : kb_state_t) (scancode : Z) : Z :=
  let table :=
    if truth (isalpha (lut ps2_shift scancode)) then
      if xorb (shift s) (caps s) then ps2_shift else ps2_unshift
    else if shift s then ps2_shift else ps2_unshift in
  lut table scancode.

Definition decode_scancode (scancode : Z) : M Z :=
  s ← gets_keyboard kb_state;
  mret (decode s scancode).

(** An assignment to a field of the global [kb_state]. *)
Definition mod_kb_state (f : kb_state_t → kb_state_t) : M unit :=
  mod_keyboard (λ k, set_kb_state (f (kb_state k)) k).

(** The [switch] of the handler. *)
Definition handle_key (k : Z) : M unit :=
  if k =? KEY_SHIFT then mod_kb_state (set_shift true)
  else if k =? KEY_SHIFT_RELEASE then mod_kb_state (set_shift false)
  else if k =? KEY_CAPSLOCK then mod_kb_state (λ s, set_caps (negb (caps s)) s)
  else if k =? KEY_CTRL then mod_kb_state (set_ctrl true)
  else if k =? KEY_CTRL_RELEASE then mod_kb_state (set_ctrl false)
  else if k =? KEY_ALT then mod_kb_state (set_alt true)
  else if k =? KEY_ALT_RELEASE then mod_kb_state (set_alt false)
  else if k =? KEY_DELETE then mret tt
  else add_key k.

Definition isr_key_press : M unit :=
  scancode ← inb 0x60;
  if scancode =? 0xe0 then mret tt
  else
    k ← decode_scancode scancode;
    s ← gets_keyboard kb_state;
    if (k =? 108) && ctrl s then tty_clear
    else
      handle_key k;;
      outb 0x20 0x20.

Definition keyboard_init : M unit :=
  hs ← gets_interrupts idt_handlers;
  hs' ← array_set hs 33 Machine.isr_key_press;
  mod_interrupts (set_idt_handlers hs').

(** ** The ring as a queue *)

Definition KB_ELEMENTS : Z := 4096.

Definition kb_queue (k : keyboard_state) : list key :=
  take (Z.to_nat (kb_len k)) (drop (Z.to_nat (kb_head k)) (kb_buff k)).

(** The state of the ring before its 4097th key. *)
Record kb_ok (k : keyboard_state) : Prop := {
  kb_ok_buff : Z.of_nat (length (kb_buff k)) = KB_ELEMENTS;
  kb_ok_head : 0 <= kb_head k;
  kb_ok_len : 0 <= kb_len k;
  kb_ok_tail : kb_tail k = kb_head k + kb_len k;
  kb_ok_end : kb_tail k <= KB_ELEMENTS
}.

Inductive kb_op : Type :=
| Put (c : Z)
| Take.

(** What the two operations of the driver do, and what a queue does. *)
Definition run_op (o : kb_op) : M (option key) :=
  match o with
  | Put c => add_key c;; mret None
  | Take => kb_get_key
  end.

Fixpoint run_ops (ops : list kb_op) : M (list (option key)) :=
  match ops with
  | [] => mret []
  | o :: ops' => r ← run_op o; rs ← run_ops ops'; mret (r :: rs)
  end.

Definition queue_op (s : kb_state_t) (o : kb_op) (q : list key) : option key * list key :=
  match o, q with
  | Put c, _ => (None, q ++ [Key s c])
  | Take, [] => (None, [])
  | Take, k :: q' => (Some k, q')
  end.

Fixpoint queue_ops (s : kb_state_t) (ops : list kb_op) (q : list key)
  : list (option key) * list key :=
  match ops with
  | [] => ([], q)
  | o :: ops' =>
      let '(r, q1) := queue_op s o q in
      let '(rs, q2) := queue_ops s ops' q1 in (r :: rs, q2)
  end.

Definition puts (ops : list kb_op) : Z :=
  foldr (λ o n, match o with Put _ => 1 + n | Take => n end) 0 ops.

(** Nothing but the keyboard differs, and the modifiers are the same. *)
Definition only_ring (m m' : machine) : Prop :=
  m' = set_keyboard (keyboard m') m ∧ kb_state (keyboard m') = kb_state (keyboard m).

Lemma kb_queue_snoc k x :
  kb_ok k → kb_tail k < KB_ELEMENTS →
  take (Z.to_nat (kb_len k + 1)) (drop (Z.to_nat (kb_head k))
    (<[Z.to_nat (kb_tail k) := x]> (kb_buff k))) = kb_queue k ++ [x].
Proof.
  intros [Hb Hh Hl Ht He] Hlt. unfold kb_queue.
  rewrite drop_insert_ge by lia.
  replace (Z.to_nat (kb_tail k) - Z.to_nat (kb_head k))%nat with (Z.to_nat (kb_len k)) by lia.
  replace (Z.to_nat (kb_len k + 1)) with (S (Z.to_nat (kb_len k))) by lia.
  assert (Z.to_nat (kb_len k) < length (drop (Z.to_nat (kb_head k)) (kb_buff k)))%nat as Hi
    by (rewrite length_drop; lia).
  rewrite (take_S_r _ _ x) by (by apply list_lookup_insert_eq).
  by rewrite take_insert_ge.
Qed.

Lemma add_key_ok c m :
  kb_ok (keyboard m) → kb_tail (keyboard m) < KB_ELEMENTS →
  ∃ k', add_key c m = Done tt (set_keyboard k' m) ∧ kb_ok k' ∧
    kb_tail k' = kb_tail (keyboard m) + 1 ∧ kb_state k' = kb_state (keyboard m) ∧
    kb_queue k' = kb_queue (keyboard m) ++ [Key (kb_state (keyboard m)) c].
Proof.
  intros Hok Hlt. pose proof Hok as [Hb Hh Hl Ht He]. unfold KB_ELEMENTS in *.
  unfold add_key, KB_BUFF_SIZEOF. msteps.
  destruct (Z.ltb_spec (kb_len (keyboard m)) 32768); [|lia]. cbn [when]. msteps.
  cbn [keyboard set_keyboard kb_buff kb_tail set_kb_len].
  assert (0 <= kb_tail (keyboard m) < Z.of_nat (length (kb_buff (keyboard m)))) as Hr by lia.
  run (array_set_insert (kb_buff (keyboard m)) (kb_tail (keyboard m))
    (Key (kb_state (keyboard m)) c) (set_keyboard (set_kb_len (kb_len (keyboard m) [+] 1)
      (keyboard m)) m) Hr). msteps.
  eexists. split; [reflexivity|].
  cbn [keyboard set_keyboard kb_buff kb_tail kb_head kb_len kb_state set_kb_len set_kb_buff
    set_kb_tail]. rewrite !u32_small by word_lia. rewrite (Z.mod_small _ 32768) by lia.
  split_and!; try done.
  - split; cbn; rewrite ?length_insert; unfold KB_ELEMENTS; lia.
  - unfold kb_queue at 1. cbn [kb_len kb_head kb_buff set_kb_tail set_kb_buff set_kb_len].
    apply kb_queue_snoc; [by split|]. unfold KB_ELEMENTS. lia.
Qed.

Lemma kb_get_key_None m :
  kb_len (keyboard m) = 0 → kb_get_key m = Done None m.
Proof. intros H. unfold kb_get_key. msteps. by rewrite H. Qed.

Lemma kb_get_key_Some m :
  kb_ok (keyboard m) → kb_len (keyboard m) ≠ 0 →
  ∃ x k', kb_get_key m = Done (Some x) (set_keyboard k' m) ∧ kb_ok k' ∧
    kb_tail k' = kb_tail (keyboard m) ∧ kb_state k' = kb_state (keyboard m) ∧
    kb_queue (keyboard m) = x :: kb_queue k'.
Proof.
  intros [Hb Hh Hl Ht He] Hn. unfold KB_ELEMENTS in *.
  unfold kb_get_key, KB_BUFF_SIZEOF. msteps.
  destruct (Z.eqb_spec (kb_len (keyboard m)) 0); [done|]. msteps.
  destruct (lookup_lt_is_Some_2 (kb_buff (keyboard m)) (Z.to_nat (kb_head (keyboard m))))
    as [x Hx]; [lia|].
  run (array_get_lookup _ _ _ m Hh Hx). msteps.
  rewrite !u32_small by word_lia. rewrite (Z.mod_small _ 32768) by lia.
  eexists x, _. split; [reflexivity|].
  cbn [keyboard set_keyboard kb_tail kb_state set_kb_len set_kb_head]. split_and!; try done.
  - split; cbn; unfold KB_ELEMENTS; lia.
  - unfold kb_queue. cbn. rewrite (drop_S _ _ _ Hx).
    replace (Z.to_nat (kb_len (keyboard m))) with (S (Z.to_nat (kb_len (keyboard m) - 1))) by lia.
    by replace (Z.to_nat (kb_head (keyboard m) + 1)) with (S (Z.to_nat (kb_head (keyboard m))))
      by lia.
Qed.

Lemma run_op_ok o m :
  kb_ok (keyboard m) → kb_tail (keyboard m) + puts [o] <= KB_ELEMENTS →
  ∃ r k', run_op o m = Done r (set_keyboard k' m) ∧ kb_ok k' ∧
    kb_tail k' = kb_tail (keyboard m) + puts [o] ∧ kb_state k' = kb_state (keyboard m) ∧
    queue_op (kb_state (keyboard m)) o (kb_queue (keyboard m)) = (r, kb_queue k').
Proof.
  intros Hok Hp. destruct o as [c|]; cbn [puts foldr run_op] in *.
  - destruct (add_key_ok c m Hok ltac:(lia)) as (k' & E & Hk & Ht & Hs & Hq).
    exists None, k'. run E. split_and!; try done. simpl. by rewrite Hq.
  - destruct (Z.eq_dec (kb_len (keyboard m)) 0) as [H0|H0].
    + exists None, (keyboard m). rewrite kb_get_key_None by done. split_and!; try done.
      * by destruct m.
      * lia.
      * unfold kb_queue. by rewrite H0.
    + destruct (kb_get_key_Some m Hok H0) as (x & k' & E & Hk & Ht & Hs & Hq).
      exists (Some x), k'. split_and!; try done; [lia|]. by rewrite Hq.
Qed.

Lemma run_ops_ok ops m :
  kb_ok (keyboard m) → kb_tail (keyboard m) + puts ops <= KB_ELEMENTS →
  ∃ rs m', run_ops ops m = Done rs m' ∧ only_ring m m' ∧ kb_ok (keyboard m') ∧
    queue_ops (kb_state (keyboard m)) ops (kb_queue (keyboard m)) = (rs, kb_queue (keyboard m')).
Proof.
  revert m. induction ops as [|o ops IH]; intros m Hok Hp.
  - exists [], m. split_and!; try done. split; [by destruct m|done].
  - assert (puts (o :: ops) = puts [o] + puts ops) as Ep by (destruct o; simpl; lia).
    assert (0 <= puts ops) as Hnn by (clear; induction ops as [|[]]; simpl; lia).
    destruct (run_op_ok o m Hok ltac:(lia)) as (r & k' & E & Hk & Ht & Hs & Hq).
    destruct (IH (set_keyboard k' m) Hk) as (rs & m' & E' & [F1 F2] & Hk' & Hq').
    { cbn. lia. }
    exists (r :: rs), m'. cbn [run_ops]. run E. run E'. split_and!; try done.
    + split; [by rewrite F1 at 1|]. rewrite F2. done.
    + cbn [queue_ops]. rewrite Hq. cbn in Hq'. rewrite Hs in Hq'. by rewrite Hq'.
Qed.

(** ** One interrupt *)

(** The effect of a decoded key on the modifiers and the queue. *)
Definition press (k : Z) (s : kb_state_t) (q : list key) : kb_state_t * list key :=
  if k =? KEY_SHIFT then (set_shift true s, q)
  else if k =? KEY_SHIFT_RELEASE then (set_shift false s, q)
  else if k =? KEY_CAPSLOCK then (set_caps (negb (caps s)) s, q)
  else if k =? KEY_CTRL then (set_ctrl true s, q)
  else if k =? KEY_CTRL_RELEASE then (set_ctrl false s, q)
  else if k =? KEY_ALT then (set_alt true s, q)
  else if k =? KEY_ALT_RELEASE then (set_alt false s, q)
  else if k =? KEY_DELETE then (s, q)
  else (s, q ++ [Key s k]).

(** The byte the controller offers. *)
Definition next_scancode (m : machine) : Z :=
  u8 (io_device (ports m) (io_log (ports m)) 0x60).

Lemma kb_ok_modifiers s k : kb_ok k → kb_ok (set_kb_state s k).
Proof. by intros [? ? ? ? ?]. Qed.

Lemma handle_key_ok k m :
  kb_ok (keyboard m) → kb_tail (keyboard m) < KB_ELEMENTS →
  ∃ kb, handle_key k m = Done tt (set_keyboard kb m) ∧ kb_ok kb ∧
    (kb_state kb, kb_queue kb) = press k (kb_state (keyboard m)) (kb_queue (keyboard m)).
Proof.
  intros Hok Hlt. unfold handle_key, press, mod_kb_state.
  destruct (add_key_ok k m Hok Hlt) as (kb & E & Hk & _ & Hs & Hq).
  repeat case_match; try (eexists; split_and!; [reflexivity|by apply kb_ok_modifiers|done]).
  - exists (keyboard m). split_and!; [by destruct m|done|done].
  - exists kb. split_and!; [done|done|]. by rewrite Hs, Hq.
Qed.

(** The handler, unless the byte is a prefix or the key clears the screen. *)
Lemma isr_key_press_ok m :
  kb_ok (keyboard m) → kb_tail (keyboard m) < KB_ELEMENTS →
  next_scancode m ≠ 0xe0 →
  let k := decode (kb_state (keyboard m)) (next_scancode m) in
  ¬ (k = 108 ∧ ctrl (kb_state (keyboard m)) = true) →
  ∃ kb, isr_key_press m = Done tt
      (set_ports (set_io_log (Out 0x20 0x20 :: In 0x60 (next_scancode m) :: io_log (ports m))
        (ports m)) (set_keyboard kb m)) ∧
    kb_ok kb ∧
    (kb_state kb, kb_queue kb) = press k (kb_state (keyboard m)) (kb_queue (keyboard m)).
Proof.
  intros Hok Hlt He k Hk. unfold isr_key_press, decode_scancode, inb. msteps.
  change (u16 96) with 96. fold (next_scancode m).
  destruct (Z.eqb_spec (next_scancode m) 224); [done|]. msteps.
  cbn [keyboard set_ports]. fold k.
  assert ((k =? 108) && ctrl (kb_state (keyboard m)) = false) as ->.
  { destruct (Z.eqb_spec k 108), (ctrl (kb_state (keyboard m))); try done. by destruct Hk. }
  destruct (handle_key_ok k (set_ports (set_io_log
    (In 96 (next_scancode m) :: io_log (ports m)) (ports m)) m) Hok Hlt) as (kb & E & K & P).
  run E. by exists kb.
Qed.

(** ** Properties *)

(** A keyboard on which the letter A (scan code 0x1e) is being pressed. *)
Definition key_waiting : machine :=
  set_ports (PortState [] (λ _ p, if p =? 0x60 then 0x1e else 0)) power_on.

Lemma key_waiting_ok : kb_ok (keyboard key_waiting).
Proof. by split; vm_compute. Qed.

(** C19: the ring is a first-in first-out queue.  Any sequence of key presses
    and [kb_get_key] calls, run from a well-formed ring with at most 4096
    presses since boot, returns exactly what an unbounded queue returns,
    leaves the ring representing that queue, and touches nothing else. *)
Theorem keyboard_ring_is_fifo ops m :
  kb_ok (keyboard m) → kb_tail (keyboard m) + puts ops <= KB_ELEMENTS →
  ∃ rs m', run_ops ops m = Done rs m' ∧ only_ring m m' ∧ kb_ok (keyboard m') ∧
    queue_ops (kb_state (keyboard m)) ops (kb_queue (keyboard m)) = (rs, kb_queue (keyboard m')).
Proof. apply run_ops_ok. Qed.

Lemma keyboard_ring_is_fifo_witness :
  ∃ rs m', run_ops [Put 97; Put 98; Take; Put 99; Take; Take; Take] key_waiting = Done rs m' ∧
    only_ring key_waiting m' ∧ kb_ok (keyboard m') ∧
    queue_ops (kb_state (keyboard key_waiting)) [Put 97; Put 98; Take; Put 99; Take; Take; Take]
      (kb_queue (keyboard key_waiting)) = (rs, kb_queue (keyboard m')).
Proof.
  apply (keyboard_ring_is_fifo [Put 97; Put 98; Take; Put 99; Take; Take; Take] key_waiting).
  - exact key_waiting_ok.
  - by vm_compute.
Defined.

(** C32: the indices are reduced modulo the size of the buffer in bytes, not
    in elements: once 4096 keys have been stored the next [add_key] writes
    outside the array, even if every key has been read. *)
Theorem add_key_leaves_the_ring c m :
  kb_ok (keyboard m) → kb_tail (keyboard m) = KB_ELEMENTS →
  ∃ m', add_key c m = Stop OutOfBounds m'.
Proof.
  intros [Hb Hh Hl Ht He] Hlt. unfold add_key, KB_BUFF_SIZEOF, KB_ELEMENTS in *. msteps.
  destruct (Z.ltb_spec (kb_len (keyboard m)) 32768); [|lia]. cbn [when]. msteps.
  cbn [keyboard set_keyboard kb_buff kb_tail set_kb_len]. eexists.
  apply bind_stop. unfold array_set, in_array.
  destruct (Z.leb_spec 0 (kb_tail (keyboard m))),
    (Z.ltb_spec (kb_tail (keyboard m)) (Z.of_nat (length (kb_buff (keyboard m)))));
    simpl; try lia; done.
Qed.

(** 4096 keys were typed and read. *)
Definition ring_used_up : machine :=
  set_keyboard (set_kb_head 4096 (set_kb_tail 4096 (keyboard power_on))) power_on.

Lemma add_key_leaves_the_ring_witness : ∃ m', add_key 97 ring_used_up = Stop OutOfBounds m'.
Proof.
  apply (add_key_leaves_the_ring 97 ring_used_up); [|done].
  by split; vm_compute.
Defined.

(** Decoding follows the modifiers for every scan code: a letter is
    upper case exactly when one of shift and caps lock is on, any other key
    follows shift alone, and the upper-case letter is the lower-case one
    minus 32. *)
Theorem decode_follows_modifiers s scancode :
  0 <= scancode < 256 →
  if letter (lut ps2_unshift scancode) then
    lower_case (lut ps2_unshift scancode) = true ∧
    decode s scancode
      = lut ps2_unshift scancode - (if xorb (shift s) (caps s) then 32 else 0)
  else
    letter (lut ps2_shift scancode) = false ∧
    decode s scancode = lut (if shift s then ps2_shift else ps2_unshift) scancode.
Proof.
  intros Hs.
  assert (∀ b1 b2, all_below 256 (λ i,
    (if letter (lut ps2_unshift i) then
       lower_case (lut ps2_unshift i) = true ∧
       decode (KbState b1 false false b2 false false false) i
         = lut ps2_unshift i - (if xorb b1 b2 then 32 else 0)
     else
       letter (lut ps2_shift i) = false ∧
       decode (KbState b1 false false b2 false false false) i
         = lut (if b1 then ps2_shift else ps2_unshift) i : Prop)) = true) as H
    by (intros [] []; vm_compute; reflexivity).
  exact (all_below_spec 256 _ (H (shift s) (caps s)) scancode Hs).
Qed.

Lemma decode_follows_modifiers_witness :
  letter (lut ps2_unshift 0x1e) = true ∧
  (lower_case 97 = true ∧
   decode (set_caps true (kb_state (keyboard power_on))) 0x1e = 97 - 32).
Proof.
  split; [done|].
  exact (decode_follows_modifiers (set_caps true (kb_state (keyboard power_on))) 0x1e
    ltac:(lia)).
Defined.

(** One keyboard interrupt.  Unless the byte is the 0xe0 prefix or the
    key is L with control held, the handler reads one byte from port 0x60,
    moves the modifiers and the queue as [press] says for the decoded key,
    acknowledges the interrupt at the controller, and changes nothing else. *)
Theorem isr_key_press_transition m :
  kb_ok (keyboard m) → kb_tail (keyboard m) < KB_ELEMENTS →
  next_scancode m ≠ 0xe0 →
  let k := decode (kb_state (keyboard m)) (next_scancode m) in
  ¬ (k = 108 ∧ ctrl (kb_state (keyboard m)) = true) →
  ∃ kb, isr_key_press m = Done tt
      (set_ports (set_io_log (Out 0x20 0x20 :: In 0x60 (next_scancode m) :: io_log (ports m))
        (ports m)) (set_keyboard kb m)) ∧
    kb_ok kb ∧
    (kb_state kb, kb_queue kb) = press k (kb_state (keyboard m)) (kb_queue (keyboard m)).
Proof. apply isr_key_press_ok. Qed.

Lemma isr_key_press_transition_witness :
  ∃ kb, isr_key_press key_waiting = Done tt
      (set_ports (set_io_log [Out 0x20 0x20; In 0x60 0x1e] (ports key_waiting))
        (set_keyboard kb key_waiting)) ∧
    kb_ok kb ∧
    (kb_state kb, kb_queue kb)
      = press 97 (kb_state (keyboard key_waiting)) (kb_queue (keyboard key_waiting)).
Proof.
  apply (isr_key_press_transition key_waiting).
  - exact key_waiting_ok.
  - done.
  - by vm_compute.
  - by vm_compute; intros [].
Defined.
