(* ===== verification/Preempt.v ===== *)
(** * Reading the keyboard while keys arrive: kernel/interrupt/keyboard.c

    The console calls [kb_get_key] with interrupts on, so the keyboard's
    handler, which adds to the same ring, can run between any two of its
    accesses.  [kb_get_key_at] is [kb_get_key] with the points where that can
    happen. *)

From S2P Require Import Prelude Machine Tty Ctype Keyboard.

(** ** [kb_get_key] with its interrupt points

    Point 0 is behind the load of [len], 1 behind the copy of the element,
    2 behind the store of [head], 4 behind the store of [len]; 3 is between
    the load and the store of [keyboard.len--], which the build, with
    optimisation off, compiles to separate instructions. *)
Definition kb_get_key_at (interrupt : nat → M unit) : M (option key) :=
  len ← gets_keyboard kb_len;
  interrupt 0%nat;;
  if len =? 0 then mret None
  else
    buff ← gets_keyboard kb_buff;
    head ← gets_keyboard kb_head;
    k ← array_get buff head;
    interrupt 1%nat;;
    head ← gets_keyboard kb_head;
    mod_keyboard (set_kb_head ((head [+] 1) mod KB_BUFF_SIZEOF));;
    interrupt 2%nat;;
    len ← gets_keyboard kb_len;
    interrupt 3%nat;;
    mod_keyboard (set_kb_len (len [-] 1));;
    interrupt 4%nat;;
    mret (Some k).

(** Without interrupts it is [kb_get_key]. *)
Lemma kb_get_key_at_quiet m : kb_get_key_at (λ _, mret tt) m = kb_get_key m.
Proof.
  unfold kb_get_key_at, kb_get_key. msteps. destruct (kb_len (keyboard m) =? 0); [done|]. msteps.
  unfold array_get. by repeat case_match.
Qed.

(** [n] keyboard interrupts, one after the other. *)
Fixpoint key_irqs (n : nat) : M unit :=
  match n with
  | O => mret tt
  | S n' => isr_key_press;; key_irqs n'
  end.

(** ** One interrupt as a function of the machine *)

Definition on_keyboard (f : keyboard_state → keyboard_state) (m : machine) : machine :=
  set_keyboard (f (keyboard m)) m.

Definition kb_add (c : Z) (k : keyboard_state) : keyboard_state :=
  KeyboardState (<[Z.to_nat (kb_tail k) := Key (kb_state k) c]> (kb_buff k))
    (kb_len k + 1) (kb_head k) (kb_tail k + 1) (kb_state k).

(** Is the decoded key stored in the ring? *)
Definition stored (c : Z) : bool :=
  negb (existsb (Z.eqb c) [KEY_SHIFT; KEY_SHIFT_RELEASE; KEY_CAPSLOCK; KEY_CTRL;
    KEY_CTRL_RELEASE; KEY_ALT; KEY_ALT_RELEASE; KEY_DELETE]).

Definition kb_handle (c : Z) (k : keyboard_state) : keyboard_state :=
  if stored c then kb_add c k else set_kb_state (fst (press c (kb_state k) [])) k.

Definition pressed_key (m : machine) : Z := decode (kb_state (keyboard m)) (next_scancode m).

Definition irq_done (m : machine) : machine :=
  set_ports (set_io_log (Out 0x20 0x20 :: In 0x60 (next_scancode m) :: io_log (ports m)) (ports m))
    (on_keyboard (kb_handle (pressed_key m)) m).

(** The byte is no prefix and the key does not clear the screen. *)
Definition plain_key (m : machine) : Prop :=
  next_scancode m ≠ 0xe0 ∧ ¬ (pressed_key m = 108 ∧ ctrl (kb_state (keyboard m)) = true).

Fixpoint plain_keys (n : nat) (m : machine) : Prop :=
  match n with
  | O => True
  | S n' => plain_key m ∧ plain_keys n' (irq_done m)
  end.

(** The ring has room for [n] more keys in front of the end of its array. *)
Record key_room (n : nat) (k : keyboard_state) : Prop := {
  room_buff : Z.of_nat (length (kb_buff k)) = KB_ELEMENTS;
  room_tail : 0 <= kb_tail k ∧ kb_tail k + Z.of_nat n <= KB_ELEMENTS;
  room_len : 0 <= kb_len k ∧ kb_len k + Z.of_nat n <= KB_ELEMENTS
}.

Lemma kb_ok_room n k : kb_ok k → kb_tail k + Z.of_nat n <= KB_ELEMENTS → key_room n k.
Proof. intros [H1 H2 H3 H4 H5] Hn. split; lia. Qed.

Lemma add_key_room c m :
  key_room 1 (keyboard m) → add_key c m = Done tt (on_keyboard (kb_add c) m).
Proof.
  intros [Hb Ht Hl]. unfold KB_ELEMENTS in *. unfold add_key, KB_BUFF_SIZEOF. msteps.
  destruct (Z.ltb_spec (kb_len (keyboard m)) 32768); [|lia]. cbn [when]. msteps.
  cbn [keyboard set_keyboard kb_buff kb_tail set_kb_len].
  run (array_set_insert (kb_buff (keyboard m)) (kb_tail (keyboard m))
    (Key (kb_state (keyboard m)) c) (set_keyboard (set_kb_len (kb_len (keyboard m) [+] 1)
      (keyboard m)) m) ltac:(lia)).
  unfold modify, on_keyboard, kb_add. cbn.
  rewrite !u32_small by word_lia. by rewrite (Z.mod_small _ 32768) by lia.
Qed.

Lemma handle_key_room c m :
  key_room 1 (keyboard m) → handle_key c m = Done tt (on_keyboard (kb_handle c) m).
Proof.
  intros Hr. pose proof (add_key_room c m Hr) as Ha.
  unfold handle_key, kb_handle, stored, press, mod_kb_state. cbn [existsb].
  repeat case_match; try done; simpl in *; try lia; try by destruct m, keyboard.
Qed.

Lemma room_handle n c k : key_room (S n) k → key_room n (kb_handle c k).
Proof.
  intros [Hb Ht Hl]. unfold kb_handle. destruct (stored c).
  - split; cbn; rewrite ?length_insert; [done|lia|lia].
  - split; cbn; [done|lia|lia].
Qed.

Lemma room_weaken {n} n' {k} : key_room n k → (n' <= n)%nat → key_room n' k.
Proof. intros [Hb Ht Hl] Hn. split; [done|lia|lia]. Qed.

Lemma isr_key_press_done m :
  key_room 1 (keyboard m) → plain_key m → isr_key_press m = Done tt (irq_done m).
Proof.
  intros Hr [He Hk]. unfold isr_key_press, decode_scancode, inb. msteps.
  change (u16 96) with 96. fold (next_scancode m).
  destruct (Z.eqb_spec (next_scancode m) 224); [done|]. msteps.
  cbn [keyboard set_ports]. fold (pressed_key m).
  assert ((pressed_key m =? 108) && ctrl (kb_state (keyboard m)) = false) as ->.
  { destruct (Z.eqb_spec (pressed_key m) 108), (ctrl (kb_state (keyboard m))); try done.
    by destruct Hk. }
  run (handle_key_room (pressed_key m) (set_ports (set_io_log
    (In 96 (next_scancode m) :: io_log (ports m)) (ports m)) m) Hr). done.
Qed.

Lemma key_irqs_done n m :
  key_room n (keyboard m) → plain_keys n m → key_irqs n m = Done tt (Nat.iter n irq_done m).
Proof.
  revert m. induction n as [|n IH]; intros m Hr Hp; [done|]. destruct Hp as [H1 H2].
  cbn [key_irqs].
  run (isr_key_press_done m (room_weaken 1 Hr ltac:(lia)) H1).
  rewrite IH; [|by apply room_handle|done]. f_equal. symmetry. apply Nat.iter_succ_r.
Qed.

(** ** Interrupts do not see what [kb_get_key] changes *)

(** The two stores of [kb_get_key]. *)
Definition bump_head (k : keyboard_state) : keyboard_state := set_kb_head (kb_head k + 1) k.
Definition drop_len (k : keyboard_state) : keyboard_state := set_kb_len (kb_len k - 1) k.

(** A change of the ring an interrupt commutes with. *)
Record unseen (f : keyboard_state → keyboard_state) : Prop := {
  un_state k : kb_state (f k) = kb_state k;
  un_handle c k : kb_handle c (f k) = f (kb_handle c k)
}.

Lemma bump_head_unseen : unseen bump_head.
Proof. split; [done|]. intros c k. unfold kb_handle. by destruct (stored c). Qed.

Lemma drop_len_unseen : unseen drop_len.
Proof.
  split; [done|]. intros c k. unfold kb_handle, drop_len. destruct (stored c); [|done].
  unfold kb_add, set_kb_len. cbn. f_equal. lia.
Qed.

Section Unseen.
Context (f : keyboard_state → keyboard_state) (Hf : unseen f).

Lemma pressed_key_unseen m : pressed_key (on_keyboard f m) = pressed_key m.
Proof using All. unfold pressed_key. cbn. by rewrite (un_state f Hf). Qed.

Lemma irq_done_unseen m : irq_done (on_keyboard f m) = on_keyboard f (irq_done m).
Proof using All.
  unfold irq_done. rewrite pressed_key_unseen. unfold on_keyboard. cbn.
  by rewrite (un_handle f Hf).
Qed.

Lemma irqs_unseen n m :
  Nat.iter n irq_done (on_keyboard f m) = on_keyboard f (Nat.iter n irq_done m).
Proof using All.
  induction n as [|n IH]; [done|]. cbn [Nat.iter nat_rect]. change (irq_done
    (Nat.iter n irq_done (on_keyboard f m)) = on_keyboard f (irq_done (Nat.iter n irq_done m))).
  rewrite IH. apply irq_done_unseen.
Qed.

Lemma plain_keys_unseen n m : plain_keys n (on_keyboard f m) ↔ plain_keys n m.
Proof using All.
  revert m. induction n as [|n IH]; intros m; [done|]. cbn [plain_keys].
  rewrite irq_done_unseen, IH. unfold plain_key. rewrite pressed_key_unseen. cbn.
  by rewrite (un_state f Hf).
Qed.
End Unseen.

Lemma plain_keys_add n n' m :
  plain_keys (n + n') m ↔ plain_keys n m ∧ plain_keys n' (Nat.iter n irq_done m).
Proof.
  revert m. induction n as [|n IH]; intros m; [cbn; tauto|]. cbn [Nat.add plain_keys].
  rewrite IH, Nat.iter_succ_r. tauto.
Qed.

(** What an interrupt leaves alone: the head, and the elements in front of
    the tail. *)
Lemma irqs_read n m i :
  key_room n (keyboard m) → 0 <= i < kb_tail (keyboard m) →
  let k := keyboard (Nat.iter n irq_done m) in
  kb_head k = kb_head (keyboard m) ∧ kb_buff k !! Z.to_nat i = kb_buff (keyboard m) !! Z.to_nat i ∧
  kb_len (keyboard m) <= kb_len k <= kb_len (keyboard m) + Z.of_nat n.
Proof.
  revert m. induction n as [|n IH]; intros m Hr Hi; [cbn; split_and!; (done || lia)|].
  rewrite Nat.iter_succ_r. cbv zeta.
  pose proof (room_handle n (pressed_key m) _ Hr) as Hr'.
  assert (kb_tail (keyboard m) <= kb_tail (keyboard (irq_done m)) ∧
    kb_head (keyboard (irq_done m)) = kb_head (keyboard m) ∧
    kb_buff (keyboard (irq_done m)) !! Z.to_nat i = kb_buff (keyboard m) !! Z.to_nat i ∧
    kb_len (keyboard m) <= kb_len (keyboard (irq_done m)) <= kb_len (keyboard m) + 1)
    as (H1 & H2 & H3 & H4).
  { cbn. unfold kb_handle. destruct (stored _); [|cbn; split_and!; (done || lia)].
    cbn. split_and!; [lia|done| |lia|lia]. apply list_lookup_insert_ne. lia. }
  destruct (IH (irq_done m) Hr' ltac:(lia)) as (G1 & G2 & G3).
  rewrite G1, G2. split_and!; [done|done|lia|lia].
Qed.

Lemma room_irqs n n' m :
  key_room (n + n') (keyboard m) → key_room n' (keyboard (Nat.iter n irq_done m)).
Proof.
  revert m. induction n as [|n IH]; intros m Hr; [done|]. rewrite Nat.iter_succ_r.
  apply IH, room_handle, Hr.
Qed.

(** ** [kb_get_key] on a ring that is not empty *)

Lemma kb_queue_head x k :
  kb_ok k → kb_len k ≠ 0 → kb_buff k !! Z.to_nat (kb_head k) = Some x →
  kb_queue k = x :: kb_queue (drop_len (bump_head k)).
Proof.
  intros [Hb Hh Hl Ht He] Hn Hx. unfold kb_queue, drop_len, bump_head. cbn.
  rewrite (drop_S _ _ _ Hx).
  replace (Z.to_nat (kb_len k)) with (S (Z.to_nat (kb_len k - 1))) by lia. cbn [firstn].
  by replace (Z.to_nat (kb_head k + 1)) with (S (Z.to_nat (kb_head k))) by lia.
Qed.

Lemma kb_get_key_done x m :
  kb_ok (keyboard m) → kb_len (keyboard m) ≠ 0 →
  kb_buff (keyboard m) !! Z.to_nat (kb_head (keyboard m)) = Some x →
  kb_get_key m = Done (Some x) (on_keyboard drop_len (on_keyboard bump_head m)).
Proof.
  intros [Hb Hh Hl Ht He] Hn Hx. unfold KB_ELEMENTS in *. unfold kb_get_key, KB_BUFF_SIZEOF. msteps.
  destruct (Z.eqb_spec (kb_len (keyboard m)) 0); [done|]. msteps.
  run (array_get_lookup _ _ _ m Hh Hx). unfold modify. msteps.
  rewrite !u32_small by word_lia. by rewrite (Z.mod_small _ 32768) by lia.
Qed.

(** Up to the load of [len] in [keyboard.len--]: the two stores have not met
    in the ring yet, but the interrupts so far may as well have come first. *)
Lemma kb_get_key_at_reads interrupt n0 n1 n2 x m :
  interrupt 0%nat = key_irqs n0 → interrupt 1%nat = key_irqs n1 → interrupt 2%nat = key_irqs n2 →
  kb_ok (keyboard m) → kb_len (keyboard m) ≠ 0 →
  kb_tail (keyboard m) + Z.of_nat (n0 + n1 + n2) <= KB_ELEMENTS → plain_keys (n0 + n1 + n2) m →
  kb_buff (keyboard m) !! Z.to_nat (kb_head (keyboard m)) = Some x →
  let m1 := Nat.iter (n0 + n1 + n2) irq_done m in
  kb_get_key_at interrupt m =
    (interrupt 3%nat;; mod_keyboard (set_kb_len (kb_len (keyboard m1) [-] 1));;
     interrupt 4%nat;; mret (Some x)) (on_keyboard bump_head m1).
Proof.
  intros E0 E1 E2 Hok Hn Hroom Hp Hx m1. pose proof Hok as [Hb Hh Hl Ht He].
  unfold KB_ELEMENTS in *.
  pose proof (kb_ok_room _ _ Hok Hroom) as Hr.
  pose proof (room_weaken n0 Hr ltac:(lia)) as Hr0.
  pose proof (room_weaken (n0 + n1) Hr ltac:(lia)) as Hr1.
  pose proof (room_irqs (n0 + n1) n2 m Hr) as Hr2. pose proof (room_irqs n0 n1 m Hr1) as Hra.
  apply plain_keys_add in Hp as [[Hp0 Hp1]%plain_keys_add Hp2].
  assert (0 <= kb_head (keyboard m) < kb_tail (keyboard m)) as Hi by lia.
  destruct (irqs_read n0 m _ Hr0 Hi) as (H1 & H2 & _). rewrite Hx in H2.
  destruct (irqs_read (n0 + n1) m _ Hr1 Hi) as (G1 & _).
  assert (Nat.iter n1 irq_done (Nat.iter n0 irq_done m) = Nat.iter (n0 + n1) irq_done m) as Eb
    by (rewrite (Nat.add_comm n0 n1); symmetry; apply Nat.iter_add).
  assert (Nat.iter n2 irq_done (Nat.iter (n0 + n1) irq_done m) = m1) as Ec
    by (unfold m1; rewrite (Nat.add_comm (n0 + n1) n2); symmetry; apply Nat.iter_add).
  unfold kb_get_key_at, KB_BUFF_SIZEOF. rewrite E0, E1, E2. msteps. run (key_irqs_done n0 m Hr0 Hp0).
  destruct (Z.eqb_spec (kb_len (keyboard m)) 0); [done|]. msteps. rewrite H1.
  run (array_get_lookup _ _ _ (Nat.iter n0 irq_done m) Hh H2).
  run (key_irqs_done n1 _ Hra Hp1). rewrite Eb. msteps.
  rewrite G1, u32_small by word_lia. rewrite (Z.mod_small _ 32768) by lia. rewrite <- G1.
  fold (bump_head (keyboard (Nat.iter (n0 + n1) irq_done m))).
  fold (on_keyboard bump_head (Nat.iter (n0 + n1) irq_done m)).
  pose proof (proj2 (plain_keys_unseen _ bump_head_unseen n2 _) Hp2) as Hp3.
  run (key_irqs_done n2 (on_keyboard bump_head (Nat.iter (n0 + n1) irq_done m))
    ltac:(destruct Hr2; by split) Hp3).
  rewrite (irqs_unseen _ bump_head_unseen), Ec. by msteps.
Qed.

Lemma first_element k :
  kb_ok k → kb_len k ≠ 0 → ∃ x, kb_buff k !! Z.to_nat (kb_head k) = Some x.
Proof.
  intros [Hb Hh Hl Ht He] Hn. unfold KB_ELEMENTS in *. apply lookup_lt_is_Some_2. lia.
Qed.

(** Interrupts behind both stores. *)
Lemma irqs_after_get n m :
  key_room n (keyboard m) → kb_len (keyboard m) ≠ 0 → plain_keys n m →
  key_irqs n (on_keyboard drop_len (on_keyboard bump_head m)) =
    Done tt (on_keyboard drop_len (on_keyboard bump_head (Nat.iter n irq_done m))).
Proof.
  intros [Hb Ht Hl] Hn Hp. rewrite key_irqs_done.
  - by rewrite (irqs_unseen _ drop_len_unseen), (irqs_unseen _ bump_head_unseen).
  - cbn. split; cbn; lia.
  - by rewrite (plain_keys_unseen _ drop_len_unseen), (plain_keys_unseen _ bump_head_unseen).
Qed.

Lemma kb_ok_read k : kb_ok k → kb_len k ≠ 0 → kb_ok (drop_len (bump_head k)).
Proof. intros [Hb Hh Hl Ht He] Hn. by split; cbn; try lia. Qed.

(** The ring when a key came between the load and the store of [len]. *)
Definition behind (c : Z) (k : keyboard_state) : keyboard_state :=
  set_kb_len (kb_len k - 1) (bump_head (kb_add c k)).

Lemma behind_queue c k :
  kb_ok k → kb_len k ≠ 0 → kb_queue (behind c k) = kb_queue (drop_len (bump_head k)).
Proof.
  intros [Hb Hh Hl Ht He] Hn. unfold kb_queue, behind, bump_head, drop_len, kb_add. cbn.
  rewrite drop_insert_ge by lia. by rewrite take_insert_ge by lia.
Qed.

(** ** The ring once it has lost a key

    The handler's [switch] and the console's reads, in any order. *)
Inductive late_op : Type :=
| Handle (c : Z)       (* a key is pressed, decoded to [c] *)
| Read.                (* kb_get_key *)

Definition late_do (o : late_op) : M (option key) :=
  match o with
  | Handle c => handle_key c;; mret None
  | Read => kb_get_key
  end.

Fixpoint late_run (os : list late_op) : M (list (option key)) :=
  match os with
  | [] => mret []
  | o :: os' => r ← late_do o; rs ← late_run os'; mret (r :: rs)
  end.

(** A queue that holds the last key back until the next one is stored. *)
Record late : Type := Late {
  lt_state : kb_state_t;    (* the modifiers *)
  lt_held : key;            (* the key held back *)
  lt_queue : list key
}.

Definition late_step (o : late_op) (l : late) : option key * late :=
  let 'Late s h q := l in
  match o, q with
  | Handle c, _ =>
      (None, if stored c then Late s (Key s c) (q ++ [h]) else Late (fst (press c s [])) h q)
  | Read, [] => (None, l)
  | Read, k :: q' => (Some k, Late s h q')
  end.

Fixpoint late_steps (os : list late_op) (l : late) : list (option key) * late :=
  match os with
  | [] => ([], l)
  | o :: os' =>
      let '(r, l1) := late_step o l in
      let '(rs, l2) := late_steps os' l1 in (r :: rs, l2)
  end.

(** The ring without the element in front of its tail is a ring; that element
    is the key held back. *)
Record lags (l : late) (k : keyboard_state) : Prop := {
  lg_ok : kb_ok (set_kb_tail (kb_tail k - 1) k);
  lg_state : kb_state k = lt_state l;
  lg_held : kb_buff k !! Z.to_nat (kb_tail k - 1) = Some (lt_held l);
  lg_queue : kb_queue k = lt_queue l
}.

Lemma behind_lags c k :
  kb_ok k → kb_len k ≠ 0 → kb_tail k < KB_ELEMENTS →
  lags (Late (kb_state k) (Key (kb_state k) c) (kb_queue (drop_len (bump_head k)))) (behind c k).
Proof.
  intros Hok Hn Hlt. split; cbn [lt_state lt_held lt_queue]; [|done| |by apply behind_queue].
  - destruct Hok as [Hb Hh Hl Ht He]. split; cbn; rewrite ?length_insert; lia.
  - destruct Hok as [Hb Hh Hl Ht He]. cbn.
    rewrite Z.add_simpl_r. apply list_lookup_insert_eq. lia.
Qed.

(** Storing a key puts the one held back in the queue. *)
Lemma lags_add l c k :
  lags l k → kb_tail k < KB_ELEMENTS →
  lags (Late (lt_state l) (Key (lt_state l) c) (lt_queue l ++ [lt_held l])) (kb_add c k).
Proof.
  intros [[Hb Hh Hl Ht He] Hs Hx Hq] Hlt. cbn in Hb, Hh, Hl, Ht, He. unfold KB_ELEMENTS in *.
  split; cbn [lt_state lt_held lt_queue kb_add kb_tail kb_buff kb_state].
  - split; cbn; rewrite ?length_insert; unfold KB_ELEMENTS; lia.
  - done.
  - rewrite Z.add_simpl_r, list_lookup_insert_eq by lia. by rewrite Hs.
  - rewrite <- Hq. unfold kb_queue. cbn. rewrite drop_insert_ge by lia.
    rewrite take_insert_ge by lia.
    replace (Z.to_nat (kb_len k + 1)) with (S (Z.to_nat (kb_len k))) by lia.
    apply take_S_r. rewrite lookup_drop. rewrite <- Hx. f_equal. lia.
Qed.

Lemma lags_handle l c k :
  lags l k → kb_tail k < KB_ELEMENTS → lags (snd (late_step (Handle c) l)) (kb_handle c k).
Proof.
  intros HL Hlt. unfold kb_handle. destruct l as [s h q]. cbn [late_step snd].
  destruct (stored c); [by apply (lags_add (Late s h q))|].
  destruct HL as [[H1 H2 H3 H4 H5] Hs Hx Hq]. cbn in *. split; cbn; try done.
  by rewrite Hs.
Qed.

Lemma lags_room l k : lags l k → kb_tail k < KB_ELEMENTS → key_room 1 k.
Proof.
  intros [[H1 H2 H3 H4 H5] _ _ _] Hlt. cbn in *. split; [done|lia|lia].
Qed.

(** A read takes from the queue. *)
Lemma lags_read l m :
  lags l (keyboard m) →
  ∃ k, kb_get_key m = Done (fst (late_step Read l)) (set_keyboard k m) ∧
    lags (snd (late_step Read l)) k ∧ kb_tail k = kb_tail (keyboard m).
Proof.
  intros HL. pose proof HL as [Hok Hs Hx Hq]. destruct l as [s h q]. cbn in Hs, Hx, Hq.
  destruct (Z.eq_dec (kb_len (keyboard m)) 0) as [H0|H0].
  - exists (keyboard m). rewrite kb_get_key_None by done. unfold kb_queue in Hq.
    rewrite H0 in Hq. cbn in Hq. subst q. cbn. split_and!; [by destruct m|done|done].
  - destruct (first_element _ Hok H0) as [x Hf]. cbn in Hf.
    destruct Hok as [Hb Hh Hl Ht He]. cbn in Hb, Hh, Hl, Ht, He. unfold KB_ELEMENTS in *.
    assert (kb_queue (keyboard m) = x :: kb_queue (drop_len (bump_head (keyboard m)))) as E.
    { unfold kb_queue, drop_len, bump_head. cbn. rewrite (drop_S _ _ _ Hf).
      replace (Z.to_nat (kb_len (keyboard m))) with (S (Z.to_nat (kb_len (keyboard m) - 1))) by lia.
      cbn [firstn]. by replace (Z.to_nat (kb_head (keyboard m) + 1))
        with (S (Z.to_nat (kb_head (keyboard m)))) by lia. }
    rewrite E in Hq. subst q. exists (drop_len (bump_head (keyboard m))).
    split_and!; [|split; cbn; try done; split; cbn; unfold KB_ELEMENTS; lia|done].
    unfold kb_get_key, KB_BUFF_SIZEOF. msteps.
    destruct (Z.eqb_spec (kb_len (keyboard m)) 0); [done|]. msteps.
    run (array_get_lookup _ _ _ m Hh Hf). unfold modify. msteps.
    rewrite !u32_small by word_lia. by rewrite (Z.mod_small _ 32768) by lia.
Qed.

(** Any number of presses and reads. *)
Lemma late_run_ok os l m :
  lags l (keyboard m) → kb_tail (keyboard m) + Z.of_nat (length os) <= KB_ELEMENTS →
  ∃ m', late_run os m = Done (fst (late_steps os l)) m' ∧
    lags (snd (late_steps os l)) (keyboard m').
Proof.
  revert l m. induction os as [|o os IH]; intros l m HL Ht; cbn [late_run late_steps length] in *.
  { by exists m. }
  assert (∃ k, late_do o m = Done (fst (late_step o l)) (set_keyboard k m) ∧
    lags (snd (late_step o l)) k ∧ kb_tail k <= kb_tail (keyboard m) + 1) as (k & E & HL' & Ht').
  { destruct o as [c|].
    - assert (kb_tail (keyboard m) < KB_ELEMENTS) as Hlt by lia. exists (kb_handle c (keyboard m)).
      cbn [late_do]. run (handle_key_room c m (lags_room l _ HL Hlt)).
      split_and!; [by destruct l|by apply lags_handle|].
      unfold kb_handle. destruct (stored c); cbn; lia.
    - destruct (lags_read l m HL) as (k & E & HL' & Et). exists k. split_and!; [done..|lia]. }
  run E. destruct (IH (snd (late_step o l)) (set_keyboard k m) HL') as (m' & E' & L'); [cbn; lia|].
  run E'. destruct (late_step o l) as [r l1]. cbn [fst snd] in *.
  destruct (late_steps os l1) as [rs l2]. exists m'. done.
Qed.

(** What that specification says of presses alone: each brings the one before. *)
Lemma late_steps_presses s h q cs :
  Forall (λ c, stored c = true) cs →
  lt_queue (snd (late_steps (Handle <$> cs) (Late s h q))) =
    q ++ removelast (h :: (Key s <$> cs)).
Proof.
  revert h q. induction cs as [|c cs IH]; intros h q Hc; [by rewrite app_nil_r|].
  apply Forall_cons in Hc as [H1 Hc]. cbn [fmap list_fmap late_steps late_step]. rewrite H1.
  specialize (IH (Key s c) (q ++ [h]) Hc). fold (Handle <$> cs) (Key s <$> cs) in *.
  destruct (late_steps (Handle <$> cs) _) as [rs l]. cbn [snd] in *. rewrite IH.
  by rewrite <- app_assoc.
Qed.

(** ** Properties *)

(** C20: [kb_get_key] is atomic for the keyboard's interrupts.  However many
    of them arrive at the points between its accesses, except between the load
    and the store of [keyboard.len--], the call and the interrupts together do
    what the call followed by the interrupts does, to every part of the
    machine; the key it returns is the oldest of the queue when it began. *)
Theorem kb_get_key_atomic n m :
  let total := (n 0 + n 1 + n 2 + n 4)%nat in
  kb_ok (keyboard m) → n 3%nat = 0%nat →
  kb_tail (keyboard m) + Z.of_nat total <= KB_ELEMENTS → plain_keys total m →
  ∃ m', kb_get_key_at (λ i, key_irqs (n i)) m = Done (head (kb_queue (keyboard m))) m' ∧
    (r ← kb_get_key;
     key_irqs (if kb_len (keyboard m) =? 0 then n 0%nat else total);;
     mret r) m = Done (head (kb_queue (keyboard m))) m'.
Proof.
  intros total Hok H3 Hroom Hp. subst total.
  pose proof (kb_ok_room _ _ Hok Hroom) as Hr.
  destruct (Z.eqb_spec (kb_len (keyboard m)) 0) as [H0|H0].
  - unfold kb_queue. rewrite H0. run (kb_get_key_None m H0). unfold kb_get_key_at. msteps. rewrite H0.
    rewrite <- !Nat.add_assoc in Hp. apply plain_keys_add in Hp as [Hp _].
    pose proof (room_weaken (n 0%nat) Hr ltac:(lia)) as Hr0.
    rewrite !(bind_done _ _ _ _ _ (key_irqs_done _ _ Hr0 Hp)). eexists. by split.
  - destruct (first_element _ Hok H0) as [x Hx].
    rewrite (kb_queue_head x _ Hok H0 Hx). cbn [head].
    apply plain_keys_add in Hp as [Hp Hp4].
    rewrite (kb_get_key_at_reads _ (n 0%nat) (n 1%nat) (n 2%nat) x m) by (done || lia).
    set (n3 := (n 0 + n 1 + n 2)%nat) in *. set (m1 := Nat.iter n3 irq_done m) in *.
    pose proof (room_irqs n3 (n 4%nat) m Hr) as Hr4. fold m1 in Hr4.
    rewrite H3. cbn [key_irqs]. msteps.
    destruct Hok as [Hb Hh Hl Ht He]. unfold KB_ELEMENTS in *.
    destruct (irqs_read n3 m 0 (room_weaken n3 Hr ltac:(lia)) ltac:(lia))
      as (_ & _ & Hlen). fold m1 in Hlen.
    rewrite u32_small by word_lia.
    change (set_keyboard (set_kb_len (kb_len (keyboard m1) - 1) (keyboard (on_keyboard bump_head m1)))
      (on_keyboard bump_head m1)) with (on_keyboard drop_len (on_keyboard bump_head m1)).
    rewrite (bind_done _ _ _ _ _ (irqs_after_get _ m1 Hr4 ltac:(lia) Hp4)).
    eexists. split; [reflexivity|].
    run (kb_get_key_done x m ltac:(by split) H0 Hx).
    rewrite (bind_done _ _ _ _ _ (irqs_after_get _ m Hr H0 (proj2 (plain_keys_add _ _ _) (conj Hp Hp4)))).
    unfold m1. by rewrite (Nat.add_comm n3), Nat.iter_add.
Qed.

(** A keyboard with two keys in its ring, on which A is being pressed. *)
Definition two_waiting : machine :=
  on_keyboard (λ k, kb_add 121 (kb_add 120 k)) key_waiting.

Lemma two_waiting_ok : kb_ok (keyboard two_waiting).
Proof. by split; vm_compute. Qed.

(** Presses at points 1 and 4. *)
Lemma kb_get_key_atomic_witness :
  ∃ m', kb_get_key_at (λ i, key_irqs (if (i =? 1)%nat || (i =? 4)%nat then 1 else 0)) two_waiting =
      Done (head (kb_queue (keyboard two_waiting))) m' ∧
    (r ← kb_get_key;
     key_irqs (if kb_len (keyboard two_waiting) =? 0 then 0 else 2);;
     mret r) two_waiting = Done (head (kb_queue (keyboard two_waiting))) m'.
Proof.
  apply (kb_get_key_atomic (λ i, if (i =? 1)%nat || (i =? 4)%nat then 1%nat else 0%nat) two_waiting).
  - exact two_waiting_ok.
  - reflexivity.
  - by vm_compute.
  - change (plain_keys 2 two_waiting). cbn [plain_keys]. unfold plain_key.
    split_and!; try exact I; first [by vm_compute | intros [H _]; by vm_compute in H].
Defined.

(** C33: a key is lost between the load and the store of [keyboard.len--].
    One press there stores its key, but the count the call writes back does
    not include it.  From then on the ring is a queue that holds its last key
    back: whatever presses and reads follow, up to the end of the array, a read
    finds only the keys in front of it, and every key that is stored brings the
    key before it into the queue instead of itself. *)
Theorem kb_get_key_loses_key m :
  kb_ok (keyboard m) → kb_len (keyboard m) ≠ 0 → kb_tail (keyboard m) + 2 <= KB_ELEMENTS →
  plain_key m → stored (pressed_key m) = true →
  ∃ x q m', kb_queue (keyboard m) = x :: q ∧
    kb_get_key_at (λ i, key_irqs (if (i =? 3)%nat then 1 else 0)) m = Done (Some x) m' ∧
    kb_queue (keyboard m') = q ∧
    ∀ os, kb_tail (keyboard m) + 1 + Z.of_nat (length os) <= KB_ELEMENTS →
      let held := Key (kb_state (keyboard m)) (pressed_key m) in
      let '(rs, l) := late_steps os (Late (kb_state (keyboard m)) held q) in
      ∃ m'', late_run os m' = Done rs m'' ∧ kb_queue (keyboard m'') = lt_queue l.
Proof.
  intros Hok H0 Ht Hp Hs. destruct (first_element _ Hok H0) as [x Hx].
  pose proof (kb_ok_room 2 _ Hok Ht) as Hr.
  exists x, (kb_queue (drop_len (bump_head (keyboard m)))).
  rewrite (kb_get_key_at_reads _ 0 0 0 x m) by (done || lia). cbn [Nat.iter nat_rect Nat.add].
  cbv beta iota zeta. change (3 =? 3)%nat with true. change (4 =? 3)%nat with false. cbv iota.
  assert (key_room 1 (keyboard (on_keyboard bump_head m))) as Hr1.
  { destruct Hr as [Hb Htl Hl]. split; cbn; lia. }
  rewrite (bind_done _ _ _ _ _ (key_irqs_done 1 _ Hr1
    (proj2 (plain_keys_unseen _ bump_head_unseen 1 m) (conj Hp I)))).
  cbn [Nat.iter nat_rect key_irqs]. rewrite (irq_done_unseen _ bump_head_unseen). msteps.
  assert (keyboard (irq_done m) = kb_add (pressed_key m) (keyboard m)) as Ek
    by (cbn; unfold kb_handle; by rewrite Hs).
  assert (keyboard (set_keyboard (set_kb_len (kb_len (keyboard m) [-] 1)
    (keyboard (on_keyboard bump_head (irq_done m)))) (on_keyboard bump_head (irq_done m))) =
    behind (pressed_key m) (keyboard m)) as Eb.
  { cbn [keyboard set_keyboard on_keyboard]. rewrite Ek. unfold behind. f_equal.
    destruct Hok as [Hb Hh Hl Htl He]. unfold KB_ELEMENTS in *. apply u32_small. word_lia. }
  eexists. split_and!; [by apply kb_queue_head|reflexivity|rewrite Eb; by apply behind_queue|].
  intros os Hos.
  pose proof (behind_lags (pressed_key m) _ Hok H0 ltac:(lia)) as HL. rewrite <- Eb in HL.
  epose proof (late_run_ok os _ _ HL) as (m'' & E & L'); [rewrite Eb; cbn; lia|].
  destruct (late_steps os _) as [rs l]. exists m''.
  split; [exact E|apply L'].
Qed.

Lemma kb_get_key_loses_key_witness :
  let held := Key (kb_state (keyboard two_waiting)) (pressed_key two_waiting) in
  ∃ x q m', kb_queue (keyboard two_waiting) = x :: q ∧
    kb_get_key_at (λ i, key_irqs (if (i =? 3)%nat then 1 else 0)) two_waiting = Done (Some x) m' ∧
    kb_queue (keyboard m') = q ∧
    ∀ os, kb_tail (keyboard two_waiting) + 1 + Z.of_nat (length os) <= KB_ELEMENTS →
      let '(rs, l) := late_steps os (Late (kb_state (keyboard two_waiting)) held q) in
      ∃ m'', late_run os m' = Done rs m'' ∧ kb_queue (keyboard m'') = lt_queue l.
Proof.
  apply (kb_get_key_loses_key two_waiting); [exact two_waiting_ok|by vm_compute|by vm_compute| |].
  - unfold plain_key. split; [by vm_compute|]. intros [H _]. by vm_compute in H.
  - by vm_compute.
Defined.
