(* ===== verification/Gdt.v ===== *)
(** * Segment descriptors: kernel/memory/gdt.c

    The packed [struct gdt_entry] with its bit-fields is a record; its layout
    is the list of its 8 bytes. *)

From S2P Require Import Prelude Machine.

Definition GDT_KERNEL_CODE_SEG : Z := 0x08.
Definition GDT_KERNEL_DATA_SEG : Z := 0x10.
Definition GDT_TSS_SEG : Z := 0x18.
Definition GDT_USER_CODE_SEG : Z := 0x23.
Definition GDT_USER_DATA_SEG : Z := 0x2B.

(** [sizeof(tss_region)]: 104 bytes rounded up to the alignment of 128. *)
Definition TSS_SIZEOF : Z := 128.

(** [*(struct access_byte * )&b] and [*(struct limit_and_flags * )&b] *)
Definition access_byte_of (b : Z) : access_byte :=
  AccessByte (Z.testbit b 0) (Z.testbit b 1) (Z.testbit b 2) (Z.testbit b 3)
    (Z.testbit b 4) (b / 32 mod 4) (Z.testbit b 7).

Definition limit_and_flags_of (b : Z) : limit_and_flags :=
  LimitAndFlags (b mod 16) (Z.testbit b 4) (Z.testbit b 5) (Z.testbit b 6) (Z.testbit b 7).

Definition gdt_create_entry (segment_limit base access_byte flags : Z) : gdt_entry :=
  let flags_and_limit :=
    u8 (Z.lor (Z.land (Z.shiftr segment_limit 16) 0x0F)
              (Z.land (Z.shiftl (u8 flags) 4) 0xF0)) in
  GdtEntry (u16 (Z.land 0xFFFF segment_limit))
    (u16 (Z.land 0x00FFFF base))
    (u8 (Z.shiftr (Z.land 0xFF0000 base) 16))
    (access_byte_of (u8 access_byte))
    (limit_and_flags_of flags_and_limit)
    (u8 (Z.shiftr (Z.land base 0xFF000000) 24)).

(** [global_descriptor_table\[i\] = entry] *)
Definition gdt_set (i : Z) (entry : gdt_entry) : M unit :=
  t ← gets_gdt global_descriptor_table;
  t' ← array_set t i entry;
  mod_gdt (set_global_descriptor_table t').

(** An assignment to a field of [tss_region]. *)
Definition tss_set (f : tss → tss) : M unit := mod_gdt (λ g, set_tss_region (f (tss_region g)) g).

Section Gdt.
Context `{L : Layout}.

Definition gdt_init : M Z :=
  gdt_set 0 (gdt_create_entry 0 0 0 0);;
  gdt_set 1 (gdt_create_entry 0xFFFFF 0 0x9A 0xC);;
  gdt_set 2 (gdt_create_entry 0xFFFFF 0 0x92 0xC);;
  gdt_set 3 (gdt_create_entry TSS_SIZEOF tss_region_addr 0x89 0);;
  gdt_set 4 (gdt_create_entry 0xFFFFF 0 0xFA 0xC);;
  gdt_set 5 (gdt_create_entry 0xFFFFF 0 0xF2 0xC);;
  let num_gdt_entires := 6 in
  mod_gdt (set_gdt_descriptor_size (u16 (num_gdt_entires * 8)));;
  mod_gdt (set_gdt_descriptor_addr global_descriptor_table_addr);;
  tss_set (set_tss_ss0 GDT_KERNEL_DATA_SEG);;
  mret gdt_descriptor_at.
End Gdt.

Definition gdt_update_tss (user_kernel_stack : Z) : M unit :=
  tss_set (set_tss_esp0 user_kernel_stack).

(** ** The layout of a descriptor *)

Definition access_byte_bits (a : access_byte) : Z :=
  Z.b2z (ab_accessed a) + 2 * Z.b2z (ab_r_w a) + 4 * Z.b2z (ab_dc a) + 8 * Z.b2z (ab_e a)
  + 16 * Z.b2z (ab_s a) + 32 * ab_dpl a + 128 * Z.b2z (ab_p a).

Definition limit_and_flags_bits (f : limit_and_flags) : Z :=
  lf_segment_limit_2 f + 16 * Z.b2z (lf_res f) + 32 * Z.b2z (lf_l f) + 64 * Z.b2z (lf_db f)
  + 128 * Z.b2z (lf_g f).

Definition gdt_entry_bytes (e : gdt_entry) : list Z :=
  [ u8 (ge_segment_limit_1 e); u8 (ge_segment_limit_1 e / 256);
    u8 (ge_base_1 e); u8 (ge_base_1 e / 256); ge_base_2 e;
    access_byte_bits (ge_access_byte e); limit_and_flags_bits (ge_limit_and_flags e);
    ge_base_3 e ].

(** What the processor reads from the bytes. *)

Definition byte_of (d : list Z) (i : nat) : Z := default 0 (d !! i).

Definition descriptor_limit (d : list Z) : Z :=
  byte_of d 0 + 256 * byte_of d 1 + 65536 * (byte_of d 6 mod 16).

Definition descriptor_base (d : list Z) : Z :=
  byte_of d 2 + 256 * byte_of d 3 + 65536 * byte_of d 4 + 16777216 * byte_of d 7.

Definition descriptor_access (d : list Z) : Z := byte_of d 5.

Definition descriptor_flags (d : list Z) : Z := byte_of d 6 / 16.

(** ** Lemmas *)

Lemma land_low x n : 0 <= n → Z.land (Z.ones n) x = x mod 2 ^ n.
Proof. intros Hn. rewrite Z.land_comm. by apply Z.land_ones. Qed.

Lemma lor_low_high a f n : 0 <= n → 0 <= a < 2 ^ n → Z.lor a (Z.shiftl f n) = a + 2 ^ n * f.
Proof.
  intros Hn Ha.
  assert (Z.land a (Z.shiftl f n) = 0) as Hl.
  { apply Z.bits_inj'. intros i Hi. rewrite Z.land_spec, Z.bits_0, Z.shiftl_spec by lia.
    destruct (Z.lt_ge_cases i n).
    - rewrite (Z.testbit_neg_r f) by lia. apply andb_false_r.
    - rewrite <- (Z.mod_small a (2 ^ n)) by lia. by rewrite Z.mod_pow2_bits_high by lia. }
  pose proof (Z.add_lor_land a (Z.shiftl f n)) as H.
  rewrite Z.shiftl_mul_pow2 in * by lia. lia.
Qed.

Lemma access_byte_bits_of b : 0 <= b < 256 → access_byte_bits (access_byte_of b) = b.
Proof.
  intros Hb. unfold access_byte_bits, access_byte_of.
  cbn [ab_accessed ab_r_w ab_dc ab_e ab_s ab_dpl ab_p]. rewrite !b2z_testbit by lia.
  change (2 ^ 0) with 1. change (2 ^ 1) with 2. change (2 ^ 2) with 4.
  change (2 ^ 3) with 8. change (2 ^ 4) with 16. change (2 ^ 7) with 128. mlia.
Qed.

Lemma limit_and_flags_bits_of b :
  0 <= b < 256 → limit_and_flags_bits (limit_and_flags_of b) = b.
Proof.
  intros Hb. unfold limit_and_flags_bits, limit_and_flags_of.
  cbn [lf_segment_limit_2 lf_res lf_l lf_db lf_g]. rewrite !b2z_testbit by lia.
  change (2 ^ 4) with 16. change (2 ^ 5) with 32. change (2 ^ 6) with 64.
  change (2 ^ 7) with 128. mlia.
Qed.

Lemma access_byte_of_bits a : 0 <= ab_dpl a < 4 → access_byte_of (access_byte_bits a) = a.
Proof.
  destruct a as [b0 b1 b2 b3 b4 dpl b7]. cbn [ab_dpl]. intros Hd.
  assert (dpl = 0 ∨ dpl = 1 ∨ dpl = 2 ∨ dpl = 3) as [->|[->|[->| ->]]] by lia;
    by destruct b0, b1, b2, b3, b4, b7.
Qed.

Lemma limit_and_flags_of_bits f :
  0 <= lf_segment_limit_2 f < 16 → limit_and_flags_of (limit_and_flags_bits f) = f.
Proof.
  destruct f as [n b0 b1 b2 b3]. cbn [lf_segment_limit_2]. intros Hn.
  unfold limit_and_flags_of, limit_and_flags_bits.
  cbn [lf_segment_limit_2 lf_res lf_l lf_db lf_g].
  f_equal; [destruct b0, b1, b2, b3; cbn [Z.b2z]; mlia|..];
    (apply testbit_b2z; [lia|]); destruct b0, b1, b2, b3; cbn [Z.b2z];
    rewrite ?(Z.pow_pos_fold 2); change (2 ^ 4) with 16; change (2 ^ 5) with 32;
    change (2 ^ 6) with 64; change (2 ^ 7) with 128; mlia.
Qed.

(** Every field of a descriptor comes back. *)
Lemma gdt_create_entry_fields limit base access flags :
  0 <= limit < 1048576 → word base → 0 <= access < 256 → 0 <= flags < 16 →
  let d := gdt_entry_bytes (gdt_create_entry limit base access flags) in
  length d = 8%nat ∧ Forall (λ b, 0 <= b < 256) d ∧
  descriptor_limit d = limit ∧ descriptor_base d = base ∧
  descriptor_access d = access ∧ descriptor_flags d = flags.
Proof.
  intros Hl Hb Ha Hf. unfold word, W32 in Hb. cbv zeta. unfold gdt_create_entry. cbv zeta.
  assert (Z.land (Z.shiftl (u8 flags) 4) 0xF0 = Z.shiftl flags 4) as Ef.
  { unfold u8. rewrite (Z.mod_small flags) by lia.
    change 0xF0 with (Z.shiftl (Z.ones 4) 4). rewrite <- Z.shiftl_land.
    rewrite Z.land_ones, Z.mod_small by lia. done. }
  assert (Z.land (Z.shiftr limit 16) 0x0F = limit / 65536) as El.
  { change 0x0F with (Z.ones 4). rewrite Z.land_ones, Z.shiftr_div_pow2 by lia.
    change (2 ^ 16) with 65536. change (2 ^ 4) with 16. mlia. }
  assert (Z.shiftr (Z.land 0xFF0000 base) 16 = base / 65536 mod 256) as E2.
  { rewrite Z.shiftr_land. change (Z.shiftr 0xFF0000 16) with (Z.ones 8).
    rewrite land_low, Z.shiftr_div_pow2 by lia. done. }
  assert (Z.shiftr (Z.land base 0xFF000000) 24 = base / 16777216) as E3.
  { rewrite Z.shiftr_land. change (Z.shiftr 0xFF000000 24) with (Z.ones 8).
    rewrite Z.land_ones, Z.shiftr_div_pow2 by lia.
    change (2 ^ 24) with 16777216. change (2 ^ 8) with 256. mlia. }
  rewrite Ef, El, E2, E3. change 0xFFFF with (Z.ones 16). rewrite !land_low by lia.
  rewrite lor_low_high by (lia || change (2 ^ 4) with 16; mlia).
  unfold gdt_entry_bytes. cbn [ge_segment_limit_1 ge_base_1 ge_base_2 ge_access_byte
    ge_limit_and_flags ge_base_3].
  rewrite access_byte_bits_of by (apply Z.mod_pos_bound; lia).
  rewrite limit_and_flags_bits_of by (apply Z.mod_pos_bound; lia).
  change (2 ^ 16) with 65536. change (2 ^ 4) with 16.
  unfold descriptor_limit, descriptor_base, descriptor_access, descriptor_flags, byte_of. cbn.
  unfold u8, u16. split_and!; [done| |mlia..].
  repeat (apply Forall_cons; split; [apply Z.mod_pos_bound; lia|]). constructor.
Qed.

Lemma gdt_set_ok i entry m :
  0 <= i < Z.of_nat (length (global_descriptor_table (gdt m))) →
  gdt_set i entry m = Done tt (set_gdt (set_global_descriptor_table
    (<[Z.to_nat i := entry]> (global_descriptor_table (gdt m))) (gdt m)) m).
Proof.
  intros Hi. unfold gdt_set. msteps. by run (array_set_insert _ _ entry m Hi).
Qed.

(** ** Properties *)

(** What a segment of the flat model looks like: 4 GiB from 0 in 4 KiB
    units, with the given access byte. *)
Definition flat_segment (access : Z) (d : list Z) : Prop :=
  descriptor_base d = 0 ∧ descriptor_limit d = 0xFFFFF ∧ descriptor_flags d = 0xC ∧
  descriptor_access d = access.

(** The state [gdt_init] leaves. *)
Definition flat_entries `{L : Layout} : list gdt_entry :=
  [ gdt_create_entry 0 0 0 0; gdt_create_entry 0xFFFFF 0 0x9A 0xC;
    gdt_create_entry 0xFFFFF 0 0x92 0xC; gdt_create_entry TSS_SIZEOF tss_region_addr 0x89 0;
    gdt_create_entry 0xFFFFF 0 0xFA 0xC; gdt_create_entry 0xFFFFF 0 0xF2 0xC ].

Definition flat_model `{L : Layout} (g : gdt_state) : gdt_state :=
  GdtState (flat_entries ++ drop 6 (global_descriptor_table g))
    48 global_descriptor_table_addr (set_tss_ss0 GDT_KERNEL_DATA_SEG (tss_region g)).

Lemma insert_six {A} (a b c d e f : A) l :
  (6 <= length l)%nat →
  <[5%nat := f]> (<[4%nat := e]> (<[3%nat := d]> (<[2%nat := c]> (<[1%nat := b]>
    (<[0%nat := a]> l))))) = [a; b; c; d; e; f] ++ drop 6 l.
Proof. intros Hl. by do 6 (destruct l as [|? l]; [cbn in Hl; lia|]). Qed.

Lemma gdt_init_ok `{L : Layout} m :
  length (global_descriptor_table (gdt m)) = 64%nat →
  gdt_init m = Done gdt_descriptor_at (set_gdt (flat_model (gdt m)) m).
Proof.
  intros Hl. unfold gdt_init, flat_model, flat_entries.
  repeat (erewrite bind_done; [|apply gdt_set_ok; cbn [gdt set_gdt global_descriptor_table
    set_global_descriptor_table]; rewrite ?length_insert, Hl; lia]).
  unfold tss_set, modify, mod_gdt. cbn [gdt set_gdt global_descriptor_table
    set_global_descriptor_table set_gdt_descriptor_size set_gdt_descriptor_addr].
  msteps. cbn [gdt set_gdt]. unfold set_tss_region. cbn [gdt set_gdt global_descriptor_table
    set_global_descriptor_table set_gdt_descriptor_size set_gdt_descriptor_addr tss_region
    gdt_descriptor_size gdt_descriptor_addr].
  change (Z.to_nat 0) with 0%nat. change (Z.to_nat 1) with 1%nat.
  change (Z.to_nat 2) with 2%nat. change (Z.to_nat 3) with 3%nat.
  change (Z.to_nat 4) with 4%nat. change (Z.to_nat 5) with 5%nat.
  rewrite insert_six by lia. reflexivity.
Qed.

(** C28: [gdt_init] builds the flat model: a null descriptor, code and data
    segments for ring 0 and ring 3 that span the address space, and a
    descriptor for the task-state segment at its address; it sets the ring 0
    stack segment and returns the address of the table's descriptor. *)
Theorem gdt_init_flat_model `{L : Layout} m :
  length (global_descriptor_table (gdt m)) = 64%nat → word tss_region_addr →
  ∃ g d0 d1 d2 t d4 d5, gdt_init m = Done gdt_descriptor_at (set_gdt g m) ∧
    take 6 (global_descriptor_table g) = [d0; d1; d2; t; d4; d5] ∧
    gdt_entry_bytes d0 = replicate 8 0 ∧
    flat_segment 0x9A (gdt_entry_bytes d1) ∧ flat_segment 0x92 (gdt_entry_bytes d2) ∧
    descriptor_base (gdt_entry_bytes t) = tss_region_addr ∧
    descriptor_limit (gdt_entry_bytes t) = TSS_SIZEOF ∧
    descriptor_access (gdt_entry_bytes t) = 0x89 ∧
    flat_segment 0xFA (gdt_entry_bytes d4) ∧ flat_segment 0xF2 (gdt_entry_bytes d5) ∧
    length (global_descriptor_table g) = 64%nat ∧ gdt_descriptor_size g = 48 ∧
    tss_region g = set_tss_ss0 GDT_KERNEL_DATA_SEG (tss_region (gdt m)).
Proof.
  intros Hl Hw.
  destruct (gdt_create_entry_fields TSS_SIZEOF tss_region_addr 0x89 0)
    as (_ & _ & T1 & T2 & T3 & _); [done..|].
  exists (flat_model (gdt m)). do 6 eexists. split; [by apply gdt_init_ok|].
  split; [reflexivity|]. unfold flat_segment.
  split_and!; try exact T1; try exact T2; try exact T3; try reflexivity.
  cbn [flat_model global_descriptor_table]. rewrite length_app, length_drop, Hl. done.
Qed.

Lemma gdt_init_flat_model_witness :
  ∃ g d0 d1 d2 t d4 d5,
    gdt_init (L := sample_layout) power_on = Done 3222315520 (set_gdt g power_on) ∧
    take 6 (global_descriptor_table g) = [d0; d1; d2; t; d4; d5] ∧
    gdt_entry_bytes d0 = replicate 8 0 ∧
    flat_segment 0x9A (gdt_entry_bytes d1) ∧ flat_segment 0x92 (gdt_entry_bytes d2) ∧
    descriptor_base (gdt_entry_bytes t) = 3222315648 ∧
    descriptor_limit (gdt_entry_bytes t) = TSS_SIZEOF ∧
    descriptor_access (gdt_entry_bytes t) = 0x89 ∧
    flat_segment 0xFA (gdt_entry_bytes d4) ∧ flat_segment 0xF2 (gdt_entry_bytes d5) ∧
    length (global_descriptor_table g) = 64%nat ∧ gdt_descriptor_size g = 48 ∧
    tss_region g = set_tss_ss0 GDT_KERNEL_DATA_SEG (tss_region (gdt power_on)).
Proof. by apply (gdt_init_flat_model (L := sample_layout) power_on). Defined.

(** A segment descriptor survives the trip through its eight bytes: every
    field of the arguments is found where the processor looks for it, and the
    two bit-fields and their bytes determine each other. *)
Theorem gdt_entry_layout :
  (∀ limit base access flags,
     0 <= limit < 1048576 → word base → 0 <= access < 256 → 0 <= flags < 16 →
     let d := gdt_entry_bytes (gdt_create_entry limit base access flags) in
     length d = 8%nat ∧ Forall (λ b, 0 <= b < 256) d ∧
     descriptor_limit d = limit ∧ descriptor_base d = base ∧
     descriptor_access d = access ∧ descriptor_flags d = flags) ∧
  (∀ a, 0 <= ab_dpl a < 4 → access_byte_of (access_byte_bits a) = a) ∧
  (∀ f, 0 <= lf_segment_limit_2 f < 16 → limit_and_flags_of (limit_and_flags_bits f) = f) ∧
  (∀ b, 0 <= b < 256 → access_byte_bits (access_byte_of b) = b ∧
     limit_and_flags_bits (limit_and_flags_of b) = b).
Proof.
  split_and!.
  - exact gdt_create_entry_fields.
  - exact access_byte_of_bits.
  - exact limit_and_flags_of_bits.
  - intros b Hb. split; [by apply access_byte_bits_of|by apply limit_and_flags_bits_of].
Qed.
