(* ===== verification/Interrupt.v ===== *)
(** * Interrupts: kernel/interrupt/interrupt.c

    The descriptor table, the controller set-up and the two C handlers.  The
    call through a function pointer is a parameter, [call_handler]: Kernel.v
    supplies it. *)

From S2P Require Import Prelude Machine Tty.

Definition KERNEL_CODE_SEGMENT : Z := 0x08.

Definition int_msgs : list string :=
  [ "Divide by Zero"; "Debug"; "Non-Maskable Interrupt"; "Breakpoint"; "Overflow";
    "Bound Range Exceeded"; "Invalid Opcode"; "Device Not Available"; "Double Fault";
    "CoProcessor Segment Overrun"; "Invalid TSS"; "Segment Not Present";
    "Stack Segment Fault"; "General Protection Fault"; "Page Fault"; "Reserved";
    "Floating-Point Error"; "Alignment Check"; "Machine Check";
    "SIMD Floating Pointe Exception"; "Virtualziation Exception";
    "Control Protection Exception"; "Reserved"; "Reserved"; "Reserved"; "Reserved";
    "Reserved"; "Reserved"; "Reserved"; "Reserved"; "Reserved"; "Reserved" ]%string.

(** [index] is a [uint8_t]. *)
Definition idt_set_entry (index handler sel flags : Z) : M Z :=
  t ← gets_interrupts idt;
  d ← array_get t (u8 index);
  t' ← array_set t (u8 index)
         (IdtDesc (Z.land handler 0xFFFF) (u16 sel) (idt_zero d) (u8 flags)
            (Z.land (Z.shiftr handler 16) 0xFFFF));
  mod_interrupts (set_idt t');;
  mret 0.

Definition set_handler (i : Z) (h : handler) : M unit :=
  hs ← gets_interrupts idt_handlers;
  hs' ← array_set hs i h;
  mod_interrupts (set_idt_handlers hs').

(** [idt\[i\] = (struct idt_desc) { 0 }; idt_handlers\[i\] = NULL;] *)
Definition clear_gate (i : Z) : M unit :=
  t ← gets_interrupts idt;
  t' ← array_set t i (IdtDesc 0 0 0 0 0);
  mod_interrupts (set_idt t');;
  set_handler i NULL_handler.

(** The ten writes that remap the two controllers, in order. *)
Definition remap_writes : list (Z * Z) :=
  [ (0x20, 0x11); (0xA0, 0x11); (0x21, 0x20); (0xA1, 0x28); (0x21, 0x04);
    (0xA1, 0x02); (0x21, 0x01); (0xA1, 0x01); (0x21, 0x0); (0xA1, 0x0) ].

Fixpoint outb_all (ws : list (Z * Z)) : M unit :=
  match ws with
  | [] => mret tt
  | (port, val) :: ws' => outb port val;; outb_all ws'
  end.

Definition load_idt_asm : M unit := mod_interrupts (set_idt_loaded true).

Section Init.
Context `{L : Layout}.

(** [idt_cfg\[i\]] is [{ i, isr/irq stub i, KERNEL_CODE_SEGMENT, 0x8E }]. *)
Definition set_stub_gate (i : Z) : M unit :=
  idt_set_entry i (isr_stub i) (u8 KERNEL_CODE_SEGMENT) 0x8E;; mret tt.

Definition set_other_gate (i : Z) : M unit :=
  set_handler i other_interrupt;;
  idt_set_entry i other_interrupt_addr 0x08 0x8E;; mret tt.

Definition interrupt_init : M Z :=
  for_range 256 0 clear_gate;;
  mod_interrupts (set_idtp_size (u16 (8 * 256 - 1)));;
  mod_interrupts (set_idtp_ptr idt_addr);;
  outb_all remap_writes;;
  let last := 47 in
  for_range (Z.to_nat (last + 1)) 0 set_stub_gate;;
  for_range (Z.to_nat (256 - last)) last set_other_gate;;
  load_idt_asm;;
  sti;;
  mret 0.
End Init.

(** [other_interrupt], as a C function called through the table. *)
Definition other_interrupt_body (int_no : Z) : M unit :=
  tty_printstr (chars "???SOMEOTHER INTERRUPT???" ++ [NL]);;
  tty_printint int_no.

Section Handlers.
Context (call_handler : handler → Z → M unit).

(** The tail of both handlers. *)
Definition dispatch (int_no : Z) : M unit :=
  hs ← gets_interrupts idt_handlers;
  h ← array_get hs int_no;
  when (negb (bool_decide (h = NULL_handler))) (call_handler h int_no).

Definition isr_handler (int_no : Z) : M unit :=
  prev ← gets_interrupts prev_int;
  (if int_no =? prev then
     tty_printstr (chars "...");;
     halt_with Spin
   else mod_interrupts (set_prev_int int_no));;
  tty_printstr (chars "Received interrupt: ");;
  tty_printint int_no;;
  tty_printstr (chars " (");;
  msg ← array_get int_msgs int_no;
  tty_printstr (chars msg);;
  tty_printstr (chars ")" ++ [NL]);;
  dispatch int_no.

Definition irq_handler (int_no : Z) : M unit :=
  when (40 <=? int_no) (outb 0xA0 0x20);;
  outb 0x20 0x20;;
  dispatch int_no.
End Handlers.

(** ** The table after a loop *)

(** What the CPU takes a gate to point to. *)
Definition gate_target (d : idt_desc) : Z := offset_1 d + 65536 * offset_2 d.

(** A present 32-bit interrupt gate of ring 0 into the kernel's code segment. *)
Definition interrupt_gate (target : Z) : idt_desc :=
  IdtDesc (Z.land target 0xFFFF) KERNEL_CODE_SEGMENT 0 0x8E
    (Z.land (Z.shiftr target 16) 0xFFFF).

Lemma interrupt_gate_target h : word h → gate_target (interrupt_gate h) = h.
Proof.
  intros Hh. unfold gate_target. cbn [offset_1 offset_2 interrupt_gate].
  change 0xFFFF with (Z.ones 16). rewrite !Z.land_ones, Z.shiftr_div_pow2 by lia.
  change (2 ^ 16) with 65536. unfold word, W32 in Hh. mlia.
Qed.

Definition with_gates (t : list idt_desc) (hs : list handler) (m : machine) : machine :=
  set_interrupts (set_idt_handlers hs (set_idt t (interrupts m))) m.

Lemma alter_insert_lookup {A} (F : A → A) (l : list A) i d :
  l !! i = Some d → <[i := F d]> l = alter F i l.
Proof.
  intros Hd. apply list_eq. intros j. destruct (decide (i = j)) as [<-|].
  - rewrite list_lookup_alter_eq, Hd. simpl.
    apply list_lookup_insert_eq. by apply lookup_lt_Some in Hd.
  - by rewrite list_lookup_alter_ne, list_lookup_insert_ne.
Qed.

(** One more element of the range has been rewritten. *)
Lemma lookup_step {A} (F : Z → A → A) (l : list A) first n j :
  0 <= first → 0 <= j →
  (if (first + 1 <=? j) && (j <? first + 1 + Z.of_nat n) then F j else id)
    <$> alter (F first) (Z.to_nat first) l !! Z.to_nat j =
  (if (first <=? j) && (j <? first + Z.of_nat (S n)) then F j else id)
    <$> l !! Z.to_nat j.
Proof.
  intros Hf Hj. rewrite list_lookup_alter. case_decide as Hd.
  - assert (j = first) as -> by lia.
    destruct (Z.leb_spec (first + 1) first), (Z.leb_spec first first),
      (Z.ltb_spec first (first + Z.of_nat (S n))); try lia. simpl.
    by destruct (l !! Z.to_nat first).
  - replace (first + 1 + Z.of_nat n) with (first + Z.of_nat (S n)) by lia.
    destruct (Z.leb_spec (first + 1) j), (Z.leb_spec first j); try lia; done.
Qed.

Lemma empty_range_id {A} (F : A → A) (x : option A) first j :
  (if (first <=? j) && (j <? first + 0) then F else id) <$> x = x.
Proof.
  destruct (Z.leb_spec first j), (Z.ltb_spec j (first + 0)); try lia; by destruct x.
Qed.

(** A loop over the gates whose step [i] rewrites gate [i] with [f i] and its
    handler with [g i]. *)
Lemma gates_loop n first (f : Z → idt_desc → idt_desc) (g : Z → handler → handler)
    (body : Z → M unit) t hs m :
  0 <= first → first + Z.of_nat n <= 256 → length t = 256%nat → length hs = 256%nat →
  (∀ i t hs, 0 <= i < 256 → length t = 256%nat → length hs = 256%nat →
     body i (with_gates t hs m) = Done tt (with_gates (alter (f i) (Z.to_nat i) t)
                                             (alter (g i) (Z.to_nat i) hs) m)) →
  ∃ t' hs', for_range n first body (with_gates t hs m) = Done tt (with_gates t' hs' m) ∧
    length t' = 256%nat ∧ length hs' = 256%nat ∧
    (∀ j, 0 <= j → t' !! Z.to_nat j =
       (if (first <=? j) && (j <? first + Z.of_nat n) then f j else id) <$> t !! Z.to_nat j) ∧
    (∀ j, 0 <= j → hs' !! Z.to_nat j =
       (if (first <=? j) && (j <? first + Z.of_nat n) then g j else id) <$> hs !! Z.to_nat j).
Proof.
  intros Hf Hn Ht Hh Hb. revert first t hs Hf Hn Ht Hh.
  induction n as [|n IH]; intros first t hs Hf Hn Ht Hh; cbn [for_range].
  - exists t, hs. split_and!; try done; intros j Hj.
    + by rewrite empty_range_id.
    + by rewrite empty_range_id.
  - run (Hb first t hs ltac:(lia) Ht Hh).
    destruct (IH (first + 1) (alter (f first) (Z.to_nat first) t)
      (alter (g first) (Z.to_nat first) hs)) as (t' & hs' & E & Lt & Lh & At & Ah);
      rewrite ?length_alter; try lia; try done.
    exists t', hs'. split_and!; [done|done|done| |]; intros j Hj.
    + rewrite At by done. apply lookup_step; lia.
    + rewrite Ah by done. apply lookup_step; lia.
Qed.

Lemma remap_outb_all ws m :
  outb_all ws m = Done tt (set_ports (set_io_log
    (rev (map (λ '(p, v), Out (u16 p) (u8 v)) ws) ++ io_log (ports m)) (ports m)) m).
Proof.
  revert m. induction ws as [|[p v] ws IH]; intros m; cbn [outb_all].
  - by destruct m as [? []].
  - unfold outb. msteps. rewrite IH. cbn [map rev ports set_ports io_log set_io_log].
    by rewrite <- app_assoc.
Qed.

Section Steps.
Context `{L : Layout} (m : machine) (i : Z) (Hi : 0 <= i < 256).

Lemma idt_set_entry_ok t hs h sel fl :
  length t = 256%nat →
  idt_set_entry i h sel fl (with_gates t hs m) = Done 0 (with_gates (alter (λ d,
    IdtDesc (Z.land h 0xFFFF) (u16 sel) (idt_zero d) (u8 fl)
      (Z.land (Z.shiftr h 16) 0xFFFF)) (Z.to_nat i) t) hs m).
Proof using Hi.
  intros Ht. unfold idt_set_entry. assert (u8 i = i) as -> by (apply Z.mod_small; lia).
  destruct (lookup_lt_is_Some_2 t (Z.to_nat i)) as [d Hd]; [lia|].
  msteps. cbn [idt interrupts with_gates set_interrupts set_idt_handlers set_idt].
  run (array_get_lookup t i d (with_gates t hs m) ltac:(lia) Hd).
  match goal with |- context [array_set t i ?x] =>
    run (array_set_insert t i x (with_gates t hs m) ltac:(lia)) end.
  msteps. by rewrite <- (alter_insert_lookup _ _ _ _ Hd).
Qed.

Lemma set_handler_ok t hs h :
  length hs = 256%nat →
  set_handler i h (with_gates t hs m) =
    Done tt (with_gates t (alter (λ _, h) (Z.to_nat i) hs) m).
Proof using Hi.
  intros Hh. unfold set_handler. msteps.
  cbn [idt_handlers interrupts with_gates set_interrupts set_idt_handlers set_idt].
  run (array_set_insert hs i h (with_gates t hs m) ltac:(lia)).
  by rewrite <- list_insert_alter.
Qed.

Lemma set_stub_gate_ok t hs :
  length t = 256%nat →
  set_stub_gate i (with_gates t hs m) = Done tt (with_gates
    (alter (λ d, IdtDesc (Z.land (isr_stub i) 0xFFFF) KERNEL_CODE_SEGMENT (idt_zero d)
       0x8E (Z.land (Z.shiftr (isr_stub i) 16) 0xFFFF)) (Z.to_nat i) t)
    (alter id (Z.to_nat i) hs) m).
Proof using Hi.
  intros Ht. unfold set_stub_gate.
  run (idt_set_entry_ok t hs (isr_stub i) (u8 KERNEL_CODE_SEGMENT) 0x8E Ht).
  by rewrite (list_alter_id id).
Qed.

Lemma set_other_gate_ok t hs :
  length t = 256%nat → length hs = 256%nat →
  set_other_gate i (with_gates t hs m) = Done tt (with_gates
    (alter (λ d, IdtDesc (Z.land other_interrupt_addr 0xFFFF) KERNEL_CODE_SEGMENT
       (idt_zero d) 0x8E (Z.land (Z.shiftr other_interrupt_addr 16) 0xFFFF))
       (Z.to_nat i) t)
    (alter (λ _, other_interrupt) (Z.to_nat i) hs) m).
Proof using Hi.
  intros Ht Hh. unfold set_other_gate. run (set_handler_ok t hs other_interrupt Hh).
  by run (idt_set_entry_ok t (alter (λ _, other_interrupt) (Z.to_nat i) hs)
    other_interrupt_addr 0x08 0x8E Ht).
Qed.

Lemma clear_gate_ok t hs :
  length t = 256%nat → length hs = 256%nat →
  clear_gate i (with_gates t hs m) = Done tt (with_gates
    (alter (λ _, IdtDesc 0 0 0 0 0) (Z.to_nat i) t)
    (alter (λ _, NULL_handler) (Z.to_nat i) hs) m).
Proof using Hi.
  intros Ht Hh. unfold clear_gate. msteps.
  cbn [idt interrupts with_gates set_interrupts set_idt_handlers set_idt].
  run (array_set_insert t i (IdtDesc 0 0 0 0 0) (with_gates t hs m) ltac:(lia)). msteps.
  rewrite list_insert_alter. set (t' := alter _ _ t). clearbody t'.
  exact (set_handler_ok t' hs NULL_handler Hh).
Qed.
End Steps.

(** What [interrupt_init] leaves. *)
Record interrupts_ready `{L : Layout} (m m' : machine) : Prop := {
  ir_stubs j : 0 <= j < 47 →
    idt (interrupts m') !! Z.to_nat j = Some (interrupt_gate (isr_stub j)) ∧
    idt_handlers (interrupts m') !! Z.to_nat j = Some NULL_handler;
  ir_others j : 47 <= j < 256 →
    idt (interrupts m') !! Z.to_nat j = Some (interrupt_gate other_interrupt_addr) ∧
    idt_handlers (interrupts m') !! Z.to_nat j = Some other_interrupt;
  ir_length : length (idt_handlers (interrupts m')) = 256%nat;
  ir_log : io_log (ports m') =
    rev (map (λ '(p, v), Out p v) remap_writes) ++ io_log (ports m);
  ir_idtp : idtp_size (interrupts m') = 2047 ∧ idtp_ptr (interrupts m') = idt_addr;
  ir_loaded : idt_loaded (interrupts m') = true;
  ir_regs : m' = set_cpu (set_eflags_if true (cpu m))
    (set_ports (ports m') (set_interrupts (interrupts m') m))
}.

Lemma interrupt_init_ok `{L : Layout} m :
  length (idt (interrupts m)) = 256%nat → length (idt_handlers (interrupts m)) = 256%nat →
  ∃ m', interrupt_init m = Done 0 m' ∧ interrupts_ready m m'.
Proof.
  intros Ht Hh. unfold interrupt_init.
  assert (m = with_gates (idt (interrupts m)) (idt_handlers (interrupts m)) m) as E0
    by (by destruct m as [? ? ? ? ? ? ? ? ? ? ? []]).
  rewrite E0. clear E0.
  destruct (gates_loop 256 0 (λ _ _, IdtDesc 0 0 0 0 0) (λ _ _, NULL_handler) clear_gate
    (idt (interrupts m)) (idt_handlers (interrupts m)) m) as (t1 & h1 & E1 & T1 & H1 & A1 & B1);
    [lia|lia|done|done|intros; by apply clear_gate_ok|].
  run E1. msteps.
  set (m1 := set_interrupts (set_idtp_ptr idt_addr (set_idtp_size 2047 (interrupts m))) m).
  change (set_interrupts _ _) with (with_gates t1 h1 m1).
  rewrite (bind_done _ _ _ _ _ (remap_outb_all remap_writes (with_gates t1 h1 m1))).
  set (m2 := set_ports (set_io_log (rev (map (λ '(p, v), Out p v) remap_writes)
    ++ io_log (ports m)) (ports m)) m1).
  change (set_ports _ _) with (with_gates t1 h1 m2). cbv zeta.
  destruct (gates_loop 48 0 (λ i d, IdtDesc (Z.land (isr_stub i) 0xFFFF) KERNEL_CODE_SEGMENT
      (idt_zero d) 0x8E (Z.land (Z.shiftr (isr_stub i) 16) 0xFFFF)) (λ _, id) set_stub_gate
    t1 h1 m2) as (t2 & h2 & E2 & T2 & H2 & A2 & B2);
    [lia|lia|done|done|intros; by apply set_stub_gate_ok|].
  run E2.
  destruct (gates_loop 209 47 (λ _ d, IdtDesc (Z.land other_interrupt_addr 0xFFFF)
      KERNEL_CODE_SEGMENT (idt_zero d) 0x8E
      (Z.land (Z.shiftr other_interrupt_addr 16) 0xFFFF)) (λ _ _, other_interrupt)
    set_other_gate t2 h2 m2) as (t3 & h3 & E3 & T3 & H3 & A3 & B3);
    [lia|lia|done|done|intros; by apply set_other_gate_ok|].
  run E3. unfold load_idt_asm, sti. msteps.
  eexists. split; [reflexivity|].
  split; try done; try exact H3; intros j Hj;
    destruct (lookup_lt_is_Some_2 (idt (interrupts m)) (Z.to_nat j)) as [d Hd]; try lia;
    destruct (lookup_lt_is_Some_2 (idt_handlers (interrupts m)) (Z.to_nat j)) as [h Hd']; try lia;
    cbn [interrupts set_interrupts set_cpu set_idt_loaded with_gates set_idt
      set_idt_handlers idt idt_handlers];
    rewrite A3, A2, A1, B3, B2, B1, Hd, Hd' by lia;
    destruct (Z.leb_spec 0 j), (Z.ltb_spec j (0 + Z.of_nat 256)), (Z.ltb_spec j (0 + Z.of_nat 48)),
      (Z.leb_spec 47 j), (Z.ltb_spec j (47 + Z.of_nat 209)); try lia; done.
Qed.

(** ** Properties *)

(** C21: [interrupt_init] leaves the machine ready for interrupts: every gate
    is a present ring 0 gate of the kernel's code segment; gates 0 to 46 go
    to their own stubs and have no handler yet; from 47 on (the last IRQ
    included) all go to [other_interrupt]; the controllers have received the
    ten remapping bytes in order; the table is loaded and interrupts are on. *)
Theorem interrupt_init_table `{L : Layout} m :
  length (idt (interrupts m)) = 256%nat → length (idt_handlers (interrupts m)) = 256%nat →
  ∃ m', interrupt_init m = Done 0 m' ∧
    (∀ j, 0 <= j < 47 →
       idt (interrupts m') !! Z.to_nat j = Some (interrupt_gate (isr_stub j)) ∧
       idt_handlers (interrupts m') !! Z.to_nat j = Some NULL_handler) ∧
    (∀ j, 47 <= j < 256 →
       idt (interrupts m') !! Z.to_nat j = Some (interrupt_gate other_interrupt_addr) ∧
       idt_handlers (interrupts m') !! Z.to_nat j = Some other_interrupt) ∧
    io_log (ports m') =
      rev (map (λ '(p, v), Out p v) remap_writes) ++ io_log (ports m) ∧
    idtp_size (interrupts m') = 2047 ∧ idtp_ptr (interrupts m') = idt_addr ∧
    idt_loaded (interrupts m') = true ∧ eflags_if (cpu m') = true ∧
    (∀ h, word h → gate_target (interrupt_gate h) = h) ∧
    mem m' = mem m ∧ pmm m' = pmm m ∧ tty m' = tty m ∧ keyboard m' = keyboard m.
Proof.
  intros Ht Hh. destruct (interrupt_init_ok m Ht Hh) as (m' & E & [H1 H2 _ H3 [H4 H5] H6 H7]).
  exists m'. split_and!; try done; try (by rewrite H7). exact interrupt_gate_target.
Qed.

Lemma interrupt_init_table_witness :
  ∃ m', interrupt_init (L := sample_layout) power_on = Done 0 m' ∧
    (∀ j, 0 <= j < 47 →
       idt (interrupts m') !! Z.to_nat j = Some (interrupt_gate (3222280192 + 16 * j)) ∧
       idt_handlers (interrupts m') !! Z.to_nat j = Some NULL_handler) ∧
    (∀ j, 47 <= j < 256 →
       idt (interrupts m') !! Z.to_nat j = Some (interrupt_gate 3222283264) ∧
       idt_handlers (interrupts m') !! Z.to_nat j = Some other_interrupt) ∧
    io_log (ports m') = rev (map (λ '(p, v), Out p v) remap_writes) ++ [] ∧
    idtp_size (interrupts m') = 2047 ∧ idtp_ptr (interrupts m') = 3222316032 ∧
    idt_loaded (interrupts m') = true ∧ eflags_if (cpu m') = true ∧
    (∀ h, word h → gate_target (interrupt_gate h) = h) ∧
    mem m' = ∅ ∧ pmm m' = pmm power_on ∧ tty m' = tty power_on ∧
    keyboard m' = keyboard power_on.
Proof. exact (interrupt_init_table (L := sample_layout) power_on eq_refl eq_refl). Defined.
