(* ===== verification/Pic.v ===== *)
(** * The timer: kernel/interrupt/pic.c *)

From S2P Require Import Prelude Machine Tty.

(** [pic_callback], with the scheduler of scheduler.c as a parameter. *)
Definition pic_callback_with (scheduler : M unit) : M unit :=
  t ← gets_timer tick;
  mod_timer (set_tick (t [+] 1));;
  print ← gets_timer pic_print;
  when print
    (tty_printstr (chars "Tick: ");;
     tty_printint (t [+] 1);;
     tty_putc NL);;
  scheduler.

Definition pic_get_tick : M Z := gets_timer tick.

(** A division by zero is undefined. *)
Definition pic_init (frequency : Z) (print_tick : bool) : M unit :=
  mod_timer (set_pic_print print_tick);;
  hs ← gets_interrupts idt_handlers;
  hs' ← array_set hs 32 pic_callback;
  mod_interrupts (set_idt_handlers hs');;
  when (frequency =? 0) (halt_with Undefined);;
  let divisor := 1193180 / frequency in
  outb 0x43 0x36;;
  let l := u8 (Z.land divisor 0xFF) in
  let h := u8 (Z.land (Z.shiftr divisor 8) 0xFF) in
  outb 0x40 l;;
  outb 0x40 h.

(** What it leaves: the device is programmed with these bytes. *)
Definition timer_divisor (frequency : Z) : Z := 1193180 / frequency.

Lemma pic_init_ok frequency print_tick m :
  frequency ≠ 0 → length (idt_handlers (interrupts m)) = 256%nat →
  let d := timer_divisor frequency in
  pic_init frequency print_tick m = Done tt
    (set_ports (set_io_log (Out 0x40 (u8 (Z.land (Z.shiftr d 8) 0xFF)) ::
        Out 0x40 (u8 (Z.land d 0xFF)) :: Out 0x43 0x36 :: io_log (ports m)) (ports m))
      (set_interrupts (set_idt_handlers (<[32%nat := pic_callback]>
          (idt_handlers (interrupts m))) (interrupts m))
        (set_timer (set_pic_print print_tick (timer m)) m))).
Proof.
  intros Hf Hl d. unfold pic_init. msteps. cbn [interrupts set_timer].
  assert (0 <= 32 < Z.of_nat (length (idt_handlers (interrupts m)))) as Hr by (rewrite Hl; lia).
  run (array_set_insert (idt_handlers (interrupts m)) 32 pic_callback
    (set_timer (set_pic_print print_tick (timer m)) m) Hr). msteps.
  destruct (Z.eqb_spec frequency 0); [done|]. cbn [when]. unfold outb. steps.
  fold (timer_divisor frequency). fold d. unfold modify. f_equal.
  unfold u8. rewrite !Z.mod_mod by lia. reflexivity.
Qed.

(** ** The rate the device is programmed to *)

(** [pic_init] programs channel 0 for the requested rate: the two data
    bytes are the divisor, low byte first, exactly when the frequency is at
    least 19 Hz; below that the divisor does not fit in 16 bits and its high
    bits are lost. *)
Theorem pic_init_divisor frequency print_tick m :
  0 < frequency → length (idt_handlers (interrupts m)) = 256%nat →
  ∃ m' l h, pic_init frequency print_tick m = Done tt m' ∧
    io_log (ports m') = [Out 0x40 h; Out 0x40 l; Out 0x43 0x36] ++ io_log (ports m) ∧
    idt_handlers (interrupts m') !! 32%nat = Some pic_callback ∧
    l + 256 * h = 1193180 / frequency mod 65536 ∧
    (l + 256 * h = 1193180 / frequency ↔ 19 <= frequency).
Proof.
  intros Hf Hl. pose proof (pic_init_ok frequency print_tick m ltac:(lia) Hl) as E.
  unfold timer_divisor in E. cbv zeta in E.
  set (d := 1193180 / frequency) in *.
  assert (0 <= d) as Hd0 by (subst d; apply Z.div_pos; lia).
  assert (d < 65536 ↔ 19 <= frequency) as Hd.
  { subst d. split; intros H.
    - destruct (Z.lt_ge_cases frequency 19); [|done].
      assert (1193180 / 18 <= 1193180 / frequency) as Hm by (apply Z.div_le_compat_l; lia).
      change (1193180 / 18) with 66287 in Hm. lia.
    - apply Z.div_lt_upper_bound; lia. }
  assert (u8 (Z.land d 0xFF) = d mod 256) as El.
  { change 0xFF with (Z.ones 8). rewrite Z.land_ones by lia. change (2 ^ 8) with 256.
    unfold u8. mlia. }
  assert (u8 (Z.land (Z.shiftr d 8) 0xFF) = (d / 256) mod 256) as Eh.
  { change 0xFF with (Z.ones 8). rewrite Z.land_ones, Z.shiftr_div_pow2 by lia.
    change (2 ^ 8) with 256. unfold u8. mlia. }
  eexists _, (d mod 256), ((d / 256) mod 256). split_and!.
  - exact E.
  - cbn [ports set_ports io_log set_io_log]. by rewrite El, Eh.
  - cbn. by rewrite list_lookup_insert_eq by lia.
  - mlia.
  - rewrite <- Hd. split; mlia.
Qed.

Lemma pic_init_divisor_witness :
  ∃ m' l h, pic_init 20 false power_on = Done tt m' ∧
    io_log (ports m') = [Out 0x40 h; Out 0x40 l; Out 0x43 0x36] ∧
    idt_handlers (interrupts m') !! 32%nat = Some pic_callback ∧
    l + 256 * h = 1193180 / 20 mod 65536 ∧ (l + 256 * h = 1193180 / 20 ↔ 19 <= 20).
Proof. apply (pic_init_divisor 20 false power_on); [done|by vm_compute]. Defined.
