(* ===== verification/Vmm.v ===== *)
(** * Virtual pages: kernel/memory/vmm.c

    One [vmm_block_desc] for every 4 MiB of kernel address space, in memory,
    linked into a list.  [vmm_alloc_page] and [kmalloc] call each other; the
    static flag [allocating_new_block] bounds the recursion, and
    [vmm_alloc_page_depth] shows that two levels are enough. *)

From S2P Require Import Prelude Machine Tty Memory Boot Cstring Bitmap Pmm Paging Kmalloc.

(** ** struct vmm_block_desc *)

Definition VMM_BITMAP_SIZE : Z := (PAGE_TABLE_RANGE / PAGE_SIZE) / 32.
Definition HIGH_WATER_THRESHOLD : Z := 1022.
Definition VMM_BLOCK_DESC_SIZE : Z := 148.

Definition vmm_bitmap_at (b i : Z) : Z := b + 4 * i.

Definition high_water_mark (b : Z) : M Z := ld32 (b + 128).
Definition set_high_water_mark (b v : Z) : M unit := st32 (b + 128) v.
Definition free_pages (b : Z) : M Z := ld32 (b + 132).
Definition set_free_pages (b v : Z) : M unit := st32 (b + 132) v.
Definition first_page (b : Z) : M Z := ld32 (b + 136).
Definition set_first_page (b v : Z) : M unit := st32 (b + 136) v.
Definition page_table (b : Z) : M Z := ld32 (b + 140).
Definition set_page_table (b v : Z) : M unit := st32 (b + 140) v.
Definition next_vmm_block (b : Z) : M Z := ld32 (b + 144).
Definition set_next_vmm_block (b v : Z) : M unit := st32 (b + 144) v.

(** ** Operations *)

(** The outer loop of [vmm_get_page_from_bitmap], from word [i] on.  The
    [continue] for a full word and the exit once a page is found are the
    branches; the inner loop is [find_clear_bit]. *)
Fixpoint vmm_bitmap_loop (n : nat) (i bitmap : Z) : M (option Z) :=
  match n with
  | O => mret None
  | S n' =>
      page_bitmap ← ld32 (vmm_bitmap_at bitmap i);
      if page_bitmap =? FULL_WORD then vmm_bitmap_loop n' (i + 1) bitmap
      else match find_clear_bit page_bitmap with
      | Some j =>
          st32 (vmm_bitmap_at bitmap i) (SET_BIT page_bitmap j);;
          mret (Some (32 * i + j))
      | None => vmm_bitmap_loop n' (i + 1) bitmap
      end
  end.

(** The result is the returned bool and [*index_in_bitmap] together. *)
Definition vmm_get_page_from_bitmap (bitmap : Z) : M (option Z) :=
  vmm_bitmap_loop (Z.to_nat VMM_BITMAP_SIZE) 0 bitmap.

(** The descriptor's [free_pages--] and high-water update. *)
Definition vmm_count_page (vmm_block index_in_bitmap : Z) : M unit :=
  n ← free_pages vmm_block;
  set_free_pages vmm_block (n [-] 1);;
  let next_page := index_in_bitmap [+] 1 in
  hw ← high_water_mark vmm_block;
  when (hw <=? next_page) (set_high_water_mark vmm_block next_page).

(** The loop over the blocks: the page and its block, [(0, 0)] at the end of
    the list. *)
Fixpoint vmm_find (fuel : nat) (vmm_block : Z) : M (Z * Z) :=
  if vmm_block =? 0 then mret (0, 0)
  else match fuel with
  | O => halt_with OutOfFuel
  | S fuel' =>
      n ← free_pages vmm_block;
      if n =? 0 then next ← next_vmm_block vmm_block; vmm_find fuel' next
      else
        found ← vmm_get_page_from_bitmap vmm_block;
        match found with
        | Some index_in_bitmap =>
            first ← first_page vmm_block;
            let vmm_page := first [+] (index_in_bitmap [*] PAGE_SIZE) in
            vmm_count_page vmm_block index_in_bitmap;;
            mret (vmm_page, vmm_block)
        | None => next ← next_vmm_block vmm_block; vmm_find fuel' next
        end
  end.

(** The mapping step at the end of [vmm_alloc_page]. *)
Definition vmm_ensure_mapped (vmm_block vmm_page : Z) : M unit :=
  table ← page_table vmm_block;
  is_vmm_page_mapped ← paging_is_virtual_page_present table vmm_page;
  if negb is_vmm_page_mapped then
    table ← page_table vmm_block;
    paging_map_virtual_page table vmm_page;; mret tt
  else mret tt.

Section Vmm.
Context (kmalloc : Z → M Z).

Definition vmm_add_vmm_block_with (vmm_block : Z) : M unit :=
  new_vmm_block ← kmalloc VMM_BLOCK_DESC_SIZE;
  memset new_vmm_block 0 VMM_BLOCK_DESC_SIZE;;
  set_high_water_mark new_vmm_block 0;;
  set_free_pages new_vmm_block PAGE_TABLE_INDICES;;
  set_next_vmm_block new_vmm_block 0;;
  first ← first_page vmm_block;
  set_page_table new_vmm_block (first [+] (HIGH_WATER_THRESHOLD [*] PAGE_SIZE));;
  first ← first_page vmm_block;
  set_first_page new_vmm_block (first [+] PAGE_TABLE_RANGE);;
  table ← page_table vmm_block;
  new_table ← page_table new_vmm_block;
  phys_addr ← paging_map_virtual_page table new_table;
  new_first ← first_page new_vmm_block;
  paging_add_page_table phys_addr new_first;;
  new_table ← page_table new_vmm_block;
  memset new_table 0 PAGE_SIZE;;
  tail ← gets_vmm vmm_block_list_tail;
  set_next_vmm_block tail new_vmm_block;;
  mod_vmm (set_vmm_block_list_tail new_vmm_block).

Definition vmm_alloc_page_with (fuel : nat) : M Z :=
  head ← gets_vmm vmm_block_list_head;
  '(vmm_page, vmm_block) ← vmm_find fuel head;
  when (vmm_page =? 0) (panic (chars "out of memory" ++ [NL]));;
  hw ← high_water_mark vmm_block;
  next ← next_vmm_block vmm_block;
  flag ← gets_vmm allocating_new_block;
  when ((hw =? HIGH_WATER_THRESHOLD) && (next =? 0) && negb flag)
    (mod_vmm (set_allocating_new_block true);;
     vmm_add_vmm_block_with vmm_block;;
     mod_vmm (set_allocating_new_block false));;
  vmm_ensure_mapped vmm_block vmm_page;;
  mret vmm_page.

Definition vmm_init_with (initial_page_table : Z) : M unit :=
  initial_vmm_block ← kmalloc VMM_BLOCK_DESC_SIZE;
  set_first_page initial_vmm_block KERNEL_VIRT_BASE;;
  set_page_table initial_vmm_block initial_page_table;;
  set_next_vmm_block initial_vmm_block 0;;
  let first_free_page := (V2P_ADDR initial_page_table [+] PAGE_SIZE) / PAGE_SIZE in
  set_high_water_mark initial_vmm_block first_free_page;;
  set_free_pages initial_vmm_block (PAGE_TABLE_INDICES [-] first_free_page);;
  let last_fully_occupied_bitmap_index := Z.shiftr first_free_page 5 in
  memset initial_vmm_block 0xFF (last_fully_occupied_bitmap_index [*] 4);;
  let remaining_pages := first_free_page mod 32 in
  let remaining_bits_to_set :=
    u32 (Z.lnot (u32 (Z.shiftl 0xFFFFFFFF remaining_pages))) in
  st32 (vmm_bitmap_at initial_vmm_block last_fully_occupied_bitmap_index)
    remaining_bits_to_set;;
  mod_vmm (set_vmm_block_list_head initial_vmm_block);;
  mod_vmm (set_vmm_block_list_tail initial_vmm_block).
End Vmm.

(** The two allocators call each other, [depth] levels deep. *)
Fixpoint vmm_alloc_page (depth fuel : nat) : M Z :=
  match depth with
  | O => halt_with OutOfFuel
  | S depth' => vmm_alloc_page_with (kmalloc_with (vmm_alloc_page depth' fuel) fuel) fuel
  end.

Definition kmalloc (depth fuel : nat) (size : Z) : M Z :=
  kmalloc_with (vmm_alloc_page depth fuel) fuel size.

Definition vmm_add_vmm_block (depth fuel : nat) : Z → M unit :=
  vmm_add_vmm_block_with (kmalloc depth fuel).

Definition vmm_init (depth fuel : nat) : Z → M unit :=
  vmm_init_with (kmalloc depth fuel).

(** The condition is the source's: [||] where [&&] is meant. *)
Fixpoint vmm_free_loop (fuel : nat) (vmm_block page : Z) : M bool :=
  if vmm_block =? 0 then mret false
  else match fuel with
  | O => halt_with OutOfFuel
  | S fuel' =>
      let page_to_free := PAGE_ALIGN page in
      page_table_base_page ← first_page vmm_block;
      first ← first_page vmm_block;
      let page_table_last_page := first [+] PAGE_TABLE_RANGE [-] PAGE_SIZE in
      if (page_table_base_page <=? page_to_free)
         || (page_to_free <=? page_table_last_page)
      then
        let page_index := V2P_ADDR page / PAGE_SIZE in
        let bitmap_index := page_index / 32 in
        let bit_in_bitmap := page_index mod 32 in
        w ← ld32 (vmm_bitmap_at vmm_block bitmap_index);
        st32 (vmm_bitmap_at vmm_block bitmap_index) (CLEAR_BIT w bit_in_bitmap);;
        next_vmm_block vmm_block;;
        mret true
      else next ← next_vmm_block vmm_block; vmm_free_loop fuel' next page
  end.

Definition vmm_free_page (fuel : nat) (page : Z) : M unit :=
  head ← gets_vmm vmm_block_list_head;
  page_freed ← vmm_free_loop fuel head page;
  when (negb page_freed) (panic (chars "invalid page provided" ++ [NL])).

Fixpoint vmm_phys_loop (fuel : nat) (vmm_block vmm_page : Z) : M Z :=
  if vmm_block =? 0 then mret 0
  else match fuel with
  | O => halt_with OutOfFuel
  | S fuel' =>
      page_table_base_page ← first_page vmm_block;
      first ← first_page vmm_block;
      let page_table_last_page := first [+] PAGE_TABLE_RANGE [-] PAGE_SIZE in
      if (page_table_base_page <=? vmm_page) || (vmm_page <=? page_table_last_page)
      then
        let pt_index := PAGE_TABLE_INDEX vmm_page in
        table ← page_table vmm_block;
        pt_entry ← ld_entry (entry_ptr table pt_index);
        mret (u32 (Z.shiftl (phys_addr pt_entry) 12))
      else next ← next_vmm_block vmm_block; vmm_phys_loop fuel' next vmm_page
  end.

Definition vmm_get_phys_addr (fuel : nat) (vmm_page : Z) : M Z :=
  head ← gets_vmm vmm_block_list_head;
  vmm_phys_loop fuel head vmm_page.

(** ** The recursion between the two allocators

    [keeps_flag e]: when [e] returns, [allocating_new_block] is what it was. *)

Definition keeps_flag {A} (e : M A) : Prop := ∀ m a m',
  e m = Done a m' → allocating_new_block (vmm m') = allocating_new_block (vmm m).

(** [e] and [e'] are the same program once the flag is set. *)
Definition same_if_flag {A} (e e' : M A) : Prop := ∀ m,
  allocating_new_block (vmm m) = true → e m = e' m.

Lemma keeps_flag_ret {A} (a : A) : keeps_flag (mret a).
Proof. by intros m b m' [= _ <-]. Qed.

Lemma keeps_flag_halt {A} w : keeps_flag (halt_with w : M A).
Proof. by intros m b m'. Qed.

Lemma keeps_flag_gets {A} (f : machine → A) : keeps_flag (gets f).
Proof. by intros m b m' [= _ <-]. Qed.

Lemma keeps_flag_modify f :
  (∀ m, vmm (f m) = vmm m) → keeps_flag (modify f).
Proof. intros H m b m' [= _ <-]. by rewrite H. Qed.

Lemma keeps_flag_bind {A B} (e : M A) (k : A → M B) :
  keeps_flag e → (∀ a, keeps_flag (k a)) → keeps_flag (e ≫= k).
Proof.
  intros He Hk m b m'. unfold mbind, prog_bind.
  destruct (e m) as [a m1|] eqn:E; [|done]. intros H.
  by rewrite (Hk _ _ _ _ H), (He _ _ _ E).
Qed.

Lemma keeps_flag_ld8 v : keeps_flag (ld8 v).
Proof. intros m b m'. unfold ld8. destruct (translate m _); [|done]. by intros [= _ <-]. Qed.

Lemma keeps_flag_st8 v x : keeps_flag (st8 v x).
Proof. intros m b m'. unfold st8. destruct (translate m _); [|done]. by intros [= _ <-]. Qed.

Lemma keeps_flag_never {A B} (e : M A) (k : A → M B) :
  (∀ a m b m', k a m ≠ Done b m') → keeps_flag (e ≫= k).
Proof.
  intros Hk m b m'. unfold mbind, prog_bind.
  destruct (e m) as [a m1|]; [|done]. intros H. by apply Hk in H.
Qed.

Create HintDb flag.
#[export] Hint Resolve keeps_flag_ret keeps_flag_halt keeps_flag_gets
  keeps_flag_ld8 keeps_flag_st8 : flag.

(** Walk through a program; what is left are the calls it does not know. *)
Ltac keep_flag := repeat lazymatch goal with
  | |- keeps_flag (mbind _ _) => apply keeps_flag_bind; [|intros ?]
  | |- keeps_flag (let _ := _ in _) => cbv zeta
  | |- keeps_flag (if ?b then _ else _) => destruct b
  | |- keeps_flag (match ?x with _ => _ end) => destruct x
  | |- _ => solve [auto 2 with flag nocore]
  end.

Lemma keeps_flag_ld32 v : keeps_flag (ld32 v).
Proof. unfold ld32. keep_flag. Qed.

Lemma keeps_flag_st32 v x : keeps_flag (st32 v x).
Proof. unfold st32. keep_flag. Qed.

#[export] Hint Resolve keeps_flag_ld32 keeps_flag_st32 : flag.

Lemma keeps_flag_search fuel b n : keeps_flag (kmalloc_search fuel b n).
Proof.
  revert b. induction fuel as [|fuel IH]; intros b; cbn [kmalloc_search];
    unfold block_size, next_block, kmalloc_split_block, set_block_size, set_next_block,
      set_free_memory, free_memory; keep_flag.
Qed.

Lemma keeps_flag_bitmap n i b : keeps_flag (vmm_bitmap_loop n i b).
Proof. revert i. induction n as [|n IH]; intros i; cbn [vmm_bitmap_loop]; keep_flag. Qed.

Lemma keeps_flag_find fuel b : keeps_flag (vmm_find fuel b).
Proof.
  pose proof keeps_flag_bitmap as Hb.
  revert b. induction fuel as [|fuel IH]; intros b; cbn [vmm_find];
    unfold vmm_count_page, vmm_get_page_from_bitmap, free_pages, next_vmm_block, first_page,
      set_free_pages, high_water_mark, set_high_water_mark, when;
    keep_flag.
Qed.

Lemma keeps_flag_panic msg : keeps_flag (panic msg).
Proof. unfold panic. by apply keeps_flag_never. Qed.

#[export] Hint Resolve keeps_flag_search keeps_flag_find keeps_flag_panic : flag.

Lemma same_bind {A B} (e : M A) (k k' : A → M B) :
  keeps_flag e → (∀ a, same_if_flag (k a) (k' a)) → same_if_flag (e ≫= k) (e ≫= k').
Proof.
  intros He Hk m Hm. unfold mbind, prog_bind.
  destruct (e m) as [a m1|] eqn:E; [|done]. apply Hk. by rewrite (He _ _ _ E).
Qed.

Lemma same_bind_head {A B} (e e' : M A) (k : A → M B) :
  same_if_flag e e' → same_if_flag (e ≫= k) (e' ≫= k).
Proof. intros He m Hm. unfold mbind, prog_bind. by rewrite He. Qed.

Lemma kmalloc_same v v' fuel size :
  same_if_flag v v' → same_if_flag (kmalloc_with v fuel size) (kmalloc_with v' fuel size).
Proof.
  intros Hv. unfold kmalloc_with. destruct (size =? 0); [done|]. cbv zeta.
  apply same_bind; [unfold gets_heap; auto with flag|]. intros b.
  apply same_bind; [auto with flag|]. intros p.
  apply same_bind_head. unfold when. destruct (p =? 0); [|done]. by apply same_bind_head.
Qed.

(** With the flag set, [vmm_alloc_page] does not call [kmalloc]. *)
Lemma alloc_page_no_kmalloc k k' fuel :
  same_if_flag (vmm_alloc_page_with k fuel) (vmm_alloc_page_with k' fuel).
Proof.
  unfold vmm_alloc_page_with, gets_vmm, high_water_mark, next_vmm_block.
  apply same_bind; [auto with flag|]. intros head.
  apply same_bind; [auto with flag|]. intros [p b].
  apply same_bind; [destruct (p =? 0); cbn [when]; auto with flag|]. intros _.
  apply same_bind; [auto with flag|]. intros hw.
  apply same_bind; [auto with flag|]. intros next.
  intros m Hm. steps. rewrite Hm. cbn [negb]. by rewrite !andb_false_r.
Qed.

Lemma bind_ext {A B} (e : M A) (k k' : A → M B) m :
  (∀ a m', k a m' = k' a m') → (e ≫= k) m = (e ≫= k') m.
Proof. intros Hk. unfold mbind, prog_bind. by destruct (e m). Qed.

Lemma bind_ext_head {A B} (e e' : M A) (k : A → M B) m :
  e m = e' m → (e ≫= k) m = (e' ≫= k) m.
Proof. intros He. unfold mbind, prog_bind. by rewrite He. Qed.

(** So it is enough that [k] and [k'] agree once the flag is set. *)
Lemma alloc_page_ext k k' fuel m :
  (∀ n, same_if_flag (k n) (k' n)) →
  vmm_alloc_page_with k fuel m = vmm_alloc_page_with k' fuel m.
Proof.
  intros Hk. unfold vmm_alloc_page_with.
  apply bind_ext. intros head m1. apply bind_ext. intros [p b] m2.
  apply bind_ext. intros _ m3. apply bind_ext. intros hw m4.
  apply bind_ext. intros next m5. apply bind_ext. intros flag m6.
  apply bind_ext_head. unfold when. case_match; [|done].
  unfold mod_vmm. steps. apply bind_ext_head. unfold vmm_add_vmm_block_with.
  apply same_bind_head; [apply Hk|done].
Qed.

(** ** Descriptors in memory *)

Definition desc_bitmap (m : machine) (b : Z) : list Z :=
  map (λ i, word_at m (vmm_bitmap_at b i)) (seqZ 0 VMM_BITMAP_SIZE).
Definition desc_high_water (m : machine) (b : Z) : Z := word_at m (b + 128).
Definition desc_free (m : machine) (b : Z) : Z := word_at m (b + 132).
Definition desc_first (m : machine) (b : Z) : Z := word_at m (b + 136).
Definition desc_table (m : machine) (b : Z) : Z := word_at m (b + 140).
Definition desc_next (m : machine) (b : Z) : Z := word_at m (b + 144).

Lemma desc_bitmap_lookup m b i :
  0 <= i < 32 → desc_bitmap m b !! Z.to_nat i = Some (word_at m (b + 4 * i)).
Proof.
  intros Hi. unfold desc_bitmap. rewrite list_lookup_fmap.
  rewrite lookup_seqZ_lt by (change VMM_BITMAP_SIZE with 32; lia).
  simpl. unfold vmm_bitmap_at. do 3 f_equal. lia.
Qed.

Lemma desc_bitmap_length m b : length (desc_bitmap m b) = 32%nat.
Proof. unfold desc_bitmap. by rewrite length_map, length_seqZ. Qed.

Lemma desc_bitmap_words m b : Forall word (desc_bitmap m b).
Proof.
  unfold desc_bitmap. apply Forall_forall. intros w Hw.
  apply list_elem_of_fmap in Hw as (i & -> & _). auto with words.
Qed.

#[export] Hint Resolve desc_bitmap_words : words.

Lemma seqZ_succ i n : seqZ i (Z.of_nat (S n)) = i :: seqZ (i + 1) (Z.of_nat n).
Proof. rewrite seqZ_cons by lia. f_equal. f_equal; lia. Qed.

Section Descriptors.
Context {I : machine → Prop} {owns : Z → Prop} `{HR : !Region I owns}.

(** One bit of the bitmap is set, nothing else changes. *)
Definition bit_taken (b k : Z) (m m' : machine) : Prop :=
  writes_only owns m m' (b + 4 * (k / 32)) 4 ∧
  word_at m' (b + 4 * (k / 32)) = SET_BIT (word_at m (b + 4 * (k / 32))) (k mod 32).

Lemma bitmap_loop_ok n i b m :
  I m → owns_range owns b 128 → 0 <= i → i + Z.of_nat n = 32 →
  match scan_words (map (λ i, word_at m (b + 4 * i)) (seqZ i (Z.of_nat n))) i with
  | Some k => ∃ m', vmm_bitmap_loop n i b m = Done (Some k) m' ∧ I m' ∧
                0 <= k < 1024 ∧ bit_taken b k m m'
  | None => vmm_bitmap_loop n i b m = Done None m
  end.
Proof.
  intros HI Ho. revert i. induction n as [|n IH]; intros i Hi Hn; [done|].
  rewrite seqZ_succ. cbn [map vmm_bitmap_loop scan_words].
  unfold vmm_bitmap_at. load. specialize (IH (i + 1) ltac:(lia) ltac:(lia)).
  destruct (word_at m (b + 4 * i) =? FULL_WORD); [exact IH|].
  destruct (find_clear_bit (word_at m (b + 4 * i))) as [j|] eqn:Hj; [|exact IH].
  apply find_clear_bit_Some in Hj as (Hr & _).
  assert ((32 * i + j) / 32 = i) as Ek by mlia.
  assert ((32 * i + j) mod 32 = j) as Em by mlia.
  store m1 K1 V1 W1. exists m1.
  split_and!; [done|done|lia|lia|]. unfold bit_taken. rewrite Ek, Em. split; [done|].
  rewrite V1. apply u32_small. auto with words.
Qed.

Lemma get_page_ok b m :
  I m → owns_range owns b 128 →
  match scan_words (desc_bitmap m b) 0 with
  | Some k => ∃ m', vmm_get_page_from_bitmap b m = Done (Some k) m' ∧ I m' ∧
                0 <= k < 1024 ∧ bit_taken b k m m'
  | None => vmm_get_page_from_bitmap b m = Done None m
  end.
Proof. intros HI Ho. apply (bitmap_loop_ok 32 0); done. Qed.

Lemma bit_taken_bitmap b k m m' :
  owns_range owns b 128 → 0 <= k < 1024 → bit_taken b k m m' →
  desc_bitmap m' b = set_page (desc_bitmap m b) k.
Proof using.
  intros Ho Hk [W V]. apply (list_eq_same_length _ _ 32);
    rewrite ?length_set_page, ?desc_bitmap_length; try done.
  intros i x y Hi. rewrite <- (Nat2Z.id i), desc_bitmap_lookup by lia. intros [= <-].
  unfold set_page. rewrite list_lookup_alter. case_decide as Hd.
  - assert (Z.of_nat i = k / 32) as -> by mlia.
    rewrite desc_bitmap_lookup by mlia. simpl. intros [= <-]. done.
  - rewrite desc_bitmap_lookup by lia. intros [= <-].
    apply (writes_only_word_at _ _ _ _ _ W); [owned|mlia].
Qed.

(** The bitmap is unchanged when no store touches it. *)
Lemma desc_bitmap_frame b m m' v n :
  owns_range owns b 128 → writes_only owns m m' v n → b + 128 <= v ∨ v + n <= b →
  desc_bitmap m' b = desc_bitmap m b.
Proof using.
  intros Ho W Hd. unfold desc_bitmap. apply map_ext_in. intros i Hi%list_elem_of_In.
  apply elem_of_seqZ in Hi. change VMM_BITMAP_SIZE with 32 in Hi.
  apply (writes_only_word_at _ _ _ _ _ W); unfold vmm_bitmap_at; [owned|lia].
Qed.

(** *** The walk over the blocks *)

Definition unavailable (m : machine) (b : Z) : Prop :=
  desc_free m b = 0 ∨ scan_words (desc_bitmap m b) 0 = None.

(** From [a] on, the blocks [l] are linked, unavailable, and lead to [e]. *)
Fixpoint full_blocks (m : machine) (a : Z) (l : list Z) (e : Z) : Prop :=
  match l with
  | [] => a = e
  | b :: l' => a = b ∧ b ≠ 0 ∧ owns_range owns b VMM_BLOCK_DESC_SIZE ∧ unavailable m b ∧
               full_blocks m (desc_next m b) l' e
  end.

Lemma find_skip fuel a l e m :
  I m → full_blocks m a l e →
  vmm_find (length l + fuel) a m = vmm_find fuel e m.
Proof.
  intros HI. revert a. induction l as [|b l IH]; intros a; cbn [full_blocks]; [by intros ->|].
  intros (-> & Hb & Ho & Hu & Hl). cbn [length Nat.add vmm_find].
  destruct (Z.eqb_spec b 0); [done|]. unfold VMM_BLOCK_DESC_SIZE in Ho.
  unfold free_pages, next_vmm_block. load. fold (desc_free m b).
  specialize (IH _ Hl). unfold desc_next in IH.
  destruct (Z.eqb_spec (desc_free m b) 0) as [|Hn]; [load; exact IH|].
  destruct Hu as [|Hu]; [done|]. pose proof (get_page_ok b m HI) as Hg.
  rewrite Hu in Hg. run (Hg ltac:(owned)). load. exact IH.
Qed.

(** What taking page [k] of block [b] does to its descriptor. *)
Record page_taken (b k : Z) (m m' : machine) : Prop := {
  pt_writes : writes_only owns m m' b VMM_BLOCK_DESC_SIZE;
  pt_bitmap : desc_bitmap m' b = set_page (desc_bitmap m b) k;
  pt_free : desc_free m' b = desc_free m b - 1;
  pt_high : desc_high_water m' b = Z.max (desc_high_water m b) (k + 1);
  pt_first : desc_first m' b = desc_first m b;
  pt_table : desc_table m' b = desc_table m b;
  pt_next : desc_next m' b = desc_next m b
}.

Lemma count_page_ok b k m :
  I m → owns_range owns b VMM_BLOCK_DESC_SIZE → 0 <= k < 1024 → desc_free m b ≠ 0 →
  ∃ m', vmm_count_page b k m = Done tt m' ∧ I m' ∧
    writes_only owns m m' (b + 128) 8 ∧ desc_free m' b = desc_free m b - 1 ∧
    desc_high_water m' b = Z.max (desc_high_water m b) (k + 1).
Proof.
  intros HI Ho Hk Hf. unfold VMM_BLOCK_DESC_SIZE in Ho.
  unfold vmm_count_page, free_pages, set_free_pages, high_water_mark, set_high_water_mark.
  load. store m1 K1 V1 W1. load. cbv zeta.
  pose proof (word_at_word m (b + 132)) as Hw. unfold desc_free in *.
  rewrite u32_idem, u32_small in V1 by word_lia.
  rewrite (u32_small (k + 1)) by word_lia.
  assert (word_at m1 (b + 128) = word_at m (b + 128)) as E1
    by (apply (writes_only_word_at _ _ _ _ _ W1); [owned|lia]).
  destruct (Z.leb_spec (word_at m1 (b + 128)) (k + 1)) as [Hle|Hgt]; cbn [when].
  - destruct (st32_ok (I := I) (owns := owns) m1 (b + 128) (k + 1) K1 ltac:(owned))
      as (m2 & S2 & K2 & V2 & W2).
    exists m2. rewrite S2. split_and!; try done.
    + apply (writes_only_trans _ m1); (eapply writes_only_weaken; [done|lia|lia]).
    + rewrite <- V1. apply (writes_only_word_at _ _ _ _ _ W2); [owned|lia].
    + unfold desc_high_water. rewrite V2, u32_small by word_lia. lia.
  - exists m1. split_and!; try done.
    + eapply writes_only_weaken; [done|lia|lia].
    + unfold desc_high_water. lia.
Qed.

Lemma find_take fuel b k m :
  I m → owns_range owns b VMM_BLOCK_DESC_SIZE → b ≠ 0 → desc_free m b ≠ 0 →
  scan_words (desc_bitmap m b) 0 = Some k →
  ∃ m', vmm_find (S fuel) b m =
          Done (desc_first m b [+] (k [*] PAGE_SIZE), b) m' ∧ I m' ∧
    0 <= k < 1024 ∧ page_taken b k m m'.
Proof.
  intros HI Ho Hb Hf Hs. cbn [vmm_find]. destruct (Z.eqb_spec b 0); [done|].
  pose proof Ho as Ho'. unfold VMM_BLOCK_DESC_SIZE in Ho'.
  unfold free_pages, next_vmm_block, first_page. load. fold (desc_free m b).
  destruct (Z.eqb_spec (desc_free m b) 0); [done|].
  pose proof (get_page_ok b m HI ltac:(owned)) as Hg. rewrite Hs in Hg.
  destruct Hg as (m1 & E1 & K1 & Hk & T). run E1. load. pose proof T as [W1 _].
  assert (∀ o, 128 <= o <= 144 → word_at m1 (b + o) = word_at m (b + o)) as F1.
  { intros o Hoo. apply (writes_only_word_at _ _ _ _ _ W1); [owned|mlia]. }
  destruct (count_page_ok b k m1 K1 Ho Hk) as (m2 & E2 & K2 & W2 & V2 & V2');
    [unfold desc_free in *; by rewrite F1 by lia|].
  run E2. exists m2. unfold desc_first. rewrite F1 by lia. split_and!; [done|done|lia|lia|].
  assert (∀ o, 136 <= o <= 144 → word_at m2 (b + o) = word_at m (b + o)) as F2.
  { intros o Hoo. rewrite <- F1 by lia.
    apply (writes_only_word_at _ _ _ _ _ W2); [owned|lia]. }
  split; unfold desc_first, desc_table, desc_next; try (apply F2; lia).
  - unfold VMM_BLOCK_DESC_SIZE. apply (writes_only_trans _ m1);
      (eapply writes_only_weaken; [done|mlia|mlia]).
  - rewrite (desc_bitmap_frame b m1 m2 _ _ ltac:(owned) W2) by lia.
    apply bit_taken_bitmap; [owned|done|done].
  - rewrite V2. unfold desc_free. by rewrite F1 by lia.
  - rewrite V2'. unfold desc_high_water. by rewrite F1 by lia.
Qed.
End Descriptors.

(** ** The first block: the kernel's window *)

Lemma ld8_window pd pt m v :
  kernel_map pd pt m → in_window v → ld8 v m = Done (rd8 (mem m) (v - KERNEL_VIRT_BASE)) m.
Proof.
  intros Hm Hv. unfold ld8.
  by rewrite u32_small, (translate_window pd pt m v Hm Hv) by (by apply in_window_word).
Qed.

Lemma ld32_window pd pt m v :
  kernel_map pd pt m → in_window v → in_window (v + 3) →
  ld32 v m = Done (rd32 (mem m) (v - KERNEL_VIRT_BASE)) m.
Proof.
  intros Hm H0 H3. assert (in_window (v + 1) ∧ in_window (v + 2)) as [H1 H2]
    by (unfold in_window in *; lia).
  unfold ld32.
  run (ld8_window pd pt m v Hm H0). run (ld8_window pd pt m (v + 1) Hm H1).
  run (ld8_window pd pt m (v + 2) Hm H2). run (ld8_window pd pt m (v + 3) Hm H3).
  unfold mret, prog_ret, rd32. f_equal. repeat (f_equal; try lia).
Qed.

(** The page and the table entry of page [k] of the window. *)
Definition window_page (k : Z) : Z := KERNEL_VIRT_BASE + 4096 * k.

Lemma window_page_facts k :
  0 <= k < 1024 →
  in_window (window_page k) ∧ word (window_page k) ∧ window_page k ≠ 0 ∧
  PAGE_TABLE_INDEX (window_page k) = k ∧
  KERNEL_VIRT_BASE [+] (k [*] PAGE_SIZE) = window_page k.
Proof.
  intros Hk. assert (in_window (window_page k)) as Hw
    by (unfold window_page, in_window, WINDOW; lia).
  split_and!; [done|by apply in_window_word|unfold window_page, KERNEL_VIRT_BASE; lia| |].
  - rewrite (proj1 (proj2 (window_indices _ Hw))). unfold window_page, KERNEL_VIRT_BASE. mlia.
  - unfold window_page. rewrite (u32_small (k * PAGE_SIZE)) by word_lia.
    rewrite u32_small by word_lia. unfold PAGE_SIZE. lia.
Qed.

Lemma window_entry pd pt m k :
  kernel_map pd pt m → 0 <= k < 1024 →
  ld_entry (entry_ptr (pt + KERNEL_VIRT_BASE) k) m =
    Done (decode_entry (rd32 (mem m) (pt + 4 * k))) m ∧
  present (decode_entry (rd32 (mem m) (pt + 4 * k))) = true ∧
  4096 * phys_addr (decode_entry (rd32 (mem m) (pt + 4 * k))) = 4096 * k.
Proof.
  intros Hm Hk. destruct (km_pte _ _ _ Hm k Hk) as [Hp Hf].
  destruct (km_pt_low _ _ _ Hm) as [Hr Ha]. unfold WINDOW in Hr.
  assert (entry_ptr (pt + KERNEL_VIRT_BASE) k = pt + KERNEL_VIRT_BASE + 4 * k) as ->
    by (apply u32_small; word_lia).
  split_and!; [|exact Hp|].
  - unfold ld_entry. rewrite (bind_done _ _ _ _ _ (ld32_window pd pt m
      (pt + KERNEL_VIRT_BASE + 4 * k) Hm ltac:(unfold in_window, WINDOW; mlia)
      ltac:(unfold in_window, WINDOW; mlia))).
    by replace (pt + KERNEL_VIRT_BASE + 4 * k - KERNEL_VIRT_BASE) with (pt + 4 * k) by lia.
  - rewrite <- Hf. cbn [phys_addr decode_entry].
    set (w := rd32 (mem m) (pt + 4 * k)).
    assert (word w) as Hw.
    { subst w. unfold rd32. repeat match goal with
        |- context [rd8 ?μ ?p] => pose proof (rd8_range μ p); generalize dependent (rd8 μ p)
      end. intros. unfold word, W32. lia. }
    rewrite PAGE_ALIGN_sub by done. unfold word, W32 in Hw. mlia.
Qed.

(** The kernel's window is the first block of the list; its descriptor is
    in the part of the window that [owns] describes. *)
Record first_block_in (owns : Z → Prop) (pd pt b : Z) (m : machine) : Prop := {
  fb_map : kernel_map pd pt m;
  fb_head : vmm_block_list_head (vmm m) = b;
  fb_owned : owns_range owns b VMM_BLOCK_DESC_SIZE;
  fb_window : in_window b;
  fb_first : desc_first m b = KERNEL_VIRT_BASE;
  fb_table : desc_table m b = pt + KERNEL_VIRT_BASE
}.

Abbreviation first_block pd pt := (first_block_in (window_free pd pt) pd pt).

Section FirstBlock.
Context {owns : Z → Prop} (pd pt : Z) `{HR : !Region (kernel_map pd pt) owns}.

Lemma first_block_nonzero b m : first_block_in owns pd pt b m → b ≠ 0.
Proof using.
  intros F. pose proof (fb_window _ _ _ _ _ F) as Hw.
  unfold in_window, KERNEL_VIRT_BASE in Hw. lia.
Qed.

Lemma ensure_mapped_window b k m :
  first_block_in owns pd pt b m → 0 <= k < 1024 →
  vmm_ensure_mapped b (window_page k) m = Done tt m.
Proof.
  intros F Hk. pose proof (fb_map _ _ _ _ _ F) as HI.
  pose proof (fb_owned _ _ _ _ _ F) as Ho. unfold VMM_BLOCK_DESC_SIZE in Ho.
  unfold vmm_ensure_mapped, page_table. load. fold (desc_table m b).
  rewrite (fb_table _ _ _ _ _ F). unfold paging_is_virtual_page_present.
  destruct (window_page_facts k Hk) as (_ & _ & _ & -> & _).
  destruct (window_entry pd pt m k HI Hk) as (E & Hp & _). cbv zeta. rewrite bind_assoc.
  run E. steps. rewrite Hp. done.
Qed.

(** Taking a page of the first block, away from the end of its table. *)
Lemma first_block_alloc d fuel b k m :
  first_block_in owns pd pt b m → desc_free m b ≠ 0 →
  scan_words (desc_bitmap m b) 0 = Some k →
  Z.max (desc_high_water m b) (k + 1) ≠ HIGH_WATER_THRESHOLD ∨ desc_next m b ≠ 0 ∨
    allocating_new_block (vmm m) = true →
  ∃ m', vmm_alloc_page (S d) (S fuel) m = Done (window_page k) m' ∧
    0 <= k < 1024 ∧ first_block_in owns pd pt b m' ∧
    page_taken (owns := owns) b k m m'.
Proof.
  intros F Hf Hs Hq. assert (b ≠ 0) as Hb by (by apply (first_block_nonzero b m)).
  destruct F as [HI Hh Ho Hin H1 H2].
  destruct (find_take fuel b k m HI Ho Hb Hf Hs) as (m1 & E & K1 & Hk & T).
  destruct (window_page_facts k Hk) as (_ & _ & Hn & _ & Ep). rewrite H1, Ep in E.
  assert (vmm m1 = vmm m) as Ev by (by rewrite (proj1 (pt_writes _ _ _ _ T))).
  assert (first_block_in owns pd pt b m1) as F1.
  { split; [done|by rewrite Ev|done|done|by rewrite (pt_first _ _ _ _ T)
           |by rewrite (pt_table _ _ _ _ T)]. }
  exists m1. split_and!; try done; [|lia|lia].
  cbn [vmm_alloc_page]. unfold vmm_alloc_page_with. msteps. rewrite Hh. run E.
  destruct (Z.eqb_spec (window_page k) 0); [done|]. cbn [when]. steps.
  unfold VMM_BLOCK_DESC_SIZE in Ho. unfold high_water_mark, next_vmm_block. load. load. steps.
  fold (desc_high_water m1 b) (desc_next m1 b).
  rewrite (pt_high _ _ _ _ T), (pt_next _ _ _ _ T), Ev.
  assert ((Z.max (desc_high_water m b) (k + 1) =? HIGH_WATER_THRESHOLD)
    && (desc_next m b =? 0) && negb (allocating_new_block (vmm m)) = false) as ->.
  { destruct Hq as [Hq|[Hq|Hq]].
    - by rewrite (proj2 (Z.eqb_neq _ _) Hq).
    - rewrite (proj2 (Z.eqb_neq _ _) Hq). by rewrite andb_false_r.
    - rewrite Hq. by rewrite andb_false_r. }
  cbn [when]. steps. by run (ensure_mapped_window b k m1 F1 Hk).
Qed.

(** What [vmm_get_phys_addr] and [vmm_free_page] do on a page of the window. *)
Lemma window_phys fuel b k m :
  first_block_in owns pd pt b m → 0 <= k < 1024 →
  vmm_get_phys_addr (S fuel) (window_page k) m = Done (4096 * k) m.
Proof.
  intros F Hk. pose proof (first_block_nonzero _ _ F) as Hb.
  destruct F as [HI Hh Ho Hin0 H1 H2]. unfold VMM_BLOCK_DESC_SIZE in Ho.
  unfold vmm_get_phys_addr. msteps. rewrite Hh. cbn [vmm_phys_loop].
  destruct (Z.eqb_spec b 0); [done|]. unfold first_page, page_table. load. load. cbv zeta.
  fold (desc_first m b) (desc_table m b). rewrite H1.
  assert ((KERNEL_VIRT_BASE <=? window_page k) = true) as ->
    by (apply Z.leb_le; unfold window_page; lia).
  cbn [orb]. load. fold (desc_table m b). rewrite H2.
  destruct (window_page_facts k Hk) as (_ & _ & _ & -> & _).
  destruct (window_entry pd pt m k HI Hk) as (E & _ & Hf). run E. f_equal.
  rewrite Z.shiftl_mul_pow2 by lia. change (2 ^ 12) with 4096.
  rewrite (Z.mul_comm (phys_addr _)), Hf. apply u32_small. word_lia.
Qed.

Lemma window_free_page fuel b k m :
  first_block_in owns pd pt b m → 0 <= k < 1024 →
  ∃ m', vmm_free_page (S fuel) (window_page k) m = Done tt m' ∧ first_block_in owns pd pt b m' ∧
    desc_bitmap m' b = clear_page (desc_bitmap m b) k ∧ desc_free m' b = desc_free m b ∧
    writes_only owns m m' b VMM_BLOCK_DESC_SIZE.
Proof.
  intros F Hk. pose proof (first_block_nonzero _ _ F) as Hb.
  destruct F as [HI Hh Ho Hin0 H1 H2]. pose proof Ho as Ho'. unfold VMM_BLOCK_DESC_SIZE in Ho.
  destruct (window_page_facts k Hk) as (Hin & Hw & _).
  unfold vmm_free_page. msteps. rewrite Hh. cbn [vmm_free_loop].
  destruct (Z.eqb_spec b 0); [done|]. unfold first_page, next_vmm_block. cbv zeta.
  steps. load. steps. load. steps. fold (desc_first m b). rewrite H1.
  rewrite PAGE_ALIGN_id by (done || unfold window_page, KERNEL_VIRT_BASE; mlia).
  assert ((KERNEL_VIRT_BASE <=? window_page k) = true) as ->
    by (apply Z.leb_le; unfold window_page; lia).
  cbn [orb]. rewrite V2P_window by done. unfold window_page.
  replace ((KERNEL_VIRT_BASE + 4096 * k - KERNEL_VIRT_BASE) / PAGE_SIZE) with k
    by (unfold PAGE_SIZE; mlia).
  unfold vmm_bitmap_at.
  assert (owns_range owns (b + 4 * (k / 32)) 4) as Hq
    by (apply (owns_range_sub _ _ _ _ _ Ho); mlia).
  steps. rewrite (bind_done _ _ _ _ _ (ld32_ok (I := kernel_map pd pt) (owns := owns) _ _ HI Hq)). cbv beta.
  destruct (st32_ok (I := kernel_map pd pt) (owns := owns) m (b + 4 * (k / 32))
    (CLEAR_BIT (word_at m (b + 4 * (k / 32))) (k mod 32)) HI Hq) as (m1 & S1 & K1 & V1 & W1).
  steps. run S1. steps. load. steps. cbn [negb when].
  exists m1. split; [done|].
  assert (∀ o, 128 <= o <= 144 → word_at m1 (b + o) = word_at m (b + o)) as F1.
  { intros o Hoo. apply (writes_only_word_at _ _ _ _ _ W1); [owned|mlia]. }
  rewrite u32_small in V1 by auto with words.
  split_and!.
  - split; [done|by rewrite (proj1 W1)|done|done|unfold desc_first; by rewrite F1 by lia
           |unfold desc_table; by rewrite F1 by lia].
  - apply (list_eq_same_length _ _ 32); rewrite ?length_clear_page, ?desc_bitmap_length; try done.
    intros i x y Hi. rewrite <- (Nat2Z.id i), desc_bitmap_lookup by lia. intros [= <-].
    unfold clear_page. rewrite list_lookup_alter. case_decide as Hd.
    + assert (Z.of_nat i = k / 32) as -> by mlia.
      rewrite desc_bitmap_lookup by mlia. simpl. intros [= <-]. done.
    + rewrite desc_bitmap_lookup by lia. intros [= <-].
      apply (writes_only_word_at _ _ _ _ _ W1); [owned|mlia].
  - unfold desc_free. by rewrite F1 by lia.
  - unfold VMM_BLOCK_DESC_SIZE. chain_writes.
Qed.

End FirstBlock.

(** ** The initial descriptor *)

(** The mask of the last partly used bitmap word. *)
Lemma remaining_mask r :
  0 <= r < 32 → u32 (Z.lnot (u32 (Z.shiftl 0xFFFFFFFF r))) = Z.ones r.
Proof.
  revert r. apply (all_below_spec 32
    (λ r, u32 (Z.lnot (u32 (Z.shiftl 0xFFFFFFFF r))) = Z.ones r)). by vm_compute.
Qed.

Lemma ones_word r : 0 <= r < 32 → word (Z.ones r).
Proof.
  revert r. apply (all_below_spec 32 (λ r, word (Z.ones r))). by vm_compute.
Qed.

Section InitialBlock.
Context {I : machine → Prop} {owns : Z → Prop} `{HR : !Region I owns}.

(** The descriptor [vmm_init] builds: the first [n] pages are in use.  The
    words of the bitmap behind word [n / 32] are not written. *)
Record initial_desc (b table n : Z) (m : machine) : Prop := {
  id_bits k : 0 <= k < 32 * (n / 32 + 1) → bit_of (desc_bitmap m b) k = (k <? n);
  id_high : desc_high_water m b = n;
  id_free : desc_free m b = 1024 - n;
  id_first : desc_first m b = KERNEL_VIRT_BASE;
  id_table : desc_table m b = table;
  id_next : desc_next m b = 0
}.

Lemma initial_desc_same m m' b table n :
  cpu m' = cpu m → mem m' = mem m → initial_desc b table n m → initial_desc b table n m'.
Proof using.
  intros Hc Hm [H1 H2 H3 H4 H5 H6].
  assert (∀ v, word_at m' v = word_at m v) as Hw by (intros; by apply word_at_same).
  assert (desc_bitmap m' b = desc_bitmap m b) as Hb.
  { unfold desc_bitmap. apply map_ext. intros i. apply Hw. }
  split; unfold desc_high_water, desc_free, desc_first, desc_table, desc_next;
    rewrite ?Hw, ?Hb; done.
Qed.

(** The bits of a map that begins with full words and a partial one. *)
Lemma leading_bits b n m :
  0 <= n < 1024 →
  (∀ i, 0 <= i < n / 32 → word_at m (b + 4 * i) = FULL_WORD) →
  word_at m (b + 4 * (n / 32)) = Z.ones (n mod 32) →
  ∀ k, 0 <= k < 32 * (n / 32 + 1) → bit_of (desc_bitmap m b) k = (k <? n).
Proof using.
  intros Hn Hf Hp k Hk. unfold bit_of. rewrite desc_bitmap_lookup by mlia. cbn [default].
  destruct (Z.lt_ge_cases (k / 32) (n / 32)) as [Hlt|Hge].
  - rewrite Hf by mlia. cbn. rewrite full_word_bits by mlia. symmetry.
    apply Z.ltb_lt. mlia.
  - assert (k / 32 = n / 32) as -> by mlia. rewrite Hp. cbn.
    destruct (Z.ltb_spec k n).
    + apply Z.ones_spec_low. mlia.
    + apply Z.ones_spec_high. mlia.
Qed.

Lemma word_at_full m v :
  (∀ i, 0 <= i < 4 → byte_at m (v + i) = 255) → word_at m v = FULL_WORD.
Proof using.
  intros H. unfold word_at. rewrite <- (Z.add_0_r v) at 1. rewrite !H by lia. done.
Qed.

Lemma vmm_init_desc kmalloc m0 m b table n :
  kmalloc VMM_BLOCK_DESC_SIZE m0 = Done b m → I m →
  owns_range owns b VMM_BLOCK_DESC_SIZE → word table →
  (V2P_ADDR table [+] PAGE_SIZE) / PAGE_SIZE = n → 0 <= n < 1024 →
  ∃ m', vmm_init_with kmalloc table m0 =
          Done tt (set_vmm (VmmState b b (allocating_new_block (vmm m))) m') ∧
    I m' ∧ writes_only owns m m' b VMM_BLOCK_DESC_SIZE ∧ initial_desc b table n m' ∧
    ∀ i, n / 32 < i < 32 → word_at m' (b + 4 * i) = word_at m (b + 4 * i).
Proof.
  intros HK HI Ho Hw Hn Hr. unfold vmm_init_with. run HK. rewrite Hn. clear HK Hn.
  unfold VMM_BLOCK_DESC_SIZE in Ho.
  unfold set_first_page, set_page_table, set_next_vmm_block, set_high_water_mark,
    set_free_pages.
  store m1 K1 V1 W1. store m2 K2 V2 W2. store m3 K3 V3 W3. cbv zeta. store m4 K4 V4 W4.
  store m5 K5 V5 W5. rewrite Z.shiftr_div_pow2 by lia. change (2 ^ 5) with 32.
  rewrite (u32_small (n / 32 * 4)) by word_lia.
  destruct (memset_ok (I := I) (owns := owns) b 0xFF (n / 32 * 4) m5 K5 ltac:(mlia))
    as (m6 & S6 & K6 & W6 & B6);
    [apply (owns_range_sub _ _ _ _ _ Ho); mlia|]. run S6.
  assert (0 <= n mod 32 < 32) as Hm by mlia.
  rewrite remaining_mask by done. unfold vmm_bitmap_at.
  destruct (st32_ok (I := I) (owns := owns) m6 (b + 4 * (n / 32)) (Z.ones (n mod 32)) K6)
    as (m7 & S7 & K7 & V7 & W7); [apply (owns_range_sub _ _ _ _ _ Ho); mlia|].
  run S7. msteps. exists m7.
  assert (∀ o, 128 <= o <= 144 → word_at m7 (b + o) = word_at m5 (b + o)) as F7.
  { intros o Hoo. rewrite (writes_only_word_at _ _ _ _ _ W7) by (owned || mlia).
    apply (writes_only_word_at _ _ _ _ _ W6); [owned|mlia]. }
  assert (writes_only owns m m7 b VMM_BLOCK_DESC_SIZE) as W.
  { unfold VMM_BLOCK_DESC_SIZE. chain_writes. }
  split_and!; [by rewrite (proj1 W)|done|done| |].
  2: { intros i Hi. assert (owns_range owns (b + 4 * i) 4) as Oi
      by (apply (owns_range_sub _ _ _ _ _ Ho); mlia).
    rewrite (writes_only_word_at _ _ _ _ _ W7), (writes_only_word_at _ _ _ _ _ W6) by (done || mlia).
    words. done. }
  split; unfold desc_high_water, desc_free, desc_first, desc_table, desc_next;
    rewrite ?F7 by lia; words; rewrite ?u32_idem; try (apply u32_small; word_lia).
  apply leading_bits; [done| |rewrite V7; by apply u32_small, ones_word].
  intros i Hi. rewrite (writes_only_word_at _ _ _ _ _ W7);
    [|apply (owns_range_sub _ _ _ _ _ Ho); mlia|lia].
  apply word_at_full. intros j Hj. rewrite <- Z.add_assoc, B6 by mlia. done.
Qed.
End InitialBlock.

(** Storing beside the blocks keeps the heap. *)
Lemma heap_list_frame {I owns} `{HR : !Region I owns} m m' l v n :
  heap_list (owns := owns) m l → writes_only owns m m' v n → Forall (apart v n) l →
  heap_list (owns := owns) m' l.
Proof.
  intros (Hf & Ho & Hw) [E B] Ha. split_and!; [|done|done].
  assert (heap m' = heap m) as -> by (by rewrite E).
  apply (free_seg_frame (owns := owns) m m' _ l 0 v n); try done.
  apply Forall_forall. intros x Hx. rewrite Forall_forall in Ha. specialize (Ha x Hx).
  pose proof (fl_sorted_Forall _ _ (fl_ordered_sorted _ _ Ho)) as HS.
  rewrite Forall_forall in HS. specialize (HS x Hx). unfold apart in Ha. simpl in *. lia.
Qed.

(** The bits behind a zero word. *)
Lemma initial_bits b table n m :
  initial_desc b table n m → 0 <= n < 1024 →
  (∀ i, n / 32 < i < 32 → word_at m (b + 4 * i) = 0) →
  ∀ k, 0 <= k < 1024 → bit_of (desc_bitmap m b) k = (k <? n).
Proof.
  intros D Hn HZ k Hk. destruct (Z.lt_ge_cases k (32 * (n / 32 + 1))).
  - apply (id_bits _ _ _ _ D). lia.
  - unfold bit_of. rewrite desc_bitmap_lookup by mlia. cbn [default].
    rewrite HZ by mlia. cbn. rewrite Z.testbit_0_l. symmetry. apply Z.ltb_ge. mlia.
Qed.

(** [vmm_init] on a heap whose first fit for a descriptor is a split. *)
Record vmm_started (pd pt : Z) (l : list block) (b : Z) (l' : list block)
    (m m' : machine) : Prop := {
  vs_block : first_block pd pt b m';
  vs_heap : heap_list (owns := window_free pd pt) m' l';
  vs_desc : initial_desc b (pt + KERNEL_VIRT_BASE) (pt / 4096 + 1) m';
  vs_regs : m' = set_vmm (VmmState b b (allocating_new_block (vmm m))) (set_mem (mem m') m);
  vs_frame a : window_free pd pt a → ¬ Exists (in_block a) l → byte_at m' a = byte_at m a;
  vs_clean : clean l m → clean l' m' ∧
    ∀ k, 0 <= k < 1024 → bit_of (desc_bitmap m' b) k = (k <? pt / 4096 + 1)
}.

Lemma vmm_init_ok d fuel pd pt l b l' m :
  kernel_map pd pt m → heap_list (owns := window_free pd pt) m l →
  (length l <= fuel)%nat → fl_alloc 152 l = Split b l' → pt + 4096 < WINDOW →
  ∃ m', vmm_init d fuel (pt + KERNEL_VIRT_BASE) m = Done tt m' ∧
    vmm_started pd pt l b l' m m'.
Proof.
  intros HI HL Hfu Ha Hpt. pose proof (window_region pd pt) as HR.
  pose proof HL as (_ & Ho & Hw).
  destruct (kmalloc_carves (I := kernel_map pd pt) (owns := window_free pd pt)
    (vmm_alloc_page d fuel) fuel VMM_BLOCK_DESC_SIZE l b l' m HI HL ltac:(done) Hfu Ha)
    as (m1 & E1 & K1 & HL1 & OM & F1 & U1).
  change (kmalloc_round VMM_BLOCK_DESC_SIZE) with 152 in U1.
  destruct (fl_alloc_Split 152 l b l' 0 ltac:(lia) Ho Ha)
    as (l1 & b0 & sz & l2 & El & El' & Eb & Hs & _).
  pose proof (cut_block_apart l1 b0 sz l2 152 ltac:(by rewrite <- El) ltac:(lia) Hs) as Hap.
  rewrite <- El', <- Eb in Hap.
  assert (owns_range (window_free pd pt) b VMM_BLOCK_DESC_SIZE) as Hown.
  { subst. apply fl_owned_app in Hw as [_ Hw]. apply Forall_cons in Hw as [Hw _]. cbn in Hw.
    unfold VMM_BLOCK_DESC_SIZE. owned. }
  pose proof (km_pt_low _ _ _ HI) as [Hr Hal]. unfold WINDOW in *.
  assert ((V2P_ADDR (pt + KERNEL_VIRT_BASE) [+] PAGE_SIZE) / PAGE_SIZE = pt / 4096 + 1) as Hn.
  { rewrite V2P_window by (unfold in_window, WINDOW; lia).
    rewrite u32_small by word_lia. unfold PAGE_SIZE. mlia. }
  destruct (vmm_init_desc (kmalloc d fuel) m m1 _ (pt + KERNEL_VIRT_BASE) _ E1 K1 Hown
    ltac:(word_lia) Hn ltac:(mlia)) as (m2 & E2 & K2 & W2 & D2 & Z2).
  assert (heap_list (owns := window_free pd pt) m2 l') as HL2.
  { apply (heap_list_frame m1 m2 _ b VMM_BLOCK_DESC_SIZE HL1 W2).
    eapply Forall_impl; [exact Hap|]. intros x Hx. unfold apart, VMM_BLOCK_DESC_SIZE in *. lia. }
  set (v := VmmState b b (allocating_new_block (vmm m1))).
  assert (∀ a, byte_at (set_vmm v m2) a = byte_at m2 a) as HB
    by (intros; by apply byte_at_same).
  exists (set_vmm v m2). split; [exact E2|].
  assert (initial_desc b (pt + KERNEL_VIRT_BASE) (pt / 4096 + 1) (set_vmm v m2)) as D3
    by (by apply (initial_desc_same m2)).
  split.
  - split; [by apply (kernel_map_same _ _ m2)|done|done| |apply D3|apply D3].
    rewrite <- (Z.add_0_r b). by apply (Hown 0).
  - destruct HL2 as (F & ? & ?). split_and!; [|done|done].
    by apply (free_seg_same m2).
  - exact D3.
  - subst v. rewrite (proj1 W2), OM. done.
  - intros a Hoa Hna. rewrite HB, (proj2 W2 a Hoa); [by apply F1|].
    destruct (decide (b <= a < b + 152)); [|unfold VMM_BLOCK_DESC_SIZE; lia].
    destruct Hna. rewrite El. apply Exists_app. right. left. unfold in_block. cbn. lia.
  - intros Hc. destruct (U1 Hc) as [Hc1 HZ]. split.
    + intros a Hu. rewrite HB, (proj2 W2); [by apply Hc1|apply (unused_owned _ l'); [apply HL2|done]|].
      apply Exists_exists in Hu as (x & Hx & Hin). rewrite Forall_forall in Hap.
      specialize (Hap x Hx). unfold apart, VMM_BLOCK_DESC_SIZE in *. lia.
    + apply (initial_bits _ _ _ _ D3); [mlia|]. intros i Hi.
      rewrite (word_at_same m2), Z2 by (done || mlia). unfold word_at.
      rewrite !HZ by mlia. done.
Qed.

(** The first clear bit of a bitmap. *)
Lemma scan_first bm k :
  0 <= k < 32 * Z.of_nat (length bm) → bit_of bm k = false →
  (∀ i, 0 <= i < k → bit_of bm i = true) → scan_words bm 0 = Some k.
Proof.
  intros Hk Hf Ha. pose proof (scan_words_spec bm 0) as Hs.
  destruct (scan_words bm 0) as [j|]; [|by rewrite Hs in Hf].
  rewrite Z.sub_0_r in Hs. destruct Hs as (Hr & Hc & Hb). f_equal.
  destruct (Z.lt_trichotomy j k) as [?|[?|?]]; [|done|].
  - rewrite Ha in Hc by lia. done.
  - rewrite Hb in Hf by lia. done.
Qed.

(** ** Properties *)

(** C40: [vmm_alloc_page] and [kmalloc] call each other at most two deep:
    the static flag stops the recursion, so every larger bound computes the
    same as two, on every machine. *)
Theorem vmm_alloc_page_depth d fuel m :
  vmm_alloc_page (2 + d) fuel m = vmm_alloc_page 2 fuel m.
Proof.
  cbn [vmm_alloc_page Nat.add]. apply alloc_page_ext. intros n. apply kmalloc_same.
  apply alloc_page_no_kmalloc.
Qed.

(** C15: in the kernel's window [vmm_alloc_page] is first fit.  Unless the
    page takes the block to its threshold (when a new block is added), the
    call returns the page of the first clear bit, sets that bit, counts the
    page, raises the high-water mark, writes nothing but the descriptor, and
    the page is mapped: the MMU and [vmm_get_phys_addr] agree on its frame. *)
Theorem vmm_alloc_page_first_fit d fuel pd pt b k m :
  first_block pd pt b m → desc_free m b ≠ 0 → 0 <= k < 1024 →
  bit_of (desc_bitmap m b) k = false →
  (∀ i, 0 <= i < k → bit_of (desc_bitmap m b) i = true) →
  Z.max (desc_high_water m b) (k + 1) ≠ HIGH_WATER_THRESHOLD ∨ desc_next m b ≠ 0 ∨
    allocating_new_block (vmm m) = true →
  ∃ m', vmm_alloc_page (S d) (S fuel) m = Done (window_page k) m' ∧
    first_block pd pt b m' ∧ page_taken (owns := window_free pd pt) b k m m' ∧
    translate m' (window_page k) = Some (4096 * k) ∧
    vmm_get_phys_addr (S fuel) (window_page k) m' = Done (4096 * k) m'.
Proof.
  intros F Hf Hk Hc Ha Hq.
  pose proof (scan_first (desc_bitmap m b) k
    ltac:(rewrite desc_bitmap_length; lia) Hc Ha) as Hs.
  destruct (first_block_alloc (owns := window_free pd pt) pd pt d fuel b k m F Hf Hs Hq) as (m' & E & _ & F' & T).
  exists m'. split_and!; try done; [|by apply (window_phys (owns := window_free pd pt) pd pt fuel b)].
  destruct (window_page_facts k Hk) as (Hin & _).
  rewrite (translate_window pd pt m' _ (fb_map _ _ _ _ _ F') Hin). f_equal.
  unfold window_page. lia.
Qed.

(** The booted kernel with its heap. *)
Lemma heap_machine :
  { m | kernel_map 1114112 1118208 m ∧
        heap_list (owns := window_free 1114112 1118208) m [(3222323200, 4096)] ∧
        pmm m = pmm sample_pool ∧ tty m = tty power_on }.
Proof.
  exists (match kmalloc_init (L := sample_layout) kernel_with_pool
          with Done _ m | Stop _ m => m end).
  destruct (kmalloc_init_ok (L := sample_layout) (I := kernel_map 1114112 1118208)
    (owns := window_free 1114112 1118208) kernel_with_pool kernel_with_pool_map)
    as (m1 & E1 & K1 & L1 & M1 & _);
    [apply (low_frame_owned 1114112 1118208 1097728); done|done|done|].
  rewrite E1. destruct kernel_entered_booted as [μ Eb].
  split_and!; [exact K1|exact L1|rewrite M1; reflexivity|].
  rewrite M1. unfold kernel_with_pool. cbn [tty set_heap set_mem set_pmm].
  rewrite Eb. reflexivity.
Qed.

Definition kernel_with_heap : machine := proj1_sig heap_machine.

(** ... and with the page allocator on top of it. *)
Lemma vmm_machine :
  { m | first_block 1114112 1118208 3222327144 m ∧
        initial_desc 3222327144 (1118208 + KERNEL_VIRT_BASE) 274 m ∧
        pmm m = pmm sample_pool ∧ tty m = tty power_on ∧
        heap_list (owns := window_free 1114112 1118208) m [(3222323200, 3936)] }.
Proof.
  exists (match vmm_init 1 1 (1118208 + KERNEL_VIRT_BASE) kernel_with_heap
          with Done _ m | Stop _ m => m end).
  destruct (proj2_sig heap_machine) as (K1 & L1 & P1 & T1). fold kernel_with_heap in *.
  destruct (vmm_init_ok 1 1 1114112 1118208 _ 3222327144 [(3222323200, 3936)]
    kernel_with_heap K1 L1) as (m2 & E2 & [F2 L2 D2 M2 _ _]); try done.
  rewrite E2. split_and!; [exact F2|exact D2| | |exact L2].
  - rewrite M2. exact P1.
  - rewrite M2. exact T1.
Qed.

Definition kernel_with_vmm : machine := proj1_sig vmm_machine.

Lemma kernel_with_vmm_block : first_block 1114112 1118208 3222327144 kernel_with_vmm.
Proof. exact (proj1 (proj2_sig vmm_machine)). Qed.

Lemma kernel_with_vmm_desc :
  initial_desc 3222327144 (1118208 + KERNEL_VIRT_BASE) 274 kernel_with_vmm.
Proof. exact (proj1 (proj2 (proj2_sig vmm_machine))). Qed.

(** Its first page is page 274, the one behind the page table. *)
Lemma kernel_with_vmm_page :
  desc_free kernel_with_vmm 3222327144 ≠ 0 ∧
  bit_of (desc_bitmap kernel_with_vmm 3222327144) 274 = false ∧
  (∀ i, 0 <= i < 274 → bit_of (desc_bitmap kernel_with_vmm 3222327144) i = true) ∧
  Z.max (desc_high_water kernel_with_vmm 3222327144) (274 + 1) ≠ HIGH_WATER_THRESHOLD.
Proof.
  pose proof kernel_with_vmm_desc as D.
  pose proof (id_bits _ _ _ _ D) as B. change (32 * (274 / 32 + 1)) with 288 in B.
  split_and!.
  - by rewrite (id_free _ _ _ _ D).
  - rewrite B by lia. done.
  - intros i Hi. rewrite B by lia. apply Z.ltb_lt. lia.
  - by rewrite (id_high _ _ _ _ D).
Qed.

Lemma vmm_alloc_page_first_fit_witness :
  ∃ m', vmm_alloc_page 1 1 kernel_with_vmm = Done (window_page 274) m' ∧
    first_block 1114112 1118208 3222327144 m' ∧
    page_taken (owns := window_free 1114112 1118208) 3222327144 274 kernel_with_vmm m' ∧
    translate m' (window_page 274) = Some (4096 * 274) ∧
    vmm_get_phys_addr 1 (window_page 274) m' = Done (4096 * 274) m'.
Proof.
  destruct kernel_with_vmm_page as (H1 & H2 & H3 & H4).
  apply (vmm_alloc_page_first_fit 0 0 1114112 1118208 3222327144 274 kernel_with_vmm
    kernel_with_vmm_block H1 ltac:(lia) H2 H3 (or_introl H4)).
Defined.

(** When every block of the list is out of pages, [vmm_alloc_page]
    panics. *)
Theorem vmm_alloc_page_exhausted I owns `{!Region I owns} d fuel l m :
  I m → tty_ok (tty m) → full_blocks (owns := owns) m (vmm_block_list_head (vmm m)) l 0 →
  (length l <= fuel)%nat → ∃ m', vmm_alloc_page (S d) fuel m = Stop Panicked m'.
Proof.
  intros HI Ht Hl Hfu. cbn [vmm_alloc_page]. unfold vmm_alloc_page_with. msteps.
  replace fuel with (length l + (fuel - length l))%nat by lia.
  destruct (panic_ok (chars "out of memory" ++ [NL]) m) as (m' & E & _);
    [by repeat constructor|done|].
  pose proof (find_skip (fuel - length l) _ _ _ m HI Hl) as Hs.
  assert (vmm_find (fuel - length l) 0 m = Done (0, 0) m) as H0
    by (by destruct (fuel - length l)%nat).
  rewrite H0 in Hs. run Hs. exists m'. by rewrite (bind_stop _ _ _ _ _ E).
Qed.

(** A terminal and one block without free pages, with paging off. *)
Definition spent_machine : machine :=
  set_vmm (VmmState 1048576 1048576 false) clean_screen.

Lemma vmm_alloc_page_exhausted_witness :
  ∃ m', vmm_alloc_page 1 1 spent_machine = Stop Panicked m'.
Proof.
  apply (vmm_alloc_page_exhausted unpaged word 0 1 [1048576] spent_machine).
  - done.
  - exact clean_screen_ok.
  - split_and!; try done.
    + intros i Hi. unfold VMM_BLOCK_DESC_SIZE in Hi. unfold word, W32. lia.
    + left. by vm_compute.
  - done.
Defined.

(** Freeing the page just allocated gives its bit back but not its
    count: the bitmap is what it was, [free_pages] is one less. *)
Theorem vmm_free_page_leaks_count d fuel pd pt b k m :
  first_block pd pt b m → desc_free m b ≠ 0 → 0 <= k < 1024 →
  bit_of (desc_bitmap m b) k = false →
  (∀ i, 0 <= i < k → bit_of (desc_bitmap m b) i = true) →
  Z.max (desc_high_water m b) (k + 1) ≠ HIGH_WATER_THRESHOLD ∨ desc_next m b ≠ 0 ∨
    allocating_new_block (vmm m) = true →
  ∃ m', (p ← vmm_alloc_page (S d) (S fuel); vmm_free_page (S fuel) p) m = Done tt m' ∧
    first_block pd pt b m' ∧
    desc_bitmap m' b = desc_bitmap m b ∧ desc_free m' b = desc_free m b - 1.
Proof.
  intros F Hf Hk Hc Ha Hq.
  pose proof (scan_first (desc_bitmap m b) k
    ltac:(rewrite desc_bitmap_length; lia) Hc Ha) as Hs.
  destruct (first_block_alloc (owns := window_free pd pt) pd pt d fuel b k m F Hf Hs Hq) as (m1 & E1 & _ & F1 & T). run E1.
  destruct (window_free_page (owns := window_free pd pt) pd pt fuel b k m1 F1 Hk) as (m2 & E2 & F2 & B2 & C2 & _).
  exists m2. split_and!; [done|done| |].
  - rewrite B2, (pt_bitmap _ _ _ _ T).
    apply clear_set_page; [auto with words|rewrite desc_bitmap_length; lia|done].
  - by rewrite C2, (pt_free _ _ _ _ T).
Qed.

Lemma vmm_free_page_leaks_count_witness :
  ∃ m', (p ← vmm_alloc_page 1 1; vmm_free_page 1 p) kernel_with_vmm = Done tt m' ∧
    first_block 1114112 1118208 3222327144 m' ∧
    desc_bitmap m' 3222327144 = desc_bitmap kernel_with_vmm 3222327144 ∧
    desc_free m' 3222327144 = desc_free kernel_with_vmm 3222327144 - 1.
Proof.
  destruct kernel_with_vmm_page as (H1 & H2 & H3 & H4).
  apply (vmm_free_page_leaks_count 0 0 1114112 1118208 3222327144 274 kernel_with_vmm
    kernel_with_vmm_block H1 ltac:(lia) H2 H3 (or_introl H4)).
Defined.

(** [vmm_init] takes a descriptor from the heap, which stays well formed,
    and reserves the pages up to the kernel's page table: exactly those have
    their bits set in the part of the bitmap it writes, and the counters agree. *)
Theorem vmm_init_reserves d fuel pd pt l b l' m :
  kernel_map pd pt m → heap_list (owns := window_free pd pt) m l →
  (length l <= fuel)%nat → fl_alloc 152 l = Split b l' → pt + 4096 < WINDOW →
  ∃ m', vmm_init d fuel (pt + KERNEL_VIRT_BASE) m = Done tt m' ∧
    first_block pd pt b m' ∧ heap_list (owns := window_free pd pt) m' l' ∧
    (∀ k, 0 <= k <= pt / 4096 + 1 → bit_of (desc_bitmap m' b) k = (4096 * k <=? pt)) ∧
    desc_high_water m' b = pt / 4096 + 1 ∧ desc_free m' b = 1023 - pt / 4096 ∧
    desc_next m' b = 0.
Proof.
  intros HI HL Hfu Ha Hpt.
  destruct (vmm_init_ok d fuel pd pt l b l' m HI HL Hfu Ha Hpt)
    as (m' & E & [F HL' D _ _ _]).
  destruct D as [D1 D2 D3 D4 D5 D6]. pose proof (km_pt_low _ _ _ HI) as [Hr Hal].
  exists m'. split_and!; try done; [|lia].
  intros k Hk. rewrite D1 by mlia.
  destruct (Z.ltb_spec k (pt / 4096 + 1)), (Z.leb_spec (4096 * k) pt); try done; mlia.
Qed.

Lemma vmm_init_reserves_witness :
  ∃ m', vmm_init 1 1 (1118208 + KERNEL_VIRT_BASE) kernel_with_heap = Done tt m' ∧
    first_block 1114112 1118208 3222327144 m' ∧
    heap_list (owns := window_free 1114112 1118208) m' [(3222323200, 3936)] ∧
    (∀ k, 0 <= k <= 1118208 / 4096 + 1 →
       bit_of (desc_bitmap m' 3222327144) k = (4096 * k <=? 1118208)) ∧
    desc_high_water m' 3222327144 = 1118208 / 4096 + 1 ∧
    desc_free m' 3222327144 = 1023 - 1118208 / 4096 ∧
    desc_next m' 3222327144 = 0.
Proof.
  destruct (proj2_sig heap_machine) as (K & HL & _).
  apply (vmm_init_reserves 1 1 1114112 1118208 [(3222323200, 4096)] 3222327144
    [(3222323200, 3936)] kernel_with_heap K HL); done.
Defined.

(** The two page allocators do not know of each other.  After [vmm_init]
    the first virtual page is mapped to the frame behind the kernel's page
    table; when that is the next free frame of the pool, as it is after
    [paging_init], [pmm_alloc_page] hands the same frame out again. *)
Theorem vmm_page_shares_frame d fuel pd pt l b l' m j :
  kernel_map pd pt m → heap_list (owns := window_free pd pt) m l →
  (length l <= S fuel)%nat → fl_alloc 152 l = Split b l' → pt < 4096 * 1020 →
  pmm_wf (pmm m) → pmm_next (pmm m) = Some j → frame_addr (pmm m) j = pt + 4096 →
  ∃ m', (vmm_init d (S fuel) (pt + KERNEL_VIRT_BASE);;
         page ← vmm_alloc_page (S d) (S fuel);
         frame ← pmm_alloc_page;
         mret (page, frame)) m = Done (pt + 4096 + KERNEL_VIRT_BASE, pt + 4096) m' ∧
    translate m' (pt + 4096 + KERNEL_VIRT_BASE) = Some (pt + 4096).
Proof.
  intros HI HL Hfu Ha Hpt Hwf Hj Hfr. pose proof (km_pt_low _ _ _ HI) as [Hr Hal].
  destruct (vmm_init_ok d (S fuel) pd pt l b l' m HI HL Hfu Ha ltac:(unfold WINDOW; lia))
    as (m1 & E1 & [F1 _ D M1 _ _]). run E1.
  assert (∃ n, n = pt / 4096 + 1) as [n Hn] by eauto. rewrite <- Hn in D.
  assert (window_page n = pt + 4096 + KERNEL_VIRT_BASE) as Hv by (unfold window_page; mlia).
  assert (0 <= n < 1021) as Hn' by mlia.
  assert (scan_words (desc_bitmap m1 b) 0 = Some n) as Hs.
  { apply scan_first; [rewrite desc_bitmap_length; lia| |].
    - rewrite (id_bits _ _ _ _ D) by mlia. apply Z.ltb_irrefl.
    - intros i Hi. rewrite (id_bits _ _ _ _ D) by mlia. apply Z.ltb_lt. lia. }
  assert (Z.max (desc_high_water m1 b) (n + 1) ≠ HIGH_WATER_THRESHOLD) as Hq
    by (rewrite (id_high _ _ _ _ D); unfold HIGH_WATER_THRESHOLD; lia).
  destruct (first_block_alloc (owns := window_free pd pt) pd pt d fuel b n m1 F1) as (m2 & E2 & Hn2 & F2 & T);
    [rewrite (id_free _ _ _ _ D); lia|done|by left|]. run E2.
  assert (pmm m2 = pmm m) as Ep by (by rewrite (proj1 (pt_writes _ _ _ _ T)), M1).
  rewrite <- Ep in Hwf, Hj, Hfr. run (pmm_alloc_page_Some m2 j Hwf Hj).
  rewrite Hfr, Hv. eexists. split; [done|].
  rewrite (translate_same m2), <- Hv by done.
  destruct (window_page_facts n Hn2) as (Hin & _).
  rewrite (translate_window pd pt m2 _ (fb_map _ _ _ _ _ F2) Hin). f_equal. lia.
Qed.

(** The pool as [paging_init] leaves it: the next frame is behind the table. *)
Definition pool_behind_table : physical_memory :=
  set_starting_addr 1122304 (pmm sample_pool).

Lemma pool_behind_table_wf : pmm_wf pool_behind_table.
Proof. split; try done. apply Forall_replicate. done. Qed.

Lemma kernel_with_heap_pool p :
  kernel_map 1114112 1118208 (set_pmm p kernel_with_heap) ∧
  heap_list (owns := window_free 1114112 1118208) (set_pmm p kernel_with_heap)
    [(3222323200, 4096)].
Proof.
  destruct (proj2_sig heap_machine) as (K & (H1 & H2 & H3) & _).
  fold kernel_with_heap in *. split.
  - by apply (kernel_map_same _ _ kernel_with_heap).
  - split_and!; [|done|done]. by apply (free_seg_same kernel_with_heap).
Qed.

Lemma vmm_page_shares_frame_witness :
  ∃ m', (vmm_init 0 1 (1118208 + KERNEL_VIRT_BASE);;
         page ← vmm_alloc_page 1 1;
         frame ← pmm_alloc_page;
         mret (page, frame)) (set_pmm pool_behind_table kernel_with_heap) =
        Done (1118208 + 4096 + KERNEL_VIRT_BASE, 1118208 + 4096) m' ∧
    translate m' (1118208 + 4096 + KERNEL_VIRT_BASE) = Some (1118208 + 4096).
Proof.
  destruct (kernel_with_heap_pool pool_behind_table) as [K HL].
  apply (vmm_page_shares_frame 0 0 1114112 1118208 [(3222323200, 4096)] 3222327144
    [(3222323200, 3936)] (set_pmm pool_behind_table kernel_with_heap) 0 K HL);
    cbn [pmm set_pmm length].
  - lia.
  - reflexivity.
  - lia.
  - exact pool_behind_table_wf.
  - by vm_compute.
  - by vm_compute.
Defined.
