(* ===== verification/Grow.v ===== *)
(** * Growing the kernel's address space: kernel/memory/vmm.c

    When the page in front of the last two of the first block is handed out,
    [vmm_alloc_page] adds a block: a descriptor from the heap, a page table in
    the last but one page of the window, an entry of the page directory.  The
    page of the new table stays free in the old block's bitmap. *)

From S2P Require Import Prelude Machine Tty Memory Boot Cstring Bitmap Pmm Paging Kmalloc HeapOps Vmm.

(** ** The window while one page of it is remapped *)

(** The page of the new table. *)
Definition in_hole (v : Z) : Prop := window_page 1022 <= v < window_page 1023.

#[export] Instance in_hole_dec v : Decision (in_hole v).
Proof. unfold in_hole. apply _. Defined.

(** The kernel's map but for the entry of that page. *)
Record hole_map (pd pt : Z) (m : machine) : Prop := {
  hm_on : paging_on m = true;
  hm_pd_low : low_frame pd;
  hm_pt_low : low_frame pt;
  hm_cr3 : PAGE_ALIGN (cr3 (cpu m)) = pd;
  hm_pde : entry_maps (rd32 (mem m) (pd + 4 * 768)) pt;
  hm_pte i : 0 <= i < 1024 → i ≠ 1022 → entry_maps (rd32 (mem m) (pt + 4 * i)) (4096 * i)
}.

Lemma kernel_map_hole pd pt m : kernel_map pd pt m → hole_map pd pt m.
Proof. intros [H1 H2 H3 H4 H5 H6]. split; auto. Qed.

Lemma hole_map_same pd pt m m' :
  cpu m' = cpu m → mem m' = mem m → hole_map pd pt m → hole_map pd pt m'.
Proof.
  intros Hc Hm [H1 H2 H3 H4 H5 H6]. split; try done; unfold paging_on in *;
    by rewrite ?Hc, ?Hm.
Qed.

Lemma hole_map_flag pd pt m b :
  hole_map pd pt m → hole_map pd pt (set_cpu (set_eflags_if b (cpu m)) m).
Proof. intros []. by split. Qed.

(** The tables' bytes that hold the two entries being written. *)
Definition new_entry (pd pt a : Z) : Prop :=
  pd + 4 * 769 <= a < pd + 4 * 769 + 4 ∨ pt + 4 * 1022 <= a < pt + 4 * 1022 + 4.

Lemma hole_map_insert pd pt m a b :
  hole_map pd pt m → pd ≠ pt →
  (in_frame pd a ∨ in_frame pt a → new_entry pd pt a) →
  hole_map pd pt (set_mem (<[a := b]> (mem m)) m).
Proof.
  intros [H1 [H2 H2'] [H3 H3'] H4 H5 H6] Hne Ha. unfold in_frame, new_entry in Ha.
  assert (pd + 4096 <= pt ∨ pt + 4096 <= pd) as Hd by mlia.
  split; try done; simpl.
  - rewrite rd32_insert_ne; [done|]. lia.
  - intros i Hi Hi'. rewrite rd32_insert_ne; [by apply H6|]. lia.
Qed.

Lemma translate_hole pd pt m v :
  hole_map pd pt m → in_window v → ¬ in_hole v → translate m v = Some (v - KERNEL_VIRT_BASE).
Proof.
  intros [Hon _ _ Hcr3 [Hp1 Hpt] Hpte] Hv Hh.
  destruct (window_indices v Hv) as (Hd & Ht & Hr).
  assert ((v - KERNEL_VIRT_BASE) / 4096 ≠ 1022) as Hne
    by (unfold in_hole, window_page in Hh; mlia).
  destruct (Hpte _ Hr Hne) as [Hp2 Hf].
  unfold translate, page_table_entry_at, page_directory_entry_at.
  rewrite Hon, Hd, Hcr3, Hp1, Hpt, Ht, Hp2, Hf. simpl. f_equal.
  unfold in_window, WINDOW, KERNEL_VIRT_BASE in *. mlia.
Qed.

(** While the entries are written. *)
Definition hole_free (pd pt v : Z) : Prop :=
  in_window v ∧ ¬ in_hole v ∧
  (in_frame pd (v - KERNEL_VIRT_BASE) ∨ in_frame pt (v - KERNEL_VIRT_BASE) →
   new_entry pd pt (v - KERNEL_VIRT_BASE)).

Lemma hole_region pd pt : pd ≠ pt → Region (hole_map pd pt) (hole_free pd pt).
Proof.
  intros Hne. apply (mapped_region _ _ (λ v, v - KERNEL_VIRT_BASE)).
  - intros v [Hv _]. by apply in_window_word.
  - apply hole_map_same.
  - apply hole_map_flag.
  - intros m v Hm (Hv & Hh & _). by apply (translate_hole pd pt).
  - lia.
  - intros m v b Hm (_ & _ & Hn). by apply hole_map_insert.
Qed.

(** Once they are written: the page shows frame [p], and the next 4 MiB are
    served by the table in it. *)
Record grown_map (pd pt p : Z) (m : machine) : Prop := {
  gm_hole : hole_map pd pt m;
  gm_pte : entry_maps (rd32 (mem m) (pt + 4 * 1022)) p;
  gm_pde : entry_maps (rd32 (mem m) (pd + 4 * 769)) p
}.

(** What neither the tables nor the page of the new one hold; and what does
    not show the new one's frame either. *)
Definition rest (pd pt v : Z) : Prop := window_free pd pt v ∧ ¬ in_hole v.

Definition kept (pd pt p v : Z) : Prop :=
  rest pd pt v ∧ ¬ in_frame p (v - KERNEL_VIRT_BASE).

Definition grown_free (pd pt p v : Z) : Prop := in_hole v ∨ kept pd pt p v.

Definition grown_phys (p v : Z) : Z :=
  if decide (in_hole v) then p + (v - window_page 1022) else v - KERNEL_VIRT_BASE.

(** A frame that can take the new table. *)
Record frame_ok (pd pt p : Z) : Prop := {
  fo_range : 0 <= p ∧ p + 4096 <= W32;
  fo_aligned : p mod 4096 = 0;
  fo_pd : p ≠ pd;
  fo_pt : p ≠ pt
}.

Lemma in_hole_window v : in_hole v → in_window v.
Proof. unfold in_hole, in_window, window_page, WINDOW. lia. Qed.

Lemma translate_grown pd pt p m v :
  grown_map pd pt p m → in_window v → translate m v = Some (grown_phys p v).
Proof.
  intros [Hm [Hp2 Hf] _] Hv. unfold grown_phys. destruct (decide (in_hole v)) as [Hh|Hh].
  - destruct Hm as [Hon _ _ Hcr3 [Hp1 Hpt] _].
    destruct (window_indices v Hv) as (Hd & Ht & Hr).
    assert ((v - KERNEL_VIRT_BASE) / 4096 = 1022) as He
      by (unfold in_hole, window_page in Hh; mlia).
    unfold translate, page_table_entry_at, page_directory_entry_at.
    rewrite Hon, Hd, Hcr3, Hp1, Hpt, Ht, He, Hp2, Hf. simpl. f_equal.
    unfold in_hole, window_page, KERNEL_VIRT_BASE in *. mlia.
  - by apply (translate_hole pd pt).
Qed.

Lemma grown_map_insert pd pt p m a b :
  grown_map pd pt p m → pd ≠ pt → ¬ in_frame pd a → ¬ in_frame pt a →
  grown_map pd pt p (set_mem (<[a := b]> (mem m)) m).
Proof.
  intros [H1 H2 H3] Hne Hd Ht. split.
  - apply hole_map_insert; [done|done|tauto].
  - simpl. unfold in_frame in *. rewrite rd32_insert_ne by lia. done.
  - simpl. unfold in_frame in *. rewrite rd32_insert_ne by lia. done.
Qed.

Lemma grown_phys_apart pd pt p v :
  frame_ok pd pt p → low_frame pd → low_frame pt → grown_free pd pt p v →
  ¬ in_frame pd (grown_phys p v) ∧ ¬ in_frame pt (grown_phys p v).
Proof.
  intros [[R1 R2] A D T] [_ Hpd] [_ Hpt] Hv. unfold grown_phys.
  destruct (decide (in_hole v)) as [Hh|Hh].
  - unfold in_hole, window_page, in_frame in *. split; mlia.
  - destruct Hv as [?|(((_ & ? & ?) & _) & _)]; [done|]. by split.
Qed.

Lemma grown_region pd pt p :
  pd ≠ pt → frame_ok pd pt p → Region (grown_map pd pt p) (grown_free pd pt p).
Proof.
  intros Hne Hp. apply (mapped_region _ _ (grown_phys p)).
  - intros v [Hv|(((Hv & _) & _) & _)]; [by apply in_window_word, in_hole_window|].
    by apply in_window_word.
  - intros m m' Hc Hm [H1 H2 H3]. split; [by apply (hole_map_same _ _ m)|by rewrite Hm..].
  - intros m b [H1 H2 H3]. split; [by apply hole_map_flag|done|done].
  - intros m v Hm Hv. apply (translate_grown pd pt); [done|].
    destruct Hv as [Hv|(((Hv & _) & _) & _)]; [by apply in_hole_window|done].
  - intros v w Hv Hw. unfold grown_phys, grown_free, kept, rest, in_frame, in_hole, window_page in *.
    repeat case_decide; try lia.
  - intros m v b Hm Hv. pose proof (gm_hole _ _ _ _ Hm) as [_ H2 H3 _ _ _].
    destruct (grown_phys_apart pd pt p v Hp H2 H3 Hv). by apply grown_map_insert.
Qed.

(** ** The new descriptor *)

Record new_block_desc (nb : Z) (m : machine) : Prop := {
  nd_bitmap : desc_bitmap m nb = replicate 32 0;
  nd_high : desc_high_water m nb = 0;
  nd_free : desc_free m nb = 1024;
  nd_first : desc_first m nb = KERNEL_VIRT_BASE + WINDOW;
  nd_table : desc_table m nb = window_page 1022;
  nd_next : desc_next m nb = 0
}.

(** [vmm_add_vmm_block] after the descriptor is filled in. *)
Definition add_block_rest (table nb : Z) : M unit :=
  phys_addr ← paging_map_virtual_page table (window_page 1022);
  new_first ← first_page nb;
  paging_add_page_table phys_addr new_first;;
  new_table ← page_table nb;
  memset new_table 0 PAGE_SIZE;;
  tail ← gets_vmm vmm_block_list_tail;
  set_next_vmm_block tail nb;;
  mod_vmm (set_vmm_block_list_tail nb).

(** A descriptor whose bytes are kept is kept, but for its link. *)
Lemma desc_kept (owns : Z → Prop) b m m' :
  owns_range owns b 144 → (∀ a, b <= a < b + 144 → owns a → byte_at m' a = byte_at m a) →
  desc_bitmap m' b = desc_bitmap m b ∧ desc_high_water m' b = desc_high_water m b ∧
  desc_free m' b = desc_free m b ∧ desc_first m' b = desc_first m b ∧
  desc_table m' b = desc_table m b.
Proof.
  intros Ho HB.
  assert (∀ o, 0 <= o <= 140 → word_at m' (b + o) = word_at m (b + o)) as HW.
  { intros o Hoo. apply (word_at_kept owns); [owned|]. intros a Ha. apply HB. lia. }
  split_and!; try (apply HW; lia).
  unfold desc_bitmap. apply map_ext_in. intros i Hi%list_elem_of_In. apply elem_of_seqZ in Hi.
  change VMM_BITMAP_SIZE with 32 in Hi. apply HW. lia.
Qed.

Lemma new_block_desc_kept (owns : Z → Prop) nb m m' :
  owns_range owns nb VMM_BLOCK_DESC_SIZE →
  (∀ a, nb <= a < nb + VMM_BLOCK_DESC_SIZE → owns a → byte_at m' a = byte_at m a) →
  new_block_desc nb m → new_block_desc nb m'.
Proof.
  unfold VMM_BLOCK_DESC_SIZE. intros Ho HB [H1 H2 H3 H4 H5 H6].
  destruct (desc_kept owns nb m m') as (E1 & E2 & E3 & E4 & E5); [owned|intros; apply HB; [lia|done]|].
  split; [congruence..|]. rewrite <- H6. apply (word_at_kept owns); [owned|].
  intros a Ha. apply HB. lia.
Qed.

Section NewDesc.
Context {I : machine → Prop} {owns : Z → Prop} `{HR : !Region I owns}.

Lemma new_desc_ok kmalloc m0 m nb b table :
  kmalloc VMM_BLOCK_DESC_SIZE m0 = Done nb m → I m →
  owns_range owns nb VMM_BLOCK_DESC_SIZE → owns_range owns b VMM_BLOCK_DESC_SIZE →
  nb + VMM_BLOCK_DESC_SIZE <= b ∨ b + VMM_BLOCK_DESC_SIZE <= nb →
  desc_first m b = KERNEL_VIRT_BASE → desc_table m b = table →
  ∃ m', vmm_add_vmm_block_with kmalloc b m0 = add_block_rest table nb m' ∧ I m' ∧
    writes_only owns m m' nb VMM_BLOCK_DESC_SIZE ∧ new_block_desc nb m'.
Proof.
  intros HK HI On Ob Hd Hf Ht. unfold vmm_add_vmm_block_with. run HK.
  unfold VMM_BLOCK_DESC_SIZE in *.
  destruct (memset_ok (I := I) (owns := owns) nb 0 148 m HI ltac:(lia) On)
    as (m1 & S1 & K1 & W1 & B1). run S1.
  unfold set_high_water_mark, set_free_pages, set_next_vmm_block, set_page_table,
    set_first_page, first_page, page_table.
  store m2 K2 V2 W2. store m3 K3 V3 W3. store m4 K4 V4 W4. load.
  assert (word_at m4 (b + 136) = KERNEL_VIRT_BASE) as E1 by (words; exact Hf).
  rewrite E1. change (KERNEL_VIRT_BASE [+] (HIGH_WATER_THRESHOLD [*] PAGE_SIZE)) with (window_page 1022).
  store m5 K5 V5 W5. load.
  assert (word_at m5 (b + 136) = KERNEL_VIRT_BASE) as E2 by (words; reflexivity).
  rewrite E2. change (KERNEL_VIRT_BASE [+] PAGE_TABLE_RANGE) with (KERNEL_VIRT_BASE + WINDOW).
  store m6 K6 V6 W6. load.
  assert (word_at m6 (b + 140) = table) as E3 by (words; exact Ht). rewrite E3.
  load.
  assert (word_at m6 (nb + 140) = window_page 1022) as E4 by (words; reflexivity). rewrite E4.
  exists m6. split_and!; [done|done|chain_writes|].
  split; unfold desc_high_water, desc_free, desc_first, desc_table, desc_next;
    try (words; reflexivity).
  unfold desc_bitmap. change (replicate 32 0) with (map (λ _, 0) (seqZ 0 VMM_BITMAP_SIZE)).
  apply map_ext_in. intros i Hi%list_elem_of_In. apply elem_of_seqZ in Hi.
  change VMM_BITMAP_SIZE with 32 in Hi. unfold vmm_bitmap_at.
  assert (owns_range owns (nb + 4 * i) 4) as Oi by owned. words.
  unfold word_at. rewrite <- !Z.add_assoc, !B1 by lia. done.
Qed.
End NewDesc.

(** ** Entering the new table *)

Lemma word_at_hole pd pt m v :
  hole_map pd pt m → (∀ i, 0 <= i < 4 → in_window (v + i) ∧ ¬ in_hole (v + i)) →
  word_at m v = rd32 (mem m) (v - KERNEL_VIRT_BASE).
Proof.
  intros Hm Hv.
  assert (∀ i, 0 <= i < 4 → byte_at m (v + i) = rd8 (mem m) (v - KERNEL_VIRT_BASE + i)) as HB.
  { intros i Hi. destruct (Hv i Hi). unfold byte_at, vbyte. rewrite (translate_hole pd pt) by done.
    cbn. f_equal. lia. }
  pose proof (HB 0 ltac:(lia)) as H0. rewrite !Z.add_0_r in H0.
  unfold word_at, rd32. by rewrite H0, !HB by lia.
Qed.

Lemma rest_hole pd pt v : rest pd pt v → hole_free pd pt v.
Proof. intros [(? & ? & ?) ?]. split_and!; [done|done|tauto]. Qed.

Section Tables.
Context (pd pt p : Z) (Hne : pd ≠ pt) (Hp : frame_ok pd pt p).
Context (Hpd : low_frame pd) (Hpt : low_frame pt).
Context (Hpdh : pd ≠ 4096 * 1022) (Hpth : pt ≠ 4096 * 1022).

(** The two entries, where the kernel reaches them. *)
Lemma entries_free :
  owns_range (hole_free pd pt) (pt + KERNEL_VIRT_BASE + 4 * 1022) 4 ∧
  owns_range (hole_free pd pt) (pd + KERNEL_VIRT_BASE + 4 * 769) 4.
Proof using All.
  destruct Hpd as [? ?], Hpt as [? ?]. unfold WINDOW in *.
  split; intros i Hi; unfold hole_free, in_window, in_hole, window_page, in_frame, new_entry, WINDOW;
    split_and!; mlia.
Qed.

Lemma entry_words m :
  hole_map pd pt m →
  word_at m (pt + KERNEL_VIRT_BASE + 4 * 1022) = rd32 (mem m) (pt + 4 * 1022) ∧
  word_at m (pd + KERNEL_VIRT_BASE + 4 * 769) = rd32 (mem m) (pd + 4 * 769).
Proof using All.
  intros Hm. destruct entries_free as [O1 O2].
  split; rewrite (word_at_hole pd pt) by
    (done || (intros i Hi; by destruct (O1 i Hi) as (? & ? & _))
          || (intros i Hi; by destruct (O2 i Hi) as (? & ? & _)));
    f_equal; lia.
Qed.

Lemma enter_table m p' nb {A} (k : M A) :
  hole_map pd pt m → kernel_page_directory m = pd + KERNEL_VIRT_BASE →
  pmm_alloc_page m = Done p (set_pmm p' m) →
  owns_range (rest pd pt) (nb + 136) 4 → desc_first m nb = KERNEL_VIRT_BASE + WINDOW →
  ∃ m', (phys_addr ← paging_map_virtual_page (pt + KERNEL_VIRT_BASE) (window_page 1022);
         new_first ← first_page nb;
         paging_add_page_table phys_addr new_first;; k) m = k m' ∧
    grown_map pd pt p m' ∧ m' = set_pmm p' (set_mem (mem m') m) ∧
    ∀ v, rest pd pt v → byte_at m' v = byte_at m v.
Proof using All.
  intros Hm Hdir HA On Hf. pose proof (hole_region pd pt Hne) as HR.
  destruct entries_free as [O1 O2]. destruct Hp as [[R1 R2] Al _ _].
  assert (word p) as Hw by (unfold word; lia).
  assert (PAGE_TABLE_INDEX (window_page 1022) = 1022) as Ei by (by vm_compute).
  destruct (map_virtual_page_ok (I := hole_map pd pt) (owns := hole_free pd pt) m
    (pt + KERNEL_VIRT_BASE) (window_page 1022) p p' Hm) as (m1 & E1 & K1 & P1 & V1 & W1);
    [by rewrite Ei|done|]. rewrite Ei in V1, W1. run E1.
  assert (∀ v, rest pd pt v → byte_at m1 v = byte_at m v) as B1.
  { intros v Hv. rewrite (proj2 W1); [by apply byte_at_same|by apply rest_hole|].
    destruct Hv as [(_ & _ & H) _]. unfold in_frame in H. lia. }
  assert (word_at m1 (nb + 136) = KERNEL_VIRT_BASE + WINDOW) as E2.
  { rewrite <- Hf. apply (word_at_kept _ _ _ _ On). intros a _. apply B1. }
  assert (owns_range (hole_free pd pt) (nb + 136) 4) as On'
    by (intros i Hi; by apply rest_hole, On).
  unfold first_page. load. rewrite E2. unfold paging_add_page_table, paging_flush_tlb. steps.
  assert (kernel_page_directory m1 = pd + KERNEL_VIRT_BASE) as Ed
    by (rewrite (proj1 W1); exact Hdir). rewrite Ed.
  change (PAGE_DIRECTORY_INDEX (KERNEL_VIRT_BASE + WINDOW)) with 769.
  assert (entry_ptr (pd + KERNEL_VIRT_BASE) 769 = pd + KERNEL_VIRT_BASE + 4 * 769) as ->.
  { apply u32_small, (region_word (I := hole_map pd pt)). apply (owns_range_at _ _ _ _ O2). lia. }
  assert (entry_wf zero_entry) as Hz by (by split).
  destruct (st_entry_ok (I := hole_map pd pt) (owns := hole_free pd pt) m1
    (pd + KERNEL_VIRT_BASE + 4 * 769) (mapped_entry p zero_entry) K1 O2)
    as (m2 & E3 & K2 & V2 & W2).
  { split; [done|]. apply Z.mod_pos_bound. done. }
  change (set_r_w true (set_present true (paging_set_page_directory_addr p zero_entry)))
    with (mapped_entry p zero_entry). run E3.
  exists m2. split_and!; [done| | |].
  - destruct (entry_words m2 K2) as [F1 F2]. split; [done| |].
    + rewrite <- F1, (writes_only_word_at _ _ _ _ _ W2), V1; [|done|].
      * by apply mapped_entry_maps, decode_entry_wf.
      * destruct Hpd as [? ?], Hpt as [? ?]. mlia.
    + rewrite <- F2, V2. by apply mapped_entry_maps.
  - rewrite (proj1 W2), (proj1 W1). done.
  - intros v Hv. rewrite (proj2 W2), B1; [done|done|by apply rest_hole|].
    destruct Hv as [(_ & H & _) _]. unfold in_frame in H. lia.
Qed.

(** The rest of [vmm_add_vmm_block]: the table is entered and cleared, the
    descriptor is linked behind the tail. *)
Lemma add_block_rest_ok m p' nb b :
  hole_map pd pt m → kernel_page_directory m = pd + KERNEL_VIRT_BASE →
  pmm_alloc_page m = Done p (set_pmm p' m) →
  owns_range (kept pd pt p) nb VMM_BLOCK_DESC_SIZE → new_block_desc nb m →
  owns_range (kept pd pt p) b VMM_BLOCK_DESC_SIZE →
  nb + VMM_BLOCK_DESC_SIZE <= b ∨ b + VMM_BLOCK_DESC_SIZE <= nb →
  vmm_block_list_tail (vmm m) = b →
  ∃ m', add_block_rest (pt + KERNEL_VIRT_BASE) nb m = Done tt m' ∧ grown_map pd pt p m' ∧
    m' = set_vmm (set_vmm_block_list_tail nb (vmm m)) (set_pmm p' (set_mem (mem m') m)) ∧
    desc_next m' b = nb ∧ (∀ v, in_hole v → byte_at m' v = 0) ∧
    ∀ v, kept pd pt p v → ¬ (b + 144 <= v < b + 148) → byte_at m' v = byte_at m v.
Proof using All.
  intros Hm Hdir HA On D Ob Hd Ht. unfold VMM_BLOCK_DESC_SIZE in *.
  pose proof (grown_region pd pt p Hne Hp) as HR.
  assert (∀ v n, owns_range (kept pd pt p) v n → owns_range (grown_free pd pt p) v n) as Hkg
    by (intros v n H i Hi; right; by apply H).
  assert (∀ v n, owns_range (kept pd pt p) v n → owns_range (rest pd pt) v n) as Hkr
    by (intros v n H i Hi; by apply H).
  epose proof (enter_table m p' nb _ Hm Hdir HA) as (m1 & E1 & G1 & R1 & B1);
    [by apply (owns_range_sub _ _ _ _ _ (Hkr _ _ On)); lia|apply D|].
  unfold add_block_rest. rewrite E1. clear E1.
  pose proof (Hkg _ _ On) as On2. pose proof (Hkg _ _ Ob) as Ob2.
  unfold page_table. load.
  assert (word_at m1 (nb + 140) = window_page 1022) as E2.
  { rewrite <- (nd_table _ _ D). apply (word_at_kept (rest pd pt)).
    - apply (owns_range_sub _ _ _ _ _ (Hkr _ _ On)); lia.
    - intros a _. apply B1. }
  rewrite E2.
  assert (owns_range (grown_free pd pt p) (window_page 1022) PAGE_SIZE) as Oh
    by (intros i Hi; left; unfold in_hole, window_page, PAGE_SIZE in *; lia).
  destruct (memset_ok (I := grown_map pd pt p) (owns := grown_free pd pt p) (window_page 1022) 0
    PAGE_SIZE m1 G1 ltac:(done) Oh) as (m2 & S2 & K2 & W2 & Z2). run S2.
  unfold gets_vmm. steps.
  assert (vmm m2 = vmm m) as Ev by (by rewrite (proj1 W2), R1). rewrite Ev, Ht.
  unfold set_next_vmm_block.
  assert (word nb) as Hnb by (apply (region_word (I := grown_map pd pt p)); owned).
  store m3 K3 V3 W3. unfold mod_vmm. eexists. split; [reflexivity|].
  assert (vmm m3 = vmm m) as Ev3 by (by rewrite (proj1 W3)).
  assert (∀ v, byte_at (set_vmm (set_vmm_block_list_tail nb (vmm m3)) m3) v = byte_at m3 v) as HB
    by (intros; by apply byte_at_same).
  split_and!.
  - destruct K3 as [G2 G3 G4]. split; [by apply (hole_map_same _ _ m3)|done|done].
  - rewrite Ev3. rewrite (proj1 W3), (proj1 W2), R1. done.
  - unfold desc_next, word_at. rewrite !HB. fold (word_at m3 (b + 144)). rewrite V3.
    by apply u32_small.
  - intros v Hv. rewrite HB, (proj2 W3).
    + replace v with (window_page 1022 + (v - window_page 1022)) by lia.
      unfold in_hole, window_page in Hv. rewrite Z2 by (unfold window_page, PAGE_SIZE; lia). done.
    + by left.
    + destruct (Ob 144 ltac:(lia)) as [[_ H1] _], (Ob 147 ltac:(lia)) as [[_ H2] _].
      unfold in_hole, window_page in *. lia.
  - intros v Hv Hb. rewrite HB, (proj2 W3), (proj2 W2), B1; try (by right); try lia.
    + by destruct Hv.
    + destruct Hv as [[_ Hv] _]. unfold in_hole, window_page, PAGE_SIZE in *. lia.
Qed.

Lemma ld32_hole m v :
  hole_map pd pt m → (∀ i, 0 <= i < 4 → in_window (v + i) ∧ ¬ in_hole (v + i)) →
  ld32 v m = Done (rd32 (mem m) (v - KERNEL_VIRT_BASE)) m.
Proof using All.
  intros Hm Hv.
  assert (∀ i, 0 <= i < 4 → ld8 (v + i) m = Done (rd8 (mem m) (v - KERNEL_VIRT_BASE + i)) m) as HB.
  { intros i Hi. destruct (Hv i Hi) as [H1 H2]. unfold ld8.
    rewrite u32_small by (by apply in_window_word).
    rewrite (translate_hole pd pt) by done. do 2 f_equal. lia. }
  pose proof (HB 0 ltac:(lia)) as H0. rewrite !Z.add_0_r in H0. unfold ld32.
  run H0. run (HB 1 ltac:(lia)). run (HB 2 ltac:(lia)). run (HB 3 ltac:(lia)). done.
Qed.

Lemma ensure_mapped_grown b k m :
  grown_map pd pt p m → 0 <= k < 1024 → owns_range (grown_free pd pt p) (b + 140) 4 →
  desc_table m b = pt + KERNEL_VIRT_BASE →
  vmm_ensure_mapped b (window_page k) m = Done tt m.
Proof using All.
  intros G Hk Ho Ht. pose proof (grown_region pd pt p Hne Hp) as HR.
  unfold vmm_ensure_mapped, page_table. load. fold (desc_table m b). rewrite Ht.
  unfold paging_is_virtual_page_present.
  destruct (window_page_facts k Hk) as (_ & _ & _ & -> & _). cbv zeta.
  destruct Hpt as [Hr Ha]. unfold WINDOW in Hr.
  assert (entry_ptr (pt + KERNEL_VIRT_BASE) k = pt + KERNEL_VIRT_BASE + 4 * k) as ->
    by (apply u32_small; word_lia).
  unfold ld_entry. steps.
  run (ld32_hole m (pt + KERNEL_VIRT_BASE + 4 * k) (gm_hole _ _ _ _ G)
    ltac:(intros i Hi; unfold in_window, in_hole, window_page, WINDOW; split; mlia)).
  steps. replace (pt + KERNEL_VIRT_BASE + 4 * k - KERNEL_VIRT_BASE) with (pt + 4 * k) by lia.
  assert (Z.testbit (rd32 (mem m) (pt + 4 * k)) 0 = true) as Hb.
  { destruct (decide (k = 1022)) as [->|Hn]; [apply (gm_pte _ _ _ _ G)|].
    apply (hm_pte _ _ _ (gm_hole _ _ _ _ G) k Hk Hn). }
  cbn [present decode_entry]. by rewrite Hb.
Qed.

(** The addresses behind the window are served by a table without entries. *)
Lemma grown_unmapped m v :
  grown_map pd pt p m → (∀ a, in_hole a → byte_at m a = 0) →
  KERNEL_VIRT_BASE + WINDOW <= v < KERNEL_VIRT_BASE + 2 * WINDOW → translate m v = None.
Proof using All.
  intros G HZ Hv. unfold WINDOW in Hv.
  assert (word v) as Hw by word_lia.
  assert (PAGE_DIRECTORY_INDEX v = 769) as Hd
    by (rewrite PAGE_DIRECTORY_INDEX_div by done; unfold KERNEL_VIRT_BASE in *; mlia).
  pose proof (PAGE_TABLE_INDEX_range v) as Hr.
  pose proof (gm_hole _ _ _ _ G) as [Hon _ _ Hcr3 _ _]. pose proof (gm_pde _ _ _ _ G) as [H1 H2].
  assert (∀ i, 0 <= i < 4096 → rd8 (mem m) (p + i) = 0) as Hz.
  { intros i Hi. assert (in_hole (window_page 1022 + i)) as Hh
      by (unfold in_hole, window_page; lia).
    rewrite <- (HZ _ Hh). unfold byte_at, vbyte.
    rewrite (translate_grown pd pt p) by (done || by apply in_hole_window).
    unfold grown_phys. rewrite decide_True by done. cbn. f_equal. lia. }
  unfold translate, page_table_entry_at, page_directory_entry_at. rewrite Hon, Hd, Hcr3, H1, H2.
  cbn [negb]. assert (rd32 (mem m) (p + 4 * PAGE_TABLE_INDEX v) = 0) as ->; [|done].
  unfold rd32. rewrite <- !Z.add_assoc, !Hz by lia. done.
Qed.
End Tables.

(** ** The call that grows *)

(** The last page in front of the reserve is about to be taken: the first
    block's bits are set up to page 1021, the heap has room for a descriptor,
    the pool for a page table, and no memory the call touches is in the way. *)
Record ready_to_grow (pd pt b nb j : Z) (l l' : list block) (m : machine) : Prop := {
  rg_block : first_block pd pt b m;
  rg_bits k : 0 <= k < 1024 → bit_of (desc_bitmap m b) k = (k <? 1021);
  rg_free : 1 < desc_free m b;
  rg_high : desc_high_water m b <= 1022;
  rg_next : desc_next m b = 0;
  rg_tail : vmm_block_list_tail (vmm m) = b;
  rg_flag : allocating_new_block (vmm m) = false;
  rg_heap : heap_list (owns := window_free pd pt) m l;
  rg_fit : fl_alloc 152 l = Split nb l';
  rg_apart : Forall (apart b VMM_BLOCK_DESC_SIZE) l;
  rg_directory : kernel_page_directory m = pd + KERNEL_VIRT_BASE;
  rg_pool : pmm_wf (pmm m);
  rg_frame : pmm_next (pmm m) = Some j;
  rg_frame_apart : frame_addr (pmm m) j ≠ pd ∧ frame_addr (pmm m) j ≠ pt;
  rg_tables : pd ≠ pt ∧ pd ≠ 4096 * 1022 ∧ pt ≠ 4096 * 1022;
  rg_clear a : b <= a < b + VMM_BLOCK_DESC_SIZE ∨ covers l a →
    ¬ in_hole a ∧ ¬ in_frame (frame_addr (pmm m) j) (a - KERNEL_VIRT_BASE)
}.

(** The two blocks afterwards. *)
Record vmm_grown (pd pt p b nb : Z) (l' : list block) (m m' : machine) : Prop := {
  vg_map : grown_map pd pt p m';
  vg_list : vmm m' = VmmState b nb false;
  vg_bitmap : desc_bitmap m' b = set_page (desc_bitmap m b) 1021;
  vg_free : desc_free m' b = desc_free m b - 1;
  vg_high : desc_high_water m' b = 1022;
  vg_first : desc_first m' b = KERNEL_VIRT_BASE;
  vg_table : desc_table m' b = pt + KERNEL_VIRT_BASE;
  vg_next : desc_next m' b = nb;
  vg_new : new_block_desc nb m';
  vg_heap : heap_list (owns := grown_free pd pt p) m' l';
  vg_regs : m' = set_vmm (VmmState b nb false) (set_pmm (pmm m') (set_mem (mem m') m));
  vg_hole a : in_hole a → byte_at m' a = 0
}.

Section Grow.
Context (pd pt b nb j : Z) (l l' : list block) (m : machine).
Context (RG : ready_to_grow pd pt b nb j l l' m).

Abbreviation p := (frame_addr (pmm m) j).
Abbreviation owns := (window_free pd pt).

Lemma new_frame_ok : frame_ok pd pt p ∧ low_frame pd ∧ low_frame pt.
Proof using All.
  destruct (rg_frame_apart _ _ _ _ _ _ _ _ RG) as [Hd Ht].
  pose proof (fb_map _ _ _ _ _ (rg_block _ _ _ _ _ _ _ _ RG)) as K.
  split_and!; [|apply K..]. pose proof (rg_pool _ _ _ _ _ _ _ _ RG) as Hwf.
  pose proof (pmm_next_spec _ Hwf) as Hs. rewrite (rg_frame _ _ _ _ _ _ _ _ RG) in Hs.
  destruct Hs as (Hr & _). pose proof (pool_frames_le _ Hwf) as Hle.
  destruct Hwf as [_ _ _ [H1 H2] H3]. unfold frame_addr, PAGE_SIZE in *.
  split; try done; unfold frame_addr, PAGE_SIZE; mlia.
Qed.

(** Where the two descriptors are. *)
Lemma descs_placed :
  owns_range (kept pd pt p) b VMM_BLOCK_DESC_SIZE ∧
  owns_range (kept pd pt p) nb VMM_BLOCK_DESC_SIZE ∧
  (nb + VMM_BLOCK_DESC_SIZE <= b ∨ b + VMM_BLOCK_DESC_SIZE <= nb) ∧
  (∀ a, nb - 8 <= a < nb + 152 → covers l a) ∧ (∀ a, covers l' a → covers l a) ∧
  Forall (apart nb VMM_BLOCK_DESC_SIZE) l'.
Proof using All.
  pose proof (rg_heap _ _ _ _ _ _ _ _ RG) as (_ & Ho & Hw).
  pose proof (rg_fit _ _ _ _ _ _ _ _ RG) as Ha.
  assert (∀ a, covers l a ↔ covers l' a ∨ nb - 8 <= a < nb + 152) as Hc
    by (intros a; by apply (fl_alloc_covers 152 l nb l' a)).
  destruct (piece_ok (owns := owns) 152 l nb l' ltac:(lia) Ho Hw Ha) as (_ & _ & On).
  pose proof (fb_owned _ _ _ _ _ (rg_block _ _ _ _ _ _ _ _ RG)) as Ob.
  pose proof (rg_apart _ _ _ _ _ _ _ _ RG) as Hap.
  rewrite apart_covers in Hap by (done || by apply (fl_ordered_sizes 0)).
  destruct (fl_alloc_Split 152 l nb l' 0 ltac:(lia) Ho Ha) as (_ & _ & _ & _ & _ & _ & _ & _ & _ & Ho').
  pose proof (rg_clear _ _ _ _ _ _ _ _ RG) as Hcl. unfold VMM_BLOCK_DESC_SIZE in *.
  split_and!.
  - intros i Hi. destruct (Hcl (b + i)) as [H1 H2]; [left; lia|].
    split; [split; [by apply Ob|done]|done].
  - intros i Hi. destruct (Hcl (nb + i)) as [H1 H2]; [right; apply Hc; right; lia|].
    split; [split; [|done]|done]. replace (nb + i) with (nb - 8 + (i + 8)) by lia. apply On. lia.
  - destruct (decide (nb + 148 <= b)); [by left|]. right.
    destruct (decide (b + 148 <= nb)); [done|].
    destruct (Hap (Z.max b nb)); [lia|]. apply Hc. right. lia.
  - intros a Ha'. apply Hc. by right.
  - intros a Ha'. apply Hc. by left.
  - apply apart_covers; [lia|by apply (fl_ordered_sizes 0)|]. intros a Ha' Hca.
    by apply (proj2 (fl_alloc_covers 152 l nb l' a ltac:(lia) Ho Ha)); split; [|lia].
Qed.

Lemma grow_finds fuel :
  ∃ m1, vmm_find (S fuel) b m = Done (window_page 1021, b) m1 ∧ kernel_map pd pt m1 ∧
    page_taken (owns := owns) b 1021 m m1 ∧ desc_high_water m1 b = 1022.
Proof using All.
  pose proof (rg_block _ _ _ _ _ _ _ _ RG) as F. destruct F as [K Hh Ho Hin H1 H2].
  pose proof (rg_bits _ _ _ _ _ _ _ _ RG) as HB.
  pose proof (rg_high _ _ _ _ _ _ _ _ RG) as Hw.
  assert (b ≠ 0) as Hb0 by (by apply (first_block_nonzero (owns := owns) pd pt b m); split).
  assert (scan_words (desc_bitmap m b) 0 = Some 1021) as Hs.
  { apply scan_first; [rewrite desc_bitmap_length; lia|by rewrite HB by lia|].
    intros i Hi. rewrite HB by lia. apply Z.ltb_lt. lia. }
  pose proof (rg_free _ _ _ _ _ _ _ _ RG) as Hf.
  destruct (find_take (I := kernel_map pd pt) (owns := owns) fuel b 1021 m K Ho Hb0 ltac:(lia) Hs)
    as (m1 & E & K1 & _ & T).
  rewrite H1 in E. exists m1. split_and!; [exact E|done|done|].
  rewrite (pt_high _ _ _ _ T). lia.
Qed.

(** The heap gives a descriptor, which is filled in. *)
Lemma grow_allocates vap fuel m1 v :
  page_taken (owns := owns) b 1021 m m1 → kernel_map pd pt m1 → (length l <= fuel)%nat →
  ∃ m3, vmm_add_vmm_block_with (kmalloc_with vap fuel) b (set_vmm v m1)
      = add_block_rest (pt + KERNEL_VIRT_BASE) nb m3 ∧
    kernel_map pd pt m3 ∧ new_block_desc nb m3 ∧ heap_list (owns := owns) m3 l' ∧
    only_memory (set_vmm v m1) m3 ∧
    ∀ a, b <= a < b + VMM_BLOCK_DESC_SIZE → byte_at m3 a = byte_at m1 a.
Proof using All.
  intros T K1 Hfu. destruct (descs_placed) as (Ob & On & Hd & Hc & Hc' & Hap').
  pose proof (rg_block _ _ _ _ _ _ _ _ RG) as [_ _ Ho _ H1 H2].
  pose proof (rg_apart _ _ _ _ _ _ _ _ RG) as Hap.
  assert (kernel_map pd pt (set_vmm v m1)) as K1' by (by apply (kernel_map_same _ _ m1)).
  assert (heap_list (owns := owns) (set_vmm v m1) l) as HL.
  { pose proof (rg_heap _ _ _ _ _ _ _ _ RG) as HL.
    apply (heap_list_bytes m1); [done|intros; by apply byte_at_same|].
    apply (heap_list_frame (I := kernel_map pd pt) m m1 l b VMM_BLOCK_DESC_SIZE HL);
      [apply T|done]. }
  destruct (kmalloc_split_ok vap fuel VMM_BLOCK_DESC_SIZE l nb l' (set_vmm v m1) K1' HL ltac:(done)
    Hfu (rg_fit _ _ _ _ _ _ _ _ RG)) as (m2 & E2 & K2 & HL2 & _ & OM & x & Hx & W & _).
  assert (∀ a, b <= a < b + VMM_BLOCK_DESC_SIZE → byte_at m2 a = byte_at m1 a) as B2.
  { intros a Ha. rewrite (proj2 W); [by apply byte_at_same| |].
    - apply (owns_range_at _ _ _ _ Ho). lia.
    - rewrite Forall_forall in Hap. specialize (Hap x Hx). unfold apart in Hap. lia. }
  assert (owns_range owns nb VMM_BLOCK_DESC_SIZE) as On'
    by (intros i Hi; by destruct (On i Hi) as [[? _] _]).
  assert (∀ o, 128 <= o <= 144 → word_at m2 (b + o) = word_at m1 (b + o)) as HW.
  { unfold VMM_BLOCK_DESC_SIZE in *. intros o Hoo. apply (word_at_kept owns); [owned|].
    intros a Ha _. apply B2. lia. }
  destruct (new_desc_ok (I := kernel_map pd pt) (owns := owns) (kmalloc_with vap fuel)
    (set_vmm v m1) m2 nb b (pt + KERNEL_VIRT_BASE) E2 K2 On' Ho Hd) as (m3 & E3 & K3 & W3 & D3).
  { unfold desc_first. rewrite HW by lia. fold (desc_first m1 b). by rewrite (pt_first _ _ _ _ T). }
  { unfold desc_table. rewrite HW by lia. fold (desc_table m1 b). by rewrite (pt_table _ _ _ _ T). }
  exists m3. split_and!; [done|done|done| | |].
  - by apply (heap_list_frame (I := kernel_map pd pt) m2 m3 l' nb VMM_BLOCK_DESC_SIZE HL2).
  - etransitivity; [exact OM|apply W3].
  - intros a Ha. rewrite (proj2 W3), B2; [done|done| |lia].
    apply (owns_range_at _ _ _ _ Ho). lia.
Qed.

(** The new block is entered; [m1] is the machine with page 1021 taken. *)
Lemma grow_adds vap fuel m1 :
  page_taken (owns := owns) b 1021 m m1 → kernel_map pd pt m1 → (length l <= fuel)%nat →
  ∃ m4, vmm_add_vmm_block_with (kmalloc_with vap fuel) b
      (set_vmm (set_allocating_new_block true (vmm m1)) m1) = Done tt m4 ∧
    grown_map pd pt p m4 ∧ vmm m4 = VmmState b nb true ∧ new_block_desc nb m4 ∧
    heap_list (owns := grown_free pd pt p) m4 l' ∧ desc_next m4 b = nb ∧
    m4 = set_vmm (vmm m4) (set_pmm (pmm m4) (set_mem (mem m4) m)) ∧
    (∀ a, in_hole a → byte_at m4 a = 0) ∧
    ∀ a, b <= a < b + 144 → byte_at m4 a = byte_at m1 a.
Proof using All.
  intros T K1 Hfu. destruct descs_placed as (Ob & On & Hd & Hc & Hc' & Hap').
  destruct new_frame_ok as (Hp & Lpd & Lpt).
  destruct (rg_tables _ _ _ _ _ _ _ _ RG) as (Hne & Hdh & Hth).
  set (v := set_allocating_new_block true (vmm m1)).
  destruct (grow_allocates vap fuel m1 v T K1 Hfu) as (m3 & E3 & K3 & D3 & HL3 & OM & B3).
  unfold only_memory in OM. pose proof (proj1 (pt_writes _ _ _ _ T)) as R1. unfold only_memory in R1.
  assert (pmm m3 = pmm m) as Ep by (rewrite OM, R1; reflexivity).
  assert (vmm m3 = set_allocating_new_block true (vmm m)) as Ev by (rewrite OM; subst v; rewrite R1; reflexivity).
  destruct (add_block_rest_ok pd pt p Hne Hp Lpd Lpt Hdh Hth m3 (pmm_take j (pmm m)) nb b
    (kernel_map_hole _ _ _ K3)) as (m4 & E4 & G4 & R4 & N4 & Z4 & B4); try done.
  { rewrite OM, R1. exact (rg_directory _ _ _ _ _ _ _ _ RG). }
  { rewrite <- Ep. apply pmm_alloc_page_Some; rewrite Ep; [apply RG|].
    exact (rg_frame _ _ _ _ _ _ _ _ RG). }
  { rewrite Ev. exact (rg_tail _ _ _ _ _ _ _ _ RG). }
  exists m4. rewrite E3. split_and!; try done.
  - rewrite R4. cbn [vmm set_vmm]. rewrite Ev. unfold set_allocating_new_block, set_vmm_block_list_tail.
    cbn [vmm_block_list_head]. f_equal. exact (fb_head _ _ _ _ _ (rg_block _ _ _ _ _ _ _ _ RG)).
  - apply (new_block_desc_kept (kept pd pt p) nb m3); [done| |done].
    intros a Ha Hk. unfold VMM_BLOCK_DESC_SIZE in *. apply B4; [done|lia].
  - destruct HL3 as (F & O & W).
    assert (∀ a, covers l' a → kept pd pt p a ∧ ¬ (b <= a < b + VMM_BLOCK_DESC_SIZE)) as Hk.
    { intros a Ha. pose proof (Hc' a Ha) as Hl.
      destruct (rg_clear _ _ _ _ _ _ _ _ RG a (or_intror Hl)) as [? ?].
      split; [split; [split; [|done]|done]|].
      - apply Exists_exists in Ha as (x & Hx & Hin). unfold fl_owned in W.
        rewrite Forall_forall in W. apply (owns_range_at _ _ _ _ (W x Hx)). exact Hin.
      - pose proof (rg_apart _ _ _ _ _ _ _ _ RG) as Hap.
        pose proof (rg_heap _ _ _ _ _ _ _ _ RG) as (_ & Ho & _).
        rewrite apart_covers in Hap by (done || by apply (fl_ordered_sizes 0)).
        intros Hb. by apply (Hap a Hb). }
    pose proof (grown_region pd pt p Hne Hp) as HR.
    apply (heap_list_bytes m3); [by rewrite R4| |].
    + intros a _ Ha. destruct (Hk a Ha) as [Hka Hb]. unfold VMM_BLOCK_DESC_SIZE in Hb.
      apply B4; [done|lia].
    + split_and!; [exact F|exact O|]. apply Forall_forall. intros x Hx i Hi. right.
      apply Hk, Exists_exists. exists x. split; [done|]. unfold in_block. lia.
  - rewrite R4, OM, R1. reflexivity.
  - intros a Ha. rewrite B4, B3; [done|unfold VMM_BLOCK_DESC_SIZE; lia| |lia].
    replace a with (b + (a - b)) by lia. apply Ob. unfold VMM_BLOCK_DESC_SIZE. lia.
Qed.

Lemma vmm_grow_ok d fuel :
  (length l <= S fuel)%nat →
  ∃ m', vmm_alloc_page (S d) (S fuel) m = Done (window_page 1021) m' ∧
    vmm_grown pd pt p b nb l' m m'.
Proof using All.
  intros Hfu. destruct descs_placed as (Ob & _). destruct new_frame_ok as (Hp & Lpd & Lpt).
  destruct (rg_tables _ _ _ _ _ _ _ _ RG) as (Hne & Hdh & Hth).
  pose proof (rg_block _ _ _ _ _ _ _ _ RG) as [_ Hh Ho _ H1 H2].
  destruct (grow_finds fuel) as (m1 & E1 & K1 & T & Hw1).
  destruct (grow_adds (vmm_alloc_page d (S fuel)) (S fuel) m1 T K1 Hfu)
    as (m4 & E4 & G4 & V4 & D4 & HL4 & N4 & R4 & Z4 & B4).
  set (m5 := set_vmm (set_allocating_new_block false (vmm m4)) m4).
  assert (∀ a, byte_at m5 a = byte_at m4 a) as HB by (intros; by apply byte_at_same).
  assert (∀ a, word_at m5 a = word_at m4 a) as HW by (intros; by apply word_at_same).
  assert (grown_map pd pt p m5) as G5.
  { destruct G4 as [? ? ?]. split; [by apply (hole_map_same _ _ m4)|done|done]. }
  destruct (desc_kept owns b m1 m5) as (F1 & F2 & F3 & F4 & F5).
  { unfold VMM_BLOCK_DESC_SIZE in Ho. owned. }
  { intros a Ha _. rewrite HB. by apply B4. }
  pose proof (window_region pd pt) as HR0. pose proof (grown_region pd pt p Hne Hp) as HR.
  exists m5. split.
  - cbn [vmm_alloc_page]. unfold vmm_alloc_page_with. msteps. rewrite Hh. run E1.
    destruct (window_page_facts 1021 ltac:(lia)) as (_ & _ & Hn & _).
    destruct (Z.eqb_spec (window_page 1021) 0); [done|]. cbn [when]. steps.
    unfold VMM_BLOCK_DESC_SIZE in Ho. unfold high_water_mark, next_vmm_block. load. load. steps.
    fold (desc_high_water m1 b) (desc_next m1 b).
    assert (allocating_new_block (vmm m1) = false) as ->.
    { rewrite (proj1 (pt_writes _ _ _ _ T)). exact (rg_flag _ _ _ _ _ _ _ _ RG). }
    rewrite Hw1, (pt_next _ _ _ _ T), (rg_next _ _ _ _ _ _ _ _ RG).
    change ((1022 =? HIGH_WATER_THRESHOLD) && (0 =? 0) && negb false) with true. cbn [when].
    unfold mod_vmm. steps. run E4. steps. fold m5.
    assert (desc_table m5 b = pt + KERNEL_VIRT_BASE) as Et by (by rewrite F5, (pt_table _ _ _ _ T)).
    assert (owns_range (grown_free pd pt p) (b + 140) 4) as Ob'.
    { intros i Hi. right. replace (b + 140 + i) with (b + (140 + i)) by lia. apply Ob.
      unfold VMM_BLOCK_DESC_SIZE. lia. }
    by run (ensure_mapped_grown pd pt p Hne Hp Lpd Lpt Hdh Hth b 1021 m5 G5 ltac:(lia) Ob' Et).
  - split.
    + done.
    + unfold m5. cbn [vmm set_vmm]. by rewrite V4.
    + by rewrite F1, (pt_bitmap _ _ _ _ T).
    + by rewrite F3, (pt_free _ _ _ _ T).
    + by rewrite F2.
    + by rewrite F4, (pt_first _ _ _ _ T).
    + by rewrite F5, (pt_table _ _ _ _ T).
    + unfold desc_next. rewrite HW. exact N4.
    + apply (new_block_desc_kept (λ _, True) nb m4); [done| |done]. intros a _ _. apply HB.
    + apply (heap_list_bytes m4); [done|intros; apply HB|done].
    + unfold m5. rewrite V4. rewrite R4 at 1. reflexivity.
    + intros a Ha. rewrite HB. by apply Z4.
Qed.
End Grow.

(** ** The call after it *)

Lemma grown_next d fuel pd pt b nb j l l' m m' :
  ready_to_grow pd pt b nb j l l' m →
  vmm_grown pd pt (frame_addr (pmm m) j) b nb l' m m' →
  ∃ m'', vmm_alloc_page (S d) (S fuel) m' = Done (window_page 1022) m'' ∧
    grown_map pd pt (frame_addr (pmm m) j) m'' ∧ desc_table m'' nb = window_page 1022.
Proof.
  intros RG [G V B F W H1 H2 N D _ _ _].
  destruct (descs_placed pd pt b nb j l l' m RG) as (Ob & On & Hd & _).
  destruct (new_frame_ok pd pt b nb j l l' m RG) as (Hp & Lpd & Lpt).
  destruct (rg_tables _ _ _ _ _ _ _ _ RG) as (Hne & Hdh & Hth).
  set (p := frame_addr (pmm m) j) in *.
  pose proof (grown_region pd pt p Hne Hp) as HR.
  assert (owns_range (grown_free pd pt p) b VMM_BLOCK_DESC_SIZE) as Ob'
    by (intros i Hi; right; by apply Ob).
  assert (b ≠ 0) as Hb0.
  { pose proof (rg_block _ _ _ _ _ _ _ _ RG) as FB.
    by apply (first_block_nonzero (owns := window_free pd pt) pd pt b m). }
  assert (scan_words (desc_bitmap m' b) 0 = Some 1022) as Hs.
  { pose proof (rg_bits _ _ _ _ _ _ _ _ RG) as HB.
    rewrite B. apply scan_first; [rewrite length_set_page, desc_bitmap_length; lia|..].
    - rewrite bit_of_set_page, HB by (rewrite ?desc_bitmap_length; lia). done.
    - intros i Hi. rewrite bit_of_set_page, HB by (rewrite ?desc_bitmap_length; lia).
      destruct (Z.eqb_spec i 1021), (Z.ltb_spec i 1021); try done; lia. }
  pose proof (rg_free _ _ _ _ _ _ _ _ RG) as Hf.
  destruct (find_take (I := grown_map pd pt p) (owns := grown_free pd pt p) fuel b 1022 m' G Ob'
    Hb0 ltac:(lia) Hs) as (m1 & E1 & K1 & _ & T).
  destruct (window_page_facts 1022 ltac:(lia)) as (_ & _ & Hn & _ & Ep). rewrite H1, Ep in E1.
  exists m1. split_and!; [|done|].
  - cbn [vmm_alloc_page]. unfold vmm_alloc_page_with. msteps. rewrite V.
    cbn [vmm_block_list_head]. run E1.
    destruct (Z.eqb_spec (window_page 1022) 0); [done|]. cbn [when]. steps.
    pose proof Ob' as Ob2. unfold VMM_BLOCK_DESC_SIZE in Ob2.
    unfold high_water_mark, next_vmm_block. load. load. steps.
    fold (desc_high_water m1 b). rewrite (pt_high _ _ _ _ T), W.
    change (Z.max 1022 (1022 + 1) =? HIGH_WATER_THRESHOLD) with false. cbn [andb when]. steps.
    by run (ensure_mapped_grown pd pt p Hne Hp Lpd Lpt Hdh Hth b 1022 m1 K1 ltac:(lia) ltac:(owned)
      ltac:(by rewrite (pt_table _ _ _ _ T))).
  - rewrite <- (nd_table _ _ D). unfold desc_table. unfold VMM_BLOCK_DESC_SIZE in *.
    apply (writes_only_word_at _ _ _ _ _ (pt_writes _ _ _ _ T)); [|unfold VMM_BLOCK_DESC_SIZE; lia].
    intros i Hi. right. replace (nb + 140 + i) with (nb + (140 + i)) by lia. apply On. lia.
Qed.

(** ** A kernel about to grow *)

Definition before_crowded : machine :=
  set_kernel_page_directory (1114112 + KERNEL_VIRT_BASE)
    (set_vmm (VmmState 3222327144 3222327144 false) kernel_with_vmm).

(** The first block of the booted kernel, as it is once the 747 pages behind
    page 274 are handed out. *)
Definition crowd : M unit :=
  memset 3222327144 0xFF 124;;
  st32 (3222327144 + 124) 0x1FFFFFFF;;
  set_high_water_mark 3222327144 1021;;
  set_free_pages 3222327144 3.

Definition crowded : machine := match crowd before_crowded with Done _ m | Stop _ m => m end.

Lemma before_crowded_ok :
  first_block 1114112 1118208 3222327144 before_crowded ∧
  initial_desc 3222327144 (1118208 + KERNEL_VIRT_BASE) 274 before_crowded ∧
  pmm before_crowded = pmm sample_pool ∧
  heap_list (owns := window_free 1114112 1118208) before_crowded [(3222323200, 3936)].
Proof.
  destruct (proj2_sig vmm_machine) as (F & D & P & _ & H). fold kernel_with_vmm in *.
  split_and!.
  - destruct F as [K _ Ho Hin H1 H2].
    split; [by apply (kernel_map_same _ _ kernel_with_vmm)|reflexivity|done|done| |].
    + unfold desc_first. by rewrite (word_at_same kernel_with_vmm).
    + unfold desc_table. by rewrite (word_at_same kernel_with_vmm).
  - by apply (initial_desc_same kernel_with_vmm).
  - exact P.
  - destruct H as (H1 & H2 & H3). split_and!; [|done|done]. by apply (free_seg_same kernel_with_vmm).
Qed.

(** What the stores leave. *)
Definition crowd_left (m : machine) : Prop :=
  kernel_map 1114112 1118208 m ∧
  (∀ k, 0 <= k < 1024 → bit_of (desc_bitmap m 3222327144) k = (k <? 1021)) ∧
  desc_high_water m 3222327144 = 1021 ∧ desc_free m 3222327144 = 3 ∧
  writes_only (window_free 1114112 1118208) before_crowded m 3222327144 136.

Lemma crowd_ok : ∃ m, crowd before_crowded = Done tt m ∧ crowd_left m.
Proof.
  pose proof (window_region 1114112 1118208) as HR.
  destruct before_crowded_ok as ([K _ Ho _ _ _] & _). unfold VMM_BLOCK_DESC_SIZE in Ho.
  unfold crowd, set_high_water_mark, set_free_pages.
  destruct (memset_ok (I := kernel_map 1114112 1118208) (owns := window_free 1114112 1118208)
    3222327144 0xFF 124 before_crowded K ltac:(done) ltac:(owned)) as (m1 & E1 & K1 & W1 & B1).
  run E1. store m2 K2 V2 W2. store m3 K3 V3 W3.
  destruct (st32_ok (I := kernel_map 1114112 1118208) (owns := window_free 1114112 1118208)
    m3 (3222327144 + 132) 3 K3 ltac:(owned)) as (m4 & E4 & K4 & V4 & W4).
  exists m4. split; [exact E4|].
  split_and!; [exact K4| |unfold desc_high_water; words; reflexivity|exact V4|chain_writes].
  apply (leading_bits 3222327144 1021 m4); [done| |].
  - intros i Hi. change (1021 / 32) with 31 in Hi.
    assert (owns_range (window_free 1114112 1118208) (3222327144 + 4 * i) 4) as Oi by owned.
    words. apply word_at_full. intros q Hq. rewrite <- Z.add_assoc, B1 by lia. done.
  - change (4 * (1021 / 32)) with 124. words. reflexivity.
Qed.

Lemma crowded_left : crowd_left crowded.
Proof. unfold crowded. destruct crowd_ok as (m & E & H). by rewrite E. Qed.

Lemma crowded_ready :
  ready_to_grow 1114112 1118208 3222327144 3222326984 0 [(3222323200, 3936)] [(3222323200, 3776)]
    crowded.
Proof.
  pose proof (window_region 1114112 1118208) as HR.
  destruct before_crowded_ok as (F & D & P & HL).
  destruct crowded_left as (K & B & H & Fr & W). pose proof (proj1 W) as OM. unfold only_memory in OM.
  pose proof (fb_owned _ _ _ _ _ F) as Ho. unfold VMM_BLOCK_DESC_SIZE in Ho.
  assert (∀ o, 136 <= o <= 144 → word_at crowded (3222327144 + o) =
    word_at before_crowded (3222327144 + o)) as HW.
  { intros o Hoo. apply (writes_only_word_at _ _ _ _ _ W); [owned|lia]. }
  assert (pmm crowded = pmm sample_pool) as Ep by (rewrite OM; exact P).
  split.
  - destruct F as [_ H0 Ho' Hin H1 H2]. split; [done| |done|done|..].
    + by rewrite OM.
    + unfold desc_first in *. by rewrite HW by lia.
    + unfold desc_table in *. by rewrite HW by lia.
  - exact B.
  - rewrite Fr. lia.
  - rewrite H. lia.
  - unfold desc_next. rewrite HW by lia. exact (id_next _ _ _ _ D).
  - by rewrite OM.
  - by rewrite OM.
  - apply (heap_list_frame before_crowded crowded _ 3222327144 136 HL W).
    apply Forall_singleton. unfold apart. cbn. lia.
  - reflexivity.
  - apply Forall_singleton. unfold apart, VMM_BLOCK_DESC_SIZE. cbn. lia.
  - by rewrite OM.
  - rewrite Ep. exact sample_pool_wf.
  - rewrite Ep. by vm_compute.
  - rewrite Ep. by vm_compute.
  - done.
  - intros a Ha. rewrite Ep. change (frame_addr (pmm sample_pool) 0) with 1179648.
    assert (3222323200 <= a < 3222327144 + 148) as Ha'.
    { destruct Ha as [Ha|[Ha|Ha%Exists_nil]%Exists_cons]; [|unfold in_block in Ha; cbn in Ha|done];
        unfold VMM_BLOCK_DESC_SIZE in *; lia. }
    unfold in_hole, window_page, in_frame, KERNEL_VIRT_BASE. lia.
Qed.

(** ** Properties *)

(** C16: the address space grows.  When [vmm_alloc_page] hands out the page in
    front of the reserve, it adds a block on the way: the heap gives a
    descriptor, which describes 1024 free pages behind the window and is
    linked behind the first; the pool gives a frame, which becomes the page
    table: it is mapped at the last but one page of the window, cleared, and
    entered in the page directory.  The rest of the window is mapped as
    before, the new 4 MiB are not mapped yet. *)
Theorem vmm_growth_adds_block d fuel pd pt b nb j l l' m :
  ready_to_grow pd pt b nb j l l' m → (length l <= S fuel)%nat →
  let p := frame_addr (pmm m) j in
  ∃ m', vmm_alloc_page (S d) (S fuel) m = Done (window_page 1021) m' ∧
    vmm_grown pd pt p b nb l' m m' ∧
    (∀ v, in_window v → translate m' v = Some (grown_phys p v)) ∧
    (∀ v, KERNEL_VIRT_BASE + WINDOW <= v < KERNEL_VIRT_BASE + 2 * WINDOW → translate m' v = None).
Proof.
  intros RG Hfu p. destruct (vmm_grow_ok pd pt b nb j l l' m RG d fuel Hfu) as (m' & E & G).
  destruct (new_frame_ok pd pt b nb j l l' m RG) as (Hp & Lpd & Lpt).
  destruct (rg_tables _ _ _ _ _ _ _ _ RG) as (Hne & Hdh & Hth).
  exists m'. split_and!; [done|done|..]; intros v Hv.
  - apply (translate_grown pd pt); [apply G|done].
  - by apply (grown_unmapped pd pt p Hne Hp Lpd Lpt Hdh Hth m' v (vg_map _ _ _ _ _ _ _ _ G)
      (vg_hole _ _ _ _ _ _ _ _ G)).
Qed.

Lemma vmm_growth_adds_block_witness :
  ∃ m', vmm_alloc_page 1 1 crowded = Done (window_page 1021) m' ∧
    vmm_grown 1114112 1118208 (frame_addr (pmm crowded) 0) 3222327144 3222326984
      [(3222323200, 3776)] crowded m' ∧
    (∀ v, in_window v → translate m' v = Some (grown_phys (frame_addr (pmm crowded) 0) v)) ∧
    (∀ v, KERNEL_VIRT_BASE + WINDOW <= v < KERNEL_VIRT_BASE + 2 * WINDOW → translate m' v = None).
Proof.
  exact (vmm_growth_adds_block 0 0 1114112 1118208 3222327144 3222326984 0
    [(3222323200, 3936)] [(3222323200, 3776)] crowded crowded_ready (le_n 1)).
Defined.

(** C36: the new block's page table is given away.  Its page is mapped and
    used but neither marked in the old block's bitmap nor counted, so the very
    next call of [vmm_alloc_page] returns the address of the page table that
    serves the new block. *)
Theorem vmm_growth_gives_table_away d fuel pd pt b nb j l l' m :
  ready_to_grow pd pt b nb j l l' m → (length l <= S fuel)%nat →
  ∃ m' q, (vmm_alloc_page (S d) (S fuel);; vmm_alloc_page (S d) (S fuel)) m = Done q m' ∧
    desc_table m' nb = q ∧ PAGE_ALIGN (rd32 (mem m') (pd + 4 * 769)) = frame_addr (pmm m) j ∧
    translate m' q = Some (frame_addr (pmm m) j).
Proof.
  intros RG Hfu. destruct (vmm_grow_ok pd pt b nb j l l' m RG d fuel Hfu) as (m1 & E1 & G1).
  destruct (grown_next d fuel pd pt b nb j l l' m m1 RG G1) as (m2 & E2 & G2 & T2).
  exists m2, (window_page 1022). run E1. split_and!; [done|done| |].
  - apply (gm_pde _ _ _ _ G2).
  - destruct (window_page_facts 1022 ltac:(lia)) as (Hw & _).
    rewrite (translate_grown pd pt _ _ _ G2 Hw). unfold grown_phys.
    rewrite decide_True by (unfold in_hole, window_page; lia). f_equal. lia.
Qed.

Lemma vmm_growth_gives_table_away_witness :
  ∃ m' q, (vmm_alloc_page 1 1;; vmm_alloc_page 1 1) crowded = Done q m' ∧
    desc_table m' 3222326984 = q ∧
    PAGE_ALIGN (rd32 (mem m') (1114112 + 4 * 769)) = frame_addr (pmm crowded) 0 ∧
    translate m' q = Some (frame_addr (pmm crowded) 0).
Proof.
  exact (vmm_growth_gives_table_away 0 0 1114112 1118208 3222327144 3222326984 0
    [(3222323200, 3936)] [(3222323200, 3776)] crowded crowded_ready (le_n 1)).
Defined.
