(* ===== verification/Userspace.v ===== *)
(** * Address spaces for user programs: kernel/memory/paging.c

    The two functions of paging.c that take pages from vmm.c. *)

From S2P Require Import Prelude Machine Tty Memory Bitmap Pmm Paging Kmalloc Vmm.

(** [*p = *q], for two table entries. *)
Definition copy_entry (p q : Z) : M unit :=
  w ← ld32 q; st32 p w.

(** [{ .present = true, .r_w = true, .user = true }] *)
Definition user_entry : table_entry :=
  set_user true (set_r_w true (set_present true zero_entry)).

Definition STACK_ADDRESS_BASE : Z := KERNEL_VIRT_BASE [-] PAGE_SIZE.

Section Userspace.
Context (depth fuel : nat).

(** Only the start of the program is used of [user_task]. *)
Definition paging_create_userspace (phys_addr_start : Z) : M Z :=
  new_userspace ← vmm_alloc_page depth fuel;
  user_page_directory_addr ← vmm_get_phys_addr fuel new_userspace;
  let first := PAGE_DIRECTORY_INDEX KERNEL_VIRT_BASE in
  for_range (Z.to_nat (PAGE_TABLE_INDICES - first)) first (λ i,
    kpd ← gets kernel_page_directory;
    copy_entry (entry_ptr new_userspace i) (entry_ptr kpd i));;
  user_program_pt ← vmm_alloc_page depth fuel;
  user_prog_pt_addr ← vmm_get_phys_addr fuel user_program_pt;
  let prog_pt_entry := paging_set_page_table_addr phys_addr_start user_entry in
  st_entry (entry_ptr user_program_pt 0) prog_pt_entry;;
  let prog_pd_entry := paging_set_page_directory_addr user_prog_pt_addr user_entry in
  st_entry (entry_ptr new_userspace 0) prog_pd_entry;;
  let stack_page_directory_index := PAGE_DIRECTORY_INDEX STACK_ADDRESS_BASE in
  let stack_page_table_index := PAGE_TABLE_INDEX STACK_ADDRESS_BASE in
  user_stack_pt ← vmm_alloc_page depth fuel;
  user_stack_pt_addr ← vmm_get_phys_addr fuel user_stack_pt;
  let stack_pt_entry := paging_set_page_table_addr phys_addr_start user_entry in
  st_entry (entry_ptr user_stack_pt stack_page_table_index) stack_pt_entry;;
  let stack_pd_entry := paging_set_page_directory_addr user_stack_pt_addr user_entry in
  st_entry (entry_ptr new_userspace stack_page_directory_index) stack_pd_entry;;
  mret user_page_directory_addr.

(** The entries of [paging_add_temp_userspace]. *)
Definition shared_entry (addr : Z) : table_entry :=
  set_global_translation true (set_user true (set_r_w true (set_present true
    (paging_set_page_table_addr addr zero_entry)))).

Definition shared_directory_entry (addr : Z) : table_entry :=
  set_global_translation true (set_user true (set_r_w true (set_present true
    (paging_set_page_directory_addr addr zero_entry)))).

(** The identity-mapped table, in directory entry 0. *)
Definition temp_userspace_table : M unit :=
  userspace_page_table ← vmm_alloc_page depth fuel;
  for_range 1024 0 (λ i,
    st_entry (entry_ptr userspace_page_table i) (shared_entry (i [*] PAGE_SIZE)));;
  phys_userspace_page_table ← vmm_get_phys_addr fuel userspace_page_table;
  let user_pd_entry := shared_directory_entry phys_userspace_page_table in
  kpd ← gets kernel_page_directory;
  st_entry (entry_ptr kpd 0) user_pd_entry.

(** The stack, in the last page below the kernel. *)
Definition temp_userspace_stack : M unit :=
  let stack_page_directory_index := PAGE_DIRECTORY_INDEX STACK_ADDRESS_BASE in
  let stack_page_table_index := PAGE_TABLE_INDEX STACK_ADDRESS_BASE in
  user_stack_pt ← vmm_alloc_page depth fuel;
  user_stack_pt_addr ← vmm_get_phys_addr fuel user_stack_pt;
  stack_page ← pmm_alloc_page;
  let stack_pt_entry := shared_entry stack_page in
  st_entry (entry_ptr user_stack_pt stack_page_table_index) stack_pt_entry;;
  let stack_pd_entry := shared_directory_entry user_stack_pt_addr in
  kpd ← gets kernel_page_directory;
  st_entry (entry_ptr kpd stack_page_directory_index) stack_pd_entry.

Definition paging_add_temp_userspace : M unit :=
  temp_userspace_table;;
  temp_userspace_stack;;
  paging_flush_tlb.
End Userspace.

(** ** The window with the page directory in it

    Every byte of the window except the kernel's own directory entry and its
    page table can be written without changing the kernel's map. *)

Definition window_open (pd pt v : Z) : Prop :=
  in_window v ∧ ¬ (pd + 3072 <= v - KERNEL_VIRT_BASE < pd + 3076)
              ∧ ¬ in_frame pt (v - KERNEL_VIRT_BASE).

Lemma kernel_map_insert_open pd pt m p b :
  kernel_map pd pt m → ¬ (pd + 3072 <= p < pd + 3076) → ¬ in_frame pt p →
  kernel_map pd pt (set_mem (<[p := b]> (mem m)) m).
Proof.
  intros [Hon Hl1 Hl2 Hcr3 Hpde Hpte] H1 H2. unfold in_frame in *.
  split; try done; simpl.
  - rewrite rd32_insert_ne by lia. done.
  - intros i Hi. rewrite rd32_insert_ne by lia. by apply Hpte.
Qed.

(** The region, with a fact [J] about memory that its stores keep. *)
Lemma open_region_with pd pt (J : gmap Z Z → Prop) :
  (∀ μ v b, window_open pd pt v → J μ → J (<[v - KERNEL_VIRT_BASE := b]> μ)) →
  Region (λ m, kernel_map pd pt m ∧ J (mem m)) (window_open pd pt).
Proof.
  intros HJ. split.
  - intros v [Hv _]. by apply in_window_word.
  - intros m m' Hc Hm [H1 H2]. split; [by apply (kernel_map_same _ _ m)|by rewrite Hm].
  - intros m b [[] ?]. by split.
  - intros m v [Hm _] [Hv _]. unfold vbyte. by rewrite (translate_window pd pt).
  - intros m v b [Hm HJm] Hf. pose proof Hf as (Hv & H1 & H2).
    pose proof (kernel_map_insert_open pd pt m _ (u8 b) Hm H1 H2) as Hm'.
    unfold st8. rewrite u32_small, (translate_window pd pt m v Hm Hv)
      by (by apply in_window_word).
    eexists. split_and!; [done|done|by apply HJ|done| |].
    + unfold vbyte. rewrite (translate_window pd pt _ v Hm' Hv). simpl.
      by rewrite rd8_insert_eq.
    + intros w [Hw _] Hne. unfold vbyte.
      rewrite (translate_window pd pt _ w Hm' Hw), (translate_window pd pt _ w Hm Hw).
      simpl. rewrite rd8_insert_ne by lia. done.
Qed.

#[export] Instance open_region pd pt : Region (kernel_map pd pt) (window_open pd pt).
Proof.
  destruct (open_region_with pd pt (λ _, True)) as [H1 H2 H0 H3 H4]; [done|].
  split; [done| | | |].
  - intros m m'. apply kernel_map_same.
  - intros m b []. by split.
  - intros m v Hm. by apply H3.
  - intros m v b Hm Hv. destruct (H4 m v b (conj Hm I) Hv) as (m' & ? & [? _] & ?). eauto.
Qed.

Lemma window_free_open pd pt v : window_free pd pt v → window_open pd pt v.
Proof. intros (H1 & H2 & H3). unfold in_frame in H2. split_and!; [done|lia|done]. Qed.

Lemma owns_range_open pd pt v n :
  owns_range (window_free pd pt) v n → owns_range (window_open pd pt) v n.
Proof. intros H i Hi. by apply window_free_open, H. Qed.

Abbreviation open_block pd pt := (first_block_in (window_open pd pt) pd pt).

Lemma first_block_open pd pt b m : first_block pd pt b m → open_block pd pt b m.
Proof. intros []. split; try done. by apply owns_range_open. Qed.

(** A step that keeps the descriptor keeps the block. *)
Lemma open_block_frame pd pt b m m' v n :
  open_block pd pt b m → kernel_map pd pt m' → vmm m' = vmm m →
  (∀ w, window_open pd pt w → w < v ∨ v + n <= w → byte_at m' w = byte_at m w) →
  b + VMM_BLOCK_DESC_SIZE <= v ∨ v + n <= b →
  open_block pd pt b m' ∧ desc_bitmap m' b = desc_bitmap m b ∧
  desc_high_water m' b = desc_high_water m b ∧ desc_free m' b = desc_free m b.
Proof.
  intros [HI Hh Ho Hin H1 H2] HI' Hv Hb Hd. unfold VMM_BLOCK_DESC_SIZE in *.
  assert (∀ w, b <= w <= b + 144 → word_at m' w = word_at m w) as Hw.
  { intros w Hw. unfold word_at. rewrite !Hb; try lia; try done; owned. }
  assert (desc_bitmap m' b = desc_bitmap m b) as Hbm.
  { unfold desc_bitmap. apply map_ext_in. intros i Hi%list_elem_of_In.
    apply elem_of_seqZ in Hi. change VMM_BITMAP_SIZE with 32 in Hi.
    apply Hw. unfold vmm_bitmap_at. lia. }
  unfold desc_first, desc_table in *.
  split_and!; [split; unfold desc_first, desc_table; try done; try (by rewrite Hw by lia);
    by rewrite Hv|done| |]; apply Hw; lia.
Qed.

(** The same, for the stores of the model. *)
Lemma open_block_writes pd pt b m m' v n :
  open_block pd pt b m → kernel_map pd pt m' → writes_only (window_open pd pt) m m' v n →
  b + VMM_BLOCK_DESC_SIZE <= v ∨ v + n <= b →
  open_block pd pt b m' ∧ desc_bitmap m' b = desc_bitmap m b ∧
  desc_high_water m' b = desc_high_water m b ∧ desc_free m' b = desc_free m b.
Proof.
  intros F K [E B] Hd. apply (open_block_frame pd pt b m m' v n); try done.
  by rewrite E.
Qed.

(** ** Filling a table *)

Lemma fill_entries {I owns} `{HR : !Region I owns} t (f : Z → table_entry) m :
  I m → owns_range owns t 4096 → (∀ i, entry_wf (f i)) →
  ∃ m', for_range 1024 0 (λ i, st_entry (entry_ptr t i) (f i)) m = Done tt m' ∧ I m' ∧
    writes_only owns m m' t 4096 ∧
    ∀ i, 0 <= i < 1024 → word_at m' (t + 4 * i) = encode_entry (f i).
Proof.
  intros HI Ho Hf.
  rewrite (for_range_ext _ _ _ (λ i, st32 (t + 4 * i) (encode_entry (f i)))).
  - pose proof (fill_words (I := I) (owns := owns) t 1024 (λ i, encode_entry (f i)) m HI Ho)
      as Hw.
    apply returns_done in Hw as ([] & m' & E & HI' & W & V).
    exists m'. split_and!; try done. intros i Hi. rewrite V by lia.
    by apply u32_small, encode_entry_word.
  - intros i s Hi. unfold st_entry, entry_ptr. rewrite u32_small; [done|].
    apply region_word, (owns_range_at _ t 4096); [done|lia].
Qed.

Lemma shared_entry_wf a : entry_wf (shared_entry a).
Proof. split; [done|]. apply Z.mod_pos_bound. done. Qed.

(** What the MMU finds in a shared entry. *)
Lemma shared_entry_bits a :
  word a → a mod 4096 = 0 →
  entry_maps (encode_entry (shared_entry a)) a ∧
  Z.testbit (encode_entry (shared_entry a)) ENTRY_USER = true.
Proof.
  intros Ha Hm. split; [|by rewrite encode_entry_user].
  replace a with (4096 * phys_addr (shared_entry a)) at 2.
  - apply encode_entry_maps; [apply shared_entry_wf|done].
  - simpl. rewrite phys_addr_page by done. mlia.
Qed.

(** A user access through a directory and a table entry. *)
Lemma user_translate_maps m v t f :
  paging_on m = true →
  entry_maps (page_directory_entry_at m v) t →
  Z.testbit (page_directory_entry_at m v) ENTRY_USER = true →
  entry_maps (rd32 (mem m) (t + 4 * PAGE_TABLE_INDEX v)) f →
  Z.testbit (rd32 (mem m) (t + 4 * PAGE_TABLE_INDEX v)) ENTRY_USER = true →
  user_translate m v = Some (f + v mod 4096).
Proof.
  intros Hon [D1 D2] D3 [P1 P2] P3.
  assert (page_table_entry_at m v = rd32 (mem m) (t + 4 * PAGE_TABLE_INDEX v)) as Hpe
    by (unfold page_table_entry_at; by rewrite D2).
  unfold user_translate, translate. by rewrite Hon, Hpe, D1, D3, P1, P2, P3.
Qed.

Lemma user_translate_shared m v t f :
  paging_on m = true → word v → word t → t mod 4096 = 0 → word f → f mod 4096 = 0 →
  page_directory_entry_at m v = encode_entry (shared_directory_entry t) →
  rd32 (mem m) (t + 4 * PAGE_TABLE_INDEX v) = encode_entry (shared_entry f) →
  user_translate m v = Some (f + v mod 4096).
Proof.
  intros Hon Hv Ht Ht' Hf Hf' Hd Hp.
  destruct (shared_entry_bits t Ht Ht') as [D1 D2].
  destruct (shared_entry_bits f Hf Hf') as [P1 P2].
  apply (user_translate_maps m v t f); rewrite ?Hd, ?Hp; done.
Qed.

(** ** paging_add_temp_userspace *)

(** [k1] and [k2] are the next two pages of the first block, and taking them
    stays clear of the threshold. *)
Record next_pages (b k1 k2 : Z) (m : machine) : Prop := {
  np_first : scan_words (desc_bitmap m b) 0 = Some k1;
  np_second : scan_words (set_page (desc_bitmap m b) k1) 0 = Some k2;
  np_free : 2 <= desc_free m b;
  np_high : desc_high_water m b < HIGH_WATER_THRESHOLD;
  np_below1 : k1 < HIGH_WATER_THRESHOLD - 1;
  np_below2 : k2 < HIGH_WATER_THRESHOLD - 1
}.

(** Page [k] overlaps neither the kernel's tables nor the descriptor. *)
Definition page_apart (pd pt b k : Z) : Prop :=
  4096 * k ≠ pd ∧ 4096 * k ≠ pt ∧
  (b + VMM_BLOCK_DESC_SIZE <= window_page k ∨ window_page k + 4096 <= b).

Lemma page_apart_owned pd pt b k :
  low_frame pd → low_frame pt → 0 <= k < 1024 → page_apart pd pt b k →
  owns_range (window_open pd pt) (window_page k) 4096.
Proof.
  intros Hpd Hpt Hk (H1 & H2 & _). apply owns_range_open. unfold window_page.
  rewrite Z.add_comm. apply low_frame_owned; try done.
  unfold low_frame, WINDOW. split; [lia|mlia].
Qed.

Lemma next_pages_ne b k1 k2 m : next_pages b k1 k2 m → 0 <= k1 < 1024 ∧ 0 <= k2 < 1024 ∧ k1 ≠ k2.
Proof.
  intros [H1 H2 _ _ _ _]. pose proof (scan_words_spec (desc_bitmap m b) 0) as S1.
  pose proof (scan_words_spec (set_page (desc_bitmap m b) k1) 0) as S2.
  rewrite H1 in S1. rewrite H2 in S2. destruct S1 as (R1 & _), S2 as (R2 & F2 & _).
  rewrite length_set_page, desc_bitmap_length in R2. rewrite desc_bitmap_length in R1.
  rewrite bit_of_set_page in F2 by (rewrite ?desc_bitmap_length; lia).
  destruct (Z.eqb_spec (k2 - 32 * 0) k1); [done|]. split_and!; lia.
Qed.

(** A directory entry other than the kernel's. *)
Lemma directory_owned pd pt i :
  low_frame pd → low_frame pt → pd ≠ pt → 0 <= i < 1024 → i ≠ 768 →
  owns_range (window_open pd pt) (pd + KERNEL_VIRT_BASE + 4 * i) 4.
Proof.
  intros [H1 H2] [H3 H4] Hne Hi Hn j Hj. unfold window_open, in_window, in_frame, WINDOW in *.
  split_and!; try lia; mlia.
Qed.

Lemma block_beside_directory pd pt b m :
  first_block pd pt b m →
  b + VMM_BLOCK_DESC_SIZE <= pd + KERNEL_VIRT_BASE ∨ pd + KERNEL_VIRT_BASE + 4096 <= b.
Proof.
  intros F. pose proof (fb_owned _ _ _ _ _ F) as Ho. unfold VMM_BLOCK_DESC_SIZE in *.
  destruct (Z.lt_ge_cases (pd + KERNEL_VIRT_BASE) (b + 148)) as [H|]; [|by left].
  destruct (Z.lt_ge_cases b (pd + KERNEL_VIRT_BASE + 4096)) as [H'|]; [|by right].
  destruct (Z.lt_ge_cases b (pd + KERNEL_VIRT_BASE)) as [Hb|Hb].
  - destruct (Ho (pd + KERNEL_VIRT_BASE - b)) as (_ & Hf & _); [lia|].
    unfold in_frame in Hf. lia.
  - destruct (Ho 0) as (_ & Hf & _); [lia|]. unfold in_frame in Hf. lia.
Qed.

Lemma entry_ptr_window a i :
  in_window a → 0 <= i < 1024 → a + 4 * i < W32 → entry_ptr a i = a + 4 * i.
Proof.
  intros Ha Hi Hw. apply u32_small. unfold in_window, KERNEL_VIRT_BASE, word in *. lia.
Qed.

(** A table entry stored through the window. *)
Lemma st_entry_open pd pt m p e :
  kernel_map pd pt m → owns_range (window_open pd pt) p 4 → entry_wf e →
  ∃ m', st_entry p e m = Done tt m' ∧ kernel_map pd pt m' ∧
    word_at m' p = encode_entry e ∧ writes_only (window_open pd pt) m m' p 4.
Proof.
  intros K Ho He. exact (st_entry_ok (I := kernel_map pd pt) (owns := window_open pd pt)
    m p e K Ho He).
Qed.

Section TempUserspace.
Context (pd pt b k : Z) (A : page_apart pd pt b k) (Hne : pd ≠ pt).

(** The words the two halves leave behind. *)
Definition program_mapped (m : machine) : Prop :=
  word_at m (pd + KERNEL_VIRT_BASE) = encode_entry (shared_directory_entry (4096 * k)) ∧
  ∀ i, 0 <= i < 1024 →
    word_at m (window_page k + 4 * i) = encode_entry (shared_entry (4096 * i)).

Definition stack_mapped (f : Z) (m : machine) : Prop :=
  word_at m (pd + KERNEL_VIRT_BASE + 4 * 767) =
    encode_entry (shared_directory_entry (4096 * k)) ∧
  word_at m (window_page k + 4 * 1023) = encode_entry (shared_entry f).

(** Besides the descriptor, page [k] and directory entry [e], nothing changes. *)
Definition kept_beside (e : Z) (m m' : machine) : Prop :=
  ∀ a, window_open pd pt a → ¬ (b <= a < b + VMM_BLOCK_DESC_SIZE) →
    ¬ (window_page k <= a < window_page k + 4096) →
    ¬ (pd + KERNEL_VIRT_BASE + 4 * e <= a < pd + KERNEL_VIRT_BASE + 4 * e + 4) →
    byte_at m' a = byte_at m a.

Lemma temp_table_runs d fuel m :
  open_block pd pt b m →
  b + VMM_BLOCK_DESC_SIZE <= pd + KERNEL_VIRT_BASE ∨ pd + KERNEL_VIRT_BASE + 4096 <= b →
  kernel_page_directory m = pd + KERNEL_VIRT_BASE →
  scan_words (desc_bitmap m b) 0 = Some k → desc_free m b ≠ 0 →
  Z.max (desc_high_water m b) (k + 1) ≠ HIGH_WATER_THRESHOLD →
  ∃ m', temp_userspace_table (S d) (S fuel) m = Done tt m' ∧ open_block pd pt b m' ∧
    program_mapped m' ∧ only_memory m m' ∧
    desc_bitmap m' b = set_page (desc_bitmap m b) k ∧
    desc_free m' b = desc_free m b - 1 ∧
    desc_high_water m' b = Z.max (desc_high_water m b) (k + 1) ∧
    kept_beside 0 m m'.
Proof using A Hne.
  intros F Hbd Hkpd Hs Hf Hq.
  pose proof (km_pd_low _ _ _ (fb_map _ _ _ _ _ F)) as Lpd.
  pose proof (km_pt_low _ _ _ (fb_map _ _ _ _ _ F)) as Lpt.
  destruct (first_block_alloc pd pt d fuel b k m F Hf Hs) as (m1 & E1 & R & F1 & T1); [by left|].
  pose proof (page_apart_owned pd pt b k Lpd Lpt R A) as O1.
  pose proof (directory_owned pd pt 0 Lpd Lpt Hne ltac:(lia) ltac:(lia)) as OD.
  rewrite Z.mul_0_r, Z.add_0_r in OD. destruct A as (P & _ & B).
  destruct (window_page_facts k R) as (Iw & _).
  unfold temp_userspace_table. run E1.
  destruct (fill_entries (I := kernel_map pd pt) (owns := window_open pd pt) (window_page k)
    (λ i, shared_entry (i [*] PAGE_SIZE)) m1 (fb_map _ _ _ _ _ F1) O1
    (λ i, shared_entry_wf _)) as (m2 & E2 & K2 & W2 & V2). run E2.
  destruct (open_block_writes pd pt b m1 m2 _ _ F1 K2 W2 B) as (F2 & D2 & G2 & H2).
  run (window_phys pd pt fuel b k m2 F2 R). steps.
  assert (only_memory m m2) as OM
    by (etransitivity; [apply (pt_writes _ _ _ _ T1)|apply W2]).
  assert (kernel_page_directory m2 = pd + KERNEL_VIRT_BASE) as -> by (by rewrite OM).
  destruct Lpd as [Rpd Apd]. unfold WINDOW in Rpd.
  assert (entry_ptr (pd + KERNEL_VIRT_BASE) 0 = pd + KERNEL_VIRT_BASE) as ->
    by (rewrite <- (Z.add_0_r (pd + KERNEL_VIRT_BASE)) at 2; apply u32_small; word_lia).
  destruct (st_entry_open pd pt m2 _ (shared_directory_entry (4096 * k)) K2 OD
    (shared_entry_wf _)) as (m3 & E3 & K3 & V3 & W3).
  destruct (open_block_writes pd pt b m2 m3 _ _ F2 K3 W3 ltac:(lia)) as (F3 & D3 & G3 & H3).
  exists m3. split_and!; [exact E3|done| |by etransitivity; [exact OM|apply W3]| | | |].
  - split; [exact V3|]. intros i Hi.
    rewrite (writes_only_word_at _ _ _ _ _ W3) by (owned || unfold window_page; mlia).
    rewrite V2 by done. rewrite u32_small by word_lia. by rewrite Z.mul_comm.
  - by rewrite D3, D2, (pt_bitmap _ _ _ _ T1).
  - by rewrite H3, H2, (pt_free _ _ _ _ T1).
  - by rewrite G3, G2, (pt_high _ _ _ _ T1).
  - intros a Ha H1 H2' H4. rewrite (proj2 W3), (proj2 W2) by (done || lia).
    apply (proj2 (pt_writes _ _ _ _ T1)); [done|lia].
Qed.

Lemma temp_stack_runs d fuel m f p' :
  open_block pd pt b m →
  b + VMM_BLOCK_DESC_SIZE <= pd + KERNEL_VIRT_BASE ∨ pd + KERNEL_VIRT_BASE + 4096 <= b →
  kernel_page_directory m = pd + KERNEL_VIRT_BASE →
  scan_words (desc_bitmap m b) 0 = Some k → desc_free m b ≠ 0 →
  Z.max (desc_high_water m b) (k + 1) ≠ HIGH_WATER_THRESHOLD →
  (∀ m1, pmm m1 = pmm m → pmm_alloc_page m1 = Done f (set_pmm p' m1)) →
  ∃ m', temp_userspace_stack (S d) (S fuel) m = Done tt m' ∧ kernel_map pd pt m' ∧
    stack_mapped f m' ∧ m' = set_pmm p' (set_mem (mem m') m) ∧ kept_beside 767 m m'.
Proof using A Hne.
  intros F Hbd Hkpd Hs Hf Hq HA.
  pose proof (km_pd_low _ _ _ (fb_map _ _ _ _ _ F)) as Lpd.
  pose proof (km_pt_low _ _ _ (fb_map _ _ _ _ _ F)) as Lpt.
  destruct (first_block_alloc pd pt d fuel b k m F Hf Hs) as (m1 & E1 & R & F1 & T1); [by left|].
  pose proof (page_apart_owned pd pt b k Lpd Lpt R A) as O1.
  pose proof (directory_owned pd pt 767 Lpd Lpt Hne ltac:(lia) ltac:(lia)) as OD.
  destruct A as (P & _ & B). destruct (window_page_facts k R) as (Iw & _).
  destruct Lpd as [Rpd Apd]. unfold WINDOW in Rpd. unfold temp_userspace_stack.
  change (PAGE_DIRECTORY_INDEX STACK_ADDRESS_BASE) with 767.
  change (PAGE_TABLE_INDEX STACK_ADDRESS_BASE) with 1023. cbv zeta. run E1.
  run (window_phys pd pt fuel b k m1 F1 R).
  assert (only_memory m m1) as OM by apply (pt_writes _ _ _ _ T1).
  run (HA m1 ltac:(by rewrite OM)).
  assert (kernel_map pd pt (set_pmm p' m1)) as K2
    by (by apply (kernel_map_same _ _ m1), (fb_map _ _ _ _ _ F1)).
  rewrite entry_ptr_window by (done || unfold window_page; word_lia).
  assert (owns_range (window_open pd pt) (window_page k + 4 * 1023) 4) as O1' by owned.
  destruct (st_entry_open pd pt (set_pmm p' m1) _ (shared_entry f) K2 O1'
    (shared_entry_wf _)) as (m3 & E3 & K3 & V3 & W3). run E3. steps.
  assert (kernel_page_directory m3 = pd + KERNEL_VIRT_BASE) as ->
    by (by rewrite (proj1 W3), OM).
  assert (entry_ptr (pd + KERNEL_VIRT_BASE) 767 = pd + KERNEL_VIRT_BASE + 4 * 767) as ->
    by (apply u32_small; word_lia).
  destruct (st_entry_open pd pt m3 _ (shared_directory_entry (4096 * k)) K3 OD
    (shared_entry_wf _)) as (m4 & E4 & K4 & V4 & W4).
  exists m4. split_and!; [exact E4|done| |by rewrite (proj1 W4), (proj1 W3), OM|].
  - split; [exact V4|].
    rewrite (writes_only_word_at _ _ _ _ _ W4) by (owned || unfold window_page; mlia).
    exact V3.
  - intros a Ha H1 H2 H3. rewrite (proj2 W4), (proj2 W3) by (done || lia).
    rewrite (byte_at_same m1) by done. apply (proj2 (pt_writes _ _ _ _ T1)); [done|lia].
Qed.

(** The program's table is still there after the stack's. *)
Lemma kept_word m m' v e :
  kept_beside e m m' → owns_range (window_open pd pt) v 4 →
  v + 4 <= b ∨ b + VMM_BLOCK_DESC_SIZE <= v →
  v + 4 <= window_page k ∨ window_page k + 4096 <= v →
  v + 4 <= pd + KERNEL_VIRT_BASE + 4 * e ∨ pd + KERNEL_VIRT_BASE + 4 * e + 4 <= v →
  word_at m' v = word_at m v.
Proof using.
  intros HK Ov H1 H2 H3. unfold word_at. rewrite <- (Z.add_0_r v) at 1 5.
  rewrite !HK; try lia; try (apply Ov; lia).
Qed.
End TempUserspace.

(** A word of a table, as the MMU reads it. *)
Lemma window_word pd pt m v :
  kernel_map pd pt m → in_window v → in_window (v + 3) →
  rd32 (mem m) (v - KERNEL_VIRT_BASE) = word_at m v.
Proof. intros K H1 H2. symmetry. by apply (word_at_window pd pt). Qed.

Lemma directory_word pd pt m v :
  kernel_map pd pt m →
  page_directory_entry_at m v = word_at m (pd + KERNEL_VIRT_BASE + 4 * PAGE_DIRECTORY_INDEX v).
Proof.
  intros K. unfold page_directory_entry_at. rewrite (km_cr3 _ _ _ K).
  destruct (km_pd_low _ _ _ K) as [R A]. pose proof (PAGE_DIRECTORY_INDEX_range v).
  unfold WINDOW in R. rewrite <- (window_word pd pt) by (done || unfold in_window, WINDOW; mlia).
  f_equal. lia.
Qed.

Lemma table_word pd pt m k i :
  kernel_map pd pt m → 0 <= k < 1024 → 0 <= i < 1024 →
  rd32 (mem m) (4096 * k + 4 * i) = word_at m (window_page k + 4 * i).
Proof.
  intros K Hk Hi. rewrite <- (window_word pd pt)
    by (done || unfold in_window, window_page, WINDOW; lia).
  f_equal. unfold window_page. lia.
Qed.

(** User accesses through the words of the two halves. *)
Lemma program_translate pd pt k m v :
  kernel_map pd pt m → 0 <= k < 1024 → program_mapped pd k m → 0 <= v < WINDOW →
  user_translate m v = Some v.
Proof.
  intros K Hk [D T] Hv. unfold WINDOW in Hv. assert (word v) as Hw by word_lia.
  rewrite (user_translate_shared m v (4096 * k) (4096 * (v / 4096)));
    try apply K; try word_lia; try done; try (f_equal; mlia); try mlia.
  - rewrite (directory_word pd pt) by done. rewrite PAGE_DIRECTORY_INDEX_div by done.
    replace (v / 4194304) with 0 by mlia. by rewrite Z.mul_0_r, Z.add_0_r.
  - rewrite PAGE_TABLE_INDEX_div by done. rewrite (Z.mod_small (v / 4096)) by mlia.
    rewrite (table_word pd pt) by (done || mlia). apply T. mlia.
Qed.

Lemma stack_translate pd pt k f m v :
  kernel_map pd pt m → 0 <= k < 1024 → stack_mapped pd k f m → word f → f mod 4096 = 0 →
  KERNEL_VIRT_BASE - 4096 <= v < KERNEL_VIRT_BASE →
  user_translate m v = Some (f + v mod 4096).
Proof.
  intros K Hk [D T] Hf Hf' Hv. unfold KERNEL_VIRT_BASE in Hv. assert (word v) as Hw by word_lia.
  apply (user_translate_shared m v (4096 * k) f); try apply K; try word_lia; try done; try mlia.
  - rewrite (directory_word pd pt) by done. rewrite PAGE_DIRECTORY_INDEX_div by done.
    replace (v / 4194304) with 767 by mlia. done.
  - rewrite PAGE_TABLE_INDEX_div by done. replace ((v / 4096) mod 1024) with 1023 by mlia.
    by rewrite (table_word pd pt) by (done || lia).
Qed.

(** What [paging_add_temp_userspace] leaves behind. *)
Record userspace_added (pd pt b k1 k2 : Z) (f : Z) (p' : physical_memory)
    (m m' : machine) : Prop := {
  ua_map : kernel_map pd pt m';
  ua_regs : m' = set_pmm p' (set_mem (mem m') m);
  ua_program v : 0 <= v < WINDOW → user_translate m' v = Some v;
  ua_stack v : KERNEL_VIRT_BASE - 4096 <= v < KERNEL_VIRT_BASE →
    user_translate m' v = Some (f + v mod 4096);
  ua_frame a : window_free pd pt a → ¬ (b <= a < b + VMM_BLOCK_DESC_SIZE) →
    ¬ (window_page k1 <= a < window_page k1 + 4096) →
    ¬ (window_page k2 <= a < window_page k2 + 4096) → byte_at m' a = byte_at m a
}.

Lemma temp_userspace_ok d fuel pd pt b k1 k2 j m :
  first_block pd pt b m → next_pages b k1 k2 m → page_apart pd pt b k1 →
  page_apart pd pt b k2 → pd ≠ pt → kernel_page_directory m = pd + KERNEL_VIRT_BASE →
  pmm_wf (pmm m) → pmm_next (pmm m) = Some j →
  ∃ m', paging_add_temp_userspace (S d) (S fuel) m = Done tt m' ∧
    userspace_added pd pt b k1 k2 (frame_addr (pmm m) j) (pmm_take j (pmm m)) m m'.
Proof.
  intros F NP A1 A2 Hne Hkpd Hwf Hj.
  pose proof (next_pages_ne _ _ _ _ NP) as (R1 & R2 & Hk). destruct NP as [N1 N2 N3 N4 N5 N6].
  pose proof (block_beside_directory _ _ _ _ F) as Hbd. unfold HIGH_WATER_THRESHOLD in *.
  pose proof (km_pd_low _ _ _ (fb_map _ _ _ _ _ F)) as Lpd.
  pose proof (km_pt_low _ _ _ (fb_map _ _ _ _ _ F)) as Lpt.
  destruct (temp_table_runs pd pt b k1 A1 Hne d fuel m (first_block_open _ _ _ _ F) Hbd Hkpd N1
    ltac:(lia) ltac:(unfold HIGH_WATER_THRESHOLD; lia))
    as (m1 & E1 & F1 & T1 & OM & B1 & C1 & G1 & Kept).
  pose proof (pmm_next_spec _ Hwf) as Hs. rewrite Hj in Hs. destruct Hs as (Hr & _).
  pose proof (pool_frames_le _ Hwf) as Hle.
  destruct (frame_addr_word _ j Hwf ltac:(lia)) as [Hw _].
  assert (frame_addr (pmm m) j mod 4096 = 0) as Hal.
  { destruct Hwf as [_ _ _ [_ Ha] _]. unfold frame_addr, PAGE_SIZE in *. mlia. }
  destruct (temp_stack_runs pd pt b k2 A2 Hne d fuel m1 (frame_addr (pmm m) j)
    (pmm_take j (pmm m)) F1 Hbd) as (m2 & E2 & K2 & T2 & R2' & Hold).
  { by rewrite OM. }
  { by rewrite B1. }
  { lia. }
  { rewrite G1. unfold HIGH_WATER_THRESHOLD. lia. }
  { intros m3 Hp. assert (pmm m3 = pmm m) as Hp' by (rewrite Hp; by rewrite OM).
    rewrite <- Hp' in *. by apply pmm_alloc_page_Some. }
  exists m2. unfold paging_add_temp_userspace. run E1. run E2.
  assert (program_mapped pd k1 m2) as T1'.
  { pose proof (page_apart_owned pd pt b k1 Lpd Lpt R1 A1) as O1.
    pose proof (directory_owned pd pt 0 Lpd Lpt Hne ltac:(lia) ltac:(lia)) as OD.
    rewrite Z.mul_0_r, Z.add_0_r in OD.
    destruct T1 as [D T], A1 as (P1 & _ & Q1), A2 as (P2 & _ & Q2), Lpd as [Rpd Apd].
    unfold window_page in *. split.
    - rewrite (kept_word _ _ _ _ _ _ _ _ Hold) by (done || unfold window_page; mlia). exact D.
    - intros i Hi. unfold window_page.
      rewrite (kept_word _ _ _ _ _ _ _ _ Hold) by (owned || unfold window_page; mlia). by apply T. }
  split; [done|]. split; [done| | | |].
  - unfold only_memory in OM. rewrite R2' at 1. rewrite OM. done.
  - intros v Hv. by apply (program_translate pd pt k1).
  - intros v Hv. by apply (stack_translate pd pt k2).
  - intros a Ha H1 H2 H3. destruct Ha as (Hw' & Hpd & Hpt). unfold in_frame in *.
    assert (window_open pd pt a) as Ho by (by apply window_free_open).
    rewrite Hold, Kept by (done || lia). done.
Qed.

(** ** Properties *)

(** After [paging_add_temp_userspace] user code has a stack in the page
    below the kernel, on the frame the pool handed out, and it can also reach
    all of the first 4 MiB of physical memory at its own address: the
    kernel's image, its heap and the page tables themselves. *)
Theorem temp_userspace_maps d fuel pd pt b k1 k2 j m :
  first_block pd pt b m → next_pages b k1 k2 m → page_apart pd pt b k1 →
  page_apart pd pt b k2 → pd ≠ pt → kernel_page_directory m = pd + KERNEL_VIRT_BASE →
  pmm_wf (pmm m) → pmm_next (pmm m) = Some j →
  ∃ m', paging_add_temp_userspace (S d) (S fuel) m = Done tt m' ∧ kernel_map pd pt m' ∧
    (∀ v, 0 <= v < WINDOW → user_translate m' v = Some v) ∧
    (∀ v, KERNEL_VIRT_BASE - 4096 <= v < KERNEL_VIRT_BASE →
       user_translate m' v = Some (frame_addr (pmm m) j + v mod 4096)).
Proof.
  intros F NP A1 A2 Hne Hkpd Hwf Hj.
  destruct (temp_userspace_ok d fuel pd pt b k1 k2 j m F NP A1 A2 Hne Hkpd Hwf Hj)
    as (m' & E & [K _ P T _]). by exists m'.
Qed.

(** The booted kernel, with the global that names its page directory. *)
Definition kernel_ready : machine :=
  set_kernel_page_directory (1114112 + KERNEL_VIRT_BASE) kernel_with_vmm.

Lemma kernel_ready_block : first_block 1114112 1118208 3222327144 kernel_ready.
Proof.
  destruct kernel_with_vmm_block as [K H1 H2 H3 H4 H5].
  split; [|exact H1|exact H2|exact H3| |].
  - by apply (kernel_map_same _ _ kernel_with_vmm).
  - rewrite <- H4. by apply word_at_same.
  - rewrite <- H5. by apply word_at_same.
Qed.

Lemma kernel_ready_pages : next_pages 3222327144 274 275 kernel_ready.
Proof.
  pose proof (initial_desc_same kernel_with_vmm kernel_ready _ _ _ eq_refl eq_refl
    kernel_with_vmm_desc) as D.
  pose proof (id_bits _ _ _ _ D) as B. change (32 * (274 / 32 + 1)) with 288 in B.
  split; [| | | |done|done].
  - apply scan_first; [rewrite desc_bitmap_length; lia|by rewrite B by lia|].
    intros i Hi. rewrite B by lia. apply Z.ltb_lt. lia.
  - apply scan_first; [rewrite length_set_page, desc_bitmap_length; lia| |].
    + rewrite bit_of_set_page by (rewrite ?desc_bitmap_length; lia).
      by rewrite B by lia.
    + intros i Hi. rewrite bit_of_set_page by (rewrite ?desc_bitmap_length; lia).
      rewrite B by lia. destruct (Z.eqb_spec i 274), (Z.ltb_spec i 274); try done; lia.
  - by rewrite (id_free _ _ _ _ D).
  - by rewrite (id_high _ _ _ _ D).
Qed.

Lemma kernel_ready_pool : pmm kernel_ready = pmm sample_pool.
Proof. exact (proj1 (proj2 (proj2 (proj2_sig vmm_machine)))). Qed.

Lemma temp_userspace_maps_witness :
  ∃ m', paging_add_temp_userspace 1 1 kernel_ready = Done tt m' ∧
    kernel_map 1114112 1118208 m' ∧
    (∀ v, 0 <= v < WINDOW → user_translate m' v = Some v) ∧
    (∀ v, KERNEL_VIRT_BASE - 4096 <= v < KERNEL_VIRT_BASE →
       user_translate m' v = Some (frame_addr (pmm kernel_ready) 0 + v mod 4096)).
Proof.
  apply (temp_userspace_maps 0 0 1114112 1118208 3222327144 274 275 0 kernel_ready
    kernel_ready_block kernel_ready_pages); rewrite ?kernel_ready_pool.
  - split_and!; [done|done|by left].
  - split_and!; [done|done|by left].
  - done.
  - reflexivity.
  - exact sample_pool_wf.
  - by vm_compute.
Defined.
