(* ===== verification/Process.v ===== *)
(** * An address space of its own: paging_create_userspace of kernel/memory/paging.c

    The function takes three pages of the window: a page directory that
    shares the kernel's entries, a table for the program and one for the
    stack.  Nothing calls it yet. *)

From S2P Require Import Prelude Machine Tty Memory Boot Bitmap Pmm Paging Kmalloc Vmm Userspace.

(** ** Copying the kernel's directory *)

(** The body of the loop of [paging_create_userspace]. *)
Abbreviation copy_kernel_entry t := (λ i,
  kpd ← gets kernel_page_directory;
  copy_entry (entry_ptr t i) (entry_ptr kpd i)).

Section Copy.
Context (pd pt : Z) (Hne : pd ≠ pt).

(** Entries 768 .. 1023 of the kernel's directory, copied to page [t]. *)
Record copied (t : Z) (m : machine) (n : Z) (m' : machine) : Prop := {
  cp_map : kernel_map pd pt m';
  cp_writes : writes_only (window_open pd pt) m m' (t + 3072) 1024;
  cp_kernel : 768 < n → entry_maps (word_at m' (t + 4 * 768)) pt;
  cp_rest j : 768 < j < n → word_at m' (t + 4 * j) = word_at m (pd + KERNEL_VIRT_BASE + 4 * j)
}.

Lemma copy_entries t m :
  kernel_map pd pt m → kernel_page_directory m = pd + KERNEL_VIRT_BASE → in_window t →
  owns_range (window_open pd pt) t 4096 →
  t + 4096 <= pd + KERNEL_VIRT_BASE ∨ pd + KERNEL_VIRT_BASE + 4096 <= t →
  ∃ m', for_range 256 768 (copy_kernel_entry t) m = Done tt m' ∧ copied t m 1024 m'.
Proof using Hne.
  intros K Hk Ht Ho Hd. pose proof (km_pd_low _ _ _ K) as Lpd. pose proof (km_pt_low _ _ _ K) as Lpt.
  enough (returns (for_range 256 768 (copy_kernel_entry t)) m (λ _ m', copied t m 1024 m'))
    as ([] & m' & E & C)%returns_done by (by exists m').
  apply (for_range_inv 256 768 _ (copied t m)); [split; [done|apply writes_only_refl|lia|lia]|].
  intros i m' Hi [K' W C1 C2]. destruct Lpd as [Rpd Apd]. unfold WINDOW in Rpd.
  assert (kernel_page_directory m' = pd + KERNEL_VIRT_BASE) as Hk' by (by rewrite (proj1 W)).
  unfold copy_entry. apply returns_bind. unfold returns at 1. cbn [gets]. rewrite Hk'.
  assert (entry_ptr (pd + KERNEL_VIRT_BASE) i = pd + KERNEL_VIRT_BASE + 4 * i) as ->
    by (apply u32_small; word_lia).
  assert (entry_ptr t i = t + 4 * i) as ->
    by (apply entry_ptr_window; [done|lia|];
        pose proof (in_window_word t Ht); unfold in_window, WINDOW, KERNEL_VIRT_BASE in Ht; word_lia).
  set (s := pd + KERNEL_VIRT_BASE + 4 * i).
  assert (in_window s ∧ in_window (s + 3)) as [S1 S2]
    by (unfold s, in_window, WINDOW; mlia).
  apply returns_bind. unfold returns at 1. rewrite (ld32_window pd pt m' s K' S1 S2).
  rewrite (window_word pd pt m' s K' S1 S2).
  destruct (st32_ok (I := kernel_map pd pt) (owns := window_open pd pt) m' (t + 4 * i)
    (word_at m' s) K' ltac:(owned)) as (m1 & E1 & K1 & V1 & W1).
  unfold returns. rewrite E1. rewrite u32_small in V1 by apply word_at_word.
  split; [done| | |].
  - apply (writes_only_trans _ m'); [done|]. apply (writes_only_weaken _ _ (t + 4 * i) 4); [done|lia|lia].
  - intros _. destruct (decide (i = 768)) as [->|Hn].
    + rewrite V1. unfold s. rewrite <- (window_word pd pt) by done.
      replace (pd + KERNEL_VIRT_BASE + 4 * 768 - KERNEL_VIRT_BASE) with (pd + 4 * 768) by lia.
      apply K'.
    + rewrite (writes_only_word_at _ _ _ _ _ W1) by (owned || lia). apply C1. lia.
  - intros j Hj. destruct (decide (j = i)) as [->|Hn].
    + rewrite V1. unfold s. pose proof (directory_owned pd pt i (km_pd_low _ _ _ K) Lpt Hne
        ltac:(lia) ltac:(lia)) as OD.
      apply (writes_only_word_at _ _ _ _ _ W); [exact OD|]. lia.
    + rewrite (writes_only_word_at _ _ _ _ _ W1) by (owned || lia). apply C2. lia.
Qed.
End Copy.

(** ** The three pages *)

(** The next three pages of the first block; taking them stays clear of the
    threshold. *)
Record three_pages (b k1 k2 k3 : Z) (m : machine) : Prop := {
  tp_two : next_pages b k1 k2 m;
  tp_third : scan_words (set_page (set_page (desc_bitmap m b) k1) k2) 0 = Some k3;
  tp_free : 3 <= desc_free m b;
  tp_below : k3 < HIGH_WATER_THRESHOLD - 1
}.

Lemma three_pages_ne b k1 k2 k3 m :
  three_pages b k1 k2 k3 m →
  0 <= k1 < 1024 ∧ 0 <= k2 < 1024 ∧ 0 <= k3 < 1024 ∧ k1 ≠ k2 ∧ k1 ≠ k3 ∧ k2 ≠ k3.
Proof.
  intros [N T _ _]. destruct (next_pages_ne _ _ _ _ N) as (R1 & R2 & Hne).
  pose proof (scan_words_spec (set_page (set_page (desc_bitmap m b) k1) k2) 0) as S.
  rewrite T in S. destruct S as (R3 & F3 & _).
  rewrite !length_set_page, desc_bitmap_length in R3.
  rewrite !bit_of_set_page in F3 by (rewrite ?length_set_page, ?desc_bitmap_length; lia).
  destruct (Z.eqb_spec (k3 - 32 * 0) k2), (Z.eqb_spec (k3 - 32 * 0) k1); try done.
  split_and!; lia.
Qed.

(** The entries of the function. *)
Definition user_page_entry (addr : Z) : table_entry :=
  paging_set_page_table_addr addr user_entry.

Lemma user_page_entry_wf a : entry_wf (user_page_entry a).
Proof. split; [done|]. apply Z.mod_pos_bound. done. Qed.

Lemma user_page_entry_bits a :
  word a →
  entry_maps (encode_entry (user_page_entry a)) (4096 * (a / 4096)) ∧
  Z.testbit (encode_entry (user_page_entry a)) ENTRY_USER = true.
Proof.
  intros Ha. split; [|by rewrite encode_entry_user].
  replace (a / 4096) with (phys_addr (user_page_entry a)) by (by apply phys_addr_page).
  apply encode_entry_maps; [apply user_page_entry_wf|done].
Qed.

Section CreateUserspace.
Context (pd pt b k1 k2 k3 : Z) (Hne : pd ≠ pt).
Context (A1 : page_apart pd pt b k1) (A2 : page_apart pd pt b k2) (A3 : page_apart pd pt b k3).

(** What is in memory afterwards. *)
Record space_built (start : Z) (m' : machine) : Prop := {
  sb_map : kernel_map pd pt m';
  sb_kernel : entry_maps (word_at m' (window_page k1 + 4 * 768)) pt;
  sb_program_dir : word_at m' (window_page k1) = encode_entry (user_page_entry (4096 * k2));
  sb_program : word_at m' (window_page k2) = encode_entry (user_page_entry start);
  sb_stack_dir : word_at m' (window_page k1 + 4 * 767) =
    encode_entry (user_page_entry (4096 * k3));
  sb_stack : word_at m' (window_page k3 + 4 * 1023) = encode_entry (user_page_entry start)
}.

(** A page taken off the first block, and its physical address. *)
Lemma take_page d fuel k m {B} (f : Z → Z → M B) :
  open_block pd pt b m → scan_words (desc_bitmap m b) 0 = Some k → desc_free m b ≠ 0 →
  Z.max (desc_high_water m b) (k + 1) ≠ HIGH_WATER_THRESHOLD →
  ∃ m', (v ← vmm_alloc_page (S d) (S fuel); p ← vmm_get_phys_addr (S fuel) v; f v p) m =
      f (window_page k) (4096 * k) m' ∧
    open_block pd pt b m' ∧ page_taken (owns := window_open pd pt) b k m m'.
Proof using.
  intros F Hs Hf Hq.
  destruct (first_block_alloc pd pt d fuel b k m F Hf Hs) as (m' & E & R & F' & T); [by left|].
  exists m'. split_and!; [|done|done]. run E. by run (window_phys pd pt fuel b k m' F' R).
Qed.

(** Both halves: page [k] becomes a table whose entry [i] maps [start], and
    entry [j] of the new directory points to it. *)
Record mapped_through (k i j start : Z) (m m' : machine) : Prop := {
  mt_block : open_block pd pt b m';
  mt_only : only_memory m m';
  mt_bitmap : desc_bitmap m' b = set_page (desc_bitmap m b) k;
  mt_free : desc_free m' b = desc_free m b - 1;
  mt_high : desc_high_water m' b = Z.max (desc_high_water m b) (k + 1);
  mt_table : word_at m' (window_page k + 4 * i) = encode_entry (user_page_entry start);
  mt_directory : word_at m' (window_page k1 + 4 * j) = encode_entry (user_page_entry (4096 * k));
  mt_kept v : owns_range (window_open pd pt) v 4 → v + 4 <= b ∨ b + VMM_BLOCK_DESC_SIZE <= v →
    v + 4 <= window_page k ∨ window_page k + 4096 <= v →
    v + 4 <= window_page k1 + 4 * j ∨ window_page k1 + 4 * j + 4 <= v →
    word_at m' v = word_at m v
}.

Lemma map_user_page d fuel k i j start m {B} (f : M B) :
  open_block pd pt b m → scan_words (desc_bitmap m b) 0 = Some k → desc_free m b ≠ 0 →
  Z.max (desc_high_water m b) (k + 1) ≠ HIGH_WATER_THRESHOLD →
  0 <= k1 < 1024 → 0 <= k < 1024 → k1 ≠ k → page_apart pd pt b k →
  0 <= i < 1024 → 0 <= j < 1024 →
  ∃ m', (table ← vmm_alloc_page (S d) (S fuel);
         addr ← vmm_get_phys_addr (S fuel) table;
         st_entry (entry_ptr table i) (user_page_entry start);;
         st_entry (entry_ptr (window_page k1) j) (user_page_entry addr);; f) m = f m' ∧
    mapped_through k i j start m m'.
Proof using A1.
  intros F Hs Hf Hq R1 R Hk A Hi Hj.
  pose proof (km_pd_low _ _ _ (fb_map _ _ _ _ _ F)) as Lpd.
  pose proof (km_pt_low _ _ _ (fb_map _ _ _ _ _ F)) as Lpt.
  pose proof (page_apart_owned pd pt b k1 Lpd Lpt R1 A1) as O1.
  pose proof (page_apart_owned pd pt b k Lpd Lpt R A) as O.
  destruct A1 as (_ & _ & D1), A as (_ & _ & D).
  assert (∀ x i', 0 <= x < 1024 → 0 <= i' < 1024 →
    entry_ptr (window_page x) i' = window_page x + 4 * i') as EP
    by (intros; apply u32_small; unfold window_page; word_lia).
  epose proof (take_page d fuel k m (λ table addr, _) F Hs Hf Hq) as (m1 & E1 & F1 & T1).
  cbv beta in E1. rewrite E1. clear E1. rewrite !EP by done.
  destruct (st_entry_open pd pt m1 (window_page k + 4 * i) (user_page_entry start) (fb_map _ _ _ _ _ F1)
    ltac:(apply (owns_range_sub _ _ _ _ _ O); lia) (user_page_entry_wf _))
    as (m2 & E2 & K2 & V2 & W2). run E2.
  destruct (open_block_writes pd pt b m1 m2 (window_page k + 4 * i) 4 F1 K2 W2 ltac:(lia))
    as (F2 & B2 & G2 & H2).
  destruct (st_entry_open pd pt m2 (window_page k1 + 4 * j) (user_page_entry (4096 * k)) K2
    ltac:(apply (owns_range_sub _ _ _ _ _ O1); lia) (user_page_entry_wf _))
    as (m3 & E3 & K3 & V3 & W3). run E3.
  destruct (open_block_writes pd pt b m2 m3 (window_page k1 + 4 * j) 4 F2 K3 W3 ltac:(lia))
    as (F3 & B3 & G3 & H3).
  exists m3. split; [done|]. split; [done| | | | | |exact V3|].
  - etransitivity; [apply (pt_writes _ _ _ _ T1)|]. etransitivity; [apply W2|apply W3].
  - by rewrite B3, B2, (pt_bitmap _ _ _ _ T1).
  - by rewrite H3, H2, (pt_free _ _ _ _ T1).
  - by rewrite G3, G2, (pt_high _ _ _ _ T1).
  - rewrite (writes_only_word_at _ _ _ _ _ W3); [exact V2| |unfold window_page; lia].
    apply (owns_range_sub _ _ _ _ _ O); lia.
  - intros v Hv Hb Hp Hd.
    rewrite (writes_only_word_at _ _ _ _ _ W3), (writes_only_word_at _ _ _ _ _ W2) by (done || lia).
    apply (writes_only_word_at _ _ _ _ _ (pt_writes _ _ _ _ T1)); done.
Qed.

Lemma create_userspace_ok d fuel start m :
  first_block pd pt b m → three_pages b k1 k2 k3 m →
  kernel_page_directory m = pd + KERNEL_VIRT_BASE →
  ∃ m', paging_create_userspace (S d) (S fuel) start m = Done (4096 * k1) m' ∧
    space_built start m'.
Proof using A1 A2 A3 Hne.
  intros F TP Hk. pose proof (block_beside_directory _ _ _ _ F) as Hbd.
  destruct (three_pages_ne _ _ _ _ _ TP) as (R1 & R2 & R3 & N1 & N2 & N3).
  destruct TP as [[S1 S2 _ Hq Q1 Q2] S3 Hf Q3]. unfold HIGH_WATER_THRESHOLD in *.
  pose proof (km_pd_low _ _ _ (fb_map _ _ _ _ _ F)) as Lpd.
  pose proof (km_pt_low _ _ _ (fb_map _ _ _ _ _ F)) as Lpt.
  pose proof (page_apart_owned pd pt b k1 Lpd Lpt R1 A1) as O1.
  pose proof (page_apart_owned pd pt b k2 Lpd Lpt R2 A2) as O2.
  pose proof A1 as (P1 & _ & D1).
  destruct (window_page_facts k1 R1) as (I1 & _).
  unfold paging_create_userspace.
  change (Z.to_nat (PAGE_TABLE_INDICES - PAGE_DIRECTORY_INDEX KERNEL_VIRT_BASE)) with 256%nat.
  change (PAGE_DIRECTORY_INDEX KERNEL_VIRT_BASE) with 768.
  change (PAGE_DIRECTORY_INDEX STACK_ADDRESS_BASE) with 767.
  change (PAGE_TABLE_INDEX STACK_ADDRESS_BASE) with 1023. cbv zeta.
  epose proof (take_page d fuel k1 m (λ v p, _) (first_block_open _ _ _ _ F) S1 ltac:(lia)
    ltac:(unfold HIGH_WATER_THRESHOLD; lia)) as (m1 & E1 & F1 & T1).
  cbv beta in E1. rewrite E1. clear E1.
  assert (kernel_page_directory m1 = pd + KERNEL_VIRT_BASE) as Hk1
    by (by rewrite (proj1 (pt_writes _ _ _ _ T1))).
  destruct (copy_entries pd pt Hne (window_page k1) m1 (fb_map _ _ _ _ _ F1) Hk1 I1 O1
    ltac:(unfold window_page; destruct Lpd; mlia)) as (m2 & E2 & [K2 W2 C2 _]). run E2.
  destruct (open_block_writes pd pt b m1 m2 (window_page k1 + 3072) 1024 F1 K2 W2 ltac:(lia))
    as (F2 & B2 & G2 & H2).
  rewrite (pt_bitmap _ _ _ _ T1) in B2. rewrite (pt_high _ _ _ _ T1) in G2.
  rewrite (pt_free _ _ _ _ T1) in H2.
  epose proof (map_user_page d fuel k2 0 0 start m2 _ F2 ltac:(by rewrite B2) ltac:(lia)
    ltac:(unfold HIGH_WATER_THRESHOLD; lia) R1 R2 N1 A2 ltac:(lia) ltac:(lia)) as (m3 & E3 & M3).
  rewrite E3. clear E3. pose proof (mt_block _ _ _ _ _ _ M3) as F3.
  pose proof (mt_bitmap _ _ _ _ _ _ M3) as B3. pose proof (mt_free _ _ _ _ _ _ M3) as H3.
  pose proof (mt_high _ _ _ _ _ _ M3) as G3.
  epose proof (map_user_page d fuel k3 1023 767 start m3 (mret (4096 * k1)) F3
    ltac:(by rewrite B3, B2) ltac:(lia) ltac:(unfold HIGH_WATER_THRESHOLD; lia) R1 R3 N2 A3
    ltac:(lia) ltac:(lia)) as (m4 & E4 & M4).
  exists m4. split; [exact E4|].
  destruct A2 as (_ & _ & D2). unfold VMM_BLOCK_DESC_SIZE in *.
  split; [apply (mt_block _ _ _ _ _ _ M4)| | | |exact (mt_directory _ _ _ _ _ _ M4)|
    exact (mt_table _ _ _ _ _ _ M4)].
  - rewrite (mt_kept _ _ _ _ _ _ M4), (mt_kept _ _ _ _ _ _ M3);
      [apply C2; lia|..]; try owned; unfold window_page, VMM_BLOCK_DESC_SIZE in *; lia.
  - rewrite <- (mt_directory _ _ _ _ _ _ M3), Z.mul_0_r, Z.add_0_r.
    apply (mt_kept _ _ _ _ _ _ M4); try owned; unfold window_page, VMM_BLOCK_DESC_SIZE in *; lia.
  - rewrite <- (mt_table _ _ _ _ _ _ M3), Z.mul_0_r, Z.add_0_r.
    apply (mt_kept _ _ _ _ _ _ M4); try owned; unfold window_page, VMM_BLOCK_DESC_SIZE in *; lia.
Qed.
End CreateUserspace.

(** ** The new directory in CR3 *)

Definition activated (pd' : Z) (m : machine) : machine :=
  set_cpu (set_cr0 (Z.lor (cr0 (cpu m)) 0x80000000) (set_cr3 pd' (cpu m))) m.

Lemma change_page_directory pd' m :
  paging_change_page_directory pd' m = Done tt (activated pd' m).
Proof. unfold paging_change_page_directory, paging_flush_tlb. by msteps. Qed.

Lemma activated_map pd pt k1 m :
  kernel_map pd pt m → 0 <= k1 < 1024 →
  entry_maps (word_at m (window_page k1 + 4 * 768)) pt → kernel_map (4096 * k1) pt (activated (4096 * k1) m).
Proof.
  intros K R H. rewrite <- (table_word pd pt) in H by (done || lia). split.
  - apply (paging_on_set (set_cr3 (4096 * k1) (cpu m))).
  - unfold low_frame, WINDOW. split; [lia|mlia].
  - apply K.
  - cbn. rewrite PAGE_ALIGN_sub by word_lia. mlia.
  - exact H.
  - apply K.
Qed.

(** Accesses of user code through the two tables. *)
Lemma activated_user pd pt k1 k start m v :
  kernel_map pd pt m → 0 <= k1 < 1024 → 0 <= k < 1024 → word start → word v →
  kernel_map (4096 * k1) pt (activated (4096 * k1) m) →
  word_at m (window_page k1 + 4 * PAGE_DIRECTORY_INDEX v) =
    encode_entry (user_page_entry (4096 * k)) →
  word_at m (window_page k + 4 * PAGE_TABLE_INDEX v) = encode_entry (user_page_entry start) →
  user_translate (activated (4096 * k1) m) v = Some (4096 * (start / 4096) + v mod 4096).
Proof.
  intros K R1 R Hs Hv K' HD HT.
  destruct (user_page_entry_bits (4096 * k) ltac:(word_lia)) as [D1 D2].
  replace (4096 * (4096 * k / 4096)) with (4096 * k) in D1 by mlia.
  destruct (user_page_entry_bits start Hs) as [T1 T2].
  rewrite <- (table_word pd pt) in HD by (done || apply PAGE_DIRECTORY_INDEX_range).
  assert (0 <= PAGE_TABLE_INDEX v < 1024) as Ht by (rewrite PAGE_TABLE_INDEX_div by done; mlia).
  rewrite <- (table_word pd pt) in HT by done.
  assert (page_directory_entry_at (activated (4096 * k1) m) v =
    encode_entry (user_page_entry (4096 * k))) as ED.
  { rewrite <- HD. unfold page_directory_entry_at. by rewrite (km_cr3 _ _ _ K'). }
  apply (user_translate_maps _ _ (4096 * k)); rewrite ?ED; try done; [apply K'|..];
    change (mem (activated (4096 * k1) m)) with (mem m); by rewrite HT.
Qed.

(** ** Properties *)

(** C37: [paging_create_userspace] builds an address space of three pages and
    returns the physical address of its directory.  Once that is loaded, the
    kernel's window is mapped as before and the user's page 0 is the
    program's first frame; but the stack page below the kernel is mapped to
    the same frame, so the first push overwrites the program. *)
Theorem create_userspace_maps d fuel pd pt b k1 k2 k3 start m :
  first_block pd pt b m → three_pages b k1 k2 k3 m →
  page_apart pd pt b k1 → page_apart pd pt b k2 → page_apart pd pt b k3 → pd ≠ pt →
  kernel_page_directory m = pd + KERNEL_VIRT_BASE → word start →
  ∃ m' m'', paging_create_userspace (S d) (S fuel) start m = Done (4096 * k1) m' ∧
    paging_change_page_directory (4096 * k1) m' = Done tt m'' ∧
    kernel_map pd pt m' ∧ kernel_map (4096 * k1) pt m'' ∧
    (∀ i, 0 <= i < 4096 →
       user_translate m'' i = Some (4096 * (start / 4096) + i) ∧
       user_translate m'' (KERNEL_VIRT_BASE - 4096 + i) = user_translate m'' i).
Proof.
  intros F TP A1 A2 A3 Hne Hk Hs. destruct (three_pages_ne _ _ _ _ _ TP) as (R1 & R2 & R3 & _).
  destruct (create_userspace_ok pd pt b k1 k2 k3 Hne A1 A2 A3 d fuel start m F TP Hk)
    as (m' & E & [K HK PD P SD SP]).
  pose proof (activated_map pd pt k1 m' K R1 HK) as K'.
  exists m', (activated (4096 * k1) m').
  split_and!; [done|apply change_page_directory|done|done|].
  intros i Hi. assert (word i ∧ word (KERNEL_VIRT_BASE - 4096 + i)) as [W1 W2]
    by (unfold KERNEL_VIRT_BASE; split; word_lia).
  rewrite (activated_user pd pt k1 k2 start m' i),
    (activated_user pd pt k1 k3 start m' (KERNEL_VIRT_BASE - 4096 + i)); try done.
  - split; do 2 f_equal; unfold KERNEL_VIRT_BASE; mlia.
  - rewrite PAGE_DIRECTORY_INDEX_div by done.
    replace ((KERNEL_VIRT_BASE - 4096 + i) / 4194304) with 767 by (unfold KERNEL_VIRT_BASE; mlia).
    exact SD.
  - rewrite PAGE_TABLE_INDEX_div by done.
    replace ((KERNEL_VIRT_BASE - 4096 + i) / 4096 mod 1024) with 1023
      by (unfold KERNEL_VIRT_BASE; mlia).
    exact SP.
  - rewrite PAGE_DIRECTORY_INDEX_div by done. replace (i / 4194304) with 0 by mlia.
    by rewrite Z.mul_0_r, Z.add_0_r.
  - rewrite PAGE_TABLE_INDEX_div by done. replace (i / 4096 mod 1024) with 0 by mlia.
    by rewrite Z.mul_0_r, Z.add_0_r.
Qed.

Lemma kernel_ready_three_pages : three_pages 3222327144 274 275 276 kernel_ready.
Proof.
  pose proof (initial_desc_same kernel_with_vmm kernel_ready _ _ _ eq_refl eq_refl
    kernel_with_vmm_desc) as D.
  pose proof (id_bits _ _ _ _ D) as B. change (32 * (274 / 32 + 1)) with 288 in B.
  split; [exact kernel_ready_pages| |by rewrite (id_free _ _ _ _ D)|done].
  apply scan_first; [rewrite !length_set_page, desc_bitmap_length; lia| |].
  - rewrite !bit_of_set_page by (rewrite ?length_set_page, ?desc_bitmap_length; lia).
    by rewrite B by lia.
  - intros i Hi. rewrite !bit_of_set_page by (rewrite ?length_set_page, ?desc_bitmap_length; lia).
    rewrite B by lia.
    destruct (Z.eqb_spec i 275), (Z.eqb_spec i 274), (Z.ltb_spec i 274); try done; lia.
Qed.

Lemma create_userspace_maps_witness :
  ∃ m' m'', paging_create_userspace 1 1 1142784 kernel_ready = Done 1122304 m' ∧
    paging_change_page_directory 1122304 m' = Done tt m'' ∧
    kernel_map 1114112 1118208 m' ∧ kernel_map 1122304 1118208 m'' ∧
    (∀ i, 0 <= i < 4096 →
       user_translate m'' i = Some (1142784 + i) ∧
       user_translate m'' (KERNEL_VIRT_BASE - 4096 + i) = user_translate m'' i).
Proof.
  apply (create_userspace_maps 0 0 1114112 1118208 3222327144 274 275 276 1142784 kernel_ready
    kernel_ready_block kernel_ready_three_pages).
  - split_and!; [done|done|by left].
  - split_and!; [done|done|by left].
  - split_and!; [done|done|by left].
  - done.
  - reflexivity.
  - done.
Defined.
