(* ===== verification/Task.v ===== *)
(** * Tasks: kernel/task/task.c, scheduler.c and task_switch.asm

    Task structures and the frames of their saved registers are in memory.
    [task_switch_asm] does not return: the outcome is [Stop (Iret c)] with
    the registers it loads. *)

From S2P Require Import Prelude Machine Tty Memory Cstring Gdt Pic Kmalloc Vmm.

(** ** struct task and struct trapframe *)

Definition TASK_SIZEOF : Z := 40.
Definition TRAPFRAME_SIZEOF : Z := 64.

Definition trapframe (t : Z) : M Z := ld32 (t + 4).
Definition set_trapframe (t v : Z) : M unit := st32 (t + 4) v.
Definition set_page_directory_phys (t v : Z) : M unit := st32 (t + 8) v.
Definition pid (t : Z) : M Z := ld32 (t + 12).
Definition set_pid (t v : Z) : M unit := st32 (t + 12) v.
Definition is_user (t : Z) : M bool := b ← ld8 (t + 16); mret (negb (b =? 0)).
Definition set_is_user (t : Z) (b : bool) : M unit := st8 (t + 16) (Z.b2z b).
Definition kernel_stack_base (t : Z) : M Z := ld32 (t + 24).
Definition set_kernel_stack_base (t v : Z) : M unit := st32 (t + 24) v.
Definition next_task (t : Z) : M Z := ld32 (t + 36).
Definition set_next_task (t v : Z) : M unit := st32 (t + 36) v.

(** Offsets in a trapframe. *)
Definition TF_DS : Z := 0.
Definition TF_EDI : Z := 4.
Definition TF_ESI : Z := 8.
Definition TF_EBP : Z := 12.
Definition TF_BS_ESP : Z := 16.
Definition TF_EBX : Z := 20.
Definition TF_EDX : Z := 24.
Definition TF_ECX : Z := 28.
Definition TF_EAX : Z := 32.
Definition TF_INT_NUMBER : Z := 36.
Definition TF_ERROR_CODE : Z := 40.
Definition TF_EIP : Z := 44.
Definition TF_CS : Z := 48.
Definition TF_EFLAGS : Z := 52.
Definition TF_ESP : Z := 56.
Definition TF_SS : Z := 60.

(** [new_task->trapframe->field = v] *)
Definition set_tf (t field v : Z) : M unit :=
  tf ← trapframe t; st32 (tf + field) v.

(** ** task.c *)

Definition task_update_trapframe (tf : Z) : M unit :=
  current ← gets_tasks current_task;
  when (negb (current =? 0)) (set_trapframe current tf).

(** One round of the endless loop of [task_test]; the argument and the result
    are its local [previous_tick]. *)
Definition task_test_round (previous_tick : Z) : M Z :=
  tick ← pic_get_tick;
  if previous_tick [+] 2 <=? tick then
    kprintf (chars "Task_test: %d (SWITCHING TASK)" ++ [NL]) [VaInt tick];;
    mret tick
  else mret previous_tick.

(** [n] rounds of it, from the start. *)
Fixpoint task_test_loop (n : nat) (previous_tick : Z) : M Z :=
  match n with
  | O => mret previous_tick
  | S n' => previous_tick ← task_test_round previous_tick; task_test_loop n' previous_tick
  end.

Definition task_test (n : nat) : M Z := task_test_loop n 0.

Definition task_userspace : M unit := halt_with Spin.

(** The end of both creation functions. *)
Definition task_append (new_task : Z) : M unit :=
  tail ← gets_tasks task_list_tail;
  when (negb (tail =? 0))
    (tail_pid ← pid tail;
     set_pid new_task (tail_pid [+] 1);;
     set_next_task tail new_task);;
  mod_tasks (set_task_list_tail new_task).

Section Create.
Context `{L : Layout} (depth fuel : nat).

Definition task_init : M unit :=
  boot_task ← kmalloc depth fuel TASK_SIZEOF;
  set_pid boot_task 0;;
  set_next_task boot_task boot_task;;
  kpd ← gets kernel_page_directory;
  set_page_directory_phys boot_task kpd;;
  mod_tasks (set_current_task boot_task);;
  mod_tasks (set_task_list_head boot_task);;
  mod_tasks (set_task_list_tail boot_task).

Definition task_create_kernel : M unit :=
  new_task ← kmalloc depth fuel TASK_SIZEOF;
  head ← gets_tasks task_list_head;
  set_next_task new_task head;;
  kpd ← gets kernel_page_directory;
  set_page_directory_phys new_task kpd;;
  alloc_stack ← vmm_alloc_page depth fuel;
  memset alloc_stack 0 PAGE_SIZE;;
  set_kernel_stack_base new_task (alloc_stack [+] PAGE_SIZE);;
  base ← kernel_stack_base new_task;
  set_trapframe new_task (base [-] (TRAPFRAME_SIZEOF - 8));;
  set_tf new_task TF_EIP task_test_addr;;
  set_tf new_task TF_EFLAGS 0x2;;
  set_tf new_task TF_CS GDT_KERNEL_CODE_SEG;;
  set_tf new_task TF_DS GDT_KERNEL_DATA_SEG;;
  task_append new_task.

Definition task_create_user : M unit :=
  new_task ← kmalloc depth fuel TASK_SIZEOF;
  set_is_user new_task true;;
  head ← gets_tasks task_list_head;
  set_next_task new_task head;;
  stack ← vmm_alloc_page depth fuel;
  set_kernel_stack_base new_task (stack [+] PAGE_SIZE);;
  base ← kernel_stack_base new_task;
  memset (base [-] PAGE_SIZE) 0 PAGE_SIZE;;
  base ← kernel_stack_base new_task;
  set_trapframe new_task (base [-] TRAPFRAME_SIZEOF);;
  set_tf new_task TF_EIP task_userspace_addr;;
  set_tf new_task TF_EFLAGS 0x2;;
  set_tf new_task TF_CS GDT_USER_CODE_SEG;;
  set_tf new_task TF_DS GDT_USER_DATA_SEG;;
  set_tf new_task TF_SS GDT_USER_DATA_SEG;;
  set_tf new_task TF_ESP KERNEL_VIRT_BASE;;
  task_append new_task.
End Create.

(** ** task_switch.asm *)

(** [iret] at a stack that holds EIP, CS, EFLAGS and, for a return to
    ring 3, ESP and SS; [ds] and the general registers as loaded before. *)
Definition iret_with (esp : Z) (regs : Z → Z → Z → option (Z * Z) → context) : M unit :=
  eip ← ld32 esp;
  cs ← ld32 (esp + 4);
  eflags ← ld32 (esp + 8);
  user ← (if Z.land cs 3 =? 3 then
            uesp ← ld32 (esp + 12);
            ss ← ld32 (esp + 16);
            mret (Some (uesp, u16 ss))
          else mret None);
  mod_cpu (set_eflags_if (Z.testbit eflags 9));;
  halt_with (Iret (regs eip (u16 cs) eflags user)).

(** [pop ds; popad] *)
Definition pop_registers (esp : Z) : M (Z → Z → Z → option (Z * Z) → context) :=
  ds ← ld32 (esp + TF_DS);
  edi ← ld32 (esp + TF_EDI);
  esi ← ld32 (esp + TF_ESI);
  ebp ← ld32 (esp + TF_EBP);
  ebx ← ld32 (esp + TF_EBX);
  edx ← ld32 (esp + TF_EDX);
  ecx ← ld32 (esp + TF_ECX);
  eax ← ld32 (esp + TF_EAX);
  mret (Context (u16 ds) edi esi ebp ebx edx ecx eax).

Definition task_switch_asm (next : Z) : M unit :=
  cli;;
  mod_tasks (set_current_task next);;
  esp ← trapframe next;
  regs ← pop_registers esp;
  eflags ← ld32 (esp + TF_EIP + 8);
  st32 (esp + TF_EIP + 8) (Z.lor eflags 0x200);;
  iret_with (esp + TF_EIP) regs.

(** ** scheduler.c *)

Definition scheduler_init : M unit := mod_tasks (set_scheduler_initialized true).

(** The second test of the guard reads [current_task->next_task]. *)
Definition scheduler : M unit :=
  init ← gets_tasks scheduler_initialized;
  if negb init then mret tt
  else
    current ← gets_tasks current_task;
    if current =? 0 then mret tt
    else
      next ← next_task current;
      if next =? 0 then mret tt
      else
        next ← next_task current;
        user ← is_user next;
        when user
          (base ← kernel_stack_base next;
           gdt_update_tss base);;
        next ← next_task current;
        task_switch_asm next.

(** ** Frames *)

(** Does [cs] name ring 3? *)
Definition ring3 (cs : Z) : bool := Z.land cs 3 =? 3.

(** The registers a frame holds. *)
Definition frame_context (m : machine) (tf : Z) : context :=
  Context (u16 (word_at m (tf + TF_DS)))
    (word_at m (tf + TF_EDI)) (word_at m (tf + TF_ESI)) (word_at m (tf + TF_EBP))
    (word_at m (tf + TF_EBX)) (word_at m (tf + TF_EDX)) (word_at m (tf + TF_ECX))
    (word_at m (tf + TF_EAX)) (word_at m (tf + TF_EIP)) (u16 (word_at m (tf + TF_CS)))
    (word_at m (tf + TF_EFLAGS))
    (if ring3 (word_at m (tf + TF_CS))
     then Some (word_at m (tf + TF_ESP), u16 (word_at m (tf + TF_SS))) else None).

(** The bytes of a frame: a kernel task's frame has no ESP and SS. *)
Definition frame_size (m : machine) (tf : Z) : Z :=
  if ring3 (word_at m (tf + TF_CS)) then 64 else 56.

Lemma frame_size_bounds m tf : 56 <= frame_size m tf <= 64.
Proof. unfold frame_size. destruct (ring3 _); lia. Qed.

(** The context with interrupts on. *)
Definition interrupts_on (c : context) : context :=
  Context (ctx_ds c) (ctx_edi c) (ctx_esi c) (ctx_ebp c) (ctx_ebx c) (ctx_edx c)
    (ctx_ecx c) (ctx_eax c) (ctx_eip c) (ctx_cs c) (Z.lor (ctx_eflags c) 0x200)
    (ctx_user_stack c).

Lemma lor_if_bit x : Z.testbit (Z.lor x 0x200) 9 = true.
Proof. rewrite Z.lor_spec. by rewrite orb_true_r. Qed.

Lemma word_lor_if x : word x → word (Z.lor x 0x200).
Proof. intros H. by apply word_lor. Qed.

(** Memory, the tasks' globals and the interrupt flag may differ. *)
Definition switched (m m' : machine) : Prop :=
  m' = set_cpu (set_eflags_if (eflags_if (cpu m')) (cpu m))
         (set_tasks (tasks m') (set_gdt (gdt m') (set_mem (mem m') m))).

Section Switch.
Context {I : machine → Prop} {owns : Z → Prop} `{HR : !Region I owns}.

Lemma pop_registers_ok m tf :
  I m → owns_range owns tf 56 →
  pop_registers tf m = Done (Context (u16 (word_at m (tf + TF_DS)))
    (word_at m (tf + TF_EDI)) (word_at m (tf + TF_ESI)) (word_at m (tf + TF_EBP))
    (word_at m (tf + TF_EBX)) (word_at m (tf + TF_EDX)) (word_at m (tf + TF_ECX))
    (word_at m (tf + TF_EAX))) m.
Proof.
  intros HI Ho. unfold pop_registers, TF_DS, TF_EDI, TF_ESI, TF_EBP, TF_EBX, TF_EDX,
    TF_ECX, TF_EAX. load. load. load. load. load. load. load. load. done.
Qed.

Lemma iret_ok m esp regs :
  I m → owns_range owns esp (if ring3 (word_at m (esp + 4)) then 20 else 12) →
  iret_with esp regs m =
    Stop (Iret (regs (word_at m esp) (u16 (word_at m (esp + 4))) (word_at m (esp + 8))
      (if ring3 (word_at m (esp + 4))
       then Some (word_at m (esp + 12), u16 (word_at m (esp + 16))) else None)))
      (set_cpu (set_eflags_if (Z.testbit (word_at m (esp + 8)) 9) (cpu m)) m).
Proof.
  intros HI Ho. assert (owns_range owns esp 12) as Ho'
    by (destruct (ring3 _); [owned|done]).
  unfold iret_with. load. load. load. unfold ring3 in *.
  destruct (Z.land (word_at m (esp + 4)) 3 =? 3).
  - rewrite !bind_assoc. load. rewrite bind_assoc. load. msteps. done.
  - msteps. done.
Qed.

(** [task_switch_asm] resumes what the frame of [next] holds. *)
Lemma task_switch_ok m n tf :
  I m → owns_range owns n TASK_SIZEOF → word_at m (n + 4) = tf →
  owns_range owns tf (frame_size m tf) →
  ∃ m', task_switch_asm n m = Stop (Iret (interrupts_on (frame_context m tf))) m' ∧
    I m' ∧ switched m m' ∧ gdt m' = gdt m ∧
    tasks m' = set_current_task n (tasks m) ∧ eflags_if (cpu m') = true ∧
    keeps (owns := owns) m m' (tf + 52) 4.
Proof.
  intros HI Hn Ht Ho. unfold TASK_SIZEOF in Hn.
  assert (owns_range owns tf 56) as Ho56
    by (unfold frame_size in Ho; destruct (ring3 _); [owned|done]).
  unfold task_switch_asm, cli, trapframe, TF_EIP. msteps.
  set (m0 := set_tasks _ _).
  assert (I m0) as K0.
  { apply (region_same (set_cpu (set_eflags_if false (cpu m)) m)); [done|done|].
    by apply region_flag. }
  assert (∀ a, byte_at m0 a = byte_at m a) as Hb0 by (intros; by apply byte_at_regs).
  assert (∀ a, word_at m0 a = word_at m a) as Hw0 by (intros; by apply word_at_regs).
  load. rewrite Hw0, Ht. run (pop_registers_ok m0 tf K0 Ho56). load.
  replace (tf + 44 + 8) with (tf + 52) by lia. store m1 K1 V1 W1. rewrite !Hw0 in *.
  assert (∀ a, owns_range owns a 4 → a + 4 <= tf + 52 ∨ tf + 56 <= a →
    word_at m1 a = word_at m a) as Hw1.
  { intros a Ha Hd. rewrite <- Hw0. apply (writes_only_word_at _ _ _ _ _ W1); [done|lia]. }
  rewrite u32_small in V1 by (apply word_lor_if; auto with words).
  assert (word_at m1 (tf + 44 + 4) = word_at m (tf + TF_CS)) as Ecs.
  { unfold TF_CS. rewrite <- Z.add_assoc. apply Hw1; [owned|lia]. }
  assert (owns_range owns (tf + 44) (if ring3 (word_at m1 (tf + 44 + 4)) then 20 else 12))
    as Hr.
  { rewrite Ecs. unfold frame_size in Ho. destruct (ring3 _); owned. }
  rewrite (iret_ok m1 (tf + 44) _ K1 Hr), Ecs.
  replace (tf + 44 + 8) with (tf + 52) by lia. replace (tf + 44 + 12) with (tf + 56) by lia.
  replace (tf + 44 + 16) with (tf + 60) by lia. rewrite V1, (Hw1 (tf + 44)) by (owned || lia).
  eexists. split; [f_equal|].
  - unfold interrupts_on, frame_context, frame_size in *. f_equal.
    cbn [ctx_ds ctx_edi ctx_esi ctx_ebp ctx_ebx ctx_edx ctx_ecx ctx_eax ctx_eip ctx_cs
      ctx_eflags ctx_user_stack]. f_equal.
    destruct (ring3 _); [|done]. unfold TF_ESP, TF_SS. by rewrite !Hw1 by (owned || lia).
  - rewrite lor_if_bit. pose proof (proj1 W1) as OM.
    split_and!; [by apply region_flag| | | |done|].
    + unfold switched. rewrite OM. done.
    + by rewrite OM.
    + by rewrite OM.
    + intros w Hw Hd. rewrite <- (Hb0 w), <- (proj2 W1 w Hw Hd). by apply byte_at_regs.
Qed.

(** What the scheduler does to the task-state segment before it resumes [n]. *)
Definition tss_for (m : machine) (n : Z) : gdt_state :=
  if byte_at m (n + 16) =? 0 then gdt m
  else set_tss_region (set_tss_esp0 (word_at m (n + 24)) (tss_region (gdt m))) (gdt m).

Lemma is_user_ok m n :
  I m → owns (n + 16) → is_user n m = Done (negb (byte_at m (n + 16) =? 0)) m.
Proof. intros HI Ho. unfold is_user. by run (ld8_ok (I := I) (owns := owns) m (n + 16) HI Ho). Qed.

(** The scheduler resumes the successor of the current task. *)
Lemma scheduler_ok m cur n tf :
  I m → scheduler_initialized (tasks m) = true → current_task (tasks m) = cur → cur ≠ 0 →
  owns_range owns cur TASK_SIZEOF → word_at m (cur + 36) = n → n ≠ 0 →
  owns_range owns n TASK_SIZEOF → word_at m (n + 4) = tf →
  owns_range owns tf (frame_size m tf) →
  ∃ m', scheduler m = Stop (Iret (interrupts_on (frame_context m tf))) m' ∧
    I m' ∧ switched m m' ∧ gdt m' = tss_for m n ∧
    tasks m' = set_current_task n (tasks m) ∧ eflags_if (cpu m') = true ∧
    keeps (owns := owns) m m' (tf + 52) 4.
Proof.
  intros HI Hin Hc Hc0 Oc Hn Hn0 On Ht Of. unfold TASK_SIZEOF in Oc, On.
  unfold scheduler. msteps. rewrite Hin. cbn [negb]. msteps. rewrite Hc.
  destruct (Z.eqb_spec cur 0); [done|]. unfold next_task. load. rewrite Hn.
  destruct (Z.eqb_spec n 0); [done|]. load. rewrite Hn.
  run (is_user_ok m n HI ltac:(owned)).
  assert (∃ m1, when (negb (byte_at m (n + 16) =? 0))
      (base ← kernel_stack_base n; gdt_update_tss base) m = Done tt m1 ∧
      m1 = set_gdt (tss_for m n) m) as (m1 & E1 & M1).
  { unfold tss_for. destruct (byte_at m (n + 16) =? 0); cbn [negb when].
    - exists m. split; [done|by destruct m].
    - eexists. split; [|reflexivity]. unfold kernel_stack_base. load.
      reflexivity. }
  run E1. assert (I m1) as K1 by (subst; by apply (region_same m)).
  assert (∀ a, byte_at m1 a = byte_at m a) as Hb by (intros; subst; by apply byte_at_regs).
  assert (∀ a, word_at m1 a = word_at m a) as Hw by (intros; subst; by apply word_at_regs).
  load. rewrite Hw, Hn.
  assert (frame_context m1 tf = frame_context m tf) as Ef
    by (unfold frame_context; by rewrite !Hw).
  destruct (task_switch_ok m1 n tf K1) as (m2 & E2 & K2 & S2 & G2 & T2 & F2 & B2);
    [done|by rewrite Hw|unfold frame_size; rewrite Hw; exact Of|].
  exists m2. rewrite E2, Ef. split_and!; [done|done| | | |done|].
  - unfold switched in *. rewrite S2 at 1. by rewrite M1.
  - by rewrite G2, M1.
  - by rewrite T2, M1.
  - intros w Hw' Hd. by rewrite <- (Hb w), <- (B2 w Hw' Hd).
Qed.
End Switch.

(** The scheduler does nothing before [scheduler_init] or without a task. *)
Lemma scheduler_idle m :
  scheduler_initialized (tasks m) = false ∨ current_task (tasks m) = 0 →
  scheduler m = Done tt m.
Proof.
  intros H. unfold scheduler. msteps.
  destruct (scheduler_initialized (tasks m)); cbn [negb]; [|done]. msteps.
  destruct H as [|H]; [done|]. by rewrite H.
Qed.
