(* ===== verification/Kshell.v ===== *)
(** * The console: kernel/terminal/kshell.c

    The line being edited is a local array of [kshell]; its functions take
    and return it.  [kshell_step] is one round of the endless loop. *)

From S2P Require Import Prelude Machine Tty Cstring Ctype Keyboard Pic.

(** ** The commands *)

Inductive command : Type :=
| cmd_help
| cmd_clear
| cmd_exit
| cmd_demo
| cmd_amogus
| cmd_print_tick
| cmd_reboot.

#[export] Instance command_eq_dec : EqDecision command.
Proof. solve_decision. Defined.

Record shell_command : Type := ShellCommand {
  sc_name : list Z;
  sc_msg : list Z;
  sc_cmd : command
}.

Definition commands : list shell_command :=
  [ ShellCommand (chars "help") (chars "prints this message") cmd_help;
    ShellCommand (chars "clear") (chars "clears the screen") cmd_clear;
    ShellCommand (chars "exit") (chars "exit the console") cmd_exit;
    ShellCommand (chars "demo") (chars "run a demo") cmd_demo;
    ShellCommand (chars "amogus") (chars "sus") cmd_amogus;
    ShellCommand (chars "tick") (chars "print timer tick") cmd_print_tick;
    ShellCommand (chars "reboot") (chars "reboot computer") cmd_reboot ].

Definition amogus : list Z :=
  chars "   ###            " ++ [NL] ++
  chars "  ##--            " ++ [NL] ++
  chars "==##---         ==" ++ [NL] ++
  chars "==##---      $  ==" ++ [NL] ++
  chars "==#####      $  ==" ++ [NL] ++
  chars "==#####    #####==" ++ [NL] ++
  chars "  ## ##    ## ##  " ++ [NL] ++
  chars "  ## ##    ## ##  " ++ [NL].

Fixpoint print_commands (cs : list shell_command) : M unit :=
  match cs with
  | [] => mret tt
  | c :: cs' =>
      tty_putc TAB;;
      tty_printstr (sc_name c);;
      tty_printstr [TAB];;
      tty_printstr (sc_msg c);;
      tty_putc NL;;
      print_commands cs'
  end.

Definition KBRD_INTRFC : Z := 0x64.
Definition KBRD_RESET : Z := 0xFE.

(** The body of a command. *)
Definition run_command (c : command) : M bool :=
  match c with
  | cmd_help => print_commands commands;; mret true
  | cmd_clear => tty_clear;; mret true
  | cmd_exit => tty_printstr (chars "    done!" ++ [NL]);; halt_with Spin
  | cmd_demo => tty_printstr (chars "demo" ++ [NL]);; mret true
  | cmd_amogus => tty_printstr amogus;; mret true
  | cmd_print_tick =>
      t ← pic_get_tick;
      kprintf (chars "Tick: %u" ++ [NL]) [VaInt t];;
      mret true
  | cmd_reboot => outb KBRD_INTRFC KBRD_RESET;; mret true
  end.

Definition command_start : M unit := tty_printstr (chars "$> ").

(** ** command_run *)

Definition CMD_SIZEOF : Z := 1024.

(** The loop that strips white space; the array is the 1024 bytes of [cmd]. *)
Fixpoint strip_command (fuel : nat) (cmd : list Z) (len : Z) : M (list Z * Z) :=
  match fuel with
  | O => halt_with OutOfFuel
  | S fuel' =>
      c ← array_get cmd (len [-] 1);
      if truth (isspace (schar c)) then mret (cmd, len)
      else
        cmd' ← array_set cmd (len [-] 1) 0;
        strip_command fuel' cmd' (len [-] 1)
  end.

Fixpoint find_command (cs : list shell_command) (cmd : list Z) : M (option command) :=
  match cs with
  | [] => mret None
  | c :: cs' =>
      d ← strcmp 1025 (array_reader (sc_name c ++ [0])) (array_reader cmd);
      if d =? 0 then mret (Some (sc_cmd c)) else find_command cs' cmd
  end.

(** Returns the array: the caller sees the stripped command. *)
Definition command_run (cmd : list Z) (len : Z) : M (list Z) :=
  '(cmd, len) ← strip_command 1025 cmd len;
  run_cmd ← find_command commands cmd;
  match run_cmd with
  | Some c => run_command c;; mret cmd
  | None =>
      tty_printstr (chars "Unknown command '");;
      tty_write cmd len;;
      tty_printstr (chars "'" ++ [NL]);;
      mret cmd
  end.

(** ** kshell *)

(** The locals of [kshell]. *)
Record shell : Type := Shell {
  cmd : list Z;
  cmd_len : Z
}.

Definition shell_start : shell := Shell (replicate 1024 0) 0.

(** The branches on the key that was read. *)
Definition shell_key (s : shell) (c : Z) : M shell :=
  if (c =? KEY_BACKSPACE) && (0 <? cmd_len s) then
    kb_get_key_null;;
    cmd' ← array_set (cmd s) (cmd_len s [-] 1) 0;
    tty_deleteprev;;
    mret (Shell cmd' (cmd_len s [-] 1))
  else if c =? KEY_ENTER then
    tty_putc NL;;
    command_run (cmd s) (cmd_len s);;
    (* memset(cmd, '\0', sizeof(cmd)) *)
    let cmd' := replicate (Z.to_nat CMD_SIZEOF) 0 in
    command_start;;
    mret (Shell cmd' 0)
  else if negb (truth (isprint c)) || negb (truth (isspace c)) then
    if CMD_SIZEOF <=? cmd_len s then mret s
    else
      cmd' ← array_set (cmd s) (cmd_len s) (u8 c);
      tty_putc c;;
      mret (Shell cmd' (cmd_len s [+] 1))
  else mret s.

Definition kshell_step (s : shell) : M shell :=
  halt;;
  got ← kb_get_key;
  match got with
  | None => mret s
  | Some k => shell_key s (key_code k)
  end.

(** [n] rounds of the loop. *)
Fixpoint kshell_loop (n : nat) (s : shell) : M shell :=
  match n with
  | O => mret s
  | S n' => s' ← kshell_step s; kshell_loop n' s'
  end.

(** The function never returns; the model runs [n] rounds. *)
Definition kshell (n : nat) : M shell :=
  kprintf ([NL] ++ chars "Welcome to AOSIS: Run 'help' to get started!" ++ [NL]) [];;
  command_start;;
  kshell_loop n shell_start.

(** ** The line being edited *)

(** The characters a line can hold. *)
Definition line_char (c : Z) : bool := printing c || white_space c.

(** The array holds [line] and zeros. *)
Record shell_ok (s : shell) (line : list Z) : Prop := {
  so_cmd : cmd s = line ++ replicate (1024 - length line) 0;
  so_len : cmd_len s = Z.of_nat (length line);
  so_room : (length line <= 1024)%nat;
  so_chars : Forall (λ c, line_char c = true) line
}.

Lemma shell_start_ok : shell_ok shell_start [].
Proof. by split; simpl; [| |lia|]. Qed.

(** [line] without the white space at its end. *)
Fixpoint trim (line : list Z) : list Z :=
  match line with
  | [] => []
  | c :: line' =>
      match trim line' with
      | [] => if white_space c then [] else [c]
      | t => c :: t
      end
  end.

Lemma trim_snoc line c :
  trim (line ++ [c]) = if white_space c then trim line else line ++ [c].
Proof.
  induction line as [|d line IH]; simpl; [by destruct (white_space c)|].
  rewrite IH. destruct (white_space c); [done|]. by destruct line.
Qed.

Lemma trim_length line : (length (trim line) <= length line)%nat.
Proof.
  induction line as [|c line IH]; simpl; [lia|].
  destruct (trim line); simpl in *; [case_match; simpl; lia|lia].
Qed.

Lemma trim_chars (P : Z → Prop) line : Forall P line → Forall P (trim line).
Proof.
  induction 1 as [|c line Hc Hl IH]; [constructor|]. simpl.
  destruct (trim line); [case_match; by repeat constructor|by constructor].
Qed.

Lemma line_char_range c : line_char c = true → 0 < c < 128.
Proof. unfold line_char, printing, white_space. lia. Qed.

Lemma isspace_truth c : truth (isspace c) = negb (white_space c).
Proof. unfold isspace, truth, white_space. repeat case_match; try done; lia. Qed.

Lemma isprint_truth c : truth (isprint c) = negb (printing c).
Proof. unfold isprint, truth, printing. repeat case_match; try done; lia. Qed.

Lemma insert_last (line : list Z) c x rest :
  <[length line := x]> (line ++ c :: rest) = line ++ x :: rest.
Proof. by rewrite insert_app_r_alt, Nat.sub_diag by done. Qed.

Lemma replicate_front n : 0 :: replicate n 0 = replicate (S n) (0 : Z).
Proof. done. Qed.

(** One round of the stripping loop looks at the last character. *)
Lemma strip_round fuel line c n m :
  line_char c = true → (length line < 1024)%nat →
  strip_command (S fuel) (line ++ c :: replicate n 0) (Z.of_nat (length (line ++ [c]))) m =
    if white_space c
    then strip_command fuel (line ++ replicate (S n) 0) (Z.of_nat (length line)) m
    else Done (line ++ c :: replicate n 0, Z.of_nat (length (line ++ [c]))) m.
Proof.
  intros Hc Hl. apply line_char_range in Hc as Hr. rewrite length_app. simpl length.
  cbn [strip_command].
  assert (u32 (Z.of_nat (length line + 1) - 1) = Z.of_nat (length line)) as ->
    by (rewrite u32_small by word_lia; lia).
  assert ((line ++ c :: replicate n 0) !! Z.to_nat (Z.of_nat (length line)) = Some c) as Hx.
  { rewrite Nat2Z.id, lookup_app_r, Nat.sub_diag by done. done. }
  run (array_get_lookup _ _ _ m (Nat2Z.is_nonneg (length line)) Hx).
  assert (schar c = c) as -> by (unfold schar; destruct (Z.ltb_spec c 128); lia).
  rewrite isspace_truth. destruct (white_space c); [|done]. cbn [negb].
  assert (0 <= Z.of_nat (length line) < Z.of_nat (length (line ++ c :: replicate n 0))) as Hi
    by (rewrite length_app; simpl; lia).
  run (array_set_insert _ _ 0 m Hi). by rewrite Nat2Z.id, insert_last.
Qed.

Lemma array_get_outside {A} (l : list A) i m :
  Z.of_nat (length l) <= i → array_get l i m = Stop OutOfBounds m.
Proof.
  intros Hi. unfold array_get. destruct (decide (0 <= i)); [|done].
  by rewrite lookup_ge_None_2 by lia.
Qed.

(** The loop leaves the trimmed line and zeros, or runs off the front. *)
Lemma strip_command_ok fuel line n m :
  Forall (λ c, line_char c = true) line → (length line + n <= 1024)%nat →
  (length line < fuel)%nat →
  strip_command fuel (line ++ replicate n 0) (Z.of_nat (length line)) m =
    match trim line with
    | [] => Stop OutOfBounds m
    | t => Done (t ++ replicate (n + (length line - length t)) 0, Z.of_nat (length t)) m
    end.
Proof.
  revert fuel n. induction line as [|c line IH] using rev_ind; intros fuel n Hc Hl Hf.
  - destruct fuel; [simpl in Hf; lia|]. simpl in Hl. cbn [strip_command app length trim].
    change (u32 (Z.of_nat 0 - 1)) with 4294967295.
    apply bind_stop, array_get_outside. rewrite length_replicate. lia.
  - rewrite length_app in Hl, Hf. cbn [length] in Hl, Hf. destruct fuel as [|fuel]; [lia|].
    apply Forall_app in Hc as [Hc [Hc1 _]%Forall_cons]. rewrite <- app_assoc. simpl app.
    rewrite strip_round by (done || lia). rewrite trim_snoc.
    destruct (white_space c).
    + rewrite IH by (done || lia). pose proof (trim_length line). rewrite length_app. simpl.
      destruct (trim line) as [|d t]; [done|]. cbn [length] in *. cbv zeta.
      by replace (n + (length line + 1 - S (length t)))%nat
        with (S n + (length line - S (length t)))%nat by lia.
    + destruct (line ++ [c]) as [|d t] eqn:E; [by destruct line|]. cbv zeta.
      change (line ++ c :: replicate n 0) with (line ++ [c] ++ replicate n 0).
      by rewrite app_assoc, E, Nat.sub_diag, Nat.add_0_r.
Qed.

(** ** Looking a command up *)

Definition lookup_command (cs : list shell_command) (w : list Z) : option command :=
  sc_cmd <$> (snd <$> list_find (λ c, sc_name c = w) cs).

Lemma lookup_command_cons c cs w :
  lookup_command (c :: cs) w =
    if decide (sc_name c = w) then Some (sc_cmd c) else lookup_command cs w.
Proof.
  unfold lookup_command. simpl. case_decide; [done|].
  by destruct (list_find _ cs) as [[]|].
Qed.

(** A line that fills the array has no terminator; the names have. *)
Lemma find_command_ok cs w n m :
  Forall byte_char w → (1024 <= length w + n)%nat →
  Forall (λ c, Forall byte_char (sc_name c) ∧ (length (sc_name c) < 1024)%nat) cs →
  find_command cs (w ++ replicate n 0) m = Done (lookup_command cs w) m.
Proof.
  intros Hw Hn. induction 1 as [|c cs [Hc Hl] Hcs IH]; [done|]. cbn [find_command].
  assert (∃ d, strcmp 1025 (array_reader (sc_name c ++ [0])) (array_reader (w ++ replicate n 0)) m
    = Done d m ∧ (d = 0 ↔ sc_name c = w)) as (d & E & H0).
  { assert (∃ d, strcmp_list (sc_name c ++ [0]) (w ++ replicate n 0) = Some d ∧
      (d = 0 ↔ sc_name c = w)) as (d & Hd & H0).
    { destruct n as [|n].
      - rewrite app_nil_r. destruct (strcmp_list_longer (sc_name c) w [] Hc Hw) as (d & Hd & H0);
          [lia|]. exists d. split; [done|]. split; [done|]. intros <-. lia.
      - destruct (strcmp_list_strings (sc_name c) w [] (replicate n 0) Hc Hw) as (d & Hd & Hdiff).
        exists d. split; [done|by apply first_difference_0]. }
    exists d. split; [|done]. eapply strcmp_loop_ok; [exact Hd| |apply array_reader_reads..].
    rewrite length_app. simpl. lia. }
  run E. rewrite lookup_command_cons.
  destruct (Z.eqb_spec d 0); case_decide; try done; tauto.
Qed.

Lemma commands_ok :
  Forall (λ c, Forall byte_char (sc_name c) ∧ (length (sc_name c) < 1024)%nat) commands.
Proof.
  repeat (apply Forall_cons_2; [split; [by repeat constructor|simpl; lia]|]). constructor.
Qed.

(** ** The editor, abstractly *)

Definition screen_erase (t : tty_state) : tty_state :=
  if (tty_xpos t =? 0) && (tty_ypos t =? 0) then t else screen_deleteprev t.

(** What the user sees: the line, the keys typed ahead and the screen. *)
Record console : Type := Console {
  con_line : list Z;
  con_keys : list key;
  con_screen : tty_state
}.

Definition fits (line : list Z) : bool := Z.of_nat (length line) <? CMD_SIZEOF.

(** One key other than Enter.  An effective backspace swallows the next key
    as well. *)
Definition edit (c : console) : console :=
  match con_keys c with
  | [] => c
  | k :: q =>
      let line := con_line c in
      let code := key_code k in
      if code =? KEY_BACKSPACE then
        match line with
        | [] => Console line q (con_screen c)
        | _ => Console (removelast line) (drop 1 q) (screen_erase (con_screen c))
        end
      else if line_char code && fits line
      then Console (line ++ [code]) q (screen_putc code (con_screen c))
      else Console line q (con_screen c)
  end.

(** The locals [s] and the machine implement [c]. *)
Record shows (s : shell) (m : machine) (c : console) : Prop := {
  sh_line : shell_ok s (con_line c);
  sh_ring : kb_ok (keyboard m);
  sh_keys : kb_queue (keyboard m) = con_keys c;
  sh_screen : tty m = con_screen c;
  sh_tty : tty_ok (tty m)
}.

(** Nothing but the screen, the ports and the pending keys differs. *)
Definition only_console (m m' : machine) : Prop :=
  m' = set_keyboard (keyboard m') (set_ports (ports m') (set_tty (tty m') m)) ∧
  kb_state (keyboard m') = kb_state (keyboard m).

#[export] Instance only_console_preorder : PreOrder only_console.
Proof.
  unfold only_console. split; [by intros []|].
  intros m1 m2 m3 [H1 K1] [H2 K2]. split; [rewrite H2 at 1; by rewrite H1|by rewrite K2].
Qed.

Lemma only_console_terminal m m' : only_terminal m m' → only_console m m'.
Proof. unfold only_console. intros [H _]. rewrite H. by destruct m. Qed.

Lemma only_console_keyboard k m :
  kb_state k = kb_state (keyboard m) → only_console m (set_keyboard k m).
Proof. unfold only_console. by destruct m. Qed.

Lemma only_console_outb p b m m' : outb p b m = Done tt m' → only_console m m'.
Proof. intros [= <-]. unfold only_console. by destruct m. Qed.

Lemma kb_get_key_null_ok m :
  kb_ok (keyboard m) →
  ∃ b k', kb_get_key_null m = Done b (set_keyboard k' m) ∧ kb_ok k' ∧
    kb_queue k' = drop 1 (kb_queue (keyboard m)) ∧ kb_state k' = kb_state (keyboard m).
Proof.
  intros Hok. pose proof Hok as [Hb Hh Hl Ht He]. unfold KB_ELEMENTS in *.
  unfold kb_get_key_null, KB_BUFF_SIZEOF. msteps.
  destruct (Z.eqb_spec (kb_len (keyboard m)) 0) as [H0|H0].
  - exists false, (keyboard m). split_and!; [by destruct m|done| |done].
    unfold kb_queue. by rewrite H0.
  - msteps. rewrite !u32_small by word_lia. rewrite (Z.mod_small _ 32768) by lia.
    eexists _, _. split_and!; [reflexivity| | |done].
    + split; cbn; unfold KB_ELEMENTS; lia.
    + unfold kb_queue. cbn. rewrite skipn_firstn_comm, drop_drop. f_equal; [lia|].
      f_equal. lia.
Qed.

Lemma tty_erase_ok m :
  tty_ok (tty m) →
  ∃ m', tty_deleteprev m = Done tt m' ∧ tty m' = screen_erase (tty m) ∧ tty_ok (tty m') ∧
    only_terminal m m'.
Proof.
  intros Hok. unfold screen_erase.
  destruct ((tty_xpos (tty m) =? 0) && (tty_ypos (tty m) =? 0)) eqn:E.
  - exists m. split_and!; [|done|done|reflexivity]. unfold tty_deleteprev. msteps. by rewrite E.
  - destruct (tty_deleteprev_ok m Hok) as [H1 H2]; [lia|].
    eexists. split; [exact H1|]. split_and!; [done|done|apply only_terminal_shown].
Qed.

Lemma shell_ok_snoc s line c :
  shell_ok s line → line_char c = true → fits line = true →
  shell_ok (Shell (<[length line := c]> (cmd s)) (Z.of_nat (length line) [+] 1)) (line ++ [c]).
Proof.
  intros [Hc Hl Hr Hf] Hch Hfit. unfold fits, CMD_SIZEOF in Hfit. split; cbn [cmd cmd_len].
  - rewrite Hc. rewrite length_app. cbn [length].
    replace (1024 - length line)%nat with (S (1024 - (length line + 1))) by lia.
    cbn [replicate]. by rewrite insert_last, <- app_assoc.
  - rewrite length_app, u32_small by word_lia. simpl. lia.
  - rewrite length_app. simpl. lia.
  - apply Forall_app. split; [done|by constructor].
Qed.

Lemma shell_ok_removelast s line :
  shell_ok s line → line ≠ [] →
  shell_ok (Shell (<[(length line - 1)%nat := 0]> (cmd s)) (Z.of_nat (length line) [-] 1))
    (removelast line).
Proof.
  intros [Hc Hl Hr Hf] Hne. destruct line as [|x line _] using rev_ind; [done|].
  rewrite length_app in *. cbn [length] in *. rewrite removelast_last.
  split; cbn [cmd cmd_len].
  - rewrite Hc, Nat.add_sub, <- app_assoc. cbn [app]. rewrite insert_last.
    by replace (1024 - length line)%nat with (S (1024 - (length line + 1))) by lia.
  - rewrite u32_small by word_lia. lia.
  - lia.
  - by apply Forall_app in Hf as [? _].
Qed.

(** ** One round *)

Lemma kshell_step_None s m :
  kb_ok (keyboard m) → kb_queue (keyboard m) = [] → kshell_step s m = Done s m.
Proof.
  intros [Hb Hh Hl Ht He] Hq. unfold kshell_step, halt. msteps.
  assert (kb_len (keyboard m) = 0) as H0; [|by run (kb_get_key_None m H0)].
  apply (f_equal length) in Hq. unfold kb_queue, KB_ELEMENTS in *.
  rewrite length_take, length_drop in Hq. simpl in Hq. lia.
Qed.

(** The key is taken from the ring first. *)
Lemma kshell_step_Some s m k q :
  kb_ok (keyboard m) → kb_queue (keyboard m) = k :: q →
  ∃ kb, kshell_step s m = shell_key s (key_code k) (set_keyboard kb m) ∧
    kb_ok kb ∧ kb_queue kb = q ∧ kb_state kb = kb_state (keyboard m).
Proof.
  intros Hok Hq. destruct (Z.eq_dec (kb_len (keyboard m)) 0) as [E|E].
  - unfold kb_queue in Hq. by rewrite E in Hq.
  - destruct (kb_get_key_Some m Hok E) as (x & kb & Eg & Hk & _ & Hst & Hx).
    rewrite Hq in Hx. injection Hx as <- ->. exists kb. split; [|done].
    unfold kshell_step, halt. msteps. by run Eg.
Qed.

Lemma shell_backspace s m line q t :
  shows s m (Console line q t) → line ≠ [] →
  ∃ s' m', shell_key s KEY_BACKSPACE m = Done s' m' ∧
    shows s' m' (Console (removelast line) (drop 1 q) (screen_erase t)) ∧ only_console m m'.
Proof.
  intros [Hs Hr Hq Ht Hok] Hne. cbn [con_line con_keys con_screen] in *. subst q t.
  pose proof (so_room _ _ Hs) as Hroom.
  assert (0 < Z.of_nat (length line)) as Hlen by (destruct line; [done|simpl; lia]).
  unfold shell_key. rewrite Z.eqb_refl, (so_len _ _ Hs), (proj2 (Z.ltb_lt _ _) Hlen).
  cbn [andb]. destruct (kb_get_key_null_ok m Hr) as (b & kb & En & Hr' & Hq' & Hst'). run En.
  assert (u32 (Z.of_nat (length line) - 1) = Z.of_nat (length line) - 1) as E1
    by (apply u32_small; word_lia).
  assert (0 <= Z.of_nat (length line) - 1 < Z.of_nat (length (cmd s))) as Hi
    by (rewrite (so_cmd _ _ Hs), length_app; lia).
  rewrite E1. run (array_set_insert (cmd s) _ 0 (set_keyboard kb m) Hi).
  destruct (tty_erase_ok (set_keyboard kb m) Hok) as (m' & Ed & Td & Okd & Fd). run Ed.
  assert (keyboard m' = kb) as Ek by (destruct Fd as [-> _]; done).
  eexists _, m'. split; [reflexivity|]. split.
  - replace (Z.to_nat (Z.of_nat (length line) - 1)) with (length line - 1)%nat by lia.
    split; cbn [con_line con_keys con_screen]; rewrite ?Ek; try done.
    rewrite <- E1. by apply shell_ok_removelast.
  - etransitivity; [by apply (only_console_keyboard kb)|by apply only_console_terminal].
Qed.

Lemma shell_char s m line q t c :
  shows s m (Console line q t) → line_char c = true → c ≠ KEY_ENTER →
  ∃ s' m', shell_key s c m = Done s' m' ∧ only_console m m' ∧
    shows s' m' (if fits line then Console (line ++ [c]) q (screen_putc c t)
                 else Console line q t).
Proof.
  intros [Hs Hr Hq Ht Hok] Hc Hne. cbn [con_line con_keys con_screen] in *. subst q t.
  pose proof (line_char_range _ Hc) as Hrange.
  assert (c ≠ KEY_BACKSPACE) as Hb by (intros ->; done).
  unfold shell_key. rewrite (proj2 (Z.eqb_neq _ _) Hb), (proj2 (Z.eqb_neq _ _) Hne).
  cbn [andb]. rewrite isprint_truth, isspace_truth, !negb_involutive.
  fold (line_char c). rewrite Hc, (so_len _ _ Hs). destruct (fits line) eqn:Hfit.
  2: { unfold fits in Hfit. rewrite (proj2 (Z.leb_le _ _)) by lia. exists s, m.
       split_and!; [done|reflexivity|by split]. }
  pose proof Hfit as Hlt. unfold fits in Hlt. apply Z.ltb_lt in Hlt.
  rewrite (proj2 (Z.leb_gt _ _) Hlt).
  assert (0 <= Z.of_nat (length line) < Z.of_nat (length (cmd s))) as Hi.
  { rewrite (so_cmd _ _ Hs), length_app, length_replicate. unfold CMD_SIZEOF in *. lia. }
  run (array_set_insert (cmd s) _ (u8 c) m Hi).
  destruct (tty_putc_ok c m Hok) as [Ep Okp]. run Ep.
  pose proof (term_putc_only_terminal c m) as Fp.
  assert (keyboard (term_putc c m) = keyboard m) as Ek by (destruct Fp as [-> _]; done).
  eexists _, _. split_and!; [reflexivity|by apply only_console_terminal|].
  rewrite Nat2Z.id. replace (u8 c) with c by (symmetry; apply Z.mod_small; lia).
  split; cbn [con_line con_keys con_screen]; rewrite ?Ek; try done.
  - by apply shell_ok_snoc.
  - apply tty_term_putc.
Qed.

(** Every other key is dropped. *)
Lemma shell_ignores s m c :
  line_char c = false → c ≠ KEY_BACKSPACE ∨ cmd_len s = 0 → shell_key s c m = Done s m.
Proof.
  intros Hc Hb. unfold shell_key.
  assert ((c =? KEY_BACKSPACE) && (0 <? cmd_len s) = false) as -> by lia.
  assert ((c =? KEY_ENTER) = false) as -> by (apply Z.eqb_neq; by intros ->).
  rewrite isprint_truth, isspace_truth, !negb_involutive. fold (line_char c). by rewrite Hc.
Qed.

Definition no_enter (ks : list key) : Prop := Forall (λ k, key_code k ≠ KEY_ENTER) ks.

(** The next key is not Enter. *)
Definition enter_later (ks : list key) : Prop :=
  match ks with k :: _ => key_code k ≠ KEY_ENTER | [] => True end.

Lemma no_enter_later ks : no_enter ks → enter_later ks.
Proof. by intros []. Qed.

Lemma kshell_step_ok s m c :
  shows s m c → enter_later (con_keys c) →
  ∃ s' m', kshell_step s m = Done s' m' ∧ shows s' m' (edit c) ∧ only_console m m'.
Proof.
  intros H Hne. pose proof H as [Hs Hr Hq Ht Hok].
  destruct c as [line [|k q] t]; cbn [con_line con_keys con_screen] in *.
  { exists s, m. split_and!; [by apply kshell_step_None|done|reflexivity]. }
  destruct (kshell_step_Some s m k q Hr Hq) as (kb & -> & Hr1 & Hq1 & Hst).
  rename Hne into Hk. pose proof (only_console_keyboard kb m Hst) as O1.
  assert (shows s (set_keyboard kb m) (Console line q t)) as H1 by by split.
  unfold edit. cbn [con_line con_keys con_screen].
  destruct (Z.eqb_spec (key_code k) KEY_BACKSPACE) as [Eb|Eb];
    [destruct line as [|c0 line0] eqn:El; [|rewrite <- El in *]|].
  - exists s, (set_keyboard kb m). split_and!; [|done|done]. rewrite Eb.
    apply shell_ignores; [done|right]. by rewrite (so_len _ _ Hs).
  - rewrite Eb. destruct (shell_backspace _ _ _ _ _ H1) as (s' & m' & E & S & O); [by subst|].
    exists s', m'. split_and!; [done|by subst|by etransitivity].
  - destruct (line_char (key_code k)) eqn:Ec; cbn [andb].
    + destruct (shell_char _ _ _ _ _ _ H1 Ec Hk) as (s' & m' & E & O & S).
      exists s', m'. split_and!; [done|done|by etransitivity].
    + exists s, (set_keyboard kb m). split_and!; [|done|done].
      apply shell_ignores; [done|by left].
Qed.

Lemma edit_no_enter c : no_enter (con_keys c) → no_enter (con_keys (edit c)).
Proof.
  unfold no_enter, edit. intros H. destruct c as [line [|k q] t]; [done|]. simpl in *.
  apply Forall_cons in H as [_ H].
  repeat case_match; simpl; try done. by apply Forall_drop.
Qed.

Lemma kshell_loop_ok n s m c :
  shows s m c → no_enter (con_keys c) →
  ∃ s' m', kshell_loop n s m = Done s' m' ∧ shows s' m' (Nat.iter n edit c) ∧
    only_console m m'.
Proof.
  revert s m c. induction n as [|n IH]; intros s m c H Hne.
  - exists s, m. split_and!; [done|done|reflexivity].
  - destruct (kshell_step_ok s m c H (no_enter_later _ Hne)) as (s1 & m1 & E1 & S1 & O1).
    destruct (IH s1 m1 (edit c) S1 (edit_no_enter _ Hne)) as (s2 & m2 & E2 & S2 & O2).
    exists s2, m2. cbn [kshell_loop]. run E1. split_and!; [done| |by etransitivity].
    by rewrite Nat.iter_succ_r.
Qed.

(** ** Enter *)

(** What is left of the console once the line has been consumed. *)
Definition prompt : list Z := chars "$> ".

(** The console prints [cs], and nothing else of the machine changes. *)
Definition prints (cs : list Z) (m m' : machine) : Prop :=
  tty m' = screen_puts cs (tty m) ∧ tty_ok (tty m') ∧ only_terminal m m'.

Lemma prints_puts cs m :
  Forall (λ c, c ≠ 0) cs → tty_ok (tty m) →
  tty_printstr cs m = Done tt (term_puts cs m) ∧ prints cs m (term_puts cs m).
Proof.
  intros Hc Hok. destruct (tty_printstr_ok cs m Hc Hok) as [E Hok'].
  split; [done|]. split_and!; [apply tty_term_puts|done|apply term_puts_only_terminal].
Qed.

Lemma prints_trans cs cs' m1 m2 m3 :
  prints cs m1 m2 → prints cs' m2 m3 → prints (cs ++ cs') m1 m3.
Proof.
  intros (T1 & _ & O1) (T2 & Hok & O2). split_and!; [|done|by etransitivity].
  unfold screen_puts. rewrite foldl_app. by rewrite T2, T1.
Qed.

Lemma prints_putc c m :
  tty_ok (tty m) → tty_putc c m = Done tt (term_putc c m) ∧ prints [c] m (term_putc c m).
Proof.
  intros Hok. destruct (tty_putc_ok c m Hok) as [E Hok'].
  split; [done|]. split_and!; [apply tty_term_putc|done|apply term_putc_only_terminal].
Qed.

(** What a command prints; [None] when it does not only print. *)
Definition help_line (c : shell_command) : list Z :=
  [TAB] ++ sc_name c ++ [TAB] ++ sc_msg c ++ [NL].

Definition command_text (c : command) (t : Z) : option (list Z) :=
  match c with
  | cmd_help => Some (flat_map help_line commands)
  | cmd_demo => Some (chars "demo" ++ [NL])
  | cmd_amogus => Some amogus
  | cmd_print_tick => Some (chars "Tick: " ++ decimal t ++ [NL])
  | _ => None
  end.

Lemma print_commands_ok cs m :
  Forall (λ c, Forall (λ x, x ≠ 0) (sc_name c) ∧ Forall (λ x, x ≠ 0) (sc_msg c)) cs →
  tty_ok (tty m) →
  ∃ m', print_commands cs m = Done tt m' ∧ prints (flat_map help_line cs) m m'.
Proof.
  intros H. revert m. induction H as [|c cs [Hn Hm] H IH]; intros m Hok.
  - exists m. split; [done|]. by split_and!.
  - cbn [print_commands flat_map]. unfold help_line at 1.
    destruct (prints_putc TAB m Hok) as [E1 P1]. run E1.
    destruct (prints_puts (sc_name c) _ Hn (proj1 (proj2 P1))) as [E2 P2]. run E2.
    destruct (prints_puts [TAB] _ ltac:(by repeat constructor) (proj1 (proj2 P2))) as [E3 P3].
    run E3.
    destruct (prints_puts (sc_msg c) _ Hm (proj1 (proj2 P3))) as [E4 P4]. run E4.
    destruct (prints_putc NL _ (proj1 (proj2 P4))) as [E5 P5]. run E5.
    destruct (IH _ (proj1 (proj2 P5))) as (m' & E6 & P6). exists m'. split; [done|].
    repeat rewrite <- app_assoc. repeat (eapply prints_trans; [eassumption|]). done.
Qed.

Lemma commands_text_ok :
  Forall (λ c, Forall (λ x, x ≠ 0) (sc_name c) ∧ Forall (λ x, x ≠ 0) (sc_msg c)) commands.
Proof.
  repeat (apply Forall_cons_2; [split; by repeat constructor|]). constructor.
Qed.

(** The commands that only print do print their text. *)
Lemma run_command_prints c cs m :
  tty_ok (tty m) → command_text c (tick (timer m)) = Some cs →
  word (tick (timer m)) →
  ∃ m', run_command c m = Done true m' ∧ prints cs m m'.
Proof.
  intros Hok Ht Hw. destruct c; try done; injection Ht as <-; cbn [run_command].
  - destruct (print_commands_ok commands m commands_text_ok Hok) as (m' & E & P).
    run E. by exists m'.
  - destruct (prints_puts (chars "demo" ++ [NL]) m ltac:(by repeat constructor) Hok) as [E P].
    run E. eauto.
  - destruct (prints_puts amogus m ltac:(by repeat constructor) Hok) as [E P]. run E. eauto.
  - unfold pic_get_tick. msteps.
    destruct (kprintf_ok (chars "Tick: %u" ++ [NL]) [VaInt (tick (timer m))]
      (chars "Tick: " ++ decimal (tick (timer m)) ++ [NL]) 9 m) as [E P];
      [by apply Forall_singleton|done|reflexivity|]. run E. eexists. split; [reflexivity|].
    split_and!; [apply tty_term_puts|done|apply term_puts_only_terminal].
Qed.

Lemma no_nul line : Forall (λ c, line_char c = true) line → Forall byte_char line.
Proof.
  intros H. apply (Forall_impl _ _ _ H). intros c Hc. pose proof (line_char_range c Hc).
  unfold byte_char. lia.
Qed.

(** Enter on a line that is not blank: the line is trimmed and looked up. *)
Lemma command_run_ok line n m :
  Forall (λ c, line_char c = true) line → (length line + n = 1024)%nat →
  trim line ≠ [] → tty_ok (tty m) →
  ∃ cmd',
    (∀ c, lookup_command commands (trim line) = Some c →
       command_run (line ++ replicate n 0) (Z.of_nat (length line)) m
         = (run_command c;; mret cmd') m) ∧
    (lookup_command commands (trim line) = None →
       ∃ m', command_run (line ++ replicate n 0) (Z.of_nat (length line)) m = Done cmd' m' ∧
         prints (chars "Unknown command '" ++ trim line ++ chars "'" ++ [NL]) m m').
Proof.
  intros Hc Hn Hne Hok. pose proof (trim_length line) as Htl.
  set (w := trim line) in *.
  exists (w ++ replicate (n + (length line - length w)) 0).
  assert (strip_command 1025 (line ++ replicate n 0) (Z.of_nat (length line)) m =
    Done (w ++ replicate (n + (length line - length w)) 0, Z.of_nat (length w)) m) as Es.
  { rewrite strip_command_ok by (done || lia). subst w. by destruct (trim line). }
  unfold command_run. rewrite (bind_done _ _ _ _ _ Es). cbv beta iota.
  assert (find_command commands (w ++ replicate (n + (length line - length w)) 0) m =
    Done (lookup_command commands w) m) as Ef.
  { apply find_command_ok; [|lia|exact commands_ok]. subst w. apply trim_chars, no_nul, Hc. }
  run Ef. split; [by intros c ->|]. intros ->.
  destruct (prints_puts (chars "Unknown command '") m ltac:(by repeat constructor) Hok)
    as [E1 P1]. run E1.
  destruct (tty_write_ok w (replicate (n + (length line - length w)) 0) _ (proj1 (proj2 P1)))
    as [E2 O2]. run E2.
  destruct (prints_puts (chars "'" ++ [NL]) _ ltac:(by repeat constructor) O2) as [E3 P3].
  run E3. eexists. split; [reflexivity|].
  eapply prints_trans; [exact P1|]. eapply prints_trans; [|exact P3].
  split_and!; [apply tty_term_puts|done|apply term_puts_only_terminal].
Qed.

(** What Enter does to the screen, by the trimmed line. *)
Inductive entered (m : machine) (w : list Z) : machine → Prop :=
| entered_unknown m' :
    lookup_command commands w = None →
    prints ([NL] ++ (chars "Unknown command '" ++ w ++ chars "'" ++ [NL]) ++ prompt) m m' →
    entered m w m'
| entered_text c cs m' :
    lookup_command commands w = Some c → command_text c (tick (timer m)) = Some cs →
    prints ([NL] ++ cs ++ prompt) m m' →
    entered m w m'
| entered_clear m' :
    lookup_command commands w = Some cmd_clear →
    tty m' = screen_puts prompt (screen_clear (screen_putc NL (tty m))) →
    tty_ok (tty m') → only_terminal m m' →
    entered m w m'
| entered_reboot m1 m2 m' :
    lookup_command commands w = Some cmd_reboot →
    prints [NL] m m1 → outb KBRD_INTRFC KBRD_RESET m1 = Done tt m2 → prints prompt m2 m' →
    entered m w m'.

Lemma prints_timer cs m m' : prints cs m m' → timer m' = timer m.
Proof. intros (_ & _ & -> & _). done. Qed.

Lemma command_start_ok m :
  tty_ok (tty m) → command_start m = Done tt (term_puts prompt m) ∧
    prints prompt m (term_puts prompt m).
Proof. intros Hok. apply prints_puts; [by repeat constructor|done]. Qed.

Lemma command_cases c t :
  (∃ cs, command_text c t = Some cs) ∨ c = cmd_clear ∨ c = cmd_reboot ∨ c = cmd_exit.
Proof. destruct c; eauto. Qed.

(** The rest of the Enter branch, once the newline is out. *)
Lemma enter_rest line n m m0 :
  Forall (λ c, line_char c = true) line → (length line + n = 1024)%nat →
  trim line ≠ [] → word (tick (timer m)) →
  lookup_command commands (trim line) ≠ Some cmd_exit → prints [NL] m0 m →
  ∃ m', (command_run (line ++ replicate n 0) (Z.of_nat (length line));; command_start) m
      = Done tt m' ∧ entered m0 (trim line) m' ∧ only_terminal m m' ∧ tty_ok (tty m').
Proof.
  intros Hc Hn Hne Hw Hex P0. pose proof (proj1 (proj2 P0)) as Hok.
  destruct (command_run_ok line n m Hc Hn Hne Hok) as (cmd' & HS & HN).
  destruct (lookup_command commands (trim line)) as [c|] eqn:El.
  - specialize (HS c eq_refl). clear HN.
    destruct (command_cases c (tick (timer m))) as [[cs Ht]|[->|[->| ->]]]; [| | |done].
    + destruct (run_command_prints c cs m Hok Ht Hw) as (m1 & E1 & P1).
      rewrite (bind_done _ _ _ cmd' m1) by (rewrite HS; by run E1).
      destruct (command_start_ok m1 (proj1 (proj2 P1))) as [E2 P2]. rewrite E2.
      pose proof (prints_trans _ _ _ _ _ P1 P2) as P12.
      eexists. split; [reflexivity|]. split_and!;
        [|apply P12|apply P2].
      eapply entered_text; [done| |by eapply prints_trans].
      by rewrite <- (prints_timer _ _ _ P0).
    + pose proof Hok as [_ Hcells _ _].
      destruct (tty_clear_ok m Hcells) as [E1 O1]. cbn [run_command] in HS.
      rewrite (bind_done _ _ _ cmd' (shown (screen_clear (tty m)) m))
        by (rewrite HS, bind_assoc; by run E1).
      destruct (command_start_ok (shown (screen_clear (tty m)) m) O1) as [E2 P2]. rewrite E2.
      assert (only_terminal m (term_puts prompt (shown (screen_clear (tty m)) m))) as OT
        by (etransitivity; [apply only_terminal_shown|apply P2]).
      eexists. split; [reflexivity|].
      split_and!; [|done|apply P2].
      apply entered_clear; [done| |apply P2|by etransitivity; [apply P0|]].
      destruct P0 as (T0 & _). destruct P2 as (T2 & _). rewrite T2. by rewrite T0.
    + cbn [run_command] in HS. set (m1 := set_ports (set_io_log
        (Out (u16 KBRD_INTRFC) (u8 KBRD_RESET) :: io_log (ports m)) (ports m)) m).
      assert (outb KBRD_INTRFC KBRD_RESET m = Done tt m1) as Eo by done.
      rewrite (bind_done _ _ _ cmd' m1) by (rewrite HS, bind_assoc; by run Eo).
      destruct (command_start_ok m1 Hok) as [E2 P2]. rewrite E2.
      eexists. split; [reflexivity|]. split_and!; [|by etransitivity; [|apply P2]|apply P2].
      by eapply entered_reboot.
  - destruct (HN eq_refl) as (m1 & E1 & P1). run E1.
    destruct (command_start_ok m1 (proj1 (proj2 P1))) as [E2 P2]. rewrite E2.
    pose proof (prints_trans _ _ _ _ _ P1 P2) as P12. eexists. split; [reflexivity|].
    split_and!; [|apply P12|apply P2].
    apply entered_unknown; [done|]. by eapply prints_trans.
Qed.

(** Enter, the whole round. *)
Lemma kshell_enter_ok s m line k q t :
  shows s m (Console line (k :: q) t) → key_code k = KEY_ENTER →
  trim line ≠ [] → word (tick (timer m)) →
  lookup_command commands (trim line) ≠ Some cmd_exit →
  ∃ s' m', kshell_step s m = Done s' m' ∧ shows s' m' (Console [] q (tty m')) ∧
    entered (set_keyboard (keyboard m') m) (trim line) m' ∧ only_console m m'.
Proof.
  intros [Hs Hr Hq Ht Hok] Hk Hne Hw Hex. cbn [con_line con_keys con_screen] in *.
  destruct (kshell_step_Some s m k q Hr Hq) as (kb & -> & Hr1 & Hq1 & Hst). rewrite Hk.
  set (m0 := set_keyboard kb m). unfold shell_key.
  change (KEY_ENTER =? KEY_BACKSPACE) with false. rewrite Z.eqb_refl. cbn [andb].
  destruct (prints_putc NL m0 Hok) as [E1 P1]. run E1.
  rewrite (so_cmd _ _ Hs), (so_len _ _ Hs). pose proof (so_room _ _ Hs).
  destruct (enter_rest line (1024 - length line) (term_putc NL m0) m0 (so_chars _ _ Hs)
    ltac:(lia) Hne ltac:(by rewrite (prints_timer _ _ _ P1)) Hex P1)
    as (m' & E2 & HE & HO & Hok').
  exists shell_start, m'. cbv zeta. rewrite <- bind_assoc, (bind_done _ _ _ _ _ E2).
  assert (keyboard m' = kb) as Ek by (destruct HO as [-> _], P1 as (_ & _ & -> & _); done).
  split_and!; [done| |by rewrite Ek|].
  2: { transitivity m0; [by apply only_console_keyboard|]. apply only_console_terminal.
       etransitivity; [apply P1|done]. }
  split; cbn [con_line con_keys con_screen]; rewrite ?Ek; try done. exact shell_start_ok.
Qed.

(** The two rounds that do not return. *)
Lemma kshell_blank_stops s m line k q t :
  shows s m (Console line (k :: q) t) → key_code k = KEY_ENTER → trim line = [] →
  ∃ m', kshell_step s m = Stop OutOfBounds m'.
Proof.
  intros [Hs Hr Hq Ht Hok] Hk Hb. cbn [con_line con_keys con_screen] in *.
  destruct (kshell_step_Some s m k q Hr Hq) as (kb & -> & Hr1 & Hq1 & Hst). rewrite Hk.
  set (m0 := set_keyboard kb m). unfold shell_key.
  change (KEY_ENTER =? KEY_BACKSPACE) with false. rewrite Z.eqb_refl. cbn [andb].
  destruct (prints_putc NL m0 Hok) as [E1 P1]. run E1.
  rewrite (so_cmd _ _ Hs), (so_len _ _ Hs). pose proof (so_room _ _ Hs).
  eexists. apply bind_stop. unfold command_run. apply bind_stop.
  rewrite strip_command_ok by (apply (so_chars _ _ Hs) || lia). by rewrite Hb.
Qed.

Lemma kshell_exit_stops s m line k q t :
  shows s m (Console line (k :: q) t) → key_code k = KEY_ENTER →
  lookup_command commands (trim line) = Some cmd_exit →
  ∃ m', kshell_step s m = Stop Spin m'.
Proof.
  intros [Hs Hr Hq Ht Hok] Hk Hx. cbn [con_line con_keys con_screen] in *.
  destruct (kshell_step_Some s m k q Hr Hq) as (kb & -> & Hr1 & Hq1 & Hst). rewrite Hk.
  set (m0 := set_keyboard kb m). unfold shell_key.
  change (KEY_ENTER =? KEY_BACKSPACE) with false. rewrite Z.eqb_refl. cbn [andb].
  destruct (prints_putc NL m0 Hok) as [E1 P1]. run E1.
  rewrite (so_cmd _ _ Hs), (so_len _ _ Hs). pose proof (so_room _ _ Hs).
  assert (trim line ≠ []) as Hne by (intros He; rewrite He in Hx; by vm_compute in Hx).
  destruct (command_run_ok line (1024 - length line) (term_putc NL m0) (so_chars _ _ Hs)
    ltac:(lia) Hne (proj1 (proj2 P1))) as (cmd' & HS & _).
  eexists. apply bind_stop. rewrite (HS cmd_exit Hx). apply bind_stop. cbn [run_command].
  destruct (prints_puts (chars "    done!" ++ [NL]) (term_putc NL m0)
    ltac:(by repeat constructor) (proj1 (proj2 P1))) as [E2 _]. by run E2.
Qed.

(** ** Properties *)

(** A freshly started console on a clean screen, with keys typed ahead. *)
Definition typed (text : list Z) : machine :=
  let ks := Key (kb_state (keyboard power_on)) <$> text in
  set_keyboard (KeyboardState
    (ks ++ replicate (4096 - length ks) (Key (kb_state (keyboard power_on)) 0))
    (Z.of_nat (length ks)) 0 (Z.of_nat (length ks)) (kb_state (keyboard power_on)))
    clean_screen.

Lemma typed_shows text :
  (length text <= 4096)%nat →
  shows shell_start (typed text)
    (Console [] (Key (kb_state (keyboard power_on)) <$> text) (tty clean_screen)).
Proof.
  intros Hl. assert (length (Key (kb_state (keyboard power_on)) <$> text) = length text) as El
    by apply length_fmap.
  split; [exact shell_start_ok| | |done|exact clean_screen_ok].
  - unfold typed. split; cbn [keyboard set_keyboard kb_buff kb_head kb_len kb_tail]; try lia;
      rewrite ?length_app, ?length_replicate, ?El; unfold KB_ELEMENTS; lia.
  - unfold typed, kb_queue. cbn [keyboard set_keyboard kb_buff kb_head kb_len].
    rewrite drop_0, Nat2Z.id. by apply take_app_length.
Qed.

(** C17: the console is a line editor.  From a console that shows a line, any
    number of rounds of the loop, on any keys but Enter, does to the line, to
    the keys typed ahead and to the screen what [edit] says: a printing
    character is appended and echoed while there is room, backspace takes the
    last character off the line and the screen (and swallows the next pending
    key), any other key is dropped.  Nothing else of the machine changes. *)
Theorem kshell_edits_line n s m c :
  shows s m c → no_enter (con_keys c) →
  ∃ s' m', kshell_loop n s m = Done s' m' ∧ shows s' m' (Nat.iter n edit c) ∧
    only_console m m'.
Proof. apply kshell_loop_ok. Qed.

Definition retyped : list Z := [104; 101; 108; 113; 8; 0; 112].

(** "helq", backspace, its release code, "p": the line is "help". *)
Lemma kshell_edits_line_witness :
  ∃ s' m', kshell_loop 6 shell_start (typed retyped) = Done s' m' ∧
    shows s' m' (Console (chars "help") [] (screen_puts (chars "help") (tty clean_screen))) ∧
    only_console (typed retyped) m'.
Proof.
  assert (Nat.iter 6 edit (Console [] (Key (kb_state (keyboard power_on)) <$> retyped)
    (tty clean_screen)) = Console (chars "help") []
      (screen_puts (chars "help") (tty clean_screen))) as <- by (vm_compute; reflexivity).
  apply (kshell_edits_line 6 shell_start (typed retyped) _
    (typed_shows retyped ltac:(simpl; lia))).
  by repeat constructor.
Defined.

(** C26: Enter runs the line.  Trailing white space is dropped; if the rest
    names a command that returns, its effect follows the newline, otherwise
    the message "Unknown command" quotes it; then comes a new prompt and the
    line is empty again. *)
Theorem kshell_enter_runs_line s m line k q t :
  shows s m (Console line (k :: q) t) → key_code k = KEY_ENTER →
  trim line ≠ [] → word (tick (timer m)) →
  lookup_command commands (trim line) ≠ Some cmd_exit →
  ∃ s' m', kshell_step s m = Done s' m' ∧ shows s' m' (Console [] q (tty m')) ∧
    entered (set_keyboard (keyboard m') m) (trim line) m'.
Proof.
  intros H Hk Hne Hw Hex.
  destruct (kshell_enter_ok s m line k q t H Hk Hne Hw Hex) as (s' & m' & E & S & HE & _).
  by exists s', m'.
Qed.

(** A console whose user has typed a line. *)
Definition with_line (line text : list Z) : shell * machine :=
  (Shell (line ++ replicate (1024 - length line) 0) (Z.of_nat (length line)), typed text).

Lemma with_line_shows line text :
  (length line <= 1024)%nat → (length text <= 4096)%nat →
  Forall (λ c, line_char c = true) line →
  shows (fst (with_line line text)) (snd (with_line line text))
    (Console line (Key (kb_state (keyboard power_on)) <$> text) (tty clean_screen)).
Proof.
  intros Hl Ht Hc. destruct (typed_shows text Ht) as [_ H1 H2 H3 H4].
  split; [by split|exact H1|exact H2|exact H3|exact H4].
Qed.

(** "demo " and Enter. *)
Lemma kshell_enter_runs_line_witness :
  let m := typed [KEY_ENTER; 97] in
  ∃ s' m', kshell_step (fst (with_line (chars "demo ") [KEY_ENTER; 97])) m = Done s' m' ∧
    shows s' m' (Console [] [Key (kb_state (keyboard power_on)) 97] (tty m')) ∧
    entered (set_keyboard (keyboard m') m) (chars "demo") m'.
Proof.
  apply (kshell_enter_runs_line (fst (with_line (chars "demo ") [KEY_ENTER; 97]))
    (typed [KEY_ENTER; 97]) (chars "demo ") _ _ _
    (with_line_shows (chars "demo ") [KEY_ENTER; 97] ltac:(simpl; lia) ltac:(simpl; lia)
      ltac:(by repeat constructor))).
  - done.
  - done.
  - change (word 0). by split.
  - done.
Defined.

(** C31: Enter on an empty or blank line reads in front of the buffer: the
    loop that strips white space runs past the first character. *)
Theorem kshell_blank_line_underflows s m line k q t :
  shows s m (Console line (k :: q) t) → key_code k = KEY_ENTER → trim line = [] →
  ∃ m', kshell_step s m = Stop OutOfBounds m'.
Proof. apply kshell_blank_stops. Qed.

(** Enter alone, on a fresh console. *)
Lemma kshell_blank_line_underflows_witness :
  ∃ m', kshell_step shell_start (typed [KEY_ENTER]) = Stop OutOfBounds m'.
Proof.
  apply (kshell_blank_line_underflows shell_start (typed [KEY_ENTER]) [] _ _ _
    (typed_shows [KEY_ENTER] ltac:(simpl; lia))); done.
Defined.
