(* ===== verification/Kernel.v ===== *)
(** * Interrupt entry and return, and kmain

    The stubs of kernel/interrupt/init_idt.asm, the call through
    [idt_handlers], and [kmain] of kernel/kernel.c.  A stub is run with the
    context it interrupts; it returns with [Stop (Iret c)], [c] being what the
    CPU goes on with. *)

From S2P Require Import Prelude Machine Tty Memory Cstring Boot Pmm Paging Kmalloc.
From S2P Require Import Keyboard Gdt Interrupt Pic Vmm Userspace Task Kshell.

(** ** The handlers behind the table

    The call of a null pointer is undefined. *)
Definition call_handler (h : handler) (int_no : Z) : M unit :=
  match h with
  | NULL_handler => halt_with Undefined
  | paging_page_fault_handler => page_fault
  | other_interrupt => other_interrupt_body int_no
  | pic_callback => pic_callback_with scheduler
  | Machine.isr_key_press => Keyboard.isr_key_press
  end.

(** ** init_idt.asm *)

(** One [push] after the other. *)
Fixpoint push_all (esp : Z) (vs : list Z) : M Z :=
  match vs with
  | [] => mret esp
  | v :: vs' => st32 (esp [-] 4) v;; push_all (esp [-] 4) vs'
  end.

(** The stack an interrupt uses: that of the task-state segment when it
    comes from ring 3, the current one otherwise. *)
Definition entry_stack (esp : Z) (c : context) : M Z :=
  match ctx_user_stack c with
  | Some _ => gets_gdt (λ g, tss_esp0 (tss_region g))
  | None => mret esp
  end.

(** What the CPU pushes. *)
Definition cpu_frame (c : context) : list Z :=
  match ctx_user_stack c with
  | Some (uesp, ss) => [ss; uesp]
  | None => []
  end ++ [ctx_eflags c; ctx_cs c; ctx_eip c].

(** [pushad; push ds], with ESP as it is before. *)
Definition saved_registers (esp : Z) (c : context) : list Z :=
  [ctx_eax c; ctx_ecx c; ctx_edx c; ctx_ebx c; esp; ctx_ebp c; ctx_esi c; ctx_edi c;
   ctx_ds c].

(** Interrupt [int_no] with [error_code] taken in context [c]: the CPU's
    part, the part of the stub, and [pushad; push ds] of the common stub.
    Returns ESP, the address of the frame. *)
Definition interrupt_entry (int_no error_code esp : Z) (c : context) : M Z :=
  esp ← entry_stack esp c;
  mod_cpu (set_eflags_if false);;
  esp ← push_all esp (cpu_frame c);
  cli;;
  esp ← push_all esp [error_code; int_no];
  push_all esp (saved_registers esp c).

(** The number the handlers find in the frame they are passed. *)
Definition frame_int_no (tf : Z) : M Z := ld32 (tf + TF_INT_NUMBER).

Definition irq_common_stub (tf : Z) : M unit :=
  task_update_trapframe tf;;
  int_no ← frame_int_no tf;
  irq_handler call_handler int_no;;
  regs ← pop_registers tf;
  sti;;
  iret_with (tf + TF_EIP) regs.

(** [pop ebx; mov ds, bx] comes before [pop ds; popad]. *)
Definition isr_common_stub (tf : Z) : M unit :=
  task_update_trapframe tf;;
  int_no ← frame_int_no tf;
  isr_handler call_handler int_no;;
  _ ← ld32 tf;
  let esp := tf + 4 in
  regs ← pop_registers esp;
  sti;;
  iret_with (esp + TF_EIP) regs.

(** irq0 to irq15: the macro IRQ. *)
Definition irq (n esp : Z) (c : context) : M unit :=
  tf ← interrupt_entry (32 + n) 0 esp c;
  irq_common_stub tf.

(** isr0 to isr31: the macros ISR_ERR, which pushes 0, and ISR_REG, after
    whose exceptions the CPU pushes an error code. *)
Definition pushes_error_code (n : Z) : bool :=
  (n =? 8) || (10 <=? n) && (n <=? 14).

Definition isr (n cpu_error_code esp : Z) (c : context) : M unit :=
  tf ← interrupt_entry n (if pushes_error_code n then cpu_error_code else 0) esp c;
  isr_common_stub tf.

(** ** init_gdt.asm *)

(** [lgdt] and the segment registers are not part of the state. *)
Definition gdt_init_asm `{L : Layout} : M unit :=
  cli;;
  gdt_init;;
  mod_cpu (λ c, set_cr0 (Z.lor (cr0 c) 1) c).

(** [ltr]: the task register is not part of the state. *)
Definition gdt_load_tss_asm : M unit := mret tt.

(** ** kernel.c *)

(** [kprintf("...\n")] *)
Definition kprint_line (s : string) : M unit := kprintf (chars s ++ [NL]) [];; mret tt.

Definition MULTIBOOT_BOOTLOADER_MAGIC : Z := 0x2BADB002.

Section Kmain.
Context `{L : Layout} (depth fuel rounds : nat).

Definition kmain (mbt magic : Z) : M shell :=
  initialize_terminal;;
  kprint_line "[-] Terminal Initalized";;
  kprint_line "[-] Initializing Interrupts...";;
  interrupt_init;;
  when (negb (magic =? MULTIBOOT_BOOTLOADER_MAGIC))
    (panic (chars "invalid bootloader magic number"));;
  kprint_line "[-] Initializing Physical Memory Management...";;
  pmm_init mbt;;
  kprint_line "[-] Initializing Paging and Virtual Memory...";;
  initial_page_table ← paging_init;
  kprint_line "[-] Initializing Heap...";;
  kmalloc_init;;
  kprint_line "[-] Initializing Virtual Memory Manager...";;
  vmm_init depth fuel initial_page_table;;
  gdt_load_tss_asm;;
  task_init depth fuel;;
  task_create_kernel depth fuel;;
  task_create_user depth fuel;;
  kprint_line "[-] Initializing Scheduler...";;
  scheduler_init;;
  paging_add_temp_userspace depth fuel;;
  kprint_line "[-] Initializing Keyboard...";;
  keyboard_init;;
  let timer_frequency := 20 in
  kprintf (chars "[-] Initializing Timer (Freq: %dHz)..." ++ [NL]) [VaInt timer_frequency];;
  pic_init timer_frequency false;;
  kprint_line "[-] Launching Kernel Console...";;
  kshell rounds.

(** boot.asm: [_start], [higher_half_kernel] and what follows the call. *)
Definition boot (mbt magic : Z) : M unit :=
  boot_start;;
  gdt_init_asm;;
  kmain mbt magic;;
  cli;;
  halt;;
  halt_with Spin.
End Kmain.

(** ** Frames on the stack *)

(** The registers of a context have their widths, and a stack pointer of
    ring 3 exactly when the code segment is of ring 3. *)
Record context_ok (c : context) : Prop := {
  co_ds : 0 <= ctx_ds c < 65536;
  co_edi : word (ctx_edi c);
  co_esi : word (ctx_esi c);
  co_ebp : word (ctx_ebp c);
  co_ebx : word (ctx_ebx c);
  co_edx : word (ctx_edx c);
  co_ecx : word (ctx_ecx c);
  co_eax : word (ctx_eax c);
  co_eip : word (ctx_eip c);
  co_cs : 0 <= ctx_cs c < 65536;
  co_eflags : word (ctx_eflags c);
  co_user : match ctx_user_stack c with
            | Some (esp, ss) => word esp ∧ 0 <= ss < 65536
            | None => True
            end;
  co_ring : ring3 (ctx_cs c) = bool_decide (is_Some (ctx_user_stack c))
}.

(** Everything an interrupt pushes, in order. *)
Definition pushed (int_no error_code top : Z) (c : context) : list Z :=
  cpu_frame c ++ [error_code; int_no] ++
  saved_registers (top - 4 * Z.of_nat (length (cpu_frame c)) - 8) c.

Definition context_size (c : context) : Z :=
  match ctx_user_stack c with Some _ => 64 | None => 56 end.

Lemma context_size_bounds c : 56 <= context_size c <= 64.
Proof. unfold context_size. destruct (ctx_user_stack c); lia. Qed.

Lemma pushed_length n e top c : 4 * Z.of_nat (length (pushed n e top c)) = context_size c.
Proof.
  unfold pushed, cpu_frame, context_size. rewrite !length_app. cbn [length saved_registers].
  destruct (ctx_user_stack c) as [[]|]; done.
Qed.

Lemma push_all_app esp vs vs' m :
  push_all esp (vs ++ vs') m = (esp ← push_all esp vs; push_all esp vs') m.
Proof.
  revert esp m. induction vs as [|v vs IH]; intros esp m; [done|]. cbn [app push_all].
  rewrite bind_assoc. unfold mbind at 1 2, prog_bind at 1 2.
  destruct (st32 _ _ m); [apply IH|done].
Qed.

Section Frames.
Context {I : machine → Prop} {owns : Z → Prop} `{HR : !Region I owns}.

Lemma push_all_ok vs esp m :
  I m → owns_range owns (esp - 4 * Z.of_nat (length vs)) (4 * Z.of_nat (length vs)) →
  ∃ m', push_all esp vs m = Done (esp - 4 * Z.of_nat (length vs)) m' ∧ I m' ∧
    writes_only owns m m' (esp - 4 * Z.of_nat (length vs)) (4 * Z.of_nat (length vs)) ∧
    ∀ i v, vs !! i = Some v → word_at m' (esp - 4 * Z.of_nat (S i)) = u32 v.
Proof.
  revert esp m. induction vs as [|v vs IH]; intros esp m HI Ho; cbn [push_all].
  - exists m. split_and!; [by rewrite Z.sub_0_r|done|apply writes_only_refl|done].
  - cbn [length] in *. rewrite Nat2Z.inj_succ in *.
    assert (u32 (esp - 4) = esp - 4) as ->.
    { apply u32_small, (region_word (I := I)). by owned. }
    store m1 K1 V1 W1.
    destruct (IH (esp - 4) m1 K1) as (m' & E & K & W & V); [owned|]. rewrite E.
    exists m'. split_and!; [f_equal; lia|done|chain_writes|].
    intros [|i] x Hx; cbn in Hx.
    + injection Hx as <-. rewrite <- V1, (writes_only_word_at _ _ _ _ _ W); [f_equal; lia| |lia].
      owned.
    + rewrite <- (V i x Hx). f_equal. lia.
Qed.

(** The frame holds the context. *)
Lemma pushed_frame m top n e c :
  context_ok c → word n →
  (∀ i v, pushed n e top c !! i = Some v → word_at m (top - 4 * Z.of_nat (S i)) = u32 v) →
  let tf := top - context_size c in
  frame_context m tf = c ∧ frame_size m tf = context_size c ∧
  word_at m (tf + TF_INT_NUMBER) = n ∧ word_at m (tf + TF_CS) = ctx_cs c.
Proof.
  intros Hc Hn Hw tf. subst tf.
  assert (∀ i v k, pushed n e top c !! i = Some v → context_size c = k + 4 * Z.of_nat (S i) →
    word_at m (top - context_size c + k) = u32 v) as Hf.
  { intros i v k Hi Hk. rewrite <- (Hw i v Hi). f_equal. lia. }
  clear Hw. destruct Hc. unfold frame_context, frame_size, TF_DS, TF_EDI, TF_ESI, TF_EBP,
    TF_EBX, TF_EDX, TF_ECX, TF_EAX, TF_EIP, TF_CS, TF_EFLAGS, TF_ESP, TF_SS, TF_INT_NUMBER.
  unfold pushed, cpu_frame, saved_registers, context_size in *.
  destruct c as [ds edi esi ebp ebx edx ecx eax eip cs fl [[uesp ss]|]]; cbn in *.
  - pose proof (Hf 3%nat cs 48 eq_refl eq_refl) as Ecs.
    assert (u32 cs = cs) as E1 by (apply u32_small; word_lia).
    rewrite Ecs, E1, co_ring0. cbn.
    rewrite (Hf 15%nat ds 0), (Hf 14%nat edi 4), (Hf 13%nat esi 8), (Hf 12%nat ebp 12),
      (Hf 10%nat ebx 20), (Hf 9%nat edx 24), (Hf 8%nat ecx 28), (Hf 7%nat eax 32),
      (Hf 6%nat n 36), (Hf 4%nat eip 44), (Hf 2%nat fl 52), (Hf 1%nat uesp 56),
      (Hf 0%nat ss 60) by done.
    destruct co_user0 as [Hu Hs]. rewrite !u32_small by (done || word_lia).
    unfold u16. by rewrite !Z.mod_small by lia.
  - pose proof (Hf 1%nat cs 48 eq_refl eq_refl) as Ecs.
    assert (u32 cs = cs) as E1 by (apply u32_small; word_lia).
    rewrite Ecs, E1, co_ring0. cbn.
    rewrite (Hf 13%nat ds 0), (Hf 12%nat edi 4), (Hf 11%nat esi 8), (Hf 10%nat ebp 12),
      (Hf 8%nat ebx 20), (Hf 7%nat edx 24), (Hf 6%nat ecx 28), (Hf 5%nat eax 32),
      (Hf 4%nat n 36), (Hf 2%nat eip 44), (Hf 0%nat fl 52) by done.
    rewrite !u32_small by (done || word_lia).
    unfold u16. by rewrite !Z.mod_small by lia.
Qed.

Lemma entry_stack_ok m esp c top :
  match ctx_user_stack c with
  | Some _ => tss_esp0 (tss_region (gdt m)) = top
  | None => esp = top
  end → entry_stack esp c m = Done top m.
Proof using.
  unfold entry_stack. by destruct (ctx_user_stack c) as [[]|]; intros <-.
Qed.

(** Memory and the interrupt flag may differ. *)
Definition interrupted (m m' : machine) : Prop :=
  m' = set_cpu (set_eflags_if (eflags_if (cpu m')) (cpu m)) (set_mem (mem m') m).

(** Taking an interrupt saves the context in a frame at the top of the stack. *)
Lemma interrupt_entry_ok m n e esp c top :
  I m → context_ok c → word n → entry_stack esp c m = Done top m →
  owns_range owns (top - context_size c) (context_size c) →
  let tf := top - context_size c in
  ∃ m', interrupt_entry n e esp c m = Done tf m' ∧ I m' ∧ interrupted m m' ∧
    eflags_if (cpu m') = false ∧ keeps (owns := owns) m m' tf (context_size c) ∧
    frame_context m' tf = c ∧ frame_size m' tf = context_size c ∧
    word_at m' (tf + TF_INT_NUMBER) = n ∧ word_at m' (tf + TF_CS) = ctx_cs c.
Proof.
  intros HI Hc Hn Ht Ho tf. unfold interrupt_entry. run Ht. msteps.
  set (m0 := set_cpu _ m). assert (I m0) as K0 by by apply region_flag.
  pose proof (pushed_length n e top c) as Hl.
  destruct (push_all_ok (pushed n e top c) top m0 K0) as (m' & E & K & W & V);
    [by rewrite Hl|]. rewrite Hl in *.
  assert (owns_range owns (top - 4 * Z.of_nat (length (cpu_frame c)))
    (4 * Z.of_nat (length (cpu_frame c)))) as Ho1.
  { unfold pushed in Hl. rewrite length_app in Hl. owned. }
  destruct (push_all_ok (cpu_frame c) top m0 K0 Ho1) as (m1 & E1 & K1 & W1 & _).
  run E1. unfold cli. msteps.
  assert (set_cpu (set_eflags_if false (cpu m1)) m1 = m1) as ->
    by (rewrite (proj1 W1); by destruct m).
  unfold pushed in E. rewrite push_all_app, (bind_done _ _ _ _ _ E1), push_all_app in E.
  destruct (push_all_ok [e; n] (top - 4 * Z.of_nat (length (cpu_frame c))) m1 K1)
    as (m2 & E2 & _).
  { unfold pushed in Hl. rewrite !length_app in Hl. cbn [length saved_registers] in Hl.
    cbn [length]. owned. }
  run E2. rewrite (bind_done _ _ _ _ _ E2) in E. cbn [length] in *.
  replace (4 * Z.of_nat 2) with 8 in * by done. rewrite E.
  destruct (pushed_frame m' top n e c Hc Hn V) as (F1 & F2 & F3 & F4).
  exists m'. split_and!; try done.
  - unfold interrupted. rewrite (proj1 W). done.
  - rewrite (proj1 W). done.
  - intros w Hw Hd. rewrite (proj2 W w Hw Hd). by apply byte_at_regs.
Qed.

(** ** An IRQ up to its handler *)

(** The end-of-interrupt bytes, newest first. *)
Definition eoi (int_no : Z) : list io_event :=
  Out 0x20 0x20 :: if 40 <=? int_no then [Out 0xA0 0x20] else [].

Definition acknowledged (int_no : Z) (m : machine) : machine :=
  set_ports (set_io_log (eoi int_no ++ io_log (ports m)) (ports m)) m.

Lemma irq_handler_ok n h m :
  0 <= n → idt_handlers (interrupts m) !! Z.to_nat n = Some h →
  irq_handler call_handler n m =
    when (negb (bool_decide (h = NULL_handler))) (call_handler h n) (acknowledged n m).
Proof using.
  intros Hn Hh. unfold irq_handler, dispatch, acknowledged, eoi.
  destruct (40 <=? n); cbn [when]; unfold outb; msteps;
    by rewrite (bind_done _ _ _ _ _ (array_get_lookup _ _ _ _ Hn Hh)).
Qed.

(** The bytes at which the current task's [trapframe] field stands. *)
Definition trapframe_field (m : machine) (w : Z) : Prop :=
  current_task (tasks m) ≠ 0 ∧
  current_task (tasks m) + 4 <= w < current_task (tasks m) + 8.

(** The interrupted task remembers where its frame is. *)
Lemma task_update_trapframe_ok m tf :
  I m → word tf →
  (current_task (tasks m) ≠ 0 → owns_range owns (current_task (tasks m)) TASK_SIZEOF) →
  ∃ m', task_update_trapframe tf m = Done tt m' ∧ I m' ∧ only_memory m m' ∧
    (∀ w, owns w → ¬ trapframe_field m w → byte_at m' w = byte_at m w) ∧
    (current_task (tasks m) ≠ 0 → word_at m' (current_task (tasks m) + 4) = tf).
Proof.
  intros HI Hw Ho. unfold task_update_trapframe, trapframe_field. msteps.
  destruct (Z.eqb_spec (current_task (tasks m)) 0) as [E|E]; cbn [negb when].
  - exists m. split_and!; [done|done|reflexivity|done|done].
  - specialize (Ho E). unfold TASK_SIZEOF in Ho.
    destruct (st32_ok (I := I) (owns := owns) m (current_task (tasks m) + 4) tf HI ltac:(owned))
      as (m' & S & K & V & [O W]).
    exists m'. rewrite u32_small in V by done. unfold set_trapframe.
    split_and!; [done|done|done| |done]. intros w Hw' Hn. apply W; [done|].
    destruct (Z.lt_ge_cases w (current_task (tasks m) + 4)); [by left|].
    destruct (Z.lt_ge_cases w (current_task (tasks m) + 8)); [by destruct Hn|lia].
Qed.

Lemma frame_same m m' tf :
  (∀ w, tf <= w < tf + frame_size m tf → byte_at m' w = byte_at m w) →
  frame_context m' tf = frame_context m tf ∧ frame_size m' tf = frame_size m tf.
Proof using.
  intros H. pose proof (frame_size_bounds m tf) as H56.
  assert (∀ k, 0 <= k → k + 4 <= frame_size m tf → word_at m' (tf + k) = word_at m (tf + k)) as Hw.
  { intros k Hk Hk'. unfold word_at. by rewrite !H by lia. }
  unfold frame_context, frame_size, TF_DS, TF_EDI, TF_ESI, TF_EBP, TF_EBX, TF_EDX, TF_ECX,
    TF_EAX, TF_EIP, TF_CS, TF_EFLAGS, TF_ESP, TF_SS in *.
  rewrite !(Hw 0), !(Hw 4), !(Hw 8), !(Hw 12), !(Hw 20), !(Hw 24), !(Hw 28), !(Hw 32),
    !(Hw 44), !(Hw 48), !(Hw 52) by lia.
  destruct (ring3 _); [|done]. by rewrite !Hw by lia.
Qed.

(** The part of a stub after the handler. *)
Definition irq_return (tf : Z) : M unit :=
  regs ← pop_registers tf; sti;; iret_with (tf + TF_EIP) regs.

(** Only memory, the flag and the port log have changed when the handler of
    IRQ [n] is called. *)
Definition irq_taken (n : Z) (m m' : machine) : Prop :=
  m' = acknowledged (32 + n) (set_cpu (set_eflags_if false (cpu m)) (set_mem (mem m') m)).

(** The common start of both stubs: the frame is built and recorded. *)
Lemma stub_saves m n e esp c top :
  I m → context_ok c → word n → entry_stack esp c m = Done top m →
  owns_range owns (top - context_size c) (context_size c) →
  let cur := current_task (tasks m) in let tf := top - context_size c in
  (cur ≠ 0 → owns_range owns cur TASK_SIZEOF ∧ (cur + 40 <= tf ∨ top <= cur)) →
  ∃ m1 m2, interrupt_entry n e esp c m = Done tf m1 ∧
    task_update_trapframe tf m1 = Done tt m2 ∧ I m2 ∧
    m2 = set_cpu (set_eflags_if false (cpu m)) (set_mem (mem m2) m) ∧
    frame_context m2 tf = c ∧ frame_size m2 tf = context_size c ∧
    word_at m2 (tf + TF_INT_NUMBER) = n ∧ word_at m2 (tf + TF_CS) = ctx_cs c ∧
    (cur ≠ 0 → word_at m2 (cur + 4) = tf) ∧
    ∀ w, owns w → ¬ (tf <= w < top) → ¬ trapframe_field m w → byte_at m2 w = byte_at m w.
Proof.
  intros HI Hc Hn Ht Ho cur tf Hcur.
  pose proof (context_size_bounds c) as Hpos.
  destruct (interrupt_entry_ok m n e esp c top HI Hc Hn Ht Ho)
    as (m1 & E1 & K1 & N1 & F1 & B1 & C1 & S1 & T1 & Cs1). fold tf in E1, B1, C1, S1, T1, Cs1.
  assert (tf = top - context_size c) as Htf by done. rewrite <- Htf in Ho. clearbody tf.
  assert (tasks m1 = tasks m) as Et by (by rewrite N1).
  assert (word tf) as Hwtf by (apply (region_word (I := I) (owns := owns)); owned).
  destruct (task_update_trapframe_ok m1 tf K1 Hwtf) as (m2 & E2 & K2 & O2 & B2 & V2).
  { rewrite Et. fold cur. tauto. }
  rewrite Et in V2. fold cur in V2.
  assert (∀ w, tf <= w < top → byte_at m2 w = byte_at m1 w) as Bf.
  { intros w Hw. apply B2; [by owned|]. unfold trapframe_field. rewrite Et. fold cur.
    intros [H0 Hw']. destruct (Hcur H0) as [_ ?]. lia. }
  destruct (frame_same m1 m2 tf) as [C2 S2]; [intros w Hw; apply Bf; lia|].
  exists m1, m2. split_and!; try done.
  - unfold only_memory in O2. unfold interrupted in N1. rewrite O2 at 1. rewrite N1 at 1.
    by rewrite F1.
  - by rewrite C2.
  - by rewrite S2.
  - rewrite <- T1. unfold word_at, TF_INT_NUMBER. by rewrite !Bf by lia.
  - rewrite <- Cs1. unfold word_at, TF_CS. by rewrite !Bf by lia.
  - intros w Hw Hd Hf. rewrite B2, B1; [done|done|lia|done|].
    unfold trapframe_field in *. by rewrite Et.
Qed.

(** The handler is called if there is one. *)
Lemma irq_taken_ok n h esp c top m :
  I m → context_ok c → entry_stack esp c m = Done top m → 0 <= n < 16 →
  owns_range owns (top - context_size c) (context_size c) →
  idt_handlers (interrupts m) !! Z.to_nat (32 + n) = Some h →
  let cur := current_task (tasks m) in let tf := top - context_size c in
  (cur ≠ 0 → owns_range owns cur TASK_SIZEOF ∧ (cur + 40 <= tf ∨ top <= cur)) →
  ∃ m1, irq n esp c m =
      (when (negb (bool_decide (h = NULL_handler))) (call_handler h (32 + n));; irq_return tf) m1 ∧ I m1 ∧
    irq_taken n m m1 ∧ frame_context m1 tf = c ∧ frame_size m1 tf = context_size c ∧
    (cur ≠ 0 → word_at m1 (cur + 4) = tf) ∧
    ∀ w, owns w → ¬ (tf <= w < top) → ¬ trapframe_field m w → byte_at m1 w = byte_at m w.
Proof.
  intros HI Hc Ht Hn Ho Hh cur tf Hcur.
  pose proof (context_size_bounds c) as Hpos.
  destruct (stub_saves m (32 + n) 0 esp c top HI Hc ltac:(word_lia) Ht Ho Hcur)
    as (m1 & m2 & E1 & E2 & K2 & N2 & C2 & S2 & T2 & _ & V2 & B2).
  fold cur in V2. fold tf in E1, E2, C2, S2, T2, V2, B2.
  assert (tf = top - context_size c) as Htf by done. rewrite <- Htf in Ho. clearbody tf.
  unfold irq. run E1. unfold irq_common_stub. run E2.
  unfold frame_int_no. unfold TF_INT_NUMBER in *. load. rewrite T2.
  unfold mbind at 1, prog_bind at 1.
  rewrite (irq_handler_ok (32 + n) h m2) by (lia || by rewrite N2).
  set (m3 := acknowledged (32 + n) m2).
  assert (∀ w, byte_at m3 w = byte_at m2 w) as B3 by (intros w; by apply byte_at_same).
  exists m3. split; [done|]. destruct (frame_same m2 m3 tf) as [C3 S3]; [done|].
  split_and!.
  - by apply (region_same m2).
  - unfold irq_taken, m3. rewrite N2 at 1. done.
  - by rewrite C3.
  - by rewrite S3.
  - intros H0. rewrite <- (V2 H0). unfold word_at. by rewrite !B3.
  - intros w Hw Hd Hf. rewrite B3. by apply B2.
Qed.

Lemma irq_up_to_handler n h esp c top m :
  I m → context_ok c → entry_stack esp c m = Done top m → 0 <= n < 16 →
  owns_range owns (top - context_size c) (context_size c) →
  idt_handlers (interrupts m) !! Z.to_nat (32 + n) = Some h → h ≠ NULL_handler →
  let cur := current_task (tasks m) in let tf := top - context_size c in
  (cur ≠ 0 → owns_range owns cur TASK_SIZEOF ∧ (cur + 40 <= tf ∨ top <= cur)) →
  ∃ m1, irq n esp c m = (call_handler h (32 + n);; irq_return tf) m1 ∧ I m1 ∧
    irq_taken n m m1 ∧ frame_context m1 tf = c ∧ frame_size m1 tf = context_size c ∧
    (cur ≠ 0 → word_at m1 (cur + 4) = tf) ∧
    ∀ w, owns w → ¬ (tf <= w < top) → ¬ trapframe_field m w → byte_at m1 w = byte_at m w.
Proof.
  intros HI Hc Ht Hn Ho Hh Hne cur tf Hcur.
  destruct (irq_taken_ok n h esp c top m HI Hc Ht Hn Ho Hh Hcur) as (m1 & E & H).
  exists m1. split; [|exact H]. by rewrite E, bool_decide_false.
Qed.

Lemma irq_return_ok m tf :
  I m → owns_range owns tf (frame_size m tf) →
  irq_return tf m = Stop (Iret (frame_context m tf))
    (set_cpu (set_eflags_if (Z.testbit (ctx_eflags (frame_context m tf)) 9) (cpu m)) m).
Proof.
  intros HI Ho. pose proof (frame_size_bounds m tf) as H56.
  unfold irq_return. run (pop_registers_ok (I := I) (owns := owns) m tf HI ltac:(owned)). unfold sti. msteps.
  set (m1 := set_cpu _ m). assert (I m1) as K1 by by apply region_flag.
  assert (∀ a, word_at m1 a = word_at m a) as Hw by (intros; by apply word_at_regs).
  unfold TF_EIP. rewrite (iret_ok (I := I) (owns := owns) m1 (tf + 44) _ K1).
  - rewrite !Hw. unfold frame_context, TF_DS, TF_EDI, TF_ESI, TF_EBP, TF_EBX, TF_EDX, TF_ECX,
      TF_EAX, TF_EIP, TF_CS, TF_EFLAGS, TF_ESP, TF_SS.
    replace (tf + 44 + 4) with (tf + 48) by lia. replace (tf + 44 + 8) with (tf + 52) by lia.
    replace (tf + 44 + 12) with (tf + 56) by lia. by replace (tf + 44 + 16) with (tf + 60) by lia.
  - rewrite Hw. replace (tf + 44 + 4) with (tf + 48) by lia. unfold frame_size, TF_CS in *.
    destruct (ring3 _); owned.
Qed.
End Frames.

(** ** Exceptions *)

Lemma int_msgs_ok : Forall (λ s, Forall (λ c, c ≠ 0) (chars s)) int_msgs.
Proof. repeat (apply Forall_cons_2; [by repeat constructor|]). constructor. Qed.

(** What an exception without a handler prints. *)
Definition exception_text (n : Z) : list Z :=
  chars "Received interrupt: " ++ decimal n ++ chars " (" ++
  chars (default EmptyString (int_msgs !! Z.to_nat n)) ++ chars ")" ++ [NL].

Lemma prints_int n m :
  tty_ok (tty m) →
  tty_printint n m = Done tt (term_puts (decimal n) m) ∧
  prints (decimal n) m (term_puts (decimal n) m).
Proof.
  intros Hok. destruct (tty_printint_ok n m Hok) as [E Hok'].
  split; [done|]. split_and!; [apply tty_term_puts|done|apply term_puts_only_terminal].
Qed.

Lemma isr_handler_ok n m :
  0 <= n < 32 → prev_int (interrupts m) ≠ n → tty_ok (tty m) →
  idt_handlers (interrupts m) !! Z.to_nat n = Some NULL_handler →
  ∃ m', isr_handler call_handler n m = Done tt m' ∧
    prints (exception_text n) (set_interrupts (set_prev_int n (interrupts m)) m) m'.
Proof.
  intros Hn Hp Hok Hh. unfold isr_handler, exception_text. msteps.
  destruct (Z.eqb_spec n (prev_int (interrupts m))); [by subst|]. msteps.
  set (m0 := set_interrupts _ m).
  destruct (lookup_lt_is_Some_2 int_msgs (Z.to_nat n)) as [msg Hmsg]; [simpl; lia|].
  assert (Forall (λ c, c ≠ 0) (chars msg)) as Hmn
    by exact (proj1 (Forall_lookup _ _) int_msgs_ok _ _ Hmsg).
  destruct (prints_puts (chars "Received interrupt: ") m0 ltac:(by repeat constructor) Hok)
    as [E1 P1]. run E1.
  destruct (prints_int n _ (proj1 (proj2 P1))) as [E2 P2]. run E2.
  destruct (prints_puts (chars " (") _ ltac:(by repeat constructor) (proj1 (proj2 P2)))
    as [E3 P3]. run E3.
  set (m3 := term_puts (chars " (") _) in *.
  run (array_get_lookup int_msgs n msg m3 ltac:(lia) Hmsg).
  destruct (prints_puts (chars msg) m3 Hmn (proj1 (proj2 P3))) as [E4 P4]. run E4.
  destruct (prints_puts (chars ")" ++ [NL]) _ ltac:(by repeat constructor) (proj1 (proj2 P4)))
    as [E5 P5]. run E5.
  set (m5 := term_puts (chars ")" ++ [NL]) _) in *.
  pose proof (prints_trans _ _ _ _ _ P1 (prints_trans _ _ _ _ _ P2 (prints_trans _ _ _ _ _ P3
    (prints_trans _ _ _ _ _ P4 P5)))) as P. rewrite Hmsg. cbn [default from_option id].
  exists m5. split; [|exact P]. unfold dispatch. msteps.
  assert (idt_handlers (interrupts m5) !! Z.to_nat n = Some NULL_handler) as Hh5.
  { destruct P as (_ & _ & -> & _). exact Hh. }
  run (array_get_lookup _ n NULL_handler m5 ltac:(lia) Hh5). done.
Qed.

(** The second exception in a row with the same number ends in a loop. *)
Lemma isr_handler_repeats n m :
  prev_int (interrupts m) = n → tty_ok (tty m) →
  ∃ m', isr_handler call_handler n m = Stop Spin m' ∧ prints (chars "...") m m'.
Proof.
  intros Hp Hok. unfold isr_handler. msteps. rewrite Hp, Z.eqb_refl.
  destruct (prints_puts (chars "...") m ltac:(by repeat constructor) Hok) as [E P].
  eexists. split; [|exact P]. apply bind_stop. by run E.
Qed.

(** A key press, wherever it comes. *)
Lemma keyboard_irq_ok I owns `{!Region I owns} esp c top m :
  I m → context_ok c → entry_stack esp c m = Done top m →
  owns_range owns (top - context_size c) (context_size c) →
  (current_task (tasks m) ≠ 0 →
     owns_range owns (current_task (tasks m)) TASK_SIZEOF ∧
     (current_task (tasks m) + 40 <= top - context_size c ∨ top <= current_task (tasks m))) →
  idt_handlers (interrupts m) !! 33%nat = Some Machine.isr_key_press →
  kb_ok (keyboard m) → kb_tail (keyboard m) < KB_ELEMENTS →
  let code := next_scancode (acknowledged 33 m) in
  let k := decode (kb_state (keyboard m)) code in
  code ≠ 0xe0 → ¬ (k = 108 ∧ ctrl (kb_state (keyboard m)) = true) →
  ∃ m', irq 1 esp c m = Stop (Iret c) m' ∧ I m' ∧
    eflags_if (cpu m') = Z.testbit (ctx_eflags c) 9 ∧
    (kb_state (keyboard m'), kb_queue (keyboard m'))
      = press k (kb_state (keyboard m)) (kb_queue (keyboard m)) ∧ kb_ok (keyboard m') ∧
    (tasks m' = tasks m ∧ tty m' = tty m ∧ interrupts m' = interrupts m ∧
     timer m' = timer m ∧ gdt m' = gdt m) ∧
    ∀ w, owns w → ¬ (top - context_size c <= w < top) → ¬ trapframe_field m w →
      byte_at m' w = byte_at m w.
Proof.
  intros HI Hc Ht Ho Hcur Hh Hok Hlt code k Hcode Hk.
  destruct (irq_up_to_handler 1 Machine.isr_key_press esp c top m HI Hc Ht ltac:(lia) Ho Hh
    ltac:(done) Hcur) as (m1 & E1 & K1 & N1 & C1 & S1 & _ & B1).
  rewrite E1. cbn [call_handler].
  assert (next_scancode m1 = code) as Ec by (rewrite N1; exact eq_refl).
  assert (keyboard m1 = keyboard m) as Ek by (by rewrite N1).
  destruct (isr_key_press_ok m1) as (kb & E2 & Kb & P); rewrite ?Ek, ?Ec; try done.
  run E2. set (m2 := set_ports _ _).
  assert (∀ a, byte_at m2 a = byte_at m1 a) as B2 by (intros; by apply byte_at_same).
  destruct (frame_same m1 m2 (top - context_size c)) as [C2 S2]; [done|].
  assert (I m2) as K2 by (apply (region_same m1); [exact eq_refl|exact eq_refl|exact K1]).
  assert (tasks m2 = tasks m ∧ tty m2 = tty m ∧ interrupts m2 = interrupts m ∧
    timer m2 = timer m ∧ gdt m2 = gdt m) as (Et & Ey & Ei & Em & Eg).
  { change (tasks m1 = tasks m ∧ tty m1 = tty m ∧ interrupts m1 = interrupts m ∧
      timer m1 = timer m ∧ gdt m1 = gdt m). rewrite N1. by split_and!. }
  change (keyboard m2) with kb in *. assert (keyboard m2 = kb) as Ek2 by exact eq_refl.
  clearbody m2.
  rewrite (irq_return_ok (I := I) (owns := owns) m2 _ K2) by (rewrite S2, S1; exact Ho).
  rewrite C2, C1. eexists. split; [done|]. split_and!; try done.
  - by apply region_flag.
  - cbn [keyboard set_cpu]. rewrite Ek2. rewrite Ek, Ec in P. exact P.
  - cbn [keyboard set_cpu]. by rewrite Ek2.
  - intros w Hw Hd Hf. rewrite <- (B1 w Hw Hd Hf), <- B2. by apply byte_at_regs.
Qed.

(** ** Properties *)

(** C14: a key press is invisible to the code it interrupts.  In any context,
    kernel or user, the keyboard's interrupt saves the registers on the right
    stack, moves the modifiers and the queue of keys as [press] says, and
    resumes exactly the context it interrupted, that is every register of
    [context], which ES, FS and GS are not in; memory outside the new frame
    and the current task's frame pointer is untouched. *)
Theorem keyboard_irq_resumes I owns `{!Region I owns} esp c top m :
  I m → context_ok c → entry_stack esp c m = Done top m →
  owns_range owns (top - context_size c) (context_size c) →
  (current_task (tasks m) ≠ 0 →
     owns_range owns (current_task (tasks m)) TASK_SIZEOF ∧
     (current_task (tasks m) + 40 <= top - context_size c ∨ top <= current_task (tasks m))) →
  idt_handlers (interrupts m) !! 33%nat = Some Machine.isr_key_press →
  kb_ok (keyboard m) → kb_tail (keyboard m) < KB_ELEMENTS →
  let code := next_scancode (acknowledged 33 m) in
  let k := decode (kb_state (keyboard m)) code in
  code ≠ 0xe0 → ¬ (k = 108 ∧ ctrl (kb_state (keyboard m)) = true) →
  ∃ m', irq 1 esp c m = Stop (Iret c) m' ∧ I m' ∧
    eflags_if (cpu m') = Z.testbit (ctx_eflags c) 9 ∧
    (kb_state (keyboard m'), kb_queue (keyboard m'))
      = press k (kb_state (keyboard m)) (kb_queue (keyboard m)) ∧ kb_ok (keyboard m') ∧
    tasks m' = tasks m ∧ tty m' = tty m ∧
    ∀ w, owns w → ¬ (top - context_size c <= w < top) → ¬ trapframe_field m w →
      byte_at m' w = byte_at m w.
Proof.
  intros HI Hc Ht Ho Hcur Hh Hok Hlt code k Hcode Hk.
  destruct (keyboard_irq_ok I owns esp c top m HI Hc Ht Ho Hcur Hh Hok Hlt Hcode Hk)
    as (m' & E & K & F & P & Hok' & (T & Y & _) & B).
  exists m'. by split_and!.
Qed.

(** The user program about to be interrupted, with task structure and kernel
    stack in low memory. *)
Definition user_context : context :=
  Context GDT_USER_DATA_SEG 1 2 3 4 5 6 7 1052672 GDT_USER_CODE_SEG 0x202
    (Some (KERNEL_VIRT_BASE, GDT_USER_DATA_SEG)).

Lemma user_context_ok : context_ok user_context.
Proof. by split; try by split; vm_compute. Qed.

Definition user_running : machine :=
  set_interrupts (set_idt_handlers
      (<[33%nat := Machine.isr_key_press]> (idt_handlers (interrupts power_on)))
      (interrupts power_on))
    (set_gdt (set_tss_region (set_tss_esp0 0x9000 (tss_region (gdt power_on))) (gdt power_on))
      (set_tasks (set_current_task 0x8000 (tasks power_on)) key_waiting)).

Lemma keyboard_irq_resumes_witness :
  ∃ m', irq 1 0 user_context user_running = Stop (Iret user_context) m' ∧ unpaged m' ∧
    eflags_if (cpu m') = true ∧
    (kb_state (keyboard m'), kb_queue (keyboard m'))
      = press 97 (kb_state (keyboard user_running)) (kb_queue (keyboard user_running)) ∧
    kb_ok (keyboard m') ∧ tasks m' = tasks user_running ∧ tty m' = tty user_running ∧
    ∀ w, word w → ¬ (0x9000 - 64 <= w < 0x9000) → ¬ trapframe_field user_running w →
      byte_at m' w = byte_at user_running w.
Proof.
  apply (keyboard_irq_resumes unpaged word 0 user_context 0x9000 user_running).
  - done.
  - exact user_context_ok.
  - done.
  - intros i Hi. change (context_size user_context) with 64 in *. word_lia.
  - intros _. change (context_size user_context) with 64.
    change (current_task (tasks user_running)) with 0x8000. split; [|lia].
    intros i Hi. unfold TASK_SIZEOF in Hi. word_lia.
  - done.
  - exact key_waiting_ok.
  - done.
  - by vm_compute.
  - by vm_compute; intros [].
Defined.

(** C30: an exception is not survived.  The stub pops the saved DS twice, so
    everything after it is read one word too high: the handler prints its
    message, but what [iret] then loads is the old code segment selector as
    instruction pointer and the old flags as code segment, with the
    interrupt number in EAX, in every context and for every exception that
    has no handler. *)
Theorem exception_resumes_elsewhere I owns `{!Region I owns} n e esp c top m :
  I m → context_ok c → entry_stack esp c m = Done top m → 0 <= n < 32 →
  owns_range owns (top - context_size c) 68 →
  (current_task (tasks m) ≠ 0 →
     owns_range owns (current_task (tasks m)) TASK_SIZEOF ∧
     (current_task (tasks m) + 40 <= top - context_size c ∨ top <= current_task (tasks m))) →
  idt_handlers (interrupts m) !! Z.to_nat n = Some NULL_handler →
  prev_int (interrupts m) ≠ n → tty_ok (tty m) →
  ∃ r m', isr n e esp c m = Stop (Iret r) m' ∧
    tty m' = screen_puts (exception_text n) (tty m) ∧
    ctx_eip r = ctx_cs c ∧ ctx_cs r = u16 (ctx_eflags c) ∧ ctx_ds r = u16 (ctx_edi c) ∧
    ctx_eax r = n.
Proof.
  intros HI Hc Ht Hn Ho Hcur Hh Hp Hok.
  set (tf := top - context_size c) in *.
  pose proof (context_size_bounds c) as Hsz.
  destruct (stub_saves m n (if pushes_error_code n then e else 0) esp c top HI Hc
    ltac:(word_lia) Ht ltac:(owned) Hcur)
    as (m1 & m2 & E1 & E2 & K2 & N2 & C2 & _ & T2 & Cs2 & _). fold tf in E1, E2, C2, T2, Cs2.
  clearbody tf. unfold isr. run E1. unfold isr_common_stub. run E2.
  unfold TF_CS, TF_INT_NUMBER in *.
  unfold frame_int_no, TF_INT_NUMBER. load. rewrite T2.
  assert (tty m2 = tty m ∧ interrupts m2 = interrupts m) as [Ey Ei] by (by rewrite N2).
  destruct (isr_handler_ok n m2 Hn) as (m3 & E3 & P3); [by rewrite Ei|by rewrite Ey|by rewrite Ei|].
  run E3. destruct P3 as (T3 & _ & O3 & _).
  assert (cpu m3 = cpu m2 ∧ mem m3 = mem m2) as [Ec3 Em3] by (rewrite O3; done).
  assert (I m3) as K3 by by apply (region_same m2).
  assert (∀ a, word_at m3 a = word_at m2 a) as Hw3 by (intros; by apply word_at_same).
  load. cbv zeta.
  run (pop_registers_ok (I := I) (owns := owns) m3 (tf + 4) K3 ltac:(owned)).
  unfold sti. msteps. set (m4 := set_cpu _ m3).
  assert (I m4) as K4 by by apply region_flag.
  assert (∀ a, word_at m4 a = word_at m3 a) as Hw4 by (intros; by apply word_at_regs).
  rewrite (iret_ok (I := I) (owns := owns) m4 (tf + 4 + TF_EIP) _ K4)
    by (unfold TF_EIP; destruct (ring3 _); owned).
  eexists _, _. split; [reflexivity|]. rewrite !Hw4, !Hw3. unfold TF_EIP, TF_DS, TF_EAX.
  cbn [ctx_eip ctx_cs ctx_ds ctx_eax].
  replace (tf + 4 + 44) with (tf + 48) by lia. replace (tf + 48 + 4) with (tf + 52) by lia.
  replace (tf + 4 + 0) with (tf + 4) by lia. replace (tf + 4 + 32) with (tf + 36) by lia.
  split_and!; [|done| | |done].
  - change (tty m3 = screen_puts (exception_text n) (tty m)). by rewrite T3, <- Ey.
  - by rewrite <- C2.
  - by rewrite <- C2.
Qed.

(** A breakpoint in the user program. *)
Lemma exception_resumes_elsewhere_witness :
  let m := set_tty (tty clean_screen) user_running in
  ∃ r m', isr 3 0 0 user_context m = Stop (Iret r) m' ∧
    tty m' = screen_puts (chars "Received interrupt: 3 (Breakpoint)" ++ [NL]) (tty clean_screen) ∧
    ctx_eip r = GDT_USER_CODE_SEG ∧ ctx_cs r = 0x202 ∧ ctx_ds r = 1 ∧ ctx_eax r = 3.
Proof.
  apply (exception_resumes_elsewhere unpaged word 3 0 0 user_context 0x9000
    (set_tty (tty clean_screen) user_running)).
  - done.
  - exact user_context_ok.
  - done.
  - lia.
  - intros i Hi. change (context_size user_context) with 64. word_lia.
  - intros _. change (context_size user_context) with 64.
    change (current_task (tasks _)) with 0x8000. split; [|lia].
    intros i Hi. unfold TASK_SIZEOF in Hi. word_lia.
  - done.
  - done.
  - exact clean_screen_ok.
Defined.

(** An interrupt request nobody has installed a handler for, as all are
    before [pic_init] and [keyboard_init], is acknowledged and resumes exactly
    what it interrupted. *)
Theorem unhandled_irq_resumes I owns `{!Region I owns} n esp c top m :
  I m → context_ok c → entry_stack esp c m = Done top m → 0 <= n < 16 →
  owns_range owns (top - context_size c) (context_size c) →
  (current_task (tasks m) ≠ 0 →
     owns_range owns (current_task (tasks m)) TASK_SIZEOF ∧
     (current_task (tasks m) + 40 <= top - context_size c ∨ top <= current_task (tasks m))) →
  idt_handlers (interrupts m) !! Z.to_nat (32 + n) = Some NULL_handler →
  ∃ m', irq n esp c m = Stop (Iret c) m' ∧ I m' ∧
    eflags_if (cpu m') = Z.testbit (ctx_eflags c) 9 ∧
    io_log (ports m') = eoi (32 + n) ++ io_log (ports m) ∧
    (tasks m' = tasks m ∧ tty m' = tty m ∧ keyboard m' = keyboard m ∧ timer m' = timer m ∧
     interrupts m' = interrupts m ∧ gdt m' = gdt m) ∧
    ∀ w, owns w → ¬ (top - context_size c <= w < top) → ¬ trapframe_field m w →
      byte_at m' w = byte_at m w.
Proof.
  intros HI Hc Ht Hn Ho Hcur Hh.
  destruct (irq_taken_ok n NULL_handler esp c top m HI Hc Ht Hn Ho Hh Hcur)
    as (m1 & E1 & K1 & N1 & C1 & S1 & _ & B1).
  rewrite E1, bool_decide_true by done. cbn [negb when]. steps.
  rewrite (irq_return_ok (I := I) (owns := owns) m1 _ K1) by (rewrite S1; exact Ho).
  rewrite C1. eexists. split; [done|]. split_and!; cbn [cpu set_cpu eflags_if set_eflags_if
    ports tasks tty keyboard timer interrupts gdt]; try (by rewrite N1); try done.
  - by apply region_flag.
Qed.
