(* ===== verification/Schedule.v ===== *)
(** * Round-robin scheduling

    What the timer's interrupt, [task_update_trapframe], [scheduler] and
    [task_switch_asm] promise together: the tasks form a ring in memory, a
    tick stores the interrupted context in the ring and resumes the longest
    waiting task.  The abstract scheduler is a queue of contexts. *)

From S2P Require Import Prelude Machine Memory Kmalloc Gdt Pic Task Kernel.

Section Schedule.
Context {I : machine → Prop} {owns : Z → Prop} `{HR : !Region I owns}.

(** The kernel stack of each task. *)
Context (stack_lo stack_hi : Z → Z).

Definition on_stack (t a : Z) : Prop := stack_lo t <= a < stack_hi t.

Definition in_task (t a : Z) : Prop := t <= a < t + TASK_SIZEOF ∨ on_stack t a.

Definition runs_user (m : machine) (t : Z) : bool := negb (byte_at m (t + 16) =? 0).

(** ** The ring *)

Record task_ok (m : machine) (t : Z) : Prop := {
  tk_nonnull : t ≠ 0;
  tk_struct : owns_range owns t TASK_SIZEOF;
  tk_stack : owns_range owns (stack_lo t) (stack_hi t - stack_lo t);
  tk_apart : t + TASK_SIZEOF <= stack_lo t ∨ stack_hi t <= t;
  tk_base : runs_user m t = true → word_at m (t + 24) = stack_hi t
}.

(** Different tasks share no memory. *)
Record queue_ok (m : machine) (ts : list Z) : Prop := {
  qo_nodup : NoDup ts;
  qo_tasks t : t ∈ ts → task_ok m t;
  qo_apart t t' a : t ∈ ts → t' ∈ ts → t ≠ t' → in_task t a → ¬ in_task t' a
}.

#[export] Instance queue_ok_proper m : Proper ((≡ₚ) ==> impl) (queue_ok m).
Proof.
  intros l l' Hp [H1 H2 H3]. split.
  - by rewrite <- Hp.
  - intros t. rewrite <- Hp. apply H2.
  - intros t t' a. rewrite <- Hp. apply H3.
Qed.

(** [next_task] leads from [a] through the tasks [l]. *)
Fixpoint chain (m : machine) (a : Z) (l : list Z) : Prop :=
  match l with
  | [] => True
  | b :: l' => word_at m (a + 36) = b ∧ chain m b l'
  end.

(** The frame of a waiting task holds its context. *)
Definition waits (m : machine) (w : Z * context) : Prop :=
  let '(t, c) := w in
  let tf := word_at m (t + 4) in
  stack_lo t <= tf ∧ tf + frame_size m tf <= stack_hi t ∧
  frame_context m tf = c ∧ ring3 (ctx_cs c) = runs_user m t.

(** [cur] runs, [ws] wait in this order. *)
Record ring_ok (m : machine) (cur : Z) (ws : list (Z * context)) : Prop := {
  ro_cur : current_task (tasks m) = cur;
  ro_tasks : queue_ok m (cur :: ws.*1);
  ro_chain : chain m cur (ws.*1 ++ [cur]);
  ro_waits : Forall (waits m) ws;
  ro_tss : runs_user m cur = true → tss_esp0 (tss_region (gdt m)) = stack_hi cur
}.

(** The state between the two halves of a tick: everybody waits, the current
    task last. *)
Record parked (m : machine) (cur : Z) (l : list (Z * context)) : Prop := {
  pk_cur : current_task (tasks m) = cur;
  pk_tasks : queue_ok m l.*1;
  pk_chain : chain m cur l.*1;
  pk_last : last l.*1 = Some cur;
  pk_waits : Forall (waits m) l
}.

(** The timer's handler is installed, silent, and the scheduler is on. *)
Record timer_ready (m : machine) : Prop := {
  tr_handler : idt_handlers (interrupts m) !! 32%nat = Some pic_callback;
  tr_silent : pic_print (timer m) = false;
  tr_on : scheduler_initialized (tasks m) = true
}.

(** ** Framing: nothing but [t0]'s stack and frame pointer has changed *)

Definition agree_but (t0 : Z) (m m' : machine) : Prop :=
  ∀ w, owns w → ¬ on_stack t0 w → ¬ (t0 + 4 <= w < t0 + 8) → byte_at m' w = byte_at m w.

Section Agree.
Context {m m' : machine} {t0 : Z} {ts : list Z}.
Context (HA : agree_but t0 m m') (HQ : queue_ok m ts) (H0 : t0 ∈ ts).

Lemma agree_struct t k :
  t ∈ ts → 8 <= k < TASK_SIZEOF → byte_at m' (t + k) = byte_at m (t + k).
Proof using All.
  intros Ht Hk. pose proof (qo_tasks _ _ HQ t Ht) as T. unfold TASK_SIZEOF in *.
  assert (in_task t (t + k)) as Hin by (left; unfold TASK_SIZEOF; lia).
  apply HA; [apply (tk_struct _ _ T); unfold TASK_SIZEOF; lia| |].
  - intros Hs. destruct (decide (t = t0)) as [->|Hne].
    + pose proof (tk_apart _ _ T). unfold on_stack, TASK_SIZEOF in *. lia.
    + by apply (qo_apart _ _ HQ t t0 (t + k)); [..|right].
  - intros Hf. destruct (decide (t = t0)) as [->|Hne]; [lia|].
    apply (qo_apart _ _ HQ t t0 (t + k)); [done..|left; unfold TASK_SIZEOF; lia].
Qed.

Lemma agree_field t k :
  t ∈ ts → 8 <= k → k + 4 <= TASK_SIZEOF → word_at m' (t + k) = word_at m (t + k).
Proof using All.
  intros Ht Hk Hk'. unfold word_at. rewrite <- !Z.add_assoc.
  by rewrite !agree_struct by (done || lia).
Qed.

Lemma agree_user t : t ∈ ts → runs_user m' t = runs_user m t.
Proof using All. intros Ht. unfold runs_user. by rewrite agree_struct by (done || lia). Qed.

Lemma agree_tasks : queue_ok m' ts.
Proof using All.
  destruct HQ as [H1 H2 H3]. split; [done| |done]. intros t Ht.
  destruct (H2 t Ht) as [N S K A B]. split; try done.
  rewrite agree_user, agree_field by (done || unfold TASK_SIZEOF; lia). done.
Qed.

Lemma agree_chain a l : a ∈ ts → (∀ t, t ∈ l → t ∈ ts) → chain m a l → chain m' a l.
Proof using All.
  revert a. induction l as [|b l IH]; intros a Ha Hl; [done|]. cbn [chain].
  intros [E C]. split.
  - rewrite agree_field by (done || unfold TASK_SIZEOF; lia). done.
  - apply IH; [apply Hl, list_elem_of_here|intros t Ht; apply Hl; by right|done].
Qed.

Lemma agree_waits t c : t ∈ ts → t ≠ t0 → waits m (t, c) → waits m' (t, c).
Proof using All.
  intros Ht Hne (L & Hi & C & U). pose proof (qo_tasks _ _ HQ t Ht) as T.
  assert (∀ w, in_task t w → owns w → byte_at m' w = byte_at m w) as Hb.
  { intros w Hw Ho. pose proof (qo_apart _ _ HQ t t0 w Ht H0 Hne Hw) as Hn.
    apply HA; [done|intros H; apply Hn; by right|].
    intros H. apply Hn. left. unfold TASK_SIZEOF. lia. }
  assert (word_at m' (t + 4) = word_at m (t + 4)) as E4.
  { pose proof (tk_struct _ _ T) as Hs. unfold TASK_SIZEOF in Hs.
    unfold word_at. rewrite <- !Z.add_assoc.
    rewrite !Hb; try done; first [left; unfold TASK_SIZEOF; lia|apply Hs; lia]. }
  unfold waits. rewrite E4, agree_user by done. set (tf := word_at m (t + 4)) in *.
  destruct (frame_same m m' tf) as [-> ->]; [|done].
  intros w Hw. apply Hb; [right; unfold on_stack; lia|].
  pose proof (tk_stack _ _ T) as Hs. by apply (owns_range_at _ _ _ _ Hs); lia.
Qed.
End Agree.

(** ** A tick *)

(** The current task can be interrupted in context [c], its stack pointer
    being [esp] in kernel mode. *)
Record interruptible (m : machine) (esp : Z) (c : context) : Prop := {
  ib_context : context_ok c;
  ib_mode : ring3 (ctx_cs c) = runs_user m (current_task (tasks m));
  ib_room : let top := if ring3 (ctx_cs c) then stack_hi (current_task (tasks m)) else esp in
            stack_lo (current_task (tasks m)) <= top - context_size c ∧
            top <= stack_hi (current_task (tasks m))
}.

Lemma chain_snoc m a l x b :
  chain m a l → last (a :: l) = Some x → word_at m (x + 36) = b → chain m a (l ++ [b]).
Proof using.
  revert a. induction l as [|y l IH]; intros a; cbn [chain app].
  - by intros _ [= ->] <-.
  - intros [E C] Hx Hb. split; [done|]. by apply IH.
Qed.

Lemma interruptible_stack m esp c cur ws :
  ring_ok m cur ws → interruptible m esp c →
  let top := if ring3 (ctx_cs c) then stack_hi cur else esp in
  entry_stack esp c m = Done top m ∧ stack_lo cur <= top - context_size c ∧
  top <= stack_hi cur ∧ owns_range owns (top - context_size c) (context_size c).
Proof using.
  intros [Ec Eq _ _ Et] [Hc Hm Hr] top. rewrite Ec in Hm, Hr. cbv zeta in Hr. fold top in Hr.
  assert (cur ∈ cur :: ws.*1) as Hin by left.
  pose proof (tk_stack _ _ (qo_tasks _ _ Eq cur Hin)) as Hs.
  split_and!; [|tauto|tauto|by apply (owns_range_sub _ _ _ _ _ Hs); lia].
  apply entry_stack_ok. pose proof (co_ring _ Hc) as Hring. subst top. rewrite Hring in *.
  destruct (ctx_user_stack c); cbn in *; [by apply Et|done].
Qed.

(** The first half: the running context joins the queue. *)
Lemma tick_parks m cur ws esp c :
  I m → ring_ok m cur ws → timer_ready m → interruptible m esp c →
  ∃ m1, irq 0 esp c m = (call_handler pic_callback 32;;
      irq_return ((if ring3 (ctx_cs c) then stack_hi cur else esp) - context_size c)) m1 ∧
    I m1 ∧ irq_taken 0 m m1 ∧ parked m1 cur (ws ++ [(cur, c)]) ∧ agree_but cur m m1.
Proof using HR.
  intros HI HRing HT Hib. pose proof HRing as [Ec Eq Ech Ew Et].
  destruct (interruptible_stack m esp c cur ws HRing Hib) as (Htop & Hlo & Hhi & Ho).
  set (top := if ring3 (ctx_cs c) then stack_hi cur else esp) in *.
  pose proof Hib as [Hc Hm _]. rewrite Ec in Hm.
  assert (cur ∈ cur :: ws.*1) as Hin by left.
  pose proof (qo_tasks _ _ Eq cur Hin) as T.
  pose proof (context_size_bounds c) as Hpos.
  destruct (irq_up_to_handler 0 pic_callback esp c top m HI Hc Htop ltac:(lia) Ho
    (tr_handler _ HT) ltac:(done)) as (m1 & E1 & K1 & N1 & C1 & S1 & V1 & B1).
  { rewrite Ec. intros _. pose proof (tk_apart _ _ T). unfold TASK_SIZEOF in *.
    split; [apply T|lia]. }
  rewrite Ec in V1. specialize (V1 (tk_nonnull _ _ T)).
  assert (agree_but cur m m1) as HA.
  { intros w Hw Hs Hf. apply B1; [done|unfold on_stack in Hs; lia|].
    unfold trapframe_field. rewrite Ec. tauto. }
  exists m1. split_and!; [exact E1|done|done| |done].
  pose proof (agree_tasks HA Eq Hin) as Eq1.
  assert ((ws ++ [(cur, c)]).*1 = ws.*1 ++ [cur]) as El by exact (fmap_app fst ws [(cur, c)]).
  split; rewrite ?El.
  - by rewrite N1.
  - by rewrite <- Permutation_cons_append.
  - apply (agree_chain HA Eq Hin); [done| |done].
    intros t Ht. by rewrite <- Permutation_cons_append in Ht.
  - apply last_snoc.
  - apply Forall_app. split.
    + apply Forall_forall. intros [t c'] Ht. pose proof Ht as Ht1.
      apply (list_elem_of_fmap_2 fst) in Ht1. apply (agree_waits HA Eq Hin).
      * by right.
      * intros ->. destruct Eq as [[Hnot _]%NoDup_cons _ _]. by destruct Hnot.
      * by apply (proj1 (Forall_forall _ _) Ew).
    + apply Forall_singleton. cbn. rewrite V1, S1, C1. split_and!; [lia|lia|done|].
      by rewrite (agree_user HA Eq Hin).
Qed.

(** The second half: the head of the queue is resumed. *)
Lemma scheduler_resumes m cur n c rest :
  I m → parked m cur ((n, c) :: rest) → scheduler_initialized (tasks m) = true →
  ∃ m', scheduler m = Stop (Iret (interrupts_on c)) m' ∧ I m' ∧ switched m m' ∧
    ring_ok m' n rest ∧ eflags_if (cpu m') = true ∧ agree_but n m m' ∧
    tasks m' = set_current_task n (tasks m).
Proof using HR.
  intros HI [Ec Eq Ech El Ew] Hon. cbn [fmap list_fmap fst] in *.
  apply Forall_cons in Ew as [(L & Hi & C & U) Ew].
  assert (n ∈ n :: rest.*1) as Hn by left.
  assert (cur ∈ n :: rest.*1) as Hcur.
  { destruct (proj1 (last_Some _ _) El) as [l' ->]. apply elem_of_app. right. by left. }
  pose proof (qo_tasks _ _ Eq n Hn) as Tn. pose proof (qo_tasks _ _ Eq cur Hcur) as Tc.
  destruct Ech as [Hnext Ech]. set (tf := word_at m (n + 4)) in *.
  assert (owns_range owns tf (frame_size m tf)) as Ho
    by (apply (owns_range_sub _ _ _ _ _ (tk_stack _ _ Tn)); lia).
  pose proof (frame_size_bounds m tf) as H56.
  destruct (scheduler_ok (I := I) (owns := owns) m cur n tf HI Hon Ec (tk_nonnull _ _ Tc)
    (tk_struct _ _ Tc) Hnext (tk_nonnull _ _ Tn) (tk_struct _ _ Tn) eq_refl Ho)
    as (m' & E & K & S & G & T & F & B).
  rewrite C in E. assert (agree_but n m m') as HA.
  { intros w Hw Hs Hf. apply B; [done|]. unfold on_stack in Hs. lia. }
  exists m'. split_and!; try done.
  - split.
    + by rewrite T.
    + apply (agree_tasks HA Eq Hn).
    + apply (chain_snoc _ _ _ cur); [|done|].
      * apply (agree_chain HA Eq Hn); [done| |done]. intros t Ht. by right.
      * rewrite (agree_field HA Eq Hn) by (done || unfold TASK_SIZEOF; lia). done.
    + apply Forall_forall. intros [t c'] Ht. pose proof Ht as Ht1.
      apply (list_elem_of_fmap_2 fst) in Ht1. apply (agree_waits HA Eq Hn); [by right| |].
      * intros ->. by destruct (proj1 (NoDup_cons _ _) (qo_nodup _ _ Eq)).
      * by apply (proj1 (Forall_forall _ _) Ew).
    + rewrite (agree_user HA Eq Hn n Hn). intros Hu. rewrite G. unfold tss_for.
      unfold runs_user in Hu. destruct (byte_at m (n + 16) =? 0) eqn:Eb; [done|].
      cbn [tss_region set_tss_region tss_esp0 set_tss_esp0]. apply (tk_base _ _ Tn).
      unfold runs_user. by rewrite Eb.
Qed.

Lemma timer_callback_ok m :
  pic_print (timer m) = false →
  call_handler pic_callback 32 m
    = scheduler (set_timer (set_tick (tick (timer m) [+] 1) (timer m)) m).
Proof using.
  intros Hp. cbn [call_handler]. unfold pic_callback_with. msteps.
  cbn [timer set_timer pic_print set_tick]. rewrite Hp. done.
Qed.

(** A state that differs elsewhere is as good. *)
Lemma parked_same m m' cur l :
  cpu m' = cpu m → mem m' = mem m → tasks m' = tasks m → parked m cur l → parked m' cur l.
Proof using.
  intros Hc Hm Ht [P1 P2 P3 P4 P5].
  assert (∀ w, byte_at m' w = byte_at m w) as Hb by (intros; by apply byte_at_same).
  assert (∀ w, word_at m' w = word_at m w) as Hw by (intros; by apply word_at_same).
  assert (∀ t, runs_user m' t = runs_user m t) as Hu by (intros; unfold runs_user; by rewrite Hb).
  split; [by rewrite Ht| | |done|].
  - destruct P2 as [Q1 Q2 Q3]. split; [done| |done]. intros t Hin.
    destruct (Q2 t Hin) as [? ? ? ? Q]. split; try done. by rewrite Hu, Hw.
  - clear -P3 Hw. revert cur P3. induction l.*1 as [|b ts IH]; intros cur; [done|].
    cbn [chain]. rewrite Hw. intros [? ?]. split; [done|by apply IH].
  - apply (Forall_impl _ _ _ P5). intros [t c] H. unfold waits in *. rewrite Hw, Hu.
    destruct (frame_same m m' (word_at m (t + 4))) as [-> ->]; [intros; apply Hb|done].
Qed.

(** One tick of the timer. *)
Lemma timer_tick m cur ws esp c n c' rest :
  I m → ring_ok m cur ws → timer_ready m → interruptible m esp c →
  ws ++ [(cur, c)] = (n, c') :: rest →
  ∃ m', irq 0 esp c m = Stop (Iret (interrupts_on c')) m' ∧ I m' ∧ ring_ok m' n rest ∧
    timer_ready m' ∧ eflags_if (cpu m') = true ∧ tick (timer m') = tick (timer m) [+] 1 ∧
    io_log (ports m') = Out 0x20 0x20 :: io_log (ports m) ∧
    (∀ w, owns w → ¬ in_task cur w → ¬ in_task n w → byte_at m' w = byte_at m w) ∧
    keyboard m' = keyboard m ∧ tty m' = tty m.
Proof using HR.
  intros HI HRing HT Hib Hq.
  destruct (tick_parks m cur ws esp c HI HRing HT Hib) as (m1 & E1 & K1 & N1 & P1 & A1).
  rewrite Hq in P1.
  assert (timer m1 = timer m ∧ interrupts m1 = interrupts m ∧ gdt m1 = gdt m ∧
    tasks m1 = tasks m ∧ io_log (ports m1) = Out 0x20 0x20 :: io_log (ports m) ∧
    keyboard m1 = keyboard m ∧ tty m1 = tty m)
    as (Etm & Ein & Eg & Ets & Elog & Ekb & Ety).
  { unfold irq_taken in N1. rewrite N1. by split_and!. }
  destruct HT as [R1 R2 R3].
  set (m2 := set_timer (set_tick (tick (timer m) [+] 1) (timer m)) m1).
  assert (∀ a, byte_at m2 a = byte_at m1 a) as B2 by (intros; by apply byte_at_same).
  destruct (scheduler_resumes m2 cur n c' rest) as (m' & E & K & S & RO & F & A & T).
  { apply (region_same m1); [exact eq_refl|exact eq_refl|exact K1]. }
  { apply (parked_same m1); [exact eq_refl|exact eq_refl|exact eq_refl|exact P1]. }
  { change (scheduler_initialized (tasks m1) = true). by rewrite Ets. }
  exists m'. split.
  { rewrite E1. apply bind_stop. rewrite timer_callback_ok by (by rewrite Etm).
    rewrite Etm. exact E. }
  unfold switched in S. split_and!; try done.
  - split; rewrite S.
    + change (idt_handlers (interrupts m1) !! 32%nat = Some pic_callback). by rewrite Ein.
    + done.
    + change (scheduler_initialized (tasks m') = true). rewrite T.
      change (scheduler_initialized (tasks m1) = true). by rewrite Ets.
  - by rewrite S.
  - rewrite S. exact Elog.
  - intros w Hw Hc Hn. unfold in_task, on_stack, TASK_SIZEOF in *.
    rewrite (A w Hw), B2, (A1 w Hw); [done|unfold on_stack; lia..].
  - rewrite S. exact Ekb.
  - rewrite S. exact Ety.
Qed.

(** ** Executions *)

(** Between two ticks the current task does what it likes with its own stack
    and with everything that is not part of the ring; other interrupts move
    its frame pointer. *)
Definition runs_on (m m' : machine) : Prop :=
  I m' ∧ tasks m' = tasks m ∧ gdt m' = gdt m ∧ timer_ready m' ∧
  agree_but (current_task (tasks m)) m m'.

(** An execution, with the task and the context that each tick resumes. *)
Inductive executes : machine → list (Z * context) → machine → Prop :=
| executes_nil m : executes m [] m
| executes_tick m m1 esp c r m2 trace m3 :
    runs_on m m1 → interruptible m1 esp c → irq 0 esp c m1 = Stop (Iret r) m2 →
    executes m2 trace m3 → executes m ((current_task (tasks m2), r) :: trace) m3.

Lemma ring_ok_runs m m' cur ws : ring_ok m cur ws → runs_on m m' → ring_ok m' cur ws.
Proof using HR.
  intros [Ec Eq Ech Ew Et] (HI & T & G & _ & B). rewrite Ec in B.
  rename B into HA. assert (cur ∈ cur :: ws.*1) as Hin by left. split.
  - by rewrite T.
  - by apply (agree_tasks HA Eq Hin).
  - apply (agree_chain HA Eq Hin); [done| |done].
    intros t Ht. by rewrite <- Permutation_cons_append in Ht.
  - apply Forall_forall. intros [t c'] Ht. pose proof Ht as Ht1.
    apply (list_elem_of_fmap_2 fst) in Ht1. apply (agree_waits HA Eq Hin); [by right| |].
    + intros ->. by destruct (proj1 (NoDup_cons _ _) (qo_nodup _ _ Eq)).
    + by apply (proj1 (Forall_forall _ _) Ew).
  - rewrite (agree_user HA Eq Hin) by done. by rewrite G.
Qed.

(** A ring turned by one place. *)
Lemma rotated_lookup (x : Z) l k :
  (l ++ [x]) !! (k mod S (length l))%nat = (x :: l) !! (S k mod S (length l))%nat.
Proof using.
  pose proof (Nat.mod_upper_bound k (S (length l)) ltac:(done)) as Hb.
  assert (S k mod S (length l) = if decide (k mod S (length l) = length l) then 0
    else S (k mod S (length l)))%nat as ->.
  { pose proof (Nat.div_mod_eq k (S (length l))) as Ek. case_decide as Hd.
    - symmetry. apply (Nat.mod_unique _ _ (S (k / S (length l)))); nia.
    - symmetry. apply (Nat.mod_unique _ _ (k / S (length l))); nia. }
  case_decide as Hd.
  - rewrite Hd. by rewrite lookup_app_r, Nat.sub_diag by done.
  - by rewrite lookup_app_l by lia.
Qed.

(** What a trace looks like from a ring. *)
Definition in_turn (cur : Z) (ws trace : list (Z * context)) : Prop :=
  (∀ k, (k < length trace)%nat →
     trace.*1 !! k = (ws.*1 ++ [cur]) !! (k mod S (length ws))%nat) ∧
  (∀ k t c, (k < length trace)%nat → ws !! k = Some (t, c) →
     trace !! k = Some (t, interrupts_on c)).

Lemma in_turn_cons cur ws c n c' rest trace :
  ws ++ [(cur, c)] = (n, c') :: rest → in_turn n rest trace →
  in_turn cur ws ((n, interrupts_on c') :: trace).
Proof using.
  intros Hq [H1 H2]. pose proof (f_equal length Hq) as Hl. rewrite length_app in Hl.
  cbn [length] in Hl. assert (length rest = length ws) as El by lia. split.
  - intros [|k] Hk; cbn [length] in Hk.
    + change ([cur]) with ([(cur, c)].*1). rewrite <- fmap_app, Hq.
      by rewrite Nat.mod_small by lia.
    + cbn. rewrite H1 by lia. change ([cur]) with ([(cur, c)].*1). rewrite <- fmap_app, Hq, El.
      cbn [fmap list_fmap fst]. rewrite <- El, <- (length_fmap fst rest). apply rotated_lookup.
  - intros k t d Hk Hw. assert (((n, c') :: rest) !! k = Some (t, d)) as Hq'
      by (rewrite <- Hq; by apply lookup_app_l_Some).
    destruct k as [|k]; cbn in *; [by injection Hq' as -> ->|]. apply H2; [lia|done].
Qed.

Lemma executes_in_turn m trace m' cur ws :
  executes m trace m' → I m → ring_ok m cur ws → timer_ready m →
  in_turn cur ws trace ∧
  ∃ cur' ws', I m' ∧ ring_ok m' cur' ws' ∧ timer_ready m' ∧ cur' :: ws'.*1 ≡ₚ cur :: ws.*1.
Proof using HR.
  intros H. revert cur ws.
  induction H as [m|m m1 esp c r m2 trace m3 Hrun Hib Hirq Hex IH]; intros cur ws HI HRing HT.
  - split; [|by exists cur, ws]. split; intros k; cbn; lia.
  - pose proof (ring_ok_runs m m1 cur ws HRing Hrun) as HR1.
    destruct Hrun as (K1 & _ & _ & HT1 & _).
    destruct (ws ++ [(cur, c)]) as [|[n c'] rest] eqn:Hq; [by destruct ws|].
    destruct (timer_tick m1 cur ws esp c n c' rest K1 HR1 HT1 Hib Hq)
      as (m2' & E & K2 & R2 & T2 & _).
    rewrite E in Hirq. injection Hirq as <- <-.
    destruct (IH n rest K2 R2 T2) as (Hin & cur' & ws' & K3 & R3 & T3 & Hp).
    rewrite (ro_cur _ _ _ R2). split; [by eapply in_turn_cons|].
    exists cur', ws'. split_and!; [done..|]. rewrite Hp.
    apply (f_equal (fmap fst)) in Hq. rewrite fmap_app in Hq. cbn in Hq.
    change (n :: rest.*1 ≡ₚ cur :: ws.*1). rewrite <- Hq. by rewrite <- Permutation_cons_append.
Qed.
End Schedule.

Lemma interrupts_on_id c :
  Z.testbit (ctx_eflags c) 9 = true → interrupts_on c = c.
Proof.
  intros Hb. destruct c as [ds edi esi ebp ebx edx ecx eax eip cs fl us]. cbn [ctx_eflags] in Hb.
  unfold interrupts_on. cbn [ctx_ds ctx_edi ctx_esi ctx_ebp ctx_ebx ctx_edx ctx_ecx ctx_eax
    ctx_eip ctx_cs ctx_eflags ctx_user_stack]. f_equal. apply Z.bits_inj'. intros i Hi. rewrite Z.lor_spec.
  change 0x200 with (2 ^ 9). rewrite Z.pow2_bits_eqb by lia.
  destruct (Z.eqb_spec 9 i) as [<-|]; [by rewrite Hb|apply orb_false_r].
Qed.

(** ** Properties *)

(** Two tasks in low memory: a kernel task at 0x8000 that runs, and a user
    task at 0x8100 as [task_create_user] leaves it. *)
Definition kernel_task : Z := 0x8000.
Definition first_user_task : Z := 0x8100.
Definition low_stack (t : Z) : Z := if t =? kernel_task then 0x10000 else 0x12000.
Definition high_stack (t : Z) : Z := low_stack t + 4096.

Definition two_tasks : machine :=
  set_tasks (TaskState kernel_task kernel_task first_user_task (user_task (tasks power_on))
      true true)
    (set_timer (TimerState false 0)
      (set_interrupts (set_idt_handlers
          (<[32%nat := pic_callback]> (idt_handlers (interrupts power_on)))
          (interrupts power_on))
        (set_mem (words_at
          [(kernel_task + 36, first_user_task); (first_user_task + 36, kernel_task);
           (first_user_task + 4, 0x13000 - 64); (first_user_task + 16, 1);
           (first_user_task + 24, 0x13000); (0x13000 - 64 + TF_DS, GDT_USER_DATA_SEG);
           (0x13000 - 64 + TF_EIP, 1052672); (0x13000 - 64 + TF_CS, GDT_USER_CODE_SEG);
           (0x13000 - 64 + TF_EFLAGS, 2); (0x13000 - 64 + TF_ESP, KERNEL_VIRT_BASE);
           (0x13000 - 64 + TF_SS, GDT_USER_DATA_SEG)]) power_on))).

Definition fresh_user : context :=
  Context GDT_USER_DATA_SEG 0 0 0 0 0 0 0 1052672 GDT_USER_CODE_SEG 2
    (Some (KERNEL_VIRT_BASE, GDT_USER_DATA_SEG)).

Definition kernel_context : context :=
  Context GDT_KERNEL_DATA_SEG 1 2 3 4 5 6 7 3222284288 GDT_KERNEL_CODE_SEG 0x202 None.

Lemma two_tasks_ring :
  ring_ok (owns := word) low_stack high_stack two_tasks kernel_task
    [(first_user_task, fresh_user)].
Proof.
  assert (∀ t, t ∈ kernel_task :: [(first_user_task, fresh_user)].*1 →
    t = kernel_task ∨ t = first_user_task) as Hcases.
  { intros t [->|Ht]%elem_of_cons; [by left|right]. by apply list_elem_of_singleton in Ht. }
  split.
  - done.
  - split.
    + apply NoDup_cons. split; [|apply NoDup_singleton].
      intros Ht%list_elem_of_singleton. done.
    + assert (∀ a n, 0 <= a → a + n < W32 → owns_range word a n) as Hlow
        by (intros a n Ha Hn i Hi; unfold word; lia).
      intros t Ht. unfold high_stack. destruct (Hcases t Ht) as [-> | ->]; split; try done.
      1, 4: apply Hlow; by vm_compute.
      1, 3: rewrite Z.add_simpl_l; apply Hlow; by vm_compute.
      all: by left; vm_compute.
    + intros t t' a Ht Ht' Hne. unfold in_task, on_stack, high_stack, TASK_SIZEOF.
      destruct (Hcases t Ht) as [-> | ->], (Hcases t' Ht') as [-> | ->]; try done;
        change (low_stack kernel_task) with 0x10000; change (low_stack first_user_task) with 0x12000;
        unfold kernel_task, first_user_task; lia.
  - by vm_compute.
  - apply Forall_singleton. by vm_compute.
  - by vm_compute.
Qed.

Lemma two_tasks_ready : timer_ready two_tasks.
Proof. by split. Qed.

Lemma kernel_context_ok : context_ok kernel_context.
Proof. by split; try by split; vm_compute. Qed.

Lemma two_tasks_interruptible : interruptible low_stack high_stack two_tasks 0x11000 kernel_context.
Proof.
  split; [exact kernel_context_ok|by vm_compute|]. split; by vm_compute.
Qed.

(** C2: a tick of the timer implements one step of a round-robin queue.
    Whatever context [c] it interrupts, in kernel or in user mode, [c] joins
    the end of the queue and the context at its head is resumed with
    interrupts on: exactly as it was, if it had been interrupted by a tick.
    The ring, the frames and the task-state segment again represent the new
    queue, the tick is counted and acknowledged, and no memory but that of
    the two tasks changes. *)
Theorem timer_tick_refines I owns `{!Region I owns} lo hi m cur ws esp c n c' rest :
  I m → ring_ok (owns := owns) lo hi m cur ws → timer_ready m → interruptible lo hi m esp c →
  ws ++ [(cur, c)] = (n, c') :: rest →
  ∃ m', irq 0 esp c m = Stop (Iret (interrupts_on c')) m' ∧ I m' ∧
    ring_ok (owns := owns) lo hi m' n rest ∧ timer_ready m' ∧
    (Z.testbit (ctx_eflags c') 9 = true → interrupts_on c' = c') ∧
    eflags_if (cpu m') = true ∧ tick (timer m') = tick (timer m) [+] 1 ∧
    io_log (ports m') = Out 0x20 0x20 :: io_log (ports m) ∧
    (∀ w, owns w → ¬ in_task lo hi cur w → ¬ in_task lo hi n w → byte_at m' w = byte_at m w).
Proof.
  intros HI HRing HT Hib Hq.
  destruct (timer_tick lo hi m cur ws esp c n c' rest HI HRing HT Hib Hq)
    as (m' & E & K & R & T & F & Tk & L & B & _).
  exists m'. split_and!; try done. apply interrupts_on_id.
Qed.

(** The kernel task is interrupted, the user task starts. *)
Lemma timer_tick_refines_witness :
  ∃ m', irq 0 0x11000 kernel_context two_tasks = Stop (Iret (interrupts_on fresh_user)) m' ∧
    unpaged m' ∧
    ring_ok (owns := word) low_stack high_stack m' first_user_task
      [(kernel_task, kernel_context)] ∧
    timer_ready m' ∧
    (Z.testbit (ctx_eflags fresh_user) 9 = true → interrupts_on fresh_user = fresh_user) ∧
    eflags_if (cpu m') = true ∧ tick (timer m') = tick (timer two_tasks) [+] 1 ∧
    io_log (ports m') = Out 0x20 0x20 :: io_log (ports two_tasks) ∧
    (∀ w, word w → ¬ in_task low_stack high_stack kernel_task w →
       ¬ in_task low_stack high_stack first_user_task w →
       byte_at m' w = byte_at two_tasks w).
Proof.
  apply (timer_tick_refines unpaged word low_stack high_stack two_tasks kernel_task
    [(first_user_task, fresh_user)]).
  - done.
  - exact two_tasks_ring.
  - exact two_tasks_ready.
  - exact two_tasks_interruptible.
  - done.
Defined.

(** C3: scheduling is fair and never stops.  In every execution, the tasks
    are resumed in the order of the ring, over and over, so each of them once
    in as many ticks as there are tasks; a task that waits at position [k]
    resumes its saved context at tick [k + 1]; and from any state an
    execution reaches, the next tick resumes a task again. *)
Theorem round_robin_fair I owns `{!Region I owns} lo hi m cur ws trace m' :
  I m → ring_ok (owns := owns) lo hi m cur ws → timer_ready m →
  executes (I := I) (owns := owns) lo hi m trace m' →
  (∀ k, (k < length trace)%nat →
     trace.*1 !! k = (ws.*1 ++ [cur]) !! (k mod S (length ws))%nat) ∧
  (∀ k t c, (k < length trace)%nat → ws !! k = Some (t, c) →
     trace !! k = Some (t, interrupts_on c)) ∧
  (∀ m1 esp c, runs_on (I := I) (owns := owns) lo hi m' m1 → interruptible lo hi m1 esp c →
     ∃ r m2, irq 0 esp c m1 = Stop (Iret r) m2 ∧
       executes (I := I) (owns := owns) lo hi m' [(current_task (tasks m2), r)] m2).
Proof.
  intros HI HRing HT He.
  destruct (executes_in_turn lo hi m trace m' cur ws He HI HRing HT)
    as ([H1 H2] & cur' & ws' & HI' & HR' & HT' & _).
  split_and!; [done|done|]. intros m1 esp c Hrun Hib.
  pose proof (ring_ok_runs lo hi m' m1 cur' ws' HR' Hrun) as HR1.
  destruct (ws' ++ [(cur', c)]) as [|[n c'] rest] eqn:Hq; [by destruct ws'|].
  destruct Hrun as (K1 & P1 & P2 & T1 & P3).
  destruct (timer_tick lo hi m1 cur' ws' esp c n c' rest K1 HR1 T1 Hib Hq) as (m2 & E & _).
  exists (interrupts_on c'), m2. split; [done|].
  eapply executes_tick; [split_and!; eassumption|exact Hib|exact E|constructor].
Qed.

Lemma two_tasks_tick :
  ∃ m', executes (I := unpaged) (owns := word) low_stack high_stack two_tasks
    [(first_user_task, interrupts_on fresh_user)] m'.
Proof.
  destruct (timer_tick (I := unpaged) (owns := word) low_stack high_stack two_tasks kernel_task
    [(first_user_task, fresh_user)] 0x11000 kernel_context first_user_task fresh_user
    [(kernel_task, kernel_context)] eq_refl two_tasks_ring two_tasks_ready
    two_tasks_interruptible eq_refl) as (m' & E & _ & R & _).
  exists m'. rewrite <- (ro_cur _ _ _ _ _ R).
  eapply executes_tick; [|exact two_tasks_interruptible|exact E|constructor].
  split_and!; [done|done|done|exact two_tasks_ready|intros w _ _ _; reflexivity].
Qed.

Lemma round_robin_fair_witness :
  ∃ m', let trace := [(first_user_task, interrupts_on fresh_user)] in
  (∀ k, (k < length trace)%nat →
     trace.*1 !! k = ([first_user_task; kernel_task]) !! (k mod 2)%nat) ∧
  (∀ k t c, (k < length trace)%nat → [(first_user_task, fresh_user)] !! k = Some (t, c) →
     trace !! k = Some (t, interrupts_on c)) ∧
  (∀ m1 esp c, runs_on (I := unpaged) (owns := word) low_stack high_stack m' m1 →
     interruptible low_stack high_stack m1 esp c →
     ∃ r m2, irq 0 esp c m1 = Stop (Iret r) m2 ∧
       executes (I := unpaged) (owns := word) low_stack high_stack m'
         [(current_task (tasks m2), r)] m2).
Proof.
  destruct two_tasks_tick as [m' H]. exists m'.
  apply (round_robin_fair unpaged word low_stack high_stack two_tasks kernel_task
    [(first_user_task, fresh_user)] _ m' eq_refl two_tasks_ring two_tasks_ready H).
Defined.

(** No task is ever lost.  In every state an execution reaches, the ring
    in memory is intact and holds the same tasks: one runs, the others wait
    with their contexts in their frames. *)
Theorem ring_is_preserved I owns `{!Region I owns} lo hi m cur ws trace m' :
  I m → ring_ok (owns := owns) lo hi m cur ws → timer_ready m →
  executes (I := I) (owns := owns) lo hi m trace m' →
  ∃ cur' ws', I m' ∧ ring_ok (owns := owns) lo hi m' cur' ws' ∧ timer_ready m' ∧
    cur' :: ws'.*1 ≡ₚ cur :: ws.*1.
Proof. intros HI HRing HT He. by eapply executes_in_turn. Qed.

Lemma ring_is_preserved_witness :
  ∃ m' cur' ws', unpaged m' ∧ ring_ok (owns := word) low_stack high_stack m' cur' ws' ∧
    timer_ready m' ∧ cur' :: ws'.*1 ≡ₚ [kernel_task; first_user_task].
Proof.
  destruct two_tasks_tick as [m' H]. exists m'.
  apply (ring_is_preserved unpaged word low_stack high_stack two_tasks kernel_task
    [(first_user_task, fresh_user)] _ m' eq_refl two_tasks_ring two_tasks_ready H).
Defined.
