(* ===== verification/Create.v ===== *)
(** * Creation of tasks

    What [task_init], [task_create_kernel] and [task_create_user] of
    kernel/task/task.c do to the ring of tasks: the first makes the boot task
    a ring of its own, the others put a task behind [task_list_tail] whose
    frame holds its first context.  The task comes from the heap, its kernel
    stack from the page allocator. *)

From stdpp Require Import functions.
From S2P Require Import Prelude Machine Memory Cstring Bitmap Pmm Paging Kmalloc Gdt Pic Vmm.
From S2P Require Import Userspace Task Kernel Schedule.

(** ** The contexts new tasks start in *)

Section Start.
Context `{L : Layout}.

Definition user_start : context :=
  Context GDT_USER_DATA_SEG 0 0 0 0 0 0 0 (u32 task_userspace_addr) GDT_USER_CODE_SEG 0x2
    (Some (KERNEL_VIRT_BASE, GDT_USER_DATA_SEG)).

Definition kernel_start : context :=
  Context GDT_KERNEL_DATA_SEG 0 0 0 0 0 0 0 (u32 task_test_addr) GDT_KERNEL_CODE_SEG 0x2
    None.
End Start.

(** ** A link of the ring is replaced *)

Lemma chain_app m a l1 l2 x :
  last (a :: l1) = Some x → chain m a (l1 ++ l2) ↔ chain m a l1 ∧ chain m x l2.
Proof.
  revert a. induction l1 as [|b l1 IH]; intros a.
  - intros [= ->]. cbn [app chain]. tauto.
  - cbn [app chain]. intros Hx. rewrite (IH b) by done. tauto.
Qed.

Lemma chain_same m m' a l :
  (∀ x, x ∈ a :: l → word_at m' (x + 36) = word_at m (x + 36)) → chain m a l → chain m' a l.
Proof.
  revert a. induction l as [|b l IH]; intros a HW; [done|]. cbn [chain]. intros [E C].
  split; [rewrite HW; [done|left]|]. apply IH; [intros x Hx; apply HW; by right|done].
Qed.

(** The link of the last element is not part of the chain. *)
Lemma chain_keep m m' a l :
  NoDup (a :: l) →
  (∀ x, x ∈ a :: l → last (a :: l) ≠ Some x → word_at m' (x + 36) = word_at m (x + 36)) →
  chain m a l → chain m' a l.
Proof.
  revert a. induction l as [|b l IH]; intros a; [done|].
  intros [Ha Hnd]%NoDup_cons Hk. cbn [chain]. intros [E C]. split.
  - rewrite Hk; [done|left|]. intros Hl. apply Ha.
    destruct (proj1 (last_Some _ _) Hl) as [[|? l'] Hl']; [by simplify_list_eq|].
    injection Hl' as -> ->. apply elem_of_app. right. by left.
  - apply IH; [done| |done]. intros x Hx Hl. apply Hk; [by right|exact Hl].
Qed.

(** Between the last and the first element of a ring there is room for one
    more. *)
Lemma chain_insert m m' a l1 l2 t tail hd :
  NoDup (a :: l1 ++ l2) → last (a :: l1) = Some tail → head (l2 ++ [a]) = Some hd →
  (∀ x, x ∈ a :: l1 ++ l2 → x ≠ tail → word_at m' (x + 36) = word_at m (x + 36)) →
  word_at m' (tail + 36) = t → word_at m' (t + 36) = hd →
  chain m a ((l1 ++ l2) ++ [a]) → chain m' a ((l1 ++ t :: l2) ++ [a]).
Proof.
  change (a :: l1 ++ l2) with ((a :: l1) ++ l2). rewrite <- !app_assoc.
  intros (N1 & Hd & N2)%NoDup_app Htl Hhd Hl Vt Vn [C1 C2]%(chain_app _ _ _ _ tail Htl).
  apply (chain_app _ _ _ _ tail Htl). split.
  - apply (chain_keep m); [done| |done]. intros x Hx Hne.
    apply Hl; [apply elem_of_app; by left|]. intros ->. by destruct Hne.
  - cbn [app chain]. split; [done|]. pose proof (last_snoc a l2) as Hlast.
    assert (tail ∈ a :: l1) as Htl1.
    { destruct (proj1 (last_Some _ _) Htl) as [l' ->]. apply elem_of_app. right. by left. }
    assert (NoDup (l2 ++ [a])) as Nr.
    { apply NoDup_app. split_and!; [done| |apply NoDup_singleton].
      intros x Hx ->%list_elem_of_singleton. apply (Hd a); [left|done]. }
    assert (∀ x, x ∈ l2 ++ [a] → a ≠ x → word_at m' (x + 36) = word_at m (x + 36)) as Hl2.
    { intros x [Hx| ->%list_elem_of_singleton]%elem_of_app Hne; [|done].
      apply Hl; [apply elem_of_app; by right|]. intros ->. by apply (Hd tail). }
    destruct (l2 ++ [a]) as [|y rest]; [done|]. injection Hhd as ->.
    cbn [chain] in *. split; [done|]. apply (chain_keep m); [done| |apply C2].
    intros x Hx Hne. apply Hl2; [done|]. intros ->. by destruct Hne.
Qed.

Section Insert.
Context {I : machine → Prop} {owns : Z → Prop} `{HR : !Region I owns}.
Context (lo hi lo' hi' : Z → Z).

(** Nothing of the ring has changed but the link of [tail]. *)
Definition relinked (old : list Z) (tail : Z) (m m' : machine) : Prop :=
  ∀ x a, x ∈ old → in_task lo hi x a → owns a → ¬ (tail + 36 <= a < tail + 40) →
    byte_at m' a = byte_at m a.

Section Relinked.
Context {m m' : machine} {old : list Z} {tail : Z}.
Context (HQ : queue_ok (owns := owns) lo hi m old) (HT : tail ∈ old).
Context (HB : relinked old tail m m').
Context (HS : ∀ x, x ∈ old → lo' x = lo x ∧ hi' x = hi x).

Lemma relinked_stack x a : x ∈ old → on_stack lo hi x a → byte_at m' a = byte_at m a.
Proof using HQ HT HB.
  intros Hx Ha. pose proof (qo_tasks _ _ _ _ HQ x Hx) as T.
  apply (HB x); [done|by right| |].
  - unfold on_stack in Ha. apply (owns_range_at _ _ _ _ (tk_stack _ _ _ _ T)); lia.
  - intros Hd. destruct (decide (x = tail)) as [->|Hne].
    + pose proof (tk_apart _ _ _ _ T). unfold on_stack, TASK_SIZEOF in *. lia.
    + apply (qo_apart _ _ _ _ HQ x tail a Hx HT Hne); [by right|].
      left. unfold TASK_SIZEOF. lia.
Qed.

Lemma relinked_byte x k :
  x ∈ old → 0 <= k < TASK_SIZEOF → k < 36 ∨ x ≠ tail →
  byte_at m' (x + k) = byte_at m (x + k).
Proof using HQ HT HB.
  intros Hx Hk Hd. pose proof (qo_tasks _ _ _ _ HQ x Hx) as T.
  assert (in_task lo hi x (x + k)) as Hin by (left; lia).
  apply (HB x); [done|done|by apply (tk_struct _ _ _ _ T)|].
  intros Hd'. destruct (decide (x = tail)) as [->|Hne]; [|].
  - unfold TASK_SIZEOF in Hk. lia.
  - apply (qo_apart _ _ _ _ HQ x tail (x + k) Hx HT Hne); [done|].
    left. unfold TASK_SIZEOF. lia.
Qed.

Lemma relinked_field x k :
  x ∈ old → 0 <= k → k + 4 <= 36 ∨ x ≠ tail ∧ k + 4 <= TASK_SIZEOF →
  word_at m' (x + k) = word_at m (x + k).
Proof using HQ HT HB.
  intros Hx Hk Hd. unfold word_at. rewrite <- !Z.add_assoc. unfold TASK_SIZEOF in *.
  rewrite !relinked_byte; try done; try (destruct Hd as [|[??]]; [left|right]; (done || lia));
    unfold TASK_SIZEOF; lia.
Qed.

Lemma relinked_user x : x ∈ old → runs_user m' x = runs_user m x.
Proof using HQ HT HB.
  intros Hx. unfold runs_user. rewrite relinked_byte; [done|done|unfold TASK_SIZEOF; lia|lia].
Qed.

Lemma relinked_task x : x ∈ old → task_ok (owns := owns) lo' hi' m' x.
Proof using HQ HT HB HS.
  intros Hx. destruct (qo_tasks _ _ _ _ HQ x Hx) as [N S K A B]. destruct (HS x Hx) as [El Eh].
  split; rewrite ?El, ?Eh; try done. rewrite relinked_user by done.
  rewrite relinked_field by (done || lia). done.
Qed.

Lemma relinked_waits x c : x ∈ old → waits lo hi m (x, c) → waits lo' hi' m' (x, c).
Proof using HQ HT HB HS.
  intros Hx (L & Hi & C & U). unfold waits. destruct (HS x Hx) as [-> ->].
  rewrite relinked_user by done. rewrite (relinked_field x 4) by (done || lia).
  set (tf := word_at m (x + 4)) in *.
  destruct (frame_same m m' tf) as [-> ->]; [|done].
  intros w Hw. apply (relinked_stack x); [done|]. unfold on_stack. lia.
Qed.
End Relinked.

(** Task [t] comes in between the tail of the list and its head. *)
Lemma ring_insert m m' cur ws1 ws2 t c tail hd :
  ring_ok (owns := owns) lo hi m cur (ws1 ++ ws2) →
  current_task (tasks m') = cur → gdt m' = gdt m →
  last (cur :: ws1.*1) = Some tail → head (ws2.*1 ++ [cur]) = Some hd →
  relinked (cur :: (ws1 ++ ws2).*1) tail m m' →
  (∀ x, x ∈ cur :: (ws1 ++ ws2).*1 → lo' x = lo x ∧ hi' x = hi x) →
  (∀ x a, x ∈ cur :: (ws1 ++ ws2).*1 → in_task lo hi x a → ¬ in_task lo' hi' t a) →
  word_at m' (tail + 36) = t → word_at m' (t + 36) = hd →
  task_ok (owns := owns) lo' hi' m' t → waits lo' hi' m' (t, c) →
  ring_ok (owns := owns) lo' hi' m' cur (ws1 ++ (t, c) :: ws2).
Proof using HR.
  intros [Ec Eq Ech Ew Et] Hcur Hg Htl Hhd HB HS HD Vt Vn Ht Hw.
  set (old := cur :: (ws1 ++ ws2).*1) in *.
  assert (old = cur :: ws1.*1 ++ ws2.*1) as Eold by (unfold old; by rewrite fmap_app).
  assert (tail ∈ cur :: ws1.*1) as Htl1.
  { destruct (proj1 (last_Some _ _) Htl) as [l' ->]. apply elem_of_app. right. by left. }
  assert (tail ∈ old) as Htin.
  { rewrite Eold. change (tail ∈ (cur :: ws1.*1) ++ ws2.*1). apply elem_of_app. by left. }
  assert (t ∉ old) as Hnt.
  { intros Hin. apply (HD t t Hin); left; unfold TASK_SIZEOF; lia. }
  assert (cur ∈ old) as Hcin by left.
  assert ((ws1 ++ (t, c) :: ws2).*1 = ws1.*1 ++ t :: ws2.*1) as Enew by by rewrite fmap_app.
  assert (cur :: (ws1 ++ (t, c) :: ws2).*1 ≡ₚ t :: old) as Hp.
  { rewrite Enew, Eold. rewrite <- (Permutation_middle ws1.*1). apply Permutation_swap. }
  pose proof (qo_nodup _ _ _ _ Eq) as Hnd. fold old in Hnd. rewrite Eold in Hnd.
  split; [done| | | |].
  - rewrite Hp. split.
    + apply NoDup_cons. split; [done|apply Eq].
    + intros x [->|Hx]%elem_of_cons; [done|]. by apply (relinked_task Eq Htin HB HS).
    + assert (∀ x a, x ∈ old → in_task lo' hi' x a ↔ in_task lo hi x a) as Hin.
      { intros x a Hx. unfold in_task, on_stack. by destruct (HS x Hx) as [-> ->]. }
      intros x y a [->|Hx]%elem_of_cons [->|Hy]%elem_of_cons Hne;
        [done| | |rewrite !Hin by done; by apply (qo_apart _ _ _ _ Eq)].
      * rewrite (Hin y a Hy). intros H1 H2. by apply (HD y a).
      * rewrite (Hin x a Hx). by apply HD.
  - rewrite Enew. rewrite fmap_app in Ech.
    apply (chain_insert m _ _ _ _ _ tail hd); try done. intros x Hx Hne.
    apply (relinked_field Eq Htin HB); [by rewrite Eold|lia|by right].
  - rewrite !Forall_app in *. rewrite Forall_cons. destruct Ew as [W1 W2].
    split_and!; [|done|];
      (apply Forall_forall; intros [x d] Hx; pose proof Hx as Hx1;
       apply (list_elem_of_fmap_2 fst) in Hx1; cbn [fst] in Hx1;
       apply (relinked_waits Eq Htin HB HS);
       [rewrite Eold; right; apply elem_of_app; tauto|]).
    + by apply (proj1 (Forall_forall _ _) W1).
    + by apply (proj1 (Forall_forall _ _) W2).
  - rewrite (relinked_user Eq Htin HB cur Hcin), Hg. destruct (HS cur Hcin) as [_ ->]. done.
Qed.
End Insert.

Section Kept.
Context {I : machine → Prop} {owns : Z → Prop} `{HR : !Region I owns}.
Context (lo hi : Z → Z).

(** A ring survives what leaves its memory and the registers alone. *)
Lemma ring_kept m m' cur ws :
  ring_ok (owns := owns) lo hi m cur ws →
  current_task (tasks m') = current_task (tasks m) → gdt m' = gdt m →
  (∀ x a, x ∈ cur :: ws.*1 → in_task lo hi x a → owns a → byte_at m' a = byte_at m a) →
  ring_ok (owns := owns) lo hi m' cur ws.
Proof using HR.
  intros [Ec Eq Ech Ew Et] Hc Hg HB. set (old := cur :: ws.*1) in *.
  assert (cur ∈ old) as Hcur by left.
  assert (relinked (owns := owns) lo hi old cur m m') as HL by (intros x a Hx Hin Ho _; by apply (HB x)).
  assert (∀ x, x ∈ old → lo x = lo x ∧ hi x = hi x) as HS by done.
  split; [by rewrite Hc| | | |].
  - split; [apply Eq| |apply Eq]. intros x Hx.
    by apply (relinked_task lo hi lo hi Eq Hcur HL HS).
  - apply (chain_same m); [|done]. intros x Hx. assert (x ∈ old) as Ho.
    { unfold old. rewrite app_comm_cons in Hx. apply elem_of_app in Hx as [Hx|Hx]; [done|].
      apply list_elem_of_singleton in Hx as ->. done. }
    pose proof (tk_struct _ _ _ _ (qo_tasks _ _ _ _ Eq x Ho)) as Hs. unfold TASK_SIZEOF in Hs.
    unfold word_at. rewrite <- !Z.add_assoc.
    rewrite !(HB x); try done; first [left; unfold TASK_SIZEOF; lia|apply Hs; lia].
  - apply Forall_forall. intros [x c] Hx. assert (x ∈ old) as Ho
      by (right; by apply (list_elem_of_fmap_2 fst) in Hx).
    apply (relinked_waits lo hi lo hi Eq Hcur HL HS x c Ho).
    by apply (proj1 (Forall_forall _ _) Ew).
  - rewrite (relinked_user lo hi Eq Hcur HL cur Hcur), Hg. done.
Qed.
End Kept.

(** ** The first frame *)

Section Frame.
Context {I : machine → Prop} {owns : Z → Prop} `{HR : !Region I owns}.

(** The [n] words of the frame at [tf]. *)
Definition frame_is (n : Z) (F : Z → Z) (m : machine) (tf : Z) : Prop :=
  ∀ i, 0 <= i < n → word_at m (tf + 4 * i) = F i.

Lemma frame_is_context n F m tf :
  frame_is n F m tf → n = (if ring3 (F 12) then 16 else 14) →
  frame_size m tf = 4 * n ∧
  frame_context m tf =
    Context (u16 (F 0)) (F 1) (F 2) (F 3) (F 5) (F 6) (F 7) (F 8) (F 11) (u16 (F 12)) (F 13)
      (if ring3 (F 12) then Some (F 14, u16 (F 15)) else None).
Proof using.
  intros HF Hn. assert (14 <= n <= 16) as Hr by (destruct (ring3 (F 12)); lia).
  unfold frame_size, frame_context, TF_DS, TF_EDI, TF_ESI, TF_EBP, TF_EBX, TF_EDX, TF_ECX,
    TF_EAX, TF_EIP, TF_CS, TF_EFLAGS.
  assert (∀ k, 0 <= k < 4 * n → k mod 4 = 0 → word_at m (tf + k) = F (k / 4)) as Hw.
  { intros k Hk Hm. rewrite <- HF by mlia. do 2 f_equal. mlia. }
  rewrite !Hw by (done || lia). change (48 / 4) with 12.
  destruct (ring3 (F 12)); split; try lia; [|done]. unfold TF_ESP, TF_SS.
  by rewrite !Hw by (done || lia).
Qed.

(** A frame that is being filled in through [t->trapframe]. *)
Record framed (n t tf : Z) (F : Z → Z) (m0 m : machine) : Prop := {
  fr_region : I m;
  fr_writes : writes_only owns m0 m tf (4 * n);
  fr_ptr : word_at m (t + 4) = tf;
  fr_words : frame_is n F m tf
}.

Definition set_fields (t : Z) (fs : list (Z * Z)) (k : M unit) : M unit :=
  foldr (λ f e, set_tf t (4 * f.1) f.2;; e) k fs.

Definition fields (F : Z → Z) (fs : list (Z * Z)) : Z → Z :=
  foldl (λ F f, <[f.1 := u32 f.2]> F) F fs.

Lemma set_tf_ok n t tf F m0 m i v :
  framed n t tf F m0 m → 0 <= i < n → owns_range owns t TASK_SIZEOF →
  owns_range owns tf (4 * n) → t + TASK_SIZEOF <= tf ∨ tf + 4 * n <= t →
  ∃ m', set_tf t (4 * i) v m = Done tt m' ∧ framed n t tf (<[i := u32 v]> F) m0 m'.
Proof.
  intros [HI HW HP HF] Hi Ht Ho Hd. unfold TASK_SIZEOF in *. unfold set_tf, trapframe.
  load. rewrite HP.
  destruct (st32_ok (I := I) (owns := owns) m (tf + 4 * i) v HI ltac:(owned))
    as (m' & E & K & V & W).
  exists m'. split; [done|]. split; [done| | |].
  - apply (writes_only_trans _ m); [done|]. eapply writes_only_weaken; [exact W|lia|lia].
  - by words.
  - intros j Hj. destruct (decide (i = j)) as [<-|Hne].
    + by rewrite V, fn_lookup_insert.
    + rewrite fn_lookup_insert_ne by done. rewrite <- (HF j Hj).
      apply (writes_only_word_at _ _ _ _ _ W); [owned|lia].
Qed.

Lemma set_fields_ok n t tf fs F m0 m :
  framed n t tf F m0 m → Forall (λ f, 0 <= f.1 < n) fs → owns_range owns t TASK_SIZEOF →
  owns_range owns tf (4 * n) → t + TASK_SIZEOF <= tf ∨ tf + 4 * n <= t →
  ∃ m', framed n t tf (fields F fs) m0 m' ∧ ∀ k, set_fields t fs k m = k m'.
Proof.
  intros HF Hfs Ht Ho Hd. revert F m HF. induction Hfs as [|[i v] fs Hi Hfs IH]; intros F m HF.
  - by exists m.
  - destruct (set_tf_ok n t tf F m0 m i v HF Hi Ht Ho Hd) as (m1 & E1 & F1).
    destruct (IH _ _ F1) as (m2 & F2 & E2). exists m2. split; [exact F2|].
    intros k. cbn [set_fields foldr fst snd]. run E1. apply E2.
Qed.

Lemma task_append_ok m t tail :
  I m → task_list_tail (tasks m) = tail → tail ≠ 0 → owns_range owns tail TASK_SIZEOF →
  owns_range owns t TASK_SIZEOF → t + TASK_SIZEOF <= tail ∨ tail + TASK_SIZEOF <= t →
  ∃ m', task_append t m = Done tt (set_tasks (set_task_list_tail t (tasks m)) m') ∧ I m' ∧
    only_memory m m' ∧ word_at m' (t + 12) = word_at m (tail + 12) [+] 1 ∧
    word_at m' (tail + 36) = t ∧
    ∀ w, owns w → ¬ (t + 12 <= w < t + 16) → ¬ (tail + 36 <= w < tail + 40) →
      byte_at m' w = byte_at m w.
Proof.
  intros HI Etl Hn Ol Ot Hd. unfold TASK_SIZEOF in *.
  unfold task_append. msteps. rewrite Etl. destruct (Z.eqb_spec tail 0); [done|].
  cbn [negb when]. unfold pid, set_pid, set_next_task. steps. load. steps.
  store m1 K1 V1 W1.
  destruct (st32_ok (I := I) (owns := owns) m1 (tail + 36) t K1 ltac:(owned))
    as (m2 & E2 & K2 & V2 & W2).
  run E2. exists m2.
  assert (only_memory m m2) as OM by (etransitivity; [apply W1|apply W2]).
  split_and!; [|done|done| | |].
  - unfold modify. by rewrite OM.
  - rewrite u32_idem in V1. by words.
  - rewrite V2. apply u32_small. rewrite <- (Z.add_0_r t). apply (region_word (I := I)). owned.
  - intros w Hw Hd1 Hd2. rewrite (proj2 W2 w Hw), (proj2 W1 w Hw) by lia. done.
Qed.
(** The end of both creation functions: from the trapframe pointer on. *)
Lemma enqueue_ok m t P n fs tail :
  I m → owns_range owns t TASK_SIZEOF → owns_range owns P PAGE_SIZE →
  t + TASK_SIZEOF <= P ∨ P + PAGE_SIZE <= t →
  (∀ i, 0 <= i < PAGE_SIZE → byte_at m (P + i) = 0) → 0 < n <= 16 →
  Forall (λ f, 0 <= f.1 < n) fs →
  task_list_tail (tasks m) = tail → tail ≠ 0 → owns_range owns tail TASK_SIZEOF →
  t + TASK_SIZEOF <= tail ∨ tail + TASK_SIZEOF <= t →
  tail + TASK_SIZEOF <= P ∨ P + PAGE_SIZE <= tail →
  let tf := P + PAGE_SIZE - 4 * n in
  ∃ m', (set_trapframe t tf;; set_fields t fs (task_append t)) m =
          Done tt (set_tasks (set_task_list_tail t (tasks m)) m') ∧ I m' ∧
    only_memory m m' ∧ word_at m' (t + 4) = tf ∧ frame_is n (fields (λ _, 0) fs) m' tf ∧
    word_at m' (t + 12) = word_at m (tail + 12) [+] 1 ∧ word_at m' (tail + 36) = t ∧
    ∀ w, owns w → ¬ (t + 4 <= w < t + 8) → ¬ (t + 12 <= w < t + 16) →
      ¬ (P <= w < P + PAGE_SIZE) → ¬ (tail + 36 <= w < tail + 40) →
      byte_at m' w = byte_at m w.
Proof.
  intros HI Ot Op Hd HZ Hn Hfs Etl Htl Ol Hdt Hdp tf. pose proof Ot as Ot'. pose proof Ol as Ol'.
  unfold TASK_SIZEOF, PAGE_SIZE in *. unfold set_trapframe. store m1 K1 V1 W1.
  assert (owns_range owns tf (4 * n)) as Of by (subst tf; owned).
  assert (word tf) as Hw.
  { rewrite <- (Z.add_0_r tf). apply (region_word (I := I)), Of. lia. }
  assert (framed n t tf (λ _, 0) m1 m1) as F0.
  { split; [done|by apply writes_only_refl|by rewrite V1, u32_small|].
    intros i Hi. unfold word_at. subst tf.
    rewrite !(proj2 W1); try (lia || owned).
    replace (P + 4096 - 4 * n + 4 * i) with (P + (4096 - 4 * n + 4 * i)) by lia.
    rewrite <- !Z.add_assoc, !HZ by lia. done. }
  destruct (set_fields_ok n t tf fs _ m1 m1 F0 Hfs Ot' Of ltac:(unfold TASK_SIZEOF; lia))
    as (m2 & [K2 W2 P2 F2] & E2).
  rewrite E2. pose proof (proj1 W1) as O1. pose proof (proj1 W2) as O2.
  assert (only_memory m m2) as OM by (by etransitivity).
  assert (tasks m2 = tasks m) as Et by (by rewrite OM).
  destruct (task_append_ok m2 t tail K2 ltac:(by rewrite Et) Htl Ol' Ot')
    as (m3 & E3 & K3 & O3 & V3 & N3 & B3); [unfold TASK_SIZEOF; lia|].
  exists m3. rewrite E3, Et.
  assert (∀ v, owns_range owns v 4 → v + 4 <= t + 12 ∨ t + 16 <= v →
    v + 4 <= tail + 36 ∨ tail + 40 <= v → word_at m3 v = word_at m2 v) as Hw3.
  { intros v Hv D1 D2. unfold word_at. rewrite <- (Z.add_0_r v) at 1 5.
    rewrite !B3; rewrite ?Z.add_0_r; try (lia || owned). }
  split_and!; [done|done|by etransitivity| | | |done|].
  - rewrite Hw3; [done|owned|lia|lia].
  - intros i Hi. rewrite <- (F2 i Hi). apply Hw3; [owned|subst tf; lia|subst tf; lia].
  - rewrite V3. f_equal. f_equal. words. done.
  - intros w Hw' D1 D2 D3 D4. rewrite B3, (proj2 W2 w Hw'), (proj2 W1 w Hw');
      [done|lia|subst tf; lia|done|done|done].
Qed.
End Frame.

(** ** Where a new task comes from *)

(** Two ranges without a common address. *)
Lemma ranges_apart v n w k :
  0 < n → 0 < k → (∀ a, v <= a < v + n → ¬ (w <= a < w + k)) → v + n <= w ∨ w + k <= v.
Proof. intros Hn Hk H. specialize (H (Z.max v w)). lia. Qed.

(** The descriptor [b] is the same in both states. *)
Record same_desc (b : Z) (m m' : machine) : Prop := {
  sd_bitmap : desc_bitmap m' b = desc_bitmap m b;
  sd_high : desc_high_water m' b = desc_high_water m b;
  sd_free : desc_free m' b = desc_free m b;
  sd_first : desc_first m' b = desc_first m b;
  sd_table : desc_table m' b = desc_table m b;
  sd_next : desc_next m' b = desc_next m b
}.

Lemma same_desc_bytes b m m' :
  (∀ a, b <= a < b + VMM_BLOCK_DESC_SIZE → byte_at m' a = byte_at m a) → same_desc b m m'.
Proof.
  intros HB. unfold VMM_BLOCK_DESC_SIZE in HB.
  assert (∀ k, 0 <= k → k + 4 <= 148 → word_at m' (b + k) = word_at m (b + k)) as Hw.
  { intros k Hk Hk'. unfold word_at. by rewrite !HB by lia. }
  split; try (apply Hw; lia).
  unfold desc_bitmap. apply map_ext_in. intros i Hi%list_elem_of_In.
  apply elem_of_seqZ in Hi. change VMM_BITMAP_SIZE with 32 in Hi. apply Hw; lia.
Qed.

Lemma first_block_same {owns} pd pt b m m' :
  kernel_map pd pt m' → vmm m' = vmm m → same_desc b m m' →
  first_block_in owns pd pt b m → first_block_in owns pd pt b m'.
Proof.
  intros HI Hv [_ _ _ E1 E2 _] [_ ? ? ? ? ?]. split; rewrite ?Hv, ?E1, ?E2; done.
Qed.

Section Room.
Context (pd pt : Z).

Abbreviation owns := (window_free pd pt).

(** The free blocks [l] have room for a task at [t], the page allocator has
    page [k] for its stack; blocks, descriptor and page are apart. *)
Record room (l l' : list block) (t b k : Z) (m : machine) : Prop := {
  rm_block : first_block pd pt b m;
  rm_heap : heap_list (owns := owns) m l;
  rm_fit : fl_alloc TASK_SIZEOF l = Split t l';
  rm_free : desc_free m b ≠ 0;
  rm_first : scan_words (desc_bitmap m b) 0 = Some k;
  rm_quiet : Z.max (desc_high_water m b) (k + 1) ≠ HIGH_WATER_THRESHOLD ∨
             desc_next m b ≠ 0 ∨ allocating_new_block (vmm m) = true;
  rm_page : owns_range owns (window_page k) PAGE_SIZE;
  rm_desc_apart : Forall (apart b VMM_BLOCK_DESC_SIZE) l;
  rm_page_apart : Forall (apart (window_page k) PAGE_SIZE) l;
  rm_apart : b + VMM_BLOCK_DESC_SIZE <= window_page k ∨ window_page k + PAGE_SIZE <= b
}.

(** The memory a creation works in, the link of the old tail apart. *)
Definition touched (l : list block) (b k a : Z) : Prop :=
  Exists (in_block a) l ∨ b <= a < b + VMM_BLOCK_DESC_SIZE ∨
  window_page k <= a < window_page k + PAGE_SIZE.

(** The structure at [t] that leaves the blocks [l'] of [l]. *)
Record carved (l l' : list block) (t : Z) : Prop := {
  cv_nonnull : t ≠ 0;
  cv_owned : owns_range owns t TASK_SIZEOF;
  cv_in a : t <= a < t + TASK_SIZEOF → Exists (in_block a) l;
  cv_sub a : Exists (in_block a) l' → Exists (in_block a) l;
  cv_apart : Forall (apart t TASK_SIZEOF) l'
}.

Lemma heap_carved m l l' t :
  heap_list (owns := owns) m l → fl_alloc TASK_SIZEOF l = Split t l' → carved l l' t.
Proof.
  intros (_ & Ho & Hw) Hfit.
  destruct (fl_alloc_Split TASK_SIZEOF l t l' 0 ltac:(done) Ho Hfit)
    as (l1 & b0 & sz & l2 & -> & -> & -> & Hs & _). unfold TASK_SIZEOF in *.
  pose proof (fl_ordered_pos _ _ _ _ Ho) as [Hpos _].
  pose proof (cut_block_apart l1 b0 sz l2 40 Ho ltac:(lia) Hs) as Hap.
  apply Forall_app in Hw as [_ [Hw _]%Forall_cons]. cbn [fst snd] in Hw.
  split; unfold TASK_SIZEOF; try lia.
  - owned.
  - intros a Ha. apply Exists_app. right. left. unfold in_block. cbn. lia.
  - intros a. rewrite !Exists_app, !Exists_cons. unfold in_block. cbn. intuition lia.
  - apply (Forall_impl _ _ _ Hap). intros x Hx. unfold apart in *. lia.
Qed.

Lemma carved_apart l l' t v n :
  carved l l' t → Forall (apart v n) l → 0 < n → t + TASK_SIZEOF <= v ∨ v + n <= t.
Proof.
  intros C Ha Hn. apply ranges_apart; [done|done|]. intros a Hin.
  apply (block_apart v n l); [done|]. by apply (cv_in _ _ _ C).
Qed.

End Room.

(** ** The creation functions *)

Section Create.
Context `{L : Layout} (pd pt : Z) (d fuel : nat).
Context `{HR : !Region (kernel_map pd pt) (window_free pd pt)}.

Abbreviation owns := (window_free pd pt).

Lemma kmalloc_task_ok e f l l' t m :
  kernel_map pd pt m → heap_list (owns := owns) m l → (length l <= f)%nat →
  fl_alloc TASK_SIZEOF l = Split t l' →
  ∃ m1, kmalloc e f TASK_SIZEOF m = Done t m1 ∧ kernel_map pd pt m1 ∧ only_memory m m1 ∧
    heap_list (owns := owns) m1 l' ∧
    (∀ a, owns a → ¬ Exists (in_block a) l → byte_at m1 a = byte_at m a) ∧
    (clean l m → clean l' m1 ∧ byte_at m1 (t + 16) = 0).
Proof.
  intros HI HL Hfu Ha.
  destruct (kmalloc_carves (I := kernel_map pd pt) (owns := owns) (vmm_alloc_page e f)
    f TASK_SIZEOF l t l' m HI HL ltac:(done) Hfu Ha) as (m1 & E1 & K1 & HL1 & OM & F1 & U1).
  exists m1. split_and!; try done. intros Hc. destruct (U1 Hc) as [H1 H2]. split; [done|].
  apply H2. change (kmalloc_round TASK_SIZEOF) with 40. lia.
Qed.

(** What taking page [k] means for the descriptor. *)
Record marked (b k : Z) (m m' : machine) : Prop := {
  mk_bitmap : desc_bitmap m' b = set_page (desc_bitmap m b) k;
  mk_free : desc_free m' b = desc_free m b - 1;
  mk_high : desc_high_water m' b = Z.max (desc_high_water m b) (k + 1);
  mk_next : desc_next m' b = desc_next m b
}.

Lemma stack_page_ok l l' t b k m m3 :
  room pd pt l l' t b k m → kernel_map pd pt m3 → vmm m3 = vmm m →
  (∀ a, b <= a < b + VMM_BLOCK_DESC_SIZE → byte_at m3 a = byte_at m a) →
  ∃ m4, vmm_alloc_page (S d) (S fuel) m3 = Done (window_page k) m4 ∧
    0 <= k < 1024 ∧ first_block pd pt b m4 ∧ marked b k m m4 ∧
    writes_only owns m3 m4 b VMM_BLOCK_DESC_SIZE.
Proof.
  intros R K3 Ev HB. apply same_desc_bytes in HB.
  pose proof (first_block_same pd pt b m m3 K3 Ev HB (rm_block _ _ _ _ _ _ _ _ R)) as F3.
  destruct HB as [Eb Eh Ef _ _ En].
  destruct (first_block_alloc (owns := owns) pd pt d fuel b k m3 F3) as (m4 & E4 & Hk & F4 & T4).
  - rewrite Ef. apply R.
  - rewrite Eb. apply R.
  - rewrite Eh, En, Ev. apply R.
  - exists m4. split_and!; [done|lia|lia|done| |apply T4]. destruct T4.
    split; congruence.
Qed.
Lemma block_settles b k m m4 m6 :
  first_block pd pt b m4 → marked b k m m4 → kernel_map pd pt m6 → vmm m6 = vmm m4 →
  (∀ a, b <= a < b + VMM_BLOCK_DESC_SIZE → byte_at m6 a = byte_at m4 a) →
  first_block pd pt b m6 ∧ marked b k m m6.
Proof using.
  intros F4 [] K6 O6 HB%same_desc_bytes. split.
  - by apply (first_block_same pd pt b m4).
  - destruct HB. split; congruence.
Qed.

(** The structure and its stack are there; the frame is not. *)
Record stack_ready (l l' : list block) (t b k : Z) (user : bool) (m m' : machine) : Prop := {
  sr_mem : only_memory m m';
  sr_block : first_block pd pt b m';
  sr_marked : marked b k m m';
  sr_heap : heap_list (owns := owns) m' l';
  sr_frame a : owns a → ¬ touched l b k a → byte_at m' a = byte_at m a;
  sr_zero i : 0 <= i < PAGE_SIZE → byte_at m' (window_page k + i) = 0;
  sr_next : word_at m' (t + 36) = u32 (task_list_head (tasks m));
  sr_base : word_at m' (t + 24) = window_page k + PAGE_SIZE;
  sr_user : runs_user m' t = user;
  sr_clean : clean l m → clean l' m'
}.

(** After [kmalloc], only the structure, the descriptor and the page are
    written. *)
Definition sets_up (t b k : Z) (m m' : machine) : Prop :=
  only_memory m m' ∧
  ∀ a, owns a → ¬ (t <= a < t + TASK_SIZEOF) → ¬ (b <= a < b + VMM_BLOCK_DESC_SIZE) →
    ¬ (window_page k <= a < window_page k + PAGE_SIZE) → byte_at m' a = byte_at m a.

Lemma sets_up_trans t b k m1 m2 m3 :
  sets_up t b k m1 m2 → sets_up t b k m2 m3 → sets_up t b k m1 m3.
Proof using.
  intros [O1 B1] [O2 B2]. split; [by etransitivity|]. intros a Ha H1 H2 H3.
  by rewrite B2, B1.
Qed.

Lemma sets_up_writes t b k m m' v n :
  writes_only owns m m' v n → 0 < n →
  (t <= v ∧ v + n <= t + TASK_SIZEOF) ∨ (b <= v ∧ v + n <= b + VMM_BLOCK_DESC_SIZE) ∨
  (window_page k <= v ∧ v + n <= window_page k + PAGE_SIZE) →
  sets_up t b k m m'.
Proof using.
  intros [OM HB] Hn Hin. split; [done|]. intros a Ha H1 H2 H3. apply HB; [done|lia].
Qed.

Ltac chain_sets_up := match goal with
  | W : writes_only _ ?m ?m' _ _ |- sets_up _ _ _ ?m ?m' =>
      solve [eapply sets_up_writes; [exact W|done|];
             unfold TASK_SIZEOF, VMM_BLOCK_DESC_SIZE, PAGE_SIZE; lia]
  | W : writes_only _ ?m ?m1 _ _ |- sets_up _ _ _ ?m _ =>
      apply (sets_up_trans _ _ _ _ m1); [|clear W]; chain_sets_up
  end.

Lemma stack_ready_intro l l' t b k user m m1 m' :
  room pd pt l l' t b k m → only_memory m m1 → heap_list (owns := owns) m1 l' →
  (∀ a, owns a → ¬ Exists (in_block a) l → byte_at m1 a = byte_at m a) →
  sets_up t b k m1 m' → first_block pd pt b m' → marked b k m m' →
  (∀ i, 0 <= i < PAGE_SIZE → byte_at m' (window_page k + i) = 0) →
  word_at m' (t + 36) = u32 (task_list_head (tasks m)) →
  word_at m' (t + 24) = window_page k + PAGE_SIZE → runs_user m' t = user →
  (clean l m → clean l' m1) →
  stack_ready l l' t b k user m m'.
Proof using.
  intros R O1 HL1 F1 [O2 F2] HF HM HZ HN HB HU HC.
  pose proof (heap_carved _ _ _ _ _ _ (rm_heap _ _ _ _ _ _ _ _ R) (rm_fit _ _ _ _ _ _ _ _ R))
    as C.
  assert (∀ a, owns a → Exists (in_block a) l' → byte_at m' a = byte_at m1 a) as HB1.
  { intros a Ha Hin. pose proof (cv_sub _ _ _ _ _ C a Hin) as Hin'. apply F2; [done|..].
    + apply (block_apart _ _ _ _ (cv_apart _ _ _ _ _ C) Hin).
    + apply (block_apart _ _ _ _ (rm_desc_apart _ _ _ _ _ _ _ _ R) Hin').
    + apply (block_apart _ _ _ _ (rm_page_apart _ _ _ _ _ _ _ _ R) Hin'). }
  split; try done; [by etransitivity| | |].
  - apply (heap_list_bytes m1); [by rewrite O2|done|done].
  - intros a Ha Hn. unfold touched in Hn. rewrite F2; [apply F1; tauto|done| |tauto|tauto].
    intros Hin. apply Hn. left. by apply (cv_in _ _ _ _ _ C).
  - intros Hc a Hu. rewrite HB1; [by apply HC|apply (unused_owned _ l'); [apply HL1|done]
                               |by apply unused_in].
Qed.
(** The fields of the first frame, by word. *)
Definition user_fields : list (Z * Z) :=
  [(11, task_userspace_addr); (13, 0x2); (12, GDT_USER_CODE_SEG); (0, GDT_USER_DATA_SEG);
   (15, GDT_USER_DATA_SEG); (14, KERNEL_VIRT_BASE)].

Definition kernel_fields : list (Z * Z) :=
  [(11, task_test_addr); (13, 0x2); (12, GDT_KERNEL_CODE_SEG); (0, GDT_KERNEL_DATA_SEG)].

Lemma page_end_word k : 0 <= k < 1024 → word (window_page k + PAGE_SIZE).
Proof using. intros Hk. unfold window_page. word_lia. Qed.

Lemma user_ready l l' t b k m :
  room pd pt l l' t b k m → (length l <= S fuel)%nat →
  ∃ m', stack_ready l l' t b k true m m' ∧
    task_create_user (S d) (S fuel) m =
      (set_trapframe t (window_page k + PAGE_SIZE - 64);;
       set_fields t user_fields (task_append t)) m'.
Proof.
  intros R Hfu. pose proof R as [F0 HL Hfit _ _ _ Op Hda Hpa Hbp].
  pose proof (heap_carved _ _ _ _ _ _ HL Hfit) as C.
  pose proof (cv_owned _ _ _ _ _ C) as Ot.
  pose proof (carved_apart _ _ _ _ _ _ _ C Hda ltac:(done)) as Dtb.
  pose proof (carved_apart _ _ _ _ _ _ _ C Hpa ltac:(done)) as Dtp.
  pose proof (fb_owned _ _ _ _ _ F0) as Ob.
  destruct (kmalloc_task_ok (S d) (S fuel) l l' t m (fb_map _ _ _ _ _ F0) HL Hfu Hfit)
    as (m1 & E1 & K1 & O1 & HL1 & F1 & U1).
  unfold TASK_SIZEOF, VMM_BLOCK_DESC_SIZE, PAGE_SIZE in *.
  unfold task_create_user. run E1. unfold set_is_user, set_next_task.
  destruct (st8_ok (I := kernel_map pd pt) (owns := owns) m1 (t + 16) (Z.b2z true) K1
    ltac:(owned)) as (m2 & E2 & K2 & V2 & W2). run E2.
  msteps. store m3 K3 V3 W3.
  assert (only_memory m m3) as O3
    by (etransitivity; [exact O1|etransitivity; [apply W2|apply W3]]).
  assert (tasks m2 = tasks m) as Et by (by rewrite (proj1 W2), O1).
  destruct (stack_page_ok l l' t b k m m3 R K3) as (m4 & E4 & Hk & F4 & M4 & W4).
  { by rewrite O3. }
  { unfold VMM_BLOCK_DESC_SIZE. intros a Ha. assert (owns a) as Ho by owned.
    rewrite (proj2 W3 a Ho), (proj2 W2 a Ho) by lia. apply F1; [done|].
    intros Hin. by apply (block_apart _ _ _ _ Hda Hin). }
  pose proof (page_end_word k Hk) as Hw. unfold VMM_BLOCK_DESC_SIZE, PAGE_SIZE in W4, Hw.
  run E4. pose proof (fb_map _ _ _ _ _ F4) as K4. unfold set_kernel_stack_base, kernel_stack_base.
  store m5 K5 V5 W5. load. rewrite u32_idem, u32_small in V5 by done. rewrite V5.
  unfold PAGE_SIZE. rewrite Z.add_simpl_r, u32_small
    by (destruct (window_page_facts k Hk) as (_ & Hp & _); exact Hp).
  destruct (memset_ok (I := kernel_map pd pt) (owns := owns) (window_page k) 0 4096 m5 K5
    ltac:(done) ltac:(owned)) as (m6 & E6 & K6 & W6 & B6).
  run E6. load. words. unfold TRAPFRAME_SIZEOF.
  rewrite u32_small by (unfold window_page; word_lia).
  destruct (block_settles b k m m4 m6 F4 M4 K6) as [F6 M6].
  { by rewrite (proj1 W6), (proj1 W5). }
  { unfold VMM_BLOCK_DESC_SIZE. intros a Ha. assert (owns a) as Ho by owned.
    rewrite (proj2 W6 a Ho), (proj2 W5 a Ho) by lia. done. }
  exists m6. split; [|reflexivity].
  apply (stack_ready_intro l l' t b k true m m1); try done.
  - chain_sets_up.
  - words. by rewrite Et.
  - by words.
  - unfold runs_user. rewrite (proj2 W6), (proj2 W5), (proj2 W4), (proj2 W3), V2
      by (owned || lia). done.
  - intros Hc. by destruct (U1 Hc).
Qed.
(** [task_create_kernel] does not write [is_user]. *)
Lemma kernel_ready l l' t b k m :
  room pd pt l l' t b k m → clean l m → (length l <= S fuel)%nat →
  ∃ m', stack_ready l l' t b k false m m' ∧
    task_create_kernel (S d) (S fuel) m =
      (set_trapframe t (window_page k + PAGE_SIZE - 56);;
       set_fields t kernel_fields (task_append t)) m'.
Proof.
  intros R Hc Hfu. pose proof R as [F0 HL Hfit _ _ _ Op Hda Hpa Hbp].
  pose proof (heap_carved _ _ _ _ _ _ HL Hfit) as C.
  pose proof (cv_owned _ _ _ _ _ C) as Ot.
  pose proof (carved_apart _ _ _ _ _ _ _ C Hda ltac:(done)) as Dtb.
  pose proof (carved_apart _ _ _ _ _ _ _ C Hpa ltac:(done)) as Dtp.
  pose proof (fb_owned _ _ _ _ _ F0) as Ob.
  destruct (kmalloc_task_ok (S d) (S fuel) l l' t m (fb_map _ _ _ _ _ F0) HL Hfu Hfit)
    as (m1 & E1 & K1 & O1 & HL1 & F1 & U1). destruct (U1 Hc) as [Hc1 Hu1].
  unfold TASK_SIZEOF, VMM_BLOCK_DESC_SIZE, PAGE_SIZE in *.
  unfold task_create_kernel. run E1. unfold set_next_task, set_page_directory_phys.
  msteps. store m2 K2 V2 W2. msteps. store m3 K3 V3 W3.
  assert (only_memory m m3) as O3
    by (etransitivity; [exact O1|etransitivity; [apply W2|apply W3]]).
  assert (tasks m1 = tasks m) as Et by (by rewrite O1).
  destruct (stack_page_ok l l' t b k m m3 R K3) as (m4 & E4 & Hk & F4 & M4 & W4).
  { by rewrite O3. }
  { unfold VMM_BLOCK_DESC_SIZE. intros a Ha. assert (owns a) as Ho by owned.
    rewrite (proj2 W3 a Ho), (proj2 W2 a Ho) by lia. apply F1; [done|].
    intros Hin. by apply (block_apart _ _ _ _ Hda Hin). }
  pose proof (page_end_word k Hk) as Hw. unfold VMM_BLOCK_DESC_SIZE, PAGE_SIZE in W4, Hw.
  run E4. pose proof (fb_map _ _ _ _ _ F4) as K4. unfold set_kernel_stack_base, kernel_stack_base.
  destruct (memset_ok (I := kernel_map pd pt) (owns := owns) (window_page k) 0 4096 m4 K4
    ltac:(done) ltac:(owned)) as (m5 & E5 & K5 & W5 & B5).
  unfold PAGE_SIZE. run E5. store m6 K6 V6 W6. load.
  rewrite u32_idem, u32_small in V6 by done. rewrite V6. change (TRAPFRAME_SIZEOF - 8) with 56.
  rewrite u32_small by (unfold window_page; word_lia).
  destruct (block_settles b k m m4 m6 F4 M4 K6) as [F6 M6].
  { by rewrite (proj1 W6), (proj1 W5). }
  { unfold VMM_BLOCK_DESC_SIZE. intros a Ha. assert (owns a) as Ho by owned.
    rewrite (proj2 W6 a Ho), (proj2 W5 a Ho) by lia. done. }
  exists m6. split; [|reflexivity].
  apply (stack_ready_intro l l' t b k _ m m1); try done.
  - chain_sets_up.
  - unfold PAGE_SIZE. intros i Hi. rewrite (proj2 W6), B5 by (owned || lia). done.
  - words. by rewrite Et.
  - unfold runs_user. rewrite (proj2 W6), (proj2 W5), (proj2 W4), (proj2 W3), (proj2 W2), Hu1
      by (owned || lia). done.
Qed.
(** The boot task's structure. *)
Record initialised (l l' : list block) (t : Z) (m m' : machine) : Prop := {
  in_regs : m' = set_tasks (set_task_list_tail t (set_task_list_head t
              (set_current_task t (tasks m)))) (set_mem (mem m') m);
  in_map : kernel_map pd pt m';
  in_heap : heap_list (owns := owns) m' l';
  in_pid : word_at m' (t + 12) = 0;
  in_next : word_at m' (t + 36) = t;
  in_kept a : owns a → ¬ Exists (in_block a) l → byte_at m' a = byte_at m a;
  in_user : clean l m → runs_user m' t = false;
  in_clean : clean l m → clean l' m'
}.

Lemma task_init_ok e f l l' t m :
  kernel_map pd pt m → heap_list (owns := owns) m l → (length l <= f)%nat →
  fl_alloc TASK_SIZEOF l = Split t l' →
  ∃ m', task_init e f m = Done tt m' ∧ initialised l l' t m m'.
Proof.
  intros HI HL Hfu Hfit. pose proof (heap_carved _ _ _ _ _ _ HL Hfit) as C.
  pose proof (cv_owned _ _ _ _ _ C) as Ot.
  destruct (kmalloc_task_ok e f l l' t m HI HL Hfu Hfit) as (m1 & E1 & K1 & O1 & HL1 & F1 & U1).
  unfold TASK_SIZEOF in *. unfold task_init. run E1.
  unfold set_pid, set_next_task, set_page_directory_phys.
  store m2 K2 V2 W2. store m3 K3 V3 W3. msteps. store m4 K4 V4 W4. msteps.
  set (m' := set_tasks (set_task_list_tail t (set_task_list_head t (set_current_task t
    (tasks m4)))) m4).
  assert (∀ a, byte_at m' a = byte_at m4 a) as HB by (intros; by apply byte_at_same).
  assert (∀ a, word_at m' a = word_at m4 a) as HW by (intros; by apply word_at_same).
  assert (writes_only owns m1 m4 t 40) as W by chain_writes.
  assert (∀ a, owns a → Exists (in_block a) l' → byte_at m' a = byte_at m1 a) as HK.
  { intros a Ha Hin. rewrite HB. apply (proj2 W a Ha).
    pose proof (block_apart _ _ _ _ (cv_apart _ _ _ _ _ C) Hin). unfold TASK_SIZEOF in *. lia. }
  assert (only_memory m m4) as O4 by (etransitivity; [exact O1|apply W]).
  assert (word t) as Ht.
  { rewrite <- (Z.add_0_r t). apply (region_word (I := kernel_map pd pt)), Ot. lia. }
  exists m'. split; [exact eq_refl|]. split.
  - unfold m', only_memory in *. rewrite O4. reflexivity.
  - by apply (kernel_map_same _ _ m4).
  - apply (heap_list_bytes m1); [|done|done]. change (heap m4 = heap m1). by rewrite (proj1 W).
  - rewrite HW. by words.
  - rewrite HW. words. by apply u32_small.
  - intros a Ha Hn. rewrite HB, (proj2 W a Ha); [by apply F1|].
    destruct (decide (t <= a < t + 40)); [|lia]. destruct Hn. by apply (cv_in _ _ _ _ _ C).
  - intros Hc. unfold runs_user.
    rewrite HB, (proj2 W4), (proj2 W3), (proj2 W2), (proj2 (U1 Hc)) by (owned || lia). done.
  - intros Hc a Ha. rewrite HK; [by apply (U1 Hc)|apply (unused_owned _ l'); [apply HL1|done]
                                |by apply unused_in].
Qed.

Context (lo hi : Z → Z).

(** The ring, cut behind the tail of the list, is apart from the memory a
    creation works in. *)
Record ring_room (l : list block) (b k : Z) (m : machine) (cur : Z)
    (ws1 ws2 : list (Z * context)) : Prop := {
  rr_ring : ring_ok (owns := owns) lo hi m cur (ws1 ++ ws2);
  rr_tail : last (cur :: ws1.*1) = Some (task_list_tail (tasks m));
  rr_head : head (ws2.*1 ++ [cur]) = Some (task_list_head (tasks m));
  rr_apart x a : x ∈ cur :: (ws1 ++ ws2).*1 → in_task lo hi x a → ¬ touched l b k a
}.

(** What a creation has done. *)
Record created (l l' : list block) (t b k : Z) (c : context) (m m' : machine) (cur : Z)
    (ws1 ws2 : list (Z * context)) : Prop := {
  cr_ring : ring_ok (owns := owns) (<[t := window_page k]> lo)
              (<[t := window_page k + PAGE_SIZE]> hi) m' cur (ws1 ++ (t, c) :: ws2);
  cr_regs : m' = set_tasks (set_task_list_tail t (tasks m)) (set_mem (mem m') m);
  cr_pid : word_at m' (t + 12) = word_at m (task_list_tail (tasks m) + 12) [+] 1;
  cr_block : first_block pd pt b m';
  cr_marked : marked b k m m';
  cr_heap : heap_list (owns := owns) m' l';
  cr_frame a : owns a → ¬ touched l b k a →
    ¬ (task_list_tail (tasks m) + 36 <= a < task_list_tail (tasks m) + 40) →
    byte_at m' a = byte_at m a;
  cr_clean : clean l m → clean l' m'
}.

Lemma ring_room_tail l b k m cur ws1 ws2 :
  ring_room l b k m cur ws1 ws2 →
  let tail := task_list_tail (tasks m) in
  tail ∈ cur :: (ws1 ++ ws2).*1 ∧ tail ≠ 0 ∧ owns_range owns tail TASK_SIZEOF ∧
  ∀ a, tail <= a < tail + TASK_SIZEOF → ¬ touched l b k a.
Proof using.
  intros [HR1 Ht _ Ha] tail. fold tail in Ht.
  assert (tail ∈ cur :: (ws1 ++ ws2).*1) as Hin.
  { destruct (proj1 (last_Some _ _) Ht) as [l' Hl']. rewrite fmap_app.
    change (tail ∈ (cur :: ws1.*1) ++ ws2.*1). rewrite Hl'. apply elem_of_app. left.
    apply elem_of_app. right. by left. }
  pose proof (qo_tasks _ _ _ _ (ro_tasks _ _ _ _ _ HR1) tail Hin) as T.
  split_and!; [done|apply T|apply T|]. intros a Hr. apply (Ha tail a Hin). by left.
Qed.

Lemma ring_room_head l b k m cur ws1 ws2 :
  ring_room l b k m cur ws1 ws2 → word (task_list_head (tasks m)).
Proof.
  intros [HR1 _ Hh _]. assert (task_list_head (tasks m) ∈ cur :: (ws1 ++ ws2).*1) as Hin.
  { rewrite fmap_app. destruct (ws2.*1) as [|x ws]; injection Hh as <-; [by left|].
    right. apply elem_of_app. right. by left. }
  pose proof (qo_tasks _ _ _ _ (ro_tasks _ _ _ _ _ HR1) _ Hin) as T.
  rewrite <- (Z.add_0_r (task_list_head (tasks m))).
  apply (region_word (I := kernel_map pd pt)), (tk_struct _ _ _ _ T). done.
Qed.
(** The context a frame of [F]'s words holds. *)
Definition context_of (F : Z → Z) : context :=
  Context (u16 (F 0)) (F 1) (F 2) (F 3) (F 5) (F 6) (F 7) (F 8) (F 11) (u16 (F 12)) (F 13)
    (if ring3 (F 12) then Some (F 14, u16 (F 15)) else None).

Lemma new_task_ok lo' hi' m t P n F user :
  t ≠ 0 → owns_range owns t TASK_SIZEOF → owns_range owns P PAGE_SIZE →
  t + TASK_SIZEOF <= P ∨ P + PAGE_SIZE <= t →
  lo' t = P → hi' t = P + PAGE_SIZE → runs_user m t = user →
  word_at m (t + 24) = P + PAGE_SIZE → word_at m (t + 4) = P + PAGE_SIZE - 4 * n →
  frame_is n F m (P + PAGE_SIZE - 4 * n) → n = (if user then 16 else 14) →
  ring3 (F 12) = user → ring3 (u16 (F 12)) = user →
  task_ok (owns := owns) lo' hi' m t ∧ waits lo' hi' m (t, context_of F).
Proof using.
  intros Hnz Ot Op Hd El Eh Eu Eb Ef HF Hn Hr Hr'.
  destruct (frame_is_context n F m _ HF) as [Es Ec]; [by rewrite Hr|]. split.
  - split; rewrite ?El, ?Eh; try done. by rewrite Z.add_simpl_l.
  - unfold waits. rewrite Ef, Es, Ec, El, Eh, Eu. unfold PAGE_SIZE.
    split_and!; [destruct user; lia|lia|done|exact Hr'].
Qed.

(** The task is in the list, [F] is its frame. *)
Record enqueued (l l' : list block) (t b k n : Z) (F : Z → Z) (m m0 m' : machine) : Prop := {
  eq_regs : m' = set_tasks (set_task_list_tail t (tasks m)) (set_mem (mem m') m);
  eq_map : kernel_map pd pt m';
  eq_ptr : word_at m' (t + 4) = window_page k + PAGE_SIZE - 4 * n;
  eq_words : frame_is n F m' (window_page k + PAGE_SIZE - 4 * n);
  eq_pid : word_at m' (t + 12) = word_at m (task_list_tail (tasks m) + 12) [+] 1;
  eq_link : word_at m' (task_list_tail (tasks m) + 36) = t;
  eq_struct o : 16 <= o < TASK_SIZEOF → byte_at m' (t + o) = byte_at m0 (t + o);
  eq_rest a : owns a → ¬ (t <= a < t + TASK_SIZEOF) →
    ¬ (window_page k <= a < window_page k + PAGE_SIZE) →
    ¬ (task_list_tail (tasks m) + 36 <= a < task_list_tail (tasks m) + 40) →
    byte_at m' a = byte_at m0 a
}.

Lemma ready_enqueued l l' t b k user fs n m m0 cur ws1 ws2 :
  room pd pt l l' t b k m → ring_room l b k m cur ws1 ws2 →
  stack_ready l l' t b k user m m0 → n = (if user then 16 else 14) →
  Forall (λ f, 0 <= f.1 < n) fs →
  ∃ m', (set_trapframe t (window_page k + PAGE_SIZE - 4 * n);;
         set_fields t fs (task_append t)) m0 = Done tt m' ∧
    enqueued l l' t b k n (fields (λ _, 0) fs) m m0 m'.
Proof.
  intros R RR [O0 F0 _ _ B0 Z0 _ _ _ _] Hn Hfs. set (tail := task_list_tail (tasks m)).
  pose proof (heap_carved _ _ _ _ _ _ (rm_heap _ _ _ _ _ _ _ _ R) (rm_fit _ _ _ _ _ _ _ _ R))
    as C. pose proof (cv_owned _ _ _ _ _ C) as Ot.
  pose proof (carved_apart _ _ _ _ _ _ _ C (rm_page_apart _ _ _ _ _ _ _ _ R) ltac:(done)) as Dtp.
  destruct (ring_room_tail _ _ _ _ _ _ _ RR) as (_ & Hnz & Ol & Hlt). fold tail in Hnz, Ol, Hlt.
  assert (t + TASK_SIZEOF <= tail ∨ tail + TASK_SIZEOF <= t) as Dt.
  { apply ranges_apart; [done|done|]. intros a Ha1 Ha2. apply (Hlt a Ha2). left.
    by apply (cv_in _ _ _ _ _ C). }
  assert (tail + TASK_SIZEOF <= window_page k ∨ window_page k + PAGE_SIZE <= tail) as Dp.
  { apply ranges_apart; [done|done|]. intros a Ha1 Ha2. apply (Hlt a Ha1). by right; right. }
  assert (tasks m0 = tasks m) as Et by (by rewrite O0).
  destruct (enqueue_ok (I := kernel_map pd pt) (owns := owns) m0 t (window_page k) n fs tail)
    as (m1 & E & K1 & O1 & V4 & FI & V12 & V36 & B1);
    [apply F0|apply C|apply R|done|done|destruct user; lia|done|by rewrite Et|done..|].
  rewrite Et in E. set (m' := set_tasks (set_task_list_tail t (tasks m)) m1) in *.
  assert (∀ a, byte_at m' a = byte_at m1 a) as HB by (intros; by apply byte_at_same).
  assert (∀ a, word_at m' a = word_at m1 a) as HW by (intros; by apply word_at_same).
  exists m'. split; [exact E|]. unfold TASK_SIZEOF, PAGE_SIZE in *.
  split; fold tail.
  - unfold m', only_memory in *. rewrite O1 at 1. rewrite O0 at 1. reflexivity.
  - by apply (kernel_map_same _ _ m1).
  - rewrite HW. exact V4.
  - intros i Hi. rewrite HW. by apply FI.
  - rewrite HW, V12. unfold word_at. rewrite <- !Z.add_assoc.
    rewrite !B0; try done; first [apply Hlt; lia|owned].
  - rewrite HW. exact V36.
  - unfold TASK_SIZEOF. intros o Ho. rewrite HB. apply B1; [owned|lia..].
  - unfold TASK_SIZEOF, PAGE_SIZE. intros a Ha H1 H2 H3. rewrite HB. apply B1; [done|lia..].
Qed.

Section Enqueued.
Context {l l' : list block} {t b k n : Z} {user : bool} {F : Z → Z} {m m0 m' : machine}.
Context {cur : Z} {ws1 ws2 : list (Z * context)}.
Context (R : room pd pt l l' t b k m) (RR : ring_room l b k m cur ws1 ws2).
Context (S : stack_ready l l' t b k user m m0) (Q : enqueued l l' t b k n F m m0 m').

Lemma room_carved : carved pd pt l l' t.
Proof using R. apply (heap_carved pd pt m); apply R. Qed.

Lemma struct_touched a : t <= a < t + TASK_SIZEOF → touched l b k a.
Proof using R. intros Ha. left. by apply (cv_in _ _ _ _ _ room_carved). Qed.

Lemma enqueued_frame a :
  owns a → ¬ touched l b k a →
  ¬ (task_list_tail (tasks m) + 36 <= a < task_list_tail (tasks m) + 40) →
  byte_at m' a = byte_at m a.
Proof using R S Q.
  intros Ha Hn1 Hn2. rewrite (eq_rest _ _ _ _ _ _ _ _ _ _ Q); [|done| | |done].
  - by apply (sr_frame _ _ _ _ _ _ _ _ S).
  - intros Hin. by apply Hn1, struct_touched.
  - intros Hin. apply Hn1. by right; right.
Qed.

(** The old tail is neither in the heap nor in the descriptor. *)
Lemma enqueued_keeps a :
  owns a → Exists (in_block a) l' ∨ b <= a < b + VMM_BLOCK_DESC_SIZE →
  byte_at m' a = byte_at m0 a.
Proof using R RR Q.
  intros Ha Hin. pose proof room_carved as C. pose proof R as [_ _ _ _ _ _ _ Hda Hpa Hbp].
  destruct (ring_room_tail _ _ _ _ _ _ _ RR) as (_ & _ & _ & Hlt).
  apply (eq_rest _ _ _ _ _ _ _ _ _ _ Q); [done|..].
  - intros Ht. destruct Hin as [Hin|Hin].
    + by apply (block_apart _ _ _ _ (cv_apart _ _ _ _ _ C) Hin).
    + by apply (block_apart _ _ _ _ Hda (cv_in _ _ _ _ _ C a Ht)).
  - intros Ht. destruct Hin as [Hin|Hin]; [|lia].
    by apply (block_apart _ _ _ _ Hpa (cv_sub _ _ _ _ _ C a Hin)).
  - intros Ht. apply (Hlt a); [unfold TASK_SIZEOF; lia|].
    destruct Hin as [Hin|Hin]; [left; by apply (cv_sub _ _ _ _ _ C)|by right; left].
Qed.

Lemma enqueued_regs :
  heap m' = heap m0 ∧ vmm m' = vmm m0 ∧ gdt m' = gdt m ∧
  current_task (tasks m') = current_task (tasks m).
Proof using S Q.
  pose proof (sr_mem _ _ _ _ _ _ _ _ S) as O0. unfold only_memory in O0.
  rewrite (eq_regs _ _ _ _ _ _ _ _ _ _ Q), O0. by split_and!.
Qed.

Lemma enqueued_word o :
  16 <= o → o + 4 <= TASK_SIZEOF → word_at m' (t + o) = word_at m0 (t + o).
Proof using Q.
  intros Ho Ho'. unfold word_at. rewrite <- !Z.add_assoc.
  by rewrite !(eq_struct _ _ _ _ _ _ _ _ _ _ Q) by lia.
Qed.

(** The allocators. *)
Lemma enqueued_pools :
  first_block pd pt b m' ∧ marked b k m m' ∧ heap_list (owns := owns) m' l' ∧
  (clean l m → clean l' m').
Proof using R RR S Q.
  destruct enqueued_regs as (Eh & Ev & _ & _). destruct S as [_ F0 M0 L0 _ _ _ _ _ Z0].
  destruct (block_settles b k m m0 m' F0 M0 (eq_map _ _ _ _ _ _ _ _ _ _ Q) Ev) as [F1 M1].
  { pose proof (fb_owned _ _ _ _ _ F0) as Ob. intros a Ha.
    apply enqueued_keeps; [|by right]. unfold VMM_BLOCK_DESC_SIZE in *. owned. }
  split_and!; [done|done| |].
  - apply (heap_list_bytes m0); [done| |done]. intros a Ha Hin.
    apply enqueued_keeps; [done|by left].
  - intros Hc a Ha. rewrite enqueued_keeps; [by apply Z0| |left; by apply unused_in].
    apply (unused_owned _ l'); [apply L0|done].
Qed.

(** The ring. *)
Lemma enqueued_ring :
  n = (if user then 16 else 14) → ring3 (F 12) = user → ring3 (u16 (F 12)) = user →
  ring_ok (owns := owns) (<[t := window_page k]> lo) (<[t := window_page k + PAGE_SIZE]> hi)
    m' cur (ws1 ++ (t, context_of F) :: ws2).
Proof using HR R RR S Q.
  intros Hn Hu Hu'. pose proof room_carved as C. destruct enqueued_regs as (_ & _ & Eg & Ec).
  pose proof (ring_room_head _ _ _ _ _ _ _ RR) as Hhw. pose proof RR as [HRing Htl Hhd Hap].
  destruct (new_task_ok (<[t := window_page k]> lo) (<[t := window_page k + PAGE_SIZE]> hi) m' t
    (window_page k) n F user) as [T W]; try apply C; try apply R; try apply Q; try done;
    rewrite ?fn_lookup_insert; try done.
  - by apply (carved_apart _ _ _ _ _ _ _ C (rm_page_apart _ _ _ _ _ _ _ _ R)).
  - rewrite <- (sr_user _ _ _ _ _ _ _ _ S). unfold runs_user.
    by rewrite (eq_struct _ _ _ _ _ _ _ _ _ _ Q) by (unfold TASK_SIZEOF; lia).
  - rewrite enqueued_word by (done || unfold TASK_SIZEOF; lia). apply S.
  - apply (ring_insert lo hi _ _ m m' cur ws1 ws2 t _ (task_list_tail (tasks m))
      (task_list_head (tasks m))); try done.
    + by rewrite Ec, (ro_cur _ _ _ _ _ HRing).
    + intros x a Hx Hin Ho Hn'. apply enqueued_frame; [done|by apply (Hap x)|done].
    + intros x Hx. assert (t ≠ x) as Hne.
      { intros E. apply (Hap x t Hx); [left|apply struct_touched]; unfold TASK_SIZEOF; lia. }
      by rewrite !fn_lookup_insert_ne.
    + intros x a Hx Hin Hin'. apply (Hap x a Hx Hin). unfold in_task, on_stack in Hin'.
      rewrite !fn_lookup_insert in Hin'.
      destruct Hin' as [Hin'|Hin']; [by apply struct_touched|by right; right].
    + apply Q.
    + rewrite enqueued_word by (done || unfold TASK_SIZEOF; lia).
      rewrite (sr_next _ _ _ _ _ _ _ _ S). by apply u32_small.
Qed.
End Enqueued.

Lemma ready_created l l' t b k user fs n m m0 cur ws1 ws2 :
  room pd pt l l' t b k m → ring_room l b k m cur ws1 ws2 →
  stack_ready l l' t b k user m m0 → n = (if user then 16 else 14) →
  Forall (λ f, 0 <= f.1 < n) fs → ring3 (fields (λ _, 0) fs 12) = user →
  ring3 (u16 (fields (λ _, 0) fs 12)) = user →
  ∃ m', (set_trapframe t (window_page k + PAGE_SIZE - 4 * n);;
         set_fields t fs (task_append t)) m0 = Done tt m' ∧
    created l l' t b k (context_of (fields (λ _, 0) fs)) m m' cur ws1 ws2.
Proof.
  intros R RR S Hn Hfs Hu Hu'.
  destruct (ready_enqueued l l' t b k user fs n m m0 cur ws1 ws2 R RR S Hn Hfs) as (m' & E' & Q).
  exists m'. split; [exact E'|].
  destruct (enqueued_pools R RR S Q) as (F1 & M1 & L1 & Z1).
  split; [by apply (enqueued_ring R RR S Q)|apply Q|apply Q|done|done|done| |done].
  by apply (enqueued_frame R S Q).
Qed.

Lemma create_user_ok l l' t b k m cur ws1 ws2 :
  room pd pt l l' t b k m → ring_room l b k m cur ws1 ws2 → (length l <= S fuel)%nat →
  ∃ m', task_create_user (S d) (S fuel) m = Done tt m' ∧
    created l l' t b k user_start m m' cur ws1 ws2.
Proof.
  intros R RR Hfu. destruct (user_ready l l' t b k m R Hfu) as (m0 & S & ->).
  apply (ready_created l l' t b k true user_fields 16 m m0 cur ws1 ws2 R RR S eq_refl);
    [|done|done]. repeat constructor; cbn; lia.
Qed.

Lemma create_kernel_ok l l' t b k m cur ws1 ws2 :
  room pd pt l l' t b k m → ring_room l b k m cur ws1 ws2 → clean l m →
  (length l <= S fuel)%nat →
  ∃ m', task_create_kernel (S d) (S fuel) m = Done tt m' ∧
    created l l' t b k kernel_start m m' cur ws1 ws2.
Proof.
  intros R RR Hc Hfu. destruct (kernel_ready l l' t b k m R Hc Hfu) as (m0 & S & ->).
  apply (ready_created l l' t b k false kernel_fields 14 m m0 cur ws1 ws2 R RR S eq_refl);
    [|done|done]. repeat constructor; cbn; lia.
Qed.

Lemma initialised_ring l l' t m m' :
  heap_list (owns := owns) m l → fl_alloc TASK_SIZEOF l = Split t l' →
  initialised l l' t m m' → clean l m →
  owns_range owns (lo t) (hi t - lo t) → t + TASK_SIZEOF <= lo t ∨ hi t <= t →
  ring_ok (owns := owns) lo hi m' t [].
Proof using.
  intros HL Hfit [Er _ _ _ En _ Eu _] Hc Ho Hd.
  pose proof (heap_carved _ _ _ _ _ _ HL Hfit) as C. specialize (Eu Hc).
  split; rewrite ?Eu; try done.
  - by rewrite Er.
  - split; cbn [fmap list_fmap].
    + apply NoDup_singleton.
    + intros x ->%list_elem_of_singleton. split; try done; [apply C|apply C|by rewrite Eu].
    + by intros x y a ->%list_elem_of_singleton ->%list_elem_of_singleton.
Qed.

(** *** One creation after the other *)

Lemma fl_alloc_apart l l' t n v k :
  fl_ordered 0 l → 0 <= n → fl_alloc n l = Split t l' → Forall (apart v k) l →
  Forall (apart v k) l'.
Proof using.
  intros Ho Hn Ha HF. destruct (fl_alloc_Split n l t l' 0 Hn Ho Ha)
    as (l1 & b & sz & l2 & -> & -> & _ & Hs & _).
  apply Forall_app in HF as [F1 [F2 F3]%Forall_cons]. apply Forall_app. split; [done|].
  apply Forall_cons. split; [|done]. unfold apart in *. cbn in *. lia.
Qed.

Lemma created_room l l' l'' t t' b k k' c m m' cur ws1 ws2 :
  room pd pt l l' t b k m → created l l' t b k c m m' cur ws1 ws2 →
  fl_alloc TASK_SIZEOF l' = Split t' l'' → desc_free m b ≠ 1 →
  scan_words (set_page (desc_bitmap m b) k) 0 = Some k' →
  Z.max (Z.max (desc_high_water m b) (k + 1)) (k' + 1) ≠ HIGH_WATER_THRESHOLD ∨
    desc_next m b ≠ 0 ∨ allocating_new_block (vmm m) = true →
  owns_range owns (window_page k') PAGE_SIZE →
  Forall (apart (window_page k') PAGE_SIZE) l →
  b + VMM_BLOCK_DESC_SIZE <= window_page k' ∨ window_page k' + PAGE_SIZE <= b →
  room pd pt l' l'' t' b k' m'.
Proof using.
  intros [_ (_ & Ho & _) Hfit _ _ _ _ Hda _ _] [_ Er _ F [M1 M2 M3 M4] HL _ _] Hf' Hn Hs Hq Hp Ha Hd.
  split; try done.
  - rewrite M2. lia.
  - by rewrite M1.
  - rewrite M3, M4, Er. exact Hq.
  - by apply (fl_alloc_apart l l' t TASK_SIZEOF).
  - by apply (fl_alloc_apart l l' t TASK_SIZEOF).
Qed.
End Create.

Section Boot.
Context `{L : Layout} (pd pt : Z) `{HR : !Region (kernel_map pd pt) (window_free pd pt)}.

Abbreviation owns := (window_free pd pt).

(** After a creation there is room for the next if the page differs. *)
Lemma created_ring_room lo hi l l' t b k k' c m m' cur ws1 ws2 :
  room pd pt l l' t b k m → ring_room pd pt lo hi l b k m cur ws1 ws2 →
  created pd pt lo hi l l' t b k c m m' cur ws1 ws2 →
  Forall (apart (window_page k') PAGE_SIZE) l →
  window_page k + PAGE_SIZE <= window_page k' ∨ window_page k' + PAGE_SIZE <= window_page k →
  (∀ x a, x ∈ cur :: (ws1 ++ ws2).*1 → in_task lo hi x a →
    ¬ (window_page k' <= a < window_page k' + PAGE_SIZE)) →
  ring_room pd pt (<[t := window_page k]> lo) (<[t := window_page k + PAGE_SIZE]> hi)
    l' b k' m' cur (ws1 ++ [(t, c)]) ws2.
Proof.
  intros R RR [HRing Er _ _ _ _ _ _] Hpa Hpp Hold.
  pose proof R as [_ HL Hfit _ _ _ _ Hda Hpa0 Hbp0].
  pose proof (heap_carved _ _ _ _ _ _ HL Hfit) as C.
  pose proof (carved_apart _ _ _ _ _ _ _ C Hpa ltac:(done)) as Dtp.
  pose proof (carved_apart _ _ _ _ _ _ _ C Hda ltac:(done)) as Dtb.
  destruct RR as [_ Htl Hhd Hap]. split.
  - by rewrite <- app_assoc.
  - rewrite (fmap_app fst ws1 [(t, c)] : _ = ws1.*1 ++ [t]).
    change (last ((cur :: ws1.*1) ++ [t]) = Some (task_list_tail (tasks m'))).
    by rewrite last_snoc, Er.
  - rewrite Er. exact Hhd.
  - intros x a Hx Hin Ht.
    assert (x = t ∨ x ≠ t ∧ x ∈ cur :: (ws1 ++ ws2).*1) as [->|[Hne Hx']].
    { destruct (decide (x = t)) as [|Hne]; [by left|right]. split; [done|].
      rewrite !fmap_app in *. cbn [fmap list_fmap fst] in Hx. rewrite elem_of_cons, !elem_of_app in *.
      rewrite list_elem_of_singleton in Hx. tauto. }
    + unfold in_task, on_stack in Hin. rewrite !fn_lookup_insert in Hin.
      destruct Ht as [Ht|[Ht|Ht]]; [|lia|lia]. destruct Hin as [Hin|Hin].
      * by apply (block_apart _ _ _ _ (cv_apart _ _ _ _ _ C) Ht).
      * apply (block_apart _ _ _ _ Hpa0 (cv_sub _ _ _ _ _ C a Ht)). done.
    + unfold in_task, on_stack in Hin. rewrite !fn_lookup_insert_ne in Hin by done.
      destruct Ht as [Ht|[Ht|Ht]].
      * apply (Hap x a Hx' Hin). left. by apply (cv_sub _ _ _ _ _ C).
      * apply (Hap x a Hx' Hin). by right; left.
      * by apply (Hold x a Hx' Hin).
Qed.

(** The state in which kmain creates its tasks: the heap has room for three
    of them, the page allocator for two stacks; [s .. e) is the boot stack. *)
Record boot_room (l l0 l1 l2 : list block) (t0 t1 t2 b k1 k2 s e : Z) (m : machine) : Prop := {
  br_block : first_block pd pt b m;
  br_heap : heap_list (owns := owns) m l;
  br_clean : clean l m;
  br_fit0 : fl_alloc TASK_SIZEOF l = Split t0 l0;
  br_fit1 : fl_alloc TASK_SIZEOF l0 = Split t1 l1;
  br_fit2 : fl_alloc TASK_SIZEOF l1 = Split t2 l2;
  br_free : 2 <= desc_free m b;
  br_page1 : scan_words (desc_bitmap m b) 0 = Some k1;
  br_page2 : scan_words (set_page (desc_bitmap m b) k1) 0 = Some k2;
  br_quiet : Z.max (desc_high_water m b) (k1 + 1) ≠ HIGH_WATER_THRESHOLD ∧
             Z.max (Z.max (desc_high_water m b) (k1 + 1)) (k2 + 1) ≠ HIGH_WATER_THRESHOLD;
  br_owned1 : owns_range owns (window_page k1) PAGE_SIZE;
  br_owned2 : owns_range owns (window_page k2) PAGE_SIZE;
  br_desc_apart : Forall (apart b VMM_BLOCK_DESC_SIZE) l;
  br_apart1 : Forall (apart (window_page k1) PAGE_SIZE) l;
  br_apart2 : Forall (apart (window_page k2) PAGE_SIZE) l;
  br_desc1 : b + VMM_BLOCK_DESC_SIZE <= window_page k1 ∨ window_page k1 + PAGE_SIZE <= b;
  br_desc2 : b + VMM_BLOCK_DESC_SIZE <= window_page k2 ∨ window_page k2 + PAGE_SIZE <= b;
  br_stack : s < e ∧ owns_range owns s (e - s);
  br_stack_apart a : s <= a < e → ¬ touched l b k1 a ∧
    ¬ (window_page k2 <= a < window_page k2 + PAGE_SIZE)
}.
(** After [task_init]. *)
Lemma initialised_room l l0 l1 l2 t0 t1 t2 b k1 k2 s e m m1 lo hi :
  boot_room l l0 l1 l2 t0 t1 t2 b k1 k2 s e m → initialised pd pt l l0 t0 m m1 →
  lo t0 = s → hi t0 = e →
  room pd pt l0 l1 t1 b k1 m1 ∧ ring_room pd pt lo hi l0 b k1 m1 t0 [] [] ∧ clean l0 m1 ∧
  same_desc b m m1.
Proof.
  intros [F HL Hc H0 H1 H2 Hfr Hp1 Hp2 Hq O1 O2 Hda Ha1 Ha2 Hd1 Hd2 Hs Hsa] HIn El Eh.
  pose proof HIn as [Er K1 HL0 _ _ HB _ Hc0]. pose proof HL as (_ & Ho & _).
  pose proof (heap_carved _ _ _ _ _ _ HL H0) as C.
  assert (same_desc b m m1) as SD.
  { apply same_desc_bytes. intros a Ha. apply HB; [|by intros Hin; apply (block_apart _ _ _ _ Hda Hin)].
    apply (owns_range_at _ _ _ _ (fb_owned _ _ _ _ _ F)); lia. }
  pose proof SD as [Sb Sh Sf _ _ Sn].
  destruct Hs as [Hse Hs]. assert (t0 + TASK_SIZEOF <= s ∨ e <= t0) as Hap.
  { replace e with (s + (e - s)) by lia. apply ranges_apart; [done|lia|].
    intros a Hx1 Hx2. apply (proj1 (Hsa a ltac:(lia))). left. by apply (cv_in _ _ _ _ _ C). }
  split_and!; [| |by apply Hc0|done].
  - split; rewrite ?Sb, ?Sh, ?Sf, ?Sn; try done; [|lia|left; apply Hq|..].
    + apply (first_block_same pd pt b m); [done|by rewrite Er|done|done].
    + by apply (fl_alloc_apart l l0 t0 TASK_SIZEOF).
    + by apply (fl_alloc_apart l l0 t0 TASK_SIZEOF).
  - split; [|by rewrite Er|by rewrite Er|].
    + apply (initialised_ring pd pt lo hi l l0 t0 m m1); try done; by rewrite El, Eh.
    + intros x a ->%list_elem_of_singleton Hin Ht. unfold in_task, on_stack in Hin.
      rewrite El, Eh in Hin. destruct Hin as [Hin|Hin].
      * destruct Ht as [Ht|[Ht|Ht]].
        -- by apply (block_apart _ _ _ _ (cv_apart _ _ _ _ _ C) Ht).
        -- by apply (block_apart _ _ _ _ Hda (cv_in _ _ _ _ _ C a Hin)).
        -- by apply (block_apart _ _ _ _ Ha1 (cv_in _ _ _ _ _ C a Hin)).
      * apply (proj1 (Hsa a Hin)). destruct Ht as [Ht|Ht]; [left|by right].
        by apply (cv_sub _ _ _ _ _ C).
Qed.
(** The next page is another one. *)
Lemma next_page_apart m b k1 k2 :
  scan_words (desc_bitmap m b) 0 = Some k1 →
  scan_words (set_page (desc_bitmap m b) k1) 0 = Some k2 →
  window_page k1 + PAGE_SIZE <= window_page k2 ∨ window_page k2 + PAGE_SIZE <= window_page k1.
Proof using.
  intros H1 H2. pose proof (scan_words_spec (desc_bitmap m b) 0) as S1.
  pose proof (scan_words_spec (set_page (desc_bitmap m b) k1) 0) as S2.
  rewrite H1 in S1. rewrite H2 in S2. destruct S1 as (R1 & _), S2 as (R2 & C2 & _).
  rewrite Z.sub_0_r in *. rewrite bit_of_set_page in C2 by lia.
  apply orb_false_iff in C2 as [C2%Z.eqb_neq _]. unfold window_page, PAGE_SIZE. lia.
Qed.

(** A field of a task that was there before. *)
Lemma created_field lo hi l l' t b k c m m' cur ws1 ws2 x o :
  ring_room pd pt lo hi l b k m cur ws1 ws2 →
  created pd pt lo hi l l' t b k c m m' cur ws1 ws2 →
  x ∈ cur :: (ws1 ++ ws2).*1 → 0 <= o → o + 4 <= 36 →
  word_at m' (x + o) = word_at m (x + o).
Proof.
  intros RR Cr Hx Ho Ho'. destruct (ring_room_tail _ _ _ _ _ _ _ _ _ _ _ RR) as (Htl & _).
  pose proof (ro_tasks _ _ _ _ _ (rr_ring _ _ _ _ _ _ _ _ _ _ _ RR)) as HQ.
  pose proof (qo_tasks _ _ _ _ HQ x Hx) as T. pose proof (tk_struct _ _ _ _ T) as Hs.
  assert (∀ i, 0 <= i < 36 → byte_at m' (x + i) = byte_at m (x + i)) as HB.
  { intros i Hi. assert (in_task lo hi x (x + i)) as Hin by (left; unfold TASK_SIZEOF; lia).
    apply (cr_frame _ _ _ _ _ _ _ _ _ _ _ _ _ _ _ Cr).
    - apply Hs. unfold TASK_SIZEOF. lia.
    - by apply (rr_apart _ _ _ _ _ _ _ _ _ _ _ RR x).
    - intros Hd. destruct (decide (x = task_list_tail (tasks m))) as [->|Hne]; [lia|].
      apply (qo_apart _ _ _ _ HQ _ _ (x + i) Hx Htl Hne Hin). left. unfold TASK_SIZEOF. lia. }
  unfold word_at. rewrite <- !Z.add_assoc. by rewrite !HB by lia.
Qed.

(** The three calls of [kmain], one after the other. *)
Record boot_steps (l l0 l1 l2 : list block) (t0 t1 t2 b k1 k2 s e : Z)
    (m m1 m2 m3 : machine) : Prop := {
  bs_init : initialised pd pt l l0 t0 m m1;
  bs_bitmap : desc_bitmap m1 b = desc_bitmap m b;
  bs_counts : desc_high_water m1 b = desc_high_water m b ∧ desc_free m1 b = desc_free m b;
  bs_room1 : ring_room pd pt (λ _, s) (λ _, e) l0 b k1 m1 t0 [] [];
  bs_kernel : created pd pt (λ _, s) (λ _, e) l0 l1 t1 b k1 kernel_start m1 m2 t0 [] [];
  bs_fit2 : room pd pt l1 l2 t2 b k2 m2;
  bs_room2 : ring_room pd pt (<[t1 := window_page k1]> (λ _, s))
    (<[t1 := window_page k1 + PAGE_SIZE]> (λ _, e)) l1 b k2 m2 t0 [(t1, kernel_start)] [];
  bs_user : created pd pt (<[t1 := window_page k1]> (λ _, s))
    (<[t1 := window_page k1 + PAGE_SIZE]> (λ _, e)) l1 l2 t2 b k2 user_start m2 m3 t0
    [(t1, kernel_start)] []
}.

Lemma boot_steps_ok d fuel l l0 l1 l2 t0 t1 t2 b k1 k2 s e m :
  boot_room l l0 l1 l2 t0 t1 t2 b k1 k2 s e m → (length l <= S fuel)%nat →
  ∃ m1 m2 m3, task_init (S d) (S fuel) m = Done tt m1 ∧
    task_create_kernel (S d) (S fuel) m1 = Done tt m2 ∧
    task_create_user (S d) (S fuel) m2 = Done tt m3 ∧
    boot_steps l l0 l1 l2 t0 t1 t2 b k1 k2 s e m m1 m2 m3.
Proof.
  intros BR Hfu.
  pose proof BR as [F HL Hc H0 H1 H2 Hfr Hp1 Hp2 [_ Hq2] O1 O2 Hda Ha1 Ha2 Hd1 Hd2 _ Hsa].
  pose proof HL as (_ & Ho & _). pose proof (next_page_apart _ _ _ _ Hp1 Hp2) as Hpp.
  destruct (task_init_ok pd pt (S d) (S fuel) l l0 t0 m (fb_map _ _ _ _ _ F) HL Hfu H0)
    as (m1 & E1 & HIn).
  destruct (initialised_room l l0 l1 l2 t0 t1 t2 b k1 k2 s e m m1 (λ _, s) (λ _, e) BR HIn
    eq_refl eq_refl) as (R1 & RR1 & Hc1 & [Sb Sh Sf _ _ Sn]).
  pose proof (fl_alloc_length TASK_SIZEOF l t0 l0 H0) as Hl0.
  pose proof (rm_heap _ _ _ _ _ _ _ _ R1) as (_ & Ho0 & _).
  pose proof (fl_alloc_length TASK_SIZEOF l0 t1 l1 H1) as Hl1.
  pose proof (heap_carved _ _ _ _ _ _ HL H0) as C0.
  assert (Forall (apart (window_page k2) PAGE_SIZE) l0) as Ha20
    by (by apply (fl_alloc_apart l l0 t0 TASK_SIZEOF)).
  destruct (create_kernel_ok pd pt d fuel (λ _, s) (λ _, e) l0 l1 t1 b k1 m1 t0 [] [] R1 RR1 Hc1
    ltac:(lia)) as (m2 & E2 & C2).
  assert (room pd pt l1 l2 t2 b k2 m2) as R2.
  { apply (created_room pd pt (λ _, s) (λ _, e) l0 l1 l2 t1 t2 b k1 k2 kernel_start m1 m2 t0 [] []);
      rewrite ?Sb, ?Sf, ?Sh; try done; [lia|by left]. }
  assert (ring_room pd pt (<[t1 := window_page k1]> (λ _, s))
    (<[t1 := window_page k1 + PAGE_SIZE]> (λ _, e)) l1 b k2 m2 t0 [(t1, kernel_start)] []) as RR2.
  { apply (created_ring_room (λ _, s) (λ _, e) l0 l1 t1 b k1 k2 kernel_start m1 m2 t0 [] []); try done.
    intros x a ->%list_elem_of_singleton [Hin|Hin] Hk.
    - by apply (block_apart _ _ _ _ Ha2 (cv_in _ _ _ _ _ C0 a Hin)).
    - by apply (proj2 (Hsa a Hin)). }
  destruct (create_user_ok pd pt d fuel _ _ l1 l2 t2 b k2 m2 t0 _ [] R2 RR2 ltac:(lia))
    as (m3 & E3 & C3).
  by exists m1, m2, m3.
Qed.

(** The stacks of the three tasks. *)
Definition boot_lo (t1 t2 k1 k2 s : Z) : Z → Z :=
  <[t2 := window_page k2]> (<[t1 := window_page k1]> (λ _, s)).

Definition boot_hi (t1 t2 k1 k2 e : Z) : Z → Z :=
  <[t2 := window_page k2 + PAGE_SIZE]> (<[t1 := window_page k1 + PAGE_SIZE]> (λ _, e)).
End Boot.

(** Memory and the globals of the task list may differ. *)
Definition tasks_step (m m' : machine) : Prop := m' = set_tasks (tasks m') (set_mem (mem m') m).

Lemma tasks_step_intro m m' T : m' = set_tasks T (set_mem (mem m') m) → tasks_step m m'.
Proof.
  intros E. unfold tasks_step. assert (tasks m' = T) as -> by (rewrite E; done). exact E.
Qed.

Lemma tasks_step_trans m m1 m2 : tasks_step m m1 → tasks_step m1 m2 → tasks_step m m2.
Proof. unfold tasks_step. intros E1 E2. rewrite E2 at 1. rewrite E1. done. Qed.

(** What the three calls have done. *)
Record tasks_made `{L : Layout} (pd pt : Z) (l2 : list block) (t0 t1 t2 b k1 k2 s e : Z)
    (m m' : machine) : Prop := {
  tm_ring : ring_ok (owns := window_free pd pt) (boot_lo t1 t2 k1 k2 s) (boot_hi t1 t2 k1 k2 e) m'
    t0 [(t1, kernel_start); (t2, user_start)];
  tm_pids : word_at m' (t0 + 12) = 0 ∧ word_at m' (t1 + 12) = 1 ∧ word_at m' (t2 + 12) = 2;
  tm_tasks : tasks m' =
    set_task_list_tail t2 (set_task_list_head t0 (set_current_task t0 (tasks m)));
  tm_step : tasks_step m m';
  tm_block : first_block pd pt b m';
  tm_heap : heap_list (owns := window_free pd pt) m' l2;
  tm_bitmap : desc_bitmap m' b = set_page (set_page (desc_bitmap m b) k1) k2;
  tm_free : desc_free m' b = desc_free m b - 2;
  tm_high : desc_high_water m' b = Z.max (Z.max (desc_high_water m b) (k1 + 1)) (k2 + 1)
}.

Lemma tasks_made_ok `{L : Layout} pd pt d fuel l l0 l1 l2 t0 t1 t2 b k1 k2 s e m :
  boot_room pd pt l l0 l1 l2 t0 t1 t2 b k1 k2 s e m → (length l <= S fuel)%nat →
  ∃ m1 m2 m', task_init (S d) (S fuel) m = Done tt m1 ∧
    task_create_kernel (S d) (S fuel) m1 = Done tt m2 ∧
    task_create_user (S d) (S fuel) m2 = Done tt m' ∧
    tasks_made pd pt l2 t0 t1 t2 b k1 k2 s e m m'.
Proof.
  intros BR Hfu. destruct (boot_steps_ok pd pt d fuel _ _ _ _ _ _ _ _ _ _ _ _ m BR Hfu)
    as (m1 & m2 & m3 & E1 & E2 & E3 & [HI Hb [Sh Sf] RR1 C2 _ RR2 C3]).
  exists m1, m2, m3. split_and!; [done..|].
  pose proof HI as [R1 _ _ P1 _ _ _ _]. pose proof C2 as [_ R2 P2 _ M2 _ _ _].
  pose proof C3 as [HRing R3 P3 F3 M3 HL3 _ _].
  assert (tasks m2 = set_task_list_tail t1 (set_task_list_head t0 (set_current_task t0 (tasks m))))
    as T2 by (rewrite R2, R1; done).
  assert (task_list_tail (tasks m1) = t0 ∧ task_list_tail (tasks m2) = t1) as [L1 L2]
    by (rewrite T2, R1; done).
  rewrite L1 in P2. rewrite L2 in P3.
  assert (t0 ∈ t0 :: ([] ++ [] : list (Z * context)).*1) as H01 by left.
  assert (t0 ∈ t0 :: ([(t1, kernel_start)] ++ []).*1 ∧ t1 ∈ t0 :: ([(t1, kernel_start)] ++ []).*1)
    as [H02 H12] by (split; apply elem_of_cons; [by left|right; by apply elem_of_cons; left]).
  assert (word_at m2 (t1 + 12) = 1) as N1 by (by rewrite P2, P1).
  destruct M2 as [B2 D2 G2 _], M3 as [B3 D3 G3 _].
  split; try done.
  - split_and!.
    + rewrite (created_field _ _ _ _ _ _ _ _ _ _ _ _ _ _ _ t0 12 RR2 C3 H02),
        (created_field _ _ _ _ _ _ _ _ _ _ _ _ _ _ _ t0 12 RR1 C2 H01) by lia. done.
    + by rewrite (created_field _ _ _ _ _ _ _ _ _ _ _ _ _ _ _ t1 12 RR2 C3 H12) by lia.
    + rewrite P3, N1. done.
  - rewrite R3, T2. done.
  - apply (tasks_step_trans m m2); [apply (tasks_step_trans m m1)|];
      eapply tasks_step_intro; eassumption.
  - by rewrite B3, B2, Hb.
  - rewrite D3, D2, Sf. lia.
  - by rewrite G3, G2, Sh.
Qed.

(** ** A kernel whose heap is zero *)

Definition boot_blocks : list block := [(3222323200, 3936)].

Lemma zeroed_machine :
  { m | first_block 1114112 1118208 3222327144 m ∧
        heap_list (owns := window_free 1114112 1118208) m boot_blocks ∧ clean boot_blocks m ∧
        initial_desc 3222327144 (1118208 + KERNEL_VIRT_BASE) 274 m ∧
        cpu m = cpu kernel_with_vmm ∧ vmm m = vmm kernel_with_vmm }.
Proof.
  exists (match memset 3222323208 0 3928 kernel_with_vmm with Done _ m | Stop _ m => m end).
  pose proof (window_region 1114112 1118208) as HR.
  destruct (proj2_sig vmm_machine) as (F & D & _ & _ & HL). fold kernel_with_vmm in *.
  pose proof HL as (Hf & Ho & Hw). pose proof Hw as [Hb _]%Forall_cons. cbn [fst snd] in Hb.
  destruct (memset_ok (I := kernel_map 1114112 1118208) (owns := window_free 1114112 1118208)
    3222323208 0 3928 kernel_with_vmm (fb_map _ _ _ _ _ F) ltac:(done) ltac:(owned))
    as (m & E & K & W & B).
  rewrite E. pose proof (proj1 W) as OM. unfold only_memory in OM.
  assert (same_desc 3222327144 kernel_with_vmm m) as SD.
  { apply same_desc_bytes. unfold VMM_BLOCK_DESC_SIZE. intros a Ha. apply (proj2 W); [|lia].
    apply (owns_range_at _ _ _ _ (fb_owned _ _ _ _ _ F)); unfold VMM_BLOCK_DESC_SIZE; lia. }
  split_and!.
  - apply (first_block_same _ _ _ kernel_with_vmm); [done|by rewrite OM|done|done].
  - split_and!; [|done|done]. assert (heap m = heap kernel_with_vmm) as -> by (by rewrite OM).
    apply (free_seg_frame (owns := window_free 1114112 1118208) kernel_with_vmm m _ _ _
      3222323208 3928); [exact (proj2 W)|exact Hw| |exact Hf].
    apply Forall_singleton. cbn. lia.
  - intros a [Ha|Ha%Exists_nil]%Exists_cons; [|done]. cbn in Ha.
    replace a with (3222323208 + (a - 3222323208)) by lia. by rewrite B by lia.
  - destruct D as [D1 D2 D3 D4 D5 D6], SD as [S1 S2 S3 S4 S5 S6].
    split; rewrite ?S1, ?S2, ?S3, ?S4, ?S5, ?S6; done.
  - by rewrite OM.
  - by rewrite OM.
Qed.

Definition kernel_zeroed : machine := proj1_sig zeroed_machine.

(** Two free pages, one after the other. *)
Lemma initial_pages m b table n :
  initial_desc b table n m → 0 <= n → n mod 32 <= 30 → n < 1022 →
  scan_words (desc_bitmap m b) 0 = Some n ∧
  scan_words (set_page (desc_bitmap m b) n) 0 = Some (n + 1).
Proof.
  intros [Hb _ _ _ _ _] Hn Hm Hlt.
  split; apply scan_first; rewrite ?length_set_page, ?desc_bitmap_length; try lia.
  - rewrite Hb by mlia. apply Z.ltb_irrefl.
  - intros i Hi. rewrite Hb by mlia. apply Z.ltb_lt. lia.
  - rewrite bit_of_set_page by (rewrite ?desc_bitmap_length; lia). rewrite Hb by mlia.
    apply orb_false_iff. split; [apply Z.eqb_neq; lia|apply Z.ltb_ge; lia].
  - intros i Hi. rewrite bit_of_set_page by (rewrite ?desc_bitmap_length; lia).
    rewrite Hb by mlia. apply orb_true_iff. destruct (Z.eqb_spec i n); [by left|right].
    apply Z.ltb_lt. lia.
Qed.

Lemma kernel_zeroed_room :
  boot_room 1114112 1118208 boot_blocks [(3222323200, 3888)] [(3222323200, 3840)]
    [(3222323200, 3792)] 3222327096 3222327048 3222327000 3222327144 274 275
    3222331392 3222335488 kernel_zeroed.
Proof.
  destruct (proj2_sig zeroed_machine) as (F & HL & Hc & D & _). fold kernel_zeroed in *.
  pose proof (initial_pages _ _ _ _ D ltac:(done) ltac:(done) ltac:(done)) as [P1 P2].
  pose proof (id_high _ _ _ _ D) as Hh. pose proof (id_free _ _ _ _ D) as Hf.
  split; try done.
  - by rewrite Hf.
  - by rewrite Hh.
  - apply (low_frame_owned 1114112 1118208 (274 * 4096)); done.
  - apply (low_frame_owned 1114112 1118208 (275 * 4096)); done.
  - apply Forall_singleton. unfold apart, VMM_BLOCK_DESC_SIZE. cbn. lia.
  - apply Forall_singleton. unfold apart, window_page, KERNEL_VIRT_BASE. cbn. lia.
  - apply Forall_singleton. unfold apart, window_page, KERNEL_VIRT_BASE. cbn. lia.
  - unfold window_page, VMM_BLOCK_DESC_SIZE, KERNEL_VIRT_BASE. lia.
  - unfold window_page, VMM_BLOCK_DESC_SIZE, KERNEL_VIRT_BASE. lia.
  - split; [done|]. apply (low_frame_owned 1114112 1118208 (270 * 4096)); done.
  - intros a Ha. unfold touched, boot_blocks, in_block, window_page, VMM_BLOCK_DESC_SIZE,
      KERNEL_VIRT_BASE, PAGE_SIZE. rewrite Exists_cons, Exists_nil. cbn [fst snd]. lia.
Qed.

(** ** Properties *)

(** [kmain]'s three calls [task_init], [task_create_kernel] and
    [task_create_user] build what the scheduler needs: a ring in which the
    boot task runs, the kernel task waits to start [task_test] and the user
    task behind it to start [task_userspace] in ring 3, each with the page of
    its kernel stack.  They are numbered 0, 1 and 2, the heap and the page
    allocator have given what was taken, and nothing but memory and the
    globals of the task list has changed. *)
Theorem kmain_creates_ring `{L : Layout} pd pt d fuel l l0 l1 l2 t0 t1 t2 b k1 k2 s e m :
  boot_room pd pt l l0 l1 l2 t0 t1 t2 b k1 k2 s e m → (length l <= S fuel)%nat →
  ∃ m', (task_init (S d) (S fuel);; task_create_kernel (S d) (S fuel);;
         task_create_user (S d) (S fuel)) m = Done tt m' ∧
    ring_ok (owns := window_free pd pt) (boot_lo t1 t2 k1 k2 s) (boot_hi t1 t2 k1 k2 e) m' t0
      [(t1, kernel_start); (t2, user_start)] ∧
    word_at m' (t0 + 12) = 0 ∧ word_at m' (t1 + 12) = 1 ∧ word_at m' (t2 + 12) = 2 ∧
    tasks m' = set_task_list_tail t2 (set_task_list_head t0 (set_current_task t0 (tasks m))) ∧
    tasks_step m m' ∧
    heap_list (owns := window_free pd pt) m' l2 ∧
    desc_bitmap m' b = set_page (set_page (desc_bitmap m b) k1) k2.
Proof.
  intros BR Hfu. destruct (tasks_made_ok pd pt d fuel _ _ _ _ _ _ _ _ _ _ _ _ m BR Hfu)
    as (m1 & m2 & m' & E1 & E2 & E3 & [HR (P0 & P1 & P2) HT HS _ HL HB _ _]).
  exists m'. run E1. run E2. by split_and!.
Qed.

(** The booted kernel of Vmm.v, its heap zeroed. *)
Lemma kmain_creates_ring_witness :
  ∃ m', (task_init 1 1;; task_create_kernel (L := sample_layout) 1 1;;
         task_create_user (L := sample_layout) 1 1) kernel_zeroed = Done tt m' ∧
    ring_ok (owns := window_free 1114112 1118208)
      (boot_lo 3222327048 3222327000 274 275 3222331392)
      (boot_hi 3222327048 3222327000 274 275 3222335488) m' 3222327096
      [(3222327048, kernel_start (L := sample_layout));
       (3222327000, user_start (L := sample_layout))] ∧
    word_at m' (3222327096 + 12) = 0 ∧ word_at m' (3222327048 + 12) = 1 ∧
    word_at m' (3222327000 + 12) = 2 ∧
    tasks m' = set_task_list_tail 3222327000 (set_task_list_head 3222327096
      (set_current_task 3222327096 (tasks kernel_zeroed))) ∧
    tasks_step kernel_zeroed m' ∧
    heap_list (owns := window_free 1114112 1118208) m' [(3222323200, 3792)] ∧
    desc_bitmap m' 3222327144 =
      set_page (set_page (desc_bitmap kernel_zeroed 3222327144) 274) 275.
Proof.
  exact (kmain_creates_ring (L := sample_layout) 1114112 1118208 0 0 boot_blocks
    [(3222323200, 3888)] [(3222323200, 3840)] [(3222323200, 3792)] 3222327096 3222327048
    3222327000 3222327144 274 275 3222331392 3222335488 kernel_zeroed kernel_zeroed_room
    (le_n 1)).
Defined.

(** C24: [task_create_user] puts a task behind the last one of the list,
    wherever the current task is in the ring: its frame starts
    [task_userspace] in ring 3, it follows the old tail, its successor is the
    head, its number is one more.  The tasks that were there keep their
    contexts and stacks, the structure is cut off the heap, the stack is the
    page allocator's next page, and no other memory changes but the link of
    the old tail. *)
Theorem task_create_user_appends `{L : Layout} pd pt d fuel lo hi l l' t b k m cur ws1 ws2 :
  room pd pt l l' t b k m → ring_room pd pt lo hi l b k m cur ws1 ws2 →
  (length l <= S fuel)%nat →
  ∃ m', task_create_user (S d) (S fuel) m = Done tt m' ∧
    ring_ok (owns := window_free pd pt) (<[t := window_page k]> lo)
      (<[t := window_page k + PAGE_SIZE]> hi) m' cur (ws1 ++ (t, user_start) :: ws2) ∧
    task_list_tail (tasks m') = t ∧
    word_at m' (t + 12) = word_at m (task_list_tail (tasks m) + 12) [+] 1 ∧
    heap_list (owns := window_free pd pt) m' l' ∧
    desc_bitmap m' b = set_page (desc_bitmap m b) k ∧
    ∀ a, window_free pd pt a → ¬ touched l b k a →
      ¬ (task_list_tail (tasks m) + 36 <= a < task_list_tail (tasks m) + 40) →
      byte_at m' a = byte_at m a.
Proof.
  intros R RR Hfu.
  destruct (create_user_ok pd pt d fuel lo hi l l' t b k m cur ws1 ws2 R RR Hfu)
    as (m' & E & [HRing Er HP _ HM HL HB _]).
  exists m'. split_and!; try done; [by rewrite Er|apply HM].
Qed.

(** The third call of [kmain]. *)
Lemma task_create_user_appends_witness :
  ∃ m m', task_create_user (L := sample_layout) 1 1 m = Done tt m' ∧
    ring_ok (owns := window_free 1114112 1118208)
      (boot_lo 3222327048 3222327000 274 275 3222331392)
      (boot_hi 3222327048 3222327000 274 275 3222335488) m' 3222327096
      [(3222327048, kernel_start (L := sample_layout));
       (3222327000, user_start (L := sample_layout))].
Proof.
  destruct (boot_steps_ok (L := sample_layout) 1114112 1118208 0 0 _ _ _ _ _ _ _ _ _ _ _ _ _
    kernel_zeroed_room (le_n 1)) as (m1 & m2 & m3 & _ & _ & _ & [_ _ _ _ _ R2 RR2 _]).
  destruct (task_create_user_appends (L := sample_layout) 1114112 1118208 0 0 _ _ _ _ _ _ _ _ _
    _ _ R2 RR2 (le_n 1)) as (m' & E & HRing & _).
  exists m2, m'. split; [exact E|exact HRing].
Defined.
