(* ===== verification/Interleave.v ===== *)
(** * Key presses between the ticks

    Executions in which the keyboard interrupts the running task as well as
    the timer.  A key press is a step the scheduler does not see, so such an
    execution resumes the tasks in the order of Schedule.v. *)

From stdpp Require Import functions.
From S2P Require Import Prelude Machine Tty Memory Keyboard Pic Task Kernel Schedule Create.

(** The keyboard's driver is installed, there is room in the ring of keys,
    and the code that waits is neither a prefix nor Ctrl-L. *)
Record key_ready (m : machine) : Prop := {
  kr_handler : idt_handlers (interrupts m) !! 33%nat = Some Machine.isr_key_press;
  kr_ring : kb_ok (keyboard m);
  kr_room : kb_tail (keyboard m) < KB_ELEMENTS;
  kr_prefix : next_scancode (acknowledged 33 m) ≠ 0xe0;
  kr_plain : ¬ (decode (kb_state (keyboard m)) (next_scancode (acknowledged 33 m)) = 108 ∧
                ctrl (kb_state (keyboard m)) = true)
}.

Section Interleave.
Context {I : machine → Prop} {owns : Z → Prop} `{HR : !Region I owns}.
Context (lo hi : Z → Z).

Abbreviation runs_on := (runs_on (I := I) (owns := owns) lo hi).
Abbreviation ring_ok := (ring_ok (owns := owns) lo hi).
Abbreviation executes := (executes (I := I) (owns := owns) lo hi).
Abbreviation interruptible := (interruptible lo hi).

(** ** Running on *)

Lemma runs_on_refl m : I m → timer_ready m → runs_on m m.
Proof using. intros HI HT. by split_and!. Qed.

Lemma runs_on_trans m m1 m2 : runs_on m m1 → runs_on m1 m2 → runs_on m m2.
Proof using.
  intros (_ & T1 & G1 & _ & B1) (K2 & T2 & G2 & R2 & B2).
  split_and!; [done|by rewrite T2|by rewrite G2|done|].
  intros w Hw Hs Hf. rewrite B2, B1; rewrite ?T1; done.
Qed.

Lemma interruptible_runs m m1 cur ws esp c :
  ring_ok m cur ws → runs_on m m1 → interruptible m esp c → interruptible m1 esp c.
Proof using HR.
  intros HRing (_ & T & _ & _ & HA) [Hc Hm Hr]. pose proof HRing as [Ec Eq _ _ _].
  rewrite Ec in HA. split; rewrite ?T; try done. rewrite Ec in *.
  assert (cur ∈ cur :: ws.*1) as Hin by left.
  by rewrite (agree_user (owns := owns) lo hi HA Eq Hin cur Hin).
Qed.

(** A key press is such a step. *)
Lemma key_press_runs_on m cur ws esp c :
  I m → ring_ok m cur ws → timer_ready m → interruptible m esp c → key_ready m →
  ∃ m', irq 1 esp c m = Stop (Iret c) m' ∧ runs_on m m' ∧ kb_ok (keyboard m') ∧
    (kb_state (keyboard m'), kb_queue (keyboard m')) =
      press (decode (kb_state (keyboard m)) (next_scancode (acknowledged 33 m)))
        (kb_state (keyboard m)) (kb_queue (keyboard m)) ∧
    tty m' = tty m ∧ timer m' = timer m.
Proof using HR.
  intros HI HRing HT Hib [Kh Ko Kr Kp Kl]. pose proof HRing as [Ec Eq _ _ _].
  destruct (interruptible_stack lo hi m esp c cur ws HRing Hib) as (Htop & Hlo & Hhi & Ho).
  set (top := if ring3 (ctx_cs c) then hi cur else esp) in *.
  pose proof (qo_tasks _ _ _ _ Eq cur ltac:(left)) as T.
  destruct (keyboard_irq_ok I owns esp c top m HI (ib_context _ _ _ _ _ Hib) Htop Ho)
    as (m' & E & K & F & P & Ok & (Et & Ey & Ei & Em & Eg) & B); try done.
  - rewrite Ec. intros _. pose proof (tk_apart _ _ _ _ T). pose proof (context_size_bounds c).
    split; [apply T|]. unfold TASK_SIZEOF in *. lia.
  - exists m'. split_and!; try done. split_and!; try done.
    + destruct HT as [H1 H2 H3]. split; [by rewrite Ei|by rewrite Em|by rewrite Et].
    + rewrite Ec. intros w Hw Hs Hf. apply B; [done|unfold on_stack in Hs; lia|].
      unfold trapframe_field. rewrite Ec. tauto.
Qed.

(** ** Executions with both interrupts *)

(** [trace] has the task and the context each tick resumes; [presses] the
    context each key press interrupts and the one it resumes. *)
Inductive interleaves :
  machine → list (Z * context) → list (context * context) → machine → Prop :=
| interleaves_nil m : interleaves m [] [] m
| interleaves_tick m m1 esp c r m2 trace presses m3 :
    runs_on m m1 → interruptible m1 esp c → irq 0 esp c m1 = Stop (Iret r) m2 →
    interleaves m2 trace presses m3 →
    interleaves m ((current_task (tasks m2), r) :: trace) presses m3
| interleaves_key m m1 esp c r m2 trace presses m3 :
    runs_on m m1 → interruptible m1 esp c → key_ready m1 →
    irq 1 esp c m1 = Stop (Iret r) m2 → interleaves m2 trace presses m3 →
    interleaves m trace ((c, r) :: presses) m3.

(** An execution may start a little earlier. *)
Lemma executes_runs m m1 trace m2 :
  runs_on m m1 → I m → timer_ready m → executes m1 trace m2 →
  ∃ m0, executes m trace m0 ∧ (m0 = m2 ∨ runs_on m0 m2).
Proof using.
  intros Hr HI HT He. destruct He as [m1|m1 m1' esp c r m2 trace m3 Hr' Hib E He].
  - exists m. split; [constructor|by right].
  - exists m3. split; [|by left]. eapply executes_tick; [by eapply runs_on_trans|done..].
Qed.

(** The key presses taken out, it is an execution of ticks alone. *)
Lemma interleaves_executes m trace presses m' :
  interleaves m trace presses m' → ∀ cur ws, I m → ring_ok m cur ws → timer_ready m →
  Forall (λ '(c, r), r = c) presses ∧
  ∃ m0, executes m trace m0 ∧ (m0 = m' ∨ runs_on m0 m').
Proof using HR.
  induction 1 as [m|m m1 esp c r m2 trace ps m3 Hr Hib E Hi IH
                 |m m1 esp c r m2 trace ps m3 Hr Hib Hk E Hi IH]; intros cur ws HI HRing HT.
  - split; [done|]. exists m. split; [constructor|by left].
  - pose proof (ring_ok_runs lo hi m m1 cur ws HRing Hr) as R1.
    pose proof Hr as (K1 & _ & _ & T1 & _).
    destruct (ws ++ [(cur, c)]) as [|[n c'] rest] eqn:Hq; [by destruct ws|].
    destruct (timer_tick lo hi m1 cur ws esp c n c' rest K1 R1 T1 Hib Hq)
      as (m2' & E' & K2 & R2 & T2 & _).
    rewrite E in E'. injection E' as -> <-.
    destruct (IH n rest K2 R2 T2) as (Hp & m0 & He & Ho). split; [done|].
    exists m0. split; [|done]. by eapply executes_tick.
  - pose proof (ring_ok_runs lo hi m m1 cur ws HRing Hr) as R1.
    pose proof Hr as (K1 & _ & _ & T1 & _).
    destruct (key_press_runs_on m1 cur ws esp c K1 R1 T1 Hib Hk) as (m2' & E' & Hr2 & _ & _).
    rewrite E in E'. injection E' as -> <-.
    pose proof (ring_ok_runs lo hi m1 m2 cur ws R1 Hr2) as R2.
    pose proof Hr2 as (K2 & _ & _ & T2 & _).
    destruct (IH cur ws K2 R2 T2) as (Hp & m0 & He & Ho). split; [by constructor|].
    destruct (executes_runs m m2 trace m0 (runs_on_trans _ _ _ Hr Hr2) HI HT He)
      as (m0' & He' & Ho'). exists m0'. split; [done|].
    destruct Ho' as [->|Ho']; [done|]. right. destruct Ho as [<-|Ho]; [done|].
    by eapply runs_on_trans.
Qed.
End Interleave.

(** ** Properties *)

(** C23: the ring survives any interleaving of ticks and key presses.  Every
    key press resumes the very context it interrupted; the ticks resume the
    tasks in the order of the ring, each with the context it was saved with,
    as if no key had been pressed; and in every state that is reached the
    ring in memory is intact and holds the same tasks. *)
Theorem key_presses_between_ticks I owns `{!Region I owns} lo hi m cur ws trace presses m' :
  I m → ring_ok (owns := owns) lo hi m cur ws → timer_ready m →
  interleaves (I := I) (owns := owns) lo hi m trace presses m' →
  Forall (λ '(c, r), r = c) presses ∧
  (∀ k, (k < length trace)%nat →
     trace.*1 !! k = (ws.*1 ++ [cur]) !! (k mod S (length ws))%nat) ∧
  (∀ k t c, (k < length trace)%nat → ws !! k = Some (t, c) →
     trace !! k = Some (t, interrupts_on c)) ∧
  ∃ cur' ws', I m' ∧ ring_ok (owns := owns) lo hi m' cur' ws' ∧ timer_ready m' ∧
    cur' :: ws'.*1 ≡ₚ cur :: ws.*1.
Proof.
  intros HI HRing HT Hi.
  destruct (interleaves_executes lo hi m trace presses m' Hi cur ws HI HRing HT)
    as (Hp & m0 & He & Ho).
  destruct (executes_in_turn lo hi m trace m0 cur ws He HI HRing HT)
    as ([H1 H2] & cur' & ws' & K0 & R0 & T0 & P0).
  split_and!; [done..|]. exists cur', ws'. destruct Ho as [<-|Ho]; [done|].
  pose proof Ho as (K & _ & _ & T & _). split_and!; [done| |done|done].
  by apply (ring_ok_runs lo hi m0).
Qed.

(** Two tasks, with the code of a key in the keyboard's port. *)
Definition typing_tasks : machine :=
  set_ports (ports key_waiting)
    (set_interrupts (set_idt_handlers
        (<[33%nat := Machine.isr_key_press]> (idt_handlers (interrupts two_tasks)))
        (interrupts two_tasks)) two_tasks).

Lemma typing_tasks_ring :
  ring_ok (owns := word) low_stack high_stack typing_tasks kernel_task
    [(first_user_task, fresh_user)].
Proof.
  apply (ring_kept (I := unpaged) (owns := word) _ _ two_tasks _ _ _ two_tasks_ring);
    [reflexivity|reflexivity|]. intros x a _ _ _. reflexivity.
Qed.

Lemma typing_tasks_ready : timer_ready typing_tasks.
Proof. by split. Qed.

Lemma typing_tasks_key : key_ready typing_tasks.
Proof.
  split; [reflexivity|exact key_waiting_ok|by vm_compute|by vm_compute|].
  intros [H _]. by vm_compute in H.
Qed.

Lemma typing_tasks_interruptible :
  interruptible low_stack high_stack typing_tasks 0x11000 kernel_context.
Proof.
  split; [exact kernel_context_ok|by vm_compute|]. split; by vm_compute.
Qed.

(** A key, a tick. *)
Lemma typing_tasks_run :
  ∃ m', interleaves (I := unpaged) (owns := word) low_stack high_stack typing_tasks
    [(first_user_task, interrupts_on fresh_user)] [(kernel_context, kernel_context)] m'.
Proof.
  destruct (key_press_runs_on (I := unpaged) (owns := word) low_stack high_stack typing_tasks
    kernel_task _ 0x11000 kernel_context eq_refl typing_tasks_ring typing_tasks_ready
    typing_tasks_interruptible typing_tasks_key) as (m1 & E1 & R1 & _).
  pose proof (ring_ok_runs low_stack high_stack _ m1 _ _ typing_tasks_ring R1) as Ring1.
  pose proof (interruptible_runs low_stack high_stack _ m1 _ _ _ _ typing_tasks_ring R1
    typing_tasks_interruptible) as Ib1.
  pose proof R1 as (K1 & _ & _ & T1 & _).
  destruct (timer_tick (I := unpaged) (owns := word) low_stack high_stack m1 kernel_task
    [(first_user_task, fresh_user)] 0x11000 kernel_context first_user_task fresh_user
    [(kernel_task, kernel_context)] K1 Ring1 T1 Ib1 eq_refl) as (m2 & E2 & _ & R2 & _).
  exists m2. eapply interleaves_key; [apply runs_on_refl; [reflexivity|exact typing_tasks_ready]|
    exact typing_tasks_interruptible|exact typing_tasks_key|exact E1|].
  rewrite <- (ro_cur _ _ _ _ _ R2).
  eapply interleaves_tick; [by apply runs_on_refl|exact Ib1|exact E2|constructor].
Qed.

Lemma key_presses_between_ticks_witness :
  ∃ m', let trace := [(first_user_task, interrupts_on fresh_user)] in
  Forall (λ '(c, r), r = c) [(kernel_context, kernel_context)] ∧
  (∀ k, (k < length trace)%nat →
     trace.*1 !! k = [first_user_task; kernel_task] !! (k mod 2)%nat) ∧
  (∀ k t c, (k < length trace)%nat → [(first_user_task, fresh_user)] !! k = Some (t, c) →
     trace !! k = Some (t, interrupts_on c)) ∧
  ∃ cur' ws', unpaged m' ∧ ring_ok (owns := word) low_stack high_stack m' cur' ws' ∧
    timer_ready m' ∧ cur' :: ws'.*1 ≡ₚ [kernel_task; first_user_task].
Proof.
  destruct typing_tasks_run as [m' H]. exists m'.
  apply (key_presses_between_ticks unpaged word low_stack high_stack typing_tasks kernel_task
    [(first_user_task, fresh_user)] _ _ m' eq_refl typing_tasks_ring typing_tasks_ready H).
Defined.
