(* ===== verification/Startup.v ===== *)
(** * The kernel boots

    The run of [boot]: from the entry code with paging off, through every
    initialisation [kmain] calls, to the console loop.  Each stage is a lemma
    about the machine the stage before has left; the theorems at the end are
    about the whole run, which no interrupt disturbs. *)

From stdpp Require Import functions.
From S2P Require Import Prelude Machine Tty Screen Memory Boot Cstring Bitmap Multiboot Pmm Paging.
From S2P Require Import Kmalloc Keyboard Gdt Interrupt Pic Vmm Userspace Task Kshell Kernel.
From S2P Require Import Schedule Create Interleave.

(** ** Printing *)

(** The pending keys and the tick count are as they were. *)
Definition same_input (m m' : machine) : Prop :=
  keyboard m' = keyboard m ∧ tick (timer m') = tick (timer m).

#[export] Instance same_input_preorder : PreOrder same_input.
Proof.
  unfold same_input. split; [by intros m|].
  intros m1 m2 m3 [K1 T1] [K2 T2]. by rewrite K2, T2.
Qed.

Lemma printed_input m m' : printed m m' → same_input m m'.
Proof. intros [[E _] _]. rewrite E. split; reflexivity. Qed.

Lemma kprint_line_prints s m :
  forallb (λ c, negb (c =? 37)) (chars s) = true → tty_ok (tty m) →
  ∃ m', kprint_line s m = Done tt m' ∧ printed m m'.
Proof.
  intros Hs Hok. assert (Forall (λ c, c ≠ 37) (chars s ++ [NL])) as Hp.
  { apply Forall_app. split; [|by repeat constructor].
    apply Forall_forall. intros c Hc%list_elem_of_In.
    pose proof (proj1 (forallb_forall _ _) Hs c Hc) as Hn.
    apply Z.eqb_neq. by apply negb_true_iff. }
  destruct (kprintf_prints _ [] _ _ m ltac:(constructor) Hok (expand_plain _ Hp))
    as (m' & E & P).
  exists m'. split; [|done]. unfold kprint_line. by run E.
Qed.

(** [kmain] from the keyboard to the console: the handlers are installed, the
    timer is programmed, lines are printed. *)
Record devices_on (m m' : machine) : Prop := {
  do_cpu : cpu m' = cpu m;
  do_mem : mem m' = mem m;
  do_heap : heap m' = heap m;
  do_tasks : tasks m' = tasks m;
  do_gdt : gdt m' = gdt m;
  do_handlers : idt_handlers (interrupts m') =
    <[32%nat := pic_callback]> (<[33%nat := Machine.isr_key_press]> (idt_handlers (interrupts m)));
  do_silent : pic_print (timer m') = false;
  do_tty : tty_ok (tty m');
  do_input : same_input m m'
}.

Lemma devices_start m {A} (k : M A) :
  tty_ok (tty m) → length (idt_handlers (interrupts m)) = 256%nat →
  ∃ m', devices_on m m' ∧
    (kprint_line "[-] Initializing Keyboard...";;
     keyboard_init;;
     kprintf (chars "[-] Initializing Timer (Freq: %dHz)..." ++ [NL]) [VaInt 20];;
     pic_init 20 false;;
     kprint_line "[-] Launching Kernel Console...";;
     k) m = k m'.
Proof.
  intros HT Hl.
  destruct (kprint_line_prints "[-] Initializing Keyboard..." m eq_refl HT) as (m1 & E1 & P1).
  run E1. destruct (printed_same _ _ P1) as (C1 & M1 & _ & _ & H1 & _ & T1 & _ & I1 & G1).
  assert (keyboard_init m1 = Done tt (set_interrupts (set_idt_handlers
    (<[33%nat := Machine.isr_key_press]> (idt_handlers (interrupts m1))) (interrupts m1)) m1)) as E2.
  { unfold keyboard_init. msteps.
    assert (0 <= 33 < Z.of_nat (length (idt_handlers (interrupts m1)))) as Hr by (rewrite I1, Hl; lia).
    run (array_set_insert (idt_handlers (interrupts m1)) 33 Machine.isr_key_press m1 Hr).
    by msteps. }
  run E2. set (m2 := set_interrupts _ m1).
  destruct (kprintf_prints (chars "[-] Initializing Timer (Freq: %dHz)..." ++ [NL]) [VaInt 20]
    (chars "[-] Initializing Timer (Freq: 20Hz)..." ++ [NL]) 39 m2) as (m3 & E3 & P3);
    [by repeat constructor|apply P1|by vm_compute|].
  run E3. destruct (printed_same _ _ P3) as (C3 & M3 & _ & _ & H3 & _ & T3 & _ & I3 & G3).
  run (pic_init_ok 20 false m3 ltac:(done)
    ltac:(rewrite I3; cbn [m2 interrupts set_interrupts idt_handlers set_idt_handlers];
          by rewrite length_insert, I1)).
  set (m4 := set_ports _ _).
  destruct (kprint_line_prints "[-] Launching Kernel Console..." m4 eq_refl (proj2 P3))
    as (m5 & E5 & P5). run E5.
  destruct (printed_same _ _ P5) as (C5 & M5 & _ & _ & H5 & _ & T5 & W5 & I5 & G5).
  exists m5. split; [|done].
  split; rewrite ?C5, ?M5, ?H5, ?T5, ?G5, ?I5, ?W5; try (cbn; rewrite ?I3);
    try done.
  - by transitivity (cpu m3); [done|]; rewrite C3.
  - by transitivity (mem m3); [done|]; rewrite M3.
  - by transitivity (heap m3); [done|]; rewrite H3.
  - by transitivity (tasks m3); [done|]; rewrite T3.
  - by transitivity (gdt m3); [done|]; rewrite G3.
  - by rewrite <- I1.
  - apply P5.
  - transitivity m1; [by apply printed_input|]. transitivity m3; [by apply (printed_input m2)|].
    by apply (printed_input m4).
Qed.

(** ** The map under a change of registers *)

Lemma kernel_map_regs pd pt m m' :
  paging_on m' = paging_on m → cr3 (cpu m') = cr3 (cpu m) → mem m' = mem m →
  kernel_map pd pt m → kernel_map pd pt m'.
Proof. intros Hp Hc Hm [H1 H2 H3 H4 H5 H6]. split; rewrite ?Hp, ?Hc, ?Hm; done. Qed.

Lemma user_translate_same m m' v :
  cpu m' = cpu m → mem m' = mem m → user_translate m' v = user_translate m v.
Proof.
  intros Hc Hm. unfold user_translate, page_table_entry_at, page_directory_entry_at.
  by rewrite (translate_same m m'), Hc, Hm.
Qed.

Lemma low_identity_regs m m' :
  paging_on m' = paging_on m → cr3 (cpu m') = cr3 (cpu m) → mem m' = mem m →
  low_identity m → low_identity m'.
Proof.
  intros Hp Hc Hm H v Hv. rewrite <- (H v Hv). unfold translate, page_table_entry_at,
    page_directory_entry_at. by rewrite Hp, Hc, Hm.
Qed.

Lemma paging_on_cr0 m m' :
  (∀ i, 0 < i → Z.testbit (cr0 (cpu m')) i = Z.testbit (cr0 (cpu m)) i) →
  paging_on m' = paging_on m.
Proof. intros H. unfold paging_on. by rewrite H by (unfold CR0_PG; lia). Qed.

(** ** A bitmap whose first [n] bits are set *)

Definition first_bits (n : Z) (bm : list Z) : Prop :=
  length bm = 32%nat ∧ ∀ k, 0 <= k < 1024 → bit_of bm k = (k <? n).

Lemma first_bits_scan n bm : first_bits n bm → 0 <= n < 1024 → scan_words bm 0 = Some n.
Proof.
  intros [Hl Hb] Hn. apply scan_first; [lia| |].
  - rewrite Hb by lia. apply Z.ltb_irrefl.
  - intros i Hi. rewrite Hb by lia. apply Z.ltb_lt. lia.
Qed.

Lemma first_bits_next n bm : first_bits n bm → 0 <= n < 1024 → first_bits (n + 1) (set_page bm n).
Proof.
  intros [Hl Hb] Hn. split; [by rewrite length_set_page|]. intros k Hk.
  rewrite bit_of_set_page, Hb by lia.
  destruct (Z.eqb_spec k n), (Z.ltb_spec k n), (Z.ltb_spec k (n + 1)); try done; lia.
Qed.

(** ** What the image and the machine are like *)

(** The image ends below 4 MiB, with room for the pages the kernel takes; the
    tables of the entry code, the first block of the heap and the boot stack
    [s .. e) are different parts of it. *)
Record image_ok `{L : Layout} (s e : Z) : Prop := {
  io_tpd : low_frame tpd ∧ tpd + 4096 <= kernel_end_addr_phys;
  io_tpt : low_frame tpt ∧ tpt + 4096 <= kernel_end_addr_phys;
  io_tables : tpd ≠ tpt;
  io_start : in_window kernel_start_addr_virt;
  io_end : round_up kernel_end_addr_phys <= 1014 * 4096;
  io_heap : KERNEL_VIRT_BASE <= kmalloc_init_block ∧
            kmalloc_init_block + 4096 <= kernel_end_addr_phys + KERNEL_VIRT_BASE;
  io_heap_tables a : kmalloc_init_block <= a + KERNEL_VIRT_BASE < kmalloc_init_block + 4096 →
    ¬ in_frame tpd a ∧ ¬ in_frame tpt a;
  io_stack : KERNEL_VIRT_BASE <= s ∧ s < e ∧ e <= kernel_end_addr_phys + KERNEL_VIRT_BASE;
  io_stack_heap : e <= kmalloc_init_block ∨ kmalloc_init_block + 4096 <= s
}.

(** Memory [a .. a + n) holds nothing of the two tables. *)
Definition beside_tables `{L : Layout} (a n : Z) : Prop :=
  ∀ i, a <= i < a + n → ¬ in_frame tpd i ∧ ¬ in_frame tpt i.

(** What the boot loader leaves: paging off, static storage as the image has
    it, and usable multiboot structures outside the tables. *)
Record loaded `{L : Layout} (mbt : Z) (n : nat) (en : multiboot_mmap_entry) (m : machine) : Prop := {
  ld_paging : unpaged m;
  ld_screen : length (vga_cells (tty m)) = 2000%nat;
  ld_idt : length (idt (interrupts m)) = 256%nat;
  ld_handlers : length (idt_handlers (interrupts m)) = 256%nat;
  ld_gdt : length (global_descriptor_table (gdt m)) = 64%nat;
  ld_bitmap : bitmap (pmm m) = replicate (Z.to_nat BITMAP_WORDS) 0;
  ld_heap a : kmalloc_init_block <= a + KERNEL_VIRT_BASE < kmalloc_init_block + 4096 →
    rd8 (mem m) a = 0;
  ld_multiboot : multiboot_ok (mem m) mbt n en;
  ld_info : beside_tables mbt 52;
  ld_map : beside_tables (mi_mmap_addr (read_info (mem m) mbt)) (24 * Z.of_nat n);
  ld_mods : beside_tables (mi_mods_addr (read_info (mem m) mbt)) 16;
  ld_pool : pool_fits en (first_module (mem m) mbt);
  ld_pages : 32 * 4096 <= round_down (region_end en) - round_up kernel_end_addr_phys;
  ld_memory : region_end en <= 32 * BITMAP_WORDS * PAGE_SIZE;
  ld_aligned : ml_mod_start (first_module (mem m) mbt) mod 4096 = 0;
  ld_keyboard : keyboard m = keyboard power_on;
  ld_tick : tick (timer m) = 0
}.

Section Startup.
Context `{L : Layout} (s e : Z) (IM : image_ok s e).

(** ** Stage 1: up to [pmm_init], under the entry code's map *)

Record entered (m0 m : machine) : Prop := {
  en_map : kernel_map tpd tpt m;
  en_low : low_identity m;
  en_mem a : word a → ¬ in_frame tpd a → ¬ in_frame tpt a → rd8 (mem m) a = rd8 (mem m0) a;
  en_pmm : pmm m = pmm m0;
  en_tasks : tasks m = tasks m0;
  en_input : same_input m0 m
}.

Lemma entered_same m0 m m' :
  paging_on m' = paging_on m → cr3 (cpu m') = cr3 (cpu m) → mem m' = mem m →
  pmm m' = pmm m → tasks m' = tasks m → same_input m m' → entered m0 m → entered m0 m'.
Proof using.
  intros Hp Hc Hm Hpm Ht Hin [H1 H2 H3 H4 H5 H6]. split.
  - by apply (kernel_map_regs _ _ m).
  - by apply (low_identity_regs m).
  - by rewrite Hm.
  - by rewrite Hpm.
  - by rewrite Ht.
  - by transitivity m.
Qed.

Lemma entered_printed m0 m m' : printed m m' → entered m0 m → entered m0 m'.
Proof using.
  intros P. destruct (printed_same m m' P) as (Hc & Hm & Hpm & _ & _ & _ & Ht & _).
  apply entered_same; try done; [..|by apply printed_input]; unfold paging_on; by rewrite Hc.
Qed.

Lemma boot_start_enters m :
  unpaged m → ∃ μ, boot_start m = Done tt (booted μ m) ∧ entered m (booted μ m).
Proof using IM.
  intros Hm. destruct (io_tpd _ _ IM) as [D _], (io_tpt _ _ IM) as [T _].
  destruct (boot_start_ok D T (io_tables _ _ IM) m Hm) as (μ & E & M1 & M2 & M3 & F).
  exists μ. split; [done|]. split; [by apply booted_map| |done|done|done|done].
  intros v Hv. by apply booted_identity.
Qed.

Lemma gdt_init_asm_ok m0 m :
  entered m0 m → length (global_descriptor_table (gdt m)) = 64%nat →
  ∃ c, gdt_init_asm m = Done tt (set_cpu c (set_gdt (flat_model (gdt m)) m)) ∧
    entered m0 (set_cpu c (set_gdt (flat_model (gdt m)) m)).
Proof using.
  intros E Hl. unfold gdt_init_asm, cli. msteps.
  run (gdt_init_ok (set_cpu (set_eflags_if false (cpu m)) m) Hl). msteps.
  eexists. split; [reflexivity|]. apply (entered_same m0 m); try done.
  apply paging_on_cr0. intros i Hi. cbn [cpu set_cpu cr0 set_cr0 set_eflags_if set_gdt].
  rewrite Z.lor_spec. change 1 with (2 ^ 0). rewrite Z.pow2_bits_false by lia. apply orb_false_r.
Qed.

Lemma interrupt_init_enters m0 m :
  entered m0 m → length (idt (interrupts m)) = 256%nat →
  length (idt_handlers (interrupts m)) = 256%nat →
  ∃ m', interrupt_init m = Done 0 m' ∧ interrupts_ready m m' ∧ entered m0 m'.
Proof using.
  intros E Hi Hh. destruct (interrupt_init_ok m Hi Hh) as (m' & E' & R).
  exists m'. split_and!; [done|done|]. pose proof (ir_regs _ _ R) as Hr.
  apply (entered_same m0 m); try done; unfold paging_on; try (by rewrite Hr).
Qed.

(** [pmm_init] finds the structures where the loader has left them. *)
Lemma pmm_init_enters mbt n en m0 m :
  loaded mbt n en m0 → entered m0 m →
  let md := first_module (mem m0) mbt in
  let m' := set_tasks (remember_module md (tasks m0)) (set_pmm (initial_pool en md (pmm m0)) m) in
  pmm_init mbt m = Done tt m'.
Proof using.
  intros LD [_ Hid Hmem Hp Ht _]. cbv zeta.
  pose proof (ld_multiboot _ _ _ _ LD) as MB.
  destruct (multiboot_ok_agree (mem m0) (mem m) mbt n en MB) as [MB' E].
  - intros a Ha. destruct (ld_info _ _ _ _ LD a ltac:(lia)).
    pose proof (mo_info _ _ _ _ MB). unfold WINDOW in *. apply Hmem; [word_lia|done|done].
  - intros a Ha. destruct (ld_map _ _ _ _ LD a ltac:(lia)).
    pose proof (mo_map _ _ _ _ MB). unfold WINDOW in *.
    assert (0 <= mi_mmap_addr (read_info (mem m0) mbt)) by apply rd32_word.
    apply Hmem; [word_lia|done|done].
  - intros a Ha. destruct (ld_mods _ _ _ _ LD a ltac:(lia)).
    pose proof (mo_mods _ _ _ _ MB). unfold WINDOW in *.
    assert (0 <= mi_mods_addr (read_info (mem m0) mbt)) by apply rd32_word.
    apply Hmem; [word_lia|done|done].
  - rewrite <- Hp, <- Ht, <- E. apply (pmm_init_ok mbt n en); try done.
    + rewrite E. by apply (ld_pool _ _ _ _ LD).
    + rewrite Hp, (ld_bitmap _ _ _ _ LD), length_replicate. done.
Qed.

(** The machine [paging_init] is called on. *)
Record set_up (mbt : Z) (en : multiboot_mmap_entry) (m0 m : machine) : Prop := {
  su_map : kernel_map tpd tpt m;
  su_mem a : word a → ¬ in_frame tpd a → ¬ in_frame tpt a → rd8 (mem m) a = rd8 (mem m0) a;
  su_pmm : pmm m = initial_pool en (first_module (mem m0) mbt) (pmm m0);
  su_handlers : length (idt_handlers (interrupts m)) = 256%nat;
  su_if : eflags_if (cpu m) = true;
  su_tty : tty_ok (tty m);
  su_input : same_input m0 m
}.

(** What [kmain] does before it looks at the magic number. *)
Lemma kmain_starts m0 m {A} (k : M A) :
  entered m0 m → length (vga_cells (tty m)) = 2000%nat →
  length (idt (interrupts m)) = 256%nat → length (idt_handlers (interrupts m)) = 256%nat →
  ∃ m', entered m0 m' ∧ tty_ok (tty m') ∧ eflags_if (cpu m') = true ∧
    length (idt_handlers (interrupts m')) = 256%nat ∧
    (initialize_terminal;;
     kprint_line "[-] Terminal Initalized";;
     kprint_line "[-] Initializing Interrupts...";;
     interrupt_init;;
     k) m = k m'.
Proof using.
  intros E Hs Hi Hh.
  destruct (initialize_terminal_ok m Hs) as (m1 & E1 & P1 & _). run E1.
  destruct (kprint_line_prints "[-] Terminal Initalized" m1 eq_refl (proj2 P1))
    as (m2 & E2 & P2). run E2.
  destruct (kprint_line_prints "[-] Initializing Interrupts..." m2 eq_refl (proj2 P2))
    as (m3 & E3 & P3). run E3.
  pose proof (entered_printed _ _ _ P3 (entered_printed _ _ _ P2 (entered_printed _ _ _ P1 E)))
    as En3.
  assert (interrupts m3 = interrupts m) as Ei.
  { rewrite (proj1 (proj1 P3)), (proj1 (proj1 P2)), (proj1 (proj1 P1)). done. }
  destruct (interrupt_init_enters m0 m3 En3 ltac:(by rewrite Ei) ltac:(by rewrite Ei))
    as (m4 & E4 & R4 & En4). run E4.
  pose proof (ir_regs _ _ R4) as Hr4. exists m4. split_and!; [done| | |apply R4|done].
  - rewrite Hr4. apply P3.
  - by rewrite Hr4.
Qed.

Lemma kmain_sets_up mbt n en m0 m {A} (k : M A) :
  loaded mbt n en m0 → entered m0 m → length (vga_cells (tty m)) = 2000%nat →
  length (idt (interrupts m)) = 256%nat → length (idt_handlers (interrupts m)) = 256%nat →
  ∃ m', set_up mbt en m0 m' ∧
    (initialize_terminal;;
     kprint_line "[-] Terminal Initalized";;
     kprint_line "[-] Initializing Interrupts...";;
     interrupt_init;;
     when (negb (MULTIBOOT_BOOTLOADER_MAGIC =? MULTIBOOT_BOOTLOADER_MAGIC))
       (panic (chars "invalid bootloader magic number"));;
     kprint_line "[-] Initializing Physical Memory Management...";;
     pmm_init mbt;;
     kprint_line "[-] Initializing Paging and Virtual Memory...";;
     k) m = k m'.
Proof using.
  intros LD E Hs Hi Hh.
  epose proof (kmain_starts m0 m _ E Hs Hi Hh) as (m4 & En4 & T4 & F4 & L4 & E4).
  rewrite E4. clear E4. rewrite Z.eqb_refl. cbn [negb when]. steps.
  destruct (kprint_line_prints "[-] Initializing Physical Memory Management..." m4 eq_refl T4)
    as (m5 & E5 & P5). run E5.
  pose proof (entered_printed _ _ _ P5 En4) as En5.
  run (pmm_init_enters mbt n en m0 m5 LD En5). set (m6 := set_tasks _ _).
  destruct (kprint_line_prints "[-] Initializing Paging and Virtual Memory..." m6 eq_refl
    (proj2 P5)) as (m7 & E7 & P7). run E7.
  exists m7. split; [|done]. destruct (printed_same _ _ P7) as (C7 & M7 & Q7 & _ & _ & _ & _ & _ & I7 & _).
  destruct (printed_same _ _ P5) as (C5 & M5 & _ & _ & _ & _ & _ & _ & I5 & _).
  split.
  - apply (kernel_map_same _ _ m5); [by rewrite C7|by rewrite M7|apply En5].
  - intros a. rewrite M7. apply (en_mem _ _ En5).
  - by rewrite Q7.
  - rewrite I7. change (interrupts m6) with (interrupts m5). by rewrite I5.
  - rewrite C7. change (cpu m6) with (cpu m5). by rewrite C5.
  - apply P7.
  - transitivity m5; [apply En5|]. by apply (printed_input m6).
Qed.

(** ** Stage 2: the kernel's own map, the heap, the page allocator *)

Section Memory.
Context (md : multiboot_mod_list).

(** The frames of the page directory and of its table, and the first page
    behind them. *)
Definition boot_pd : Z := round_up kernel_end_addr_phys + 4096 * first_frame md.
Definition boot_pt : Z := boot_pd + 4096.
Definition boot_page : Z := boot_pt / 4096 + 1.

Abbreviation heap_base := kmalloc_init_block.
Abbreviation owns := (window_free boot_pd boot_pt).

(** The first block of the heap, and the pieces cut off it. *)
Definition blocks (k : Z) : list block := [(heap_base, 4096 - k)].
Definition boot_desc : Z := heap_base + 3944.

Lemma blocks_fit n k p :
  k + n + 40 <= 4096 → p = heap_base + 4096 - k - n →
  fl_alloc n (blocks k) = Split p (blocks (k + n + 8)).
Proof using.
  intros Hk ->. unfold blocks. cbn [fl_alloc].
  destruct (Z.leb_spec n (4096 - k - 8)); [|lia].
  destruct (Z.leb_spec 32 (4096 - k - 8 - n)); [|lia].
  f_equal; [lia|]. do 2 f_equal. lia.
Qed.

Lemma frames_placed :
  kernel_end_addr_phys <= boot_pd ∧ boot_pd mod 4096 = 0 ∧ boot_pd <= 1015 * 4096 ∧
  boot_page * 4096 = boot_pd + 8192.
Proof using IM.
  pose proof (io_end _ _ IM) as He.
  assert (first_frame md = 0 ∨ first_frame md = 1) as Hf
    by (unfold first_frame; destruct (_ =? _); lia).
  unfold boot_page, boot_pt, boot_pd, round_up in *. split_and!; mlia.
Qed.

Lemma tables_low : low_frame boot_pd ∧ low_frame boot_pt.
Proof using IM.
  destruct frames_placed as (H1 & H2 & H3 & _), (io_tpd _ _ IM) as [[H4 _] H5].
  unfold low_frame, WINDOW, boot_pt in *. split; mlia.
Qed.

(** A part of the image belongs to the region behind the new map. *)
Lemma image_owned a n :
  KERNEL_VIRT_BASE <= a → a + n <= kernel_end_addr_phys + KERNEL_VIRT_BASE →
  owns_range owns a n.
Proof using IM.
  intros H1 H2 i Hi. destruct frames_placed as (P1 & P2 & P3 & _).
  unfold window_free, in_window, in_frame, boot_pt, WINDOW in *. split_and!; lia.
Qed.

(** So does every page from [boot_page] on. *)
Lemma page_owned k :
  boot_page <= k < 1024 → owns_range owns (window_page k) 4096.
Proof using IM.
  intros Hk i Hi. destruct frames_placed as (P1 & P2 & P3 & P4).
  pose proof (io_heap _ _ IM) as Hh.
  unfold window_free, in_window, in_frame, window_page, boot_pt, WINDOW, KERNEL_VIRT_BASE in *.
  split_and!; lia.
Qed.

(** What [task_init] is called on. *)
Record memory_ready (mbt : Z) (en : multiboot_mmap_entry) (m0 m : machine) : Prop := {
  mr_block : first_block boot_pd boot_pt boot_desc m;
  mr_heap : heap_list (owns := owns) m (blocks 160);
  mr_clean : clean (blocks 160) m;
  mr_desc : initial_desc boot_desc (boot_pt + KERNEL_VIRT_BASE) boot_page m;
  mr_bits k : 0 <= k < 1024 → bit_of (desc_bitmap m boot_desc) k = (k <? boot_page);
  mr_directory : kernel_page_directory m = boot_pd + KERNEL_VIRT_BASE;
  mr_pmm : pmm m = pmm_take (first_frame md + 1) (pmm_take (first_frame md)
    (initial_pool en md (pmm m0)));
  mr_handlers : length (idt_handlers (interrupts m)) = 256%nat ∧
    idt_handlers (interrupts m) !! 14%nat = Some paging_page_fault_handler;
  mr_if : eflags_if (cpu m) = true;
  mr_tty : tty_ok (tty m);
  mr_input : same_input m0 m
}.

(** What [kmalloc_init] is called on. *)
Record map_ready (en : multiboot_mmap_entry) (m0 m : machine) : Prop := {
  ma_map : kernel_map boot_pd boot_pt m;
  ma_heap a : heap_base <= a < heap_base + 4096 → byte_at m a = 0;
  ma_directory : kernel_page_directory m = boot_pd + KERNEL_VIRT_BASE;
  ma_pmm : pmm m = pmm_take (first_frame md + 1) (pmm_take (first_frame md)
    (initial_pool en md (pmm m0)));
  ma_handlers : length (idt_handlers (interrupts m)) = 256%nat ∧
    idt_handlers (interrupts m) !! 14%nat = Some paging_page_fault_handler;
  ma_if : eflags_if (cpu m) = true;
  ma_tty : tty_ok (tty m);
  ma_input : same_input m0 m
}.

Lemma paging_init_maps mbt n en m0 m :
  loaded mbt n en m0 → md = first_module (mem m0) mbt → set_up mbt en m0 m →
  ∃ m', paging_init m = Done (boot_pt + KERNEL_VIRT_BASE) m' ∧ map_ready en m0 m'.
Proof using IM.
  intros LD Emd [K HM HP HH HI HT HN]. rewrite <- Emd in HP.
  destruct frames_placed as (P1 & P2 & P3 & P4). destruct tables_low as [Lpd Lpt].
  destruct (io_tpd _ _ IM) as [_ D], (io_tpt _ _ IM) as [_ T].
  pose proof (ld_pool _ _ _ _ LD) as PF. rewrite <- Emd in PF.
  pose proof (ld_aligned _ _ _ _ LD) as AL. rewrite <- Emd in AL.
  destruct (initial_pool_frames en md (pmm m0) PF (ld_bitmap _ _ _ _ LD) (ld_memory _ _ _ _ LD)
    AL (ld_pages _ _ _ _ LD)) as (N1 & N2 & _).
  pose proof (initial_pool_wf en md (pmm m0) PF (ld_bitmap _ _ _ _ LD) (ld_memory _ _ _ _ LD))
    as W.
  set (p := initial_pool en md (pmm m0)) in *. set (k := first_frame md) in *.
  assert (frame_addr p k = boot_pd ∧ frame_addr p (k + 1) = boot_pt) as [F1 F2].
  { unfold frame_addr, p. rewrite initial_pool_start. unfold boot_pt, boot_pd, PAGE_SIZE. fold k.
    split; lia. }
  assert (pmm_alloc_page m = Done boot_pd (set_pmm (pmm_take k p) m)) as A1.
  { rewrite <- F1, <- HP. apply pmm_alloc_page_Some; by rewrite HP. }
  assert (∀ m', pmm m' = pmm_take k p →
    pmm_alloc_page m' = Done boot_pt (set_pmm (pmm_take (k + 1) (pmm_take k p)) m')) as A2.
  { intros m' Em. rewrite <- F2. change (frame_addr p (k + 1)) with (frame_addr (pmm_take k p) (k + 1)).
    rewrite <- Em. apply pmm_alloc_page_Some; rewrite Em; auto with words. }
  assert (boot_pd ≠ tpd ∧ boot_pd ≠ tpt ∧ boot_pt ≠ tpd ∧ boot_pt ≠ tpt ∧ boot_pd ≠ boot_pt)
    as (Q1 & Q2 & Q3 & Q4 & Q5) by (unfold boot_pt; split_and!; lia).
  destruct (paging_init_runs tpd tpt boot_pd boot_pt m K (conj Lpd (conj Q1 Q2))
    (conj Lpt (conj Q3 Q4)) Q5 (io_start _ _ IM) HH _ _ A1 A2) as (μ & E & TB & FR).
  set (m' := paging_init_frame _ m _ μ) in *. exists m'. split; [exact E|].
  assert (kernel_map boot_pd boot_pt m') as K'.
  { eapply tables_built_map; try done. apply (paging_on_set (set_cr3 boot_pd (cpu m))). }
  split; try done.
  - intros a Ha. pose proof (io_heap _ _ IM) as Hh. unfold KERNEL_VIRT_BASE in Hh.
    destruct (io_heap_tables _ _ IM (a - KERNEL_VIRT_BASE)) as [T1 T2]; [lia|].
    assert (in_window a) as Hw
      by (unfold in_window, WINDOW, KERNEL_VIRT_BASE, boot_pt in *; lia).
    rewrite (byte_at_window boot_pd boot_pt) by done. change (mem m') with μ.
    rewrite FR, HM, (ld_heap _ _ _ _ LD); unfold in_frame, boot_pt, KERNEL_VIRT_BASE in *;
      try done; try lia; [word_lia|].
    unfold owned, window_free. rewrite Z.sub_add. done.
  - split; [|by apply list_lookup_insert_eq; lia].
    change (length (<[14%nat := paging_page_fault_handler]> (idt_handlers (interrupts m))) = 256%nat).
    by rewrite length_insert.
Qed.
Lemma map_ready_printed en m0 m m' : printed m m' → map_ready en m0 m → map_ready en m0 m'.
Proof using.
  intros P [H1 H2 H3 H4 H5 H6 H7 H8].
  destruct (printed_same m m' P) as (Ec & Em & Ep & Ek & _ & _ & _ & _ & Ei & _).
  split; rewrite ?Ek, ?Ep, ?Ei, ?Ec; try done.
  - by apply (kernel_map_same _ _ m).
  - intros a Ha. rewrite (byte_at_same m) by done. by apply H2.
  - apply P.
  - transitivity m; [done|by apply printed_input].
Qed.

(** The machine [vmm_init] is called on. *)
Record heap_ready (en : multiboot_mmap_entry) (m0 m : machine) : Prop := {
  hr_map : kernel_map boot_pd boot_pt m;
  hr_heap : heap_list (owns := owns) m (blocks 0);
  hr_clean : clean (blocks 0) m;
  hr_directory : kernel_page_directory m = boot_pd + KERNEL_VIRT_BASE;
  hr_pmm : pmm m = pmm_take (first_frame md + 1) (pmm_take (first_frame md)
    (initial_pool en md (pmm m0)));
  hr_handlers : length (idt_handlers (interrupts m)) = 256%nat ∧
    idt_handlers (interrupts m) !! 14%nat = Some paging_page_fault_handler;
  hr_if : eflags_if (cpu m) = true;
  hr_tty : tty_ok (tty m);
  hr_input : same_input m0 m
}.

Lemma heap_ready_printed en m0 m m' :
  printed m m' → heap_ready en m0 m → heap_ready en m0 m'.
Proof using.
  intros P [H1 H2 H3 H4 H5 H6 H7 H8 H9].
  destruct (printed_same m m' P) as (Ec & Em & Ep & Ek & Eh & _ & _ & _ & Ei & _).
  assert (∀ a, byte_at m' a = byte_at m a) as HB by (intros; by apply byte_at_same).
  split; rewrite ?Ek, ?Ep, ?Ei, ?Ec; try done.
  - by apply (kernel_map_same _ _ m).
  - by apply (heap_list_bytes m).
  - intros a Ha. rewrite HB. by apply H3.
  - apply P.
  - transitivity m; [done|by apply printed_input].
Qed.

Lemma kmalloc_init_heap en m0 m :
  map_ready en m0 m → ∃ m', kmalloc_init m = Done tt m' ∧ heap_ready en m0 m'.
Proof using IM.
  intros [K HZ HD HP HH HI HT HN]. pose proof (io_heap _ _ IM) as Hh.
  destruct frames_placed as (P1 & P2 & P3 & _).
  assert (0 < heap_base ∧ heap_base + 4096 < W32) as [B0 B1]
    by (unfold boot_pt, KERNEL_VIRT_BASE, W32 in *; lia).
  destruct (kmalloc_init_ok (I := kernel_map boot_pd boot_pt) (owns := owns) m K)
    as (m' & E & K' & HL & Er & FR);
    [apply image_owned; lia|done|done|].
  exists m'. split; [exact E|]. split; try (by rewrite Er); [done|exact HL|].
  intros a [Ha|Ha%Exists_nil]%Exists_cons; [|done]. cbn [fst snd] in Ha.
  rewrite FR; [apply HZ; lia| |lia]. replace a with (heap_base + (a - heap_base)) by lia.
  apply (image_owned heap_base 4096); lia.
Qed.

Lemma vmm_init_memory d fuel mbt en m0 m :
  heap_ready en m0 m →
  ∃ m', vmm_init d (S fuel) (boot_pt + KERNEL_VIRT_BASE) m = Done tt m' ∧
    memory_ready mbt en m0 m'.
Proof using IM.
  intros [K HL HC HD HP HH HI HT HN]. destruct frames_placed as (P1 & P2 & P3 & _).
  destruct (vmm_init_ok d (S fuel) boot_pd boot_pt (blocks 0) boot_desc (blocks 160) m K HL)
    as (m' & E & [V1 V2 V3 V4 _ V5]).
  - cbn. lia.
  - unfold boot_desc. apply (blocks_fit 152 0); lia.
  - unfold boot_pt, WINDOW. lia.
  - exists m'. split; [done|]. destruct (V5 HC) as [C1 C2]. split; try (by rewrite V4); done.
Qed.
(** ** Stage 3: the tasks *)

Definition first_task : Z := heap_base + 3896.
Definition second_task : Z := heap_base + 3848.
Definition third_task : Z := heap_base + 3800.

Lemma memory_ready_room mbt en m0 m :
  memory_ready mbt en m0 m →
  boot_room boot_pd boot_pt (blocks 160) (blocks 208) (blocks 256) (blocks 304)
    first_task second_task third_task boot_desc boot_page (boot_page + 1) s e m.
Proof using IM.
  intros [F HL HC D HB _ _ _ _ _ _]. destruct frames_placed as (P1 & P2 & P3 & P4).
  pose proof (io_heap _ _ IM) as Hh. pose proof (io_stack _ _ IM) as Hs.
  pose proof (io_stack_heap _ _ IM) as Hsh. pose proof (id_free _ _ _ _ D) as Hf.
  pose proof (id_high _ _ _ _ D) as Hw.
  assert (0 < boot_page <= 1017) as Hp by (unfold boot_pt, KERNEL_VIRT_BASE in *; lia).
  assert (first_bits boot_page (desc_bitmap m boot_desc)) as FB
    by (split; [apply desc_bitmap_length|done]).
  assert (∀ k, boot_page <= k → kernel_end_addr_phys + KERNEL_VIRT_BASE <= window_page k) as Hw'
    by (intros k Hk; unfold window_page; lia).
  pose proof (Hw' boot_page ltac:(lia)) as W1. pose proof (Hw' (boot_page + 1) ltac:(lia)) as W2.
  assert (window_page (boot_page + 1) = window_page boot_page + 4096) as W3
    by (unfold window_page; lia).
  unfold first_task, second_task, third_task, blocks, boot_desc in *.
  split; try done; rewrite ?Hf, ?Hw; unfold apart, VMM_BLOCK_DESC_SIZE, PAGE_SIZE,
    HIGH_WATER_THRESHOLD; rewrite ?Forall_singleton; cbn [fst snd]; try lia.
  - apply (blocks_fit 40 160); lia.
  - apply (blocks_fit 40 208); lia.
  - apply (blocks_fit 40 256); lia.
  - apply first_bits_scan; [done|lia].
  - apply first_bits_scan; [apply first_bits_next; [done|lia]|lia].
  - apply page_owned. lia.
  - apply page_owned. lia.
  - split; [lia|]. apply image_owned; lia.
  - intros a Ha. unfold touched, in_block, VMM_BLOCK_DESC_SIZE, PAGE_SIZE.
    rewrite Exists_cons, Exists_nil. cbn [fst snd]. lia.
Qed.

(** What the three calls leave. *)
Record tasks_ready (en : multiboot_mmap_entry) (m0 m : machine) : Prop := {
  ts_block : first_block boot_pd boot_pt boot_desc m;
  ts_ring : ring_ok (owns := owns)
    (boot_lo second_task third_task boot_page (boot_page + 1) s)
    (boot_hi second_task third_task boot_page (boot_page + 1) e) m first_task
    [(second_task, kernel_start); (third_task, user_start)];
  ts_pids : word_at m (first_task + 12) = 0 ∧ word_at m (second_task + 12) = 1 ∧
    word_at m (third_task + 12) = 2;
  ts_heap : heap_list (owns := owns) m (blocks 304);
  ts_bits : first_bits (boot_page + 2) (desc_bitmap m boot_desc);
  ts_free : desc_free m boot_desc = 1022 - boot_page;
  ts_high : desc_high_water m boot_desc = boot_page + 2;
  ts_directory : kernel_page_directory m = boot_pd + KERNEL_VIRT_BASE;
  ts_pmm : pmm m = pmm_take (first_frame md + 1) (pmm_take (first_frame md)
    (initial_pool en md (pmm m0)));
  ts_handlers : length (idt_handlers (interrupts m)) = 256%nat ∧
    idt_handlers (interrupts m) !! 14%nat = Some paging_page_fault_handler;
  ts_if : eflags_if (cpu m) = true;
  ts_tty : tty_ok (tty m);
  ts_input : same_input m0 m
}.

Lemma tasks_created d fuel mbt en m0 m {A} (k : M A) :
  memory_ready mbt en m0 m →
  ∃ m', tasks_ready en m0 m' ∧
    (task_init (S d) (S fuel);; task_create_kernel (S d) (S fuel);;
     task_create_user (S d) (S fuel);; k) m = k m'.
Proof using IM.
  intros MR. pose proof (memory_ready_room _ _ _ _ MR) as BR.
  destruct MR as [_ _ _ D HB HD HP HH HI HT HN].
  pose proof (id_free _ _ _ _ D) as Hf. pose proof (id_high _ _ _ _ D) as Hw.
  destruct frames_placed as (P1 & P2 & P3 & P4).
  pose proof (io_heap _ _ IM) as Hh.
  assert (0 < boot_page <= 1017) as Hp by (unfold boot_pt, KERNEL_VIRT_BASE in *; lia).
  destruct (tasks_made_ok boot_pd boot_pt d fuel _ _ _ _ _ _ _ _ _ _ _ _ m BR ltac:(cbn; lia))
    as (m1 & m2 & m' & E1 & E2 & E3 & [T1 T2 T3 T4 T5 T6 T7 T8 T9]).
  exists m'. split; [|run E1; run E2; by run E3]. unfold tasks_step in T4.
  split; try done; try (by rewrite T4).
  - rewrite T7. replace (boot_page + 2) with (boot_page + 1 + 1) by lia.
    apply first_bits_next; [|lia]. apply first_bits_next; [|lia].
    split; [apply desc_bitmap_length|done].
  - lia.
  - rewrite T9, Hw. lia.
Qed.

(** ** Stage 4: the user's part of the address space, and the devices *)

Lemma tasks_ready_same en m0 m m' :
  cpu m' = cpu m → mem m' = mem m → pmm m' = pmm m →
  kernel_page_directory m' = kernel_page_directory m → heap m' = heap m → vmm m' = vmm m →
  interrupts m' = interrupts m → gdt m' = gdt m →
  current_task (tasks m') = current_task (tasks m) → tty_ok (tty m') → same_input m m' →
  tasks_ready en m0 m → tasks_ready en m0 m'.
Proof using.
  intros Ec Em Ep Ek Eh Ev Ei Eg Et Ey En [F R P HL FB Hf Hw D Q X Y T N].
  assert (∀ a, byte_at m' a = byte_at m a) as HB by (intros; by apply byte_at_same).
  assert (∀ a, word_at m' a = word_at m a) as HW by (intros; by apply word_at_same).
  assert (same_desc boot_desc m m') as SD by (by apply same_desc_bytes).
  pose proof SD as [E1 E2 E3 _ _ _].
  split; rewrite ?HW, ?E1, ?E2, ?E3, ?Ek, ?Ep, ?Ei, ?Ec; try done.
  - apply (first_block_same _ _ _ m); try done. by apply (kernel_map_same _ _ m), (fb_map _ _ _ _ _ F).
  - by apply (ring_kept (I := kernel_map boot_pd boot_pt) (owns := owns) _ _ m).
  - by apply (heap_list_bytes m).
  - by transitivity m.
Qed.

Lemma stacks_of_second :
  boot_lo second_task third_task boot_page (boot_page + 1) s second_task = window_page boot_page ∧
  boot_hi second_task third_task boot_page (boot_page + 1) e second_task =
    window_page boot_page + 4096.
Proof using.
  assert (third_task ≠ second_task) by (unfold second_task, third_task; lia).
  unfold boot_lo, boot_hi.
  split; rewrite fn_lookup_insert_ne by done; by rewrite fn_lookup_insert.
Qed.

(** What owns memory in a ring of the three tasks lies below page
    [boot_page + 2], and beside the descriptor. *)
Lemma task_memory_low x a :
  x ∈ [first_task; second_task; third_task] →
  in_task (boot_lo second_task third_task boot_page (boot_page + 1) s)
          (boot_hi second_task third_task boot_page (boot_page + 1) e) x a →
  a < window_page (boot_page + 2) ∧ ¬ (boot_desc <= a < boot_desc + VMM_BLOCK_DESC_SIZE).
Proof using IM.
  intros Hx Ha. destruct frames_placed as (P1 & P2 & P3 & P4).
  pose proof (io_heap _ _ IM) as Hh. pose proof (io_stack _ _ IM) as Hs.
  pose proof (io_stack_heap _ _ IM) as Hsh.
  assert (x = first_task ∨ x = second_task ∨ x = third_task) as Hx'
    by (rewrite !elem_of_cons, elem_of_nil in Hx; tauto).
  assert (second_task ≠ third_task ∧ first_task ≠ second_task ∧ first_task ≠ third_task)
    as (N1 & N2 & N3) by (unfold first_task, second_task, third_task; lia).
  revert Ha. unfold in_task, on_stack, boot_lo, boot_hi, TASK_SIZEOF, VMM_BLOCK_DESC_SIZE, PAGE_SIZE.
  destruct Hx' as [->|[->| ->]];
    repeat first [rewrite fn_lookup_insert|rewrite fn_lookup_insert_ne by done]; clear P2 Hx;
    unfold window_page, first_task, second_task, third_task, boot_desc, KERNEL_VIRT_BASE in *;
    intros [Ha|Ha]; lia.
Qed.

(** The pages [paging_add_temp_userspace] takes. *)
Lemma next_two_pages m :
  first_bits (boot_page + 2) (desc_bitmap m boot_desc) →
  desc_free m boot_desc = 1022 - boot_page → desc_high_water m boot_desc = boot_page + 2 →
  next_pages boot_desc (boot_page + 2) (boot_page + 3) m ∧
  page_apart boot_pd boot_pt boot_desc (boot_page + 2) ∧
  page_apart boot_pd boot_pt boot_desc (boot_page + 3).
Proof using IM.
  intros FB Hf Hw. destruct frames_placed as (P1 & P2 & P3 & P4).
  pose proof (io_heap _ _ IM) as Hh.
  assert (0 < boot_page <= 1017) as Hp by (unfold boot_pt, KERNEL_VIRT_BASE in *; lia).
  split_and!.
  - split; rewrite ?Hf, ?Hw; unfold HIGH_WATER_THRESHOLD; try lia.
    + apply first_bits_scan; [done|lia].
    + replace (boot_page + 3) with (boot_page + 2 + 1) by lia.
      apply first_bits_scan; [apply first_bits_next; [done|lia]|lia].
  - unfold page_apart, boot_desc, window_page, boot_pt, VMM_BLOCK_DESC_SIZE in *. lia.
  - unfold page_apart, boot_desc, window_page, boot_pt, VMM_BLOCK_DESC_SIZE in *. lia.
Qed.

(** What the console is started on. *)
Record booted_kernel (m : machine) : Prop := {
  bk_map : kernel_map boot_pd boot_pt m;
  bk_ring : ring_ok (owns := owns)
    (boot_lo second_task third_task boot_page (boot_page + 1) s)
    (boot_hi second_task third_task boot_page (boot_page + 1) e) m first_task
    [(second_task, kernel_start); (third_task, user_start)];
  bk_pids : word_at m (first_task + 12) = 0 ∧ word_at m (second_task + 12) = 1 ∧
    word_at m (third_task + 12) = 2;
  bk_heap : heap_list (owns := owns) m (blocks 304);
  bk_timer : timer_ready m;
  bk_faults : idt_handlers (interrupts m) !! 14%nat = Some paging_page_fault_handler;
  bk_keys : idt_handlers (interrupts m) !! 33%nat = Some Machine.isr_key_press;
  bk_if : eflags_if (cpu m) = true;
  bk_program v : 0 <= v < WINDOW → user_translate m v = Some v;
  bk_user_stack v : KERNEL_VIRT_BASE - 4096 <= v < KERNEL_VIRT_BASE →
    user_translate m v = Some (4096 * boot_page + v mod 4096);
  bk_tty : tty_ok (tty m);
  bk_keyboard : keyboard m = keyboard power_on;
  bk_tick : tick (timer m) = 0
}.

Lemma userspace_ready d fuel mbt n en m0 m :
  loaded mbt n en m0 → md = first_module (mem m0) mbt → tasks_ready en m0 m →
  ∃ p' m', paging_add_temp_userspace (S d) (S fuel) m = Done tt m' ∧
    userspace_added boot_pd boot_pt boot_desc (boot_page + 2) (boot_page + 3) (4096 * boot_page)
      p' m m'.
Proof using IM.
  intros LD Emd TR. pose proof (ld_pool _ _ _ _ LD) as PF. rewrite <- Emd in PF.
  pose proof (ld_aligned _ _ _ _ LD) as AL. rewrite <- Emd in AL.
  pose proof (initial_pool_wf en md (pmm m0) PF (ld_bitmap _ _ _ _ LD) (ld_memory _ _ _ _ LD)) as W.
  destruct (initial_pool_frames en md (pmm m0) PF (ld_bitmap _ _ _ _ LD) (ld_memory _ _ _ _ LD)
    AL (ld_pages _ _ _ _ LD)) as (_ & _ & N3).
  destruct frames_placed as (_ & _ & _ & P4).
  destruct (next_two_pages m (ts_bits _ _ _ TR) (ts_free _ _ _ TR) (ts_high _ _ _ TR))
    as (NP & A1 & A2).
  pose proof (ts_pmm _ _ _ TR) as HP.
  destruct (temp_userspace_ok d fuel boot_pd boot_pt boot_desc (boot_page + 2) (boot_page + 3)
    (first_frame md + 2) m (ts_block _ _ _ TR) NP A1 A2) as (m' & E & U).
  - unfold boot_pt. lia.
  - apply (ts_directory _ _ _ TR).
  - rewrite HP. auto with words.
  - rewrite HP. exact N3.
  - eexists _, m'. split; [exact E|].
    assert (frame_addr (pmm m) (first_frame md + 2) = 4096 * boot_page) as <-; [|exact U].
    rewrite HP. unfold frame_addr, pmm_take, boot_pd, PAGE_SIZE in *. cbn. lia.
Qed.

(** The rest of [kmain]. *)
Lemma kmain_launches d fuel mbt n en m0 m {A} (k : M A) :
  loaded mbt n en m0 → md = first_module (mem m0) mbt → tasks_ready en m0 m →
  ∃ m', booted_kernel m' ∧
    (kprint_line "[-] Initializing Scheduler...";;
     scheduler_init;;
     paging_add_temp_userspace (S d) (S fuel);;
     kprint_line "[-] Initializing Keyboard...";;
     keyboard_init;;
     kprintf (chars "[-] Initializing Timer (Freq: %dHz)..." ++ [NL]) [VaInt 20];;
     pic_init 20 false;;
     kprint_line "[-] Launching Kernel Console...";;
     k) m = k m'.
Proof using IM.
  intros LD Emd TR.
  destruct (kprint_line_prints "[-] Initializing Scheduler..." m eq_refl (ts_tty _ _ _ TR))
    as (m1 & E1 & P1). run E1.
  destruct (printed_same _ _ P1) as (C1 & M1 & Q1 & K1 & H1 & V1 & T1 & _ & I1 & G1).
  unfold scheduler_init. msteps. set (m2 := set_tasks _ m1).
  assert (tasks_ready en m0 m2) as TR2.
  { apply (tasks_ready_same en m0 m); try done; [by rewrite <- T1|apply P1|exact (printed_input m m1 P1)]. }
  destruct (userspace_ready d fuel mbt n en m0 m2 LD Emd TR2) as (p' & m3 & E3 & [K3 R3 U3 S3 F3]).
  run E3.
  assert (tty_ok (tty m3)) as Y3 by (rewrite R3; apply TR2).
  assert (interrupts m3 = interrupts m2) as I3 by (by rewrite R3).
  assert (length (idt_handlers (interrupts m3)) = 256%nat) as L3 by (rewrite I3; apply TR2).
  destruct (devices_start m3 k Y3 L3) as (m4 & [C4 M4 H4 T4 G4 X4 W4 Y4 N4] & E4).
  assert (same_input m0 m4) as [N5 N6].
  { transitivity m2; [apply TR2|]. transitivity m3; [|done]. rewrite R3. split; reflexivity. }
  exists m4. split; [|exact E4].
  assert (∀ x a, x ∈ [first_task; second_task; third_task] →
    in_task (boot_lo second_task third_task boot_page (boot_page + 1) s)
      (boot_hi second_task third_task boot_page (boot_page + 1) e) x a → owns a →
    byte_at m4 a = byte_at m2 a) as HB.
  { intros x a Hx Hin Ho. destruct (task_memory_low x a Hx Hin) as [Hl Hd].
    rewrite (byte_at_same m3) by done. apply F3; [done|done| |];
      unfold window_page in *; lia. }
  assert (∀ x k, x ∈ [first_task; second_task; third_task] → 0 <= k → k + 4 <= TASK_SIZEOF →
    word_at m4 (x + k) = word_at m2 (x + k)) as HW.
  { intros x j Hx H0 Hk. pose proof (ro_tasks _ _ _ _ _ (ts_ring _ _ _ TR2)) as Q.
    pose proof (tk_struct _ _ _ _ (qo_tasks _ _ _ _ Q x Hx)) as Hs.
    unfold word_at. rewrite <- !Z.add_assoc.
    rewrite !(HB x); try done; first [left; lia|apply Hs; lia]. }
  split.
  - by apply (kernel_map_same _ _ m3).
  - eapply (ring_kept (I := kernel_map boot_pd boot_pt) (owns := owns)); [exact (ts_ring _ _ _ TR2)| | |].
    + rewrite T4, R3. done.
    + rewrite G4, R3. done.
    + exact HB.
  - rewrite !HW; [apply TR2|..]; unfold TASK_SIZEOF; try lia; set_solver.
  - apply (heap_list_bytes m2); [by rewrite H4, R3| |apply TR2].
    intros a Ho [Ha|Ha%Exists_nil]%Exists_cons; [|done]. unfold in_block in Ha. cbn [fst snd] in Ha.
    destruct frames_placed as (P1' & P2 & P3 & P4). pose proof (io_heap _ _ IM) as Hh.
    rewrite (byte_at_same m3) by done.
    apply F3; [done|..]; unfold boot_desc, window_page, VMM_BLOCK_DESC_SIZE, KERNEL_VIRT_BASE in *; lia.
  - split; [|done|].
    + rewrite X4. apply list_lookup_insert_eq. rewrite length_insert. lia.
    + rewrite T4, R3. done.
  - rewrite X4, !list_lookup_insert_ne by done. rewrite I3. apply TR2.
  - rewrite X4, list_lookup_insert_ne by done. apply list_lookup_insert_eq. lia.
  - rewrite C4, R3. apply TR2.
  - intros v Hv. rewrite (user_translate_same m3) by done. by apply U3.
  - intros v Hv. rewrite (user_translate_same m3) by done. by apply S3.
  - done.
  - rewrite N5. apply (ld_keyboard _ _ _ _ LD).
  - rewrite N6. apply (ld_tick _ _ _ _ LD).
Qed.

End Memory.
(** ** The whole run *)

Lemma memory_initialised d fuel mbt n en m0 m {A} (k : M A) :
  let md := first_module (mem m0) mbt in
  loaded mbt n en m0 → set_up mbt en m0 m →
  ∃ m', memory_ready md mbt en m0 m' ∧
    (initial_page_table ← paging_init;
     kprint_line "[-] Initializing Heap...";;
     kmalloc_init;;
     kprint_line "[-] Initializing Virtual Memory Manager...";;
     vmm_init d (S fuel) initial_page_table;;
     gdt_load_tss_asm;;
     k) m = k m'.
Proof using IM.
  intros md LD SU.
  destruct (paging_init_maps md mbt n en m0 m LD eq_refl SU) as (m1 & E1 & R1). run E1.
  destruct (kprint_line_prints "[-] Initializing Heap..." m1 eq_refl (ma_tty _ _ _ _ R1))
    as (m2 & E2 & P2). run E2.
  destruct (kmalloc_init_heap md en m0 m2 (map_ready_printed _ _ _ _ _ P2 R1)) as (m3 & E3 & R3).
  run E3.
  destruct (kprint_line_prints "[-] Initializing Virtual Memory Manager..." m3 eq_refl
    (hr_tty _ _ _ _ R3)) as (m4 & E4 & P4). run E4.
  destruct (vmm_init_memory md d fuel mbt en m0 m4 (heap_ready_printed _ _ _ _ _ P4 R3))
    as (m5 & E5 & R5). run E5.
  exists m5. split; [done|]. unfold gdt_load_tss_asm. by msteps.
Qed.

Lemma boot_ok d fuel rounds mbt n en m :
  loaded mbt n en m →
  ∃ m', boot (S d) (S fuel) rounds mbt MULTIBOOT_BOOTLOADER_MAGIC m =
      (kshell rounds;; cli;; halt;; halt_with Spin) m' ∧
    booted_kernel (first_module (mem m) mbt) m'.
Proof using IM.
  intros LD. destruct (boot_start_enters m (ld_paging _ _ _ _ LD)) as (μ & E0 & N0).
  set (m1 := booted μ m) in *.
  destruct (gdt_init_asm_ok m m1 N0 (ld_gdt _ _ _ _ LD)) as (c & E1 & N1).
  set (m2 := set_cpu c _) in *.
  set (md := first_module (mem m) mbt).
  assert (∃ m', booted_kernel md m' ∧
    kmain (S d) (S fuel) rounds mbt MULTIBOOT_BOOTLOADER_MAGIC m2 = kshell rounds m')
    as (m' & B & E2).
  { unfold kmain.
    epose proof (kmain_sets_up (A := shell) mbt n en m m2 _ LD N1 (ld_screen _ _ _ _ LD) (ld_idt _ _ _ _ LD)
      (ld_handlers _ _ _ _ LD)) as (m3 & R3 & E3). rewrite E3. clear E3.
    epose proof (memory_initialised (A := shell) (S d) fuel mbt n en m m3 _ LD R3) as (m4 & R4 & E4).
    rewrite E4. clear E4.
    epose proof (tasks_created (A := shell) md d fuel mbt en m m4 _ R4) as (m5 & R5 & E5). rewrite E5. clear E5.
    destruct (kmain_launches md d fuel mbt n en m m5 (kshell rounds) LD eq_refl R5)
      as (m6 & R6 & E6).
    by exists m6. }
  exists m'. split; [|done]. unfold boot. run E0. run E1. unfold mbind, prog_bind at 1. by rewrite E2.
Qed.

(** A loader that does not follow the protocol. *)
Lemma boot_panics d fuel rounds mbt magic m :
  unpaged m → length (vga_cells (tty m)) = 2000%nat →
  length (global_descriptor_table (gdt m)) = 64%nat →
  length (idt (interrupts m)) = 256%nat → length (idt_handlers (interrupts m)) = 256%nat →
  magic ≠ MULTIBOOT_BOOTLOADER_MAGIC →
  ∃ m', boot d fuel rounds mbt magic m = Stop Panicked m' ∧
    eflags_if (cpu m') = false ∧ kernel_map tpd tpt m' ∧ pmm m' = pmm m ∧ tasks m' = tasks m ∧
    (∀ a, word a → ¬ in_frame tpd a → ¬ in_frame tpt a → rd8 (mem m') a = rd8 (mem m) a).
Proof using IM.
  intros Hu Hs Hg Hi Hh Hm. destruct (boot_start_enters m Hu) as (μ & E0 & N0).
  set (m1 := booted μ m) in *. destruct (gdt_init_asm_ok m m1 N0 Hg) as (c & E1 & N1).
  set (m2 := set_cpu c _) in *. unfold boot. run E0. run E1.
  epose proof (kmain_starts m m2 _ N1 Hs Hi Hh) as (m3 & N3 & T3 & F3 & L3 & E3).
  destruct (panic_prints (chars "invalid bootloader magic number") m3) as (m4 & P4 & E4 & Y4);
    [by repeat constructor|done|].
  set (m5 := set_cpu _ m4) in *. exists m5.
  assert (entered m m5) as [K5 _ M5 Q5 T5]
    by (apply (entered_same _ m4); try done; by apply (entered_printed _ m3)).
  split_and!; try done; [].
  apply bind_stop. unfold kmain. rewrite E3, (proj2 (Z.eqb_neq _ _) Hm). by apply bind_stop.
Qed.

End Startup.

(** ** Properties *)

(** The tasks' stacks after the boot. *)
Definition stacks_lo `{L : Layout} (s : Z) (md : multiboot_mod_list) : Z → Z :=
  boot_lo second_task third_task (boot_page md) (boot_page md + 1) s.
Definition stacks_hi `{L : Layout} (e : Z) (md : multiboot_mod_list) : Z → Z :=
  boot_hi second_task third_task (boot_page md) (boot_page md + 1) e.

(** *** A machine as the loader leaves it

    The boot stack is the page in front of the entry code's tables. *)
Definition sample_stack_lo : Z := 3222335488.
Definition sample_stack_hi : Z := 3222339584.

Lemma sample_image_ok : image_ok (L := sample_layout) sample_stack_lo sample_stack_hi.
Proof.
  split; try by (split; [split|]).
  - done.
  - done.
  - done.
  - done.
  - intros a Ha. unfold in_frame. change (kmalloc_init_block (Layout := sample_layout))
      with 3222323200 in Ha.
    change (tpd (L := sample_layout)) with 1114112. change (tpt (L := sample_layout)) with 1118208.
    unfold KERNEL_VIRT_BASE in Ha. lia.
  - done.
  - by right.
Qed.

Lemma sample_loaded :
  loaded (L := sample_layout) 0x9000 2 sample_region loaded_machine.
Proof.
  assert (mi_mmap_addr (read_info (mem loaded_machine) 0x9000) = 0xB000) as Emap by by vm_compute.
  assert (mi_mods_addr (read_info (mem loaded_machine) 0x9000) = 0xA000) as Emods by by vm_compute.
  assert (∀ a n, 0 <= a → a + n <= 1114112 → beside_tables (L := sample_layout) a n) as Hb.
  { intros a n Ha Hn i Hi. unfold in_frame. change (tpd (L := sample_layout)) with 1114112.
    change (tpt (L := sample_layout)) with 1118208. lia. }
  split; rewrite ?Emap, ?Emods.
  1-6: reflexivity.
  - intros a Ha. change (kmalloc_init_block (Layout := sample_layout)) with 3222323200 in Ha.
    unfold KERNEL_VIRT_BASE in Ha. apply words_at_outside.
    repeat (apply Forall_cons; split; [lia|]). constructor.
  - exact sample_multiboot_ok.
  - by apply Hb.
  - by apply Hb.
  - by apply Hb.
  - exact sample_pool_fits.
  - vm_compute. discriminate.
  - vm_compute. discriminate.
  - rewrite loader_module. reflexivity.
  - reflexivity.
  - reflexivity.
Qed.

(** C1: the kernel boots.  From any machine that [loaded] describes and for
    any image that [image_ok] allows, the entry code and [kmain] reach the
    console's loop: no call on the way faults, panics or loops.  The console
    starts with the kernel's own page tables active, the three tasks in the
    ring with their first contexts, the free list holding the rest of the
    heap's first block, the handlers of the timer, the keyboard and page
    faults installed, interrupts on, and the user's addresses mapped. *)
Theorem boot_reaches_console `{L : Layout} s e d fuel rounds mbt n en m :
  image_ok s e → loaded mbt n en m →
  ∃ m', boot (S d) (S fuel) rounds mbt MULTIBOOT_BOOTLOADER_MAGIC m =
      (kshell rounds;; cli;; halt;; halt_with Spin) m' ∧
    booted_kernel s e (first_module (mem m) mbt) m'.
Proof. intros IM LD. exact (boot_ok s e IM d fuel rounds mbt n en m LD). Qed.

Lemma boot_reaches_console_witness :
  ∃ m', boot (L := sample_layout) 1 1 3 0x9000 MULTIBOOT_BOOTLOADER_MAGIC loaded_machine =
      (kshell 3;; cli;; halt;; halt_with Spin) m' ∧
    booted_kernel (L := sample_layout) sample_stack_lo sample_stack_hi
      (first_module (mem loaded_machine) 0x9000) m'.
Proof.
  exact (boot_reaches_console (L := sample_layout) _ _ 0 0 3 _ _ _ _ sample_image_ok sample_loaded).
Defined.

(** C4: the scheduler works from the first tick on.  In every execution from
    the state the console is started in, however key presses come in between,
    the kernel task, the user task and the boot task are resumed in turn: the
    first tick enters [task_test] in ring 0, the second the user program in
    ring 3 with its stack pointer at the kernel's base; and every key press
    resumes what it interrupted. *)
Theorem boot_schedules_tasks `{L : Layout} s e d fuel rounds mbt n en m :
  image_ok s e → loaded mbt n en m →
  let md := first_module (mem m) mbt in
  ∃ m', boot (S d) (S fuel) rounds mbt MULTIBOOT_BOOTLOADER_MAGIC m =
      (kshell rounds;; cli;; halt;; halt_with Spin) m' ∧
    ∀ trace presses m'',
      interleaves (I := kernel_map (boot_pd md) (boot_pt md))
        (owns := window_free (boot_pd md) (boot_pt md)) (stacks_lo s md) (stacks_hi e md)
        m' trace presses m'' →
      Forall (λ '(c, r), r = c) presses ∧
      (∀ k, (k < length trace)%nat →
        trace.*1 !! k = [second_task; third_task; first_task] !! (k mod 3)%nat) ∧
      ((0 < length trace)%nat → trace !! 0%nat = Some (second_task, interrupts_on kernel_start)) ∧
      ((1 < length trace)%nat → trace !! 1%nat = Some (third_task, interrupts_on user_start)).
Proof.
  intros IM LD md. destruct (boot_ok s e IM d fuel rounds mbt n en m LD) as (m' & E & B).
  exists m'. split; [done|]. intros trace presses m'' Hi.
  pose proof (bk_map _ _ _ _ B) as K. pose proof (bk_ring _ _ _ _ B) as R.
  pose proof (bk_timer _ _ _ _ B) as T.
  destruct (interleaves_executes (I := kernel_map (boot_pd md) (boot_pt md)) _ _ _ _ _ _ Hi
    _ _ K R T) as (Hp & m0 & He & _).
  destruct (executes_in_turn (I := kernel_map (boot_pd md) (boot_pt md)) _ _ _ _ _ _ _ He K R T)
    as ([H1 H2] & _).
  split_and!; [exact Hp|exact H1| |]; intros Hl; by apply H2.
Qed.

Lemma boot_schedules_tasks_witness :
  let md := first_module (mem loaded_machine) 0x9000 in
  ∃ m', boot (L := sample_layout) 1 1 3 0x9000 MULTIBOOT_BOOTLOADER_MAGIC loaded_machine =
      (kshell 3;; cli;; halt;; halt_with Spin) m' ∧
    ∀ trace presses m'',
      interleaves (I := kernel_map (boot_pd (L := sample_layout) md) (boot_pt (L := sample_layout) md))
        (owns := window_free (boot_pd (L := sample_layout) md) (boot_pt (L := sample_layout) md))
        (stacks_lo (L := sample_layout) sample_stack_lo md)
        (stacks_hi (L := sample_layout) sample_stack_hi md) m' trace presses m'' →
      Forall (λ '(c, r), r = c) presses ∧
      (∀ k, (k < length trace)%nat →
        trace.*1 !! k = [second_task (L := sample_layout); third_task (L := sample_layout);
          first_task (L := sample_layout)] !! (k mod 3)%nat) ∧
      ((0 < length trace)%nat → trace !! 0%nat =
        Some (second_task (L := sample_layout), interrupts_on (kernel_start (L := sample_layout)))) ∧
      ((1 < length trace)%nat → trace !! 1%nat =
        Some (third_task (L := sample_layout), interrupts_on (user_start (L := sample_layout)))).
Proof.
  exact (boot_schedules_tasks (L := sample_layout) _ _ 0 0 3 _ _ _ _ sample_image_ok sample_loaded).
Defined.

(** C35: the user's stack is the kernel task's stack.  The page allocator
    takes the first window page behind the page tables for [task_test]'s
    kernel stack without telling the physical allocator, which hands the
    frame behind it out again for the user stack: after the boot, user code
    writes the frames and return addresses of a kernel task. *)
Theorem user_stack_is_kernel_stack `{L : Layout} s e d fuel rounds mbt n en m i :
  image_ok s e → loaded mbt n en m → 0 <= i < 4096 →
  let md := first_module (mem m) mbt in
  ∃ m', boot (S d) (S fuel) rounds mbt MULTIBOOT_BOOTLOADER_MAGIC m =
      (kshell rounds;; cli;; halt;; halt_with Spin) m' ∧
    stacks_hi e md second_task = stacks_lo s md second_task + 4096 ∧
    user_translate m' (KERNEL_VIRT_BASE - 4096 + i) =
      translate m' (stacks_lo s md second_task + i) ∧
    is_Some (translate m' (stacks_lo s md second_task + i)).
Proof.
  intros IM LD Hi md. destruct (boot_ok s e IM d fuel rounds mbt n en m LD) as (m' & E & B).
  fold md in B. exists m'. split; [done|]. destruct (stacks_of_second s e md) as [Elo Ehi].
  unfold stacks_lo, stacks_hi. rewrite Elo, Ehi.
  assert (translate m' (window_page (boot_page md) + i) = Some (4096 * boot_page md + i)) as ->.
  { rewrite (translate_window _ _ _ _ (bk_map _ _ _ _ B)); [unfold window_page; f_equal; lia|].
    apply (page_owned s e IM md (boot_page md)); [|done].
    destruct (frames_placed s e IM md) as (P1 & P2 & P3 & P4). pose proof (io_heap _ _ IM).
    unfold KERNEL_VIRT_BASE in *. lia. }
  split_and!; [done| |by eexists].
  rewrite (bk_user_stack _ _ _ _ B) by lia. f_equal. f_equal. unfold KERNEL_VIRT_BASE. mlia.
Qed.

Lemma user_stack_is_kernel_stack_witness :
  let md := first_module (mem loaded_machine) 0x9000 in
  let t := second_task (L := sample_layout) in
  let lo := stacks_lo (L := sample_layout) sample_stack_lo md t in
  ∃ m', boot (L := sample_layout) 1 1 3 0x9000 MULTIBOOT_BOOTLOADER_MAGIC loaded_machine =
      (kshell 3;; cli;; halt;; halt_with Spin) m' ∧
    stacks_hi (L := sample_layout) sample_stack_hi md t = lo + 4096 ∧
    user_translate m' (KERNEL_VIRT_BASE - 4096 + 4092) = translate m' (lo + 4092) ∧
    is_Some (translate m' (lo + 4092)).
Proof.
  apply (user_stack_is_kernel_stack (L := sample_layout) _ _ 0 0 3 _ _ _ _ _ sample_image_ok
    sample_loaded).
  lia.
Defined.

(** C29: without the loader's magic number [kmain] panics before it looks at
    the structures it was passed: interrupts are off, the entry code's map is
    active, and neither the allocators nor any other memory is touched. *)
Theorem boot_rejects_magic `{L : Layout} s e d fuel rounds mbt magic m :
  image_ok s e → unpaged m → length (vga_cells (tty m)) = 2000%nat →
  length (global_descriptor_table (gdt m)) = 64%nat →
  length (idt (interrupts m)) = 256%nat → length (idt_handlers (interrupts m)) = 256%nat →
  magic ≠ MULTIBOOT_BOOTLOADER_MAGIC →
  ∃ m', boot d fuel rounds mbt magic m = Stop Panicked m' ∧
    eflags_if (cpu m') = false ∧ kernel_map tpd tpt m' ∧ pmm m' = pmm m ∧ tasks m' = tasks m ∧
    (∀ a, word a → ¬ in_frame tpd a → ¬ in_frame tpt a → rd8 (mem m') a = rd8 (mem m) a).
Proof. intros IM. exact (boot_panics s e IM d fuel rounds mbt magic m). Qed.

Lemma boot_rejects_magic_witness :
  ∃ m', boot (L := sample_layout) 1 1 3 0 0 power_on = Stop Panicked m' ∧
    eflags_if (cpu m') = false ∧ kernel_map 1114112 1118208 m' ∧ pmm m' = pmm power_on ∧
    tasks m' = tasks power_on ∧
    (∀ a, word a → ¬ in_frame 1114112 a → ¬ in_frame 1118208 a →
       rd8 (mem m') a = rd8 (mem power_on) a).
Proof.
  apply (boot_rejects_magic (L := sample_layout) _ _ 1 1 3 0 0 power_on sample_image_ok);
    [reflexivity..|discriminate].
Defined.
