(* ===== verification/Session.v ===== *)
(** * A session at the console

    The console, the test task, ticks of the timer and key presses together.
    The specification is a world of five values: the line being edited with
    the keys typed ahead and the screen, the modifiers, the tick count, and
    the tick [task_test] last reported.  An execution of the kernel is a
    sequence of steps of the running task and of interrupts between them: an
    interrupt arrives while the console waits in [halt], at the start of a
    round, or between two rounds of [task_test].  It does not arrive inside a
    round, though both loops run with interrupts on: Preempt.v says what a key
    does there to [kb_get_key]. *)

From stdpp Require Import functions.
From S2P Require Import Prelude Machine Tty Screen Memory Keyboard Pic Task Kshell Kernel.
From S2P Require Import Boot Multiboot Pmm Paging Schedule Create Interleave Startup.

(** ** The console's rounds, abstractly *)

(** The screen after Enter on a line that trims to [w]; [None] for the command
    that does not return. *)
Definition screen_after (t : Z) (w : list Z) (s : tty_state) : option tty_state :=
  match lookup_command commands w with
  | None =>
      Some (screen_puts ([NL] ++ (chars "Unknown command '" ++ w ++ chars "'" ++ [NL]) ++ prompt) s)
  | Some c =>
      match command_text c t with
      | Some cs => Some (screen_puts ([NL] ++ cs ++ prompt) s)
      | None =>
          match c with
          | cmd_clear => Some (screen_puts prompt (screen_clear (screen_putc NL s)))
          | cmd_reboot => Some (screen_puts prompt (screen_puts [NL] s))
          | _ => None
          end
      end
  end.

(** One round; [None] where it does not return: Enter on a blank line, whose
    end is searched for in front of the buffer, and on the command [exit]. *)
Definition con_round (t : Z) (c : console) : option console :=
  match con_keys c with
  | [] => Some c
  | k :: q =>
      if key_code k =? KEY_ENTER then
        let w := trim (con_line c) in
        if decide (w ≠ []) then
          s ← screen_after t w (con_screen c); Some (Console [] q s)
        else None
      else Some (edit c)
  end.

Lemma entered_screen m w m' :
  Kshell.entered m w m' → lookup_command commands w ≠ Some cmd_exit →
  screen_after (tick (timer m)) w (tty m) = Some (tty m').
Proof.
  unfold screen_after.
  intros [m1 E (T & _)|c cs m1 E Ht (T & _)|m1 E T _ _|m1 m2 m3 E (T1 & _) Eo (T2 & _)] Hx;
    rewrite E.
  - by rewrite T.
  - by rewrite Ht, T.
  - cbn. by rewrite T.
  - cbn [command_text]. rewrite T2. assert (tty m2 = tty m1) as -> by (by injection Eo as <-).
    by rewrite T1.
Qed.

Lemma kshell_round_ok s m c c' :
  shows s m c → word (tick (timer m)) → con_round (tick (timer m)) c = Some c' →
  ∃ s' m', kshell_step s m = Done s' m' ∧ shows s' m' c' ∧ only_console m m'.
Proof.
  intros H Hw Hc. unfold con_round in Hc. destruct c as [line [|k q] t]; cbn [con_keys] in *.
  - injection Hc as <-. destruct (kshell_step_ok s m _ H) as (s' & m' & E & S & O); [done|].
    exists s', m'. by split_and!.
  - destruct (Z.eqb_spec (key_code k) KEY_ENTER) as [Hk|Hk].
    + cbn [con_line con_screen] in Hc. destruct (decide _) as [Hne|]; [|done].
      assert (lookup_command commands (trim line) ≠ Some cmd_exit) as Hx.
      { intros Hx. unfold screen_after in Hc. by rewrite Hx in Hc. }
      destruct (kshell_enter_ok s m line k q t H Hk Hne Hw Hx)
        as (s' & m' & E & S & HE & O).
      exists s', m'. split_and!; [done| |done].
      pose proof (entered_screen _ _ _ HE Hx) as Hs. cbn [timer set_keyboard tty] in Hs.
      assert (t = tty m) as -> by (by destruct H as [_ _ _ Ht _]).
      rewrite Hs in Hc. by injection Hc as <-.
    + injection Hc as <-. by apply kshell_step_ok.
Qed.

(** ** A round of [task_test] *)

Definition report (t : Z) : list Z :=
  chars "Task_test: " ++ decimal t ++ chars " (SWITCHING TASK)" ++ [NL].

Definition reports (last t : Z) : bool := last [+] 2 <=? t.

Lemma task_test_round_ok last m :
  tty_ok (tty m) → word (tick (timer m)) →
  let t := tick (timer m) in
  ∃ m', task_test_round last m = Done (if reports last t then t else last) m' ∧
    tty m' = (if reports last t then screen_puts (report t) (tty m) else tty m) ∧
    tty_ok (tty m') ∧ only_terminal m m'.
Proof.
  intros Hok Hw t. unfold task_test_round, pic_get_tick, reports. msteps. fold t.
  destruct (last [+] 2 <=? t).
  - assert (expand (chars "Task_test: %d (SWITCHING TASK)" ++ [NL]) [VaInt t] false
      = Some (report t, 31)) as He by reflexivity.
    assert (Forall va_ok [VaInt t]) as Hv by (by apply Forall_singleton).
    destruct (kprintf_ok _ _ _ _ m Hv Hok He) as [E Ok]. run E.
    eexists. split; [reflexivity|].
    split_and!; [apply tty_term_puts|done|apply term_puts_only_terminal].
  - exists m. by split_and!.
Qed.

(** ** The world *)

Inductive event : Type :=
| Round                     (* a round of the console's loop *)
| Report                    (* a round of [task_test]'s loop *)
| Pressed (scancode : Z)    (* the keyboard's interrupt *)
| Ticked                    (* the timer's interrupt *)
| Idle.                     (* the running task does something of its own *)

Record world : Type := World {
  wd_console : console;
  wd_flags : kb_state_t;
  wd_tick : Z;
  wd_last : Z
}.

Definition set_console (c : console) (w : world) : world :=
  World c (wd_flags w) (wd_tick w) (wd_last w).

Definition world_step (e : event) (w : world) : option world :=
  let c := wd_console w in
  match e with
  | Round => c' ← con_round (wd_tick w) c; Some (set_console c' w)
  | Report =>
      Some (if reports (wd_last w) (wd_tick w) then
              World (Console (con_line c) (con_keys c)
                       (screen_puts (report (wd_tick w)) (con_screen c)))
                (wd_flags w) (wd_tick w) (wd_tick w)
            else w)
  | Pressed scancode =>
      let '(f, q) := press (decode (wd_flags w) scancode) (wd_flags w) (con_keys c) in
      Some (World (Console (con_line c) q (con_screen c)) f (wd_tick w) (wd_last w))
  | Ticked => Some (World c (wd_flags w) (wd_tick w [+] 1) (wd_last w))
  | Idle => Some w
  end.

Fixpoint world_run (es : list event) (w : world) : option world :=
  match es with
  | [] => Some w
  | e :: es' => w' ← world_step e w; world_run es' w'
  end.

(** The machine, with the locals of the two loops, implements the world. *)
Record implements (m : machine) (s : shell) (last : Z) (w : world) : Prop := {
  im_shows : shows s m (wd_console w);
  im_flags : kb_state (keyboard m) = wd_flags w;
  im_tick : tick (timer m) = wd_tick w;
  im_word : word (tick (timer m));
  im_last : last = wd_last w
}.

Section Session.
Context {I : machine → Prop} {owns : Z → Prop} `{HR : !Region I owns}.
Context (lo hi : Z → Z) (console_task test_task : Z).

Abbreviation runs_on := (runs_on (I := I) (owns := owns) lo hi).
Abbreviation ring_ok := (ring_ok (owns := owns) lo hi).
Abbreviation interruptible := (interruptible lo hi).

(** An execution.  The console's loop runs while its task is the current one,
    and so does the loop of [task_test]; interrupts come at any task. *)
Inductive session :
  machine → shell → Z → list event → machine → shell → Z → Prop :=
| session_nil m s p : session m s p [] m s p
| session_round m s p s1 m1 es m2 s2 p2 :
    current_task (tasks m) = console_task → kshell_step s m = Done s1 m1 →
    session m1 s1 p es m2 s2 p2 → session m s p (Round :: es) m2 s2 p2
| session_report m s p p1 m1 es m2 s2 p2 :
    current_task (tasks m) = test_task → task_test_round p m = Done p1 m1 →
    session m1 s p1 es m2 s2 p2 → session m s p (Report :: es) m2 s2 p2
| session_key m s p esp c r m1 es m2 s2 p2 :
    interruptible m esp c → key_ready m → irq 1 esp c m = Stop (Iret r) m1 →
    session m1 s p es m2 s2 p2 →
    session m s p (Pressed (next_scancode (acknowledged 33 m)) :: es) m2 s2 p2
| session_tick m s p esp c r m1 es m2 s2 p2 :
    interruptible m esp c → irq 0 esp c m = Stop (Iret r) m1 →
    session m1 s p es m2 s2 p2 → session m s p (Ticked :: es) m2 s2 p2
| session_idle m s p m1 es m2 s2 p2 :
    runs_on m m1 → keyboard m1 = keyboard m → tty m1 = tty m → timer m1 = timer m →
    session m1 s p es m2 s2 p2 → session m s p (Idle :: es) m2 s2 p2.

Lemma session_app m s p es m1 s1 p1 es' m2 s2 p2 :
  session m s p es m1 s1 p1 → session m1 s1 p1 es' m2 s2 p2 →
  session m s p (es ++ es') m2 s2 p2.
Proof using. induction 1; intros Hs; cbn [app]; [done|econstructor; eauto..]. Qed.

(** What leaves memory alone is a step of the running task. *)
Lemma console_runs_on m m' : I m → timer_ready m → only_console m m' → runs_on m m'.
Proof using HR.
  intros HI [T1 T2 T3] [E _]. rewrite E. split_and!; try done.
  - by apply (region_same m).
Qed.

(** The tasks [ts] are in the ring, and the timer turns it. *)
Definition kernel_ok (ts : list Z) (m : machine) : Prop :=
  I m ∧ timer_ready m ∧ ∃ cur ws, ring_ok m cur ws ∧ cur :: ws.*1 ≡ₚ ts.

Lemma kernel_ok_runs ts m m' : kernel_ok ts m → runs_on m m' → kernel_ok ts m'.
Proof using HR.
  intros (HI & HT & cur & ws & R & Hp) Hr. pose proof Hr as (K & _ & _ & T & _).
  split_and!; [done..|]. exists cur, ws. split; [|done]. by apply (ring_ok_runs lo hi m).
Qed.

Lemma shows_devices s m m' c :
  keyboard m' = keyboard m → tty m' = tty m → shows s m c → shows s m' c.
Proof using. intros Ek Et [H1 H2 H3 H4 H5]. split; rewrite ?Ek, ?Et; done. Qed.

(** ** One step *)

Section Step.
Context (ts : list Z) (m : machine) (s : shell) (p : Z) (w : world).
Context (HK : kernel_ok ts m) (HW : implements m s p w).

Lemma console_step_ok m' : only_console m m' → kernel_ok ts m'.
Proof using HK HR.
  intros O. eapply kernel_ok_runs; [done|]. destruct HK as (K & T & _).
  by apply console_runs_on.
Qed.

Lemma round_step w' :
  world_step Round w = Some w' →
  ∃ s' m', kshell_step s m = Done s' m' ∧ implements m' s' p w' ∧ kernel_ok ts m'.
Proof using HK HW HR.
  destruct HW as [H1 H2 H3 H4 H5]. cbn [world_step].
  destruct (con_round _ _) as [c'|] eqn:Hc; [|done]. intros [= <-]. rewrite <- H3 in Hc.
  destruct (kshell_round_ok s m _ c' H1 H4 Hc) as (s' & m' & E & S & O).
  exists s', m'. split_and!; [done| |by apply console_step_ok].
  assert (timer m' = timer m) as Et by (by destruct O as [-> _]).
  split; cbn [set_console wd_console wd_flags wd_tick wd_last]; rewrite ?Et; try done.
  by rewrite (proj2 O).
Qed.

Lemma report_step w' :
  world_step Report w = Some w' →
  ∃ p' m', task_test_round p m = Done p' m' ∧ implements m' s p' w' ∧ kernel_ok ts m'.
Proof using HK HW HR.
  destruct HW as [[S1 S2 S3 S4 S5] H2 H3 H4 H5]. cbn [world_step].
  intros Hw. apply (inj Some) in Hw as <-. subst p.
  destruct (task_test_round_ok (wd_last w) m S5 H4) as (m' & E & T & Ok & O).
  rewrite H3 in *. eexists _, m'. split_and!;
    [exact E| |by apply console_step_ok, only_console_terminal].
  destruct O as [O _]. assert (timer m' = timer m) as Et by (rewrite O; reflexivity).
  assert (keyboard m' = keyboard m) as Ek by (rewrite O; reflexivity). clear O E.
  destruct (reports (wd_last w) (wd_tick w)); split; cbn [wd_console wd_flags wd_tick wd_last];
    rewrite ?Et, ?Ek, ?H3; try done; split; cbn [con_line con_keys con_screen];
    rewrite ?Ek; try done; by rewrite T, S4.
Qed.

Lemma key_step esp c w' :
  interruptible m esp c → key_ready m →
  world_step (Pressed (next_scancode (acknowledged 33 m))) w = Some w' →
  ∃ m', irq 1 esp c m = Stop (Iret c) m' ∧ implements m' s p w' ∧ kernel_ok ts m'.
Proof using HK HW HR.
  intros Hib Hk. destruct HW as [[S1 S2 S3 S4 S5] H2 H3 H4 H5].
  pose proof HK as (HI & HT & cur & ws & HRing & _).
  destruct (key_press_runs_on lo hi m cur ws esp c HI HRing HT Hib Hk)
    as (m' & E & Hr & Ok & P & Et & Em).
  cbn [world_step]. rewrite <- H2, <- S3, <- P. intros [= <-].
  exists m'. split_and!; [done| |by eapply kernel_ok_runs].
  split; cbn [wd_console wd_flags wd_tick wd_last]; rewrite ?Em; try done.
  split; cbn [con_line con_keys con_screen]; rewrite ?Et; done.
Qed.

Lemma tick_step esp c w' :
  interruptible m esp c → world_step Ticked w = Some w' →
  ∃ r m', irq 0 esp c m = Stop (Iret r) m' ∧ implements m' s p w' ∧ kernel_ok ts m'.
Proof using HK HW HR.
  intros Hib [= <-]. destruct HW as [H1 H2 H3 H4 H5].
  pose proof HK as (HI & HT & cur & ws & HRing & Hp).
  destruct (ws ++ [(cur, c)]) as [|[n c'] rest] eqn:Hq; [by destruct ws|].
  destruct (timer_tick lo hi m cur ws esp c n c' rest HI HRing HT Hib Hq)
    as (m' & E & K & R & T & _ & Tk & _ & _ & Ek & Ey).
  exists (interrupts_on c'), m'. split_and!; [done| |split_and!; [done..|]].
  - split; cbn [wd_console wd_flags wd_tick wd_last]; rewrite ?Tk, ?Ek, ?H3; try done.
    + by apply (shows_devices s m).
    + apply u32_word.
  - exists n, rest. split; [done|]. rewrite <- Hp. apply (f_equal (fmap fst)) in Hq.
    rewrite fmap_app in Hq. cbn in Hq. change (n :: rest.*1) with ((n, c').1 :: rest.*1).
    cbn [fst]. rewrite <- Hq. by rewrite <- Permutation_cons_append.
Qed.

Lemma idle_step m' :
  runs_on m m' → keyboard m' = keyboard m → tty m' = tty m → timer m' = timer m →
  implements m' s p w ∧ kernel_ok ts m'.
Proof using HK HW HR.
  intros Hr Ek Ey Et. destruct HW as [H1 H2 H3 H4 H5]. split; [|by eapply kernel_ok_runs].
  split; rewrite ?Ek, ?Et; try done. by apply (shows_devices s m).
Qed.
End Step.

(** ** The whole session *)

(** A round that returned is one the world defines. *)
Lemma round_defined ts m s p w s1 m1 :
  kernel_ok ts m → implements m s p w → kshell_step s m = Done s1 m1 →
  ∃ w1, world_step Round w = Some w1.
Proof using.
  intros HK [HS HF HT HW HL] E. cbn [world_step]. unfold con_round. rewrite <- HT.
  destruct (wd_console w) as [line [|k q] t]; cbn [con_keys con_line con_screen]; [by eexists|].
  destruct (Z.eqb_spec (key_code k) KEY_ENTER) as [Hk|Hk]; [|by eexists].
  destruct (decide (trim line ≠ [])) as [Hne|Hne].
  2: { destruct (kshell_blank_stops s m line k q t HS Hk (dec_stable Hne)) as [m' Es]. congruence. }
  unfold screen_after. destruct (lookup_command commands (trim line)) as [c|] eqn:El; [|by eexists].
  destruct (command_cases c (tick (timer m))) as [[cs ->]|[->|[->| ->]]]; [by eexists..|].
  destruct (kshell_exit_stops s m line k q t HS Hk El) as [m' Es]. congruence.
Qed.

(** The world computes every execution. *)
Lemma session_ok ts m s p es m' s' p' :
  session m s p es m' s' p' → ∀ w, kernel_ok ts m → implements m s p w →
  ∃ w', world_run es w = Some w' ∧ implements m' s' p' w' ∧ kernel_ok ts m'.
Proof using HR.
  induction 1 as [m s p|m s p s1 m1 es m2 s2 p2 Hc E _ IH|m s p p1 m1 es m2 s2 p2 Hc E _ IH
    |m s p esp c r m1 es m2 s2 p2 Hib Hk E _ IH|m s p esp c r m1 es m2 s2 p2 Hib E _ IH
    |m s p m1 es m2 s2 p2 Hr Ek Ey Et _ IH]; intros w HK HW; cbn [world_run].
  - by exists w.
  - destruct (round_defined ts m s p w s1 m1 HK HW E) as [w1 Ew]. rewrite Ew.
    destruct (round_step ts m s p w HK HW w1 Ew) as (s1' & m1' & E' & W1 & K1).
    rewrite E in E'. injection E' as <- <-. by apply IH.
  - destruct (world_step Report w) as [w1|] eqn:Ew; [|done].
    destruct (report_step ts m s p w HK HW w1 Ew) as (p1' & m1' & E' & W1 & K1).
    rewrite E in E'. injection E' as <- <-. by apply IH.
  - destruct (world_step _ w) as [w1|] eqn:Ew.
    + destruct (key_step ts m s p w HK HW esp c w1 Hib Hk Ew) as (m1' & E' & W1 & K1).
      rewrite E in E'. injection E' as _ <-. by apply IH.
    + cbn [world_step] in Ew. by destruct (press _ _ _).
  - destruct (world_step Ticked w) as [w1|] eqn:Ew; [|done].
    destruct (tick_step ts m s p w HK HW esp c w1 Hib Ew) as (r' & m1' & E' & W1 & K1).
    rewrite E in E'. injection E' as _ <-. by apply IH.
  - destruct (idle_step ts m s p w HK HW m1 Hr Ek Ey Et) as [W1 K1]. by apply IH.
Qed.

(** The loops do not get stuck. *)
Lemma session_goes_on ts m s p w :
  kernel_ok ts m → implements m s p w →
  (∀ w', current_task (tasks m) = console_task → world_step Round w = Some w' →
     ∃ s' m', session m s p [Round] m' s' p) ∧
  (current_task (tasks m) = test_task → ∃ p' m', session m s p [Report] m' s p') ∧
  (∀ esp c, interruptible m esp c → ∃ m', session m s p [Ticked] m' s p).
Proof using HR.
  intros HK HW. split_and!.
  - intros w' Hc Ew. destruct (round_step ts m s p w HK HW w' Ew) as (s' & m' & E & _).
    exists s', m'. eapply session_round; [done..|constructor].
  - intros Hc. destruct (report_step ts m s p w HK HW _ eq_refl) as (p' & m' & E & _).
    exists p', m'. eapply session_report; [done..|constructor].
  - intros esp c Hib. destruct (tick_step ts m s p w HK HW esp c _ Hib eq_refl) as (r & m' & E & _).
    exists m'. eapply session_tick; [done..|constructor].
Qed.
End Session.

(** ** From the loader *)

(** What the world is when the console shows its first prompt. *)
Definition new_world (screen : tty_state) : world :=
  World (Console [] [] screen) (kb_state (keyboard power_on)) 0 0.

Lemma kshell_starts rounds m :
  tty_ok (tty m) →
  ∃ m', kshell rounds m = kshell_loop rounds shell_start m' ∧ only_terminal m m' ∧ tty_ok (tty m').
Proof.
  intros Hok.
  destruct (kprintf_prints ([NL] ++ chars "Welcome to AOSIS: Run 'help' to get started!" ++ [NL]) []
    ([NL] ++ chars "Welcome to AOSIS: Run 'help' to get started!" ++ [NL]) 46 m)
    as (m1 & E1 & O1 & H1); [constructor|done|reflexivity|].
  destruct (command_start_ok m1 H1) as (E2 & _ & H2 & O2).
  exists (term_puts prompt m1). split_and!; [|by transitivity m1|done].
  unfold kshell. run E1. by run E2.
Qed.

Section Boot.
Context `{L : Layout} (s e : Z) (IM : image_ok s e) (md : multiboot_mod_list).

Abbreviation I := (kernel_map (boot_pd md) (boot_pt md)).
Abbreviation owns := (window_free (boot_pd md) (boot_pt md)).

Lemma booted_session m m1 :
  booted_kernel s e md m → only_terminal m m1 → tty_ok (tty m1) →
  kernel_ok (I := I) (owns := owns) (stacks_lo s md) (stacks_hi e md)
    [first_task; second_task; third_task] m1 ∧
  implements m1 shell_start 0 (new_world (tty m1)).
Proof using.
  intros B O Hok. pose proof (only_console_terminal _ _ O) as OC.
  pose proof (bk_map _ _ _ _ B) as K. pose proof (bk_timer _ _ _ _ B) as T.
  assert (keyboard m1 = keyboard power_on) as Ek
    by (rewrite (proj1 O); exact (bk_keyboard _ _ _ _ B)).
  assert (tick (timer m1) = 0) as Et by (rewrite (proj1 O); exact (bk_tick _ _ _ _ B)).
  split.
  - apply (kernel_ok_runs _ _ _ m).
    + split_and!; [done..|]. eexists _, _. split; [exact (bk_ring _ _ _ _ B)|reflexivity].
    + by apply (console_runs_on (I := I)).
  - split; rewrite ?Ek, ?Et; try reflexivity; [|by split].
    split; cbn [new_world wd_console con_line con_keys con_screen]; rewrite ?Ek;
      [exact shell_start_ok|exact key_waiting_ok|reflexivity|reflexivity|done].
Qed.
End Boot.

(** ** Properties *)

(** C5: the console works under multitasking.  Take any execution in which
    rounds of the console, rounds of [task_test], key presses, ticks and the
    other tasks' own steps follow each other in any order, interrupts coming
    between the rounds.  The line being
    edited, the keys typed ahead, the modifiers, the screen and the tick count
    are what the world computes from the events alone: every key goes through
    the interrupt handler, the ring and the editor in the order it was
    pressed, whatever task it interrupted; the reports of [task_test] appear
    where they were printed; and the [tick] command prints the number of ticks
    so far.  The ring of tasks stays intact, and the console's next round
    returns. *)
Theorem console_session I owns `{!Region I owns} lo hi ct tt ts m s p es m' s' p' w w' :
  kernel_ok (I := I) (owns := owns) lo hi ts m → implements m s p w →
  session (I := I) (owns := owns) lo hi ct tt m s p es m' s' p' → world_run es w = Some w' →
  implements m' s' p' w' ∧ kernel_ok (I := I) (owns := owns) lo hi ts m' ∧
  (∀ w'', current_task (tasks m') = ct → world_step Round w' = Some w'' →
     ∃ m'' s'', session (I := I) (owns := owns) lo hi ct tt m s p (es ++ [Round]) m'' s'' p') ∧
  (∀ esp c, interruptible lo hi m' esp c →
     ∃ m'', session (I := I) (owns := owns) lo hi ct tt m s p (es ++ [Ticked]) m'' s' p').
Proof.
  intros HK HW HS Hr.
  destruct (session_ok lo hi ct tt ts m s p es m' s' p' HS w HK HW) as (w1 & Hr1 & W' & K').
  rewrite Hr in Hr1. apply (inj Some) in Hr1 as <-.
  destruct (session_goes_on lo hi ct tt ts m' s' p' w' K' W') as (G1 & _ & G2).
  split_and!; [done..| |].
  - intros w'' Hc Ew. destruct (G1 w'' Hc Ew) as (s'' & m'' & G). exists m'', s''.
    by eapply session_app.
  - intros esp c Hib. destruct (G2 esp c Hib) as (m'' & G). exists m''. by eapply session_app.
Qed.

(** The kernel task as the console, on a clean screen, with a key waiting. *)
Definition console_machine : machine := set_tty (tty clean_screen) typing_tasks.

Definition first_world : world :=
  World (Console [] [] (tty clean_screen)) (kb_state (keyboard power_on)) 0 0.

Lemma console_machine_ok :
  kernel_ok (I := unpaged) (owns := word) low_stack high_stack [kernel_task; first_user_task]
    console_machine.
Proof.
  split_and!; [reflexivity|by split|].
  exists kernel_task, [(first_user_task, fresh_user)]. split; [|reflexivity].
  apply (ring_kept (I := unpaged) (owns := word) _ _ typing_tasks _ _ _ typing_tasks_ring);
    [reflexivity|reflexivity|]. intros x a _ _ _. reflexivity.
Qed.

Lemma console_machine_implements : implements console_machine shell_start 0 first_world.
Proof.
  split; [|reflexivity|reflexivity|by split|reflexivity].
  split; [exact shell_start_ok|exact key_waiting_ok|reflexivity|reflexivity|exact clean_screen_ok].
Qed.

Lemma console_machine_key : key_ready console_machine.
Proof.
  split; [reflexivity|exact key_waiting_ok|by vm_compute|by vm_compute|].
  intros [H _]. by vm_compute in H.
Qed.

Lemma console_machine_interruptible :
  interruptible low_stack high_stack console_machine 0x11000 kernel_context.
Proof. split; [exact kernel_context_ok|by vm_compute|]. split; by vm_compute. Qed.

(** The key a, and a round of the console. *)
Definition typed_a : list event := [Pressed 0x1e; Round].

Definition world_a : world :=
  World (Console [97] [] (screen_putc 97 (tty clean_screen))) (kb_state (keyboard power_on)) 0 0.

Lemma console_machine_session :
  ∃ m' s', session (I := unpaged) (owns := word) low_stack high_stack kernel_task
    first_user_task console_machine shell_start 0 typed_a m' s' 0.
Proof.
  pose proof console_machine_ok as HK. pose proof HK as (HI & HT & _).
  pose proof console_machine_implements as HW.
  assert (next_scancode (acknowledged 33 console_machine) = 0x1e) as Ec by (by vm_compute).
  destruct (world_step (Pressed 0x1e) first_world) as [w1|] eqn:E1; [|by vm_compute in E1].
  destruct (key_step low_stack high_stack _ _ _ _ _ HK HW 0x11000 kernel_context w1
    console_machine_interruptible console_machine_key) as (m1 & Ek & W1 & K1);
    [by rewrite Ec|].
  destruct (world_step Round w1) as [w2|] eqn:E2;
    [|injection E1 as <-; by vm_compute in E2].
  destruct (round_step low_stack high_stack _ _ _ _ _ K1 W1 w2 E2) as (s2 & m2 & Er & _).
  exists m2, s2. unfold typed_a. rewrite <- Ec.
  eapply session_key; [exact console_machine_interruptible|exact console_machine_key|exact Ek|].
  eapply session_round; [|exact Er|constructor].
  destruct console_machine_ok as (_ & _ & cur & ws & R & _).
  assert (current_task (tasks console_machine) = kernel_task) as Hc by reflexivity.
  destruct (key_press_runs_on (I := unpaged) (owns := word) low_stack high_stack _ cur ws
    0x11000 kernel_context HI R HT console_machine_interruptible console_machine_key)
    as (m1' & Ek' & (_ & Et & _) & _).
  rewrite Ek in Ek'. injection Ek' as <-. by rewrite Et.
Qed.

Lemma console_session_witness :
  ∃ m' s', implements m' s' 0 world_a ∧
    kernel_ok (I := unpaged) (owns := word) low_stack high_stack [kernel_task; first_user_task] m' ∧
    (∀ w'', current_task (tasks m') = kernel_task → world_step Round world_a = Some w'' →
       ∃ m'' s'', session (I := unpaged) (owns := word) low_stack high_stack kernel_task
         first_user_task console_machine shell_start 0 (typed_a ++ [Round]) m'' s'' 0) ∧
    (∀ esp c, interruptible low_stack high_stack m' esp c →
       ∃ m'', session (I := unpaged) (owns := word) low_stack high_stack kernel_task
         first_user_task console_machine shell_start 0 (typed_a ++ [Ticked]) m'' s' 0).
Proof.
  destruct console_machine_session as (m' & s' & H). exists m', s'.
  apply (console_session unpaged word low_stack high_stack kernel_task first_user_task
    [kernel_task; first_user_task] console_machine shell_start 0 typed_a m' s' 0 first_world).
  - exact console_machine_ok.
  - exact console_machine_implements.
  - exact H.
  - vm_compute. reflexivity.
Defined.

(** C6: from the loader to any session.  The kernel boots, prints its greeting
    and a prompt, and enters the console's loop.  From there take any execution
    in which rounds of the console and of [task_test], key presses, ticks and
    the other steps of the three tasks follow each other, an interrupt arriving
    between two rounds and not inside one, a key being neither a prefix nor
    control-L and finding room in the ring.  The world computes such an
    execution from its events alone, starting from an empty line, no keys,
    tick 0, and the console shows what it says: in particular none of the
    rounds ran [exit] or a blank line, which do not return. *)
Theorem boot_session `{L : Layout} s e d fuel rounds mbt n en m :
  image_ok s e → loaded mbt n en m →
  let md := first_module (mem m) mbt in
  ∃ m0, boot (S d) (S fuel) rounds mbt MULTIBOOT_BOOTLOADER_MAGIC m =
      (kshell_loop rounds shell_start;; cli;; halt;; halt_with Spin) m0 ∧
    implements m0 shell_start 0 (new_world (tty m0)) ∧
    ∀ es m' sh p,
      session (I := kernel_map (boot_pd md) (boot_pt md))
        (owns := window_free (boot_pd md) (boot_pt md)) (stacks_lo s md) (stacks_hi e md)
        first_task second_task m0 shell_start 0 es m' sh p →
      ∃ w, world_run es (new_world (tty m0)) = Some w ∧ implements m' sh p w ∧
      kernel_ok (I := kernel_map (boot_pd md) (boot_pt md))
        (owns := window_free (boot_pd md) (boot_pt md)) (stacks_lo s md) (stacks_hi e md)
        [first_task; second_task; third_task] m'.
Proof.
  intros IM LD md. destruct (boot_ok s e IM d fuel rounds mbt n en m LD) as (m1 & E & B).
  fold md in B. destruct (kshell_starts rounds m1 (bk_tty _ _ _ _ B)) as (m0 & E0 & O & Hok).
  destruct (booted_session s e md m1 m0 B O Hok) as [K0 W0]. exists m0. split_and!; [|done|].
  - rewrite E. unfold mbind, prog_bind. by rewrite E0.
  - intros es m' sh p HS. by eapply session_ok.
Qed.

Lemma boot_session_witness :
  let md := first_module (mem loaded_machine) 0x9000 in
  let I := kernel_map (boot_pd (L := sample_layout) md) (boot_pt (L := sample_layout) md) in
  let owns := window_free (boot_pd (L := sample_layout) md) (boot_pt (L := sample_layout) md) in
  let lo := stacks_lo (L := sample_layout) sample_stack_lo md in
  let hi := stacks_hi (L := sample_layout) sample_stack_hi md in
  ∃ m0, boot (L := sample_layout) 1 1 3 0x9000 MULTIBOOT_BOOTLOADER_MAGIC loaded_machine =
      (kshell_loop 3 shell_start;; cli;; halt;; halt_with Spin) m0 ∧
    implements m0 shell_start 0 (new_world (tty m0)) ∧
    ∀ es m' sh p,
      session (I := I) (owns := owns) lo hi (first_task (L := sample_layout))
        (second_task (L := sample_layout)) m0 shell_start 0 es m' sh p →
      ∃ w, world_run es (new_world (tty m0)) = Some w ∧ implements m' sh p w ∧
      kernel_ok (I := I) (owns := owns) lo hi [first_task (L := sample_layout);
        second_task (L := sample_layout); third_task (L := sample_layout)] m'.
Proof.
  exact (boot_session (L := sample_layout) _ _ 0 0 3 _ _ _ _ sample_image_ok sample_loaded).
Defined.
